(* ===== verification/_CoqProject ===== *)
-Q . S2P
Prelude.v
GoFloat.v
GoStrings.v
GoNumbers.v
Calendar.v
SqlText.v
GoAny.v
TimeParser.v
ProcFiles.v
Config.v
Blackout.v
ConfigLoad.v
OS.v
UserFilter.v
CgroupBase.v
CgroupProcess.v
CgroupLimits.v
CgroupCleanup.v
PSIWatcher.v
Tracker.v
IORemediation.v
Pattern.v
StateBase.v
Recorder.v
Prometheus.v
CollectorBase.v
Collector.v
Bench.v
MetricTable.v
PrometheusFacts.v
CollectorSafe.v
CollectorScan.v
Decision.v
Limits.v
Collect.v
ControlCycle.v
Linked.v
Reload.v
Lift.v
ReloadFacts.v
Frame.v
AppLoop.v
AppFacts.v
System.v
Locks.v
Status.v
Bootstrap.v
Database.v
DatabaseFacts.v
MCPServer.v
MCPTools.v
MCPResources.v
MCPFacts.v
HistoryFacts.v
Logger.v
LoggerFacts.v
