(* ===== verification/Prelude.v ===== *)
(** * ResMan: a verification library for the CPU/RAM/IO resource manager

    ResMan is a daemon that measures the CPU, memory and block-I/O consumption
    of the users of a Linux host and, when the users it may limit consume too
    much for too long, confines them to cgroups until they calm down.

    ** Parts of the program and how they interact

    [main] loads the configuration (config/) and builds the components one after
    the other (internal/app/app_bootstrap.go).  The application loop
    (internal/app/app_loop.go) then calls [RunControlCycle] of the state manager
    (state/) at each tick.  A cycle is a pipeline of stages: it collects a
    [SystemMetrics] from the metrics collector (metrics/collector.go), exports
    it (metrics/prometheus.go), keeps still during a blackout window of the
    configuration, runs the decision engine and executes the decision through
    the cgroup manager (cgroup/), which reads and writes the cgroup file system.
    Pressure events (cgroup/psi_watcher.go), changes of the configuration file
    (config/watcher.go, reloader/) and administrative requests (mcp/) enter
    through other operations of the state manager.

    ** Files and the code they model

    - [Prelude]: machine integers, instants and durations, [result], the state
      monad [ST] with its weakest preconditions [wp], reachability, and the
      hint database [resman].
    - [GoFloat], [GoStrings], [GoNumbers], [Calendar]: the operations of Go's
      [float64] and of [strings], [strconv], [bufio] and [time] that the program
      uses.
    - [Config], [Blackout], [ConfigLoad], [UserFilter]: config/config.go.  The
      struct with its defaults; the blackout specification and its queries; the
      loaders, key handlers and the validation; the filters with their cache of
      compiled patterns, and [SaveToFile].
    - [OS]: the operating-system calls as an interface [OS W], with [Disk], a
      file tree in which any call can fail.
    - [CgroupBase] (manager.go, storage.go), [CgroupProcess] (process.go,
      shared.go), [CgroupLimits] (cpu.go, memory.go, io.go, psi.go,
      metrics.go), [CgroupCleanup] (cleanup.go): the cgroup manager.  The state
      of [Manager] is the record [CgroupBase.Manager]; its operations run in
      [CG W = ST (Manager * W)] for any world [W] with system calls.
    - [PSIWatcher] (psi_watcher.go): the monitors and the poll loop, as a step
      relation that interleaves the loop with the other goroutines; an
      uninterrupted round of the loop is a run of them, [poll_round_steps].
    - [Tracker], [Decision] (state/decision_engine.go), [IORemediation]
      (io_remediation.go), [Pattern] (pattern_detector.go, policy_engine.go),
      [Limits] (limits_applier.go), [Collect] and [ControlCycle]
      (control_cycle.go, manager.go), [Status] (limit_hook.go and [GetStatus]),
      on top of [StateBase]: the state manager.  Its state is [StateManager];
      its operations run in [SM W = ST (StateManager * W)], where the class
      [Env W] gathers the Go interfaces [CgroupManager], [MetricsCollector] and
      [PrometheusExporter], the clock, the user filters, the scheduler and the
      iteration order of maps.  The theorems hold for every instance.
    - [Locks]: the read-write lock [Manager.mu] of the state manager, as a step
      relation over the threads that take it.
    - [Recorder]: a concrete [Env] that records the calls it gets and in which
      chosen operations fail; the witnesses run in it.
    - [Linked]: the cgroup files as an instance of [CgroupManager], which
      discharges the law the state manager relies on.
    - [ProcFiles] (the parsers of the files under /proc), [CollectorBase] and
      [Collector] (metrics/collector.go, db_writer.go), with [Bench], a concrete
      machine, and the theorems of [CollectorSafe] and [CollectorScan]: the
      metrics collector.  Its caches, averages and sampling state are the record
      [Collector]; gopsutil, the clock and the database are classes.
    - [Prometheus], [MetricTable], [PrometheusFacts] (metrics/prometheus.go): the
      series the exporter keeps, its bookkeeping of users, its authentication,
      the metrics it registers and the pages it serves.
    - [Reload] (config/watcher.go, reloader/reloader.go), [ReloadFacts]: the
      watcher of the configuration file as steps (notification, debounce timer,
      periodic check, signal) and the reloader that hands a configuration to the
      components, with its lock.
    - [Lift], [Frame]: a component keeps its laws when another one is put beside
      it, and what an operation of one leaves alone in the other.
    - [AppLoop] (app_loop.go, app_psi.go, app_shutdown.go), [AppFacts]: the
      select loop with its two tickers, as steps of [App * (StateManager * W)].
    - [Bootstrap] (main.go, app.go, app_bootstrap.go): the chain of constructors.
    - [System]: all components together, in the world
      [Exporter * (Collector * (Manager * W))].
    - [TimeParser] (database/time_parser.go): the time expressions of queries.
      [Database] (database/manager.go): the statements of the metrics database
      and the scanning of their rows, over an SQL engine [SQL W].  [SqlText]:
      times as the driver stores them.  [DatabaseFacts]: the theorems, for any
      engine that gives the statements the meaning stated in the class
      [Dialect]; [Tables] is one.  [HistoryFacts]: the database behind the
      requests.
    - [Logger] (logging/logger.go), [LoggerFacts]: the loggers as cells of a
      store, with their mutex and their rotation; [Volume] is a file system with
      open files.
    - [GoAny]: values of type [any] and what [fmt] and [encoding/json] do with
      them.
    - [MCPServer] (mcp/config.go, server.go): settings, life cycle and
      authentication of the MCP server.  [MCPTools] (tools.go) and [MCPResources]
      (resources.go, the prompts of server.go): its requests, operations of
      [SM W] over the state manager and the classes [Inspect] and [MetricsDB].
      [MCPFacts]: their theorems.

    ** Conventions

    An operation returns its value and the next state, on its error paths too.
    [int], [int64] and [time.Duration] are integers with their wrap-around
    written out, [float64] is binary64, an [error] is its message.  A system
    call, the clock and every other answer of the environment is either a
    method of a class over the world or an argument of the definition; what
    is assumed of them is a law of the class ([SharedPathLaw], [Dialect],
    [range_keys_perm], [visit_perm]) or a named hypothesis.  The entry points of
    the state manager exclude one another ([opMu]) and are atomic steps; a new
    configuration takes effect between two of them, and a task runs between two
    of them or while one waits for all tasks.  A goroutine is a task of the list
    [pending], which the scheduler picks one at a time; [wait] drains the list,
    with the number of pending tasks as its fuel, which [wait_runs_tasks] shows
    to be enough since a task starts no other.  [FormatUint] recurses on the
    logarithm of its argument, which bounds the number of digits
    ([FormatUint_fuel]).  A call of the logger nests two deep ([log_depth]).  The
    history keeps 100 entries ([maxSize]), the event
    channel of the watcher 64 events ([event_capacity]).

    ** What the theorems show

    - The whole: the invariant of every state the daemon reaches with its real
      components, [system_invariant]; the steps of the loop refine those of the
      state manager, [daemon_refines_manager]; no ticker panics,
      [loop_never_panics], but for absurd intervals, [long_interval_panics];
      what [main] builds, whatever fails, is such a daemon, [bootstrap_spec],
      [main_runs]; the loop follows a reload, [tick_follows_config].
    - The state manager: the invariant of every reachable state (users are
      limited only while limits are active, limits are active only with a shared
      cgroup, and pending tasks work on that one) [manager_invariant], and the same on top of the cgroup
      package, [linked_invariant]; a cycle changes the limits only for a stated
      reason, [cycle_justified], and leaves them alone in a blackout,
      [blackout_untouched]; what a cycle does in each case,
      [RunControlCycle_outcome]; pressure boosts, [boosts_spec]; the report,
      [GetStatus_consistent]; code that takes the lock in sections always
      finishes, [flat_locks_finish], the report may block the daemon for ever,
      [GetStatus_deadlock].
    - Decisions: the engine implements the abstract specification
      [decision_spec], [makeDecision_refines]; one situation never both
      activates and releases, [makeDecision_hysteresis]; the time window of the
      trackers, [tracker_window].
    - Limits: the effect of activation, release and deactivation, on the state
      and on the calls made, [activateLimits_spec], [releaseIdleUsers_spec],
      [deactivateLimits_resets], [deactivateLimits_undoes]; all goroutines run
      to their end, [wait_runs_tasks].
    - Metrics: the cached values keep their type and the tables their size,
      [collector_invariant]; the scan of the processes against its
      specification, [GetAllUserMetrics_spec]; [parse_io_print]; totals of a
      collection, [collect_spec]; the history, [history_recent]; the counts of
      the pattern statistics, [samples_counted]; the policy table,
      [ApplyPolicy_spec].
    - Exporter: what the removal of absent users deletes,
      [CleanupUserMetrics_spec], and what it forgets, [averages_never_removed];
      every series belongs to a registered metric and has its labels,
      [exporter_well_typed]; who is shown the metrics, [basic_access].
    - Configuration: what loading accepts, [LoadAndValidate_valid]; keys that no
      file can make unsafe, [loadFromFile_safe]; blackout windows,
      [ParseTimeframe_wf], [ParseTimeframe_print], [blackout_never_at_23];
      quotas, [ParseRAMQuota_suffix]; the cached filters against their
      definition, [filters_spec]; saving is atomic, writes only the lists and
      reloads, [SaveToFile_atomic], [updated_lines_spec], [saved_lists_reload].
      A reload: [reload_invariant], [reload_converges],
      [refused_reload_repeats], [SafeConfigUpdate_blocks].
    - Cgroups: the tracking file, [saveCgroupToFile_adds],
      [removeCgroupFromFile_filters], [loadExistingCgroups_loads]; creation and
      removal with their errors, [CreateUserCgroup_tracks],
      [CleanupUserCgroup_tracking], [CleanupAll_complete]; only processes of the
      user are moved, [MoveAllUserProcessesToSharedCgroup_own]; a validated I/O
      quota means the same to the validator and to the applier,
      [validated_bps_agrees].
    - Watcher: one active monitor per user and type and a bounded channel,
      [watcher_invariant]; the list of monitors only grows,
      [monitors_never_freed].
    - Periods: [ParseTimeRange_calendar], [ParseTimeRange_date],
      [ParseTimeRange_iso]; relative ones overflow past 106751 days,
      [ParseTimeRange_relative].
    - Requests: without the right to write they change nothing,
      [requests_read_only]; with it they only take the manager through states of
      its own runs, [requests_refine_manager]; who reaches them,
      [protocol_access], [server_lifecycle]; the tools that write,
      [activate_tool_spec], [set_exclude_list_spec]; the addresses of resources,
      [extractUIDFromURI_address]; the user CPU usage they always report as
      zero, [user_cpu_never_reported].
    - The database: what its tables hold, [tables_hold_records]; the range, order
      and number of the rows of a history, [GetUserHistory_spec],
      [GetSystemHistory_spec], and of the answer to a request,
      [served_history]; what a clean-up removes when any of its statements
      fails, [CleanupOldData_spec]; dates it never reports, [no_oldest_record].
    - The logger: how deep its calls nest, [log_depth]; when they return,
      [log_returns], and when they block the program, [rotation_blocks]; the
      lines a rotation keeps, [rotation_keeps_lines].
    - Behaviours worth knowing: the watcher delivers no event
      ([watcher_never_delivers]), the I/O remediation never boosts
      ([remediation_never_boosts]) and the default process exclusions match no
      process ([default_exclusions_void]).

    ** Not modelled

    The log calls of the components, sleeps, the messages on stderr, the bytes of
    the HTTP servers, the text format of the metrics, inotify, the SQL engine and
    the MCP protocol library are input and output; the calls to them are methods
    of the environment or recorded events.  Four handlers of mcp/tools.go that
    are registered nowhere are left out.  Regular expressions ([regexp]) and
    [url.Parse] are parameters.  White space and case folding are those of
    ASCII, and hexadecimal floating-point literals are rejected by
    [ParseFloat]. *)

From stdpp Require Export base gmap sets list strings fin_maps.
From Stdlib Require Export ZArith Lia.

Declare Scope go_scope.
Delimit Scope go_scope with go.

#[local] Open Scope Z_scope.

(** ** Machine integers

    [int], [int64] and [time.Duration] are 64-bit two's complement on the
    targets of the program; [uint64] is modulo [2^64]. *)

Definition two63 : Z := 9223372036854775808.

Definition two64 : Z := 18446744073709551616.

Definition wrap_i64 (z : Z) : Z := (z + two63) mod two64 - two63.

Definition wrap_u64 (z : Z) : Z := z mod two64.

Definition in_i64 (z : Z) : Prop := - two63 <= z < two63.

Definition in_u64 (z : Z) : Prop := 0 <= z < two64.

(** ** Results of fallible Go functions

    An [error] value is represented by the message its [Error()] method
    returns, which is the only thing the program looks at
    ([isMissingUserCgroupError] searches it for substrings). *)

Definition error : Type := string.

Inductive result (A : Type) : Type :=
  | Ok (a : A)
  | Err (e : error).

Arguments Ok {A} a.
Arguments Err {A} e.

Definition result_bind {A B} (r : result A) (f : A -> result B) : result B :=
  match r with Ok a => f a | Err e => Err e end.

Definition is_ok {A} (r : result A) : bool :=
  match r with Ok _ => true | Err _ => false end.

Definition isSome {A} (o : option A) : bool :=
  match o with Some _ => true | None => false end.

Definition res_error {A} (r : result A) : option error :=
  match r with Ok _ => None | Err e => Some e end.

Notation "'let?' x := r 'in' k" := (result_bind r (fun x => k))
  (at level 10, x pattern, r at level 100, k at level 200) : go_scope.

Open Scope go_scope.

(** ** Time

    A [time.Time] is the number of nanoseconds since year 1, so that the zero
    value, the one [IsZero] recognises, is [0].  [Sub] saturates at the bounds
    of [time.Duration]; converting a number of seconds to a duration wraps. *)

Definition Time : Type := Z.

Definition Duration : Type := Z.

Definition zero_time : Time := 0.

Definition IsZero (t : Time) : bool := t =? 0.

Definition second : Duration := 1000000000.

Definition hour : Duration := 3600 * second.

Definition max_duration : Duration := two63 - 1.

Definition min_duration : Duration := - two63.

Definition time_sub (t u : Time) : Duration :=
  Z.max min_duration (Z.min max_duration (t - u)).

Definition seconds (n : Z) : Duration := wrap_i64 (n * second).

(** ** A state monad with its weakest-precondition rules *)

Definition ST (S A : Type) : Type := S -> A * S.

#[global] Instance ST_ret {S} : MRet (ST S) := fun _ a s => (a, s).

#[global] Instance ST_bind {S} : MBind (ST S) :=
  fun _ _ f m s => let '(a, s') := m s in f a s'.

Definition get {S} : ST S S := fun s => (s, s).

Definition gets {S A} (f : S -> A) : ST S A := fun s => (f s, s).

Definition modify {S} (f : S -> S) : ST S unit := fun s => (tt, f s).

Definition when {S} (b : bool) (m : ST S unit) : ST S unit :=
  if b then m else mret tt.

Fixpoint for_each {S A} (f : A -> ST S unit) (l : list A) : ST S unit :=
  match l with
  | [] => mret tt
  | x :: l' => f x ≫= fun _ => for_each f l'
  end.

Fixpoint fold_st {S A B} (f : B -> A -> ST S B) (b : B) (l : list A) : ST S B :=
  match l with
  | [] => mret b
  | x :: l' => f b x ≫= fun b' => fold_st f b' l'
  end.

Definition wp {S A} (m : ST S A) (Q : A -> S -> Prop) (s : S) : Prop :=
  Q (m s).1 (m s).2.

Definition exec {S A} (m : ST S A) (s : S) : S := (m s).2.

Definition eval {S A} (m : ST S A) (s : S) : A := (m s).1.

(** The outcome of code that takes a lock. *)
Inductive blocking (A : Type) :=
  | Returned (a : A)
  | Blocked.

Arguments Returned {A}.
Arguments Blocked {A}.

(** ** Reflexive transitive closure by snoc, for reachability *)

Inductive reachable {S} (init : S -> Prop) (step : S -> S -> Prop) : S -> Prop :=
  | reach_init s : init s -> reachable init step s
  | reach_step s s' : reachable init step s -> step s s' -> reachable init step s'.

(** ** Lemmas *)

Lemma wrap_i64_small z : in_i64 z -> wrap_i64 z = z.
Proof. unfold in_i64, wrap_i64, two63, two64. intros. rewrite Z.mod_small; lia. Qed.

Lemma wrap_u64_small z : in_u64 z -> wrap_u64 z = z.
Proof. apply Z.mod_small. Qed.

Lemma wrap_i64_range z : in_i64 (wrap_i64 z).
Proof.
  unfold in_i64, wrap_i64.
  pose proof (Z.mod_pos_bound (z + two63) two64 eq_refl).
  unfold two63, two64 in *. lia.
Qed.

Lemma wrap_u64_range z : in_u64 (wrap_u64 z).
Proof. apply Z.mod_pos_bound. reflexivity. Qed.

Lemma seconds_small n : 0 <= n <= 9000000000 -> seconds n = n * second.
Proof.
  intros. unfold seconds, second. apply wrap_i64_small.
  unfold in_i64, two63. lia.
Qed.

Lemma time_sub_small t u : in_i64 (t - u) -> time_sub t u = t - u.
Proof. unfold time_sub, in_i64, min_duration, max_duration. lia. Qed.

Lemma time_sub_refl t : time_sub t t = 0.
Proof. rewrite time_sub_small; [lia|]. unfold in_i64, two63. lia. Qed.

Lemma time_sub_ge t u d : d <= max_duration -> d <= t - u -> d <= time_sub t u.
Proof. unfold time_sub, max_duration, min_duration, two63. lia. Qed.

Lemma time_sub_mono t u v : t <= v -> time_sub t u <= time_sub v u.
Proof. unfold time_sub. lia. Qed.

(** What a computation maintains. *)
Definition preserves {S A} (P : S -> Prop) (m : ST S A) : Prop := forall s, P s -> P (exec m s).

Section Preserves.
Context {S : Type} (P : S -> Prop).

Lemma preserves_ret {A} (a : A) : preserves P (mret a).
Proof. by intros s Hs. Qed.

Lemma preserves_bind {A B} (m : ST S A) (f : A -> ST S B) :
  preserves P m -> (forall a, preserves P (f a)) -> preserves P (m ≫= f).
Proof.
  intros Hm Hf s Hs. specialize (Hm s Hs). unfold exec, mbind, ST_bind in *. destruct (m s) as [a s']. by apply Hf.
Qed.

Lemma preserves_when b (m : ST S unit) : preserves P m -> preserves P (when b m).
Proof. destruct b; [done|]. by intros _ s Hs. Qed.

Lemma preserves_for_each {A} (f : A -> ST S unit) l : (forall x, preserves P (f x)) -> preserves P (for_each f l).
Proof. intros Hf. induction l as [|x l IH]; [apply preserves_ret|]. by apply preserves_bind. Qed.

Lemma preserves_fold {A B} (f : B -> A -> ST S B) b l : (forall b x, preserves P (f b x)) -> preserves P (fold_st f b l).
Proof. intros Hf. revert b. induction l as [|x l IH]; intros b; [apply preserves_ret|]. by apply preserves_bind. Qed.

Lemma preserves_gets {A} (f : S -> A) : preserves P (gets f).
Proof. by intros s Hs. Qed.

Lemma preserves_modify f : (forall s, P s -> P (f s)) -> preserves P (modify f).
Proof. by intros Hf s Hs; apply Hf. Qed.

Lemma preserves_wp {A} (m : ST S A) : (forall s, P s -> wp m (fun _ s' => P s') s) -> preserves P m.
Proof. done. Qed.

End Preserves.

Section wp_rules.
Context {S : Type}.

Lemma wp_ret {A} (a : A) Q (s : S) : Q a s -> wp (mret a) Q s.
Proof. done. Qed.

Lemma wp_bind {A B} (m : ST S A) (f : A -> ST S B) Q s :
  wp m (fun a s' => wp (f a) Q s') s -> wp (m ≫= f) Q s.
Proof. unfold wp, mbind, ST_bind. by destruct (m s). Qed.

Lemma wp_mono {A} (m : ST S A) (Q R : A -> S -> Prop) s :
  (forall a s', Q a s' -> R a s') -> wp m Q s -> wp m R s.
Proof. unfold wp. eauto. Qed.

Lemma wp_modify (f : S -> S) (Q : unit -> S -> Prop) s : Q tt (f s) -> wp (modify f) Q s.
Proof. done. Qed.

Lemma wp_gets {A} (f : S -> A) (Q : A -> S -> Prop) s : Q (f s) s -> wp (gets f) Q s.
Proof. done. Qed.

Lemma wp_get (Q : S -> S -> Prop) s : Q s s -> wp get Q s.
Proof. done. Qed.

Lemma wp_when (b : bool) (m : ST S unit) (Q : unit -> S -> Prop) s :
  (b = true -> wp m Q s) -> (b = false -> Q tt s) -> wp (when b m) Q s.
Proof. destruct b; unfold when; intros H1 H2; [by apply H1 | by apply H2]. Qed.

Lemma wp_for_each {A} (I : S -> Prop) (f : A -> ST S unit) (l : list A) Q s :
  I s ->
  (forall x s', x ∈ l -> I s' -> wp (f x) (fun _ => I) s') ->
  (forall s', I s' -> Q tt s') ->
  wp (for_each f l) Q s.
Proof.
  revert s. induction l as [|x l IH]; intros s Hs Hf HQ; simpl.
  - by apply wp_ret, HQ.
  - apply wp_bind. eapply wp_mono; [|apply Hf; [left|done]].
    intros [] s' Hs'. apply IH; [done| |done].
    intros y s'' Hy. apply Hf. by right.
Qed.

Lemma wp_fold_st {A B} (I : B -> S -> Prop) (f : B -> A -> ST S B) (l : list A) b Q s :
  I b s ->
  (forall b' x s', x ∈ l -> I b' s' -> wp (f b' x) I s') ->
  (forall b' s', I b' s' -> Q b' s') ->
  wp (fold_st f b l) Q s.
Proof.
  revert b s. induction l as [|x l IH]; intros b s Hs Hf HQ; simpl.
  - by apply wp_ret, HQ.
  - apply wp_bind. eapply wp_mono; [|apply Hf; [left|done]].
    intros b' s' Hs'. apply IH; [done| |done].
    intros b'' y s'' Hy. apply Hf. by right.
Qed.

Lemma exec_bind {A B} (m : ST S A) (f : A -> ST S B) s : exec (m ≫= f) s = exec (f (eval m s)) (exec m s).
Proof. unfold exec, eval, mbind, ST_bind. by destruct (m s). Qed.

(** When nothing is known of the computation. *)
Lemma wp_any {A} (m : ST S A) (Q : A -> S -> Prop) s : (forall a s', Q a s') -> wp m Q s.
Proof. unfold wp. auto. Qed.

Lemma wp_exec {A} (m : ST S A) (P : S -> Prop) s : wp m (fun _ => P) s -> P (exec m s).
Proof. done. Qed.

End wp_rules.

Lemma reachable_invariant {S} (init : S -> Prop) (step : S -> S -> Prop) (I : S -> Prop) :
  (forall s, init s -> I s) ->
  (forall s s', I s -> step s s' -> I s') ->
  forall s, reachable init step s -> I s.
Proof. intros Hi Hs s. induction 1; eauto. Qed.

Lemma reachable_rtc {S} (init : S -> Prop) step (s s' : S) : reachable init step s -> rtc step s s' -> reachable init step s'.
Proof. intros Hs Hr. induction Hr as [|s1 s2 s3 H12 _ IH]; [done|]. apply IH. by eapply reach_step. Qed.

Lemma result_bind_ok {A B} (r : result A) (f : A -> result B) b :
  result_bind r f = Ok b <-> exists a, r = Ok a /\ f a = Ok b.
Proof. destruct r; simpl; naive_solver. Qed.

Create HintDb resman.

Create Rewrite HintDb resman.

#[export] Hint Resolve wrap_i64_range wrap_u64_range : resman.

#[export] Hint Rewrite @result_bind_ok : resman.

(** [wp_step] applies the rule of the head construct; [wp_steps] repeats it.
    Loops are left to the user, who supplies the invariant. *)
Ltac wp_step :=
  match goal with
  | |- wp (mret _) _ _ => apply wp_ret
  | |- wp (_ ≫= _) _ _ => apply wp_bind
  | |- wp (modify _) _ _ => apply wp_modify
  | |- wp (gets _) _ _ => apply wp_gets
  | |- wp get _ _ => apply wp_get
  | |- wp (when _ _) _ _ => apply wp_when; intros ?
  | |- wp (if ?b then _ else _) _ _ => destruct b eqn:?
  | |- wp (match ?x with _ => _ end) _ _ => destruct x eqn:?
  end; cbn beta.

Ltac wp_steps := repeat wp_step.

(** Case analysis on every scrutinee of the goal. *)
Ltac case_all :=
  repeat match goal with
  | |- context [match ?x with _ => _ end] => destruct x eqn:?
  end.

(** Boolean comparisons on [Z] to propositions. *)
Ltac bool_to_Z :=
  repeat match goal with
  | H : (_ <? _)%Z = true |- _ => apply Z.ltb_lt in H
  | H : (_ <? _)%Z = false |- _ => apply Z.ltb_ge in H
  | H : (_ <=? _)%Z = true |- _ => apply Z.leb_le in H
  | H : (_ <=? _)%Z = false |- _ => apply Z.leb_gt in H
  | H : (_ =? _)%Z = true |- _ => apply Z.eqb_eq in H
  | H : (_ =? _)%Z = false |- _ => apply Z.eqb_neq in H
  | H : _ && _ = true |- _ => apply andb_true_iff in H as [? ?]
  | H : _ || _ = false |- _ => apply orb_false_iff in H as [? ?]
  | H : negb _ = true |- _ => apply negb_true_iff in H
  | H : negb _ = false |- _ => apply negb_false_iff in H
  end.
