(* ===== verification/GoFloat.v ===== *)
(** * IEEE-754 binary64 arithmetic of Go's [float64]

    The operations are those of the Standard Library's executable
    specification of floating point ([SpecFloat]) at precision 53 and maximal
    exponent 1024, with round-to-nearest-even, signed zeros, infinities and
    NaN.  No axiom is involved: comparisons and arithmetic compute in the
    kernel.  The lemmas give the order facts the threshold code relies on. *)

From S2P Require Import Prelude.
From Stdlib Require Import SpecFloat.

#[local] Open Scope Z_scope.

Definition f64 : Type := spec_float.

Definition fadd : f64 -> f64 -> f64 := SFadd 53 1024.

Definition fsub : f64 -> f64 -> f64 := SFsub 53 1024.

Definition fmul : f64 -> f64 -> f64 := SFmul 53 1024.

Definition fdiv : f64 -> f64 -> f64 := SFdiv 53 1024.

(** [float64(n)] of an integer: rounding to nearest even. *)
Definition f64_of_Z (n : Z) : f64 := binary_normalize 53 1024 n 0 false.

(** A decimal literal [n / d]; both are below [2^53], hence exact, so the
    quotient is the correctly rounded value of the literal. *)
Definition lit (n d : Z) : f64 := fdiv (f64_of_Z n) (f64_of_Z d).

Definition fzero : f64 := S754_zero false.

Definition f_lt (x y : f64) : bool := SFltb x y.

Definition f_le (x y : f64) : bool := SFleb x y.

Definition f_eq (x y : f64) : bool := SFeqb x y.

Definition f_gt (x y : f64) : bool := SFltb y x.

Definition f_ge (x y : f64) : bool := SFleb y x.

Definition is_nan (x : f64) : bool := match x with S754_nan => true | _ => false end.

(** [math.Min]: NaN if either argument is NaN, [-0] below [+0]. *)
Definition math_min (x y : f64) : f64 :=
  match x, y with
  | S754_infinity true, _ | _, S754_infinity true => S754_infinity true
  | S754_nan, _ | _, S754_nan => S754_nan
  | S754_zero sx, S754_zero sy => S754_zero (sx || sy)
  | _, _ => if f_lt x y then x else y
  end.

(** Truncation toward zero, the value of the conversions [int64(f)] and
    [uint64(f)] when it is representable; [None] for infinities and NaN. *)
Definition trunc (x : f64) : option Z :=
  match x with
  | S754_zero _ => Some 0
  | S754_finite s m e =>
      let a := if e <? 0 then Z.shiftr (Zpos m) (- e) else Z.shiftl (Zpos m) e in
      Some (if s then - a else a)
  | _ => None
  end.

(** The conversions are implementation-defined when the truncated value does
    not fit; [oor] is what the target gives then. *)
Definition f64_to_u64 (oor : f64 -> Z) (x : f64) : Z :=
  match trunc x with
  | Some z => if (0 <=? z) && (z <? two64) then z else oor x
  | None => oor x
  end.

Definition f64_to_i64 (oor : f64 -> Z) (x : f64) : Z :=
  match trunc x with
  | Some z => if (- two63 <=? z) && (z <? two63) then z else oor x
  | None => oor x
  end.

(** [Duration.Seconds()]: whole seconds plus the fractional part. *)
Definition dur_seconds (d : Duration) : f64 :=
  fadd (f64_of_Z (Z.quot d second))
       (fdiv (f64_of_Z (Z.rem d second)) (f64_of_Z second)).

(** ** Order lemmas *)

Lemma f_lt_spec x y : f_lt x y = true <-> SFcompare x y = Some Lt.
Proof. unfold f_lt, SFltb. destruct (SFcompare x y) as [[]|]; naive_solver. Qed.

Lemma f_le_spec x y :
  f_le x y = true <-> SFcompare x y = Some Lt \/ SFcompare x y = Some Eq.
Proof. unfold f_le, SFleb. destruct (SFcompare x y) as [[]|]; naive_solver. Qed.

Lemma pos_cont_compare m1 m2 : Pos.compare_cont Eq m1 m2 = (m1 ?= m2)%positive.
Proof. reflexivity. Qed.

Ltac float_cases :=
  repeat match goal with
  | H : context [Pos.compare_cont Eq ?a ?b] |- _ => rewrite (pos_cont_compare a b) in H
  | |- context [Pos.compare_cont Eq ?a ?b] => rewrite (pos_cont_compare a b)
  | H : context [(?a ?= ?b)%Z] |- _ => destruct (Z.compare_spec a b)
  | |- context [(?a ?= ?b)%Z] => destruct (Z.compare_spec a b)
  | H : context [(?a ?= ?b)%positive] |- _ => destruct (Pos.compare_spec a b)
  | |- context [(?a ?= ?b)%positive] => destruct (Pos.compare_spec a b)
  end.

Lemma SFcompare_swap x y c :
  SFcompare x y = Some c -> SFcompare y x = Some (CompOpp c).
Proof.
  destruct x as [[]|[]| |[] m1 e1], y as [[]|[]| |[] m2 e2]; simpl; intros H;
    simplify_eq; try done; float_cases; simplify_eq/=; try done; lia.
Qed.

Lemma SFcompare_lt_le x y z c :
  SFcompare x y = Some Lt -> SFcompare y z = Some c -> c <> Gt ->
  SFcompare x z = Some Lt.
Proof.
  destruct x as [[]|[]| |[] m1 e1], y as [[]|[]| |[] m2 e2], z as [[]|[]| |[] m3 e3];
    simpl; intros H1 H2 Hc; simplify_eq; try done;
    float_cases; simplify_eq/=; try done; lia.
Qed.

Lemma f_lt_le_trans x y z : f_lt x y = true -> f_le y z = true -> f_lt x z = true.
Proof.
  rewrite !f_lt_spec, f_le_spec. intros H1 [H2|H2]; by eapply SFcompare_lt_le.
Qed.

Lemma f_lt_asym x y : f_lt x y = true -> f_le y x = false.
Proof.
  rewrite f_lt_spec. intros H. apply not_true_iff_false. rewrite f_le_spec.
  apply SFcompare_swap in H. rewrite H. naive_solver.
Qed.

Lemma f_le_not_lt x y : f_le x y = true -> f_lt y x = false.
Proof.
  intros H. apply not_true_iff_false. intros H'%f_lt_asym. congruence.
Qed.

Lemma f_lt_le x y : f_lt x y = true -> f_le x y = true.
Proof. rewrite f_lt_spec, f_le_spec. by left. Qed.

Lemma f_lt_irrefl x : f_lt x x = false.
Proof. destruct (f_lt x x) eqn:H; [|done]. apply f_lt_asym in H as H'. by rewrite (f_lt_le _ _ H) in H'. Qed.

(** Without NaN the order is total. *)
Lemma f_not_lt_le x y : is_nan x = false -> is_nan y = false -> f_lt x y = false -> f_le y x = true.
Proof.
  intros Hx Hy. unfold f_lt, f_le, SFltb, SFleb.
  destruct (SFcompare x y) as [c|] eqn:H.
  - rewrite (SFcompare_swap _ _ _ H). by destruct c.
  - exfalso. by destruct x as [[]|[]| |[]], y as [[]|[]| |[]].
Qed.

(** A reading cannot be below [lo] and at or above [hi] when [lo <= hi]. *)
Lemma f_window lo hi x : f_le lo hi = true -> f_ge x hi = true -> f_lt x lo = false.
Proof.
  intros Hle Hge. apply not_true_iff_false. intros Hlt.
  pose proof (f_lt_asym _ _ (f_lt_le_trans _ _ _ Hlt Hle)). unfold f_ge in Hge. unfold f_le in *. congruence.
Qed.

(** Percentages convert monotonically: checked on the whole range. *)
Definition percent_range : list Z := seqZ 0 101.

Lemma percent_mono_all :
  forallb (fun a => forallb (fun b => implb (a <=? b) (f_le (f64_of_Z a) (f64_of_Z b)))
                      percent_range) percent_range = true.
Proof. vm_compute. reflexivity. Qed.

Lemma percent_mono a b : 0 <= a <= b -> b <= 100 -> f_le (f64_of_Z a) (f64_of_Z b) = true.
Proof.
  intros Ha Hb. pose proof percent_mono_all as H.
  rewrite forallb_forall in H. specialize (H a).
  rewrite forallb_forall in H. unfold percent_range in H.
  assert (In a (seqZ 0 101)) as Ia by (apply list_elem_of_In, elem_of_seqZ; lia).
  assert (In b (seqZ 0 101)) as Ib by (apply list_elem_of_In, elem_of_seqZ; lia).
  specialize (H Ia b Ib). by replace (a <=? b) with true in H by lia.
Qed.

Lemma math_min_le_r x y : is_nan (math_min x y) = false -> is_nan y = false -> f_le (math_min x y) y = true.
Proof.
  intros Hm Hy.
  destruct x as [[]|[]| |[] mx ex], y as [[]|[]| |[] my ey];
    try done; unfold math_min in *;
    try (match goal with |- context [if f_lt ?a ?b then _ else _] =>
      destruct (f_lt a b) eqn:?; [by apply f_lt_le|apply f_le_spec; right; simpl] end);
    try done;
    rewrite ?Z.compare_refl, ?pos_cont_compare, ?Pos.compare_refl; done.
Qed.

#[export] Hint Resolve f_lt_le f_lt_asym f_le_not_lt : resman.

Lemma math_min_not_gt x y : is_nan y = false -> f_gt (math_min x y) y = false.
Proof.
  intros Hy. destruct (is_nan (math_min x y)) eqn:E.
  - unfold f_gt. destruct (math_min x y); try done. by destruct y.
  - by apply f_le_not_lt, math_min_le_r.
Qed.
