(* ===== verification/GoStrings.v ===== *)
(** * The parts of Go's [strings], [strconv] and [bufio] the program uses

    A Go string is a [string] of bytes.  White space and letter case are those
    of ASCII (Go's functions coincide with these on ASCII text).  Separators
    are single bytes, as in every call of the program.  Every function is
    executable; the lemmas are the equations and round trips the parsers of the
    other files share. *)

From S2P Require Import Prelude.
From Stdlib Require Export Ascii.
From Stdlib Require String.

#[local] Open Scope Z_scope.

Definition newline : ascii := "010"%char.

Definition is_space (c : ascii) : bool :=
  match c with
  | "009" | "010" | "011" | "012" | "013" | " " => true
  | _ => false
  end%char.

Definition HasPrefix (s pre : string) : bool := String.prefix pre s.

Fixpoint HasSuffix (s suf : string) : bool :=
  String.eqb s suf ||
  match s with EmptyString => false | String _ s' => HasSuffix s' suf end.

Fixpoint Contains (s sub : string) : bool :=
  String.prefix sub s ||
  match s with EmptyString => false | String _ s' => Contains s' sub end.

(** [mem c s]: the byte [c] occurs in [s]. *)
Fixpoint mem (c : ascii) (s : string) : bool :=
  match s with EmptyString => false | String d s' => Ascii.eqb c d || mem c s' end.

(** [s[:i]] for [i] the index of the first [c], the whole of [s] without one. *)
Fixpoint before (c : ascii) (s : string) : string :=
  match s with
  | EmptyString => EmptyString
  | String d s' => if Ascii.eqb c d then EmptyString else String d (before c s')
  end.

Fixpoint trim_left (p : ascii -> bool) (s : string) : string :=
  match s with
  | EmptyString => EmptyString
  | String c s' => if p c then trim_left p s' else s
  end.

Fixpoint trim_right (p : ascii -> bool) (s : string) : string :=
  match s with
  | EmptyString => EmptyString
  | String c s' =>
      match trim_right p s' with
      | EmptyString => if p c then EmptyString else String c EmptyString
      | r => String c r
      end
  end.

Definition TrimSpace (s : string) : string := trim_right is_space (trim_left is_space s).

Definition Trim (s cutset : string) : string :=
  let p c := mem c cutset in trim_right p (trim_left p s).

(** [TrimPrefix]. *)
Definition TrimPrefix (s pre : string) : string :=
  if HasPrefix s pre then String.substring (String.length pre) (String.length s - String.length pre) s else s.

(** A text without its last byte, and that byte. *)
Fixpoint drop_last (s : string) : string :=
  match s with
  | EmptyString | String _ EmptyString => EmptyString
  | String c s' => String c (drop_last s')
  end.

Fixpoint last_byte (s : string) : option ascii :=
  match s with
  | EmptyString => None
  | String c EmptyString => Some c
  | String _ s' => last_byte s'
  end.

Fixpoint Split (s : string) (sep : ascii) : list string :=
  match s with
  | EmptyString => [EmptyString]
  | String c s' =>
      if Ascii.eqb sep c then EmptyString :: Split s' sep
      else match Split s' sep with
           | [] => [String c EmptyString]
           | w :: ws => String c w :: ws
           end
  end.

(** [strings.SplitN(s, sep, 2)]. *)
Fixpoint SplitN2 (s : string) (sep : ascii) : list string :=
  match s with
  | EmptyString => [EmptyString]
  | String c s' =>
      if Ascii.eqb sep c then [EmptyString; s']
      else match SplitN2 s' sep with
           | [] => [String c EmptyString]
           | w :: ws => String c w :: ws
           end
  end.

Fixpoint Fields_go (cur : string) (s : string) : list string :=
  match s with
  | EmptyString => if String.eqb cur "" then [] else [cur]
  | String c s' =>
      if is_space c
      then if String.eqb cur "" then Fields_go "" s' else cur :: Fields_go "" s'
      else Fields_go (cur +:+ String c "") s'
  end.

Definition Fields (s : string) : list string := Fields_go "" s.

Fixpoint Join (l : list string) (sep : string) : string :=
  match l with
  | [] => ""
  | [x] => x
  | x :: l' => x +:+ sep +:+ Join l' sep
  end.

(** The tokens of a [bufio.Scanner] over [s]: lines without their end marker,
    the last one only when it is not empty. *)
Definition drop_cr (s : string) : string :=
  match last_byte s with
  | Some c => if Ascii.eqb c "013"%char then drop_last s else s
  | None => s
  end.

Fixpoint scan_go (l : list string) : list string :=
  match l with
  | [] => []
  | [x] => if String.eqb x "" then [] else [drop_cr x]
  | x :: l' => drop_cr x :: scan_go l'
  end.

Definition ScanLines (s : string) : list string := scan_go (Split s newline).

Definition map_bytes (f : ascii -> ascii) : string -> string :=
  fix go s := match s with EmptyString => EmptyString | String c s' => String (f c) (go s') end.

Definition in_range (lo hi c : ascii) : bool :=
  (N_of_ascii lo <=? N_of_ascii c)%N && (N_of_ascii c <=? N_of_ascii hi)%N.

Definition lower_byte (c : ascii) : ascii :=
  if in_range "A"%char "Z"%char c then ascii_of_N (N_of_ascii c + 32) else c.

Definition upper_byte (c : ascii) : ascii :=
  if in_range "a"%char "z"%char c then ascii_of_N (N_of_ascii c - 32) else c.

Definition ToLower : string -> string := map_bytes lower_byte.

Definition ToUpper : string -> string := map_bytes upper_byte.

(** ** Numbers *)

Definition digit (c : ascii) : option Z :=
  if in_range "0"%char "9"%char c then Some (Z.of_N (N_of_ascii c) - 48) else None.

Definition digit_char (d : Z) : ascii := ascii_of_N (Z.to_N (d + 48)).

Fixpoint parse_digits (acc : Z) (s : string) : option Z :=
  match s with
  | EmptyString => Some acc
  | String c s' =>
      match digit c with Some d => parse_digits (acc * 10 + d) s' | None => None end
  end.

(** [strconv.ParseUint(s, 10, 64)]; [None] is a syntax or range error. *)
Definition ParseUint (s : string) : option Z :=
  match s with
  | EmptyString => None
  | _ => match parse_digits 0 s with
         | Some v => if v <? two64 then Some v else None
         | None => None
         end
  end.

(** The number [ParseUint] returns beside its error: the largest one when a
    prefix is out of range, 0 on a syntax error. *)
Fixpoint saturating_digits (acc : Z) (s : string) : Z :=
  match s with
  | EmptyString => acc
  | String c s' =>
      match digit c with
      | Some d => if acc * 10 + d <? two64 then saturating_digits (acc * 10 + d) s' else two64 - 1
      | None => 0
      end
  end.

Definition ParseUint_value (s : string) : Z := saturating_digits 0 s.

Definition TrimSuffix (s : string) (suf : string) : string :=
  if HasSuffix s suf then String.substring 0 (String.length s - String.length suf) s else s.

Definition parse_nat (s : string) : option Z :=
  match s with EmptyString => None | _ => parse_digits 0 s end.

Definition signed (s : string) : option Z :=
  match s with
  | String "-"%char r => Z.opp <$> parse_nat r
  | String "+"%char r => parse_nat r
  | _ => parse_nat s
  end.

(** [strconv.Quote], where every byte past ASCII belongs to a printable rune. *)
Definition hex_digit (n : nat) : ascii := ascii_of_nat (if (n <? 10)%nat then 48 + n else 87 + n).

Definition quote_byte (c : ascii) : string :=
  let n := nat_of_ascii c in
  let escaped (d : ascii) := String "\"%char (String d "") in
  if Ascii.eqb c "034"%char || Ascii.eqb c "\"%char then escaped c
  else if (32 <=? n)%nat && negb (n =? 127)%nat then String c ""
  else match n with
       | 7 => escaped "a" | 8 => escaped "b" | 9 => escaped "t" | 10 => escaped "n"
       | 11 => escaped "v" | 12 => escaped "f" | 13 => escaped "r"
       | _ => escaped "x" +:+ String (hex_digit (n / 16)) (String (hex_digit (n mod 16)) "")
       end%nat%char.

Fixpoint quote_bytes (s : string) : string :=
  match s with EmptyString => EmptyString | String c s' => quote_byte c +:+ quote_bytes s' end.

Definition Quote (s : string) : string := String "034"%char (quote_bytes s +:+ String "034"%char "").

(** [NumError.Error]. *)
Definition num_error (func s reason : string) : error :=
  "strconv." +:+ func +:+ ": parsing " +:+ Quote s +:+ ": " +:+ reason.

Definition syntax_error : string := "invalid syntax".

Definition range_error : string := "value out of range".

(** [ParseUint] with the error it returns: it finds a number out of range
    before it sees what follows. *)
Definition ParseUintE (s : string) : result Z :=
  match ParseUint s with
  | Some v => Ok v
  | None => Err (num_error "ParseUint" s (if ParseUint_value s =? 0 then syntax_error else range_error))
  end.

Definition unsigned_part (s : string) : string :=
  match s with String "-"%char r | String "+"%char r => r | _ => s end.

(** [strconv.Atoi]. *)
Definition Atoi (s : string) : option Z :=
  match signed s with
  | Some v => if (- two63 <=? v) && (v <? two63) then Some v else None
  | None => None
  end.

(** [Atoi] with the error it returns. *)
Definition AtoiE (s : string) : result Z :=
  match Atoi s with
  | Some v => Ok v
  | None =>
      Err (num_error "Atoi" s
             match signed s with
             | Some _ => range_error
             | None => if ParseUint_value (unsigned_part s) =? 0 then syntax_error else range_error
             end)
  end.

Example AtoiE_errors :
  AtoiE "1x" = Err (num_error "Atoi" "1x" "invalid syntax") /\ AtoiE "-9223372036854775809" = Err (num_error "Atoi" "-9223372036854775809" "value out of range").
Proof. vm_compute. done. Qed.

Fixpoint dec_digits (fuel : nat) (n : Z) (acc : string) : string :=
  match fuel with
  | O => acc
  | S f =>
      let acc' := String (digit_char (n mod 10)) acc in
      if n <? 10 then acc' else dec_digits f (n / 10) acc'
  end.

(** [strconv.FormatUint(n, 10)]; a number has at most [log2 n + 1] digits. *)
Definition FormatUint (n : Z) : string := dec_digits (S (Z.to_nat (Z.log2 n))) n "".

(** [strconv.Itoa]. *)
Definition Itoa (n : Z) : string :=
  if n <? 0 then String "-"%char (FormatUint (- n)) else FormatUint n.

(** ** Lemmas on splitting and joining *)

Lemma append_nil_r s : s +:+ "" = s.
Proof. induction s as [|c s IH]; [done|]. change (String c (s +:+ "") = String c s). by rewrite IH. Qed.

Lemma append_cons c a b : String c a +:+ b = String c (a +:+ b).
Proof. done. Qed.

Lemma append_nil_l b : "" +:+ b = b.
Proof. done. Qed.

Lemma append_assoc a b c : (a +:+ b) +:+ c = a +:+ (b +:+ c).
Proof. induction a as [|x a IH]; [done|]. by rewrite !append_cons, IH. Qed.

Lemma append_eq_empty a b : a +:+ b = "" -> a = "" /\ b = "".
Proof. destruct a; [done|]. by rewrite append_cons. Qed.

Lemma mem_app c a b : mem c (a +:+ b) = mem c a || mem c b.
Proof.
  induction a as [|x a IH]; [done|]. rewrite append_cons. simpl. by rewrite IH, orb_assoc.
Qed.

Lemma HasPrefix_app a b : HasPrefix (a +:+ b) a = true.
Proof.
  induction a as [|c a IH]; [by destruct b|]. rewrite append_cons. unfold HasPrefix in *. simpl.
  destruct (ascii_dec c c); done.
Qed.

Lemma append_length a b : String.length (a +:+ b) = (String.length a + String.length b)%nat.
Proof. induction a as [|x a IH]; [done|]. rewrite append_cons. cbn [String.length]. by rewrite IH. Qed.

Lemma substring_all s : String.substring 0 (String.length s) s = s.
Proof. induction s as [|c s IH]; [done|]. cbn [String.length String.substring]. by rewrite IH. Qed.

Lemma substring_skip a s k : String.substring (String.length a) k (a +:+ s) = String.substring 0 k s.
Proof. induction a as [|c a IH]; [done|]. by rewrite append_cons. Qed.

Lemma TrimPrefix_app a b : TrimPrefix (a +:+ b) a = b.
Proof.
  unfold TrimPrefix. rewrite HasPrefix_app, append_length, substring_skip.
  replace (String.length a + String.length b - String.length a)%nat with (String.length b) by lia. apply substring_all.
Qed.

Lemma HasPrefix_split s a : HasPrefix s a = true -> exists b, s = a +:+ b.
Proof.
  revert s. induction a as [|c a IH]; intros s; [by exists s|]. destruct s as [|d s]; [done|]. unfold HasPrefix in *. cbn [String.prefix].
  destruct (ascii_dec c d) as [->|]; [|done]. intros [b ->]%IH. by exists b.
Qed.

Lemma HasPrefix_mem c s sub : mem c s = false -> mem c sub = true -> HasPrefix s sub = false.
Proof.
  intros Hs Hsub. destruct (HasPrefix s sub) eqn:Hp; [|done]. apply HasPrefix_split in Hp as [r ->].
  rewrite mem_app, Hsub in Hs. done.
Qed.

Lemma Contains_mem c s sub : mem c s = false -> mem c sub = true -> Contains s sub = false.
Proof.
  intros Hs Hsub. pose proof (HasPrefix_mem c s sub Hs Hsub) as Hp. unfold HasPrefix in Hp. induction s as [|d s IH]; cbn [Contains]; rewrite Hp; [done|].
  cbn in Hs. apply orb_false_iff in Hs as [_ Hs]. apply IH; [done|]. by apply (HasPrefix_mem c).
Qed.

Lemma Contains_middle a sub b : Contains (a +:+ (sub +:+ b)) sub = true.
Proof.
  induction a as [|c a IH].
  - rewrite append_nil_l. pose proof (HasPrefix_app sub b) as Hp. unfold HasPrefix in Hp. destruct (sub +:+ b); cbn [Contains]; by rewrite Hp.
  - rewrite append_cons. cbn [Contains]. rewrite IH. apply orb_true_r.
Qed.

Lemma Split_not_nil s c : Split s c <> [].
Proof. destruct s as [|d s]; simpl; [done|]. destruct (Ascii.eqb c d); [done|]. by destruct (Split s c). Qed.

Lemma Split_no_sep c a : mem c a = false -> Split a c = [a].
Proof.
  induction a as [|x a IH]; simpl; [done|]. intros [Hx Ha]%orb_false_iff.
  rewrite Hx. by rewrite IH.
Qed.

Lemma Split_app c a b : mem c a = false -> Split (a +:+ String c b) c = a :: Split b c.
Proof.
  induction a as [|x a IH]; intros H; rewrite ?append_nil_l, ?append_cons; simpl in *.
  - by rewrite Ascii.eqb_refl.
  - apply orb_false_iff in H as [Hx Ha]. by rewrite Hx, IH.
Qed.

Lemma Split_spec2 c s a b :
  Split s c = [a; b] -> s = a +:+ String c b /\ mem c a = false /\ mem c b = false.
Proof.
  revert a. induction s as [|x s IH]; intros a; simpl; [done|].
  destruct (Ascii.eqb c x) eqn:E.
  - apply Ascii.eqb_eq in E as <-. intros [= <- Hs].
    assert (Split s c = [b] -> s = b /\ mem c b = false) as Hone.
    { clear. revert b. induction s as [|y s IH]; simpl; intros b.
      - intros [= <-]. done.
      - destruct (Ascii.eqb c y) eqn:Ey.
        + intros [= _ H]. by apply Split_not_nil in H.
        + destruct (Split s c) as [|w ws] eqn:Hs; [by apply Split_not_nil in Hs|].
          intros [= <- ->]. destruct (IH w eq_refl) as [-> ?]. split; [done|]. simpl. by rewrite Ey. }
    destruct (Hone Hs) as [-> ?]. done.
  - destruct (Split s c) as [|w ws] eqn:Hs; [by apply Split_not_nil in Hs|].
    intros [= <- ->]. destruct (IH w eq_refl) as (-> & ? & ?).
    split; [done|]. simpl. by rewrite E.
Qed.

Lemma Split_join c l :
  l <> [] -> Forall (fun w => mem c w = false) l -> Split (Join l (String c "")) c = l.
Proof.
  induction l as [|x l IH]; [done|]. intros _ Hl. inversion_clear Hl as [|?? Hx Hl'].
  destruct l as [|y l]; [by apply Split_no_sep|].
  change (Join (x :: y :: l) (String c "")) with (x +:+ String c (Join (y :: l) (String c ""))).
  rewrite Split_app by done. by rewrite IH.
Qed.

Lemma SplitN2_app c a b : mem c a = false -> SplitN2 (a +:+ String c b) c = [a; b].
Proof.
  induction a as [|x a IH]; intros H; rewrite ?append_nil_l, ?append_cons; simpl in *.
  - by rewrite Ascii.eqb_refl.
  - apply orb_false_iff in H as [Hx Ha]. by rewrite Hx, IH.
Qed.

Lemma mem_join c sep l :
  mem c sep = false -> Forall (fun w => mem c w = false) l -> mem c (Join l sep) = false.
Proof.
  intros Hsep. induction l as [|x l IH]; [done|]. intros Hl. inversion_clear Hl.
  destruct l as [|y l]; [done|].
  change (mem c (x +:+ sep +:+ Join (y :: l) sep) = false).
  rewrite !mem_app, IH by done. by rewrite H, Hsep.
Qed.

(** ** Lemmas on fields and trimming *)

Definition no_space (s : string) : Prop := forall c, mem c s = true -> is_space c = false.

Lemma mem_self c a : mem c (String c a) = true.
Proof. simpl. by rewrite Ascii.eqb_refl. Qed.

Lemma no_space_cons c s : no_space (String c s) <-> is_space c = false /\ no_space s.
Proof.
  unfold no_space. split.
  - intros H. split; [apply H, mem_self|]. intros d Hd. apply H. simpl. rewrite Hd. apply orb_true_r.
  - intros [Hc Hs] d. simpl. intros [->%Ascii.eqb_eq|Hd]%orb_true_iff; auto.
Qed.

Fixpoint no_spaceb (s : string) : bool :=
  match s with EmptyString => true | String c s' => negb (is_space c) && no_spaceb s' end.

Lemma no_spaceb_ok s : no_spaceb s = true -> no_space s.
Proof.
  induction s as [|c s IH]; simpl; [by intros _ ?|]. intros [Hc%negb_true_iff Hs]%andb_true_iff.
  apply no_space_cons. auto.
Qed.

Lemma Fields_go_word cur a rest :
  no_space a -> Fields_go cur (a +:+ rest) = Fields_go (cur +:+ a) rest.
Proof.
  revert cur. induction a as [|c a IH]; intros cur Ha.
  - by rewrite append_nil_r.
  - apply no_space_cons in Ha as [Hc Ha]. rewrite append_cons. simpl. rewrite Hc.
    rewrite IH by done. by rewrite append_assoc.
Qed.

Lemma Fields_cons a c s :
  no_space a -> a <> "" -> is_space c = true -> Fields (a +:+ String c s) = a :: Fields s.
Proof.
  intros Ha Hna Hc. unfold Fields. rewrite Fields_go_word by done.
  cbn [Fields_go]. by rewrite Hc, append_nil_l, (proj2 (String.eqb_neq _ _)).
Qed.

Lemma Fields_two a b c :
  no_space a -> no_space b -> a <> "" -> b <> "" -> is_space c = true ->
  Fields (a +:+ String c b) = [a; b].
Proof.
  intros Ha Hb Hna Hnb Hc. unfold Fields. rewrite Fields_go_word by done.
  simpl. rewrite Hc, append_nil_l, (proj2 (String.eqb_neq _ _)) by done.
  rewrite <- (append_nil_r b) at 1. rewrite Fields_go_word by done.
  simpl. by rewrite append_nil_l, (proj2 (String.eqb_neq _ _)).
Qed.

Lemma trim_left_id p c s : p c = false -> trim_left p (String c s) = String c s.
Proof. simpl. by intros ->. Qed.

Lemma trim_right_app_keep p pre v c :
  last_byte pre = Some c -> p c = false -> trim_right p (pre +:+ v) = pre +:+ trim_right p v.
Proof.
  intros Hl Hc. induction pre as [|d pre IH]; [done|]. rewrite !append_cons.
  change (match trim_right p (pre +:+ v) with
          | EmptyString => if p d then EmptyString else String d EmptyString
          | r => String d r end = String d (pre +:+ trim_right p v)).
  destruct pre as [|e pre].
  - simpl in Hl. injection Hl as ->. rewrite !append_nil_l, Hc. by destruct (trim_right p v).
  - rewrite IH by exact Hl. done.
Qed.

Lemma trim_right_id p s :
  (forall c, last_byte s = Some c -> p c = false) -> trim_right p s = s.
Proof.
  induction s as [|c s IH]; [done|]. intros H. simpl.
  destruct s as [|d s].
  - simpl. by rewrite H.
  - rewrite IH; [done|]. intros e He. by apply H.
Qed.

Lemma last_byte_mem s c : last_byte s = Some c -> mem c s = true.
Proof.
  induction s as [|d s IH]; [done|]. destruct s as [|e s].
  - intros [= ->]. apply mem_self.
  - intros H. change (Ascii.eqb c d || mem c (String e s) = true). rewrite IH by done. apply orb_true_r.
Qed.

(** Trimming leaves a string alone when neither end is in the cut set. *)
Lemma trim_id p s :
  (forall c s', s = String c s' -> p c = false) ->
  (forall c, last_byte s = Some c -> p c = false) ->
  trim_right p (trim_left p s) = s.
Proof.
  intros Hf Hl. destruct s as [|c s]; [done|].
  rewrite trim_left_id by (by eapply Hf). by apply trim_right_id.
Qed.

Lemma TrimSpace_no_space s : no_space s -> TrimSpace s = s.
Proof.
  intros H. apply trim_id.
  - intros c s' ->. by apply no_space_cons in H as [? _].
  - intros c Hc. apply H. by apply last_byte_mem.
Qed.

Lemma before_id c s : mem c s = false -> before c s = s.
Proof.
  induction s as [|d s IH]; simpl; [done|]. intros [-> H]%orb_false_iff. by rewrite IH.
Qed.

Lemma Trim_none s cutset : (forall c, mem c s = true -> mem c cutset = false) -> Trim s cutset = s.
Proof.
  intros H. apply trim_id.
  - intros c s' ->. apply H, mem_self.
  - intros c Hc. by apply H, last_byte_mem.
Qed.

Lemma no_space_join l sep : no_space sep -> Forall no_space l -> no_space (Join l sep).
Proof.
  intros Hs. induction l as [|x [|y l] IH]; [done|by intros [? _]%Forall_cons|].
  intros [Hx Hl]%Forall_cons. change (no_space (x +:+ sep +:+ Join (y :: l) sep)).
  intros c. rewrite !mem_app, !orb_true_iff. intros [H|[H|H]]; [by apply Hx|by apply Hs|by apply IH].
Qed.

Lemma Join_not_empty l sep :
  l <> [] -> Forall (fun x => x <> "") l -> Join l sep <> "".
Proof.
  intros Hne Hl. destruct l as [|x [|y l]]; [done|by apply Forall_cons in Hl as [? _]|].
  apply Forall_cons in Hl as [Hx _]. change (x +:+ sep +:+ Join (y :: l) sep <> "").
  intros [? _]%append_eq_empty. done.
Qed.

(** ** Lemmas on numbers *)

Lemma digit_char_all :
  forallb (fun d => match digit (digit_char d) with Some e => e =? d | None => false end
                    && negb (is_space (digit_char d))) (seqZ 0 10) = true.
Proof. vm_compute. reflexivity. Qed.

Lemma digit_char_spec d : 0 <= d < 10 ->
  digit (digit_char d) = Some d /\ is_space (digit_char d) = false.
Proof.
  intros Hd. pose proof digit_char_all as H. rewrite forallb_forall in H.
  specialize (H d). rewrite <- list_elem_of_In, elem_of_seqZ in H.
  specialize (H ltac:(lia)). apply andb_true_iff in H as [H Hs].
  apply negb_true_iff in Hs. split; [|done].
  destruct (digit (digit_char d)); [|done]. apply Z.eqb_eq in H. by subst.
Qed.

Lemma parse_dec_digits f n s :
  0 <= n < 2 ^ Z.of_nat f -> (0 < f)%nat ->
  parse_digits 0 (dec_digits f n s) = parse_digits n s.
Proof.
  revert n s. induction f as [|f IH]; [lia|]. intros n s Hn _. simpl.
  pose proof (Z.mod_pos_bound n 10 ltac:(lia)) as Hm.
  destruct (digit_char_spec (n mod 10) Hm) as [Hd _].
  destruct (n <? 10) eqn:E; bool_to_Z.
  - simpl. rewrite Hd. f_equal. rewrite Z.mod_small; lia.
  - assert (0 <= n / 10 < 2 ^ Z.of_nat f).
    { split; [apply Z.div_pos; lia|]. apply Z.div_lt_upper_bound; [lia|].
      replace (Z.of_nat (S f)) with (Z.succ (Z.of_nat f)) in Hn by lia.
      rewrite Z.pow_succ_r in Hn by lia. lia. }
    destruct f as [|f]; [simpl in *; assert (n / 10 >= 1) by (apply Z.le_ge, Z.div_le_lower_bound; lia); lia|].
    rewrite IH by (done || lia). simpl. rewrite Hd. f_equal.
    rewrite (Z.div_mod n 10) at 3 by lia. lia.
Qed.

Lemma dec_digits_mem c f n s :
  0 <= n -> mem c (dec_digits f n s) = true -> mem c s = true \/ exists d, 0 <= d < 10 /\ c = digit_char d.
Proof.
  revert n s. induction f as [|f IH]; intros n s Hn; [by left|]. simpl.
  pose proof (Z.mod_pos_bound n 10 ltac:(lia)) as Hm.
  destruct (n <? 10).
  - simpl. intros [->%Ascii.eqb_eq|H]%orb_true_iff; [right; eauto|by left].
  - intros H. apply IH in H as [H|H]; [|by right|by apply Z.div_pos; lia].
    simpl in H. apply orb_true_iff in H as [->%Ascii.eqb_eq|H]; [right; eauto|by left].
Qed.

Lemma FormatUint_fuel n : 0 <= n -> n < 2 ^ Z.of_nat (S (Z.to_nat (Z.log2 n))).
Proof.
  intros Hn. replace (Z.of_nat (S (Z.to_nat (Z.log2 n)))) with (Z.succ (Z.log2 n)).
  - destruct (decide (n = 0)) as [->|]; [done|]. apply Z.log2_spec; lia.
  - pose proof (Z.log2_nonneg n). lia.
Qed.

Lemma parse_FormatUint n : 0 <= n -> parse_digits 0 (FormatUint n) = Some n.
Proof.
  intros Hn. unfold FormatUint. rewrite parse_dec_digits; [done| |lia].
  split; [done|]. by apply FormatUint_fuel.
Qed.

Lemma FormatUint_mem c n :
  0 <= n -> mem c (FormatUint n) = true -> exists d, 0 <= d < 10 /\ c = digit_char d.
Proof. intros Hn H. apply dec_digits_mem in H as [H|H]; done. Qed.

Lemma FormatUint_no_space n : 0 <= n -> no_space (FormatUint n).
Proof.
  intros Hn c Hc. apply FormatUint_mem in Hc as (d & Hd & ->); [|done].
  by apply digit_char_spec.
Qed.

Lemma dec_digits_cons f n c s : exists d r, dec_digits f n (String c s) = String d r.
Proof.
  revert n c s. induction f as [|f IH]; intros n c s; simpl; [by eauto|].
  destruct (n <? 10); eauto.
Qed.

Lemma FormatUint_cons n : exists d r, FormatUint n = String d r.
Proof. unfold FormatUint. simpl. destruct (n <? 10); [by eauto|]. apply dec_digits_cons. Qed.

Lemma ParseUint_FormatUint n : in_u64 n -> ParseUint (FormatUint n) = Some n.
Proof.
  intros [Hn Hlt]. unfold ParseUint. destruct (FormatUint_cons n) as (d & r & E).
  pose proof (parse_FormatUint n Hn) as P. rewrite E in *. rewrite P.
  by apply Z.ltb_lt in Hlt as ->.
Qed.

Lemma digit_head d : 0 <= d < 10 -> digit_char d <> "-"%char /\ digit_char d <> "+"%char.
Proof.
  intros Hd. destruct (digit_char_spec d Hd) as [H _].
  split; intros E; rewrite E in H; discriminate H.
Qed.

Lemma parse_nat_FormatUint n : 0 <= n -> parse_nat (FormatUint n) = Some n.
Proof.
  intros Hn. unfold parse_nat. destruct (FormatUint_cons n) as (d & r & E).
  rewrite E, <- E. by apply parse_FormatUint.
Qed.

Lemma signed_digits c r :
  c <> "-"%char -> c <> "+"%char -> signed (String c r) = parse_nat (String c r).
Proof.
  intros H1 H2. destruct c as [[] [] [] [] [] [] [] []]; try reflexivity; naive_solver.
Qed.

Lemma signed_FormatUint n : 0 <= n -> signed (FormatUint n) = Some n.
Proof.
  intros Hn. destruct (FormatUint_cons n) as (d & r & E).
  assert (mem d (FormatUint n) = true) as Hd by (rewrite E; apply mem_self).
  apply FormatUint_mem in Hd as (k & Hk & ->); [|done].
  destruct (digit_head k Hk). rewrite E, signed_digits, <- E by done.
  by apply parse_nat_FormatUint.
Qed.

(** [Atoi] inverts [Itoa] on every 64-bit integer. *)
Lemma Atoi_Itoa n : in_i64 n -> Atoi (Itoa n) = Some n.
Proof.
  intros [H1 H2]. unfold Atoi, Itoa. destruct (n <? 0) eqn:E; bool_to_Z.
  - simpl. rewrite parse_nat_FormatUint by lia. simpl. rewrite Z.opp_involutive.
    apply Z.leb_le in H1. apply Z.ltb_lt in H2. by rewrite H1, H2.
  - rewrite signed_FormatUint by lia.
    apply Z.leb_le in H1. apply Z.ltb_lt in H2. by rewrite H1, H2.
Qed.

Lemma Itoa_mem c n :
  mem c (Itoa n) = true -> c = "-"%char \/ exists d, 0 <= d < 10 /\ c = digit_char d.
Proof.
  unfold Itoa. destruct (n <? 0) eqn:E; bool_to_Z.
  - simpl. intros [->%Ascii.eqb_eq|H]%orb_true_iff; [by left|right].
    apply FormatUint_mem in H; [done|lia].
  - intros H. right. apply FormatUint_mem in H; [done|lia].
Qed.

(** A byte that is neither a digit nor the sign does not occur in [Itoa n]. *)
Lemma Itoa_not_mem c n :
  digit c = None -> c <> "-"%char -> mem c (Itoa n) = false.
Proof.
  intros Hd Hm. apply not_true_iff_false. intros [->|(d & Hr & ->)]%Itoa_mem; [done|].
  by rewrite (proj1 (digit_char_spec d Hr)) in Hd.
Qed.

Lemma parse_digits_no_space acc s v : parse_digits acc s = Some v -> no_space s.
Proof.
  revert acc. induction s as [|c s IH]; intros acc; simpl; [done|].
  destruct (digit c) eqn:Hc; [|done]. intros H. apply no_space_cons. split; [|by eapply IH].
  destruct c as [[] [] [] [] [] [] [] []]; try reflexivity; discriminate Hc.
Qed.

Lemma parse_nat_word s v : parse_nat s = Some v -> no_space s /\ s <> "".
Proof.
  destruct s as [|c s]; [done|]. intros H. split; [by eapply parse_digits_no_space|done].
Qed.

Lemma signed_word s v : signed s = Some v -> no_space s /\ s <> "".
Proof.
  destruct s as [|c s]; [done|]. intros H. split; [|done].
  destruct (decide (c = "-"%char)) as [->|H1].
  { simpl in H. destruct (parse_nat s) eqn:E; [|done].
    apply no_space_cons. split; [done|]. by eapply parse_nat_word. }
  destruct (decide (c = "+"%char)) as [->|H2].
  { simpl in H. apply no_space_cons. split; [done|]. by eapply parse_nat_word. }
  rewrite signed_digits in H by done. by eapply parse_nat_word.
Qed.

Lemma Atoi_word s v : Atoi s = Some v -> no_space s /\ s <> "".
Proof.
  unfold Atoi. destruct (signed s) eqn:E; [|done]. intros _. by eapply signed_word.
Qed.

Lemma Atoi_range s v : Atoi s = Some v -> in_i64 v.
Proof.
  unfold Atoi. destruct (signed s); [|done]. case_match eqn:E; [|done].
  intros [= <-]. bool_to_Z. done.
Qed.

Lemma ParseUint_range s v : ParseUint s = Some v -> in_u64 v.
Proof.
  unfold ParseUint. destruct s as [|c s]; [done|].
  destruct (parse_digits 0 (String c s)) as [w|] eqn:E; [|done].
  destruct (w <? two64) eqn:L; [|done]. intros [= <-]. bool_to_Z. split; [|done].
  assert (forall t acc u, 0 <= acc -> parse_digits acc t = Some u -> 0 <= u) as Hnn.
  { clear. induction t as [|d t IH]; intros acc u Ha; simpl; [by intros [= <-]|].
    unfold digit, in_range. destruct (_ && _) eqn:R; [|done].
    apply andb_true_iff in R as [R _]. apply N.leb_le in R. intros H. apply IH in H; [done|].
    change (N_of_ascii "0") with 48%N in R. lia. }
  by eapply Hnn.
Qed.

#[export] Hint Resolve Atoi_range ParseUint_range : resman.

(** ** Searching for one byte, first and last bytes *)

Lemma Contains_char c s : Contains s (String c "") = mem c s.
Proof.
  induction s as [|d s IH]; [done|]. simpl. rewrite IH.
  destruct (ascii_dec c d) as [->|n].
  - rewrite Ascii.eqb_refl. by destruct s.
  - by rewrite (proj2 (Ascii.eqb_neq c d) n).
Qed.

Lemma mem_Itoa_nonneg c n : 0 <= n -> digit c = None -> mem c (Itoa n) = false.
Proof.
  intros Hn Hd. unfold Itoa. replace (n <? 0) with false by lia.
  apply not_true_iff_false. intros (d & Hr & ->)%FormatUint_mem; [|done].
  by rewrite (proj1 (digit_char_spec d Hr)) in Hd.
Qed.

Lemma Itoa_no_space n : no_space (Itoa n).
Proof.
  intros c Hc. apply Itoa_mem in Hc as [->|(d & Hd & ->)]; [done|]. by apply digit_char_spec.
Qed.

Lemma Itoa_not_empty n : Itoa n <> "".
Proof.
  unfold Itoa. destruct (n <? 0); [done|]. by destruct (FormatUint_cons n) as (d & r & ->).
Qed.

Lemma no_space_app a b : no_space a -> no_space b -> no_space (a +:+ b).
Proof. intros Ha Hb c. rewrite mem_app. intros [H|H]%orb_true_iff; auto. Qed.

Lemma last_byte_app a b : b <> "" -> last_byte (a +:+ b) = last_byte b.
Proof.
  intros Hb. induction a as [|c a IH]; [done|]. rewrite append_cons. rewrite <- IH.
  simpl. destruct (a +:+ b) eqn:E; [|done]. apply append_eq_empty in E as [_ ->]. done.
Qed.

(** ** Lemmas on lines *)

Lemma Split_app_single c a : mem c a = false -> Split (a +:+ String c "") c = [a; ""].
Proof. intros H. by rewrite Split_app. Qed.

Lemma scan_go_cons x l : l <> [] -> scan_go (x :: l) = drop_cr x :: scan_go l.
Proof. by destruct l. Qed.

Lemma ScanLines_line a s :
  mem newline a = false -> ScanLines (a +:+ String newline s) = drop_cr a :: ScanLines s.
Proof.
  intros H. unfold ScanLines. rewrite Split_app by done. apply scan_go_cons, Split_not_nil.
Qed.

Lemma ScanLines_last a : mem newline a = false -> a <> "" -> ScanLines a = [drop_cr a].
Proof.
  intros H Ha. unfold ScanLines. rewrite Split_no_sep by done. simpl.
  by rewrite (proj2 (String.eqb_neq _ _) Ha).
Qed.

Lemma drop_cr_id a : mem "013"%char a = false -> drop_cr a = a.
Proof.
  intros H. unfold drop_cr. destruct (last_byte a) as [c|] eqn:E; [|done].
  destruct (Ascii.eqb c "013") eqn:Ec; [|done]. apply Ascii.eqb_eq in Ec as ->.
  apply last_byte_mem in E. congruence.
Qed.

Lemma mem_Split c d s : mem c s = false -> Forall (fun w => mem c w = false) (Split s d).
Proof.
  induction s as [|e s IH]; simpl; [by constructor|]. intros [He Hs]%orb_false_iff.
  specialize (IH Hs). destruct (Ascii.eqb d e); [by constructor|].
  destruct (Split s d) as [|w ws]; [by repeat constructor; simpl; rewrite He|].
  apply Forall_cons in IH as [? ?]. constructor; [simpl; by rewrite He|done].
Qed.

Lemma Split_sep_free c s : Forall (fun w => mem c w = false) (Split s c).
Proof.
  induction s as [|e s IH]; simpl; [by constructor|].
  destruct (Ascii.eqb c e) eqn:E; [by constructor|].
  destruct (Split s c) as [|w ws]; [by repeat constructor; simpl; rewrite E|].
  apply Forall_cons in IH as [? ?]. constructor; [simpl; by rewrite E|done].
Qed.

(** The lines of a text without carriage returns: no line end left in them. *)
Lemma ScanLines_free s :
  mem "013"%char s = false ->
  Forall (fun w => mem newline w = false /\ mem "013"%char w = false) (ScanLines s).
Proof.
  intros H. unfold ScanLines.
  pose proof (Split_sep_free newline s) as H1. pose proof (mem_Split "013"%char newline s H) as H2.
  generalize dependent (Split s newline). intros l H1 H2.
  induction l as [|x l IH]; [constructor|].
  apply Forall_cons in H1 as [H1 Hl1]. apply Forall_cons in H2 as [H2 Hl2].
  destruct l as [|y l].
  - simpl. destruct (String.eqb x ""); [constructor|]. rewrite drop_cr_id by done. by repeat constructor.
  - rewrite scan_go_cons by done. rewrite drop_cr_id by done. constructor; [done|by apply IH].
Qed.

(** The text of a list of lines, each with its end marker. *)
Fixpoint Lines (l : list string) : string :=
  match l with [] => "" | x :: l' => x +:+ String newline (Lines l') end.

Lemma Lines_app l1 l2 : Lines (l1 ++ l2) = Lines l1 +:+ Lines l2.
Proof.
  induction l1 as [|x l1 IH]; [done|]. simpl. rewrite IH.
  by rewrite append_assoc, append_cons.
Qed.

Lemma ScanLines_Lines l :
  Forall (fun w => mem newline w = false /\ mem "013"%char w = false) l -> ScanLines (Lines l) = l.
Proof.
  induction 1 as [|x l [Hn Hc] _ IH]; [done|]. simpl. rewrite ScanLines_line by done.
  by rewrite IH, drop_cr_id.
Qed.

Lemma Join_Lines l : l <> [] -> Join l (String newline "") +:+ String newline "" = Lines l.
Proof.
  induction l as [|x [|y l] IH]; [done|done|]. intros _.
  change (x +:+ String newline "" +:+ Join (y :: l) (String newline "")) with
    (x +:+ (String newline "" +:+ Join (y :: l) (String newline ""))).
  change ((x +:+ String newline "" +:+ Join (y :: l) (String newline "")) +:+ String newline "" =
          x +:+ String newline (Lines (y :: l))).
  rewrite <- IH by done. rewrite !append_assoc. done.
Qed.

Lemma ScanLines_Join l :
  l <> [] -> Forall (fun w => mem newline w = false /\ mem "013"%char w = false /\ w <> "") l ->
  ScanLines (Join l (String newline "")) = l.
Proof.
  induction l as [|x [|y l] IH]; [done| |].
  - intros _ [(? & ? & ?) _]%Forall_cons. simpl. rewrite ScanLines_last by done. by rewrite drop_cr_id.
  - intros _ [(? & ? & ?) Hl]%Forall_cons.
    change (ScanLines (x +:+ String newline (Join (y :: l) (String newline ""))) = x :: y :: l).
    rewrite ScanLines_line by done. rewrite IH by done. by rewrite drop_cr_id.
Qed.
