(* ===== verification/GoNumbers.v ===== *)
(** * [strconv.ParseFloat]

    Decimal floating-point literals and the special values, rounded correctly
    to binary64 by exact integer arithmetic.  Hexadecimal literals, which no
    file the program reads contains, are outside this definition (it rejects
    them). *)

From S2P Require Import Prelude GoFloat GoStrings.
From Stdlib Require Import SpecFloat.

#[local] Open Scope Z_scope.

(** Value, number of digits and rest of the longest digit prefix. *)
Fixpoint scan_digits (acc n : Z) (s : string) : Z * Z * string :=
  match s with
  | String c s' =>
      match digit c with
      | Some d => scan_digits (acc * 10 + d) (n + 1) s'
      | None => (acc, n, s)
      end
  | EmptyString => (acc, n, s)
  end.

(** Exponents saturate at 10000, as in the library. *)
Fixpoint scan_exponent (acc : Z) (s : string) : option Z :=
  match s with
  | EmptyString => Some acc
  | String c s' =>
      match digit c with
      | Some d => scan_exponent (if acc <? 10000 then acc * 10 + d else acc) s'
      | None => None
      end
  end.

Definition exponent (s : string) : option Z :=
  match s with
  | EmptyString => Some 0
  | String c s' =>
      if Ascii.eqb c "e"%char || Ascii.eqb c "E"%char then
        match s' with
        | EmptyString => None
        | String "-"%char r => match r with EmptyString => None | _ => Z.opp <$> scan_exponent 0 r end
        | String "+"%char r => match r with EmptyString => None | _ => scan_exponent 0 r end
        | r => scan_exponent 0 r
        end
      else None
  end.

(** [m * 10^e], rounded once. *)
Definition f64_of_decimal (neg : bool) (m e : Z) : f64 :=
  match m with
  | Zpos p =>
      if 0 <=? e
      then binary_normalize 53 1024 (if neg then - (m * 10 ^ e) else m * 10 ^ e) 0 neg
      else fdiv (S754_finite neg p 0) (S754_finite false (Z.to_pos (10 ^ (- e))) 0)
  | _ => S754_zero neg
  end.

Definition decimal_value (neg : bool) (s : string) : option f64 :=
  let '(ip, n1, r1) := scan_digits 0 0 s in
  let '(m, n2, r2) :=
    match r1 with
    | String "."%char r => scan_digits ip 0 r
    | _ => (ip, 0, r1)
    end in
  if n1 + n2 =? 0 then None
  else match exponent r2 with
       | Some e => Some (f64_of_decimal neg m (e - n2))
       | None => None
       end.

(** A range error gives no value. *)
Definition parse_decimal (neg : bool) (s : string) : option f64 :=
  match decimal_value neg s with
  | Some (S754_infinity _) => None
  | r => r
  end.

Definition special (neg sign : bool) (s : string) : option f64 :=
  let l := ToLower s in
  if String.eqb l "inf" || String.eqb l "infinity" then Some (S754_infinity neg)
  else if negb sign && String.eqb l "nan" then Some S754_nan
  else None.

(** The two signs: is it negative, is there one at all? *)
Definition float_sign (s : string) : bool * bool * string :=
  match s with
  | String "-"%char r => (true, true, r)
  | String "+"%char r => (false, true, r)
  | _ => (false, false, s)
  end.

(** [strconv.ParseFloat(s, 64)]; [None] is a syntax or range error. *)
Definition ParseFloat (s : string) : option f64 :=
  let '(neg, sign, r) := float_sign s in
  match special neg sign r with
  | Some v => Some v
  | None => parse_decimal neg r
  end.

(** The number [ParseFloat] returns beside its error: an infinity out of
    range, 0 on a syntax error. *)
Definition ParseFloat_value (s : string) : f64 :=
  let '(neg, sign, r) := float_sign s in
  match special neg sign r with
  | Some v => v
  | None => default fzero (decimal_value neg r)
  end.

(** [ParseFloat] with the error it returns. *)
Definition ParseFloatE (s : string) : result f64 :=
  match ParseFloat s with
  | Some x => Ok x
  | None => Err (num_error "ParseFloat" s match ParseFloat_value s with S754_infinity _ => range_error | _ => syntax_error end)
  end.

Example ParseFloat_decimal : ParseFloat "25.50" = Some (lit 51 2).
Proof. vm_compute. reflexivity. Qed.

Example ParseFloat_tenth : ParseFloat "0.1" = Some (lit 1 10).
Proof. vm_compute. reflexivity. Qed.

Example ParseFloat_exp : ParseFloat "-1.5e3" = Some (f64_of_Z (-1500)).
Proof. vm_compute. reflexivity. Qed.

Example ParseFloat_rejects : ParseFloat "1.2.3" = None /\ ParseFloat "" = None /\ ParseFloat "1e999" = None.
Proof. vm_compute. done. Qed.
