(* ===== verification/Calendar.v ===== *)
(** * Dates
      (the calendar of Go's package time)

    Civil dates of the Gregorian calendar, numbered by days since
    January 1 of year 1 (a Monday), the zone of a location as a parameter, and
    RFC 3339 texts.  [days_of] and [civil_of] are inverse to each other. *)

From S2P Require Import Prelude GoStrings.

#[local] Open Scope Z_scope.

(** ** Days and dates *)

Definition is_leap (y : Z) : bool := (y mod 4 =? 0) && (negb (y mod 100 =? 0) || (y mod 400 =? 0)).

(** The days of a common year before each month. *)
Definition days_before (leap : bool) (m : Z) : Z :=
  let extra := if leap then 1 else 0 in
  if m <=? 1 then 0 else if m =? 2 then 31 else if m =? 3 then 59 + extra else if m =? 4 then 90 + extra
  else if m =? 5 then 120 + extra else if m =? 6 then 151 + extra else if m =? 7 then 181 + extra
  else if m =? 8 then 212 + extra else if m =? 9 then 243 + extra else if m =? 10 then 273 + extra
  else if m =? 11 then 304 + extra else if m =? 12 then 334 + extra else 365 + extra.

Definition daysIn (m y : Z) : Z := days_before (is_leap y) (m + 1) - days_before (is_leap y) m.

Definition days_before_year (y : Z) : Z := 365 * (y - 1) + (y - 1) / 4 - (y - 1) / 100 + (y - 1) / 400.

(** A day outside its month runs over into its neighbours. *)
Definition days_of (y m d : Z) : Z := days_before_year y + days_before (is_leap y) m + (d - 1).

Definition year_of (day : Z) : Z :=
  let y := day * 400 / 146097 + 1 in
  if day <? days_before_year y then y - 1 else if days_before_year (y + 1) <=? day then y + 1 else y.

(** The month of a day of the year. *)
Definition month_of (leap : bool) (yday : Z) : Z :=
  default 1 (List.find (fun m => days_before leap m <=? yday) [12; 11; 10; 9; 8; 7; 6; 5; 4; 3; 2]).

Definition civil_of (day : Z) : Z * Z * Z :=
  let y := year_of day in
  let yday := day - days_before_year y in
  let m := month_of (is_leap y) yday in
  (y, m, yday - days_before (is_leap y) m + 1).

(** [Weekday]: 0 is Sunday. *)
Definition weekday_of (day : Z) : Z := (day + 1) mod 7.

Definition valid_date (y m d : Z) : Prop := 1 <= m <= 12 /\ 1 <= d <= daysIn m y.

(** ** Instants in a location

    The zone database is a parameter: [local_lookup] gives the offset in use at
    a second since year 1, with the first second it was in use and the first
    one it is not.  A [time.Time] is an instant and the location it is shown in. *)

Class Zones := { local_lookup : Z -> Z * Z * Z }.

(** A machine on universal time, for witnesses. *)
Definition greenwich : Zones := {| local_lookup _ := (0, - two63, two63 - 1) |}.

Inductive Location := UTC | Local | FixedZone (offset : Z).

Record GoTime := mkGoTime { t_at : Time; t_loc : Location }.

Section Zones.
Context `{Zn : Zones}.

Definition lookup_zone (loc : Location) (sec : Z) : Z * Z * Z :=
  match loc with
  | UTC => (0, - two63, two63 - 1)
  | Local => local_lookup sec
  | FixedZone offset => (offset, - two63, two63 - 1)
  end.

Definition offset_of (t : GoTime) : Z := (lookup_zone (t_loc t) (t_at t / second)).1.1.

(** Seconds since year 1 on the clocks of the location. *)
Definition local_sec (t : GoTime) : Z := t_at t / second + offset_of t.

Definition local_day (t : GoTime) : Z := local_sec t / 86400.

(** Seconds since local midnight. *)
Definition clock_of (t : GoTime) : Z := local_sec t mod 86400.

Definition Weekday (t : GoTime) : Z := weekday_of (local_day t).

(** The end of [time.Date]: the offset is looked up at the local time taken as
    universal time, and once more when that is across a transition. *)
Definition zoned (loc : Location) (sec : Z) : Z :=
  let '(offset, start, stop) := lookup_zone loc sec in
  if offset =? 0 then sec
  else
    let utc := sec - offset in
    sec - (if (utc <? start) || (stop <=? utc) then (lookup_zone loc utc).1.1 else offset).

Definition Date (year month day hour min sec nsec : Z) (loc : Location) : GoTime :=
  let y := year + (month - 1) / 12 in
  let m := (month - 1) mod 12 + 1 in
  mkGoTime (zoned loc (days_of y m day * 86400 + hour * 3600 + min * 60 + sec) * second + nsec) loc.

Definition Add (d : Duration) (t : GoTime) : GoTime := mkGoTime (t_at t + d) (t_loc t).

Definition AddDate (years months days : Z) (t : GoTime) : GoTime :=
  let '(y, m, d) := civil_of (local_day t) in
  let c := clock_of t in
  Date (y + years) (m + months) (d + days) (c / 3600) (c / 60 mod 60) (c mod 60) (t_at t mod second) (t_loc t).

End Zones.

(** ** Lemmas *)

Lemma days_before_year_step y : days_before_year (y + 1) = days_before_year y + (if is_leap y then 366 else 365).
Proof.
  unfold days_before_year, is_leap. replace (y + 1 - 1) with y by lia.
  destruct (Z.eqb_spec (y mod 4) 0), (Z.eqb_spec (y mod 100) 0), (Z.eqb_spec (y mod 400) 0); cbn [negb orb andb];
    Z.to_euclidean_division_equations; lia.
Qed.

Lemma days_before_year_bounds y : 146097 * (y - 1) <= 400 * days_before_year y + 591 /\ 400 * days_before_year y <= 146097 * (y - 1) + 303.
Proof. unfold days_before_year. split; Z.to_euclidean_division_equations; lia. Qed.

Lemma year_of_spec day : days_before_year (year_of day) <= day < days_before_year (year_of day + 1).
Proof.
  unfold year_of. set (y := day * 400 / 146097 + 1).
  assert (146097 * (y - 1) <= 400 * day < 146097 * y) as Hy.
  { unfold y. pose proof (Z.div_mod (day * 400) 146097). pose proof (Z.mod_pos_bound (day * 400) 146097). lia. }
  destruct (Z.ltb_spec day (days_before_year y)).
  - replace (y - 1 + 1) with y by lia. split; [|done]. pose proof (days_before_year_bounds (y - 1)). lia.
  - destruct (Z.leb_spec (days_before_year (y + 1)) day); [|done]. split; [done|].
    pose proof (days_before_year_bounds (y + 1 + 1)). lia.
Qed.

Lemma days_before_year_mono y y' : y <= y' -> days_before_year y <= days_before_year y'.
Proof. intros H. unfold days_before_year. Z.to_euclidean_division_equations. lia. Qed.

Lemma year_of_unique day y : days_before_year y <= day < days_before_year (y + 1) -> year_of day = y.
Proof.
  intros H. pose proof (year_of_spec day) as Hy. destruct (Z.lt_trichotomy (year_of day) y) as [Hl|[?|Hl]]; [|done|].
  - pose proof (days_before_year_mono (year_of day + 1) y). lia.
  - pose proof (days_before_year_mono (y + 1) (year_of day)). lia.
Qed.

(** The table, evaluated. *)
Ltac months :=
  let table l k := (let v := eval cbv in (days_before l k) in change (days_before l k) with v in *) in
  repeat match goal with
  | |- context [days_before ?l (Zpos ?p)] => table l (Zpos p)
  | |- context [days_before ?l (Zpos ?p + 1)] => table l (Zpos p + 1)
  | H : context [days_before ?l (Zpos ?p)] |- _ => table l (Zpos p)
  | H : context [days_before ?l (Zpos ?p + 1)] |- _ => table l (Zpos p + 1)
  end.

Lemma month_of_spec leap yday : 0 <= yday < days_before leap 13 ->
  1 <= month_of leap yday <= 12 /\ days_before leap (month_of leap yday) <= yday < days_before leap (month_of leap yday + 1).
Proof.
  intros H. unfold month_of. destruct leap; cbn [List.find]; months;
    repeat match goal with |- context [?x <=? yday] => destruct (Z.leb_spec x yday); cbn [default from_option id]; months end; lia.
Qed.

Lemma days_before_le leap m m' : 1 <= m -> m <= m' -> m' <= 13 -> days_before leap m <= days_before leap m'.
Proof.
  intros H1 H2 H3.
  assert (forallb (fun k => forallb (fun k' => implb (k <=? k') (days_before leap k <=? days_before leap k')) (seqZ 1 13)) (seqZ 1 13) = true)
    as K by (by destruct leap; vm_compute).
  rewrite List.forallb_forall in K. specialize (K m). rewrite List.forallb_forall in K.
  assert (forall k, 1 <= k <= 13 -> List.In k (seqZ 1 13)) as Hin by (intros k Hk; apply list_elem_of_In, elem_of_seqZ; lia).
  specialize (K (Hin m ltac:(lia)) m' (Hin m' ltac:(lia))). rewrite (proj2 (Z.leb_le m m') H2) in K. by apply Z.leb_le in K.
Qed.

Lemma month_of_unique leap yday m :
  1 <= m <= 12 -> days_before leap m <= yday < days_before leap (m + 1) -> month_of leap yday = m.
Proof.
  intros Hm H. pose proof (days_before_le leap 1 m ltac:(lia) ltac:(lia) ltac:(lia)) as H0.
  pose proof (days_before_le leap (m + 1) 13 ltac:(lia) ltac:(lia) ltac:(lia)) as H1.
  destruct (month_of_spec leap yday) as [Hm' H']; [months; lia|].
  destruct (Z.lt_trichotomy (month_of leap yday) m) as [Hl|[?|Hl]]; [|done|].
  - pose proof (days_before_le leap (month_of leap yday + 1) m). lia.
  - pose proof (days_before_le leap (m + 1) (month_of leap yday)). lia.
Qed.

Lemma year_length y : days_before (is_leap y) 13 = days_before_year (y + 1) - days_before_year y.
Proof. rewrite days_before_year_step. destruct (is_leap y); cbn; lia. Qed.

Lemma civil_of_valid day : let '(y, m, d) := civil_of day in valid_date y m d /\ days_of y m d = day.
Proof.
  unfold civil_of, valid_date, days_of, daysIn. cbn zeta. pose proof (year_of_spec day) as Hy.
  destruct (month_of_spec (is_leap (year_of day)) (day - days_before_year (year_of day))) as [Hm Hd].
  { rewrite year_length. lia. }
  lia.
Qed.

Lemma civil_of_days y m d : valid_date y m d -> civil_of (days_of y m d) = (y, m, d).
Proof.
  intros [Hm Hd]. unfold daysIn in Hd. pose proof (days_before_le (is_leap y) 1 m ltac:(lia) ltac:(lia) ltac:(lia)) as H0.
  pose proof (days_before_le (is_leap y) (m + 1) 13 ltac:(lia) ltac:(lia) ltac:(lia)) as H1. change (days_before (is_leap y) 1) with 0 in H0.
  pose proof (year_length y) as Hl.
  assert (year_of (days_of y m d) = y) as Hy by (apply year_of_unique; unfold days_of; lia).
  unfold civil_of. rewrite Hy. cbn zeta.
  assert (month_of (is_leap y) (days_of y m d - days_before_year y) = m) as -> by (apply month_of_unique; unfold days_of; lia).
  unfold days_of. f_equal. lia.
Qed.

(** ** Decimal fields of a fixed width *)

Fixpoint fixed_digits (w : nat) (n : Z) (acc : string) : string :=
  match w with
  | O => acc
  | S w' => fixed_digits w' (n / 10) (String (digit_char (n mod 10)) acc)
  end.

(** [appendInt]: at least [w] digits. *)
Definition append_int (n : Z) (w : nat) : string :=
  let print n := if n <? 10 ^ Z.of_nat w then fixed_digits w n "" else FormatUint n in
  if n <? 0 then String "-"%char (print (- n)) else print n.

(** [getnum]: two digits, or one unless [fixed]. *)
Definition getnum (s : string) (fixed : bool) : option (Z * string) :=
  match s with
  | String a r =>
      match digit a with
      | None => None
      | Some x =>
          match r with
          | String b r' =>
              match digit b with
              | Some y => Some (x * 10 + y, r')
              | None => if fixed then None else Some (x, r)
              end
          | EmptyString => if fixed then None else Some (x, r)
          end
      end
  | EmptyString => None
  end.

(** A number of two digits within bounds. *)
Definition field (fixed : bool) (lo hi : Z) (s : string) : option (Z * string) :=
  match getnum s fixed with
  | Some (n, r) => if (lo <=? n) && (n <=? hi) then Some (n, r) else None
  | None => None
  end.

Definition skip (c : ascii) (s : string) : option string :=
  match s with
  | String d r => if Ascii.eqb d c then Some r else None
  | EmptyString => None
  end.

Definition four_digits (s : string) : option (Z * string) :=
  match s with
  | String a (String b (String c (String d r))) =>
      match digit a, digit b, digit c, digit d with
      | Some a, Some b, Some c, Some d => Some (a * 1000 + b * 100 + c * 10 + d, r)
      | _, _, _, _ => None
      end
  | _ => None
  end.

(** ** RFC 3339 *)

Section RFC3339.
Context `{Zn : Zones}.

(** [Format(time.RFC3339)]. *)
Definition format_RFC3339 (t : GoTime) : string :=
  let '(y, m, d) := civil_of (local_day t) in
  let c := clock_of t in
  append_int y 4 +:+ "-" +:+ append_int m 2 +:+ "-" +:+ append_int d 2 +:+ "T" +:+
  append_int (c / 3600) 2 +:+ ":" +:+ append_int (c / 60 mod 60) 2 +:+ ":" +:+ append_int (c mod 60) 2 +:+
  (if offset_of t =? 0 then "Z"
   else
     let zone := Z.quot (offset_of t) 60 in
     (if zone <? 0 then "-" else "+") +:+ append_int (Z.abs zone / 60) 2 +:+ ":" +:+ append_int (Z.abs zone mod 60) 2).

(** The leading digits, and what follows. *)
Fixpoint leading_digits (s : string) : list Z * string :=
  match s with
  | String c r =>
      match digit c with
      | Some d => let '(ds, rest) := leading_digits r in (d :: ds, rest)
      | None => ([], s)
      end
  | EmptyString => ([], s)
  end.

(** The first nine of them, as nanoseconds. *)
Fixpoint nanos (scale : nat) (ds : list Z) : Z :=
  match scale, ds with
  | S scale, d :: ds => d * 10 ^ Z.of_nat scale + nanos scale ds
  | _, _ => 0
  end.

(** A fraction of a second that the layout does not ask for. *)
Definition fraction (s : string) : Z * string :=
  match s with
  | String c r =>
      if (Ascii.eqb c "."%char || Ascii.eqb c ","%char) then
        match leading_digits r with
        | ([], _) => (0, s)
        | (ds, rest) => (nanos 9 ds, rest)
        end
      else (0, s)
  | EmptyString => (0, s)
  end.

(** [None] is universal time. *)
Definition zone_field (s : string) : option (option Z * string) :=
  match s with
  | String sign r =>
      if Ascii.eqb sign "Z"%char then Some (None, r)
      else
        field true 0 24 r ≫= fun '(hr, r) =>
        skip ":"%char r ≫= fun r =>
        field true 0 60 r ≫= fun '(mm, r) =>
        if Ascii.eqb sign "+"%char then Some (Some ((hr * 60 + mm) * 60), r)
        else if Ascii.eqb sign "-"%char then Some (Some (- ((hr * 60 + mm) * 60)), r)
        else None
  | EmptyString => None
  end.

(** Year, month and day of [2006-01-02]; the day is checked at the end. *)
Definition date_field (s : string) : option (Z * Z * Z * string) :=
  four_digits s ≫= fun '(y, r) =>
  skip "-"%char r ≫= fun r =>
  field true 1 12 r ≫= fun '(m, r) =>
  skip "-"%char r ≫= fun r =>
  getnum r true ≫= fun '(d, r) =>
  Some (y, m, d, r).

Definition day_ok (y m d : Z) : bool := (1 <=? d) && (d <=? daysIn m y).

(** [time.Parse("2006-01-02", s)]. *)
Definition parse_date (s : string) : option (Z * Z * Z) :=
  date_field s ≫= fun '(y, m, d, r) =>
  if String.eqb r "" && day_ok y m d then Some (y, m, d) else None.

(** [time.Parse(time.RFC3339, s)]: the hour may have one digit. *)
Definition parse_RFC3339 (s : string) : option GoTime :=
  date_field s ≫= fun '(y, m, d, r) =>
  skip "T"%char r ≫= fun r =>
  field false 0 23 r ≫= fun '(h, r) =>
  skip ":"%char r ≫= fun r =>
  field true 0 59 r ≫= fun '(mi, r) =>
  skip ":"%char r ≫= fun r =>
  field true 0 59 r ≫= fun '(sec, r) =>
  let '(nsec, r) := fraction r in
  zone_field r ≫= fun '(zone, r) =>
  if negb (String.eqb r "" && day_ok y m d) then None
  else
    let t := t_at (Date y m d h mi sec nsec UTC) in
    match zone with
    | None => Some (mkGoTime t UTC)
    | Some offset =>
        let t := t - offset * second in
        Some (mkGoTime t (if (lookup_zone Local (t / second)).1.1 =? offset then Local else FixedZone offset))
    end.

End RFC3339.

(** ** Lemmas on the fields *)

Lemma append_int_2 n r : 0 <= n < 100 ->
  append_int n 2 +:+ r = String (digit_char (n / 10)) (String (digit_char (n mod 10)) r).
Proof.
  intros H. unfold append_int. rewrite (proj2 (Z.ltb_ge n 0)), (proj2 (Z.ltb_lt n (10 ^ Z.of_nat 2))) by (cbn; lia).
  cbn [fixed_digits]. rewrite (Z.mod_small (n / 10)) by (Z.to_euclidean_division_equations; lia). done.
Qed.

Lemma digit_of_char d : 0 <= d < 10 -> digit (digit_char d) = Some d.
Proof. intros H. by apply digit_char_spec. Qed.

Lemma getnum_append n r fixed : 0 <= n < 100 -> getnum (append_int n 2 +:+ r) fixed = Some (n, r).
Proof.
  intros H. rewrite append_int_2 by done. cbn [getnum].
  rewrite !digit_of_char by (Z.to_euclidean_division_equations; lia). do 2 f_equal. Z.to_euclidean_division_equations. lia.
Qed.

Lemma field_append n r fixed lo hi : 0 <= lo -> lo <= n <= hi -> hi < 100 -> field fixed lo hi (append_int n 2 +:+ r) = Some (n, r).
Proof.
  intros H1 H2 H3. unfold field. rewrite getnum_append by lia.
  by rewrite (proj2 (Z.leb_le lo n)), (proj2 (Z.leb_le n hi)) by lia.
Qed.

Lemma four_digits_append n r : 0 <= n < 10000 -> four_digits (append_int n 4 +:+ r) = Some (n, r).
Proof.
  intros H. unfold append_int. rewrite (proj2 (Z.ltb_ge n 0)), (proj2 (Z.ltb_lt n (10 ^ Z.of_nat 4))) by (cbn; lia).
  cbn [fixed_digits]. rewrite !append_cons, append_nil_l. cbn [four_digits].
  rewrite !digit_of_char by (Z.to_euclidean_division_equations; lia). do 2 f_equal. Z.to_euclidean_division_equations. lia.
Qed.

Lemma fraction_none c r : c <> "."%char -> c <> ","%char -> fraction (String c r) = (0, String c r).
Proof. intros H1 H2. cbn [fraction]. by rewrite (proj2 (Ascii.eqb_neq c _) H1), (proj2 (Ascii.eqb_neq c _) H2). Qed.

Lemma skip_append c r : skip c (String c "" +:+ r) = Some r.
Proof. change (skip c (String c r) = Some r). cbn [skip]. by rewrite Ascii.eqb_refl. Qed.

(** A printed date, and what follows it. *)
Definition print_date (y m d : Z) : string := append_int y 4 +:+ "-" +:+ append_int m 2 +:+ "-" +:+ append_int d 2.

Lemma daysIn_bound m y : 1 <= m <= 12 -> daysIn m y <= 31.
Proof.
  intros Hm. unfold daysIn, days_before. destruct (is_leap y);
    repeat match goal with |- context [?x <=? ?k] => destruct (Z.leb_spec x k) | |- context [?x =? ?k] => destruct (Z.eqb_spec x k) end; lia.
Qed.

Lemma date_field_print y m d r : 0 <= y < 10000 -> valid_date y m d -> date_field (print_date y m d +:+ r) = Some (y, m, d, r).
Proof.
  intros Hy [Hm Hd]. pose proof (daysIn_bound m y Hm). unfold date_field, print_date. rewrite !append_assoc.
  rewrite four_digits_append by done. cbn [mbind option_bind]. rewrite skip_append. cbn [mbind option_bind].
  rewrite field_append by lia. cbn [mbind option_bind]. rewrite skip_append. cbn [mbind option_bind].
  by rewrite getnum_append by lia.
Qed.

Lemma day_ok_valid y m d : valid_date y m d -> day_ok y m d = true.
Proof. intros [_ H]. unfold day_ok. by rewrite (proj2 (Z.leb_le 1 d)), (proj2 (Z.leb_le d _)) by lia. Qed.

Lemma parse_date_print y m d : 0 <= y < 10000 -> valid_date y m d -> parse_date (print_date y m d) = Some (y, m, d).
Proof.
  intros Hy Hv. unfold parse_date. rewrite <- (append_nil_r (print_date y m d)), date_field_print by done.
  cbn [mbind option_bind]. by rewrite day_ok_valid.
Qed.

Section Printed.
Context `{Zn : Zones}.

(** An instant with whole seconds, whose year has four digits, in a zone of
    whole minutes within a day of Greenwich. *)
Definition printable (t : GoTime) : Prop :=
  t_at t mod second = 0 /\ 0 <= (civil_of (local_day t)).1.1 < 10000 /\ offset_of t mod 60 = 0 /\ -86400 < offset_of t < 86400.

Lemma zone_field_print offset : offset mod 60 = 0 -> -86400 < offset < 86400 -> offset <> 0 ->
  zone_field ((if Z.quot offset 60 <? 0 then "-" else "+") +:+ append_int (Z.abs (Z.quot offset 60) / 60) 2 +:+ ":" +:+
              append_int (Z.abs (Z.quot offset 60) mod 60) 2) = Some (Some offset, "").
Proof.
  intros Hm Hb Hn. set (q := Z.quot offset 60). assert (offset = q * 60) as Hq.
  { unfold q. pose proof (Z.quot_rem' offset 60). pose proof (Z.rem_mod offset 60). Z.to_euclidean_division_equations. lia. }
  assert (forall sign, Ascii.eqb sign "Z"%char = false ->
    zone_field (String sign (append_int (Z.abs q / 60) 2 +:+ ":" +:+ append_int (Z.abs q mod 60) 2)) =
    if Ascii.eqb sign "+"%char then Some (Some ((Z.abs q / 60 * 60 + Z.abs q mod 60) * 60), "")
    else if Ascii.eqb sign "-"%char then Some (Some (- ((Z.abs q / 60 * 60 + Z.abs q mod 60) * 60)), "") else None) as K.
  { intros sign Hs. cbn [zone_field]. rewrite Hs, field_append by (Z.to_euclidean_division_equations; lia). cbn [mbind option_bind].
    rewrite skip_append. cbn [mbind option_bind]. rewrite <- (append_nil_r (append_int (Z.abs q mod 60) 2)).
    by rewrite field_append by (Z.to_euclidean_division_equations; lia). }
  destruct (Z.ltb_spec q 0).
  - change ("-" +:+ ?r) with (String "-"%char r). rewrite K by done. cbn [Ascii.eqb Bool.eqb]. do 3 f_equal.
    Z.to_euclidean_division_equations. lia.
  - change ("+" +:+ ?r) with (String "+"%char r). rewrite K by done. cbn [Ascii.eqb Bool.eqb]. do 3 f_equal.
    Z.to_euclidean_division_equations. lia.
Qed.

(** The fields of the clock. *)
Lemma clock_fields t :
  let c := clock_of t in
  0 <= c / 3600 <= 23 /\ 0 <= c / 60 mod 60 <= 59 /\ 0 <= c mod 60 <= 59 /\
  c / 3600 * 3600 + c / 60 mod 60 * 60 + c mod 60 = c /\ local_day t * 86400 + c = local_sec t.
Proof.
  cbn zeta. unfold clock_of, local_day. generalize (local_sec t). intros n. split_and!; Z.to_euclidean_division_equations; lia.
Qed.

Lemma Date_valid y m d h mi sec nsec loc :
  valid_date y m d -> Date y m d h mi sec nsec loc = mkGoTime (zoned loc (days_of y m d * 86400 + h * 3600 + mi * 60 + sec) * second + nsec) loc.
Proof.
  intros [Hm _]. unfold Date. rewrite (Z.div_small (m - 1)), (Z.mod_small (m - 1)) by lia. cbn zeta.
  by replace (y + 0) with y by lia; replace (m - 1 + 1) with m by lia.
Qed.

Lemma format_split t :
  format_RFC3339 t =
  let '(y, m, d) := civil_of (local_day t) in
  let c := clock_of t in
  print_date y m d +:+ "T" +:+ append_int (c / 3600) 2 +:+ ":" +:+ append_int (c / 60 mod 60) 2 +:+ ":" +:+
  append_int (c mod 60) 2 +:+
  (if offset_of t =? 0 then "Z"
   else (if Z.quot (offset_of t) 60 <? 0 then "-" else "+") +:+ append_int (Z.abs (Z.quot (offset_of t) 60) / 60) 2 +:+ ":" +:+
        append_int (Z.abs (Z.quot (offset_of t) 60) mod 60) 2).
Proof. unfold format_RFC3339, print_date. destruct (civil_of _) as [[y m] d]. by rewrite !append_assoc. Qed.

(** Parsing what was printed gives the same instant. *)
Lemma parse_format t : printable t -> exists loc, parse_RFC3339 (format_RFC3339 t) = Some (mkGoTime (t_at t) loc).
Proof.
  intros (Hs & Hy & Hm & Ho). rewrite format_split. pose proof (civil_of_valid (local_day t)) as Hd.
  destruct (civil_of (local_day t)) as [[y m] d]. destruct Hd as [Hv Hd]. cbn [fst] in Hy. cbn zeta.
  destruct (clock_fields t) as (H1 & H2 & H3 & H4 & H5). set (c := clock_of t) in *.
  set (zone := if offset_of t =? 0 then "Z" else _).
  assert (zone_field zone = Some (if offset_of t =? 0 then None else Some (offset_of t), "") /\ fraction zone = (0, zone)) as [Hz Hf].
  { unfold zone. destruct (Z.eqb_spec (offset_of t) 0); [done|]. split; [by apply zone_field_print|].
    destruct (_ <? 0); by apply fraction_none. }
  clearbody zone. unfold parse_RFC3339. rewrite date_field_print by done. cbn [mbind option_bind].
  rewrite skip_append. cbn [mbind option_bind]. rewrite field_append by lia. cbn [mbind option_bind].
  rewrite skip_append. cbn [mbind option_bind]. rewrite field_append by lia. cbn [mbind option_bind].
  rewrite skip_append. cbn [mbind option_bind]. rewrite field_append by lia. cbn [mbind option_bind].
  rewrite Hf, Hz. cbn [mbind option_bind]. rewrite day_ok_valid, Date_valid by done. cbn [String.eqb negb andb t_at].
  assert (zoned UTC (days_of y m d * 86400 + c / 3600 * 3600 + c / 60 mod 60 * 60 + c mod 60) = local_sec t) as -> by (unfold zoned; cbn; lia).
  assert (t_at t = (local_sec t - offset_of t) * second) as Ht.
  { unfold local_sec. pose proof (Z.div_mod (t_at t) second). unfold second in *. lia. }
  destruct (Z.eqb_spec (offset_of t) 0) as [E|E].
  - exists UTC. do 2 f_equal. rewrite Ht, E. unfold second. lia.
  - eexists. do 2 f_equal. rewrite Ht. unfold second. lia.
Qed.

End Printed.
