(* ===== verification/SqlText.v ===== *)
(** * Times as the database stores them
      (the column type DATETIME of the SQLite driver)

    The driver stores a [time.Time] as a text in the layout
    "2006-01-02 15:04:05.999999999-07:00" and the engine compares texts byte by
    byte: in the order of the clocks of their locations ([stored_order]). *)

From S2P Require Import Prelude GoStrings GoNumbers Calendar.

#[local] Open Scope Z_scope.

(** ** The layout *)

(** [.999999999]: the digits of [n], of width [w], without trailing zeros. *)
Fixpoint frac_digits (w : nat) (n : Z) : string :=
  match w with
  | O => ""
  | S w => if n =? 0 then "" else String (digit_char (n / 10 ^ Z.of_nat w)) (frac_digits w (n mod 10 ^ Z.of_nat w))
  end.

Definition frac_text (nsec : Z) : string := if nsec =? 0 then "" else "." +:+ frac_digits 9 nsec.

(** [-07:00]. *)
Definition zone_text (offset : Z) : string :=
  let zone := Z.quot offset 60 in
  (if zone <? 0 then "-" else "+") +:+ append_int (Z.abs zone / 60) 2 +:+ ":" +:+ append_int (Z.abs zone mod 60) 2.

Section Text.
Context `{Zn : Zones}.

Definition sqlite_text (t : GoTime) : string :=
  let '(y, m, d) := civil_of (local_day t) in
  let c := clock_of t in
  append_int y 4 +:+ "-" +:+ append_int m 2 +:+ "-" +:+ append_int d 2 +:+ " " +:+
  append_int (c / 3600) 2 +:+ ":" +:+ append_int (c / 60 mod 60) 2 +:+ ":" +:+ append_int (c mod 60) 2 +:+
  frac_text (t_at t mod second) +:+ zone_text (offset_of t).

(** The driver parses it back: the offset of the text, in whole minutes, becomes
    the zone. *)
Definition stored (t : GoTime) : GoTime :=
  let zone := Z.quot (offset_of t) 60 * 60 in
  mkGoTime (t_at t + (offset_of t - zone) * second) (if zone =? 0 then UTC else FixedZone zone).

End Text.

(** ** Lexicographic order *)

Definition lex (a b : comparison) : comparison := match a with Eq => b | _ => a end.

Lemma lex_assoc a b c : lex (lex a b) c = lex a (lex b c).
Proof. by destruct a. Qed.

Lemma lex_divmod n m b : 0 < b -> lex (n / b ?= m / b) (n mod b ?= m mod b) = (n ?= m).
Proof.
  intros Hb. pose proof (Z.div_mod n b ltac:(lia)). pose proof (Z.div_mod m b ltac:(lia)).
  pose proof (Z.mod_pos_bound n b Hb). pose proof (Z.mod_pos_bound m b Hb).
  destruct (Z.compare_spec (n / b) (m / b)); cbn [lex]; destruct (Z.compare_spec (n mod b) (m mod b));
    symmetry; try (apply Z.compare_lt_iff; nia); try (apply Z.compare_gt_iff; nia); apply Z.compare_eq_iff; nia.
Qed.

Lemma compare_refl s : String.compare s s = Eq.
Proof. induction s as [|c s IH]; [done|]. cbn. by unfold Ascii.compare; rewrite N.compare_refl. Qed.

Lemma compare_same c x y : String.compare (String c x) (String c y) = String.compare x y.
Proof. cbn. by unfold Ascii.compare; rewrite N.compare_refl. Qed.

Lemma compare_same_app a x y : String.compare (a +:+ x) (a +:+ y) = String.compare x y.
Proof. induction a as [|c a IH]; [done|]. rewrite !append_cons. by rewrite compare_same. Qed.

Lemma leb_trans a b c : String.leb a b = true -> String.leb b c = true -> String.leb a c = true.
Proof.
  unfold String.leb. revert b c. induction a as [|x a IH]; intros [|y b] [|z c]; cbn; try done. unfold Ascii.compare.
  destruct (N.compare_spec (N_of_ascii x) (N_of_ascii y)) as [E1|E1|E1], (N.compare_spec (N_of_ascii y) (N_of_ascii z)) as [E2|E2|E2],
    (N.compare_spec (N_of_ascii x) (N_of_ascii z)) as [E3|E3|E3]; try done; try lia. apply IH.
Qed.

Lemma compare_digits d e x y : 0 <= d < 10 -> 0 <= e < 10 ->
  String.compare (String (digit_char d) x) (String (digit_char e) y) = lex (d ?= e) (String.compare x y).
Proof.
  intros Hd He. cbn [String.compare]. assert (Ascii.compare (digit_char d) (digit_char e) = (d ?= e)) as ->; [|by destruct (d ?= e)].
  unfold Ascii.compare, digit_char. rewrite !N_ascii_embedding by lia. rewrite Z2N.inj_compare by lia.
  destruct (Z.compare_spec d e), (Z.compare_spec (d + 48) (e + 48)); try lia; done.
Qed.

Lemma compare_two n m x y : 0 <= n < 100 -> 0 <= m < 100 ->
  String.compare (append_int n 2 +:+ x) (append_int m 2 +:+ y) = lex (n ?= m) (String.compare x y).
Proof.
  intros Hn Hm. rewrite !append_int_2 by done. rewrite !compare_digits by (Z.to_euclidean_division_equations; lia).
  by rewrite <- lex_assoc, lex_divmod.
Qed.

Lemma append_int_4 n r : 0 <= n < 10000 -> append_int n 4 +:+ r = append_int (n / 100) 2 +:+ (append_int (n mod 100) 2 +:+ r).
Proof.
  intros H. rewrite !append_int_2 by (Z.to_euclidean_division_equations; lia). unfold append_int.
  rewrite (proj2 (Z.ltb_ge n 0)), (proj2 (Z.ltb_lt n (10 ^ Z.of_nat 4))) by (cbn; lia). cbn [fixed_digits].
  rewrite !append_cons, append_nil_l.
  assert (n / 10 / 10 / 10 mod 10 = n / 100 / 10) as -> by (Z.to_euclidean_division_equations; lia).
  assert (n / 10 / 10 mod 10 = n / 100 mod 10) as -> by (Z.to_euclidean_division_equations; lia).
  assert (n / 10 mod 10 = n mod 100 / 10) as -> by (Z.to_euclidean_division_equations; lia).
  by assert (n mod 10 = n mod 100 mod 10) as -> by (Z.to_euclidean_division_equations; lia).
Qed.

Lemma compare_four n m x y : 0 <= n < 10000 -> 0 <= m < 10000 ->
  String.compare (append_int n 4 +:+ x) (append_int m 4 +:+ y) = lex (n ?= m) (String.compare x y).
Proof.
  intros Hn Hm. rewrite !append_int_4, !compare_two by (try done; Z.to_euclidean_division_equations; lia).
  by rewrite <- lex_assoc, lex_divmod.
Qed.

(** ** Order of the parts *)

(** A text that sorts before any digit, and before a point. *)
Definition low (z : string) : Prop := exists c r, z = String c r /\ (c = "+"%char \/ c = "-"%char).

Lemma low_digit z d x : low z -> 0 <= d < 10 -> String.compare z (String (digit_char d) x) = Lt.
Proof.
  intros (c & r & -> & Hc) Hd. cbn [String.compare]. assert (Ascii.compare c (digit_char d) = Lt) as ->; [|done].
  unfold Ascii.compare, digit_char. rewrite N_ascii_embedding by lia. destruct Hc; subst; apply N.compare_lt_iff; cbn; lia.
Qed.

Lemma digit_low z d x : low z -> 0 <= d < 10 -> String.compare (String (digit_char d) x) z = Gt.
Proof. intros Hz Hd. by rewrite String.compare_antisym, low_digit. Qed.

Lemma low_point z x : low z -> String.compare z ("." +:+ x) = Lt /\ String.compare ("." +:+ x) z = Gt.
Proof. by intros (c & r & -> & [->| ->]). Qed.

Lemma compare_frac z z' w n m : low z -> low z' -> 0 <= n < 10 ^ Z.of_nat w -> 0 <= m < 10 ^ Z.of_nat w ->
  String.compare (frac_digits w n +:+ z) (frac_digits w m +:+ z') = lex (n ?= m) (String.compare z z').
Proof.
  intros Hz Hz'. revert n m. induction w as [|w IH]; intros n m Hn Hm.
  - cbn in *. by replace n with m by lia; rewrite Z.compare_refl.
  - cbn [frac_digits]. assert (10 ^ Z.of_nat (S w) = 10 * 10 ^ Z.of_nat w) as Hp by (rewrite Nat2Z.inj_succ, Z.pow_succ_r; lia).
    assert (0 < 10 ^ Z.of_nat w) as H0 by (apply Z.pow_pos_nonneg; lia).
    assert (forall k, 0 <= k < 10 ^ Z.of_nat (S w) -> 0 <= k / 10 ^ Z.of_nat w < 10) as Hd.
    { intros k Hk. split; [apply Z.div_pos; lia|apply Z.div_lt_upper_bound; lia]. }
    destruct (Z.eqb_spec n 0) as [->|], (Z.eqb_spec m 0) as [->|]; rewrite ?append_cons, ?append_nil_l; [done|..].
    + rewrite low_digit by auto. by rewrite (proj2 (Z.compare_lt_iff 0 m)) by lia.
    + rewrite digit_low by auto. by rewrite (proj2 (Z.compare_gt_iff n 0)) by lia.
    + rewrite compare_digits, IH by (auto; apply Z.mod_pos_bound; lia). by rewrite <- lex_assoc, lex_divmod.
Qed.

Lemma compare_frac_text z z' n m : low z -> low z' -> 0 <= n < second -> 0 <= m < second ->
  String.compare (frac_text n +:+ z) (frac_text m +:+ z') = lex (n ?= m) (String.compare z z').
Proof.
  intros Hz Hz' Hn Hm. unfold frac_text. destruct (low_point z (frac_digits 9 m +:+ z') Hz) as [H1 _].
  destruct (low_point z' (frac_digits 9 n +:+ z) Hz') as [_ H2].
  destruct (Z.eqb_spec n 0) as [->|], (Z.eqb_spec m 0) as [->|]; rewrite ?append_assoc, ?append_nil_l; [done|..].
  - rewrite H1. by rewrite (proj2 (Z.compare_lt_iff 0 m)) by lia.
  - rewrite H2. by rewrite (proj2 (Z.compare_gt_iff n 0)) by lia.
  - rewrite compare_same_app. by apply (compare_frac z z' 9).
Qed.

Lemma zone_text_low offset : low (zone_text offset).
Proof. unfold zone_text, low. destruct (_ <? _); rewrite append_cons; eauto. Qed.

(** Dates are ordered like days. *)
Lemma compare_dates y m d y' m' d' : valid_date y m d -> valid_date y' m' d' ->
  lex (y ?= y') (lex (m ?= m') (d ?= d')) = (days_of y m d ?= days_of y' m' d').
Proof.
  intros [Hm Hd] [Hm' Hd']. unfold daysIn in *. unfold days_of.
  assert (forall y m d, 1 <= m <= 12 -> 1 <= d <= days_before (is_leap y) (m + 1) - days_before (is_leap y) m ->
    days_before_year y <= days_of y m d < days_before_year (y + 1)) as Hyear.
  { clear. intros y m d Hm Hd. pose proof (days_before_le (is_leap y) 1 m ltac:(lia) ltac:(lia) ltac:(lia)) as H0.
    pose proof (days_before_le (is_leap y) (m + 1) 13 ltac:(lia) ltac:(lia) ltac:(lia)) as H1.
    change (days_before (is_leap y) 1) with 0 in H0. pose proof (year_length y). unfold days_of. lia. }
  pose proof (Hyear y m d Hm Hd) as Hy1. pose proof (Hyear y' m' d' Hm' Hd') as Hy2. unfold days_of in Hy1, Hy2.
  destruct (Z.compare_spec y y') as [->|Hy|Hy]; cbn [lex].
  - destruct (Z.compare_spec m m') as [->|Hmm|Hmm]; cbn [lex].
    + destruct (Z.compare_spec d d'); symmetry; [apply Z.compare_eq_iff|apply Z.compare_lt_iff|apply Z.compare_gt_iff]; lia.
    + pose proof (days_before_le (is_leap y') (m + 1) m' ltac:(lia) ltac:(lia) ltac:(lia)). symmetry. apply Z.compare_lt_iff. lia.
    + pose proof (days_before_le (is_leap y') (m' + 1) m ltac:(lia) ltac:(lia) ltac:(lia)). symmetry. apply Z.compare_gt_iff. lia.
  - pose proof (days_before_year_mono (y + 1) y' ltac:(lia)). symmetry. apply Z.compare_lt_iff. lia.
  - pose proof (days_before_year_mono (y' + 1) y ltac:(lia)). symmetry. apply Z.compare_gt_iff. lia.
Qed.

(** ** Properties *)

Section Order.
Context `{Zn : Zones}.

(** The year has four digits. *)
Definition dated (t : GoTime) : Prop := 0 <= (civil_of (local_day t)).1.1 < 10000.

Lemma compare_days n n' : lex ((civil_of n).1.1 ?= (civil_of n').1.1) (lex ((civil_of n).1.2 ?= (civil_of n').1.2) ((civil_of n).2 ?= (civil_of n').2)) = (n ?= n').
Proof.
  pose proof (civil_of_valid n) as H. pose proof (civil_of_valid n') as H'. destruct (civil_of n) as [[y m] d], (civil_of n') as [[y' m'] d'].
  destruct H as [Hv <-], H' as [Hv' <-]. by apply compare_dates.
Qed.

(** The clock field by field, and the instants by seconds and nanoseconds. *)
Lemma compare_clocks c c' : 0 <= c < 86400 -> 0 <= c' < 86400 ->
  lex (c / 3600 ?= c' / 3600) (lex (c / 60 mod 60 ?= c' / 60 mod 60) (c mod 60 ?= c' mod 60)) = (c ?= c').
Proof.
  intros H H'. rewrite <- (lex_divmod c c' 60), <- (lex_divmod (c / 60) (c' / 60) 60), lex_assoc by lia.
  by rewrite !Z.div_div by lia.
Qed.

(** The reading of the clocks of the location. *)
Definition wall (t : GoTime) : Z := t_at t + offset_of t * second.

Lemma compare_walls t u : lex (local_sec t ?= local_sec u) (t_at t mod second ?= t_at u mod second) = (wall t ?= wall u).
Proof.
  rewrite <- (lex_divmod (wall t) (wall u) second) by done. unfold wall, local_sec. by rewrite !Z.div_add, !Z.mod_add by done.
Qed.

(** The database orders times by what the clocks of their locations read, to
    the nanosecond although the fractions have no fixed width, and only then by
    the offset: times at one offset like the instants, others not. *)
Theorem stored_order t u : dated t -> dated u ->
  String.compare (sqlite_text t) (sqlite_text u) =
  lex (wall t ?= wall u) (String.compare (zone_text (offset_of t)) (zone_text (offset_of u))).
Proof.
  intros Ht Hu. unfold sqlite_text, dated in *. rewrite <- (compare_walls t u).
  rewrite <- (lex_divmod (local_sec t) (local_sec u) 86400), <- (compare_days (local_sec t / 86400)), <- (compare_clocks (local_sec t mod 86400)) by
    (try apply Z.mod_pos_bound; lia).
  destruct (clock_fields t) as (A1 & A2 & A3 & _), (clock_fields u) as (B1 & B2 & B3 & _).
  unfold local_day, clock_of in *. pose proof (civil_of_valid (local_sec t / 86400)) as Vt. pose proof (civil_of_valid (local_sec u / 86400)) as Vu.
  destruct (civil_of (local_sec t / 86400)) as [[y m] d], (civil_of (local_sec u / 86400)) as [[y' m'] d']. cbn [fst snd] in *.
  destruct Vt as [[Hm Hd] _], Vu as [[Hm' Hd'] _]. pose proof (daysIn_bound m y Hm). pose proof (daysIn_bound m' y' Hm').
  rewrite compare_four by done. rewrite compare_same_app, compare_two by lia. rewrite compare_same_app, compare_two by lia.
  rewrite compare_same_app, compare_two by lia. rewrite compare_same_app, compare_two by lia. rewrite compare_same_app, compare_two by lia.
  rewrite compare_frac_text by (apply zone_text_low || by apply Z.mod_pos_bound). by rewrite !lex_assoc.
Qed.

End Order.
