(* ===== verification/GoAny.v ===== *)
(** * Dynamic values and their texts
      (Go's [any], [encoding/json] and the verb [%.nf] of [fmt])

    A value of type [any] with the types the program stores in one, the values
    [encoding/json] can marshal, and decimal texts of floating-point numbers.
    The text of a marshalled value is the value itself ([Rendered]). *)

From Stdlib Require Import SpecFloat.
From S2P Require Import Prelude GoStrings GoFloat GoNumbers Calendar.

#[local] Open Scope Z_scope.

#[warnings="-register-all"]
Inductive Any :=
  | ANil
  | ABool (b : bool)
  | AInt (n : Z)
  | AUint (n : Z)
  | AFloat (x : f64)
  | AString (s : string)
  | AInts (l : list Z)
  | AStrings (l : list string)
  | AFloats (m : gmap Z f64)
  | AList (l : list Any)
  | AObject (fields : list (string * Any)).

(** ** Marshalling *)

Definition is_finite (x : f64) : bool :=
  match x with S754_nan | S754_infinity _ => false | _ => true end.

(** [json.Marshal] succeeds: the numbers are finite. *)
Fixpoint marshals (v : Any) : bool :=
  match v with
  | AFloat x => is_finite x
  | AFloats m => forallb (fun p => is_finite p.2) (map_to_list m)
  | AList l => forallb marshals l
  | AObject fields => forallb (fun p => marshals p.2) fields
  | _ => true
  end.

(** [MarshalFailed]: the JSON object with the encoder's error. *)
Inductive Text :=
  | Plain (s : string)
  | Rendered (v : Any)
  | MarshalFailed (v : Any).

(** ** Decimal texts *)

(** [m * 2^e] times [10^p], rounded to an integer, half to even. *)
Definition scaled (p : nat) (m : positive) (e : Z) : Z :=
  let n := Zpos m * 10 ^ Z.of_nat p in
  if 0 <=? e then n * 2 ^ e
  else
    let d := 2 ^ (- e) in
    let q := n / d in
    let r := n mod d in
    if 2 * r <? d then q else if d <? 2 * r then q + 1 else if Z.even q then q else q + 1.

(** [strconv.FormatFloat(x, 'f', p, 64)], for a positive [p]; also [%.pf]. *)
Definition format_fixed (p : nat) (x : f64) : string :=
  let sign (s : bool) := if s then "-" else "" in
  let unit := 10 ^ Z.of_nat p in
  let print n := FormatUint (n / unit) +:+ "." +:+ append_int (n mod unit) p in
  match x with
  | S754_nan => "NaN"
  | S754_infinity s => if s then "-Inf" else "+Inf"
  | S754_zero s => sign s +:+ print 0
  | S754_finite s m e => sign s +:+ print (scaled p m e)
  end.

(** [%v] of a boolean. *)
Definition format_bool (b : bool) : string := if b then "true" else "false".

Example format_half_even : map (format_fixed 1) [f64_of_Z 7; fdiv (f64_of_Z 1) (f64_of_Z 4); fdiv (f64_of_Z (-3)) (f64_of_Z 4)] = ["7.0"; "0.2"; "-0.8"].
Proof. by vm_compute. Qed.

(** ** Texts of a time *)

Section Time.
Context `{Zn : Zones}.

(** [Format("2006-01-02 15:04:05")]. *)
Definition format_datetime (t : GoTime) : string :=
  let '(y, m, d) := civil_of (local_day t) in
  let c := clock_of t in
  append_int y 4 +:+ "-" +:+ append_int m 2 +:+ "-" +:+ append_int d 2 +:+ " " +:+
  append_int (c / 3600) 2 +:+ ":" +:+ append_int (c / 60 mod 60) 2 +:+ ":" +:+ append_int (c mod 60) 2.

(** The location an instant of the program is shown in: [time.Now()] is local,
    the zero time is not. *)
Definition shown (t : Time) : GoTime := mkGoTime t (if IsZero t then UTC else Local).

End Time.
