(* ===== verification/TimeParser.v ===== *)
(** * Periods of time
      (database/time_parser.go)

    [ParseTimeRange] turns the text of a request into a start and an end; the
    MCP tools query the metrics database with them.  Texts are compared in
    lower case (of ASCII), the regular expression of relative times is the
    function [relative_match]. *)

From S2P Require Import Prelude GoStrings Calendar.

#[local] Open Scope Z_scope.

(** ** Operations *)

Definition ParseDuration (s : string) : result Duration :=
  if (String.length s <? 2)%nat then Err ("invalid duration format: " +:+ s)
  else
    let valueStr := drop_last s in
    match Atoi valueStr with
    | None => Err ("invalid duration value: " +:+ valueStr)
    | Some value =>
        match last_byte s with
        | Some "h"%char => Ok (wrap_i64 (value * hour))
        | Some "d"%char => Ok (wrap_i64 (wrap_i64 (value * 24) * hour))
        | Some c => Err ("invalid duration unit: " +:+ String c "" +:+ " (use 'h' for hours or 'd' for days)")
        | None => Err ""
        end
    end.

(** [^now-\d+[hd]$] *)
Fixpoint digits_unit (s : string) : bool :=
  match s with
  | String c r =>
      if isSome (digit c) then digits_unit r
      else (Ascii.eqb c "h"%char || Ascii.eqb c "d"%char) && String.eqb r ""
  | EmptyString => false
  end.

Definition relative_match (s : string) : bool :=
  match s with
  | String "n"%char (String "o"%char (String "w"%char (String "-"%char (String c r)))) => isSome (digit c) && digits_unit r
  | _ => false
  end.

Section Parse.
Context `{Zn : Zones}.

Definition one_of (s : string) (l : list string) : bool := existsb (String.eqb s) l.

(** The cases of the switch: none of them fails. *)
Definition predefined (input : string) (defaultEnd : GoTime) : option (GoTime * GoTime) :=
  let l := ToLower input in
  let '(y, m, d) := civil_of (local_day defaultEnd) in
  let loc := t_loc defaultEnd in
  if one_of l ["today"] then Some (Date y m d 0 0 0 0 loc, defaultEnd)
  else if one_of l ["yesterday"] then
    let yesterday := AddDate 0 0 (-1) defaultEnd in
    let '(y, m, d) := civil_of (local_day yesterday) in
    Some (Date y m d 0 0 0 0 (t_loc yesterday), Date y m d 23 59 59 0 (t_loc yesterday))
  else if one_of l ["last_24_hours"; "last24h"] then Some (Add (-24 * hour) defaultEnd, defaultEnd)
  else if one_of l ["last_7_days"; "last7d"; "last_week"] then Some (Add (-7 * 24 * hour) defaultEnd, defaultEnd)
  else if one_of l ["last_30_days"; "last30d"; "last_month"] then Some (Add (-30 * 24 * hour) defaultEnd, defaultEnd)
  else if one_of l ["this_week"] then
    let daysSinceMonday := Weekday defaultEnd in
    let daysSinceMonday := if daysSinceMonday =? 0 then 7 else daysSinceMonday in
    Some (Date y m (d - daysSinceMonday + 1) 0 0 0 0 loc, defaultEnd)
  else if one_of l ["this_month"] then Some (Date y m 1 0 0 0 0 loc, defaultEnd)
  else None.

Definition ParseTimeRange (input : string) (defaultEnd : GoTime) : result (GoTime * GoTime) :=
  if String.eqb input "" then Ok (Add (-24 * hour) defaultEnd, defaultEnd)
  else
    match predefined input defaultEnd with
    | Some range => Ok range
    | None =>
        if relative_match input then
          match ParseDuration (TrimPrefix input "now-") with
          | Err _ => Err ("invalid relative time format: " +:+ input)
          | Ok duration => Ok (Add (wrap_i64 (- duration)) defaultEnd, defaultEnd)
          end
        else
          (* the layout of the second attempt is the one of the first *)
          match parse_RFC3339 input with
          | Some t => Ok (t, defaultEnd)
          | None =>
              match parse_date input with
              | Some (y, m, d) =>
                  Ok (Date y m d 0 0 0 0 (t_loc defaultEnd), Date y m d 23 59 59 0 (t_loc defaultEnd))
              | None =>
                  Err ("unrecognized time format: " +:+ input +:+
                       " (use ISO 8601, 'today', 'yesterday', 'last_24_hours', etc.)")
              end
          end
    end.

(** [FormatISO8601]. *)
Definition FormatISO8601 (t : GoTime) : string := format_RFC3339 t.

End Parse.

(** ** Lemmas *)

Section Facts.
Context `{Zn : Zones}.

(** The zone has one offset: universal time, a fixed zone, or a local zone
    without transitions. *)
Definition steady (loc : Location) (offset : Z) : Prop := forall sec, (lookup_zone loc sec).1.1 = offset.

Lemma zoned_steady loc offset sec : steady loc offset -> zoned loc sec = sec - offset.
Proof.
  intros H. unfold zoned. pose proof (H sec) as H1. destruct (lookup_zone loc sec) as [[o a] b] eqn:E. cbn in H1. subst o.
  destruct (Z.eqb_spec offset 0); [lia|]. destruct (_ || _); [by rewrite H|done].
Qed.

Lemma offset_steady t offset : steady (t_loc t) offset -> offset_of t = offset.
Proof. intros H. apply H. Qed.

Lemma local_sec_steady loc offset sec nsec : steady loc offset -> 0 <= nsec < second ->
  local_sec (mkGoTime (zoned loc sec * second + nsec) loc) = sec.
Proof.
  intros H Hn. unfold local_sec. rewrite (offset_steady _ offset) by done. cbn [t_at]. rewrite (zoned_steady _ offset) by done.
  rewrite Z.div_add_l by done. rewrite (Z.div_small nsec) by done. lia.
Qed.

(** A date within a year, whatever its day. *)
Lemma Date_sec y m d h mi sec loc offset : steady loc offset -> 1 <= m <= 12 ->
  local_sec (Date y m d h mi sec 0 loc) = days_of y m d * 86400 + h * 3600 + mi * 60 + sec.
Proof.
  intros H Hm. unfold Date. rewrite (Z.div_small (m - 1)), (Z.mod_small (m - 1)) by lia. cbn zeta.
  replace (y + 0) with y by lia. replace (m - 1 + 1) with m by lia. by rewrite (local_sec_steady _ offset).
Qed.

Lemma Date_loc y m d h mi sec nsec loc : t_loc (Date y m d h mi sec nsec loc) = loc.
Proof. done. Qed.

Lemma day_of_sec t day rest : local_sec t = day * 86400 + rest -> 0 <= rest < 86400 -> local_day t = day /\ clock_of t = rest.
Proof. intros H Hr. unfold local_day, clock_of. rewrite H. split; Z.to_euclidean_division_equations; lia. Qed.

(** Earlier on the clocks of one zone is earlier. *)
Lemma earlier_steady t t' offset : steady (t_loc t) offset -> steady (t_loc t') offset -> t_at t mod second = 0 ->
  local_sec t <= local_sec t' -> t_at t <= t_at t'.
Proof.
  intros H H' Hm. unfold local_sec. rewrite (offset_steady t offset), (offset_steady t' offset) by done. unfold second in *.
  intros Hl. Z.to_euclidean_division_equations. lia.
Qed.

Lemma days_of_day y m d k : days_of y m (d + k) = days_of y m d + k.
Proof. unfold days_of. lia. Qed.

Lemma Date_whole y m d h mi sec loc : t_at (Date y m d h mi sec 0 loc) mod second = 0.
Proof. unfold Date. cbn [t_at]. rewrite Z.add_0_r. by apply Z.mod_mul. Qed.

Lemma predefined_parse input e range : predefined input e = Some range -> ParseTimeRange input e = Ok range.
Proof.
  unfold ParseTimeRange. destruct (String.eqb_spec input "") as [->|]; [|by intros ->].
  unfold predefined. by destruct (civil_of _) as [[y m] d].
Qed.

(** The midnight of a day of the year that [day] is in. *)
Lemma midnight day k h mi sec loc offset : steady loc offset -> 0 <= h * 3600 + mi * 60 + sec < 86400 ->
  let '(y, m, d) := civil_of day in
  let t := Date y m (d + k) h mi sec 0 loc in
  local_sec t = (day + k) * 86400 + (h * 3600 + mi * 60 + sec) /\ local_day t = day + k /\ clock_of t = h * 3600 + mi * 60 + sec.
Proof.
  intros Hs Hc. pose proof (civil_of_valid day) as Hd. destruct (civil_of day) as [[y m] d]. destruct Hd as [[Hm _] Hd]. cbn zeta.
  assert (local_sec (Date y m (d + k) h mi sec 0 loc) = (day + k) * 86400 + (h * 3600 + mi * 60 + sec)) as E.
  { rewrite (Date_sec _ _ _ _ _ _ _ offset) by done. rewrite days_of_day, Hd. lia. }
  split; [done|]. by apply day_of_sec.
Qed.

(** A midnight is not after an instant of its day or of a later one. *)
Lemma midnight_earlier t e offset : steady (t_loc t) offset -> steady (t_loc e) offset -> t_at t mod second = 0 ->
  clock_of t = 0 -> local_day t <= local_day e -> t_at t <= t_at e.
Proof.
  intros Ht He Hw Hc Hd. apply (earlier_steady t e offset); [done..|].
  pose proof (clock_fields t) as K. pose proof (clock_fields e) as K'. cbn zeta in K, K'.
  pose proof (Z.mod_pos_bound (local_sec e) 86400 eq_refl). unfold clock_of in *. lia.
Qed.

Lemma yesterday_spec e offset : steady (t_loc e) offset ->
  local_day (AddDate 0 0 (-1) e) = local_day e - 1 /\ t_loc (AddDate 0 0 (-1) e) = t_loc e.
Proof.
  intros Hs. unfold AddDate. pose proof (civil_of_valid (local_day e)) as Hd. destruct (civil_of (local_day e)) as [[y m] d] eqn:E.
  destruct Hd as [[Hm _] Hd]. split; [|done]. destruct (clock_fields e) as (H1 & H2 & H3 & H4 & _). set (c := clock_of e) in *.
  pose proof (Z.mod_pos_bound (t_at e) second eq_refl) as Hn. unfold Date.
  replace (y + 0) with y by lia. replace (m + 0) with m by lia.
  rewrite (Z.div_small (m - 1)), (Z.mod_small (m - 1)) by lia. cbn zeta. replace (y + 0) with y by lia. replace (m - 1 + 1) with m by lia.
  unfold local_day. rewrite (local_sec_steady _ offset) by done. rewrite days_of_day, Hd.
  assert (0 <= c < 86400) as Hc by (apply Z.mod_pos_bound; lia). unfold local_day. Z.to_euclidean_division_equations. lia.
Qed.

(** The four keywords. *)
Section Keywords.
Context (e : GoTime) (offset : Z) (input : string).

Hypothesis Hs : steady (t_loc e) offset.

Lemma today_range : ToLower input = "today" ->
  exists s, ParseTimeRange input e = Ok (s, e) /\ local_sec s = local_day e * 86400 /\ t_at s <= t_at e.
Proof.
  intros Hl. pose proof (midnight (local_day e) 0 0 0 0 (t_loc e) offset Hs ltac:(lia)) as K.
  destruct (civil_of (local_day e)) as [[y m] d] eqn:Ec. replace (d + 0) with d in K by lia. destruct K as (K1 & K2 & K3).
  eexists. split; [apply predefined_parse; unfold predefined; rewrite Ec, Hl; done|]. split; [lia|].
  apply (midnight_earlier _ e offset); [done|done|apply Date_whole|lia|lia].
Qed.

Lemma yesterday_range : ToLower input = "yesterday" ->
  exists s s', ParseTimeRange input e = Ok (s, s') /\
    local_sec s = (local_day e - 1) * 86400 /\ local_sec s' = local_day e * 86400 - 1 /\ t_at s <= t_at s' <= t_at e.
Proof.
  intros Hl. destruct (yesterday_spec e offset Hs) as [Hy1 Hy2]. set (t := AddDate 0 0 (-1) e) in *.
  pose proof (midnight (local_day t) 0 0 0 0 (t_loc e) offset Hs ltac:(lia)) as K.
  pose proof (midnight (local_day t) 0 23 59 59 (t_loc e) offset Hs ltac:(lia)) as K'.
  destruct (civil_of (local_day t)) as [[y m] d] eqn:Ec. replace (d + 0) with d in K, K' by lia.
  destruct K as (K1 & K2 & K3), K' as (K1' & K2' & K3'). eexists _, _.
  split; [apply predefined_parse; unfold predefined; destruct (civil_of (local_day e)) as [[? ?] ?]; rewrite Hl; fold t; rewrite Ec, Hy2; done|].
  split_and!; [lia|lia|..].
  - apply (earlier_steady _ _ offset); [done|done|apply Date_whole|lia].
  - apply (earlier_steady _ _ offset); [done|done|apply Date_whole|]. destruct (clock_fields e) as (_ & _ & _ & _ & K).
    pose proof (Z.mod_pos_bound (local_sec e) 86400 eq_refl). unfold clock_of in *. lia.
Qed.

Lemma week_range : ToLower input = "this_week" ->
  exists s, ParseTimeRange input e = Ok (s, e) /\
    Weekday s = 1 /\ clock_of s = 0 /\ local_day s <= local_day e < local_day s + 7 /\ t_at s <= t_at e.
Proof.
  intros Hl. pose proof (Z.mod_pos_bound (local_day e + 1) 7 eq_refl) as Hw.
  pose proof (midnight (local_day e) (- (if Weekday e =? 0 then 7 else Weekday e) + 1) 0 0 0 (t_loc e) offset Hs ltac:(lia)) as K.
  destruct (civil_of (local_day e)) as [[y m] d] eqn:Ec. destruct K as (K1 & K2 & K3). rewrite Z.add_assoc in K1, K2, K3.
  eexists. split; [apply predefined_parse; unfold predefined; rewrite Ec, Hl; done|].
  fold (Z.sub d (if Weekday e =? 0 then 7 else Weekday e)) in K1, K2, K3.
  unfold Weekday at 1. rewrite K2, K3. unfold Weekday, weekday_of in *.
  destruct (Z.eqb_spec ((local_day e + 1) mod 7) 0).
  all: split_and!; [Z.to_euclidean_division_equations; lia|lia|lia|lia|].
  all: apply (midnight_earlier _ e offset); [done|done|apply Date_whole|lia|lia].
Qed.

Lemma month_range : ToLower input = "this_month" ->
  exists s, ParseTimeRange input e = Ok (s, e) /\
    civil_of (local_day s) = ((civil_of (local_day e)).1, 1) /\ clock_of s = 0 /\ t_at s <= t_at e.
Proof.
  intros Hl. pose proof (midnight (local_day e) (1 - (civil_of (local_day e)).2) 0 0 0 (t_loc e) offset Hs ltac:(lia)) as K.
  pose proof (civil_of_valid (local_day e)) as Hd.
  destruct (civil_of (local_day e)) as [[y m] d] eqn:Ec. cbn [fst snd] in *. replace (d + (1 - d)) with 1 in K by lia.
  destruct K as (K1 & K2 & K3), Hd as [[Hm Hd] He].
  eexists. split; [apply predefined_parse; unfold predefined; rewrite Ec, Hl; done|]. split_and!; [|lia|].
  - rewrite K2. replace (local_day e + (1 - d)) with (days_of y m 1) by (unfold days_of in *; lia). apply civil_of_days. split; lia.
  - apply (midnight_earlier _ e offset); [done|done|apply Date_whole|lia|lia].
Qed.

End Keywords.

(** A text that starts with a digit is no keyword. *)
Lemma digit_first c r e : isSome (digit c) = true ->
  predefined (String c r) e = None /\ relative_match (String c r) = false.
Proof.
  intros Hc. unfold predefined. destruct (civil_of _) as [[y m] d].
  destruct c as [[] [] [] [] [] [] [] []]; try discriminate Hc; done.
Qed.

Lemma print_date_first y m d : 0 <= y < 10000 -> exists c r, print_date y m d = String c r /\ isSome (digit c) = true.
Proof.
  intros Hy. unfold print_date, append_int at 1.
  rewrite (proj2 (Z.ltb_ge y 0)), (proj2 (Z.ltb_lt y (10 ^ Z.of_nat 4))) by (cbn; lia). cbn [fixed_digits]. rewrite !append_cons.
  eexists _, _. split; [done|]. by rewrite digit_of_char by (Z.to_euclidean_division_equations; lia).
Qed.

(** A text that starts with a date is parsed as an instant or as a date. *)
Lemma date_first y m d rest e : 0 <= y < 10000 ->
  ParseTimeRange (print_date y m d +:+ rest) e =
  match parse_RFC3339 (print_date y m d +:+ rest) with
  | Some t => Ok (t, e)
  | None =>
      match parse_date (print_date y m d +:+ rest) with
      | Some (y, m, d) => Ok (Date y m d 0 0 0 0 (t_loc e), Date y m d 23 59 59 0 (t_loc e))
      | None => Err ("unrecognized time format: " +:+ (print_date y m d +:+ rest) +:+
                     " (use ISO 8601, 'today', 'yesterday', 'last_24_hours', etc.)")
      end
  end.
Proof.
  intros Hy. destruct (print_date_first y m d Hy) as (c & r & E & Hc). rewrite E, append_cons. unfold ParseTimeRange.
  destruct (digit_first c (r +:+ rest) e Hc) as [-> ->]. done.
Qed.

(** ** Relative times *)

Lemma parse_digits_unit v acc u n : parse_digits acc v = Some n -> (u = "h" \/ u = "d")%string -> digits_unit (v +:+ u) = true.
Proof.
  revert acc. induction v as [|c v IH]; intros acc; [by intros _ [-> | ->]|]. rewrite append_cons. cbn [parse_digits digits_unit].
  destruct (digit c); [|done]. cbn [isSome]. apply IH.
Qed.

Lemma relative_Itoa n u : 0 <= n -> (u = "h" \/ u = "d")%string -> relative_match ("now-" +:+ Itoa n +:+ u) = true.
Proof.
  intros Hn Hu. unfold Itoa. rewrite (proj2 (Z.ltb_ge n 0)) by done. pose proof (parse_FormatUint n Hn) as Hp.
  destruct (FormatUint_cons n) as (c & r & E). rewrite E in *. cbn [parse_digits] in Hp.
  change (isSome (digit c) && digits_unit (r +:+ u) = true). destruct (digit c); [|done]. cbn [isSome andb].
  by eapply parse_digits_unit.
Qed.

Lemma drop_last_app a c : drop_last (a +:+ String c "") = a /\ last_byte (a +:+ String c "") = Some c.
Proof.
  induction a as [|x a [IH1 IH2]]; [done|]. rewrite append_cons. cbn [drop_last last_byte].
  destruct (a +:+ String c "") eqn:E; [by destruct a|]. by rewrite IH1, IH2.
Qed.

Lemma ParseDuration_Itoa n c : in_i64 n -> (c = "h" \/ c = "d")%char ->
  ParseDuration (Itoa n +:+ String c "") =
  Ok (if Ascii.eqb c "h"%char then wrap_i64 (n * hour) else wrap_i64 (wrap_i64 (n * 24) * hour)).
Proof.
  intros Hn Hc. unfold ParseDuration. destruct (drop_last_app (Itoa n) c) as [-> ->].
  rewrite append_length. cbn [String.length].
  assert (0 < String.length (Itoa n))%nat by (pose proof (Itoa_not_empty n); destruct (Itoa n); [done|cbn; lia]).
  replace (_ <? 2)%nat with false by (symmetry; apply Nat.ltb_ge; lia). rewrite Atoi_Itoa by done. by destruct Hc as [-> | ->].
Qed.

(** ** Properties *)

(** C29: the days a keyword means, in any letter case and in a zone with one offset:
    [today] starts at the last midnight, [yesterday] is the whole day before,
    [this_week] starts on the midnight of a Monday at most six days ago,
    [this_month] on the first of the month, and none of them starts after its end. *)
Theorem ParseTimeRange_calendar (e : GoTime) offset input :
  steady (t_loc e) offset ->
  (ToLower input = "today" -> exists s, ParseTimeRange input e = Ok (s, e) /\ local_sec s = local_day e * 86400 /\ t_at s <= t_at e) /\
  (ToLower input = "yesterday" -> exists s s', ParseTimeRange input e = Ok (s, s') /\
     local_sec s = (local_day e - 1) * 86400 /\ local_sec s' = local_day e * 86400 - 1 /\ t_at s <= t_at s' <= t_at e) /\
  (ToLower input = "this_week" -> exists s, ParseTimeRange input e = Ok (s, e) /\
     Weekday s = 1 /\ clock_of s = 0 /\ local_day s <= local_day e < local_day s + 7 /\ t_at s <= t_at e) /\
  (ToLower input = "this_month" -> exists s, ParseTimeRange input e = Ok (s, e) /\
     civil_of (local_day s) = ((civil_of (local_day e)).1, 1) /\ clock_of s = 0 /\ t_at s <= t_at e).
Proof.
  intros Hs. split_and!; intros Hl;
    [by apply (today_range e offset)|by apply (yesterday_range e offset)|by apply (week_range e offset)|by apply (month_range e offset)].
Qed.

(** An instant printed with [FormatISO8601] and parsed back is the start of
    the range, to the nanosecond, whatever zone it was printed in; a range may
    therefore start after its end. *)
Theorem ParseTimeRange_iso (t e : GoTime) :
  printable t -> exists s, ParseTimeRange (FormatISO8601 t) e = Ok (s, e) /\ t_at s = t_at t.
Proof.
  intros Ht. destruct (parse_format t Ht) as [loc Hp]. destruct Ht as (_ & Hy & _). unfold FormatISO8601 in *.
  rewrite format_split in *. destruct (civil_of (local_day t)) as [[y m] d]. cbn [fst] in Hy. cbn zeta in *.
  rewrite date_first by done. rewrite Hp. by eexists.
Qed.

(** A date gives the whole day in the zone of the end. *)
Theorem ParseTimeRange_date y m d (e : GoTime) offset :
  0 <= y < 10000 -> valid_date y m d -> steady (t_loc e) offset ->
  exists s s', ParseTimeRange (print_date y m d) e = Ok (s, s') /\
    local_sec s = days_of y m d * 86400 /\ local_sec s' = local_sec s + 86399.
Proof.
  intros Hy Hv Hs. rewrite <- (append_nil_r (print_date y m d)), date_first by done.
  unfold parse_RFC3339, parse_date. rewrite date_field_print by done. cbn [mbind option_bind skip String.eqb andb].
  rewrite day_ok_valid by done. cbn [mbind option_bind]. eexists _, _. split; [done|]. destruct Hv as [Hm _].
  rewrite !(Date_sec _ _ _ _ _ _ _ offset) by done. lia.
Qed.

(** [now-<n>d] starts [n] days before the end for every [n] up to 106751;
    one day more does not fit a [time.Duration], and the range starts two and
    a half centuries after its end. *)
Theorem ParseTimeRange_relative n (e : GoTime) :
  0 <= n < two63 ->
  exists s, ParseTimeRange ("now-" +:+ Itoa n +:+ "d") e = Ok (s, e) /\
    (n <= 106751 -> t_at s = t_at e - n * 24 * hour) /\
    (n = 106752 -> t_at e + 250 * 365 * 24 * hour < t_at s).
Proof.
  intros Hn. unfold ParseTimeRange.
  assert (predefined ("now-" +:+ Itoa n +:+ "d") e = None) as -> by (unfold predefined; by destruct (civil_of _) as [[y m] d]).
  rewrite relative_Itoa by (by right || lia).
  change ("now-" +:+ Itoa n +:+ "d") with ("now-" +:+ (Itoa n +:+ "d")). rewrite TrimPrefix_app.
  rewrite ParseDuration_Itoa by (by right || (unfold in_i64, two63 in *; lia)).
  change (String.eqb ("now-" +:+ Itoa n +:+ "d") "") with false. cbn match. eexists. split; [done|]. cbn [Ascii.eqb Bool.eqb t_at Add].
  split; intros Hb.
  - rewrite (wrap_i64_small (n * 24)), (wrap_i64_small (n * 24 * hour)), wrap_i64_small
      by (unfold in_i64, two63, hour, second; lia). lia.
  - subst n. change (wrap_i64 (- wrap_i64 (wrap_i64 (106752 * 24) * hour))) with 9223371273709551616. unfold hour, second. lia.
Qed.

End Facts.

(** ** Witnesses: an hour east of Greenwich *)

Definition central : Zones := {| local_lookup _ := (3600, - two63, two63 - 1) |}.

(** Sunday, 1 March 2026, 10:30. *)
Definition sunday : GoTime := Date (Zn := central) 2026 3 1 10 30 0 0 Local.

Lemma central_steady : steady (Zn := central) (t_loc sunday) 3600.
Proof. done. Qed.

Lemma ParseTimeRange_calendar_witness :
  exists s, ParseTimeRange (Zn := central) "This_Week" sunday = Ok (s, sunday) /\
    Weekday (Zn := central) s = 1 /\ civil_of (local_day (Zn := central) s) = (2026, 2, 23).
Proof.
  destruct (ParseTimeRange_calendar (Zn := central) sunday 3600 "This_Week" central_steady) as (_ & _ & H & _).
  destruct H as (s & Hs & Hw & _); [done|]. exists s. split_and!; [done|done|]. by injection Hs as <-.
Defined.

Lemma ParseTimeRange_iso_witness :
  FormatISO8601 (Zn := central) sunday = "2026-03-01T10:30:00+01:00" /\
  exists s, ParseTimeRange (Zn := central) "2026-03-01T10:30:00+01:00" sunday = Ok (s, sunday) /\ t_at s = t_at sunday.
Proof. split; [by vm_compute|]. apply (ParseTimeRange_iso (Zn := central) sunday sunday). by vm_compute. Defined.

Lemma ParseTimeRange_date_witness :
  exists s s', ParseTimeRange (Zn := central) "2024-02-29" sunday = Ok (s, s') /\
    local_sec (Zn := central) s = days_of 2024 2 29 * 86400 /\ local_sec (Zn := central) s' = local_sec (Zn := central) s + 86399.
Proof. apply (ParseTimeRange_date (Zn := central) 2024 2 29 sunday 3600); by vm_compute || apply central_steady. Defined.

Lemma ParseTimeRange_relative_witness :
  exists s, ParseTimeRange (Zn := central) "now-106752d" sunday = Ok (s, sunday) /\ t_at sunday < t_at s.
Proof.
  destruct (ParseTimeRange_relative (Zn := central) 106752 sunday) as (s & Hs & _ & Ht); [by vm_compute|].
  exists s. split; [done|]. specialize (Ht eq_refl). unfold hour, second in Ht. lia.
Defined.
