(* ===== verification/ProcFiles.v ===== *)
(** * The files of /proc the metrics collector reads
      (metrics/collector.go: the parsers of /proc/<pid>/status, /proc/<pid>/io,
       /proc/uptime, /proc/stat, /proc/meminfo, /proc/loadavg, /proc/cpuinfo and
       /etc/passwd)

    Each parser is a function of the contents of the file. *)

From S2P Require Import Prelude GoStrings GoFloat GoNumbers.

#[local] Open Scope Z_scope.

(** ** Code *)

(** [getUIDFromStatusFile], after the file is opened. *)
Fixpoint status_uid (lines : list string) : result Z :=
  match lines with
  | [] => Err "UID not found"
  | line :: rest =>
      if HasPrefix line "Uid:" then
        match Fields line with
        | _ :: f :: _ => AtoiE f
        | _ => status_uid rest
        end
      else status_uid rest
  end.

(** [getProcessMemoryUsage]: kilobytes to bytes, modulo [2^64]. *)
Fixpoint status_rss (lines : list string) : Z :=
  match lines with
  | [] => 0
  | line :: rest =>
      if HasPrefix line "VmRSS:" then
        match Fields line with
        | _ :: f :: _ => match ParseUint f with Some kb => wrap_u64 (kb * 1024) | None => 0 end
        | _ => status_rss rest
        end
      else status_rss rest
  end.

Record ProcessIO := mkProcessIO {
  readBytes : Z;
  writeBytes : Z;
  readOps : Z;
  writeOps : Z
}.

Definition no_io : ProcessIO := mkProcessIO 0 0 0 0.

(** The switch on the key. *)
Definition set_io (key : string) (val : Z) (acc : ProcessIO) : ProcessIO :=
  if String.eqb key "read_bytes" then mkProcessIO val (writeBytes acc) (readOps acc) (writeOps acc)
  else if String.eqb key "write_bytes" then mkProcessIO (readBytes acc) val (readOps acc) (writeOps acc)
  else if String.eqb key "syscr" then mkProcessIO (readBytes acc) (writeBytes acc) val (writeOps acc)
  else if String.eqb key "syscw" then mkProcessIO (readBytes acc) (writeBytes acc) (readOps acc) val
  else acc.

Definition io_line (acc : ProcessIO) (line : string) : ProcessIO :=
  let line := TrimSpace line in
  if String.eqb line "" then acc
  else match Fields line with
       | [k; v] =>
           match ParseUint v with
           | None => acc
           | Some val => set_io (TrimSuffix k ":") val acc
           end
       | _ => acc
       end.

Definition parse_io (content : string) : ProcessIO := foldl io_line no_io (Split content newline).

Definition parse_uptime (content : string) : f64 :=
  match Fields content with
  | [] => fzero
  | f :: _ => default fzero (ParseFloat f)
  end.

Definition load1 (content : string) : result f64 :=
  match Fields content with
  | [] => Err "invalid loadavg format"
  | f :: _ => ParseFloatE f
  end.

(** [getTotalCoresFallback]. *)
Definition count_processors (content : string) : Z :=
  let cores := Z.of_nat (length (List.filter (fun line => HasPrefix line "processor") (ScanLines content))) in
  if cores =? 0 then 1 else cores.

(** The line [key] of /proc/meminfo, in megabytes ([getTotalMemoryFallback],
    [getCachedMemoryFallback]). *)
Fixpoint meminfo_mb (key : string) (lines : list string) : f64 :=
  match lines with
  | [] => fzero
  | line :: rest =>
      if HasPrefix line key then
        match Fields line with
        | _ :: f :: _ => fdiv (ParseFloat_value f) (f64_of_Z 1024)
        | _ => meminfo_mb key rest
        end
      else meminfo_mb key rest
  end.

(** [getMemoryUsageFallback]: the last MemTotal and MemAvailable lines. *)
Definition meminfo_line (acc : f64 * f64) (line : string) : f64 * f64 :=
  match Fields line with
  | k :: v :: _ =>
      if String.eqb k "MemTotal:" then (ParseFloat_value v, acc.2)
      else if String.eqb k "MemAvailable:" then (acc.1, ParseFloat_value v)
      else acc
  | _ => acc
  end.

Definition used_mb (content : string) : f64 :=
  let '(memTotal, memAvailable) := foldl meminfo_line (fzero, fzero) (ScanLines content) in
  if f_eq memTotal fzero then fzero
  else
    let memAvailable := if f_eq memAvailable fzero then fzero else memAvailable in
    fdiv (fsub memTotal memAvailable) (f64_of_Z 1024).

(** [getUsernameFromPasswd], after the file is opened. *)
Fixpoint passwd_name (uid : Z) (lines : list string) : result string :=
  match lines with
  | [] => Err ("UID " +:+ Itoa uid +:+ " not found in /etc/passwd")
  | line :: rest =>
      if HasPrefix line "#" then passwd_name uid rest
      else match Split line ":"%char with
           | name :: _ :: id :: _ =>
               match Atoi id with
               | Some fileUID => if fileUID =? uid then Ok name else passwd_name uid rest
               | None => passwd_name uid rest
               end
           | _ => passwd_name uid rest
           end
  end.

(** The counters of the first line of /proc/stat: user, nice, system, idle,
    iowait, irq, softirq and steal (0 when absent). *)
Definition stat_counters (content : string) : option (list Z) :=
  match ScanLines content with
  | [] => None
  | line :: _ =>
      if HasPrefix line "cpu " then
        match Fields line with
        | _ :: a :: b :: c :: d :: e :: f :: g :: more =>
            Some (map ParseUint_value [a; b; c; d; e; f; g] ++
                  [match more with h :: _ => ParseUint_value h | [] => 0 end])
        | _ => None
        end
      else None
  end.

(** ** Lemmas *)

(** What the kernel writes into /proc/<pid>/io. *)
Record KernelIO := mkKernelIO {
  k_rchar : Z;
  k_wchar : Z;
  k_syscr : Z;
  k_syscw : Z;
  k_read_bytes : Z;
  k_write_bytes : Z;
  k_cancelled : Z
}.

Definition counter_line (key : string) (n : Z) : string := key +:+ String " " (FormatUint n).

Definition print_io (k : KernelIO) : string :=
  Lines [counter_line "rchar:" (k_rchar k); counter_line "wchar:" (k_wchar k);
         counter_line "syscr:" (k_syscr k); counter_line "syscw:" (k_syscw k);
         counter_line "read_bytes:" (k_read_bytes k); counter_line "write_bytes:" (k_write_bytes k);
         counter_line "cancelled_write_bytes:" (k_cancelled k)].

Definition kernel_io_ok (k : KernelIO) : Prop :=
  in_u64 (k_rchar k) /\ in_u64 (k_wchar k) /\ in_u64 (k_syscr k) /\ in_u64 (k_syscw k) /\
  in_u64 (k_read_bytes k) /\ in_u64 (k_write_bytes k) /\ in_u64 (k_cancelled k).

Lemma FormatUint_not_empty n : FormatUint n <> "".
Proof. destruct (FormatUint_cons n) as (d & r & ->). done. Qed.

Lemma counter_line_trim key n :
  0 <= n -> no_space key -> key <> "" -> TrimSpace (counter_line key n) = counter_line key n.
Proof.
  intros Hn Hk Hne. apply trim_id.
  - unfold counter_line. destruct key as [|c k]; [done|]. intros c' s' [= <- _]. by apply no_space_cons in Hk as [? _].
  - intros c Hc. unfold counter_line in Hc. rewrite last_byte_app in Hc by done.
    apply (FormatUint_no_space n Hn). apply last_byte_mem.
    destruct (FormatUint_cons n) as (d & r & E). rewrite E in *. exact Hc.
Qed.

Lemma io_line_counter acc key n :
  in_u64 n -> no_space key -> key <> "" ->
  io_line acc (counter_line key n) = set_io (TrimSuffix key ":") n acc.
Proof.
  intros Hn Hk Hne. unfold io_line. destruct Hn as [Hn0 Hn1]. rewrite counter_line_trim by done.
  destruct (String.eqb_spec (counter_line key n) "") as [E|_].
  { unfold counter_line in E. by apply append_eq_empty in E as [? _]. }
  unfold counter_line. rewrite Fields_two by (done || by apply FormatUint_no_space || apply FormatUint_not_empty).
  by rewrite ParseUint_FormatUint.
Qed.

Lemma counter_line_no_newline key n : 0 <= n -> no_space key -> mem newline (counter_line key n) = false.
Proof.
  intros Hn Hk. unfold counter_line. apply not_true_iff_false. rewrite mem_app. intros [H|H]%orb_true_iff.
  - by apply Hk in H.
  - change (Ascii.eqb newline " "%char || mem newline (FormatUint n) = true) in H. cbn [orb] in H.
    by apply (FormatUint_no_space n Hn) in H.
Qed.

Lemma Split_Lines l : Forall (fun w => mem newline w = false) l -> Split (Lines l) newline = l ++ [""].
Proof. induction 1 as [|x l Hx _ IH]; [done|]. cbn [Lines app]. by rewrite Split_app, IH. Qed.

(** The I/O counters of a process survive the trip through the text of
    /proc/<pid>/io, whatever 64-bit values the kernel prints. *)
Theorem parse_io_print k :
  kernel_io_ok k ->
  parse_io (print_io k) = mkProcessIO (k_read_bytes k) (k_write_bytes k) (k_syscr k) (k_syscw k).
Proof.
  intros (H1 & H2 & H3 & H4 & H5 & H6 & H7). unfold parse_io, print_io.
  rewrite Split_Lines.
  - cbn [app foldl]. rewrite !io_line_counter by (done || by apply no_spaceb_ok). done.
  - repeat (constructor; [apply counter_line_no_newline; [unfold in_u64 in *; lia|by apply no_spaceb_ok]|]).
    constructor.
Qed.

Lemma parse_io_print_witness :
  let k := mkKernelIO 100 200 3 4 4096 18446744073709551615 0 in
  print_io k <> "" /\ parse_io (print_io k) = mkProcessIO 4096 18446744073709551615 3 4.
Proof.
  split; [done|]. apply (parse_io_print (mkKernelIO 100 200 3 4 4096 18446744073709551615 0)).
  unfold kernel_io_ok, in_u64, two64. cbn. lia.
Defined.

(** The user of a process is the one the kernel prints, wherever the line is. *)
Lemma status_uid_print before uid rest after :
  Forall (fun l => HasPrefix l "Uid:" = false) before -> in_i64 uid -> 0 <= uid ->
  status_uid (before ++ ("Uid:" +:+ String "009"%char (Itoa uid +:+ String "009"%char rest)) :: after) = Ok uid.
Proof.
  intros Hb Hu H0. induction Hb as [|l before Hl _ IH]; cbn [app status_uid]; [|by rewrite Hl].
  rewrite HasPrefix_app.
  rewrite Fields_cons; [|by apply no_spaceb_ok|done..].
  rewrite Fields_cons; [|apply Itoa_no_space|apply Itoa_not_empty|done].
  unfold AtoiE. by rewrite Atoi_Itoa.
Qed.
