(* ===== verification/Config.v ===== *)
(** * The configuration record of config/config.go

    [Config] is the struct with its fields in order; slices are lists (no use
    distinguishes a nil slice from an empty one).  The mutex is absent because
    every getter is one atomic read; the regexp cache is a component of its own
    in [UserFilter].  [DefaultConfig] is the constructor, given the contents of
    [/proc/sys/kernel/pid_max] when it can be read. *)

From S2P Require Import Prelude GoStrings GoFloat.

#[local] Open Scope Z_scope.

Record Timeframe := mkTimeframe {
  DaysOfWeek : list Z;
  HourStart : Z;
  HourEnd : Z
}.

Record Config := mkConfig {
  CgroupRoot : string;
  CgroupBase : string;
  ConfigFile : string;
  LogFile : string;
  CreatedCgroupsFile : string;
  MetricsCacheFile : string;
  PrometheusFile : string;
  PollingInterval : Z;
  MinActiveTime : Z;
  MetricsCacheTTL : Z;
  MetricsRefreshInterval : Z;
  ProcessMinAgeSeconds : Z;
  CgroupOperationTimeout : Z;
  CgroupRetryDelayMs : Z;
  MCPShutdownTimeout : Z;
  CPUThreshold : Z;
  CPUReleaseThreshold : Z;
  CPUThresholdDuration : Z;
  CPUQuotaNormal : string;
  CPUQuotaLimited : string;
  RAMEnabled : bool;
  RAMThreshold : Z;
  RAMReleaseThreshold : Z;
  RAMQuotaLimited : string;
  RAMQuotaPerUser : string;
  DisableSwap : bool;
  RAMHighRatio : f64;
  RAMUserIncludeList : list string;
  RAMUserExcludeList : list string;
  IOEnabled : bool;
  IOThreshold : Z;
  IOReleaseThreshold : Z;
  IOReadBPS : string;
  IOWriteBPS : string;
  IOReadIOPS : Z;
  IOWriteIOPS : Z;
  IODeviceFilter : string;
  IOThresholdDuration : Z;
  IORemediationEnabled : bool;
  IOStarvationThreshold : Z;
  IOStarvationCheckInterval : Z;
  IOBoostMultiplier : f64;
  IOBoostDuration : Z;
  IOBoostMaxPerHour : Z;
  IOPSIThreshold : f64;
  IORevertOnNormal : bool;
  IOUserIncludeList : list string;
  IOUserExcludeList : list string;
  AutodetectPatterns : bool;
  PatternHistoryHours : Z;
  PatternMinSamples : Z;
  PatternConfidenceThreshold : f64;
  BatchNightCPUQuota : Z;
  BatchNightRAMQuota : string;
  InteractiveCPUQuota : Z;
  InteractiveRAMQuota : string;
  LimitHookEnabled : bool;
  LimitHookScript : string;
  LimitHookURL : string;
  LimitHookTimeout : Z;
  EnablePrometheus : bool;
  PrometheusMetricsBindHost : string;
  PrometheusMetricsBindPort : Z;
  PrometheusTLSEnabled : bool;
  PrometheusTLSCertFile : string;
  PrometheusTLSKeyFile : string;
  PrometheusTLSCAFile : string;
  PrometheusTLSMinVersion : string;
  PrometheusAuthType : string;
  PrometheusAuthUsername : string;
  PrometheusAuthPasswordFile : string;
  PrometheusJWTSecretFile : string;
  PrometheusJWTIssuer : string;
  PrometheusJWTAudience : string;
  PrometheusJWTExpiry : Z;
  LogLevel : string;
  LogMaxSize : Z;
  UseSyslog : bool;
  MinSystemCores : Z;
  SystemUIDMin : Z;
  SystemUIDMax : Z;
  UserIncludeList : list string;
  UserExcludeList : list string;
  ProcessExcludeList : list string;
  BlackoutTimeframes : list Timeframe;
  BlackoutSpec : string;
  IgnoreSystemLoad : bool;
  ServerRole : string;
  MCPEnabled : bool;
  MCPTransport : string;
  MCPHTTPPort : Z;
  MCPHTTPHost : string;
  MCPLogLevel : string;
  MCPAuthToken : string;
  MCPAllowWriteOps : bool;
  MetricsDBEnabled : bool;
  MetricsDBPath : string;
  MetricsDBRetentionDays : Z;
  MetricsDBWriteInterval : Z;
  UsernameCacheTTL : Z;
  PSIEventDriven : bool;
  PSICPUStallThreshold : Z;
  PSIOStallThreshold : Z;
  PSIWindowUs : Z;
  PSIFallbackInterval : Z;
  PSIBoostWeight : Z;
  PSIBoostDuration : Z
}.


Definition pidMax (pid_max_file : option string) : Z :=
  match pid_max_file with
  | Some data => match Atoi (TrimSpace data) with Some v => v | None => 60000 end
  | None => 60000
  end.

Definition DefaultConfig (pid_max_file : option string) : Config := {|
  CgroupRoot := "/sys/fs/cgroup";
  CgroupBase := "resman";
  ConfigFile := "/etc/resman.conf";
  LogFile := "/var/log/resman.log";
  CreatedCgroupsFile := "/var/run/resman-cgroups.txt";
  MetricsCacheFile := "/var/run/resman-metrics.cache";
  PrometheusFile := "/var/run/resman-metrics.prom";
  PollingInterval := 30;
  MinActiveTime := 60;
  MetricsCacheTTL := 15;
  MetricsRefreshInterval := 30;
  ProcessMinAgeSeconds := 60;
  CgroupOperationTimeout := 5;
  CgroupRetryDelayMs := 100;
  MCPShutdownTimeout := 10;
  CPUThreshold := 75;
  CPUReleaseThreshold := 40;
  CPUThresholdDuration := 90;
  CPUQuotaNormal := "max 100000";
  CPUQuotaLimited := "50000 100000";
  RAMEnabled := false;
  RAMThreshold := 75;
  RAMReleaseThreshold := 40;
  RAMQuotaLimited := "2G";
  RAMQuotaPerUser := "512M";
  DisableSwap := false;
  RAMHighRatio := lit 8 10;
  RAMUserIncludeList := [];
  RAMUserExcludeList := [];
  IOEnabled := false;
  IOThreshold := 75;
  IOReleaseThreshold := 40;
  IOReadBPS := "100M";
  IOWriteBPS := "50M";
  IOReadIOPS := 1000;
  IOWriteIOPS := 500;
  IODeviceFilter := "all";
  IOThresholdDuration := 0;
  IORemediationEnabled := false;
  IOStarvationThreshold := 300;
  IOStarvationCheckInterval := 30;
  IOBoostMultiplier := lit 20 10;
  IOBoostDuration := 600;
  IOBoostMaxPerHour := 3;
  IOPSIThreshold := lit 500 10;
  IORevertOnNormal := true;
  IOUserIncludeList := [];
  IOUserExcludeList := [];
  AutodetectPatterns := false;
  PatternHistoryHours := 168;
  PatternMinSamples := 24;
  PatternConfidenceThreshold := lit 7 10;
  BatchNightCPUQuota := 200000;
  BatchNightRAMQuota := "4G";
  InteractiveCPUQuota := 50000;
  InteractiveRAMQuota := "1G";
  LimitHookEnabled := false;
  LimitHookScript := "";
  LimitHookURL := "";
  LimitHookTimeout := 10;
  EnablePrometheus := false;
  PrometheusMetricsBindHost := "127.0.0.1";
  PrometheusMetricsBindPort := 1974;
  PrometheusTLSEnabled := false;
  PrometheusTLSCertFile := "/etc/resman/tls/server.crt";
  PrometheusTLSKeyFile := "/etc/resman/tls/server.key";
  PrometheusTLSCAFile := "";
  PrometheusTLSMinVersion := "1.2";
  PrometheusAuthType := "none";
  PrometheusAuthUsername := "";
  PrometheusAuthPasswordFile := "";
  PrometheusJWTSecretFile := "";
  PrometheusJWTIssuer := "resman";
  PrometheusJWTAudience := "prometheus";
  PrometheusJWTExpiry := 3600;
  LogLevel := "INFO";
  LogMaxSize := 10485760;
  UseSyslog := false;
  MinSystemCores := 1;
  SystemUIDMin := 1000;
  SystemUIDMax := pidMax pid_max_file;
  UserIncludeList := [];
  UserExcludeList := [];
  ProcessExcludeList := ["^systemd$"; "^dbus-daemon$"; "^dbus-broker$"; "^polkitd$"];
  BlackoutTimeframes := [];
  BlackoutSpec := "";
  IgnoreSystemLoad := false;
  ServerRole := "";
  MCPEnabled := false;
  MCPTransport := "stdio";
  MCPHTTPPort := 1969;
  MCPHTTPHost := "";
  MCPLogLevel := "INFO";
  MCPAuthToken := "";
  MCPAllowWriteOps := false;
  MetricsDBEnabled := false;
  MetricsDBPath := "/etc/resman/metrics.db";
  MetricsDBRetentionDays := 30;
  MetricsDBWriteInterval := 30;
  UsernameCacheTTL := 60;
  PSIEventDriven := false;
  PSICPUStallThreshold := 50000;
  PSIOStallThreshold := 50000;
  PSIWindowUs := 1000000;
  PSIFallbackInterval := 300;
  PSIBoostWeight := 300;
  PSIBoostDuration := 120
|}.

(** ** Field assignments

    [setter] abstracts one projection of the eta-expanded record. *)

Definition Config_eta (r : Config) : Config := mkConfig
  (CgroupRoot r) (CgroupBase r) (ConfigFile r)
  (LogFile r) (CreatedCgroupsFile r) (MetricsCacheFile r)
  (PrometheusFile r) (PollingInterval r) (MinActiveTime r)
  (MetricsCacheTTL r) (MetricsRefreshInterval r) (ProcessMinAgeSeconds r)
  (CgroupOperationTimeout r) (CgroupRetryDelayMs r) (MCPShutdownTimeout r)
  (CPUThreshold r) (CPUReleaseThreshold r) (CPUThresholdDuration r)
  (CPUQuotaNormal r) (CPUQuotaLimited r) (RAMEnabled r)
  (RAMThreshold r) (RAMReleaseThreshold r) (RAMQuotaLimited r)
  (RAMQuotaPerUser r) (DisableSwap r) (RAMHighRatio r)
  (RAMUserIncludeList r) (RAMUserExcludeList r) (IOEnabled r)
  (IOThreshold r) (IOReleaseThreshold r) (IOReadBPS r)
  (IOWriteBPS r) (IOReadIOPS r) (IOWriteIOPS r)
  (IODeviceFilter r) (IOThresholdDuration r) (IORemediationEnabled r)
  (IOStarvationThreshold r) (IOStarvationCheckInterval r) (IOBoostMultiplier r)
  (IOBoostDuration r) (IOBoostMaxPerHour r) (IOPSIThreshold r)
  (IORevertOnNormal r) (IOUserIncludeList r) (IOUserExcludeList r)
  (AutodetectPatterns r) (PatternHistoryHours r) (PatternMinSamples r)
  (PatternConfidenceThreshold r) (BatchNightCPUQuota r) (BatchNightRAMQuota r)
  (InteractiveCPUQuota r) (InteractiveRAMQuota r) (LimitHookEnabled r)
  (LimitHookScript r) (LimitHookURL r) (LimitHookTimeout r)
  (EnablePrometheus r) (PrometheusMetricsBindHost r) (PrometheusMetricsBindPort r)
  (PrometheusTLSEnabled r) (PrometheusTLSCertFile r) (PrometheusTLSKeyFile r)
  (PrometheusTLSCAFile r) (PrometheusTLSMinVersion r) (PrometheusAuthType r)
  (PrometheusAuthUsername r) (PrometheusAuthPasswordFile r) (PrometheusJWTSecretFile r)
  (PrometheusJWTIssuer r) (PrometheusJWTAudience r) (PrometheusJWTExpiry r)
  (LogLevel r) (LogMaxSize r) (UseSyslog r)
  (MinSystemCores r) (SystemUIDMin r) (SystemUIDMax r)
  (UserIncludeList r) (UserExcludeList r) (ProcessExcludeList r)
  (BlackoutTimeframes r) (BlackoutSpec r) (IgnoreSystemLoad r)
  (ServerRole r) (MCPEnabled r) (MCPTransport r)
  (MCPHTTPPort r) (MCPHTTPHost r) (MCPLogLevel r)
  (MCPAuthToken r) (MCPAllowWriteOps r) (MetricsDBEnabled r)
  (MetricsDBPath r) (MetricsDBRetentionDays r) (MetricsDBWriteInterval r)
  (UsernameCacheTTL r) (PSIEventDriven r) (PSICPUStallThreshold r)
  (PSIOStallThreshold r) (PSIWindowUs r) (PSIFallbackInterval r)
  (PSIBoostWeight r) (PSIBoostDuration r).

Ltac setter eta proj :=
  let e := eval unfold eta in eta in
  match eval pattern proj in e with
  | ?f _ => let t := eval cbv beta in (fun v => f (fun _ => v)) in exact t
  end.

Definition set_CgroupRoot : string -> Config -> Config := ltac:(setter Config_eta CgroupRoot).

Definition set_CgroupBase : string -> Config -> Config := ltac:(setter Config_eta CgroupBase).

Definition set_ConfigFile : string -> Config -> Config := ltac:(setter Config_eta ConfigFile).

Definition set_LogFile : string -> Config -> Config := ltac:(setter Config_eta LogFile).

Definition set_CreatedCgroupsFile : string -> Config -> Config := ltac:(setter Config_eta CreatedCgroupsFile).

Definition set_MetricsCacheFile : string -> Config -> Config := ltac:(setter Config_eta MetricsCacheFile).

Definition set_PrometheusFile : string -> Config -> Config := ltac:(setter Config_eta PrometheusFile).

Definition set_PollingInterval : Z -> Config -> Config := ltac:(setter Config_eta PollingInterval).

Definition set_MinActiveTime : Z -> Config -> Config := ltac:(setter Config_eta MinActiveTime).

Definition set_MetricsCacheTTL : Z -> Config -> Config := ltac:(setter Config_eta MetricsCacheTTL).

Definition set_MetricsRefreshInterval : Z -> Config -> Config := ltac:(setter Config_eta MetricsRefreshInterval).

Definition set_ProcessMinAgeSeconds : Z -> Config -> Config := ltac:(setter Config_eta ProcessMinAgeSeconds).

Definition set_CgroupOperationTimeout : Z -> Config -> Config := ltac:(setter Config_eta CgroupOperationTimeout).

Definition set_CgroupRetryDelayMs : Z -> Config -> Config := ltac:(setter Config_eta CgroupRetryDelayMs).

Definition set_MCPShutdownTimeout : Z -> Config -> Config := ltac:(setter Config_eta MCPShutdownTimeout).

Definition set_CPUThreshold : Z -> Config -> Config := ltac:(setter Config_eta CPUThreshold).

Definition set_CPUReleaseThreshold : Z -> Config -> Config := ltac:(setter Config_eta CPUReleaseThreshold).

Definition set_CPUThresholdDuration : Z -> Config -> Config := ltac:(setter Config_eta CPUThresholdDuration).

Definition set_CPUQuotaNormal : string -> Config -> Config := ltac:(setter Config_eta CPUQuotaNormal).

Definition set_CPUQuotaLimited : string -> Config -> Config := ltac:(setter Config_eta CPUQuotaLimited).

Definition set_RAMEnabled : bool -> Config -> Config := ltac:(setter Config_eta RAMEnabled).

Definition set_RAMThreshold : Z -> Config -> Config := ltac:(setter Config_eta RAMThreshold).

Definition set_RAMReleaseThreshold : Z -> Config -> Config := ltac:(setter Config_eta RAMReleaseThreshold).

Definition set_RAMQuotaLimited : string -> Config -> Config := ltac:(setter Config_eta RAMQuotaLimited).

Definition set_RAMQuotaPerUser : string -> Config -> Config := ltac:(setter Config_eta RAMQuotaPerUser).

Definition set_DisableSwap : bool -> Config -> Config := ltac:(setter Config_eta DisableSwap).

Definition set_RAMHighRatio : f64 -> Config -> Config := ltac:(setter Config_eta RAMHighRatio).

Definition set_RAMUserIncludeList : list string -> Config -> Config := ltac:(setter Config_eta RAMUserIncludeList).

Definition set_RAMUserExcludeList : list string -> Config -> Config := ltac:(setter Config_eta RAMUserExcludeList).

Definition set_IOEnabled : bool -> Config -> Config := ltac:(setter Config_eta IOEnabled).

Definition set_IOThreshold : Z -> Config -> Config := ltac:(setter Config_eta IOThreshold).

Definition set_IOReleaseThreshold : Z -> Config -> Config := ltac:(setter Config_eta IOReleaseThreshold).

Definition set_IOReadBPS : string -> Config -> Config := ltac:(setter Config_eta IOReadBPS).

Definition set_IOWriteBPS : string -> Config -> Config := ltac:(setter Config_eta IOWriteBPS).

Definition set_IOReadIOPS : Z -> Config -> Config := ltac:(setter Config_eta IOReadIOPS).

Definition set_IOWriteIOPS : Z -> Config -> Config := ltac:(setter Config_eta IOWriteIOPS).

Definition set_IODeviceFilter : string -> Config -> Config := ltac:(setter Config_eta IODeviceFilter).

Definition set_IOThresholdDuration : Z -> Config -> Config := ltac:(setter Config_eta IOThresholdDuration).

Definition set_IORemediationEnabled : bool -> Config -> Config := ltac:(setter Config_eta IORemediationEnabled).

Definition set_IOStarvationThreshold : Z -> Config -> Config := ltac:(setter Config_eta IOStarvationThreshold).

Definition set_IOStarvationCheckInterval : Z -> Config -> Config := ltac:(setter Config_eta IOStarvationCheckInterval).

Definition set_IOBoostMultiplier : f64 -> Config -> Config := ltac:(setter Config_eta IOBoostMultiplier).

Definition set_IOBoostDuration : Z -> Config -> Config := ltac:(setter Config_eta IOBoostDuration).

Definition set_IOBoostMaxPerHour : Z -> Config -> Config := ltac:(setter Config_eta IOBoostMaxPerHour).

Definition set_IOPSIThreshold : f64 -> Config -> Config := ltac:(setter Config_eta IOPSIThreshold).

Definition set_IORevertOnNormal : bool -> Config -> Config := ltac:(setter Config_eta IORevertOnNormal).

Definition set_IOUserIncludeList : list string -> Config -> Config := ltac:(setter Config_eta IOUserIncludeList).

Definition set_IOUserExcludeList : list string -> Config -> Config := ltac:(setter Config_eta IOUserExcludeList).

Definition set_AutodetectPatterns : bool -> Config -> Config := ltac:(setter Config_eta AutodetectPatterns).

Definition set_PatternHistoryHours : Z -> Config -> Config := ltac:(setter Config_eta PatternHistoryHours).

Definition set_PatternMinSamples : Z -> Config -> Config := ltac:(setter Config_eta PatternMinSamples).

Definition set_PatternConfidenceThreshold : f64 -> Config -> Config := ltac:(setter Config_eta PatternConfidenceThreshold).

Definition set_BatchNightCPUQuota : Z -> Config -> Config := ltac:(setter Config_eta BatchNightCPUQuota).

Definition set_BatchNightRAMQuota : string -> Config -> Config := ltac:(setter Config_eta BatchNightRAMQuota).

Definition set_InteractiveCPUQuota : Z -> Config -> Config := ltac:(setter Config_eta InteractiveCPUQuota).

Definition set_InteractiveRAMQuota : string -> Config -> Config := ltac:(setter Config_eta InteractiveRAMQuota).

Definition set_LimitHookEnabled : bool -> Config -> Config := ltac:(setter Config_eta LimitHookEnabled).

Definition set_LimitHookScript : string -> Config -> Config := ltac:(setter Config_eta LimitHookScript).

Definition set_LimitHookURL : string -> Config -> Config := ltac:(setter Config_eta LimitHookURL).

Definition set_LimitHookTimeout : Z -> Config -> Config := ltac:(setter Config_eta LimitHookTimeout).

Definition set_EnablePrometheus : bool -> Config -> Config := ltac:(setter Config_eta EnablePrometheus).

Definition set_PrometheusMetricsBindHost : string -> Config -> Config := ltac:(setter Config_eta PrometheusMetricsBindHost).

Definition set_PrometheusMetricsBindPort : Z -> Config -> Config := ltac:(setter Config_eta PrometheusMetricsBindPort).

Definition set_PrometheusTLSEnabled : bool -> Config -> Config := ltac:(setter Config_eta PrometheusTLSEnabled).

Definition set_PrometheusTLSCertFile : string -> Config -> Config := ltac:(setter Config_eta PrometheusTLSCertFile).

Definition set_PrometheusTLSKeyFile : string -> Config -> Config := ltac:(setter Config_eta PrometheusTLSKeyFile).

Definition set_PrometheusTLSCAFile : string -> Config -> Config := ltac:(setter Config_eta PrometheusTLSCAFile).

Definition set_PrometheusTLSMinVersion : string -> Config -> Config := ltac:(setter Config_eta PrometheusTLSMinVersion).

Definition set_PrometheusAuthType : string -> Config -> Config := ltac:(setter Config_eta PrometheusAuthType).

Definition set_PrometheusAuthUsername : string -> Config -> Config := ltac:(setter Config_eta PrometheusAuthUsername).

Definition set_PrometheusAuthPasswordFile : string -> Config -> Config := ltac:(setter Config_eta PrometheusAuthPasswordFile).

Definition set_PrometheusJWTSecretFile : string -> Config -> Config := ltac:(setter Config_eta PrometheusJWTSecretFile).

Definition set_PrometheusJWTIssuer : string -> Config -> Config := ltac:(setter Config_eta PrometheusJWTIssuer).

Definition set_PrometheusJWTAudience : string -> Config -> Config := ltac:(setter Config_eta PrometheusJWTAudience).

Definition set_PrometheusJWTExpiry : Z -> Config -> Config := ltac:(setter Config_eta PrometheusJWTExpiry).

Definition set_LogLevel : string -> Config -> Config := ltac:(setter Config_eta LogLevel).

Definition set_LogMaxSize : Z -> Config -> Config := ltac:(setter Config_eta LogMaxSize).

Definition set_UseSyslog : bool -> Config -> Config := ltac:(setter Config_eta UseSyslog).

Definition set_MinSystemCores : Z -> Config -> Config := ltac:(setter Config_eta MinSystemCores).

Definition set_SystemUIDMin : Z -> Config -> Config := ltac:(setter Config_eta SystemUIDMin).

Definition set_SystemUIDMax : Z -> Config -> Config := ltac:(setter Config_eta SystemUIDMax).

Definition set_UserIncludeList : list string -> Config -> Config := ltac:(setter Config_eta UserIncludeList).

Definition set_UserExcludeList : list string -> Config -> Config := ltac:(setter Config_eta UserExcludeList).

Definition set_ProcessExcludeList : list string -> Config -> Config := ltac:(setter Config_eta ProcessExcludeList).

Definition set_BlackoutTimeframes : list Timeframe -> Config -> Config := ltac:(setter Config_eta BlackoutTimeframes).

Definition set_BlackoutSpec : string -> Config -> Config := ltac:(setter Config_eta BlackoutSpec).

Definition set_IgnoreSystemLoad : bool -> Config -> Config := ltac:(setter Config_eta IgnoreSystemLoad).

Definition set_ServerRole : string -> Config -> Config := ltac:(setter Config_eta ServerRole).

Definition set_MCPEnabled : bool -> Config -> Config := ltac:(setter Config_eta MCPEnabled).

Definition set_MCPTransport : string -> Config -> Config := ltac:(setter Config_eta MCPTransport).

Definition set_MCPHTTPPort : Z -> Config -> Config := ltac:(setter Config_eta MCPHTTPPort).

Definition set_MCPHTTPHost : string -> Config -> Config := ltac:(setter Config_eta MCPHTTPHost).

Definition set_MCPLogLevel : string -> Config -> Config := ltac:(setter Config_eta MCPLogLevel).

Definition set_MCPAuthToken : string -> Config -> Config := ltac:(setter Config_eta MCPAuthToken).

Definition set_MCPAllowWriteOps : bool -> Config -> Config := ltac:(setter Config_eta MCPAllowWriteOps).

Definition set_MetricsDBEnabled : bool -> Config -> Config := ltac:(setter Config_eta MetricsDBEnabled).

Definition set_MetricsDBPath : string -> Config -> Config := ltac:(setter Config_eta MetricsDBPath).

Definition set_MetricsDBRetentionDays : Z -> Config -> Config := ltac:(setter Config_eta MetricsDBRetentionDays).

Definition set_MetricsDBWriteInterval : Z -> Config -> Config := ltac:(setter Config_eta MetricsDBWriteInterval).

Definition set_UsernameCacheTTL : Z -> Config -> Config := ltac:(setter Config_eta UsernameCacheTTL).

Definition set_PSIEventDriven : bool -> Config -> Config := ltac:(setter Config_eta PSIEventDriven).

Definition set_PSICPUStallThreshold : Z -> Config -> Config := ltac:(setter Config_eta PSICPUStallThreshold).

Definition set_PSIOStallThreshold : Z -> Config -> Config := ltac:(setter Config_eta PSIOStallThreshold).

Definition set_PSIWindowUs : Z -> Config -> Config := ltac:(setter Config_eta PSIWindowUs).

Definition set_PSIFallbackInterval : Z -> Config -> Config := ltac:(setter Config_eta PSIFallbackInterval).

Definition set_PSIBoostWeight : Z -> Config -> Config := ltac:(setter Config_eta PSIBoostWeight).

Definition set_PSIBoostDuration : Z -> Config -> Config := ltac:(setter Config_eta PSIBoostDuration).

(** ** Getters *)

Definition GetMetricsCacheTTL (c : Config) : Z := MetricsCacheTTL c.

Definition GetMetricsRefreshInterval (c : Config) : Z := MetricsRefreshInterval c.

Definition GetProcessMinAgeSeconds (c : Config) : Z := ProcessMinAgeSeconds c.

Definition GetSystemUIDMin (c : Config) : Z := SystemUIDMin c.

Definition GetSystemUIDMax (c : Config) : Z := SystemUIDMax c.

Definition GetCPUThreshold (c : Config) : Z := CPUThreshold c.

Definition GetCPUReleaseThreshold (c : Config) : Z := CPUReleaseThreshold c.

Definition GetCPUThresholdDuration (c : Config) : Z := CPUThresholdDuration c.

Definition GetMinActiveTime (c : Config) : Z := MinActiveTime c.

Definition GetPollingInterval (c : Config) : Z := PollingInterval c.

Definition GetCgroupOperationTimeout (c : Config) : Z := CgroupOperationTimeout c.

Definition GetCgroupRetryDelayMs (c : Config) : Z := CgroupRetryDelayMs c.

Definition GetMCPShutdownTimeout (c : Config) : Z := MCPShutdownTimeout c.

Definition GetMinSystemCores (c : Config) : Z := MinSystemCores c.

Definition GetIOEnabled (c : Config) : bool := IOEnabled c.

Definition GetIOReadBPS (c : Config) : string := IOReadBPS c.

Definition GetIOWriteBPS (c : Config) : string := IOWriteBPS c.

Definition GetIOReadIOPS (c : Config) : Z := IOReadIOPS c.

Definition GetIOWriteIOPS (c : Config) : Z := IOWriteIOPS c.

Definition GetIODeviceFilter (c : Config) : string := IODeviceFilter c.

Definition GetIOThresholdDuration (c : Config) : Z := IOThresholdDuration c.

Definition GetIORemediationEnabled (c : Config) : bool := IORemediationEnabled c.

Definition GetIOStarvationThreshold (c : Config) : Z := IOStarvationThreshold c.

Definition GetIOStarvationCheckInterval (c : Config) : Z := IOStarvationCheckInterval c.

Definition GetIOBoostMultiplier (c : Config) : f64 := IOBoostMultiplier c.

Definition GetIOBoostDuration (c : Config) : Z := IOBoostDuration c.

Definition GetIOBoostMaxPerHour (c : Config) : Z := IOBoostMaxPerHour c.

Definition GetIOPSIThreshold (c : Config) : f64 := IOPSIThreshold c.

Definition GetIORevertOnNormal (c : Config) : bool := IORevertOnNormal c.

Definition GetAutodetectPatterns (c : Config) : bool := AutodetectPatterns c.

Definition GetPatternHistoryHours (c : Config) : Z := PatternHistoryHours c.

Definition GetPatternMinSamples (c : Config) : Z := PatternMinSamples c.

Definition GetPatternConfidenceThreshold (c : Config) : f64 := PatternConfidenceThreshold c.

Definition GetBatchNightCPUQuota (c : Config) : Z := BatchNightCPUQuota c.

Definition GetBatchNightRAMQuota (c : Config) : string := BatchNightRAMQuota c.

Definition GetInteractiveCPUQuota (c : Config) : Z := InteractiveCPUQuota c.

Definition GetInteractiveRAMQuota (c : Config) : string := InteractiveRAMQuota c.

Definition GetIgnoreSystemLoad (c : Config) : bool := IgnoreSystemLoad c.

Definition GetPSIEventDriven (c : Config) : bool := PSIEventDriven c.

Definition GetPSICPUStallThreshold (c : Config) : Z := PSICPUStallThreshold c.

Definition GetPSIOStallThreshold (c : Config) : Z := PSIOStallThreshold c.

Definition GetPSIWindowUs (c : Config) : Z := PSIWindowUs c.

Definition GetPSIFallbackInterval (c : Config) : Z := PSIFallbackInterval c.

Definition GetPSIBoostWeight (c : Config) : Z := PSIBoostWeight c.

Definition GetPSIBoostDuration (c : Config) : Z := PSIBoostDuration c.

Definition GetRAMHighRatio (c : Config) : f64 :=
  if f_le (RAMHighRatio c) fzero || f_gt (RAMHighRatio c) (f64_of_Z 1)
  then lit 8 10 else RAMHighRatio c.

Definition GetUserIncludeList (c : Config) : list string := UserIncludeList c.

Definition GetUserExcludeList (c : Config) : list string := UserExcludeList c.

Definition GetProcessExcludeList (c : Config) : list string := ProcessExcludeList c.
