(* ===== verification/Blackout.v ===== *)
(** * Blackout windows (config/config.go: [ParseTimeframe] .. [GetNextBlackoutEnd])

    The parser of the BLACKOUT specification and the tests the control cycle
    makes with it.  The instants the two queries read are arguments. *)

From S2P Require Import Prelude GoStrings GoFloat Config.

#[local] Open Scope Z_scope.

(** ** Code *)

Definition days_error : error := "days must be 0-6 (0=Sunday)".

Definition parseDayPart (part : string) : result (list Z) :=
  if Contains part "-" then
    match Split part "-" with
    | [a; b] =>
        let? start := AtoiE a in
        let? end_ := AtoiE b in
        if (start <? 0) || (start >? 6) || (end_ <? 0) || (end_ >? 6)
        then Err days_error
        else Ok (seqZ start (end_ - start + 1))
    | _ => Err ("invalid day range: " +:+ part)
    end
  else
    let? day := AtoiE part in
    if (day <? 0) || (day >? 6) then Err days_error else Ok [day].

Fixpoint parseDayParts (parts : list string) (days : list Z) : result (list Z) :=
  match parts with
  | [] => Ok days
  | p :: ps => let? ds := parseDayPart p in parseDayParts ps (days ++ ds)
  end.

Definition parseDays (spec : string) : result (list Z) :=
  if String.eqb spec "*" then Ok [0; 1; 2; 3; 4; 5; 6]
  else parseDayParts (Split spec ",") [].

Definition parseHours (spec : string) : result (Z * Z) :=
  match Split spec "-" with
  | [a; b] =>
      let? start := AtoiE a in
      let? end_ := AtoiE b in
      if (start <? 0) || (start >? 23) || (end_ <? 0) || (end_ >? 23)
      then Err "hours must be 0-23"
      else if start >=? end_ then Err "start hour must be before end hour"
      else Ok (start, end_)
  | _ => Err ("invalid hour format: " +:+ spec +:+ " (expected: start-end)")
  end.

(** [%w] prefixes the message of the wrapped error. *)
Definition wrap {A} (pre : string) (r : result A) : result A :=
  match r with Ok a => Ok a | Err e => Err (pre +:+ e) end.

Fixpoint parseSpecs (specs : list string) (timeframes : list Timeframe) : result (list Timeframe) :=
  match specs with
  | [] => Ok timeframes
  | s0 :: rest =>
      let s := TrimSpace s0 in
      if String.eqb s "" then parseSpecs rest timeframes
      else match Fields s with
           | [d; h] =>
               let? days := wrap ("invalid days spec '" +:+ d +:+ "': ") (parseDays d) in
               let? (hs, he) := wrap ("invalid hours spec '" +:+ h +:+ "': ") (parseHours h) in
               parseSpecs rest (timeframes ++ [mkTimeframe days hs he])
           | _ => Err ("invalid timeframe format: " +:+ s +:+ " (expected: days hours)")
           end
  end.

Definition ParseTimeframe (spec : string) : result (list Timeframe) :=
  parseSpecs (Split spec ";") [].

(** The local civil time the queries look at. *)
Record Civil := mkCivil { civ_date : Z; civ_weekday : Z; civ_hour : Z }.

Definition dayMatch (tf : Timeframe) (now : Civil) : bool :=
  existsb (fun day => day =? civ_weekday now) (DaysOfWeek tf).

Definition inTimeframe (tf : Timeframe) (now : Civil) : bool :=
  dayMatch tf now && ((civ_hour now >=? HourStart tf) && (civ_hour now <? HourEnd tf)).

Definition IsInBlackout (c : Config) (now : Civil) : bool :=
  match BlackoutTimeframes c with
  | [] => false
  | tfs => existsb (fun tf => inTimeframe tf now) tfs
  end.

(** The end of the window: today at [HourEnd]:00.  [now1] is the instant
    [IsInBlackout] reads, [now2] the one read afterwards. *)
Fixpoint first_end (tfs : list Timeframe) (now : Civil) : option (Z * Z) :=
  match tfs with
  | [] => None
  | tf :: rest =>
      if inTimeframe tf now then Some (civ_date now, HourEnd tf) else first_end rest now
  end.

Definition GetNextBlackoutEnd (c : Config) (now1 now2 : Civil) : option (Z * Z) :=
  if negb (IsInBlackout c now1) then None
  else first_end (BlackoutTimeframes c) now2.

Definition setBlackout (cfg : Config) (value : string) : result Config :=
  let cfg := set_BlackoutSpec (TrimSpace value) cfg in
  if String.eqb (BlackoutSpec cfg) "" then Ok (set_BlackoutTimeframes [] cfg)
  else
    let? timeframes :=
      wrap ("invalid blackout specification '" +:+ BlackoutSpec cfg +:+ "': ")
           (ParseTimeframe (BlackoutSpec cfg)) in
    Ok (set_BlackoutTimeframes timeframes cfg).

(** ** Specification *)

(** What the parser promises about a window. *)
Definition timeframe_ok (tf : Timeframe) : Prop :=
  Forall (fun d => 0 <= d <= 6) (DaysOfWeek tf) /\ 0 <= HourStart tf < HourEnd tf /\ HourEnd tf <= 23.

Definition print_timeframe (tf : Timeframe) : string :=
  Join (Itoa <$> DaysOfWeek tf) "," +:+ " " +:+ Itoa (HourStart tf) +:+ "-" +:+ Itoa (HourEnd tf).

(** ** Lemmas *)

Lemma wrap_ok {A} pre (r : result A) a : wrap pre r = Ok a <-> r = Ok a.
Proof. destruct r; simpl; naive_solver. Qed.

#[export] Hint Rewrite @wrap_ok : resman.

Lemma AtoiE_ok s v : AtoiE s = Ok v <-> Atoi s = Some v.
Proof. unfold AtoiE. destruct (Atoi s); naive_solver. Qed.

Lemma parseDayPart_range p ds : parseDayPart p = Ok ds -> Forall (fun d => 0 <= d <= 6) ds.
Proof.
  unfold parseDayPart. intros H. destruct (Contains p "-").
  - destruct (Split p "-") as [|a [|b [|]]]; try done.
    apply result_bind_ok in H as (st & _ & H). apply result_bind_ok in H as (en & _ & H).
    destruct (_ || _) eqn:R; [done|]. injection H as <-. bool_to_Z.
    apply Forall_forall. intros d Hd%elem_of_seqZ. lia.
  - apply result_bind_ok in H as (d & _ & H). destruct (_ || _) eqn:R; [done|].
    injection H as <-. bool_to_Z. constructor; [lia|done].
Qed.

Lemma parseDayParts_range ps acc ds :
  Forall (fun d => 0 <= d <= 6) acc -> parseDayParts ps acc = Ok ds ->
  Forall (fun d => 0 <= d <= 6) ds.
Proof.
  revert acc. induction ps as [|p ps IH]; intros acc Hacc H; simpl in H; [by simplify_eq|].
  apply result_bind_ok in H as (d & Hd & H). eapply IH; [|done].
  apply Forall_app. split; [done|]. by eapply parseDayPart_range.
Qed.

Lemma parseDays_range s ds : parseDays s = Ok ds -> Forall (fun d => 0 <= d <= 6) ds.
Proof.
  unfold parseDays. destruct (String.eqb s "*").
  - intros [= <-]. repeat constructor; lia.
  - by apply parseDayParts_range.
Qed.

Lemma parseHours_range s h1 h2 : parseHours s = Ok (h1, h2) -> 0 <= h1 < h2 /\ h2 <= 23.
Proof.
  unfold parseHours. intros H. destruct (Split s "-") as [|a [|b [|]]]; try done.
  apply result_bind_ok in H as (st & _ & H). apply result_bind_ok in H as (en & _ & H).
  destruct (_ || _) eqn:R; [done|]. destruct (st >=? en) eqn:G; [done|].
  injection H as <- <-. bool_to_Z. lia.
Qed.

Lemma parseSpecs_ok specs acc tfs :
  Forall timeframe_ok acc -> parseSpecs specs acc = Ok tfs -> Forall timeframe_ok tfs.
Proof.
  revert acc. induction specs as [|s specs IH]; intros acc Hacc H; simpl in H; [by simplify_eq|].
  destruct (String.eqb (TrimSpace s) ""); [by eapply IH|].
  destruct (Fields (TrimSpace s)) as [|d [|h [|]]]; try done.
  apply result_bind_ok in H as (ds & Hd%wrap_ok & H).
  apply result_bind_ok in H as ([h1 h2] & Hh%wrap_ok & H).
  eapply IH; [|exact H]. apply Forall_app. split; [done|].
  constructor; [|done]. apply parseDays_range in Hd. apply parseHours_range in Hh. done.
Qed.

Lemma inTimeframe_spec tf now :
  inTimeframe tf now = true <->
  civ_weekday now ∈ DaysOfWeek tf /\ HourStart tf <= civ_hour now < HourEnd tf.
Proof.
  unfold inTimeframe, dayMatch. rewrite !andb_true_iff, existsb_exists.
  setoid_rewrite Z.eqb_eq. setoid_rewrite <- list_elem_of_In.
  rewrite Z.geb_le, Z.ltb_lt. naive_solver.
Qed.

Lemma IsInBlackout_exists c now :
  IsInBlackout c now = true <-> exists tf, tf ∈ BlackoutTimeframes c /\ inTimeframe tf now = true.
Proof.
  unfold IsInBlackout. destruct (BlackoutTimeframes c) as [|tf tfs] eqn:E.
  - split; [done|]. intros (tf & H%not_elem_of_nil & _). done.
  - rewrite existsb_exists. setoid_rewrite <- list_elem_of_In. done.
Qed.

Lemma first_end_some tfs now :
  (exists tf, tf ∈ tfs /\ inTimeframe tf now = true) ->
  exists tf, tf ∈ tfs /\ inTimeframe tf now = true /\ first_end tfs now = Some (civ_date now, HourEnd tf).
Proof.
  intros (tf & Hin & Htf). induction tfs as [|t tfs IH]; [by apply not_elem_of_nil in Hin|].
  simpl. destruct (inTimeframe t now) eqn:E.
  - exists t. split; [by left|done].
  - apply elem_of_cons in Hin as [->|Hin]; [congruence|].
    destruct (IH Hin) as (t' & ? & ? & ?). exists t'. split; [by right|done].
Qed.

Lemma Atoi_Itoa_day d : 0 <= d <= 23 -> Atoi (Itoa d) = Some d.
Proof. intros. apply Atoi_Itoa. unfold in_i64, two63. lia. Qed.

Lemma parseDayPart_print d : 0 <= d <= 6 -> parseDayPart (Itoa d) = Ok [d].
Proof.
  intros Hd. unfold parseDayPart. rewrite Contains_char, mem_Itoa_nonneg by (done || lia).
  unfold AtoiE. rewrite Atoi_Itoa_day by lia. simpl.
  replace (d <? 0) with false by lia. by replace (d >? 6) with false by lia.
Qed.

Lemma parseDayParts_print ds acc :
  Forall (fun d => 0 <= d <= 6) ds -> parseDayParts (Itoa <$> ds) acc = Ok (acc ++ ds).
Proof.
  revert acc. induction ds as [|d ds IH]; intros acc Hds; simpl; [by rewrite app_nil_r|].
  inversion_clear Hds. rewrite parseDayPart_print by done. simpl.
  rewrite IH by done. by rewrite <- app_assoc.
Qed.

Lemma days_no_byte c ds :
  digit c = None -> c <> "-"%char -> c <> ","%char -> mem c (Join (Itoa <$> ds) ",") = false.
Proof.
  intros Hd Hm Hc. apply mem_join.
  - simpl. by rewrite (proj2 (Ascii.eqb_neq c ","%char)).
  - apply Forall_fmap, Forall_true. intros d. by apply Itoa_not_mem.
Qed.

Lemma parseDays_print ds :
  ds <> [] -> Forall (fun d => 0 <= d <= 6) ds ->
  parseDays (Join (Itoa <$> ds) ",") = Ok ds.
Proof.
  intros Hne Hds. unfold parseDays.
  assert (String.eqb (Join (Itoa <$> ds) ",") "*" = false) as ->.
  { apply String.eqb_neq. intros E.
    pose proof (days_no_byte "*"%char ds eq_refl ltac:(done) ltac:(done)) as H. by rewrite E in H. }
  change "," with (String ","%char ""). rewrite Split_join.
  - by rewrite parseDayParts_print.
  - by destruct ds.
  - apply Forall_fmap, Forall_true. intros d. by apply Itoa_not_mem.
Qed.

Lemma parseHours_print a b :
  0 <= a < b -> b <= 23 -> parseHours (Itoa a +:+ "-" +:+ Itoa b) = Ok (a, b).
Proof.
  intros Ha Hb. unfold parseHours.
  change (Itoa a +:+ "-" +:+ Itoa b) with (Itoa a +:+ String "-"%char (Itoa b)).
  rewrite Split_app, Split_no_sep by (apply mem_Itoa_nonneg; done || lia).
  unfold AtoiE. rewrite !Atoi_Itoa_day by lia. simpl.
  replace (a <? 0) with false by lia. replace (a >? 23) with false by lia.
  replace (b <? 0) with false by lia. replace (b >? 23) with false by lia.
  simpl. replace (a >=? b) with false by lia. done.
Qed.

Lemma days_no_space ds : no_space (Join (Itoa <$> ds) ",").
Proof.
  induction ds as [|d [|e ds] IH]; [done|apply Itoa_no_space|].
  change (no_space (Itoa d +:+ "," +:+ Join (Itoa <$> e :: ds) ",")).
  apply no_space_app; [apply Itoa_no_space|]. apply no_space_app; [|done].
  by apply no_space_cons.
Qed.

Lemma hours_word a b :
  no_space (Itoa a +:+ "-" +:+ Itoa b) /\ Itoa a +:+ "-" +:+ Itoa b <> "".
Proof.
  split.
  - apply no_space_app; [apply Itoa_no_space|]. apply no_space_app; [|apply Itoa_no_space].
    by apply no_space_cons.
  - intros [_ H]%append_eq_empty. done.
Qed.

Lemma print_fields tf :
  DaysOfWeek tf <> [] ->
  Fields (TrimSpace (print_timeframe tf)) =
  [Join (Itoa <$> DaysOfWeek tf) ","; Itoa (HourStart tf) +:+ "-" +:+ Itoa (HourEnd tf)].
Proof.
  intros Hne. unfold print_timeframe.
  set (a := Join _ _). set (b := _ +:+ "-" +:+ _).
  change (a +:+ " " +:+ b) with (a +:+ String " "%char b).
  assert (a <> "") as Ha.
  { subst a. destruct (DaysOfWeek tf) as [|d [|e l]]; [done|apply Itoa_not_empty|].
    change (Itoa d +:+ "," +:+ Join (Itoa <$> e :: l) "," <> "").
    intros [_ [? _]%append_eq_empty]%append_eq_empty. done. }
  pose proof (days_no_space (DaysOfWeek tf)) as Ha'. fold a in Ha'.
  destruct (hours_word (HourStart tf) (HourEnd tf)) as [Hb' Hb]. fold b in Hb', Hb.
  unfold TrimSpace. rewrite trim_id.
  - by apply Fields_two.
  - intros c s' E. destruct a as [|x a']; [done|]. rewrite append_cons in E.
    injection E as -> _. by apply no_space_cons in Ha' as [? _].
  - intros c. rewrite last_byte_app by done. intros H. apply Hb'.
    apply last_byte_mem. rewrite <- H. simpl. by destruct b.
Qed.

(** ** Properties *)

(** Every window [ParseTimeframe] returns has its days in 0..6 and hours
    0 <= start < end <= 23, whatever the specification. *)
Theorem ParseTimeframe_wf spec tfs :
  ParseTimeframe spec = Ok tfs -> Forall timeframe_ok tfs.
Proof. apply parseSpecs_ok. constructor. Qed.

Lemma ParseTimeframe_wf_witness :
  exists tfs, ParseTimeframe "1-5 08-18;0,6 00-23" = Ok tfs /\ Forall timeframe_ok tfs.
Proof.
  eexists. split; [vm_compute; reflexivity|].
  apply (ParseTimeframe_wf "1-5 08-18;0,6 00-23"). vm_compute. reflexivity.
Defined.

(** A specification the parser accepts never covers the last hour of the
    day: a "00-23" window, documented as the whole day, ends at 23:00. *)
Theorem blackout_never_at_23 spec tfs cfg now :
  ParseTimeframe spec = Ok tfs -> civ_hour now = 23 ->
  IsInBlackout (set_BlackoutTimeframes tfs cfg) now = false.
Proof.
  intros H%parseSpecs_ok Hh; [|constructor]. apply not_true_iff_false.
  rewrite IsInBlackout_exists. intros (tf & Hin & Htf%inTimeframe_spec).
  simpl in Hin. rewrite Forall_forall in H. destruct (H _ Hin) as (_ & ? & ?). lia.
Qed.

Lemma blackout_never_at_23_witness :
  exists tfs, ParseTimeframe "* 00-23" = Ok tfs /\
    IsInBlackout (set_BlackoutTimeframes tfs (DefaultConfig None)) (mkCivil 0 3 22) = true /\
    IsInBlackout (set_BlackoutTimeframes tfs (DefaultConfig None)) (mkCivil 0 3 23) = false.
Proof.
  eexists. split; [vm_compute; reflexivity|]. split; [vm_compute; reflexivity|].
  apply (blackout_never_at_23 "* 00-23"); [vm_compute; reflexivity|reflexivity].
Defined.

(** Printing a window in the documented format and parsing it back gives
    that window. *)
Theorem ParseTimeframe_print tf :
  timeframe_ok tf -> DaysOfWeek tf <> [] -> ParseTimeframe (print_timeframe tf) = Ok [tf].
Proof.
  intros (Hd & Hh & Hh') Hne. unfold ParseTimeframe. rewrite Split_no_sep.
  - simpl. destruct (String.eqb (TrimSpace (print_timeframe tf)) "") eqn:E.
    { apply String.eqb_eq in E. pose proof (print_fields tf Hne) as F. by rewrite E in F. }
    rewrite print_fields by done. rewrite parseDays_print by done. simpl.
    rewrite parseHours_print by lia. by destruct tf.
  - unfold print_timeframe. rewrite !mem_app, days_no_byte by done.
    by rewrite !Itoa_not_mem.
Qed.

Lemma ParseTimeframe_print_witness :
  ParseTimeframe (print_timeframe (mkTimeframe [1; 2; 5] 8 18)) = Ok [mkTimeframe [1; 2; 5] 8 18].
Proof.
  apply (ParseTimeframe_print (mkTimeframe [1; 2; 5] 8 18)); [|done].
  split; [repeat constructor; simpl; lia|simpl; lia].
Defined.

(** Read at one instant, [GetNextBlackoutEnd] answers exactly when
    [IsInBlackout] holds, with the end of a configured window containing that
    instant, which is later the same day. *)
Theorem GetNextBlackoutEnd_spec c now :
  match GetNextBlackoutEnd c now now with
  | None => IsInBlackout c now = false
  | Some (date, h) =>
      IsInBlackout c now = true /\ date = civ_date now /\ civ_hour now < h /\
      exists tf, tf ∈ BlackoutTimeframes c /\ inTimeframe tf now = true /\ h = HourEnd tf
  end.
Proof.
  unfold GetNextBlackoutEnd. destruct (IsInBlackout c now) eqn:E; simpl; [|done].
  apply IsInBlackout_exists in E as E'.
  destruct (first_end_some _ _ E') as (tf & Hin & Htf & ->).
  apply inTimeframe_spec in Htf as Htf'. split; [done|]. split; [done|]. split; [lia|eauto].
Qed.
