(* ===== verification/ConfigLoad.v ===== *)
(** * Loading and validating the configuration
      (config/config.go: [LoadAndValidate] .. [ParseRAMQuota])

    The key handlers, the file and environment loaders and the validation.
    The file's contents and the environment are arguments, and so are the two
    library functions whose language is open-ended: [regexp.Compile] and
    [url.Parse]. *)

From S2P Require Import Prelude GoStrings GoFloat GoNumbers Config Blackout.

#[local] Open Scope Z_scope.

(** ** Quotas *)

Definition isValidCPUQuota (quota : string) : bool :=
  match Split quota " " with
  | [a; b] =>
      if String.eqb a "max" then isSome (Atoi b)
      else isSome (Atoi a) && isSome (Atoi b)
  | _ => false
  end.

Definition suffixes : list (ascii * Z) :=
  [("K"%char, 1024);
   ("M"%char, 1024 * 1024);
   ("G"%char, 1024 * 1024 * 1024);
   ("T"%char, 1024 * 1024 * 1024 * 1024)].

(** The loop over the suffix map, in the order the runtime chooses. *)
Fixpoint suffix_loop (order : list (ascii * Z)) (quota : string) : option (result Z) :=
  match order with
  | [] => None
  | (suffix, multiplier) :: rest =>
      if HasSuffix quota (String suffix "") then
        let numStr := drop_last quota in
        match ParseUint numStr with
        | Some val => Some (Ok (wrap_u64 (val * multiplier)))
        | None => Some (Err ("invalid number: " +:+ numStr))
        end
      else suffix_loop rest quota
  end.

Definition ParseRAMQuota_order (order : list (ascii * Z)) (quota : string) : result Z :=
  if String.eqb quota "" then Err "empty RAM quota"
  else match suffix_loop order quota with
       | Some r => r
       | None =>
           match ParseUint quota with
           | Some val => Ok val
           | None => Err ("invalid RAM quota format: " +:+ quota)
           end
       end.

Definition ParseRAMQuota : string -> result Z := ParseRAMQuota_order suffixes.

Definition isValidByteQuota (quota : string) : bool :=
  if String.eqb quota "" then false else is_ok (ParseRAMQuota quota).

(** ** Key handlers *)

Definition configFieldHandler : Type := Config -> string -> result Config.

Definition setString (assign : string -> Config -> Config) : configFieldHandler :=
  fun cfg value => Ok (assign value cfg).

Definition setStringTransform (transform : string -> string)
    (assign : string -> Config -> Config) : configFieldHandler :=
  fun cfg value => Ok (assign (transform value) cfg).

Definition setInt (assign : Z -> Config -> Config) : configFieldHandler :=
  fun cfg value => match Atoi value with Some i => Ok (assign i cfg) | None => Ok cfg end.

Definition setPositiveInt (assign : Z -> Config -> Config) : configFieldHandler :=
  fun cfg value =>
    match Atoi value with
    | Some i => if i >? 0 then Ok (assign i cfg) else Ok cfg
    | None => Ok cfg
    end.

Definition setFloat (assign : f64 -> Config -> Config) : configFieldHandler :=
  fun cfg value => match ParseFloat value with Some f => Ok (assign f cfg) | None => Ok cfg end.

(** The two groups of spellings of a boolean. *)
Definition bool_word (value : string) : option bool :=
  let v := ToLower value in
  if existsb (String.eqb v) ["true"; "1"; "yes"; "on"] then Some true
  else if existsb (String.eqb v) ["false"; "0"; "no"; "off"] then Some false
  else None.

Definition setBool (defaultValue : bool) (assign : bool -> Config -> Config) : configFieldHandler :=
  fun cfg value => Ok (assign (default defaultValue (bool_word value)) cfg).

Definition setPort (key : string) (assign : Z -> Config -> Config) : configFieldHandler :=
  fun cfg value =>
    match Atoi value with
    | Some i =>
        if (i <? 1) || (i >? 65535)
        then Err ("invalid " +:+ key +:+ ": " +:+ Itoa i +:+ " (must be 1-65535)")
        else Ok (assign i cfg)
    | None => Ok cfg
    end.

Definition setCgroupBase : configFieldHandler :=
  fun cfg value =>
    if Contains value ".." || HasPrefix value "/"
    then Err "invalid CGROUP_BASE: must be a relative path without '..'"
    else Ok (set_CgroupBase value cfg).

Fixpoint trimmed_items (raw : list string) : list string :=
  match raw with
  | [] => []
  | item :: rest =>
      let item := TrimSpace item in
      if String.eqb item "" then trimmed_items rest else item :: trimmed_items rest
  end.

Definition parsePlainList (value : string) : list string :=
  let value := TrimSpace value in
  if String.eqb value "" then [] else trimmed_items (Split value ",").

Definition setPlainList (assign : list string -> Config -> Config) : configFieldHandler :=
  fun cfg value => Ok (assign (parsePlainList value) cfg).

(** ** Library functions left abstract *)

Class Regexp := {
  regex : Type;
  regexp_Compile : string -> result regex;
  MatchString : regex -> string -> bool
}.

Section Load.
Context `{RE : Regexp}.

(** [url.Parse]: scheme and host of an URL that parses. *)
Context (url_Parse : string -> option (string * string)).

Fixpoint compile_items (raw : list string) (errorContext : string) : result (list string) :=
  match raw with
  | [] => Ok []
  | p :: rest =>
      let pattern := TrimSpace p in
      if String.eqb pattern "" then compile_items rest errorContext
      else match regexp_Compile pattern with
           | Err e => Err ("invalid regex pattern '" +:+ pattern +:+ "'" +:+ errorContext +:+ ": " +:+ e)
           | Ok _ => let? ps := compile_items rest errorContext in Ok (pattern :: ps)
           end
  end.

Definition parseRegexList (value errorContext : string) : result (list string) :=
  let value := TrimSpace value in
  if String.eqb value "" then Ok [] else compile_items (Split value ",") errorContext.

Definition setRegexList (errorContext : string)
    (assign : list string -> Config -> Config) : configFieldHandler :=
  fun cfg value =>
    let? patterns := parseRegexList value errorContext in Ok (assign patterns cfg).

Definition configFieldHandlers : list (string * configFieldHandler) :=
  [
   ("CGROUP_ROOT", setString set_CgroupRoot);
   ("CGROUP_BASE", setCgroupBase);
   ("CONFIG_FILE", setString set_ConfigFile);
   ("LOG_FILE", setString set_LogFile);
   ("CREATED_CGROUPS_FILE", setString set_CreatedCgroupsFile);
   ("METRICS_CACHE_FILE", setString set_MetricsCacheFile);
   ("PROMETHEUS_FILE", setString set_PrometheusFile);
   ("POLLING_INTERVAL", setInt set_PollingInterval);
   ("MIN_ACTIVE_TIME", setInt set_MinActiveTime);
   ("METRICS_CACHE_TTL", setInt set_MetricsCacheTTL);
   ("METRICS_REFRESH_INTERVAL", setPositiveInt set_MetricsRefreshInterval);
   ("PROCESS_MIN_AGE_SECONDS", setInt set_ProcessMinAgeSeconds);
   ("CPU_THRESHOLD", setInt set_CPUThreshold);
   ("CPU_RELEASE_THRESHOLD", setInt set_CPUReleaseThreshold);
   ("CPU_THRESHOLD_DURATION", setInt set_CPUThresholdDuration);
   ("CPU_QUOTA_NORMAL", setString set_CPUQuotaNormal);
   ("CPU_QUOTA_LIMITED", setString set_CPUQuotaLimited);
   ("LIMIT_HOOK_ENABLED", setBool false set_LimitHookEnabled);
   ("LIMIT_HOOK_SCRIPT", setString set_LimitHookScript);
   ("LIMIT_HOOK_URL", setString set_LimitHookURL);
   ("LIMIT_HOOK_TIMEOUT", setInt set_LimitHookTimeout);
   ("ENABLE_PROMETHEUS", setBool false set_EnablePrometheus);
   ("PROMETHEUS_METRICS_BIND_HOST", setString set_PrometheusMetricsBindHost);
   ("PROMETHEUS_METRICS_BIND_PORT", setPort "PROMETHEUS_METRICS_BIND_PORT" set_PrometheusMetricsBindPort);
   ("PROMETHEUS_HOST", setString set_PrometheusMetricsBindHost);
   ("PROMETHEUS_PORT", setPort "PROMETHEUS_PORT" set_PrometheusMetricsBindPort);
   ("PROMETHEUS_TLS_ENABLED", setBool false set_PrometheusTLSEnabled);
   ("PROMETHEUS_TLS_CERT_FILE", setString set_PrometheusTLSCertFile);
   ("PROMETHEUS_TLS_KEY_FILE", setString set_PrometheusTLSKeyFile);
   ("PROMETHEUS_TLS_CA_FILE", setString set_PrometheusTLSCAFile);
   ("PROMETHEUS_TLS_MIN_VERSION", setStringTransform ToUpper set_PrometheusTLSMinVersion);
   ("PROMETHEUS_AUTH_TYPE", setStringTransform ToLower set_PrometheusAuthType);
   ("PROMETHEUS_AUTH_USERNAME", setString set_PrometheusAuthUsername);
   ("PROMETHEUS_AUTH_PASSWORD_FILE", setString set_PrometheusAuthPasswordFile);
   ("PROMETHEUS_JWT_SECRET_FILE", setString set_PrometheusJWTSecretFile);
   ("PROMETHEUS_JWT_ISSUER", setString set_PrometheusJWTIssuer);
   ("PROMETHEUS_JWT_AUDIENCE", setString set_PrometheusJWTAudience);
   ("PROMETHEUS_JWT_EXPIRY", setInt set_PrometheusJWTExpiry);
   ("LOG_LEVEL", setStringTransform ToUpper set_LogLevel);
   ("LOG_MAX_SIZE", setInt set_LogMaxSize);
   ("USE_SYSLOG", setBool false set_UseSyslog);
   ("MIN_SYSTEM_CORES", setInt set_MinSystemCores);
   ("SYSTEM_UID_MIN", setInt set_SystemUIDMin);
   ("SYSTEM_UID_MAX", setInt set_SystemUIDMax);
   ("USER_INCLUDE_LIST", setRegexList "" set_UserIncludeList);
   ("USER_EXCLUDE_LIST", setRegexList "" set_UserExcludeList);
   ("PROCESS_EXCLUDE_LIST", setRegexList " in PROCESS_EXCLUDE_LIST" set_ProcessExcludeList);
   ("BLACKOUT", setBlackout);
   ("USER_WHITELIST", setPlainList set_UserExcludeList);
   ("IGNORE_SYSTEM_LOAD", setBool false set_IgnoreSystemLoad);
   ("SERVER_ROLE", setString set_ServerRole);
   ("MCP_ENABLED", setBool false set_MCPEnabled);
   ("MCP_TRANSPORT", setStringTransform ToLower set_MCPTransport);
   ("MCP_HTTP_PORT", setInt set_MCPHTTPPort);
   ("MCP_HTTP_HOST", setString set_MCPHTTPHost);
   ("MCP_LOG_LEVEL", setStringTransform ToUpper set_MCPLogLevel);
   ("MCP_AUTH_TOKEN", setString set_MCPAuthToken);
   ("MCP_ALLOW_WRITE_OPS", setBool false set_MCPAllowWriteOps);
   ("METRICS_DB_ENABLED", setBool false set_MetricsDBEnabled);
   ("METRICS_DB_PATH", setString set_MetricsDBPath);
   ("METRICS_DB_RETENTION_DAYS", setPositiveInt set_MetricsDBRetentionDays);
   ("METRICS_DB_WRITE_INTERVAL", setPositiveInt set_MetricsDBWriteInterval);
   ("USERNAME_CACHE_TTL", setPositiveInt set_UsernameCacheTTL);
   ("CGROUP_OPERATION_TIMEOUT", setInt set_CgroupOperationTimeout);
   ("CGROUP_RETRY_DELAY_MS", setInt set_CgroupRetryDelayMs);
   ("MCP_SHUTDOWN_TIMEOUT", setInt set_MCPShutdownTimeout);
   ("RAM_LIMIT_ENABLED", setBool false set_RAMEnabled);
   ("RAM_THRESHOLD", setInt set_RAMThreshold);
   ("RAM_RELEASE_THRESHOLD", setInt set_RAMReleaseThreshold);
   ("RAM_QUOTA_LIMITED", setString set_RAMQuotaLimited);
   ("RAM_QUOTA_PER_USER", setString set_RAMQuotaPerUser);
   ("DISABLE_SWAP", setBool false set_DisableSwap);
   ("RAM_HIGH_RATIO", setFloat set_RAMHighRatio);
   ("RAM_USER_INCLUDE_LIST", setRegexList " in RAM_USER_INCLUDE_LIST" set_RAMUserIncludeList);
   ("RAM_USER_EXCLUDE_LIST", setRegexList " in RAM_USER_EXCLUDE_LIST" set_RAMUserExcludeList);
   ("IO_LIMIT_ENABLED", setBool false set_IOEnabled);
   ("IO_THRESHOLD", setInt set_IOThreshold);
   ("IO_RELEASE_THRESHOLD", setInt set_IOReleaseThreshold);
   ("IO_READ_BPS", setString set_IOReadBPS);
   ("IO_WRITE_BPS", setString set_IOWriteBPS);
   ("IO_READ_IOPS", setInt set_IOReadIOPS);
   ("IO_WRITE_IOPS", setInt set_IOWriteIOPS);
   ("IO_DEVICE_FILTER", setString set_IODeviceFilter);
   ("IO_THRESHOLD_DURATION", setInt set_IOThresholdDuration);
   ("IO_USER_INCLUDE_LIST", setRegexList " in IO_USER_INCLUDE_LIST" set_IOUserIncludeList);
   ("IO_USER_EXCLUDE_LIST", setRegexList " in IO_USER_EXCLUDE_LIST" set_IOUserExcludeList);
   ("IO_REMEDIATION_ENABLED", setBool false set_IORemediationEnabled);
   ("IO_STARVATION_THRESHOLD", setInt set_IOStarvationThreshold);
   ("IO_STARVATION_CHECK_INTERVAL", setInt set_IOStarvationCheckInterval);
   ("IO_BOOST_MULTIPLIER", setFloat set_IOBoostMultiplier);
   ("IO_BOOST_DURATION", setInt set_IOBoostDuration);
   ("IO_BOOST_MAX_PER_HOUR", setInt set_IOBoostMaxPerHour);
   ("IO_PSI_THRESHOLD", setFloat set_IOPSIThreshold);
   ("IO_REVERT_ON_NORMAL", setBool true set_IORevertOnNormal);
   ("AUTODETECT_PATTERNS", setBool false set_AutodetectPatterns);
   ("PATTERN_HISTORY_HOURS", setPositiveInt set_PatternHistoryHours);
   ("PATTERN_MIN_SAMPLES", setPositiveInt set_PatternMinSamples);
   ("PATTERN_CONFIDENCE_THRESHOLD", setFloat set_PatternConfidenceThreshold);
   ("BATCH_NIGHT_CPU_QUOTA", setInt set_BatchNightCPUQuota);
   ("BATCH_NIGHT_RAM_QUOTA", setString set_BatchNightRAMQuota);
   ("INTERACTIVE_CPU_QUOTA", setInt set_InteractiveCPUQuota);
   ("INTERACTIVE_RAM_QUOTA", setString set_InteractiveRAMQuota);
   ("PSI_EVENT_DRIVEN", setBool false set_PSIEventDriven);
   ("PSI_CPU_STALL_THRESHOLD", setPositiveInt set_PSICPUStallThreshold);
   ("PSI_IO_STALL_THRESHOLD", setPositiveInt set_PSIOStallThreshold);
   ("PSI_WINDOW_US", setPositiveInt set_PSIWindowUs);
   ("PSI_FALLBACK_INTERVAL", setPositiveInt set_PSIFallbackInterval);
   ("PSI_BOOST_WEIGHT", setPositiveInt set_PSIBoostWeight);
   ("PSI_BOOST_DURATION", setPositiveInt set_PSIBoostDuration)
  ].

Fixpoint handler_of (key : string) (l : list (string * configFieldHandler)) : option configFieldHandler :=
  match l with
  | [] => None
  | (k, h) :: l' => if String.eqb key k then Some h else handler_of key l'
  end.

Definition setConfigField (cfg : Config) (key value : string) : result Config :=
  match handler_of key configFieldHandlers with
  | None => Ok cfg
  | Some handler => handler cfg value
  end.

(** ** The file loader *)

Inductive read_result :=
  | FileMissing
  | FileError (e : error)
  | FileData (data : string).

(** One line: skipped, malformed, or a key and its cleaned value. *)
Inductive config_line :=
  | LineSkip
  | LineMalformed (line : string)
  | LineSet (key value : string).

Definition parse_line (raw : string) : config_line :=
  let line := TrimSpace raw in
  if String.eqb line "" || HasPrefix line "#" then LineSkip
  else match SplitN2 line "=" with
       | [k; v] =>
           let value := before "#" (TrimSpace v) in
           LineSet (TrimSpace k) (TrimSpace (Trim value (String (ascii_of_N 34) "'")))
       | _ => LineMalformed line
       end.

Fixpoint load_lines (i : Z) (lines : list string) (cfg : Config) : result Config :=
  match lines with
  | [] => Ok cfg
  | raw :: rest =>
      match parse_line raw with
      | LineSkip => load_lines (i + 1) rest cfg
      | LineMalformed line => Err ("malformed config line " +:+ Itoa (i + 1) +:+ ": " +:+ line)
      | LineSet key value =>
          match setConfigField cfg key value with
          | Err e => Err ("setting key " +:+ key +:+ " on line " +:+ Itoa (i + 1) +:+ ": " +:+ e)
          | Ok cfg' => load_lines (i + 1) rest cfg'
          end
      end
  end.

Definition loadFromFile (file : read_result) (cfg : Config) : result Config :=
  match file with
  | FileMissing => Ok cfg
  | FileError e => Err e
  | FileData data => load_lines 0 (Split data newline) cfg
  end.

(** ** The environment loader

    The reflective loop over the struct's fields: each field's tag is its
    variable and its kind decides the conversion. *)

Inductive env_field :=
  | EnvString (proj : Config -> string) (assign : string -> Config -> Config)
  | EnvInt (proj : Config -> Z) (assign : Z -> Config -> Config)
  | EnvBool (proj : Config -> bool) (assign : bool -> Config -> Config)
  | EnvFloat (proj : Config -> f64) (assign : f64 -> Config -> Config)
  | EnvList (proj : Config -> list string) (assign : list string -> Config -> Config)
  | EnvUnsupported.

Inductive env_warning :=
  | InvalidInteger (key value : string) (default : Z)
  | InvalidBoolean (key value : string) (default : bool)
  | InvalidFloat (key value : string) (default : f64)
  | UnsupportedSlice (key value : string)
  | EmptyIncludeList.

Definition env_fields : list (string * env_field) :=
  [
   ("CGROUP_ROOT", EnvString CgroupRoot set_CgroupRoot);
   ("CGROUP_BASE", EnvString CgroupBase set_CgroupBase);
   ("CONFIG_FILE", EnvString ConfigFile set_ConfigFile);
   ("LOG_FILE", EnvString LogFile set_LogFile);
   ("CREATED_CGROUPS_FILE", EnvString CreatedCgroupsFile set_CreatedCgroupsFile);
   ("METRICS_CACHE_FILE", EnvString MetricsCacheFile set_MetricsCacheFile);
   ("PROMETHEUS_FILE", EnvString PrometheusFile set_PrometheusFile);
   ("POLLING_INTERVAL", EnvInt PollingInterval set_PollingInterval);
   ("MIN_ACTIVE_TIME", EnvInt MinActiveTime set_MinActiveTime);
   ("METRICS_CACHE_TTL", EnvInt MetricsCacheTTL set_MetricsCacheTTL);
   ("METRICS_REFRESH_INTERVAL", EnvInt MetricsRefreshInterval set_MetricsRefreshInterval);
   ("PROCESS_MIN_AGE_SECONDS", EnvInt ProcessMinAgeSeconds set_ProcessMinAgeSeconds);
   ("CGROUP_OPERATION_TIMEOUT", EnvInt CgroupOperationTimeout set_CgroupOperationTimeout);
   ("CGROUP_RETRY_DELAY_MS", EnvInt CgroupRetryDelayMs set_CgroupRetryDelayMs);
   ("MCP_SHUTDOWN_TIMEOUT", EnvInt MCPShutdownTimeout set_MCPShutdownTimeout);
   ("CPU_THRESHOLD", EnvInt CPUThreshold set_CPUThreshold);
   ("CPU_RELEASE_THRESHOLD", EnvInt CPUReleaseThreshold set_CPUReleaseThreshold);
   ("CPU_THRESHOLD_DURATION", EnvInt CPUThresholdDuration set_CPUThresholdDuration);
   ("CPU_QUOTA_NORMAL", EnvString CPUQuotaNormal set_CPUQuotaNormal);
   ("CPU_QUOTA_LIMITED", EnvString CPUQuotaLimited set_CPUQuotaLimited);
   ("RAM_LIMIT_ENABLED", EnvBool RAMEnabled set_RAMEnabled);
   ("RAM_THRESHOLD", EnvInt RAMThreshold set_RAMThreshold);
   ("RAM_RELEASE_THRESHOLD", EnvInt RAMReleaseThreshold set_RAMReleaseThreshold);
   ("RAM_QUOTA_LIMITED", EnvString RAMQuotaLimited set_RAMQuotaLimited);
   ("RAM_QUOTA_PER_USER", EnvString RAMQuotaPerUser set_RAMQuotaPerUser);
   ("DISABLE_SWAP", EnvBool DisableSwap set_DisableSwap);
   ("RAM_HIGH_RATIO", EnvFloat RAMHighRatio set_RAMHighRatio);
   ("RAM_USER_INCLUDE_LIST", EnvList RAMUserIncludeList set_RAMUserIncludeList);
   ("RAM_USER_EXCLUDE_LIST", EnvList RAMUserExcludeList set_RAMUserExcludeList);
   ("IO_LIMIT_ENABLED", EnvBool IOEnabled set_IOEnabled);
   ("IO_THRESHOLD", EnvInt IOThreshold set_IOThreshold);
   ("IO_RELEASE_THRESHOLD", EnvInt IOReleaseThreshold set_IOReleaseThreshold);
   ("IO_READ_BPS", EnvString IOReadBPS set_IOReadBPS);
   ("IO_WRITE_BPS", EnvString IOWriteBPS set_IOWriteBPS);
   ("IO_READ_IOPS", EnvInt IOReadIOPS set_IOReadIOPS);
   ("IO_WRITE_IOPS", EnvInt IOWriteIOPS set_IOWriteIOPS);
   ("IO_DEVICE_FILTER", EnvString IODeviceFilter set_IODeviceFilter);
   ("IO_THRESHOLD_DURATION", EnvInt IOThresholdDuration set_IOThresholdDuration);
   ("IO_REMEDIATION_ENABLED", EnvBool IORemediationEnabled set_IORemediationEnabled);
   ("IO_STARVATION_THRESHOLD", EnvInt IOStarvationThreshold set_IOStarvationThreshold);
   ("IO_STARVATION_CHECK_INTERVAL", EnvInt IOStarvationCheckInterval set_IOStarvationCheckInterval);
   ("IO_BOOST_MULTIPLIER", EnvFloat IOBoostMultiplier set_IOBoostMultiplier);
   ("IO_BOOST_DURATION", EnvInt IOBoostDuration set_IOBoostDuration);
   ("IO_BOOST_MAX_PER_HOUR", EnvInt IOBoostMaxPerHour set_IOBoostMaxPerHour);
   ("IO_PSI_THRESHOLD", EnvFloat IOPSIThreshold set_IOPSIThreshold);
   ("IO_REVERT_ON_NORMAL", EnvBool IORevertOnNormal set_IORevertOnNormal);
   ("IO_USER_INCLUDE_LIST", EnvList IOUserIncludeList set_IOUserIncludeList);
   ("IO_USER_EXCLUDE_LIST", EnvList IOUserExcludeList set_IOUserExcludeList);
   ("AUTODETECT_PATTERNS", EnvBool AutodetectPatterns set_AutodetectPatterns);
   ("PATTERN_HISTORY_HOURS", EnvInt PatternHistoryHours set_PatternHistoryHours);
   ("PATTERN_MIN_SAMPLES", EnvInt PatternMinSamples set_PatternMinSamples);
   ("PATTERN_CONFIDENCE_THRESHOLD", EnvFloat PatternConfidenceThreshold set_PatternConfidenceThreshold);
   ("BATCH_NIGHT_CPU_QUOTA", EnvInt BatchNightCPUQuota set_BatchNightCPUQuota);
   ("BATCH_NIGHT_RAM_QUOTA", EnvString BatchNightRAMQuota set_BatchNightRAMQuota);
   ("INTERACTIVE_CPU_QUOTA", EnvInt InteractiveCPUQuota set_InteractiveCPUQuota);
   ("INTERACTIVE_RAM_QUOTA", EnvString InteractiveRAMQuota set_InteractiveRAMQuota);
   ("LIMIT_HOOK_ENABLED", EnvBool LimitHookEnabled set_LimitHookEnabled);
   ("LIMIT_HOOK_SCRIPT", EnvString LimitHookScript set_LimitHookScript);
   ("LIMIT_HOOK_URL", EnvString LimitHookURL set_LimitHookURL);
   ("LIMIT_HOOK_TIMEOUT", EnvInt LimitHookTimeout set_LimitHookTimeout);
   ("ENABLE_PROMETHEUS", EnvBool EnablePrometheus set_EnablePrometheus);
   ("PROMETHEUS_METRICS_BIND_HOST", EnvString PrometheusMetricsBindHost set_PrometheusMetricsBindHost);
   ("PROMETHEUS_METRICS_BIND_PORT", EnvInt PrometheusMetricsBindPort set_PrometheusMetricsBindPort);
   ("PROMETHEUS_TLS_ENABLED", EnvBool PrometheusTLSEnabled set_PrometheusTLSEnabled);
   ("PROMETHEUS_TLS_CERT_FILE", EnvString PrometheusTLSCertFile set_PrometheusTLSCertFile);
   ("PROMETHEUS_TLS_KEY_FILE", EnvString PrometheusTLSKeyFile set_PrometheusTLSKeyFile);
   ("PROMETHEUS_TLS_CA_FILE", EnvString PrometheusTLSCAFile set_PrometheusTLSCAFile);
   ("PROMETHEUS_TLS_MIN_VERSION", EnvString PrometheusTLSMinVersion set_PrometheusTLSMinVersion);
   ("PROMETHEUS_AUTH_TYPE", EnvString PrometheusAuthType set_PrometheusAuthType);
   ("PROMETHEUS_AUTH_USERNAME", EnvString PrometheusAuthUsername set_PrometheusAuthUsername);
   ("PROMETHEUS_AUTH_PASSWORD_FILE", EnvString PrometheusAuthPasswordFile set_PrometheusAuthPasswordFile);
   ("PROMETHEUS_JWT_SECRET_FILE", EnvString PrometheusJWTSecretFile set_PrometheusJWTSecretFile);
   ("PROMETHEUS_JWT_ISSUER", EnvString PrometheusJWTIssuer set_PrometheusJWTIssuer);
   ("PROMETHEUS_JWT_AUDIENCE", EnvString PrometheusJWTAudience set_PrometheusJWTAudience);
   ("PROMETHEUS_JWT_EXPIRY", EnvInt PrometheusJWTExpiry set_PrometheusJWTExpiry);
   ("LOG_LEVEL", EnvString LogLevel set_LogLevel);
   ("LOG_MAX_SIZE", EnvInt LogMaxSize set_LogMaxSize);
   ("USE_SYSLOG", EnvBool UseSyslog set_UseSyslog);
   ("MIN_SYSTEM_CORES", EnvInt MinSystemCores set_MinSystemCores);
   ("SYSTEM_UID_MIN", EnvInt SystemUIDMin set_SystemUIDMin);
   ("SYSTEM_UID_MAX", EnvInt SystemUIDMax set_SystemUIDMax);
   ("USER_INCLUDE_LIST", EnvList UserIncludeList set_UserIncludeList);
   ("USER_EXCLUDE_LIST", EnvList UserExcludeList set_UserExcludeList);
   ("PROCESS_EXCLUDE_LIST", EnvList ProcessExcludeList set_ProcessExcludeList);
   ("-", EnvUnsupported);
   ("BLACKOUT", EnvString BlackoutSpec set_BlackoutSpec);
   ("IGNORE_SYSTEM_LOAD", EnvBool IgnoreSystemLoad set_IgnoreSystemLoad);
   ("SERVER_ROLE", EnvString ServerRole set_ServerRole);
   ("MCP_ENABLED", EnvBool MCPEnabled set_MCPEnabled);
   ("MCP_TRANSPORT", EnvString MCPTransport set_MCPTransport);
   ("MCP_HTTP_PORT", EnvInt MCPHTTPPort set_MCPHTTPPort);
   ("MCP_HTTP_HOST", EnvString MCPHTTPHost set_MCPHTTPHost);
   ("MCP_LOG_LEVEL", EnvString MCPLogLevel set_MCPLogLevel);
   ("MCP_AUTH_TOKEN", EnvString MCPAuthToken set_MCPAuthToken);
   ("MCP_ALLOW_WRITE_OPS", EnvBool MCPAllowWriteOps set_MCPAllowWriteOps);
   ("METRICS_DB_ENABLED", EnvBool MetricsDBEnabled set_MetricsDBEnabled);
   ("METRICS_DB_PATH", EnvString MetricsDBPath set_MetricsDBPath);
   ("METRICS_DB_RETENTION_DAYS", EnvInt MetricsDBRetentionDays set_MetricsDBRetentionDays);
   ("METRICS_DB_WRITE_INTERVAL", EnvInt MetricsDBWriteInterval set_MetricsDBWriteInterval);
   ("USERNAME_CACHE_TTL", EnvInt UsernameCacheTTL set_UsernameCacheTTL);
   ("PSI_EVENT_DRIVEN", EnvBool PSIEventDriven set_PSIEventDriven);
   ("PSI_CPU_STALL_THRESHOLD", EnvInt PSICPUStallThreshold set_PSICPUStallThreshold);
   ("PSI_IO_STALL_THRESHOLD", EnvInt PSIOStallThreshold set_PSIOStallThreshold);
   ("PSI_WINDOW_US", EnvInt PSIWindowUs set_PSIWindowUs);
   ("PSI_FALLBACK_INTERVAL", EnvInt PSIFallbackInterval set_PSIFallbackInterval);
   ("PSI_BOOST_WEIGHT", EnvInt PSIBoostWeight set_PSIBoostWeight);
   ("PSI_BOOST_DURATION", EnvInt PSIBoostDuration set_PSIBoostDuration)
  ].

Definition load_env_field (envKey envValue : string) (f : env_field) (cfg : Config)
    : Config * list env_warning :=
  match f with
  | EnvString _ assign => (assign envValue cfg, [])
  | EnvInt proj assign =>
      match Atoi envValue with
      | Some intVal => (assign intVal cfg, [])
      | None => (cfg, [InvalidInteger envKey envValue (proj cfg)])
      end
  | EnvBool proj assign =>
      match bool_word envValue with
      | Some b => (assign b cfg, [])
      | None => (assign false cfg, [InvalidBoolean envKey envValue (proj cfg)])
      end
  | EnvFloat proj assign =>
      match ParseFloat envValue with
      | Some fVal => (assign fVal cfg, [])
      | None => (cfg, [InvalidFloat envKey envValue (proj cfg)])
      end
  | EnvList _ assign => (assign (trimmed_items (Split envValue ",")) cfg, [])
  | EnvUnsupported => (cfg, [UnsupportedSlice envKey envValue])
  end.

Fixpoint load_env (getenv : string -> string) (fields : list (string * env_field)) (cfg : Config)
    : Config * list env_warning :=
  match fields with
  | [] => (cfg, [])
  | (envKey, f) :: rest =>
      let envValue := getenv envKey in
      if String.eqb envValue "" then load_env getenv rest cfg
      else
        let '(cfg1, w1) := load_env_field envKey envValue f cfg in
        let '(cfg2, w2) := load_env getenv rest cfg1 in
        (cfg2, w1 ++ w2)
  end.

Definition loadFromEnvironment (getenv : string -> string) (cfg : Config) : Config * list env_warning :=
  load_env getenv env_fields cfg.

(** ** Validation *)

Definition report (b : bool) (msg : string) : list string := if b then [msg] else [].

Definition validation_errors (cfg : Config) : list string :=
  report ((CPUThreshold cfg <? 1) || (CPUThreshold cfg >? 100)) "CPU_THRESHOLD must be between 1 and 100" ++
  report ((CPUReleaseThreshold cfg <? 1) || (CPUReleaseThreshold cfg >? 100)) "CPU_RELEASE_THRESHOLD must be between 1 and 100" ++
  report (CPUThreshold cfg <=? CPUReleaseThreshold cfg) "CPU_THRESHOLD must be greater than CPU_RELEASE_THRESHOLD" ++
  report (CPUThresholdDuration cfg <? 0) "CPU_THRESHOLD_DURATION cannot be negative" ++
  report (MetricsDBRetentionDays cfg <? 1) "METRICS_DB_RETENTION_DAYS must be at least 1" ++
  report (MetricsDBWriteInterval cfg <? 5) "METRICS_DB_WRITE_INTERVAL must be at least 5 seconds" ++
  report (UsernameCacheTTL cfg <? 1) "USERNAME_CACHE_TTL must be at least 1 minute" ++
  report (PollingInterval cfg <? 5) "POLLING_INTERVAL must be at least 5 seconds" ++
  report (MetricsRefreshInterval cfg <? 5) "METRICS_REFRESH_INTERVAL must be at least 5 seconds" ++
  report (ProcessMinAgeSeconds cfg <? 0) "PROCESS_MIN_AGE_SECONDS cannot be negative" ++
  report ((PSICPUStallThreshold cfg <? 0) || (PSIEventDriven cfg && (PSICPUStallThreshold cfg =? 0))) "PSI_CPU_STALL_THRESHOLD must be greater than 0" ++
  report ((PSIOStallThreshold cfg <? 0) || (PSIEventDriven cfg && (PSIOStallThreshold cfg =? 0))) "PSI_IO_STALL_THRESHOLD must be greater than 0" ++
  report ((PSIWindowUs cfg <? 0) || (PSIEventDriven cfg && (PSIWindowUs cfg =? 0))) "PSI_WINDOW_US must be greater than 0" ++
  report ((PSIFallbackInterval cfg <? 0) || (PSIEventDriven cfg && (PSIFallbackInterval cfg =? 0))) "PSI_FALLBACK_INTERVAL must be greater than 0" ++
  report ((PSIBoostWeight cfg <? 0) || (PSIBoostWeight cfg >? 10000) || (PSIEventDriven cfg && (PSIBoostWeight cfg =? 0))) "PSI_BOOST_WEIGHT must be between 1 and 10000" ++
  report ((PSIBoostDuration cfg <? 0) || (PSIEventDriven cfg && (PSIBoostDuration cfg =? 0))) "PSI_BOOST_DURATION must be greater than 0" ++
  (if LimitHookEnabled cfg then
     report (LimitHookTimeout cfg <? 1) "LIMIT_HOOK_TIMEOUT must be at least 1 second" ++
     report (String.eqb (LimitHookScript cfg) "" && String.eqb (LimitHookURL cfg) "") "LIMIT_HOOK_SCRIPT or LIMIT_HOOK_URL must be set when LIMIT_HOOK_ENABLED=true" ++
     (if String.eqb (LimitHookURL cfg) "" then [] else
        report (match url_Parse (LimitHookURL cfg) with
                | None => true
                | Some (scheme, host) =>
                    (negb (String.eqb scheme "http") && negb (String.eqb scheme "https")) || String.eqb host ""
                end) "LIMIT_HOOK_URL must be a valid http or https URL")
   else []) ++
  report (negb (isValidCPUQuota (CPUQuotaLimited cfg))) "CPU_QUOTA_LIMITED must be in format 'quota period' or 'max period'" ++
  (if RAMEnabled cfg then
     report ((RAMThreshold cfg <? 1) || (RAMThreshold cfg >? 100)) "RAM_THRESHOLD must be between 1 and 100" ++
     report ((RAMReleaseThreshold cfg <? 1) || (RAMReleaseThreshold cfg >? 100)) "RAM_RELEASE_THRESHOLD must be between 1 and 100" ++
     report (RAMThreshold cfg <=? RAMReleaseThreshold cfg) "RAM_THRESHOLD must be greater than RAM_RELEASE_THRESHOLD" ++
     report (negb (isValidByteQuota (RAMQuotaLimited cfg))) "RAM_QUOTA_LIMITED must be a valid byte value (e.g., '1073741824', '512M', '1G')" ++
     report (negb (isValidByteQuota (RAMQuotaPerUser cfg))) "RAM_QUOTA_PER_USER must be a valid byte value (e.g., '536870912', '512M', '1G')" ++
     report (f_lt (RAMHighRatio cfg) fzero || f_gt (RAMHighRatio cfg) (f64_of_Z 1)) "RAM_HIGH_RATIO must be between 0.0 and 1.0 (e.g., 0.8 for 80%, 0 to disable)"
   else []) ++
  (if IOEnabled cfg then
     report ((IOThreshold cfg <? 1) || (IOThreshold cfg >? 100)) "IO_THRESHOLD must be between 1 and 100" ++
     report ((IOReleaseThreshold cfg <? 1) || (IOReleaseThreshold cfg >? 100)) "IO_RELEASE_THRESHOLD must be between 1 and 100" ++
     report (IOThreshold cfg <=? IOReleaseThreshold cfg) "IO_THRESHOLD must be greater than IO_RELEASE_THRESHOLD" ++
     report (negb (String.eqb (IOReadBPS cfg) "") && negb (String.eqb (IOReadBPS cfg) "max") && negb (isValidByteQuota (IOReadBPS cfg))) "IO_READ_BPS must be a valid byte value (e.g., '104857600', '100M', '1G')" ++
     report (negb (String.eqb (IOWriteBPS cfg) "") && negb (String.eqb (IOWriteBPS cfg) "max") && negb (isValidByteQuota (IOWriteBPS cfg))) "IO_WRITE_BPS must be a valid byte value (e.g., '52428800', '50M', '500M')" ++
     report (IOReadIOPS cfg <? 0) "IO_READ_IOPS must be >= 0 (0 = unlimited)" ++
     report (IOWriteIOPS cfg <? 0) "IO_WRITE_IOPS must be >= 0 (0 = unlimited)"
   else []) ++
  report (negb (existsb (String.eqb (LogLevel cfg)) ["DEBUG"; "INFO"; "WARN"; "ERROR"])) "LOG_LEVEL must be one of: DEBUG, INFO, WARN, ERROR" ++
  report (SystemUIDMin cfg <? 0) "SYSTEM_UID_MIN cannot be negative" ++
  report (SystemUIDMax cfg <? SystemUIDMin cfg) "SYSTEM_UID_MAX must be greater than SYSTEM_UID_MIN".

Definition validateConfig (cfg : Config) : result unit :=
  match validation_errors cfg with
  | [] => Ok tt
  | errors => Err (Join errors "; ")
  end.

Definition LoadAndValidate (pid_max_file : option string) (configPath : string)
    (file : read_result) (getenv : string -> string) : result Config * list env_warning :=
  match loadFromFile file (DefaultConfig pid_max_file) with
  | Err e => (Err ("loading config file " +:+ configPath +:+ ": " +:+ e), [])
  | Ok cfg =>
      let '(cfg, warnings) := loadFromEnvironment getenv cfg in
      match validateConfig cfg with
      | Err e => (Err ("validation failed: " +:+ e), warnings)
      | Ok _ =>
          (Ok cfg, warnings ++ match UserIncludeList cfg with [] => [EmptyIncludeList] | _ => [] end)
      end
  end.

End Load.

(** ** Specification of a valid configuration *)

Definition hysteresis_ok (release threshold : Z) : Prop :=
  1 <= release < threshold /\ threshold <= 100.

Definition psi_positive (driven : bool) (z : Z) : Prop :=
  0 <= z /\ (driven = true -> 0 < z).

Definition bps_ok (s : string) : Prop :=
  s = "" \/ s = "max" \/ isValidByteQuota s = true.

Definition hook_ok (url_Parse : string -> option (string * string)) (cfg : Config) : Prop :=
  1 <= LimitHookTimeout cfg /\
  ~ (LimitHookScript cfg = "" /\ LimitHookURL cfg = "") /\
  (LimitHookURL cfg <> "" ->
   exists scheme host, url_Parse (LimitHookURL cfg) = Some (scheme, host) /\
     (scheme = "http" \/ scheme = "https") /\ host <> "").

Record valid_config (url_Parse : string -> option (string * string)) (cfg : Config) : Prop := {
  vc_cpu : hysteresis_ok (CPUReleaseThreshold cfg) (CPUThreshold cfg);
  vc_duration : 0 <= CPUThresholdDuration cfg;
  vc_retention : 1 <= MetricsDBRetentionDays cfg;
  vc_write : 5 <= MetricsDBWriteInterval cfg;
  vc_ttl : 1 <= UsernameCacheTTL cfg;
  vc_polling : 5 <= PollingInterval cfg;
  vc_refresh : 5 <= MetricsRefreshInterval cfg;
  vc_age : 0 <= ProcessMinAgeSeconds cfg;
  vc_psi_cpu : psi_positive (PSIEventDriven cfg) (PSICPUStallThreshold cfg);
  vc_psi_io : psi_positive (PSIEventDriven cfg) (PSIOStallThreshold cfg);
  vc_psi_window : psi_positive (PSIEventDriven cfg) (PSIWindowUs cfg);
  vc_psi_fallback : psi_positive (PSIEventDriven cfg) (PSIFallbackInterval cfg);
  vc_psi_weight : psi_positive (PSIEventDriven cfg) (PSIBoostWeight cfg) /\ PSIBoostWeight cfg <= 10000;
  vc_psi_duration : psi_positive (PSIEventDriven cfg) (PSIBoostDuration cfg);
  vc_hook : LimitHookEnabled cfg = true -> hook_ok url_Parse cfg;
  vc_quota : isValidCPUQuota (CPUQuotaLimited cfg) = true;
  vc_ram : RAMEnabled cfg = true ->
    hysteresis_ok (RAMReleaseThreshold cfg) (RAMThreshold cfg) /\
    isValidByteQuota (RAMQuotaLimited cfg) = true /\ isValidByteQuota (RAMQuotaPerUser cfg) = true /\
    f_lt (RAMHighRatio cfg) fzero = false /\ f_gt (RAMHighRatio cfg) (f64_of_Z 1) = false;
  vc_io : IOEnabled cfg = true ->
    hysteresis_ok (IOReleaseThreshold cfg) (IOThreshold cfg) /\
    bps_ok (IOReadBPS cfg) /\ bps_ok (IOWriteBPS cfg) /\ 0 <= IOReadIOPS cfg /\ 0 <= IOWriteIOPS cfg;
  vc_log : LogLevel cfg ∈ ["DEBUG"; "INFO"; "WARN"; "ERROR"];
  vc_uid : 0 <= SystemUIDMin cfg <= SystemUIDMax cfg
}.

(** ** Lemmas *)

Lemma report_nil b msg : report b msg = [] <-> b = false.
Proof. destruct b; simpl; naive_solver. Qed.

Lemma eqb_string_spec (a b : string) : String.eqb a b = true <-> a = b.
Proof. apply String.eqb_eq. Qed.

Lemma report_if_nil (b : bool) (l : list string) : (if b then l else []) = [] <-> (b = true -> l = []).
Proof. destruct b; naive_solver. Qed.

Lemma not_bps_error s :
  negb (String.eqb s "") && negb (String.eqb s "max") && negb (isValidByteQuota s) = false <-> bps_ok s.
Proof.
  unfold bps_ok. rewrite <- !String.eqb_eq.
  destruct (String.eqb s ""), (String.eqb s "max"), (isValidByteQuota s); naive_solver.
Qed.

Lemma psi_positive_spec d z : (z <? 0) || (d && (z =? 0)) = false <-> psi_positive d z.
Proof.
  unfold psi_positive. destruct d; simpl; rewrite ?orb_false_iff, ?Z.ltb_ge, ?Z.eqb_neq;
    [|naive_solver]. split; [intros []; split; lia|intros [? H]; specialize (H eq_refl); lia].
Qed.

Lemma url_error (o : option (string * string)) :
  match o with
  | None => true
  | Some (scheme, host) =>
      (negb (String.eqb scheme "http") && negb (String.eqb scheme "https")) || String.eqb host ""
  end = false <->
  exists scheme host, o = Some (scheme, host) /\ (scheme = "http" \/ scheme = "https") /\ host <> "".
Proof.
  destruct o as [[sc h]|]; [|naive_solver].
  rewrite orb_false_iff, andb_false_iff, !negb_false_iff, !String.eqb_eq, String.eqb_neq.
  naive_solver.
Qed.

Lemma hook_errors_nil url_Parse cfg :
  report (LimitHookTimeout cfg <? 1) "LIMIT_HOOK_TIMEOUT must be at least 1 second" ++
  report (String.eqb (LimitHookScript cfg) "" && String.eqb (LimitHookURL cfg) "") "LIMIT_HOOK_SCRIPT or LIMIT_HOOK_URL must be set when LIMIT_HOOK_ENABLED=true" ++
  (if String.eqb (LimitHookURL cfg) "" then [] else
     report (match url_Parse (LimitHookURL cfg) with
             | None => true
             | Some (scheme, host) =>
                 (negb (String.eqb scheme "http") && negb (String.eqb scheme "https")) || String.eqb host ""
             end) "LIMIT_HOOK_URL must be a valid http or https URL") = []
  <-> hook_ok url_Parse cfg.
Proof.
  unfold hook_ok. rewrite !app_nil, !report_nil, Z.ltb_ge, andb_false_iff, !String.eqb_neq.
  destruct (String.eqb (LimitHookURL cfg) "") eqn:E.
  - apply String.eqb_eq in E. naive_solver.
  - apply String.eqb_neq in E. rewrite report_nil, url_error. naive_solver.
Qed.

Lemma errors_app (l1 l2 : list string) (P Q : Prop) :
  (l1 = [] <-> P) -> (l2 = [] <-> Q) -> (l1 ++ l2 = [] <-> P /\ Q).
Proof. intros <- <-. apply app_nil. Qed.

Lemma errors_if (b : bool) (l : list string) (P : Prop) :
  (l = [] <-> P) -> ((if b then l else []) = [] <-> (b = true -> P)).
Proof. intros <-. apply report_if_nil. Qed.

Lemma report_lt x n msg : report (x <? n) msg = [] <-> n <= x.
Proof. rewrite report_nil. lia. Qed.

Lemma report_le t r msg : report (t <=? r) msg = [] <-> r < t.
Proof. rewrite report_nil. lia. Qed.

Lemma report_percent t msg : report ((t <? 1) || (t >? 100)) msg = [] <-> 1 <= t <= 100.
Proof. rewrite report_nil. lia. Qed.

Lemma report_psi d z msg : report ((z <? 0) || (d && (z =? 0))) msg = [] <-> psi_positive d z.
Proof. rewrite report_nil. apply psi_positive_spec. Qed.

Lemma report_weight d w msg :
  report ((w <? 0) || (w >? 10000) || (d && (w =? 0))) msg = [] <-> psi_positive d w /\ w <= 10000.
Proof.
  rewrite report_nil, <- psi_positive_spec, !orb_false_iff, Z.gtb_ltb, !Z.ltb_ge. naive_solver.
Qed.

Lemma report_not b msg : report (negb b) msg = [] <-> b = true.
Proof. rewrite report_nil. apply negb_false_iff. Qed.

Lemma report_bps s msg :
  report (negb (String.eqb s "") && negb (String.eqb s "max") && negb (isValidByteQuota s)) msg = [] <->
  bps_ok s.
Proof. rewrite report_nil. apply not_bps_error. Qed.

Lemma report_or a b msg : report (a || b) msg = [] <-> a = false /\ b = false.
Proof. rewrite report_nil. apply orb_false_iff. Qed.

Lemma report_level l msg :
  report (negb (existsb (String.eqb l) ["DEBUG"; "INFO"; "WARN"; "ERROR"])) msg = [] <->
  l ∈ ["DEBUG"; "INFO"; "WARN"; "ERROR"].
Proof.
  rewrite report_not, existsb_exists. setoid_rewrite String.eqb_eq.
  setoid_rewrite <- list_elem_of_In. naive_solver.
Qed.

Ltac error_spec :=
  first [ apply report_level | apply report_bps | apply report_weight | apply report_psi
        | apply report_percent | apply report_lt | apply report_le | apply report_not
        | apply report_or ].

Ltac error_specs :=
  lazymatch goal with
  | |- (_ ++ _ = [] <-> _) => first [apply hook_errors_nil | apply errors_app; error_specs]
  | |- ((if _ then _ else _) = [] <-> _) => apply errors_if; error_specs
  | |- _ => error_spec
  end.

Lemma validation_errors_nil url_Parse cfg :
  validation_errors url_Parse cfg = [] <-> valid_config url_Parse cfg.
Proof.
  unfold validation_errors. etransitivity; [error_specs|]. split.
  - intros H. destruct_and! H.
    constructor; unfold hysteresis_ok; try assumption; try lia; try (split; assumption);
      intros Hb; match goal with H : ?b = true -> _, Hb : ?b = true |- _ => destruct (H Hb) end;
      destruct_and!; split_and!; first [assumption | lia].
  - intros []. unfold hysteresis_ok in *. destruct_and!.
    repeat match goal with |- _ /\ _ => split end; try assumption; try lia;
      intros Hb; match goal with H : ?b = true -> _, Hb : ?b = true |- _ => destruct (H Hb) end;
      destruct_and!; split_and!; first [assumption | lia].
Qed.

Lemma HasSuffix_cons c s suf : s <> "" -> HasSuffix s suf = true -> HasSuffix (String c s) suf = true.
Proof. intros _ H. simpl. rewrite H. apply orb_true_r. Qed.

Lemma HasSuffix_last s c : HasSuffix s (String c "") = true <-> last_byte s = Some c.
Proof.
  induction s as [|d s IH]; [done|].
  change (String.eqb (String d s) (String c "") || HasSuffix s (String c "") = true <->
          last_byte (String d s) = Some c).
  rewrite orb_true_iff, String.eqb_eq, IH. destruct s as [|e s]; naive_solver.
Qed.

Lemma suffix_loop_spec order q :
  suffix_loop order q =
  match last_byte q with
  | Some c =>
      match List.find (fun p => Ascii.eqb c p.1) order with
      | Some (_, m) =>
          Some (match ParseUint (drop_last q) with
                | Some val => Ok (wrap_u64 (val * m))
                | None => Err ("invalid number: " +:+ drop_last q)
                end)
      | None => None
      end
  | None => None
  end.
Proof.
  induction order as [|[c m] order IH]; simpl; [by destruct (last_byte q)|].
  pose proof (HasSuffix_last q c) as Hs.
  destruct (HasSuffix q (String c "")) eqn:E.
  - rewrite (proj1 Hs eq_refl), Ascii.eqb_refl. by destruct (ParseUint (drop_last q)).
  - rewrite IH. destruct (last_byte q) as [d|]; [|done].
    destruct (Ascii.eqb d c) eqn:Ed; [|done]. apply Ascii.eqb_eq in Ed as ->.
    by pose proof (proj2 Hs eq_refl).
Qed.

Lemma find_perm (c : ascii) (l1 l2 : list (ascii * Z)) :
  NoDup l1.*1 -> l1 ≡ₚ l2 ->
  List.find (fun p => Ascii.eqb c p.1) l1 = List.find (fun p => Ascii.eqb c p.1) l2.
Proof.
  intros Hnd Hp. revert Hnd. induction Hp as [|[a m] l1 l2 Hp IH|[a m] [b n] l|l1 l2 l3 H1 IH1 H2 IH2];
    intros Hnd; simpl.
  - done.
  - destruct (Ascii.eqb c a); [done|]. apply IH. by inversion Hnd.
  - destruct (Ascii.eqb c a) eqn:Ea, (Ascii.eqb c b) eqn:Eb; try done.
    apply Ascii.eqb_eq in Ea, Eb. subst. simpl in Hnd. apply NoDup_cons in Hnd as [Hn _].
    exfalso. apply Hn. by left.
  - rewrite IH1 by done. apply IH2. by rewrite <- H1.
Qed.

Lemma last_byte_snoc a c : last_byte (a +:+ String c "") = Some c.
Proof. by rewrite last_byte_app. Qed.

Lemma drop_last_snoc a c : drop_last (a +:+ String c "") = a.
Proof.
  induction a as [|d a IH]; [done|]. rewrite append_cons.
  change (match a +:+ String c "" with
          | EmptyString => EmptyString
          | _ => String d (drop_last (a +:+ String c "")) end = String d a).
  rewrite IH. destruct (a +:+ String c "") eqn:E; [|done].
  apply append_eq_empty in E as [_ ?]. done.
Qed.

(** The regular-expression engine of the witnesses: a pattern is a literal
    that a name must contain. *)
Definition literal_regexp : Regexp :=
  {| regex := string; regexp_Compile := Ok; MatchString := fun r s => Contains s r |}.

#[local] Existing Instance literal_regexp.

Definition no_url : string -> option (string * string) := fun _ => None.

(** What the file loader guarantees whatever the file holds. *)
Record file_safe `{RE : Regexp} (cfg : Config) : Prop := {
  fs_port : 1 <= PrometheusMetricsBindPort cfg <= 65535;
  fs_base : Contains (CgroupBase cfg) ".." = false /\ HasPrefix (CgroupBase cfg) "/" = false;
  fs_blackout : Forall timeframe_ok (BlackoutTimeframes cfg);
  fs_include : Forall (fun p => is_ok (regexp_Compile p) = true) (UserIncludeList cfg);
  fs_fallback : 0 < PSIFallbackInterval cfg
}.

Section Load_lemmas.
Context `{RE : Regexp}.

Lemma env_keeps {A} (proj : Config -> A) fields getenv cfg :
  Forall (fun kf => forall k v c, proj (load_env_field k v kf.2 c).1 = proj c) fields ->
  proj (load_env getenv fields cfg).1 = proj cfg.
Proof.
  intros H. revert cfg. induction H as [|[k f] fields Hf _ IH]; intros cfg; simpl; [done|].
  destruct (String.eqb (getenv k) ""); [apply IH|].
  specialize (Hf k (getenv k) cfg). simpl in Hf.
  destruct (load_env_field k (getenv k) f cfg) as [c1 w1]. specialize (IH c1).
  destruct (load_env getenv fields c1) as [c2 w2]. simpl in *. congruence.
Qed.

Lemma load_env_app getenv l1 l2 cfg :
  (load_env getenv (l1 ++ l2) cfg).1 = (load_env getenv l2 (load_env getenv l1 cfg).1).1.
Proof.
  revert cfg. induction l1 as [|[k f] l1 IH]; intros cfg; [done|]. cbn [app load_env].
  destruct (String.eqb (getenv k) ""); [apply IH|]. destruct (load_env_field k (getenv k) f cfg) as [c1 w1].
  specialize (IH c1). destruct (load_env getenv (l1 ++ l2) c1), (load_env getenv l1 c1). exact IH.
Qed.

(** What the environment makes of an integer. *)
Definition env_int (getenv : string -> string) (key : string) (dflt : Z) : Z :=
  if String.eqb (getenv key) "" then dflt else default dflt (Atoi (getenv key)).

Lemma env_sets (proj : Config -> Z) assign key l1 l2 getenv cfg :
  (forall v c, proj (assign v c) = v) ->
  Forall (fun kf => forall k v c, proj (load_env_field k v kf.2 c).1 = proj c) l1 ->
  Forall (fun kf => forall k v c, proj (load_env_field k v kf.2 c).1 = proj c) l2 ->
  proj (load_env getenv (l1 ++ (key, EnvInt proj assign) :: l2) cfg).1 = env_int getenv key (proj cfg).
Proof.
  intros Ha H1 H2. rewrite load_env_app. cbn [load_env]. rewrite <- (env_keeps proj l1 getenv cfg H1).
  unfold env_int. destruct (String.eqb (getenv key) ""); [by apply env_keeps|].
  unfold load_env_field. destruct (Atoi (getenv key)) as [v|].
  - pose proof (env_keeps proj l2 getenv (assign v (load_env getenv l1 cfg).1) H2) as E.
    destruct (load_env getenv l2 _). cbn [fst] in E |- *. by rewrite E, Ha.
  - pose proof (env_keeps proj l2 getenv (load_env getenv l1 cfg).1 H2) as E.
    destruct (load_env getenv l2 _). exact E.
Qed.

Lemma compile_items_ok raw ctx ps :
  compile_items raw ctx = Ok ps -> Forall (fun p => is_ok (regexp_Compile p) = true) ps.
Proof.
  revert ps. induction raw as [|p raw IH]; intros ps H; simpl in H; [by simplify_eq|].
  destruct (String.eqb (TrimSpace p) ""); [by apply IH|].
  destruct (regexp_Compile (TrimSpace p)) eqn:E; [|done].
  apply result_bind_ok in H as (qs & Hq & [= <-]). constructor; [by rewrite E|by apply IH].
Qed.

Lemma parseRegexList_ok v ctx ps :
  parseRegexList v ctx = Ok ps -> Forall (fun p => is_ok (regexp_Compile p) = true) ps.
Proof.
  unfold parseRegexList. destruct (String.eqb (TrimSpace v) ""); [by intros [= <-]|].
  apply compile_items_ok.
Qed.

Definition keeps_safe (h : configFieldHandler) : Prop :=
  forall cfg v cfg', file_safe cfg -> h cfg v = Ok cfg' -> file_safe cfg'.

Lemma setBlackout_safe : keeps_safe setBlackout.
Proof.
  intros cfg v cfg' [? ? ? ? ?] H. unfold setBlackout in H. destruct (String.eqb _ "").
  - injection H as <-. by constructor.
  - apply result_bind_ok in H as (tfs & Hw%wrap_ok & [= <-]).
    constructor; try done. eapply parseSpecs_ok; [|apply Hw]. constructor.
Qed.

Lemma setCgroupBase_safe : keeps_safe setCgroupBase.
Proof.
  intros cfg v cfg' [] H. unfold setCgroupBase in H.
  destruct (_ || _) eqn:E; [done|]. injection H as <-. apply orb_false_iff in E. by constructor.
Qed.

Lemma setPort_safe key : keeps_safe (setPort key set_PrometheusMetricsBindPort).
Proof.
  intros cfg v cfg' [] H. unfold setPort in H. destruct (Atoi v) as [i|]; [|by simplify_eq].
  destruct (_ || _) eqn:E; [done|]. injection H as <-. constructor; try done. simpl. lia.
Qed.

Lemma setInclude_safe : keeps_safe (setRegexList "" set_UserIncludeList).
Proof.
  intros cfg v cfg' [] H. unfold setRegexList in H.
  apply result_bind_ok in H as (ps & Hp%parseRegexList_ok & [= <-]). by constructor.
Qed.

Lemma setRegexList_other_safe ctx assign :
  (forall l c, file_safe c -> file_safe (assign l c)) -> keeps_safe (setRegexList ctx assign).
Proof.
  intros Ha cfg v cfg' Hs H. unfold setRegexList in H.
  apply result_bind_ok in H as (ps & _ & [= <-]). by apply Ha.
Qed.

Ltac other_safe :=
  intros cfg v cfg' [] H;
  unfold setString, setStringTransform, setInt, setPositiveInt, setFloat, setBool, setPlainList in H;
  repeat match type of H with
  | match ?x with _ => _ end = _ => destruct x eqn:?
  end;
  injection H as <-; constructor; solve [done | cbn; lia].

Lemma handlers_safe : Forall (fun kh => keeps_safe kh.2) configFieldHandlers.
Proof.
  unfold configFieldHandlers.
  repeat (apply Forall_cons; split; [simpl;
    first [ apply setBlackout_safe | apply setCgroupBase_safe | apply setPort_safe
          | apply setInclude_safe
          | apply setRegexList_other_safe; intros ? ? []; by constructor
          | other_safe ] |]).
  apply Forall_nil_2.
Qed.

Lemma handler_of_safe key l h :
  Forall (fun kh => keeps_safe kh.2) l -> handler_of key l = Some h -> keeps_safe h.
Proof.
  induction 1 as [|[k h'] l Hh _ IH]; simpl; [done|].
  destruct (String.eqb key k); [intros [= <-]; apply Hh|apply IH].
Qed.

Lemma load_lines_safe i lines cfg cfg' :
  file_safe cfg -> load_lines i lines cfg = Ok cfg' -> file_safe cfg'.
Proof.
  revert i cfg. induction lines as [|raw lines IH]; intros i cfg Hs H; simpl in H; [by simplify_eq|].
  destruct (parse_line raw) as [|l|k v]; [by eapply IH|done|].
  unfold setConfigField in H. destruct (handler_of k configFieldHandlers) as [h|] eqn:E.
  - destruct (h cfg v) as [c|] eqn:Eh; [|done]. eapply IH; [|exact H].
    by eapply (handler_of_safe _ _ _ handlers_safe E).
  - by eapply IH.
Qed.

Lemma DefaultConfig_safe pid : file_safe (DefaultConfig pid).
Proof. constructor; simpl; [lia|split; reflexivity|constructor|constructor|lia]. Qed.

Lemma validateConfig_valid url_Parse cfg :
  validateConfig url_Parse cfg = Ok tt <-> valid_config url_Parse cfg.
Proof.
  rewrite <- validation_errors_nil. unfold validateConfig.
  by destruct (validation_errors url_Parse cfg).
Qed.

Lemma LoadAndValidate_iff url_Parse pid path file getenv cfg :
  (exists ws, LoadAndValidate url_Parse pid path file getenv = (Ok cfg, ws)) <->
  exists cfg0, loadFromFile file (DefaultConfig pid) = Ok cfg0 /\
    (loadFromEnvironment getenv cfg0).1 = cfg /\ valid_config url_Parse cfg.
Proof.
  unfold LoadAndValidate. destruct (loadFromFile file (DefaultConfig pid)) as [c0|e]; [|naive_solver].
  destruct (loadFromEnvironment getenv c0) as [c1 w] eqn:E.
  pose proof (validateConfig_valid url_Parse c1) as V.
  destruct (validateConfig url_Parse c1) as [[]|e].
  - split; [intros (ws & [= <- <-]); exists c0; rewrite E; simpl; naive_solver|].
    intros (c & [= <-] & Hc & Hv). rewrite E in Hc. simpl in Hc. subst. by eexists.
  - split; [naive_solver|]. intros (c & [= <-] & Hc & Hv). rewrite E in Hc. simpl in Hc. subst.
    by apply V in Hv.
Qed.

Lemma load_file_safe pid file cfg :
  loadFromFile file (DefaultConfig pid) = Ok cfg -> file_safe cfg.
Proof.
  destruct file as [|e|data]; simpl; intros H; [|done|].
  - injection H as <-. apply DefaultConfig_safe.
  - eapply load_lines_safe; [apply DefaultConfig_safe|exact H].
Qed.

Lemma env_fallback getenv cfg :
  PSIFallbackInterval (loadFromEnvironment getenv cfg).1 = env_int getenv "PSI_FALLBACK_INTERVAL" (PSIFallbackInterval cfg).
Proof.
  unfold loadFromEnvironment.
  change env_fields with (take 104 env_fields ++
    ("PSI_FALLBACK_INTERVAL", EnvInt PSIFallbackInterval set_PSIFallbackInterval) :: drop 105 env_fields).
  rewrite env_sets; [done|done| |]; unfold env_fields; cbn [take drop];
    (repeat (apply Forall_cons; split; [simpl; intros k v c;
      first [ done | by destruct (Atoi v) | by destruct (bool_word v) | by destruct (ParseFloat v) ] |]));
    apply Forall_nil_2.
Qed.

(** The environment decides alike for every file: if one accepted configuration
    is driven by pressure, no other has an interval that is not positive. *)
Lemma driven_fallback url_Parse pid file pid' file' getenv cfg0 cfg1 :
  loadFromFile file (DefaultConfig pid) = Ok cfg0 ->
  valid_config url_Parse (loadFromEnvironment getenv cfg0).1 ->
  PSIEventDriven (loadFromEnvironment getenv cfg0).1 = true ->
  loadFromFile file' (DefaultConfig pid') = Ok cfg1 ->
  0 < PSIFallbackInterval (loadFromEnvironment getenv cfg1).1.
Proof.
  intros H0 Hv Hd H1%load_file_safe%fs_fallback. apply vc_psi_fallback in Hv as [_ Hv]. specialize (Hv Hd). revert Hv.
  rewrite !env_fallback. unfold env_int. destruct (String.eqb _ ""); [done|].
  by destruct (Atoi (getenv "PSI_FALLBACK_INTERVAL")).
Qed.

End Load_lemmas.

(** ** Properties *)

(** C14: [LoadAndValidate] accepts exactly when the file parses and the merged
    configuration satisfies the declarative specification, and then returns
    that configuration: hysteresis on every enabled threshold pair, minimum
    intervals, positive PSI parameters, well-formed quotas. *)
Theorem LoadAndValidate_valid `{RE : Regexp} url_Parse pid path file getenv cfg :
  (exists ws, LoadAndValidate url_Parse pid path file getenv = (Ok cfg, ws)) <->
  exists cfg0, loadFromFile file (DefaultConfig pid) = Ok cfg0 /\
    (loadFromEnvironment getenv cfg0).1 = cfg /\ valid_config url_Parse cfg.
Proof. apply LoadAndValidate_iff. Qed.

(** An accepted configuration file leaves the exporter port within
    1..65535, the cgroup base relative and without "..", well-formed blackout
    windows, only compilable patterns in the include list and a positive
    fallback interval. *)
Theorem loadFromFile_safe `{RE : Regexp} pid file cfg :
  loadFromFile file (DefaultConfig pid) = Ok cfg -> file_safe cfg.
Proof. apply load_file_safe. Qed.

Lemma loadFromFile_safe_witness :
  exists cfg, loadFromFile (FileData "PROMETHEUS_PORT=9100 # exporter
BLACKOUT=1-5 08-18
USER_INCLUDE_LIST=alice, bob") (DefaultConfig None) = Ok cfg /\
    PrometheusMetricsBindPort cfg = 9100 /\ UserIncludeList cfg = ["alice"; "bob"] /\ file_safe cfg.
Proof.
  eexists. split; [vm_compute; reflexivity|]. split; [reflexivity|]. split; [reflexivity|].
  apply (loadFromFile_safe None (FileData "PROMETHEUS_PORT=9100 # exporter
BLACKOUT=1-5 08-18
USER_INCLUDE_LIST=alice, bob")). vm_compute. reflexivity.
Defined.

(** No environment changes the blackout windows: the variable [BLACKOUT]
    only stores its text, so the documented override has no effect. *)
Theorem environment_keeps_blackout getenv cfg now :
  IsInBlackout (loadFromEnvironment getenv cfg).1 now = IsInBlackout cfg now.
Proof.
  unfold IsInBlackout, loadFromEnvironment. rewrite (env_keeps BlackoutTimeframes); [done|].
  unfold env_fields.
  repeat (apply Forall_cons; split; [simpl; intros k v c;
    first [ done | by destruct (Atoi v) | by destruct (bool_word v) | by destruct (ParseFloat v) ] |]).
  apply Forall_nil_2.
Qed.

(** The result of [ParseRAMQuota] does not depend on the order in which
    the runtime iterates over the suffix map. *)
Theorem ParseRAMQuota_map_order order quota :
  order ≡ₚ suffixes -> ParseRAMQuota_order order quota = ParseRAMQuota quota.
Proof.
  intros Hp. unfold ParseRAMQuota, ParseRAMQuota_order. rewrite !suffix_loop_spec.
  destruct (last_byte quota) as [c|]; [|done].
  rewrite (find_perm c order suffixes); [done| |done].
  rewrite Hp. vm_compute. repeat constructor; set_solver.
Qed.

Lemma ParseRAMQuota_map_order_witness :
  ParseRAMQuota_order (rev suffixes) "512M" = ParseRAMQuota "512M" /\
  ParseRAMQuota "512M" = Ok 536870912.
Proof.
  split; [|reflexivity]. apply (ParseRAMQuota_map_order (rev suffixes) "512M").
  symmetry. apply Permutation_rev.
Defined.

(** A 64-bit number followed by one of the suffixes K, M, G, T is read as
    the product modulo [2^64]: it is exact when the product fits and wraps
    silently otherwise. *)
Theorem ParseRAMQuota_suffix n c m :
  in_u64 n -> (c, m) ∈ suffixes ->
  ParseRAMQuota (FormatUint n +:+ String c "") = Ok (wrap_u64 (n * m)).
Proof.
  intros Hn Hc. unfold ParseRAMQuota, ParseRAMQuota_order.
  destruct (String.eqb _ "") eqn:E.
  { apply String.eqb_eq, append_eq_empty in E as [_ ?]. done. }
  rewrite suffix_loop_spec, last_byte_snoc, drop_last_snoc, ParseUint_FormatUint by done.
  unfold suffixes in Hc. repeat (apply elem_of_cons in Hc as [[= -> ->]|Hc]; [done|]).
  by apply not_elem_of_nil in Hc.
Qed.

Lemma ParseRAMQuota_suffix_witness :
  ParseRAMQuota "2G" = Ok 2147483648 /\ ParseRAMQuota "18014398509481984K" = Ok 0.
Proof.
  split.
  - apply (ParseRAMQuota_suffix 2 "G"%char (1024 * 1024 * 1024)).
    + unfold in_u64, two64. lia.
    + unfold suffixes. set_solver.
  - apply (ParseRAMQuota_suffix 18014398509481984 "K"%char 1024).
    + unfold in_u64, two64. lia.
    + unfold suffixes. set_solver.
Defined.
