(* ===== verification/OS.v ===== *)
(** * The operating-system calls of the program
      (packages [os], [io/fs] and [path/filepath])

    [OS W] is the interface through which every component touches files, the
    cgroup file system and [/proc]: each call takes the world it runs in and
    returns its result and the next world, so the theorems of the clients hold
    for any kernel.  [Disk] is an instance, a tree of regular files in which
    any call can fail and a failing write can leave any contents behind; the
    crash-safety theorems and the witnesses use it. *)

From S2P Require Import Prelude GoStrings.

#[local] Open Scope Z_scope.

(** ** Paths *)

Fixpoint clean_segments (rooted : bool) (segs acc : list string) : list string :=
  match segs with
  | [] => rev acc
  | s :: rest =>
      if String.eqb s "" || String.eqb s "." then clean_segments rooted rest acc
      else if String.eqb s ".." then
        match acc with
        | a :: acc' =>
            if String.eqb a ".." then clean_segments rooted rest (".." :: acc)
            else clean_segments rooted rest acc'
        | [] => clean_segments rooted rest (if rooted then [] else [".."])
        end
      else clean_segments rooted rest (s :: acc)
  end.

(** [filepath.Clean]. *)
Definition Clean (path : string) : string :=
  let rooted := HasPrefix path "/" in
  let body := Join (clean_segments rooted (Split path "/"%char) []) "/" in
  if rooted then "/" +:+ body else if String.eqb body "" then "." else body.

(** [filepath.Dir]. *)
Definition filepath_Dir (path : string) : string :=
  match rev (Split path "/"%char) with
  | _ :: (_ :: _) as front => Clean (Join (rev (tail front)) "/" +:+ "/")
  | _ => "."
  end.

(** [filepath.Join]. *)
Fixpoint filepath_Join (elem : list string) : string :=
  match elem with
  | [] => ""
  | e :: rest => if String.eqb e "" then filepath_Join rest else Clean (Join elem "/")
  end.

(** [filepath.Base]. *)
Definition filepath_Base (path : string) : string :=
  if String.eqb path "" then "."
  else
    let p := trim_right (Ascii.eqb "/"%char) path in
    if String.eqb p "" then "/" else List.last (Split p "/"%char) "".

(** ** Errors *)

Definition ENOENT : error := "no such file or directory".

Definition EACCES : error := "permission denied".

Definition EEXIST : error := "file exists".

Definition os_IsNotExist (e : error) : bool := HasSuffix e ENOENT.

Definition os_IsPermission (e : error) : bool :=
  HasSuffix e EACCES || HasSuffix e "operation not permitted".

(** [os.IsNotExist(err)] where [err] may be [nil]. *)
Definition is_not_exist (e : option error) : bool :=
  match e with Some e => os_IsNotExist e | None => false end.

(** ** The interface *)

Class OS (W : Type) := {
  os_ReadFile : string -> ST W (result string);
  os_WriteFile : string -> string -> ST W (option error);
  os_AppendFile : string -> string -> ST W (option error);
  os_Stat : string -> ST W (option error);
  os_ReadDir : string -> ST W (result (list (string * bool)));
  os_Mkdir : string -> ST W (option error);
  os_MkdirAll : string -> ST W (option error);
  os_Remove : string -> ST W (option error);
  os_RemoveAll : string -> ST W (option error);
  os_Rename : string -> string -> ST W (option error);
  os_Chmod : string -> ST W (option error)
}.

(** ** A disk whose calls can fail *)

(** The outcome imposed on one call: success, or an error after which the file
    the call was writing holds [remains]. *)
Inductive fault :=
  | Works
  | Fails (e : error) (remains : option string).

Record Disk := mkDisk {
  files : gmap string string;
  dirs : gset string;
  faults : list fault
}.

Definition next_fault (d : Disk) : fault * Disk :=
  match faults d with
  | [] => (Works, d)
  | f :: fs => (f, mkDisk (files d) (dirs d) fs)
  end.

Definition set_files (f : gmap string string -> gmap string string) (d : Disk) : Disk :=
  mkDisk (f (files d)) (dirs d) (faults d).

Definition set_dirs (f : gset string -> gset string) (d : Disk) : Disk :=
  mkDisk (files d) (f (dirs d)) (faults d).

(** What a failing write leaves at [path]. *)
Definition leave (path : string) (remains : option string) (d : Disk) : Disk :=
  match remains with Some c => set_files (insert path c) d | None => d end.

Definition disk_call {A} (path : string) (fail : error -> A) (work : ST Disk A) : ST Disk A :=
  fun d =>
    match next_fault d with
    | (Works, d') => work d'
    | (Fails e remains, d') => (fail e, leave path remains d')
    end.

(** A call that does not write leaves nothing behind. *)
Definition disk_query {A} (fail : error -> A) (work : ST Disk A) : ST Disk A :=
  fun d =>
    match next_fault d with
    | (Works, d') => work d'
    | (Fails e _, d') => (fail e, d')
    end.

Definition exists_at (path : string) (d : Disk) : bool :=
  isSome (files d !! path) || bool_decide (path ∈ dirs d).

(** [path] is [root] or lies under it. *)
Definition below (root path : string) : bool :=
  String.eqb path root || HasPrefix path (root +:+ "/").

#[export] Instance disk_os : OS Disk := {|
  os_ReadFile path := disk_query Err (fun d =>
    (match files d !! path with Some c => Ok c | None => Err ENOENT end, d));
  os_WriteFile path c := disk_call path Some (fun d => (None, set_files (insert path c) d));
  os_AppendFile path c := disk_call path Some (fun d =>
    (None, set_files (insert path (default "" (files d !! path) +:+ c)) d));
  os_Stat path := disk_query Some (fun d => (if exists_at path d then None else Some ENOENT, d));
  os_ReadDir path := disk_query Err (fun d =>
    (if bool_decide (path ∈ dirs d) then Ok [] else Err ENOENT, d));
  os_Mkdir path := disk_query Some (fun d =>
    if exists_at path d then (Some EEXIST, d) else (None, set_dirs (union {[path]}) d));
  os_MkdirAll path := disk_query Some (fun d => (None, set_dirs (union {[path]}) d));
  os_Remove path := disk_query Some (fun d =>
    if exists_at path d then (None, set_dirs (fun s => s ∖ {[path]}) (set_files (delete path) d))
    else (Some ENOENT, d));
  os_RemoveAll path := disk_query Some (fun d =>
    (None, mkDisk (filter (fun kv => below path kv.1 = false) (files d))
                  (filter (fun k => below path k = false) (dirs d)) (faults d)));
  os_Rename old new := disk_query Some (fun d =>
    match files d !! old with
    | Some c => (None, set_files (fun m => <[new := c]> (delete old m)) d)
    | None => (Some ENOENT, d)
    end);
  os_Chmod _ := disk_query Some (fun d => (None, d))
|}.

(** ** Lemmas *)

Lemma wp_disk_query {A} (fail : error -> A) (work : ST Disk A) (Q : A -> Disk -> Prop) d :
  (forall fs, wp work Q (mkDisk (files d) (dirs d) fs)) ->
  (forall e fs, Q (fail e) (mkDisk (files d) (dirs d) fs)) ->
  wp (disk_query fail work) Q d.
Proof.
  intros Hw Hf. unfold wp, disk_query, next_fault. destruct d as [f ds [|[|e l] fs]]; simpl.
  - apply Hw.
  - apply Hw.
  - apply Hf.
Qed.

Lemma wp_disk_call {A} path (fail : error -> A) (work : ST Disk A) (Q : A -> Disk -> Prop) d :
  (forall fs, wp work Q (mkDisk (files d) (dirs d) fs)) ->
  (forall e remains fs, Q (fail e) (leave path remains (mkDisk (files d) (dirs d) fs))) ->
  wp (disk_call path fail work) Q d.
Proof.
  intros Hw Hf. unfold wp, disk_call, next_fault. destruct d as [f ds [|[|e l] fs]]; simpl.
  - apply Hw.
  - apply Hw.
  - apply Hf.
Qed.

Lemma files_leave_ne path path' remains d :
  path <> path' -> files (leave path remains d) !! path' = files d !! path'.
Proof. intros. destruct remains; [|done]. simpl. by rewrite lookup_insert_ne. Qed.

Lemma append_longer (a b : string) : b <> "" -> a +:+ b <> a.
Proof.
  intros Hb. induction a as [|c a IH]; [done|]. rewrite append_cons. congruence.
Qed.

(** The rules of the calls on a disk whose imposed errors are never "does not
    exist": what a client may rely on in each outcome. *)
Definition real_faults (d : Disk) : Prop :=
  Forall (fun f => match f with Fails e _ => os_IsNotExist e = false | Works => True end) (faults d).

Section disk_rules.

Lemma next_fault_real d :
  real_faults d ->
  files (next_fault d).2 = files d /\ dirs (next_fault d).2 = dirs d /\ real_faults (next_fault d).2 /\
  match (next_fault d).1 with Fails e _ => os_IsNotExist e = false | Works => True end.
Proof.
  unfold real_faults, next_fault. destruct (faults d) as [|f fs] eqn:E; simpl.
  - by rewrite E.
  - intros [? ?]%Forall_cons. done.
Qed.

Lemma wp_ReadFile p (Q : result string -> Disk -> Prop) d :
  real_faults d ->
  (forall r d', files d' = files d -> real_faults d' ->
     match r with
     | Ok c => files d !! p = Some c
     | Err e => os_IsNotExist e = true -> files d !! p = None
     end -> Q r d') ->
  wp (os_ReadFile p) Q d.
Proof.
  intros Hr HQ. unfold wp. simpl. unfold disk_query.
  destruct (next_fault_real d Hr) as (Hf & _ & Hr' & Hx).
  destruct (next_fault d) as [[|e l] d']; simpl in *.
  - rewrite Hf. apply HQ; [done|done|]. by destruct (files d !! p).
  - apply HQ; [done|done|congruence].
Qed.

Lemma wp_Stat p (Q : option error -> Disk -> Prop) d :
  real_faults d ->
  (forall r d', files d' = files d -> real_faults d' ->
     (is_not_exist r = true -> files d !! p = None) -> Q r d') -> wp (os_Stat p) Q d.
Proof.
  intros Hr HQ. unfold wp. simpl. unfold disk_query.
  destruct (next_fault_real d Hr) as (Hf & _ & Hr' & Hx).
  destruct (next_fault d) as [[|e l] d']; simpl in *; apply HQ; try done; [|simpl; congruence].
  unfold exists_at. rewrite Hf. by destruct (files d !! p).
Qed.

Lemma wp_WriteFile p c (Q : option error -> Disk -> Prop) d :
  real_faults d ->
  (forall r d', real_faults d' -> (r = None -> files d' = <[p := c]> (files d)) ->
     (forall q, q <> p -> files d' !! q = files d !! q) -> Q r d') ->
  wp (os_WriteFile p c) Q d.
Proof.
  intros Hr HQ. unfold wp. simpl. unfold disk_call.
  destruct (next_fault_real d Hr) as (Hf & _ & Hr' & Hx).
  destruct (next_fault d) as [[|e l] d']; simpl in *.
  - apply HQ; [done|intros _; simpl; by rewrite Hf|]. intros q Hq. simpl. by rewrite lookup_insert_ne, Hf.
  - apply HQ; [by destruct l|done|]. intros q Hq. by rewrite files_leave_ne, Hf.
Qed.

Lemma wp_AppendFile p c (Q : option error -> Disk -> Prop) d :
  real_faults d ->
  (forall r d', real_faults d' ->
     (r = None -> files d' = <[p := default "" (files d !! p) +:+ c]> (files d)) -> Q r d') ->
  wp (os_AppendFile p c) Q d.
Proof.
  intros Hr HQ. unfold wp. simpl. unfold disk_call.
  destruct (next_fault_real d Hr) as (Hf & _ & Hr' & Hx).
  destruct (next_fault d) as [[|e l] d']; simpl in *.
  - apply HQ; [done|intros _; simpl; by rewrite Hf].
  - apply HQ; [by destruct l|done].
Qed.

Lemma wp_Rename p q (Q : option error -> Disk -> Prop) d :
  real_faults d ->
  (forall r d', real_faults d' ->
     match r with
     | None => exists c, files d !! p = Some c /\ files d' = <[q := c]> (delete p (files d))
     | Some _ => files d' = files d
     end -> Q r d') ->
  wp (os_Rename p q) Q d.
Proof.
  intros Hr HQ. unfold wp. simpl. unfold disk_query.
  destruct (next_fault_real d Hr) as (Hf & _ & Hr' & Hx).
  destruct (next_fault d) as [[|e l] d']; simpl in *; [|by apply HQ].
  rewrite Hf. destruct (files d !! p) as [c|] eqn:E; simpl; apply HQ; try done.
  exists c. simpl. by rewrite Hf.
Qed.

Lemma wp_Remove p (Q : option error -> Disk -> Prop) d :
  real_faults d ->
  (forall r d', real_faults d' -> (forall q, q <> p -> files d' !! q = files d !! q) -> Q r d') ->
  wp (os_Remove p) Q d.
Proof.
  intros Hr HQ. unfold wp. simpl. unfold disk_query.
  destruct (next_fault_real d Hr) as (Hf & _ & Hr' & Hx).
  destruct (next_fault d) as [[|e l] d']; simpl in *; [|apply HQ; [done|intros q _; by rewrite Hf]].
  destruct (exists_at p d'); simpl; (apply HQ; [done|]); intros q Hq; simpl.
  - by rewrite lookup_delete_ne, Hf.
  - by rewrite Hf.
Qed.

End disk_rules.
