(* ===== verification/UserFilter.v ===== *)
(** * User and process filters, and saving the user lists
      (config/config.go: [matchPattern] .. [generateConfigLines])

    The filters run over the cache of compiled patterns, threaded as a state;
    [SaveToFile] and the two setters run over any operating system. *)

From S2P Require Import Prelude GoStrings Config ConfigLoad OS.

#[local] Open Scope Z_scope.

Section Filter.
Context `{RE : Regexp}.

Definition regexCache : Type := gmap string regex.

(** [sync.Map.LoadOrStore]. *)
Definition LoadOrStore (pattern : string) (re : regex) : ST regexCache regex :=
  fun cache =>
    match cache !! pattern with
    | Some r => (r, cache)
    | None => (re, <[pattern := re]> cache)
    end.

Definition matchPattern (pattern s : string) : ST regexCache bool :=
  gets (lookup pattern) ≫= fun cached =>
  match cached with
  | Some re => mret (MatchString re s)
  | None =>
      match regexp_Compile pattern with
      | Err _ => mret false
      | Ok re => LoadOrStore pattern re ≫= fun stored => mret (MatchString stored s)
      end
  end.

Fixpoint matches_any (patterns : list string) (s : string) : ST regexCache bool :=
  match patterns with
  | [] => mret false
  | p :: ps =>
      matchPattern p s ≫= fun b => if b : bool then mret true else matches_any ps s
  end.

Definition included_in (patterns : list string) (username : string) : ST regexCache bool :=
  match patterns with [] => mret true | _ => matches_any patterns username end.

Definition excluded_by (patterns : list string) (username : string) : ST regexCache bool :=
  match patterns with [] => mret false | _ => matches_any patterns username end.

Definition and_not (inc exc : ST regexCache bool) : ST regexCache bool :=
  inc ≫= fun b => if b : bool then exc ≫= fun e => mret (negb e) else mret false.

Definition IsUserIncluded (c : Config) (username : string) : ST regexCache bool :=
  included_in (UserIncludeList c) username.

Definition IsUserExcluded (c : Config) (username : string) : ST regexCache bool :=
  excluded_by (UserExcludeList c) username.

Definition IsUserWhitelisted (c : Config) (username : string) : ST regexCache bool :=
  and_not (IsUserIncluded c username) (IsUserExcluded c username).

Definition IsProcessExcluded (c : Config) (processName : string) : ST regexCache bool :=
  excluded_by (ProcessExcludeList c) processName.

Definition IsUserIncludedForRAM (c : Config) (username : string) : ST regexCache bool :=
  included_in (RAMUserIncludeList c) username.

Definition IsUserExcludedForRAM (c : Config) (username : string) : ST regexCache bool :=
  excluded_by (RAMUserExcludeList c) username.

Definition IsUserWhitelistedForRAM (c : Config) (username : string) : ST regexCache bool :=
  and_not (IsUserIncludedForRAM c username) (IsUserExcludedForRAM c username).

Definition IsUserIncludedForIO (c : Config) (username : string) : ST regexCache bool :=
  included_in (IOUserIncludeList c) username.

Definition IsUserExcludedForIO (c : Config) (username : string) : ST regexCache bool :=
  excluded_by (IOUserExcludeList c) username.

Definition IsUserWhitelistedForIO (c : Config) (username : string) : ST regexCache bool :=
  and_not (IsUserIncludedForIO c username) (IsUserExcludedForIO c username).

(** ** Saving *)

Definition include_line (c : Config) : string :=
  "USER_INCLUDE_LIST=" +:+ Join (UserIncludeList c) ",".

Definition exclude_line (c : Config) : string :=
  "USER_EXCLUDE_LIST=" +:+ Join (UserExcludeList c) ",".

Definition generateConfigLines (c : Config) : list string :=
  ["# CPU Manager Configuration"; include_line c; exclude_line c; ""].

(** The loop over the old lines: the new lines and the two "written" flags. *)
Fixpoint update_lines (c : Config) (lines : list string) (inc exc : bool) : list string * bool * bool :=
  match lines with
  | [] => ([], inc, exc)
  | line :: rest =>
      let trimmed := TrimSpace line in
      let keep (l : string) (inc exc : bool) :=
        let '(ls, i, e) := update_lines c rest inc exc in (l :: ls, i, e) in
      if String.eqb trimmed "" || HasPrefix trimmed "#" then keep line inc exc
      else if HasPrefix trimmed "USER_INCLUDE_LIST=" then keep (include_line c) true exc
      else if HasPrefix trimmed "USER_EXCLUDE_LIST=" then keep (exclude_line c) inc true
      else keep line inc exc
  end.

Definition updated_lines (c : Config) (content : string) : list string :=
  let '(updated, inc, exc) := update_lines c (Split content newline) false false in
  updated ++ (if inc then [] else [include_line c]) ++ (if exc then [] else [exclude_line c]).

Section Save.
Context `{O : OS W}.

Definition updateConfigLines (c : Config) (path : string) : ST W (result (list string)) :=
  os_ReadFile path ≫= fun r =>
  mret match r with
       | Err e =>
           if os_IsNotExist e then Ok (generateConfigLines c)
           else Err ("failed to read config file: " +:+ e)
       | Ok content => Ok (updated_lines c content)
       end.

Definition backup_config (path timestamp : string) : ST W (option error) :=
  os_Stat path ≫= fun st =>
  match st with
  | Some _ => mret None
  | None =>
      os_ReadFile path ≫= fun r =>
      match r with
      | Err e => mret (Some ("failed to read config file for backup: " +:+ e))
      | Ok content =>
          os_WriteFile (path +:+ ".backup_" +:+ timestamp) content ≫= fun w =>
          mret (match w with Some e => Some ("failed to create backup: " +:+ e) | None => None end)
      end
  end.

(** [timestamp] is the formatted time of the call. *)
Definition SaveToFile (c : Config) (path timestamp : string) : ST W (option error) :=
  backup_config path timestamp ≫= fun b =>
  match b with
  | Some e => mret (Some e)
  | None =>
      updateConfigLines c path ≫= fun r =>
      match r with
      | Err e => mret (Some e)
      | Ok lines =>
          let tmpPath := path +:+ ".tmp" in
          os_WriteFile tmpPath (Join lines (String newline "")) ≫= fun w =>
          match w with
          | Some e => mret (Some ("failed to write temp config file: " +:+ e))
          | None =>
              os_Rename tmpPath path ≫= fun rn =>
              match rn with
              | Some e =>
                  os_Remove tmpPath ≫= fun _ =>
                  mret (Some ("failed to rename config file: " +:+ e))
              | None => mret None
              end
          end
      end
  end.

(** The first pattern that does not compile. *)
Fixpoint invalid_pattern (patterns : list string) : option error :=
  match patterns with
  | [] => None
  | p :: ps =>
      match regexp_Compile p with
      | Err e => Some ("invalid regex pattern '" +:+ p +:+ "': " +:+ e)
      | Ok _ => invalid_pattern ps
      end
  end.

Definition set_list (proj : Config -> list string) (assign : list string -> Config -> Config)
    (patterns : list string) (configPath timestamp : string) : ST (Config * W) (result (list string)) :=
  match invalid_pattern patterns with
  | Some e => mret (Err e)
  | None => fun '(c, w) =>
      let previousValue := proj c in
      let c' := assign patterns c in
      match SaveToFile c' configPath timestamp w with
      | (Some e, w') => (Err e, (assign previousValue c', w'))
      | (None, w') => (Ok previousValue, (c', w'))
      end
  end.

Definition SetUserExcludeList (patterns : list string) (configPath timestamp : string)
    : ST (Config * W) (result (list string)) :=
  set_list UserExcludeList set_UserExcludeList patterns configPath timestamp.

Definition SetUserIncludeList (patterns : list string) (configPath timestamp : string)
    : ST (Config * W) (result (list string)) :=
  set_list UserIncludeList set_UserIncludeList patterns configPath timestamp.

End Save.

(** ** Specification *)

(** Every cached expression is the compilation of its pattern. *)
Definition cache_ok (cache : regexCache) : Prop :=
  forall p re, cache !! p = Some re -> regexp_Compile p = Ok re.

Definition pattern_matches (s p : string) : bool :=
  match regexp_Compile p with Ok re => MatchString re s | Err _ => false end.

(** The declarative filter: in the include list when there is one, and not in
    the exclude list. *)
Definition allowed (include exclude : list string) (s : string) : bool :=
  (match include with [] => true | _ => existsb (pattern_matches s) include end)
  && negb (existsb (pattern_matches s) exclude).

(** The lines a save leaves alone. *)
Definition is_list_line (line : string) : bool :=
  let t := TrimSpace line in
  negb (String.eqb t "" || HasPrefix t "#") &&
  (HasPrefix t "USER_INCLUDE_LIST=" || HasPrefix t "USER_EXCLUDE_LIST=").

Definition other_lines (lines : list string) : list string :=
  List.filter (fun l => negb (is_list_line l)) lines.

(** ** Lemmas *)

Lemma cache_ok_empty : cache_ok ∅.
Proof. intros p re H. unfold regexCache in H. by apply lookup_empty_Some in H. Qed.

Lemma wp_matchPattern p s cache :
  cache_ok cache -> wp (matchPattern p s) (fun b c' => b = pattern_matches s p /\ cache_ok c') cache.
Proof.
  intros Hc. unfold matchPattern, pattern_matches. wp_steps; try (split; [|done]).
  - by rewrite (Hc _ _ Heqo).
  - unfold wp, LoadOrStore. rewrite Heqo. simpl. split; [done|].
    intros p' re' [[<- <-]|[_ H]]%lookup_insert_Some; [done|by apply Hc].
  - done.
Qed.

Lemma wp_matches_any ps s cache :
  cache_ok cache ->
  wp (matches_any ps s) (fun b c' => b = existsb (pattern_matches s) ps /\ cache_ok c') cache.
Proof.
  revert cache. induction ps as [|p ps IH]; intros cache Hc; simpl; [by apply wp_ret|].
  apply wp_bind. eapply wp_mono; [|by apply wp_matchPattern].
  intros b c' [-> Hc']. destruct (pattern_matches s p); [by apply wp_ret|by apply IH].
Qed.

Lemma wp_and_not inc exc (bi be : bool) cache :
  (forall c, cache_ok c -> wp inc (fun b c' => b = bi /\ cache_ok c') c) ->
  (forall c, cache_ok c -> wp exc (fun b c' => b = be /\ cache_ok c') c) ->
  cache_ok cache ->
  wp (and_not inc exc) (fun b c' => b = bi && negb be /\ cache_ok c') cache.
Proof.
  intros Hi He Hc. unfold and_not. apply wp_bind. eapply wp_mono; [|by apply Hi].
  intros b c' [-> Hc']. destruct bi; [|by apply wp_ret].
  apply wp_bind. eapply wp_mono; [|by apply He]. intros e c'' [-> ?]. by apply wp_ret.
Qed.

Lemma wp_filter inc exc s cache :
  cache_ok cache ->
  wp (and_not (included_in inc s) (excluded_by exc s))
     (fun b c' => b = allowed inc exc s /\ cache_ok c') cache.
Proof.
  intros Hc. apply wp_and_not; [| |done]; intros c Hc'.
  - unfold included_in. destruct inc; [by apply wp_ret|by apply wp_matches_any].
  - unfold excluded_by. destruct exc; [by apply wp_ret|by apply wp_matches_any].
Qed.

Lemma update_lines_other c lines inc exc :
  is_list_line (include_line c) = true -> is_list_line (exclude_line c) = true ->
  other_lines (update_lines c lines inc exc).1.1 = other_lines lines.
Proof.
  intros Hi He. revert inc exc. induction lines as [|line lines IH]; intros inc exc; [done|].
  cbn -[HasPrefix String.eqb TrimSpace include_line exclude_line is_list_line].
  assert (forall l, is_list_line l = is_list_line line -> (is_list_line line = false -> l = line) ->
          forall i e, other_lines (let '(ls, i, e) := update_lines c lines i e in (l :: ls, i, e)).1.1 =
                      (if negb (is_list_line line) then line :: other_lines lines else other_lines lines)) as K.
  { intros l Hl Hs i e. specialize (IH i e). destruct (update_lines c lines i e) as [[ls i'] e'].
    simpl in *. rewrite Hl. destruct (is_list_line line); simpl; [done|]. by rewrite Hs, IH. }
  destruct (_ || _) eqn:E1; [by apply K|].
  destruct (HasPrefix _ "USER_INCLUDE_LIST=") eqn:E2.
  { assert (is_list_line line = true) as L by (unfold is_list_line; by rewrite E1, E2).
    apply K; congruence. }
  destruct (HasPrefix _ "USER_EXCLUDE_LIST=") eqn:E3.
  { assert (is_list_line line = true) as L by (unfold is_list_line; by rewrite E1, E2, E3).
    apply K; congruence. }
  by apply K.
Qed.

Lemma list_line_intro pre v :
  (pre = "USER_INCLUDE_LIST=" \/ pre = "USER_EXCLUDE_LIST=") -> is_list_line (pre +:+ v) = true.
Proof.
  intros Hp. unfold is_list_line.
  assert (TrimSpace (pre +:+ v) = pre +:+ trim_right is_space v) as ->.
  { destruct Hp as [-> | ->]; unfold TrimSpace.
    - by apply (trim_right_app_keep is_space "USER_INCLUDE_LIST=" v "="%char).
    - by apply (trim_right_app_keep is_space "USER_EXCLUDE_LIST=" v "="%char). }
  by destruct Hp as [-> | ->]; rewrite HasPrefix_app.
Qed.

Lemma update_lines_flags c lines inc exc :
  let '(ls, i, e) := update_lines c lines inc exc in
  (i = true -> inc = true \/ include_line c ∈ ls) /\
  (e = true -> exc = true \/ exclude_line c ∈ ls) /\
  Forall (fun l => is_list_line l = true -> l = include_line c \/ l = exclude_line c) ls.
Proof.
  revert inc exc. induction lines as [|line lines IH]; intros inc exc;
    cbn -[HasPrefix String.eqb TrimSpace include_line exclude_line is_list_line].
  - split_and!; [by left|by left|constructor].
  - destruct (_ || _) eqn:E1.
    + specialize (IH inc exc). destruct (update_lines c lines inc exc) as [[ls i] e].
      destruct IH as (Hi & He & Hf). split_and!; [set_solver|set_solver|].
      constructor; [|done]. unfold is_list_line. by rewrite E1.
    + destruct (HasPrefix _ "USER_INCLUDE_LIST=") eqn:E2; [|destruct (HasPrefix _ "USER_EXCLUDE_LIST=") eqn:E3].
      * specialize (IH true exc). destruct (update_lines c lines true exc) as [[ls i] e].
        destruct IH as (Hi & He & Hf). split_and!; [set_solver|set_solver|]. by constructor; [auto|].
      * specialize (IH inc true). destruct (update_lines c lines inc true) as [[ls i] e].
        destruct IH as (Hi & He & Hf). split_and!; [set_solver|set_solver|]. by constructor; [auto|].
      * specialize (IH inc exc). destruct (update_lines c lines inc exc) as [[ls i] e].
        destruct IH as (Hi & He & Hf). split_and!; [set_solver|set_solver|].
        constructor; [|done]. unfold is_list_line. by rewrite E1, E2, E3.
Qed.

Lemma other_lines_app l1 l2 : other_lines (l1 ++ l2) = other_lines l1 ++ other_lines l2.
Proof. apply List.filter_app. Qed.

Lemma include_is_list c : is_list_line (include_line c) = true.
Proof. apply (list_line_intro "USER_INCLUDE_LIST="). by left. Qed.

Lemma exclude_is_list c : is_list_line (exclude_line c) = true.
Proof. apply (list_line_intro "USER_EXCLUDE_LIST="). by right. Qed.

Lemma updated_lines_all c content :
  other_lines (updated_lines c content) = other_lines (Split content newline) /\
  include_line c ∈ updated_lines c content /\ exclude_line c ∈ updated_lines c content /\
  Forall (fun l => is_list_line l = true -> l = include_line c \/ l = exclude_line c)
         (updated_lines c content).
Proof.
  pose proof (update_lines_other c (Split content newline) false false
                (include_is_list c) (exclude_is_list c)) as Ho.
  pose proof (update_lines_flags c (Split content newline) false false) as Hf.
  unfold updated_lines. destruct (update_lines _ _ _ _) as [[ls i] e]. simpl in Ho.
  destruct Hf as (Hi & He & Hf). split_and!.
  - rewrite !other_lines_app, Ho. unfold other_lines at 2 3.
    destruct i, e; simpl; rewrite ?include_is_list, ?exclude_is_list; simpl; by rewrite ?app_nil_r.
  - rewrite !elem_of_app. destruct i; [destruct (Hi eq_refl); [done|auto]|]. right. left. by left.
  - rewrite !elem_of_app. destruct e; [destruct (He eq_refl); [done|auto]|]. right. right. by left.
  - rewrite !Forall_app. split; [done|]. split; [destruct i|destruct e]; [constructor| |constructor|];
      (apply Forall_singleton; auto).
Qed.

End Filter.

(** A list entry that survives being written and read back: no white space,
    separator, comment sign or quote, not empty, and a valid pattern. *)
Definition plain_pattern `{RE : Regexp} (p : string) : Prop :=
  no_space p /\ p <> "" /\ is_ok (regexp_Compile p) = true /\
  mem ","%char p = false /\ mem "#"%char p = false /\
  mem (ascii_of_N 34) p = false /\ mem "'"%char p = false.

Section Reload.
Context `{RE : Regexp}.

Lemma compile_items_plain ps ctx :
  Forall plain_pattern ps -> compile_items ps ctx = Ok ps.
Proof.
  induction 1 as [|p ps (Hs & Hne & Hc & _) _ IH]; [done|]. simpl.
  rewrite TrimSpace_no_space by done. rewrite (proj2 (String.eqb_neq _ _)) by done.
  destruct (regexp_Compile p); [|done]. by rewrite IH.
Qed.

Lemma plain_join_no c ps :
  c <> ","%char -> Forall (fun p => mem c p = false) ps -> mem c (Join ps ",") = false.
Proof. intros Hc. apply mem_join. simpl. by rewrite (proj2 (Ascii.eqb_neq _ _) Hc). Qed.

Lemma parseRegexList_plain ps ctx :
  Forall plain_pattern ps -> parseRegexList (Join ps ",") ctx = Ok ps.
Proof.
  intros H. unfold parseRegexList. rewrite TrimSpace_no_space.
  2: { apply no_space_join; [by apply no_space_cons|]. eapply Forall_impl; [exact H|]. by intros ? []. }
  destruct (decide (ps = [])) as [->|Hne]; [done|].
  rewrite (proj2 (String.eqb_neq _ _)).
  - change "," with (String ","%char ""). rewrite Split_join; [by apply compile_items_plain|done|].
    eapply Forall_impl; [exact H|]. by intros ? (? & ? & ? & ? & ?).
  - apply Join_not_empty; [done|]. eapply Forall_impl; [exact H|]. by intros ? (? & ? & ?).
Qed.

(** A key/value line whose value has no special byte is read back. *)
Lemma parse_line_plain k v :
  no_space (k +:+ "=" +:+ v) -> mem "="%char k = false -> mem "#"%char (k +:+ v) = false -> k <> "" ->
  (forall c, mem c v = true -> mem c (String (ascii_of_N 34) "'") = false) ->
  parse_line (k +:+ "=" +:+ v) = LineSet k v.
Proof.
  intros Hs Hk Hh Hne Hq. unfold parse_line. rewrite TrimSpace_no_space by done.
  destruct k as [|c k]; [done|].
  assert (HasPrefix (String c k +:+ "=" +:+ v) "#" = false) as ->.
  { simpl in Hh. apply orb_false_iff in Hh as [Hh _]. unfold HasPrefix. rewrite append_cons.
    cbn [String.prefix]. destruct (ascii_dec "#" c) as [<-|]; [done|done]. }
  assert (String.eqb (String c k +:+ "=" +:+ v) "" = false) as -> by done. cbn [orb].
  change ("=" +:+ v) with (String "="%char v). rewrite SplitN2_app by done.
  rewrite mem_app in Hh. apply orb_false_iff in Hh as [_ Hh].
  assert (no_space v /\ no_space (String c k)) as [Hv Hk'].
  { split; intros d Hd; apply Hs; rewrite !mem_app, Hd; rewrite ?orb_true_r; done. }
  rewrite (TrimSpace_no_space v), before_id, Trim_none, (TrimSpace_no_space v), TrimSpace_no_space by done.
  done.
Qed.

Lemma list_line_reloads k ps :
  (k = "USER_INCLUDE_LIST" \/ k = "USER_EXCLUDE_LIST") -> Forall plain_pattern ps ->
  parse_line (k +:+ "=" +:+ Join ps ",") = LineSet k (Join ps ",").
Proof.
  intros Hk H.
  assert (forall c, c <> ","%char -> (forall p, plain_pattern p -> mem c p = false) ->
                    mem c (Join ps ",") = false) as Hno.
  { intros c Hc Hp. apply plain_join_no; [done|]. eapply Forall_impl; [exact H|]. auto. }
  assert (no_space (Join ps ",")) as Hsp.
  { apply no_space_join; [by apply no_space_cons|]. eapply Forall_impl; [exact H|]. by intros ? []. }
  apply parse_line_plain.
  - apply no_space_app; [destruct Hk as [-> | ->]; by apply no_spaceb_ok|].
    apply no_space_app; [by apply no_spaceb_ok|done].
  - by destruct Hk as [-> | ->].
  - rewrite mem_app, (Hno "#"%char), orb_false_r; [by destruct Hk as [-> | ->]|done|].
    by intros ? (? & ? & ? & ? & ? & ?).
  - by destruct Hk as [-> | ->].
  - intros c Hc. simpl. rewrite orb_false_r. apply orb_false_iff.
    split; apply Ascii.eqb_neq; intros ->;
      (rewrite Hno in Hc; [done|done|by intros ? (? & ? & ? & ? & ? & ? & ?)]).
Qed.

Lemma setConfigField_include cfg ps :
  Forall plain_pattern ps ->
  setConfigField cfg "USER_INCLUDE_LIST" (Join ps ",") = Ok (set_UserIncludeList ps cfg).
Proof.
  intros H. change (setRegexList "" set_UserIncludeList cfg (Join ps ",") = Ok (set_UserIncludeList ps cfg)).
  unfold setRegexList. by rewrite parseRegexList_plain.
Qed.

Lemma setConfigField_exclude cfg ps :
  Forall plain_pattern ps ->
  setConfigField cfg "USER_EXCLUDE_LIST" (Join ps ",") = Ok (set_UserExcludeList ps cfg).
Proof.
  intros H. change (setRegexList "" set_UserExcludeList cfg (Join ps ",") = Ok (set_UserExcludeList ps cfg)).
  unfold setRegexList. by rewrite parseRegexList_plain.
Qed.

End Reload.

(** ** Saving on a disk that fails *)

(** The contents a save may install: the old file with its list lines
    rewritten, or the default lines when there is no file. *)
Definition saved_lines (c : Config) (old : option string) : list string :=
  match old with Some content => updated_lines c content | None => generateConfigLines c end.

Lemma wp_backup_config path ts (Q : option error -> Disk -> Prop) d :
  real_faults d ->
  (forall r d', files d' !! path = files d !! path -> real_faults d' -> Q r d') ->
  wp (backup_config path ts) Q d.
Proof.
  intros Hr HQ. unfold backup_config. apply wp_bind, wp_Stat; [done|].
  intros [e|] d1 F1 R1 _; [apply wp_ret, HQ; congruence|].
  apply wp_bind, wp_ReadFile; [done|]. intros [content|e] d2 F2 R2 _; [|apply wp_ret, HQ; congruence].
  apply wp_bind, wp_WriteFile; [done|]. intros r d3 R3 _ Hne. apply wp_ret, HQ; [|done].
  rewrite Hne; [congruence|]. intros E. symmetry in E. revert E. by apply append_longer.
Qed.

Lemma wp_SaveToFile c path ts d :
  real_faults d ->
  wp (SaveToFile c path ts)
     (fun r d' => files d' !! path =
        match r with
        | Some _ => files d !! path
        | None => Some (Join (saved_lines c (files d !! path)) (String newline ""))
        end) d.
Proof.
  intros Hr. unfold SaveToFile. apply wp_bind, wp_backup_config; [done|].
  intros [e|] d1 F1 R1; [by apply wp_ret|].
  unfold updateConfigLines. do 2 apply wp_bind. apply wp_ReadFile; [done|].
  intros r d2 F2 R2 Hrd. apply wp_ret.
  destruct (match r with Err e => _ | Ok content => _ end) as [lines|e] eqn:El;
    [|apply wp_ret; congruence].
  assert (lines = saved_lines c (files d !! path)) as ->.
  { rewrite <- F1. destruct r as [content|e]; [rewrite Hrd; by injection El as <-|].
    destruct (os_IsNotExist e); [|done]. rewrite Hrd by done. by injection El as <-. }
  assert (path <> path +:+ ".tmp") as Hp by (symmetry; by apply append_longer).
  apply wp_bind, wp_WriteFile; [done|]. intros [e|] d3 R3 W3 N3.
  { apply wp_ret. rewrite N3 by done. congruence. }
  apply wp_bind, wp_Rename; [done|]. intros [e|] d4 R4 H4.
  - apply wp_bind, wp_Remove; [done|]. intros x d5 R5 N5. apply wp_ret.
    rewrite N5, H4, N3 by done. congruence.
  - apply wp_ret. destruct H4 as (content & Hc & ->). rewrite lookup_insert_eq. rewrite W3, lookup_insert_eq in Hc by done.
    congruence.
Qed.

(** ** Properties *)


#[local] Existing Instance literal_regexp.


(** C16: saving is atomic on a disk where any call can fail: an error leaves
    the configuration file with exactly its previous contents, success
    installs exactly the updated lines. *)
Theorem SaveToFile_atomic c path ts d :
  real_faults d ->
  files (exec (SaveToFile c path ts) d) !! path =
  match eval (SaveToFile c path ts) d with
  | Some _ => files d !! path
  | None => Some (Join (saved_lines c (files d !! path)) (String newline ""))
  end.
Proof. apply wp_SaveToFile. Qed.

(** The rename is the call that fails: the new contents are lost, the old
    file is intact. *)
Lemma SaveToFile_atomic_witness :
  let d := mkDisk {[ "/etc/resman.conf" := "CPU_THRESHOLD=80" ]} ∅
             [Works; Works; Works; Works; Fails EACCES (Some "garbage")] in
  isSome (eval (SaveToFile (DefaultConfig None) "/etc/resman.conf" "t") d) = true /\
  files (exec (SaveToFile (DefaultConfig None) "/etc/resman.conf" "t") d) !! "/etc/resman.conf" =
  match eval (SaveToFile (DefaultConfig None) "/etc/resman.conf" "t") d with
  | Some _ => files d !! "/etc/resman.conf"
  | None => Some (Join (saved_lines (DefaultConfig None) (files d !! "/etc/resman.conf")) (String newline ""))
  end.
Proof.
  split; [vm_compute; reflexivity|]. apply SaveToFile_atomic.
  unfold real_faults. simpl. repeat constructor.
Defined.

(** Rewriting the file keeps every line that is not one of the two list
    assignments, in order, and the result holds the current value of both
    lists and no other list assignment. *)
Theorem updated_lines_spec c content :
  other_lines (updated_lines c content) = other_lines (Split content newline) /\
  include_line c ∈ updated_lines c content /\ exclude_line c ∈ updated_lines c content /\
  Forall (fun l => is_list_line l = true -> l = include_line c \/ l = exclude_line c)
         (updated_lines c content).
Proof. apply updated_lines_all. Qed.

(** Lists of plain patterns written to a fresh configuration file are the
    ones read back from it, and nothing else of the configuration changes. *)
Theorem saved_lists_reload `{RE : Regexp} c cfg :
  Forall plain_pattern (UserIncludeList c) -> Forall plain_pattern (UserExcludeList c) ->
  load_lines 0 (generateConfigLines c) cfg =
  Ok (set_UserExcludeList (UserExcludeList c) (set_UserIncludeList (UserIncludeList c) cfg)).
Proof.
  intros Hi He. unfold generateConfigLines, include_line, exclude_line.
  pose proof (list_line_reloads "USER_INCLUDE_LIST" _ (or_introl eq_refl) Hi) as Li.
  pose proof (list_line_reloads "USER_EXCLUDE_LIST" _ (or_intror eq_refl) He) as Le.
  cbn [load_lines]. change (parse_line "# CPU Manager Configuration") with LineSkip. cbv iota.
  change (parse_line ("USER_INCLUDE_LIST=" +:+ Join (UserIncludeList c) ","))
    with (parse_line ("USER_INCLUDE_LIST" +:+ "=" +:+ Join (UserIncludeList c) ",")).
  change (parse_line ("USER_EXCLUDE_LIST=" +:+ Join (UserExcludeList c) ","))
    with (parse_line ("USER_EXCLUDE_LIST" +:+ "=" +:+ Join (UserExcludeList c) ",")).
  rewrite Li, Le. change (parse_line "") with LineSkip. cbv iota.
  rewrite setConfigField_include, setConfigField_exclude by done. done.
Qed.

Lemma saved_lists_reload_witness :
  let c := set_UserExcludeList ["root"; "^svc-"] (set_UserIncludeList ["alice"] (DefaultConfig None)) in
  load_lines 0 (generateConfigLines c) (DefaultConfig None) = Ok c.
Proof.
  apply (saved_lists_reload
           (set_UserExcludeList ["root"; "^svc-"] (set_UserIncludeList ["alice"] (DefaultConfig None)))
           (DefaultConfig None));
    repeat constructor; try done; intros x Hx; simpl in Hx;
    repeat (apply orb_prop in Hx as [->%Ascii.eqb_eq|Hx]; [done|]); done.
Defined.
