(* ===== verification/CgroupBase.v ===== *)
(** * The cgroup manager: state, paths and tracking file
      (cgroup/manager.go, cgroup/storage.go)

    The operations of the manager run in [CG W = ST (Manager * W)], where [W]
    is any world with operating-system calls.  Log calls have no effect and
    are omitted, and so are the pauses that wait for the kernel. *)

From S2P Require Import Prelude GoStrings Config Blackout ConfigLoad OS UserFilter.

#[local] Open Scope Z_scope.

(** ** State *)

Record Manager `{RE : Regexp} := mkManager {
  m_cfg : Config;
  m_regexCache : regexCache;
  createdCgroups : gmap Z string;
  createdCgroupsFile : string;
  controllersAvailable : bool;
  cgroupRootWritable : bool
}.

Section Base.
Context `{RE : Regexp} `{O : OS W}.

Definition CG (A : Type) : Type := ST (Manager * W) A.

(** A call of the operating system. *)
Definition os {A} (m : ST W A) : CG A :=
  fun '(mgr, w) => let '(a, w') := m w in (a, (mgr, w')).

Definition mgr {A} (f : Manager -> A) : CG A := fun s => (f s.1, s).

Definition with_created (f : gmap Z string -> gmap Z string) (m : Manager) : Manager :=
  mkManager _ (m_cfg m) (m_regexCache m) (f (createdCgroups m)) (createdCgroupsFile m)
    (controllersAvailable m) (cgroupRootWritable m).

Definition set_createdCgroups (f : gmap Z string -> gmap Z string) : CG unit :=
  modify (fun '(m, w) => (with_created f m, w)).

Definition set_controllersAvailable (b : bool) : CG unit :=
  modify (fun '(m, w) =>
    (mkManager _ (m_cfg m) (m_regexCache m) (createdCgroups m) (createdCgroupsFile m)
       b (cgroupRootWritable m), w)).

Definition set_cgroupRootWritable (b : bool) : CG unit :=
  modify (fun '(m, w) =>
    (mkManager _ (m_cfg m) (m_regexCache m) (createdCgroups m) (createdCgroupsFile m)
       (controllersAvailable m) b, w)).

(** A filter of the configuration, which may extend its cache. *)
Definition filter_call (f : Config -> ST regexCache bool) : CG bool :=
  fun '(m, w) =>
    let '(b, c) := f (m_cfg m) (m_regexCache m) in
    (b, (mkManager _ (m_cfg m) c (createdCgroups m) (createdCgroupsFile m)
           (controllersAvailable m) (cgroupRootWritable m), w)).

(** ** Paths *)

Definition user_dir (uid : Z) : string := "user_" +:+ Itoa uid.

Definition base_path (c : Config) : string := filepath_Join [CgroupRoot c; CgroupBase c].

Definition getBaseCgroupPath : CG string := mgr (fun m => base_path (m_cfg m)).

Definition getUserCgroupPath (uid : Z) : CG string :=
  mgr (fun m => filepath_Join [base_path (m_cfg m); user_dir uid]).

Definition getCgroupPath (uid : Z) : CG (option string) := mgr (fun m => createdCgroups m !! uid).

(** The keys of the map, in one of the orders the runtime may choose. *)
Definition GetCreatedCgroups : CG (list Z) := mgr (fun m => (map_to_list (createdCgroups m)).*1).

(** ** Tracking file *)

Definition tracking_line (uid : Z) (path : string) : string := Itoa uid +:+ ":" +:+ path.

Definition saveCgroupToFile (uid : Z) (cgroupPath : string) : CG (option error) :=
  mgr createdCgroupsFile ≫= fun file =>
  os (os_AppendFile file (tracking_line uid cgroupPath +:+ String newline "")).

(** The lines [removeCgroupFromFile] keeps. *)
Definition keep_line (uid : Z) (line : string) : bool :=
  if String.eqb line "" then false
  else match SplitN2 line ":" with
       | p :: _ => match Atoi p with Some lineUID => negb (lineUID =? uid) | None => true end
       | [] => false
       end.

Definition removeCgroupFromFile (uid : Z) : CG (option error) :=
  mgr createdCgroupsFile ≫= fun file =>
  os (os_Stat file) ≫= fun st =>
  if is_not_exist st then mret None
  else
    os (os_ReadFile file) ≫= fun r =>
    match r with
    | Err e => mret (Some e)
    | Ok data =>
        let lines := List.filter (keep_line uid) (ScanLines data) in
        os (os_WriteFile file (Join lines (String newline "") +:+ String newline ""))
    end.

Definition tracking_entry (line : string) : option (Z * string) :=
  if String.eqb line "" then None
  else match SplitN2 line ":" with
       | [u; cgroupPath] => match Atoi u with Some uid => Some (uid, cgroupPath) | None => None end
       | _ => None
       end.

Definition load_entry (line : string) : CG unit :=
  match tracking_entry line with
  | None => mret tt
  | Some (uid, cgroupPath) =>
      os (os_Stat cgroupPath) ≫= fun st =>
      match st with
      | None => set_createdCgroups (insert uid cgroupPath)
      | Some _ => mret tt
      end
  end.

Definition loadExistingCgroups : CG (option error) :=
  mgr createdCgroupsFile ≫= fun file =>
  os (os_Stat file) ≫= fun st =>
  if is_not_exist st then mret None
  else
    os (os_ReadFile file) ≫= fun r =>
    match r with
    | Err e => mret (Some e)
    | Ok data => for_each load_entry (ScanLines data) ≫= fun _ => mret None
    end.

(** ** Lists of process identifiers *)

Definition pid_of_line (line : string) : option Z :=
  let pidStr := TrimSpace line in
  if String.eqb pidStr "" then None else Atoi pidStr.

Definition parse_pids (data : string) : list Z := omap pid_of_line (ScanLines data).

Definition readPidsFromFile (filePath : string) : CG (result (list Z)) :=
  os (os_ReadFile filePath) ≫= fun r =>
  mret match r with Err e => Err e | Ok data => Ok (parse_pids data) end.

Definition render_pids (pids : list Z) : string := Join (Itoa <$> pids) (String newline "").

Definition writePidsBatch (filePath : string) (pids : list Z) : CG (option error) :=
  match pids with
  | [] => mret None
  | _ => os (os_WriteFile filePath (render_pids pids))
  end.

(** ** Controllers *)

Definition writeControllerIfMissing (filePath controller : string) : CG (option error) :=
  os (os_ReadFile filePath) ≫= fun r =>
  match r with
  | Err e => mret (Some e)
  | Ok data =>
      if Contains data (match controller with String _ c => c | EmptyString => "" end) then mret None
      else os (os_WriteFile filePath controller)
  end.

Definition enableCPUControllers : CG (option error) :=
  mgr (fun m => filepath_Join [CgroupRoot (m_cfg m); "cgroup.subtree_control"]) ≫= fun f =>
  os (os_WriteFile f "+cpu") ≫= fun e =>
  match e with
  | Some e => mret (Some ("failed to enable cpu controller: " +:+ e))
  | None =>
      os (os_WriteFile f "+cpuset") ≫= fun _ =>
      os (os_WriteFile f "+io") ≫= fun _ =>
      os (os_WriteFile f "+memory") ≫= fun _ =>
      mret None
  end.

(** Fail with [pre] in front of the error, or go on. *)
Definition try_ (pre : string) (m : CG (option error)) (k : CG (option error)) : CG (option error) :=
  m ≫= fun e => match e with Some e => mret (Some (pre +:+ e)) | None => k end.

(** Run and ignore the error, which is only logged. *)
Definition best_effort (b : bool) (m : CG (option error)) : CG unit :=
  if b then m ≫= fun _ => mret tt else mret tt.

Definition controllers_step (root : string) : CG (option error) :=
  let subtreeControlFile := filepath_Join [root; "cgroup.subtree_control"] in
  os (os_ReadFile subtreeControlFile) ≫= fun r =>
  match r with
  | Err e => mret (Some ("failed to read cgroup.subtree_control at " +:+ subtreeControlFile +:+ ": " +:+ e))
  | Ok controllers =>
      let available := Contains controllers "cpu" && Contains controllers "cpuset" in
      set_controllersAvailable available ≫= fun _ =>
      if available then mret None
      else
        try_ ("failed to enable CPU controllers (" +:+ subtreeControlFile +:+ "): ") enableCPUControllers
          (set_controllersAvailable true ≫= fun _ => mret None)
  end.

Definition writable_step (root : string) : CG (option error) :=
  os (os_WriteFile (filepath_Join [root; "cgroup.procs"]) "0") ≫= fun w =>
  match w with
  | Some e =>
      if os_IsPermission e then mret (Some ("no write permission to cgroup root " +:+ root +:+ ": " +:+ e))
      else set_cgroupRootWritable true ≫= fun _ => mret None
  | None => set_cgroupRootWritable true ≫= fun _ => mret None
  end.

Definition base_step (base : string) : CG (option error) :=
  try_ ("failed to create base cgroup directory " +:+ base +:+ ": ") (os (os_MkdirAll base))
   (os (os_Stat (filepath_Join [base; "cgroup.subtree_control"])) ≫= fun st =>
    if is_not_exist st then
      try_ ("failed to remove stale cgroup directory " +:+ base +:+ ": ") (os (os_Remove base))
        (try_ ("failed to recreate base cgroup " +:+ base +:+ ": ") (os (os_Mkdir base)) (mret None))
    else mret None).

Definition base_controllers_step (base controllersData : string) : CG (option error) :=
  let baseSubtreeControl := filepath_Join [base; "cgroup.subtree_control"] in
  try_ ("failed to enable cpu controller in base cgroup " +:+ base +:+ ": ")
    (writeControllerIfMissing baseSubtreeControl "+cpu")
    (try_ ("failed to enable cpuset controller in base cgroup " +:+ base +:+ ": ")
       (writeControllerIfMissing baseSubtreeControl "+cpuset")
       (best_effort (Contains controllersData "io") (writeControllerIfMissing baseSubtreeControl "+io") ≫= fun _ =>
        best_effort (Contains controllersData "memory") (writeControllerIfMissing baseSubtreeControl "+memory") ≫= fun _ =>
        mret None)).

Definition verifyCgroupSetup : CG (option error) :=
  mgr (fun m => CgroupRoot (m_cfg m)) ≫= fun root =>
  os (os_Stat root) ≫= fun st =>
  if is_not_exist st then mret (Some ("cgroup root does not exist: " +:+ root +:+ " (enable cgroups v2 and PSI on Enterprise Linux compatible systems: grubby --update-kernel=ALL --args='systemd.unified_cgroup_hierarchy=1 psi=1')"))
  else
    let controllersFile := filepath_Join [root; "cgroup.controllers"] in
    os (os_ReadFile controllersFile) ≫= fun r =>
    match r with
    | Err e => mret (Some ("cannot read cgroup.controllers at " +:+ controllersFile +:+ ": " +:+ e))
    | Ok controllersData =>
        if negb (Contains controllersData "cpu")
        then mret (Some ("cpu controller not available (available: " +:+ TrimSpace controllersData +:+ ")"))
        else
          try_ "" (controllers_step root)
            (try_ "" (writable_step root)
               (getBaseCgroupPath ≫= fun base =>
                try_ "" (base_step base) (base_controllers_step base controllersData)))
    end.

(** [NewManager]: the error of the setup, or the manager. *)
Definition NewManager (cfg : Config) (w : W) : result Manager * W :=
  let m0 := mkManager _ cfg ∅ ∅ (CreatedCgroupsFile cfg) false false in
  let '(e, (m1, w1)) := verifyCgroupSetup (m0, w) in
  match e with
  | Some e => (Err ("cgroup setup verification failed: " +:+ e), w1)
  | None => let '(_, (m2, w2)) := loadExistingCgroups (m1, w1) in (Ok m2, w2)
  end.

End Base.

(** ** Specification of the tracking file *)

(** The entries a text holds. *)
Definition entries_of (data : string) : list (Z * string) := omap tracking_entry (ScanLines data).

Definition tracked (d : Disk) (file : string) : list (Z * string) :=
  entries_of (default "" (files d !! file)).

Definition clean (s : string) : Prop := mem newline s = false /\ mem "013"%char s = false.

(** The file is a sequence of complete lines. *)
Definition tracking_wf (d : Disk) (file : string) : Prop :=
  exists ls, default "" (files d !! file) = Lines ls /\ Forall clean ls.

Definition not_uid (uid : Z) (e : Z * string) : Prop := e.1 <> uid.

#[export] Instance not_uid_dec uid e : Decision (not_uid uid e).
Proof. unfold not_uid. apply _. Defined.

(** The map obtained by loading the entries whose path exists, in order. *)
Definition load_map (d : Disk) (es : list (Z * string)) (m : gmap Z string) : gmap Z string :=
  foldl (fun acc e => if exists_at e.2 d then <[e.1 := e.2]> acc else acc) m es.

(** ** Lemmas *)

Section CG_rules.
Context `{RE : Regexp} {W : Type}.

Lemma wp_os {A} (m : ST W A) (Q : A -> Manager * W -> Prop) m0 w :
  wp m (fun a w' => Q a (m0, w')) w -> wp (os m) Q (m0, w).
Proof. unfold wp, os. by destruct (m w). Qed.

Lemma wp_mgr {A} (f : Manager -> A) (Q : A -> Manager * W -> Prop) m0 w :
  Q (f m0) (m0, w) -> wp (mgr f) Q (m0, w).
Proof. done. Qed.

End CG_rules.

Lemma tracking_entry_line uid path :
  in_i64 uid -> tracking_entry (tracking_line uid path) = Some (uid, path).
Proof.
  intros H. unfold tracking_entry, tracking_line.
  change (Itoa uid +:+ ":" +:+ path) with (Itoa uid +:+ String ":"%char path).
  destruct (String.eqb _ "") eqn:E.
  { apply String.eqb_eq, append_eq_empty in E as [_ ?]. done. }
  rewrite SplitN2_app by (by apply Itoa_not_mem). by rewrite Atoi_Itoa.
Qed.

Lemma clean_tracking_line uid path : clean path -> clean (tracking_line uid path).
Proof.
  intros [Hn Hc]. unfold clean, tracking_line. rewrite !mem_app, Hn, Hc, !Itoa_not_mem by done. done.
Qed.

Lemma entries_of_Lines ls : Forall clean ls -> entries_of (Lines ls) = omap tracking_entry ls.
Proof. intros H. unfold entries_of. by rewrite ScanLines_Lines. Qed.

Lemma omap_cons {A B} (f : A -> option B) x l :
  omap f (x :: l) = match f x with Some y => y :: omap f l | None => omap f l end.
Proof. done. Qed.

(** A kept line keeps its entry; a dropped line had no entry or one of [uid]. *)
Lemma keep_line_entry uid line :
  match tracking_entry line with
  | Some (u, _) => keep_line uid line = negb (u =? uid)
  | None => True
  end.
Proof.
  unfold tracking_entry, keep_line. destruct (String.eqb line ""); [done|].
  destruct (SplitN2 line ":") as [|a [|b [|]]]; try done. by destruct (Atoi a).
Qed.

Lemma omap_keep uid ls :
  omap tracking_entry (List.filter (keep_line uid) ls) = filter (not_uid uid) (omap tracking_entry ls).
Proof.
  induction ls as [|l ls IH]; [done|]. pose proof (keep_line_entry uid l) as K.
  rewrite omap_cons. cbn [List.filter]. destruct (tracking_entry l) as [[u p]|] eqn:E.
  - rewrite K, filter_cons. destruct (Z.eqb_spec u uid) as [Hu|Hu]; cbn [negb].
    + rewrite decide_False by (intros []; done). done.
    + rewrite decide_True by done. rewrite omap_cons, E. by rewrite IH.
  - destruct (keep_line uid l); [by rewrite omap_cons, E|done].
Qed.

Lemma filter_clean p ls : Forall clean ls -> Forall clean (List.filter p ls).
Proof.
  rewrite !List.Forall_forall. intros H x [Hx _]%List.filter_In. auto.
Qed.

Lemma rewritten_Lines ls :
  exists ls', Join ls (String newline "") +:+ String newline "" = Lines ls' /\
    (Forall clean ls -> Forall clean ls') /\ omap tracking_entry ls' = omap tracking_entry ls.
Proof.
  destruct ls as [|l ls].
  - exists [""]. split; [done|]. split; [|done]. intros _. by repeat constructor.
  - exists (l :: ls). by rewrite Join_Lines.
Qed.

Section Tracking.
Context `{RE : Regexp}.

Lemma load_entry_exec d m0 l :
  faults d = [] ->
  load_entry l (m0, d) =
  (tt, (with_created (fun m => load_map d (omap tracking_entry [l]) m) m0, d)).
Proof.
  intros Hd. unfold load_entry. destruct (tracking_entry l) as [[u p]|] eqn:E.
  - cbn [omap list_omap]. rewrite E. cbn. unfold mbind, ST_bind, os, disk_query, next_fault. rewrite Hd. cbn.
    by destruct (exists_at p d), m0.
  - cbn [omap list_omap]. rewrite E. by destruct m0.
Qed.

Lemma load_entries_exec d ls m0 :
  faults d = [] ->
  for_each load_entry ls (m0, d) =
  (tt, (with_created (fun m => load_map d (omap tracking_entry ls) m) m0, d)).
Proof.
  intros Hd. revert m0. induction ls as [|l ls IH]; intros m0; [by destruct m0|].
  cbn [for_each]. unfold mbind, ST_bind. rewrite load_entry_exec, IH by done.
  f_equal. f_equal. unfold with_created. simpl. f_equal.
  unfold load_map. rewrite <- foldl_app. f_equal.
  by destruct (tracking_entry l).
Qed.

Lemma wp_saveCgroupToFile m0 d uid path :
  real_faults d -> tracking_wf d (createdCgroupsFile m0) -> in_i64 uid -> clean path ->
  wp (saveCgroupToFile uid path)
     (fun r s => r = None -> s.1 = m0 /\ tracking_wf s.2 (createdCgroupsFile m0) /\
        tracked s.2 (createdCgroupsFile m0) = tracked d (createdCgroupsFile m0) ++ [(uid, path)]) (m0, d).
Proof.
  intros Hr (ls & Hls & Hc) Hu Hp. unfold saveCgroupToFile. apply wp_bind, wp_mgr, wp_os, wp_AppendFile; [done|].
  intros r d' Hr' HF Hn. specialize (HF Hn). cbn [fst snd].
  set (file := createdCgroupsFile m0) in *.
  assert (default "" (files d' !! file) = Lines (ls ++ [tracking_line uid path])) as E.
  { rewrite HF, lookup_insert_eq, Hls, Lines_app. done. }
  assert (Forall clean (ls ++ [tracking_line uid path])) as Hc'.
  { apply Forall_app. split; [done|]. apply Forall_singleton. by apply clean_tracking_line. }
  split; [done|]. split; [by exists (ls ++ [tracking_line uid path])|].
  unfold tracked. rewrite E, Hls, !entries_of_Lines by done.
  rewrite omap_app. simpl. by rewrite tracking_entry_line.
Qed.

Lemma wp_removeCgroupFromFile m0 d uid :
  real_faults d -> tracking_wf d (createdCgroupsFile m0) -> files d !! createdCgroupsFile m0 <> None ->
  wp (removeCgroupFromFile uid)
     (fun r s => r = None -> s.1 = m0 /\ tracking_wf s.2 (createdCgroupsFile m0) /\
        tracked s.2 (createdCgroupsFile m0) =
        filter (not_uid uid) (tracked d (createdCgroupsFile m0))) (m0, d).
Proof.
  intros Hr (ls & Hls & Hc) Hex. unfold removeCgroupFromFile.
  set (file := createdCgroupsFile m0) in *.
  apply wp_bind, wp_mgr, wp_bind, wp_os, wp_Stat; [done|]. fold file.
  intros r d1 F1 R1 H1. destruct (is_not_exist r) eqn:E1; [by rewrite H1 in Hex|].
  apply wp_bind, wp_os, wp_ReadFile; [done|]. intros [data|e] d2 F2 R2 H2; [|by apply wp_ret].
  apply wp_os, wp_WriteFile; [done|]. intros w d3 R3 W3 _ Hw. specialize (W3 Hw). cbn [fst snd].
  assert (data = Lines ls) as -> by (rewrite <- Hls, <- F1; by rewrite H2).
  rewrite ScanLines_Lines in W3 by done.
  destruct (rewritten_Lines (List.filter (keep_line uid) ls)) as (ls' & El & Hc' & Ho).
  assert (Forall clean ls') as Hcl by (by apply Hc', filter_clean).
  assert (default "" (files d3 !! file) = Lines ls') as E3 by (by rewrite W3, lookup_insert_eq).
  split; [done|]. split; [by exists ls'|].
  unfold tracked. rewrite E3, Hls, !entries_of_Lines by done. by rewrite Ho, omap_keep.
Qed.

End Tracking.

Lemma parse_render_pids pids : Forall in_i64 pids -> parse_pids (render_pids pids) = pids.
Proof.
  intros H. unfold parse_pids, render_pids. destruct pids as [|p pids]; [done|].
  rewrite ScanLines_Join.
  - induction H as [|x l Hx _ IH]; [done|]. cbn [fmap list_fmap omap list_omap].
    unfold pid_of_line at 1. rewrite TrimSpace_no_space by apply Itoa_no_space.
    rewrite (proj2 (String.eqb_neq _ _)) by apply Itoa_not_empty. rewrite Atoi_Itoa by done.
    f_equal. apply IH.
  - done.
  - apply Forall_fmap, Forall_true. intros x. split_and!; [by apply Itoa_not_mem|by apply Itoa_not_mem|apply Itoa_not_empty].
Qed.

(** ** Properties *)

(** On a disk where any call can fail, a successful append to the tracking
    file adds exactly one entry, the recorded user and path, and keeps the file
    a sequence of complete lines. *)
Theorem saveCgroupToFile_adds `{RE : Regexp} m d uid path :
  real_faults d -> tracking_wf d (createdCgroupsFile m) -> in_i64 uid -> clean path ->
  eval (saveCgroupToFile uid path) (m, d) = None ->
  let d' := (exec (saveCgroupToFile uid path) (m, d)).2 in
  tracking_wf d' (createdCgroupsFile m) /\
  tracked d' (createdCgroupsFile m) = tracked d (createdCgroupsFile m) ++ [(uid, path)].
Proof.
  intros Hr Hwf Hu Hp Hok. by destruct (wp_saveCgroupToFile m d uid path Hr Hwf Hu Hp Hok) as (_ & ? & ?).
Qed.

#[local] Existing Instance literal_regexp.

Definition demo_manager : Manager :=
  mkManager _ (DefaultConfig None) ∅ ∅ "/run/resman-cgroups.txt" true true.

Definition demo_disk : Disk :=
  mkDisk {[ "/run/resman-cgroups.txt" := Lines ["1000:/cg/user_1000"; "1001:/cg/user_1001"] ]}
         {[ "/cg/user_1001" ]} [].

Lemma demo_wf : tracking_wf demo_disk (createdCgroupsFile demo_manager).
Proof. exists ["1000:/cg/user_1000"; "1001:/cg/user_1001"]. split; [reflexivity|]. by repeat constructor. Qed.

Lemma saveCgroupToFile_adds_witness :
  let d' := (exec (saveCgroupToFile 1002 "/cg/user_1002") (demo_manager, demo_disk)).2 in
  tracking_wf d' (createdCgroupsFile demo_manager) /\
  tracked d' (createdCgroupsFile demo_manager) =
    tracked demo_disk (createdCgroupsFile demo_manager) ++ [(1002, "/cg/user_1002")].
Proof.
  apply (saveCgroupToFile_adds demo_manager demo_disk 1002 "/cg/user_1002").
  - constructor.
  - apply demo_wf.
  - unfold in_i64, two63. lia.
  - by split.
  - vm_compute. reflexivity.
Defined.

(** Removing a user from the tracking file drops all of that user's
    entries and no other, whatever the file held. *)
Theorem removeCgroupFromFile_filters `{RE : Regexp} m d uid :
  real_faults d -> tracking_wf d (createdCgroupsFile m) -> files d !! createdCgroupsFile m <> None ->
  eval (removeCgroupFromFile uid) (m, d) = None ->
  let d' := (exec (removeCgroupFromFile uid) (m, d)).2 in
  tracking_wf d' (createdCgroupsFile m) /\
  tracked d' (createdCgroupsFile m) = filter (not_uid uid) (tracked d (createdCgroupsFile m)).
Proof.
  intros Hr Hwf Hex Hok. by destruct (wp_removeCgroupFromFile m d uid Hr Hwf Hex Hok) as (_ & ? & ?).
Qed.

Lemma removeCgroupFromFile_filters_witness :
  let d' := (exec (removeCgroupFromFile 1000) (demo_manager, demo_disk)).2 in
  tracking_wf d' (createdCgroupsFile demo_manager) /\
  tracked d' (createdCgroupsFile demo_manager) =
    filter (not_uid 1000) (tracked demo_disk (createdCgroupsFile demo_manager)).
Proof.
  apply (removeCgroupFromFile_filters demo_manager demo_disk 1000).
  - constructor.
  - apply demo_wf.
  - vm_compute. discriminate.
  - vm_compute. reflexivity.
Defined.

(** After a restart the manager knows exactly the recorded cgroups whose
    directory still exists, the last entry of a user winning. *)
Theorem loadExistingCgroups_loads `{RE : Regexp} m d :
  faults d = [] ->
  createdCgroups (exec loadExistingCgroups (m, d)).1 =
  load_map d (tracked d (createdCgroupsFile m)) (createdCgroups m).
Proof.
  intros Hd. unfold exec, loadExistingCgroups, tracked, entries_of, mbind, ST_bind, os, mgr. cbn.
  unfold disk_query, next_fault. rewrite Hd. cbn. unfold exists_at.
  destruct (files d !! createdCgroupsFile m) as [data|] eqn:E; cbn.
  - rewrite Hd, E. cbn. by rewrite load_entries_exec.
  - case_bool_decide; cbn; [by rewrite Hd, E|done].
Qed.

Lemma loadExistingCgroups_loads_witness :
  createdCgroups (exec loadExistingCgroups (demo_manager, demo_disk)).1 =
    load_map demo_disk (tracked demo_disk (createdCgroupsFile demo_manager)) ∅ /\
  createdCgroups (exec loadExistingCgroups (demo_manager, demo_disk)).1 = {[ 1001 := "/cg/user_1001" ]}.
Proof.
  split; [|vm_compute; reflexivity].
  apply (loadExistingCgroups_loads demo_manager demo_disk). reflexivity.
Defined.

(** A batch of process identifiers written to a [cgroup.procs] file is
    read back unchanged. *)
Theorem pids_roundtrip pids :
  Forall in_i64 pids -> parse_pids (render_pids pids) = pids.
Proof. apply parse_render_pids. Qed.

Lemma pids_roundtrip_witness : parse_pids (render_pids [1; 4711; -3]) = [1; 4711; -3].
Proof. apply (pids_roundtrip [1; 4711; -3]). repeat constructor; unfold two63; lia. Defined.
