(* ===== verification/CgroupProcess.v ===== *)
(** * Processes and the shared cgroup
      (cgroup/process.go, cgroup/shared.go, cgroup/cpu.go: [CreateUserCgroup])

    Names, owners and moves of processes, and the hierarchy
    <base>/limited/user_<uid> that holds the limited users.  The process table
    of gopsutil and the user database are the interface [Processes]. *)

From S2P Require Import Prelude GoStrings Config Blackout ConfigLoad OS UserFilter CgroupBase.

#[local] Open Scope Z_scope.

(** [process.Processes], [Process.Uids] and [user.LookupId]. *)
Class Processes (W : Type) := {
  process_Processes : ST W (result (list Z));
  process_Uids : Z -> ST W (result (list Z));
  user_LookupId : string -> ST W (result string)
}.

Section Process.
Context `{RE : Regexp} `{O : OS W} `{P : Processes W}.

(** ** Creating a user's cgroup *)

Definition CreateUserCgroup (uid : Z) : CG (option error) :=
  getCgroupPath uid ≫= fun known =>
  match known with
  | Some _ => mret None
  | None =>
      getUserCgroupPath uid ≫= fun cgroupPath =>
      os (os_MkdirAll cgroupPath) ≫= fun e =>
      match e with
      | Some e => mret (Some ("failed to create cgroup directory " +:+ cgroupPath +:+ " for UID " +:+ Itoa uid +:+ ": " +:+ e))
      | None =>
          set_createdCgroups (insert uid cgroupPath) ≫= fun _ =>
          saveCgroupToFile uid cgroupPath ≫= fun _ => mret None
      end
  end.

(** ** Process information *)

Definition uid_field (line : string) : option string :=
  match Fields line with _ :: u :: _ => Some u | _ => None end.

(** The first line of a status file that starts with "Uid:". *)
Fixpoint first_uid_line (lines : list string) : option string :=
  match lines with
  | [] => None
  | l :: rest => if HasPrefix l "Uid:" then Some l else first_uid_line rest
  end.

Definition proc_file (pid : Z) (name : string) : string := "/proc/" +:+ Itoa pid +:+ "/" +:+ name.

Definition nul_to_space (s : string) : string :=
  map_bytes (fun c => if Ascii.eqb c "000"%char then " "%char else c) s.

Definition info_cmdline (pid : Z) (info : gmap string string) : CG (gmap string string) :=
  os (os_ReadFile (proc_file pid "cmdline")) ≫= fun r =>
  mret match r with
       | Err _ => info
       | Ok data =>
           let cmdline := TrimSpace (nul_to_space data) in
           if String.eqb cmdline "" then info else <["cmdline" := cmdline]> info
       end.

Definition info_username (pid : Z) (info : gmap string string) : CG (gmap string string) :=
  os (os_ReadFile (proc_file pid "status")) ≫= fun r =>
  match r with
  | Err _ => mret info
  | Ok data =>
      match from_option uid_field None (first_uid_line (Split data newline)) with
      | None => mret info
      | Some uidStr =>
          os (user_LookupId uidStr) ≫= fun u =>
          mret (<["username" := match u with Ok name => name | Err _ => uidStr end]> info)
      end
  end.

Definition info_state (pid : Z) (info : gmap string string) : CG (gmap string string) :=
  os (os_ReadFile (proc_file pid "stat")) ≫= fun r =>
  mret match r with
       | Err _ => info
       | Ok data =>
           let fields := Fields data in
           if (13 <? length fields)%nat then <["state" := default "" (fields !! 2%nat)]> info else info
       end.

Definition getProcessInfo (pid : Z) : CG (gmap string string) :=
  os (os_ReadFile (proc_file pid "comm")) ≫= fun r =>
  let name := match r with Ok data => TrimSpace data | Err _ => "unknown" end in
  info_cmdline pid {[ "name" := name ]} ≫= fun info =>
  info_username pid info ≫= fun info =>
  info_state pid info.

Definition bracketed (name : string) (pid : Z) : string := name +:+ "[" +:+ Itoa pid +:+ "]".

Definition comm_name (info : gmap string string) (pid : Z) : string :=
  let name := default "" (info !! "name") in
  if String.eqb name "" then "PID-" +:+ Itoa pid else bracketed name pid.

Definition getProcessName (pid : Z) : CG string :=
  getProcessInfo pid ≫= fun info =>
  let cmdline := default "" (info !! "cmdline") in
  mret (if negb (String.eqb cmdline "") && (String.length cmdline <? 100)%nat then
          match Fields cmdline with
          | cmd :: _ => bracketed (filepath_Base cmd) pid
          | [] => comm_name info pid
          end
        else comm_name info pid).

Fixpoint scan_uid (lines : list string) : result Z :=
  match lines with
  | [] => Err "UID not found in status file"
  | line :: rest =>
      if HasPrefix line "Uid:" then
        match uid_field line with
        | Some u => AtoiE u
        | None => scan_uid rest
        end
      else scan_uid rest
  end.

Definition getUIDFromStatusFile (statusFile : string) : CG (result Z) :=
  os (os_ReadFile statusFile) ≫= fun r =>
  mret match r with Err e => Err e | Ok data => scan_uid (ScanLines data) end.

(** ** Moving processes *)

Definition write_pid (dir : string) (pid : Z) (context : string) : CG (option error) :=
  os (os_WriteFile (filepath_Join [dir; "cgroup.procs"]) (Itoa pid)) ≫= fun e =>
  mret (match e with Some e => Some (context +:+ e) | None => None end).

Definition MoveProcessToCgroup (pid uid : Z) : CG (option error) :=
  if uid =? 0 then mret (Some "processes cannot be moved to UID 0 (root) cgroups")
  else
    getCgroupPath uid ≫= fun known =>
    match known with
    | None => mret (Some ("cgroup for UID " +:+ Itoa uid +:+ " does not exist"))
    | Some cgroupPath =>
        getProcessName pid ≫= fun _ =>
        getProcessInfo pid ≫= fun _ =>
        write_pid cgroupPath pid
          ("failed to move PID " +:+ Itoa pid +:+ " to cgroup for UID " +:+ Itoa uid +:+ ": ")
    end.

Definition CreateUserSubCgroup (uid : Z) (sharedPath : string) : CG (result string) :=
  let userPath := filepath_Join [sharedPath; user_dir uid] in
  os (os_MkdirAll userPath) ≫= fun e =>
  match e with
  | Some e => mret (Err ("failed to create user sub-cgroup directory: " +:+ e))
  | None =>
      os (os_WriteFile (filepath_Join [userPath; "cpu.weight"]) "100") ≫= fun _ =>
      mret (Ok userPath)
  end.

Definition MoveProcessToSharedCgroup (pid : Z) (sharedPath : string) (uid : Z) : CG (option error) :=
  let userPath := filepath_Join [sharedPath; user_dir uid] in
  let move := write_pid userPath pid
    ("failed to move PID " +:+ Itoa pid +:+ " to shared cgroup for UID " +:+ Itoa uid +:+ ": ") in
  os (os_Stat userPath) ≫= fun st =>
  if is_not_exist st then
    CreateUserSubCgroup uid sharedPath ≫= fun r =>
    match r with
    | Err e => mret (Some ("failed to create user sub-cgroup: " +:+ e))
    | Ok _ => move
    end
  else move.

(** One process of the table: moved when it belongs to [uid] and is not
    excluded; the accumulator counts the errors. *)
Definition move_if_owned (uid : Z) (move : Z -> CG (option error)) (errors : Z) (pid : Z) : CG Z :=
  os (process_Uids pid) ≫= fun uids =>
  match uids with
  | Ok (u :: _) =>
      if negb (u =? uid) then mret errors
      else
        getProcessName pid ≫= fun processName =>
        filter_call (fun c => IsProcessExcluded c processName) ≫= fun excluded =>
        if excluded : bool then mret errors
        else move pid ≫= fun e => mret (if e is Some _ then errors + 1 else errors)
  | _ => mret errors
  end.

(** One entry of /proc. *)
Definition move_if_status (uid : Z) (move : Z -> CG (option error)) (errors : Z)
    (entry : string * bool) : CG Z :=
  let '(name, is_dir) := entry in
  if negb is_dir then mret errors
  else match Atoi name with
       | None => mret errors
       | Some pid =>
           getUIDFromStatusFile (filepath_Join ["/proc"; name; "status"]) ≫= fun r =>
           match r with
           | Ok procUID =>
               if negb (procUID =? uid) then mret errors
               else
                 getProcessName pid ≫= fun processName =>
                 filter_call (fun c => IsProcessExcluded c processName) ≫= fun excluded =>
                 if excluded : bool then mret errors
                 else move pid ≫= fun e => mret (if e is Some _ then errors + 1 else errors)
           | Err _ => mret errors
           end
       end.

Definition moved_result (errors : Z) : option error :=
  if errors >? 0 then Some ("some processes could not be moved: " +:+ Itoa errors +:+ " errors") else None.

Definition move_fallback (uid : Z) (move : Z -> CG (option error)) : CG (option error) :=
  os (os_ReadDir "/proc") ≫= fun r =>
  match r with
  | Err e => mret (Some ("failed to read /proc: " +:+ e))
  | Ok entries =>
      fold_st (move_if_status uid move) 0 entries ≫= fun errors => mret (moved_result errors)
  end.

Definition move_all (uid : Z) (move : Z -> CG (option error)) : CG (option error) :=
  os process_Processes ≫= fun r =>
  match r with
  | Err _ => move_fallback uid move
  | Ok procs =>
      fold_st (move_if_owned uid move) 0 procs ≫= fun errors => mret (moved_result errors)
  end.

Definition moveAllUserProcessesFallback (uid : Z) : CG (option error) :=
  move_fallback uid (fun pid => MoveProcessToCgroup pid uid).

Definition MoveAllUserProcesses (uid : Z) : CG (option error) :=
  if uid =? 0 then mret (Some "UID 0 (root) processes cannot be moved to user cgroups")
  else move_all uid (fun pid => MoveProcessToCgroup pid uid).

Definition moveAllUserProcessesToSharedCgroupFallback (uid : Z) (sharedPath : string) : CG (option error) :=
  move_fallback uid (fun pid => MoveProcessToSharedCgroup pid sharedPath uid).

Definition MoveAllUserProcessesToSharedCgroup (uid : Z) (sharedPath : string) : CG (option error) :=
  move_all uid (fun pid => MoveProcessToSharedCgroup pid sharedPath uid).

Definition ListProcessesInCgroup (uid : Z) : CG (result (list string)) :=
  getCgroupPath uid ≫= fun known =>
  match known with
  | None => mret (Err ("cgroup for UID " +:+ Itoa uid +:+ " not found"))
  | Some cgroupPath =>
      readPidsFromFile (filepath_Join [cgroupPath; "cgroup.procs"]) ≫= fun r =>
      match r with
      | Err e => mret (Err e)
      | Ok pids =>
          fold_st (fun acc pid => getProcessName pid ≫= fun n => mret (acc ++ [bracketed n pid])) [] pids
            ≫= fun l => mret (Ok l)
      end
  end.

(** ** The shared cgroup *)

(** Empty and remove a shared cgroup left from an earlier activation. *)
Definition remove_old_shared (sharedPath : string) : CG unit :=
  readPidsFromFile (filepath_Join [sharedPath; "cgroup.procs"]) ≫= fun r =>
  mgr (fun m => filepath_Join [CgroupRoot (m_cfg m); "cgroup.procs"]) ≫= fun rootCgroupProcs =>
  for_each (fun pid => os (os_WriteFile rootCgroupProcs (Itoa pid)) ≫= fun _ => mret tt)
    (match r with Ok pids => pids | Err _ => [] end) ≫= fun _ =>
  os (os_RemoveAll sharedPath) ≫= fun _ => mret tt.

Definition CreateSharedCgroup : CG (result string) :=
  getBaseCgroupPath ≫= fun base =>
  let sharedPath := filepath_Join [base; "limited"] in
  os (os_Stat sharedPath) ≫= fun st =>
  when (negb (isSome st)) (remove_old_shared sharedPath) ≫= fun _ =>
  os (os_MkdirAll sharedPath) ≫= fun e =>
  match e with
  | Some e => mret (Err ("failed to create shared cgroup directory: " +:+ e))
  | None =>
      let subtreeControl := filepath_Join [sharedPath; "cgroup.subtree_control"] in
      os (os_ReadFile (filepath_Join [sharedPath; "cgroup.controllers"])) ≫= fun c =>
      let has name := match c with Ok data => Contains data name | Err _ => false end in
      best_effort true (writeControllerIfMissing subtreeControl "+cpu") ≫= fun _ =>
      best_effort true (writeControllerIfMissing subtreeControl "+cpuset") ≫= fun _ =>
      best_effort (has "io") (writeControllerIfMissing subtreeControl "+io") ≫= fun _ =>
      best_effort (has "memory") (writeControllerIfMissing subtreeControl "+memory") ≫= fun _ =>
      mret (Ok sharedPath)
  end.

Definition isValidCPUQuotaFormat (quota : string) : bool :=
  match Fields quota with
  | [a; b] =>
      if String.eqb a "max" then isSome (Atoi b)
      else isSome (Atoi a) && isSome (Atoi b)
  | _ => false
  end.

Definition ApplySharedCPULimit (sharedPath quota : string) : CG (option error) :=
  if negb (isValidCPUQuotaFormat quota) then mret (Some ("invalid CPU quota format: " +:+ quota))
  else
    os (os_WriteFile (filepath_Join [sharedPath; "cpu.max"]) quota) ≫= fun e =>
    mret (match e with Some e => Some ("failed to apply shared CPU limit: " +:+ e) | None => None end).

Definition ReleaseUserFromSharedCgroup (uid : Z) (sharedPath : string) : CG (option error) :=
  let userPath := filepath_Join [sharedPath; user_dir uid] in
  os (os_Stat userPath) ≫= fun st =>
  if is_not_exist st then mret None
  else
    readPidsFromFile (filepath_Join [userPath; "cgroup.procs"]) ≫= fun r =>
    match r with
    | Err e => mret (Some ("failed to read user shared cgroup processes for UID " +:+ Itoa uid +:+ ": " +:+ e))
    | Ok pids =>
        mgr (fun m => filepath_Join [CgroupRoot (m_cfg m); "cgroup.procs"]) ≫= fun rootCgroupProcs =>
        writePidsBatch rootCgroupProcs pids ≫= fun w =>
        match w with
        | Some e => mret (Some ("failed to move processes out of shared cgroup for UID " +:+ Itoa uid +:+ ": " +:+ e))
        | None =>
            os (os_Remove userPath) ≫= fun rm =>
            mret (match rm with
                  | Some e => Some ("failed to remove user shared cgroup for UID " +:+ Itoa uid +:+ ": " +:+ e)
                  | None => None
                  end)
        end
    end.

End Process.

(** ** A world that records its writes

    A disk, a process table and the log of every file write issued. *)

Record Box := mkBox { box_disk : Disk; box_table : list (Z * Z); box_log : list (string * string) }.

Definition on_disk {A} (m : ST Disk A) : ST Box A :=
  fun b => let '(a, d) := m (box_disk b) in (a, mkBox d (box_table b) (box_log b)).

Definition log_write (path data : string) (b : Box) : Box :=
  mkBox (box_disk b) (box_table b) (box_log b ++ [(path, data)]).

Fixpoint owner_in (table : list (Z * Z)) (pid : Z) : option Z :=
  match table with
  | [] => None
  | (p, u) :: rest => if p =? pid then Some u else owner_in rest pid
  end.

#[export] Instance box_os : OS Box := {|
  os_ReadFile path := on_disk (os_ReadFile path);
  os_WriteFile path c := fun b => on_disk (os_WriteFile path c) (log_write path c b);
  os_AppendFile path c := on_disk (os_AppendFile path c);
  os_Stat path := on_disk (os_Stat path);
  os_ReadDir path := on_disk (os_ReadDir path);
  os_Mkdir path := on_disk (os_Mkdir path);
  os_MkdirAll path := on_disk (os_MkdirAll path);
  os_Remove path := on_disk (os_Remove path);
  os_RemoveAll path := on_disk (os_RemoveAll path);
  os_Rename old new := on_disk (os_Rename old new);
  os_Chmod path := on_disk (os_Chmod path)
|}.

#[export] Instance box_processes : Processes Box := {|
  process_Processes := gets (fun b => Ok (box_table b).*1);
  process_Uids pid := gets (fun b =>
    match owner_in (box_table b) pid with Some u => Ok [u; u; u; u] | None => Err "no such process" end);
  user_LookupId _ := mret (Err "unknown userid")
|}.

(** ** Lemmas *)

Section Names.
Context `{RE : Regexp} `{O : OS W} `{P : Processes W}.

(** Every name carries the identifier of the process. *)
Definition process_name (pid : Z) (n : string) : Prop :=
  (exists x, n = bracketed x pid) \/ n = "PID-" +:+ Itoa pid.

Lemma comm_name_shape info pid : process_name pid (comm_name info pid).
Proof.
  unfold comm_name. destruct (String.eqb _ ""); [by right|]. left. by eexists.
Qed.

(** The configuration is not changed by the calls of the world. *)
Definition keeps_mgr {A} (m : CG A) : Prop := forall s : Manager * W, (m s).2.1 = s.1.

Lemma mgr_keeps_bind {A B} (m : CG A) (f : A -> CG B) :
  keeps_mgr m -> (forall a, keeps_mgr (f a)) -> keeps_mgr (m ≫= f).
Proof.
  intros Hm Hf s. unfold mbind, ST_bind. specialize (Hm s). destruct (m s) as [a s'].
  simpl in *. by rewrite Hf.
Qed.

Lemma keeps_os {A} (m : ST W A) : keeps_mgr (os m).
Proof. intros [m0 w]. unfold os. by destruct (m w). Qed.

Lemma keeps_ret {A} (a : A) : keeps_mgr (mret a).
Proof. by intros s. Qed.

Ltac keeps :=
  repeat first
    [ apply keeps_os | apply keeps_ret | apply mgr_keeps_bind; [|intros ?]
    | match goal with |- keeps_mgr (match ?x with _ => _ end) => destruct x end ].

Lemma getProcessName_keeps pid : keeps_mgr (getProcessName pid).
Proof.
  unfold getProcessName, getProcessInfo, info_cmdline, info_username, info_state. keeps.
Qed.

Lemma wp_getProcessName pid (Q : string -> Manager * W -> Prop) s :
  (forall n w, process_name pid n -> Q n (s.1, w)) -> wp (getProcessName pid) Q s.
Proof.
  intros HQ. pose proof (getProcessName_keeps pid s) as K.
  assert (process_name pid (getProcessName pid s).1) as N.
  { unfold getProcessName, mbind, ST_bind. destruct (getProcessInfo pid s) as [info s']. simpl.
    case_match; [|apply comm_name_shape]. case_match; [apply comm_name_shape|]. left. by eexists. }
  unfold wp. destruct (getProcessName pid s) as [n [m w]]. simpl in *. subst m. by apply HQ.
Qed.

Lemma wp_filter_call (f : Config -> ST regexCache bool) (Q : bool -> Manager * W -> Prop) m w :
  wp (f (m_cfg m)) (fun b c => Q b (mkManager _ (m_cfg m) c (createdCgroups m) (createdCgroupsFile m)
                                      (controllersAvailable m) (cgroupRootWritable m), w)) (m_regexCache m) ->
  wp (filter_call f) Q (m, w).
Proof. unfold wp, filter_call. by destruct (f (m_cfg m) (m_regexCache m)). Qed.

End Names.

(** A name never equals a word without a bracket that does not start with
    "PID-". *)
Lemma process_name_not_plain pid n :
  process_name pid n -> mem "["%char n = false -> HasPrefix n "PID-" = true.
Proof.
  intros [[x ->] | ->] Hm; [|by rewrite HasPrefix_app].
  unfold bracketed in Hm. rewrite !mem_app in Hm. simpl in Hm. by rewrite orb_true_r in Hm.
Qed.

Section Box_moves.
Context `{RE : Regexp}.

(** Operations that write no file. *)
Definition quiet {A} (m : CG (W := Box) A) : Prop :=
  forall s : Manager * Box, box_log (m s).2.2 = box_log s.2 /\ box_table (m s).2.2 = box_table s.2.

Lemma os_quiet_ret {A} (a : A) : quiet (mret a).
Proof. by intros s. Qed.

Lemma os_quiet_bind {A B} (m : CG A) (f : A -> CG B) :
  quiet m -> (forall a, quiet (f a)) -> quiet (m ≫= f).
Proof.
  intros Hm Hf s. unfold mbind, ST_bind. destruct (Hm s) as [H1 H2]. destruct (m s) as [a s'].
  destruct (Hf a s') as [H3 H4]. simpl in *. split; congruence.
Qed.

Lemma quiet_disk {A} (m : ST Disk A) : quiet (os (on_disk m)).
Proof. intros [m0 b]. unfold os, on_disk. by destruct (m (box_disk b)). Qed.

Lemma quiet_gets {A} (f : Box -> A) : quiet (os (gets f)).
Proof. by intros [m b]. Qed.

Lemma quiet_os_ret {A} (a : A) : quiet (os (mret a)).
Proof. by intros [m b]. Qed.

Lemma quiet_filter f : quiet (filter_call f).
Proof. intros [m b]. unfold filter_call. by destruct (f _ _). Qed.

Lemma getProcessName_quiet pid : quiet (getProcessName pid).
Proof.
  unfold getProcessName, getProcessInfo, info_cmdline, info_username, info_state.
  repeat first
    [ apply quiet_disk | apply os_quiet_ret | apply quiet_os_ret | apply os_quiet_bind; [|intros ?]
    | match goal with |- quiet (match ?x with _ => _ end) => destruct x end ].
Qed.

(** The writes a move of [uid]'s processes into [userPath] may issue. *)
Definition allowed_write (table : list (Z * Z)) (uid : Z) (userPath : string) (w : string * string) : Prop :=
  (exists pid, owner_in table pid = Some uid /\ w = (filepath_Join [userPath; "cgroup.procs"], Itoa pid)) \/
  w = (filepath_Join [userPath; "cpu.weight"], "100").

Definition moved (b0 : Box) (uid : Z) (userPath : string) (s : Manager * Box) : Prop :=
  box_table s.2 = box_table b0 /\
  exists new, box_log s.2 = box_log b0 ++ new /\ Forall (allowed_write (box_table b0) uid userPath) new.

Lemma moved_quiet {A} (m : CG A) b0 uid path s :
  quiet m -> moved b0 uid path s -> wp m (fun _ s' => moved b0 uid path s') s.
Proof.
  intros Hq (Ht & new & Hl & Hn). unfold wp, moved. destruct (Hq s) as [-> ->].
  split; [done|]. by exists new.
Qed.

Lemma moved_write b0 uid path s p c :
  allowed_write (box_table b0) uid path (p, c) -> moved b0 uid path s ->
  wp (os (os_WriteFile p c)) (fun _ s' => moved b0 uid path s') s.
Proof.
  intros Ha (Ht & new & Hl & Hn). destruct s as [m b]. apply wp_os. unfold wp.
  cbn [os_WriteFile box_os]. unfold on_disk.
  destruct (@os_WriteFile Disk _ p c (box_disk (log_write p c b))) as [r d]. simpl in *. split; [done|].
  exists (new ++ [(p, c)]). rewrite Hl, app_assoc. split; [done|]. apply Forall_app. by split; [|constructor].
Qed.

Lemma wp_move_shared b0 uid sharedPath pid s :
  owner_in (box_table b0) pid = Some uid ->
  moved b0 uid (filepath_Join [sharedPath; user_dir uid]) s ->
  wp (MoveProcessToSharedCgroup pid sharedPath uid)
     (fun _ s' => moved b0 uid (filepath_Join [sharedPath; user_dir uid]) s') s.
Proof.
  intros Ho Hs. set (userPath := filepath_Join [sharedPath; user_dir uid]) in *.
  assert (forall ctx s, moved b0 uid userPath s ->
    wp (write_pid userPath pid ctx) (fun _ s' => moved b0 uid userPath s') s) as Hw.
  { intros ctx s0 H0. unfold write_pid. apply wp_bind. eapply wp_mono; [|eapply moved_write; [|exact H0]].
    - intros e s' H'. by apply wp_ret.
    - left. by exists pid. }
  unfold MoveProcessToSharedCgroup. fold userPath. apply wp_bind.
  eapply wp_mono; [|apply moved_quiet; [apply quiet_disk|exact Hs]]. intros st s1 H1.
  destruct (is_not_exist st); [|by apply Hw]. unfold CreateUserSubCgroup. fold userPath.
  apply wp_bind, wp_bind. eapply wp_mono; [|apply moved_quiet; [apply quiet_disk|exact H1]].
  intros [e|] s2 H2; [by do 2 apply wp_ret|]. apply wp_bind.
  eapply wp_mono; [|eapply moved_write; [by right|exact H2]]. intros e s3 H3.
  apply wp_ret. by apply Hw.
Qed.

Lemma wp_move_if_owned b0 uid path move errors pid s :
  (forall s, owner_in (box_table b0) pid = Some uid -> moved b0 uid path s ->
     wp (move pid) (fun _ s' => moved b0 uid path s') s) ->
  moved b0 uid path s ->
  wp (move_if_owned uid move errors pid) (fun _ s' => moved b0 uid path s') s.
Proof.
  intros Hm Hs. unfold move_if_owned. destruct s as [m b]. apply wp_bind, wp_os, wp_gets.
  destruct Hs as [Ht Hs]. simpl in Ht. rewrite Ht.
  destruct (owner_in (box_table b0) pid) as [u|] eqn:Ho; [|by apply wp_ret].
  destruct (negb (u =? uid)) eqn:Eu; [by apply wp_ret|].
  apply negb_false_iff, Z.eqb_eq in Eu as ->.
  apply wp_bind. eapply wp_mono; [|apply moved_quiet; [apply getProcessName_quiet|by split]].
  intros n s1 H1. apply wp_bind. eapply wp_mono; [|apply moved_quiet; [apply quiet_filter|exact H1]].
  intros [] s2 H2; [by apply wp_ret|]. apply wp_bind. eapply wp_mono; [|by apply Hm].
  intros e s3 H3. by apply wp_ret.
Qed.

Lemma wp_MoveAllShared m b uid sharedPath :
  wp (MoveAllUserProcessesToSharedCgroup uid sharedPath)
     (fun _ s' => moved b uid (filepath_Join [sharedPath; user_dir uid]) s') (m, b).
Proof.
  unfold MoveAllUserProcessesToSharedCgroup, move_all. apply wp_bind, wp_os, wp_gets.
  apply wp_bind. eapply (wp_fold_st (fun _ s => moved b uid _ s)).
  - split; [done|]. exists []. by rewrite app_nil_r.
  - intros e pid s _ Hs. apply wp_move_if_owned; [|done]. intros s0 Ho. by apply wp_move_shared.
  - intros e s Hs. by apply wp_ret.
Qed.

End Box_moves.

(** A quota the configuration accepts is one the cgroup layer accepts. *)
Lemma quota_valid_format q : isValidCPUQuota q = true -> isValidCPUQuotaFormat q = true.
Proof.
  unfold isValidCPUQuota, isValidCPUQuotaFormat. intros H.
  destruct (Split q " ") as [|a [|b [|]]] eqn:E; try done.
  apply Split_spec2 in E as (-> & _ & _).
  assert (no_space a /\ a <> "" /\ no_space b /\ b <> "") as (Ha & Ha' & Hb & Hb').
  { destruct (String.eqb a "max") eqn:Em.
    - apply String.eqb_eq in Em as ->. destruct (Atoi b) as [v|] eqn:Eb; [|done].
      apply Atoi_word in Eb as [? ?]. split_and!; try done. by apply no_spaceb_ok.
    - apply andb_true_iff in H as [H1 H2].
      destruct (Atoi a) eqn:Ea; [|done]. destruct (Atoi b) eqn:Eb; [|done].
      apply Atoi_word in Ea as [? ?]. by apply Atoi_word in Eb as [? ?]. }
  by rewrite Fields_two.
Qed.

(** ** Properties *)


(** The documented meaning of an anchored pattern of plain characters. *)
Definition anchored `{RE : Regexp} : Prop :=
  forall w s, mem "["%char w = false -> HasPrefix w "PID-" = false ->
    pattern_matches s ("^" +:+ w +:+ "$") = true -> s = w.

(** With the default exclusion list (anchored names such as "^systemd$")
    no process is ever excluded: the names the filter is asked about carry the
    process identifier, "systemd[1]". *)
Theorem default_exclusions_void `{RE : Regexp} `{O : OS W} `{P : Processes W} pid m (w : W) :
  anchored -> cache_ok (m_regexCache m) ->
  ProcessExcludeList (m_cfg m) = ProcessExcludeList (DefaultConfig None) ->
  wp (getProcessName pid ≫= fun n => filter_call (fun c => IsProcessExcluded c n))
     (fun excluded _ => excluded = false) (m, w).
Proof.
  intros Ha Hc Hl. apply wp_bind, wp_getProcessName. intros n w' Hn. apply wp_filter_call.
  unfold IsProcessExcluded. simpl fst. rewrite Hl. unfold excluded_by. cbn [DefaultConfig ProcessExcludeList].
  eapply wp_mono; [|by apply wp_matches_any]. intros b c [-> _].
  assert (forall p, mem "["%char p = false -> HasPrefix p "PID-" = false ->
            pattern_matches n ("^" +:+ p +:+ "$") = false) as K.
  { intros p Hp1 Hp2. apply not_true_iff_false. intros ->%Ha; [|done|done].
    by rewrite (process_name_not_plain pid p Hn Hp1) in Hp2. }
  pose proof (K "systemd" eq_refl eq_refl : pattern_matches n "^systemd$" = false) as K1.
  pose proof (K "dbus-daemon" eq_refl eq_refl : pattern_matches n "^dbus-daemon$" = false) as K2.
  pose proof (K "dbus-broker" eq_refl eq_refl : pattern_matches n "^dbus-broker$" = false) as K3.
  pose proof (K "polkitd" eq_refl eq_refl : pattern_matches n "^polkitd$" = false) as K4.
  cbn [existsb]. by rewrite K1, K2, K3, K4.
Qed.

(** An engine for anchored words, on a machine where process 1 is systemd. *)
Definition word_regexp : Regexp :=
  {| regex := string; regexp_Compile := Ok; MatchString := fun r s => String.eqb r ("^" +:+ s +:+ "$") |}.

Definition systemd_box : Box :=
  mkBox (mkDisk {[ "/proc/1/comm" := "systemd"; "/proc/1/cmdline" := "/usr/lib/systemd/systemd" ]} ∅ [])
        [(1, 0)] [].

Lemma word_regexp_anchored : @anchored word_regexp.
Proof.
  intros w s _ _ H. unfold pattern_matches in H. simpl in H. apply String.eqb_eq in H.
  change (w +:+ String "$"%char "" = s +:+ String "$"%char "") in H.
  apply (f_equal drop_last) in H. by rewrite !drop_last_snoc in H.
Qed.

Lemma default_exclusions_void_witness :
  let m := @mkManager word_regexp (DefaultConfig None) ∅ ∅ "" true true in
  eval (@getProcessName word_regexp Box _ _ 1) (m, systemd_box) = "systemd[1]" /\
  wp (@getProcessName word_regexp Box _ _ 1 ≫= fun n =>
        @filter_call word_regexp Box (fun c => @IsProcessExcluded word_regexp c n))
     (fun excluded _ => excluded = false) (m, systemd_box).
Proof.
  split; [vm_compute; reflexivity|].
  apply (@default_exclusions_void word_regexp Box _ _ 1
           (@mkManager word_regexp (DefaultConfig None) ∅ ∅ "" true true) systemd_box).
  - apply word_regexp_anchored.
  - apply cache_ok_empty.
  - reflexivity.
Defined.

(** Every CPU quota the configuration validation accepts is accepted by
    the cgroup layer, whose parser splits on any white space. *)
Theorem valid_quota_accepted q :
  isValidCPUQuota q = true -> isValidCPUQuotaFormat q = true.
Proof. apply quota_valid_format. Qed.

Lemma valid_quota_accepted_witness : isValidCPUQuotaFormat "50000 100000" = true.
Proof. apply (valid_quota_accepted "50000 100000"). vm_compute. reflexivity. Defined.

(** Creating a user's cgroup, on any operating system: without an error
    the user is tracked, with one the tracking is unchanged, and no other user
    is affected either way. *)
Theorem CreateUserCgroup_tracks `{RE : Regexp} `{O : OS W} m (w : W) uid :
  let r := eval (CreateUserCgroup uid) (m, w) in
  let m' := (exec (CreateUserCgroup uid) (m, w)).1 in
  createdCgroups m' =
  match createdCgroups m !! uid, r with
  | None, None => <[uid := filepath_Join [base_path (m_cfg m); user_dir uid]]> (createdCgroups m)
  | _, _ => createdCgroups m
  end.
Proof.
  apply (wp_bind (getCgroupPath uid) _ (fun r s' => createdCgroups s'.1 =
    match createdCgroups m !! uid, r with
    | None, None => <[uid := filepath_Join [base_path (m_cfg m); user_dir uid]]> (createdCgroups m)
    | _, _ => createdCgroups m end)).
  apply wp_mgr. destruct (createdCgroups m !! uid) eqn:E; [by apply wp_ret|].
  apply wp_bind, wp_mgr, wp_bind, wp_os, wp_any. intros [e|] w1; [by apply wp_ret|].
  apply wp_bind, wp_modify, wp_bind. unfold saveCgroupToFile.
  apply wp_bind, wp_mgr, wp_os, wp_any. intros r w2. by apply wp_ret.
Qed.
