(* ===== verification/CgroupLimits.v ===== *)
(** * CPU, memory and block-I/O limits, and their statistics
      (cgroup/cpu.go, cgroup/memory.go, cgroup/io.go, cgroup/metrics.go, cgroup/psi.go)

    [Timer] decides whether a deadline passes before the goroutine that moves
    the processes is done; that goroutine is never stopped, so its effect is
    part of the operation in both cases. *)

From S2P Require Import Prelude GoStrings GoFloat GoNumbers Config Blackout ConfigLoad OS UserFilter CgroupBase CgroupProcess.

#[local] Open Scope Z_scope.

Class Timer (W : Type) := { timer_fires : Duration -> ST W bool }.

(** ** Statistics formats *)

Record PSIStats := mkPSI {
  SomeAvg10 : f64; SomeAvg60 : f64; SomeAvg300 : f64; SomeTotal : Z;
  FullAvg10 : f64; FullAvg60 : f64; FullAvg300 : f64; FullTotal : Z
}.

Record psiLine := mkPsiLine { avg10 : f64; avg60 : f64; avg300 : f64; total : Z }.

Definition psiLine0 : psiLine := mkPsiLine fzero fzero fzero 0.

Section Parse.

(** The target's result of converting a float that does not fit. *)
Context (oor : f64 -> Z).

Definition psi_field (result : psiLine) (field : string) : psiLine :=
  match SplitN2 field "=" with
  | [k; v] =>
      match ParseFloat v with
      | None => result
      | Some val =>
          let 'mkPsiLine a b c t := result in
          if String.eqb k "avg10" then mkPsiLine val b c t
          else if String.eqb k "avg60" then mkPsiLine a val c t
          else if String.eqb k "avg300" then mkPsiLine a b val t
          else if String.eqb k "total" then mkPsiLine a b c (f64_to_u64 oor val)
          else result
      end
  | _ => result
  end.

Definition parsePSILine (line : string) : result psiLine :=
  let fields := Fields line in
  if (length fields <? 5)%nat then Err ("invalid PSI line: " +:+ line)
  else Ok (foldl psi_field psiLine0 (tail fields)).

Definition parsePSI (content : string) : result PSIStats :=
  match Split (TrimSpace content) newline with
  | l0 :: l1 :: _ =>
      let? some_ := wrap "failed to parse 'some' PSI line: " (parsePSILine l0) in
      let? full := wrap "failed to parse 'full' PSI line: " (parsePSILine l1) in
      Ok (mkPSI (avg10 some_) (avg60 some_) (avg300 some_) (total some_)
                (avg10 full) (avg60 full) (avg300 full) (total full))
  | lines => Err ("invalid PSI format: expected 2 lines, got " +:+ Itoa (Z.of_nat (length lines)))
  end.

(** The last byte of [s] in upper case and what precedes it. *)
Definition bps_multiplier (c : ascii) : option Z :=
  match upper_byte c with
  | "K"%char => Some 1024
  | "M"%char => Some (1024 * 1024)
  | "G"%char => Some (1024 * 1024 * 1024)
  | "T"%char => Some (1024 * 1024 * 1024 * 1024)
  | _ => None
  end.

Definition parseBPSValue (s : string) : Z :=
  let s := TrimSpace s in
  match last_byte s with
  | None => 0
  | Some c =>
      let '(multiplier, numStr) :=
        match bps_multiplier c with Some m => (m, drop_last s) | None => (1, s) end in
      match ParseUint numStr with
      | None => 0
      | Some val => wrap_u64 (val * multiplier)
      end
  end.

Definition applyMultiplierToBPS (bps : string) (multiplier : f64) : string :=
  if String.eqb bps "" || String.eqb bps "max" || String.eqb bps "0" then "max"
  else
    let val := parseBPSValue bps in
    if val =? 0 then "max"
    else FormatUint (f64_to_u64 oor (fmul (f64_of_Z val) multiplier)).

Definition io_field (acc : Z * Z * Z * Z) (part : string) : Z * Z * Z * Z :=
  match SplitN2 part "=" with
  | [k; v] =>
      match ParseUint v with
      | None => acc
      | Some val =>
          let '(rb, wb, ro, wo) := acc in
          if String.eqb k "rios" then (rb, wb, wrap_u64 (ro + val), wo)
          else if String.eqb k "wios" then (rb, wb, ro, wrap_u64 (wo + val))
          else if String.eqb k "rbytes" then (wrap_u64 (rb + val), wb, ro, wo)
          else if String.eqb k "wbytes" then (rb, wrap_u64 (wb + val), ro, wo)
          else acc
      end
  | _ => acc
  end.

Definition io_line (acc : Z * Z * Z * Z) (line : string) : Z * Z * Z * Z :=
  foldl io_field acc (Fields (TrimSpace line)).

(** readBytes, writeBytes, readOps, writeOps of an io.stat file. *)
Definition parse_io_stat (data : string) : Z * Z * Z * Z :=
  foldl io_line (0, 0, 0, 0) (Split data newline).

(** The first "high N" line of memory.events. *)
Fixpoint high_events (lines : list string) : result Z :=
  match lines with
  | [] => Ok 0
  | line :: rest =>
      let line := TrimSpace line in
      if HasPrefix line "high " then
        match Fields line with
        | [_; n] => ParseUintE n
        | _ => high_events rest
        end
      else high_events rest
  end.

End Parse.

Section Limits.
Context `{RE : Regexp} `{O : OS W} `{P : Processes W} `{T : Timer W} (oor : f64 -> Z).

(** ** CPU *)

(** Create the cgroup when its directory is missing. *)
Definition ensure_cgroup_dir (uid : Z) (context : string) (k : CG (option error)) : CG (option error) :=
  getUserCgroupPath uid ≫= fun cgroupPath =>
  os (os_Stat cgroupPath) ≫= fun st =>
  if is_not_exist st then try_ context (CreateUserCgroup uid) k else k.

Definition write_quota (file quota : string) : CG (option error) :=
  os (os_WriteFile file quota) ≫= fun e =>
  match e with
  | Some e =>
      if os_IsPermission e
      then os (os_Chmod file) ≫= fun _ => os (os_WriteFile file quota)
      else mret (Some e)
  | None => mret None
  end.

(** Read the limit back and write it once more when it differs. *)
Definition verify_quota (file quota : string) : CG unit :=
  os (os_ReadFile file) ≫= fun r =>
  match r with
  | Err _ => mret tt
  | Ok data =>
      if String.eqb (TrimSpace data) quota then mret tt
      else os (os_WriteFile file quota) ≫= fun _ => mret tt
  end.

Definition ApplyCPULimit (uid : Z) (quota : string) : CG (option error) :=
  getUserCgroupPath uid ≫= fun cgroupPath =>
  ensure_cgroup_dir uid ("failed to create cgroup " +:+ cgroupPath +:+ " before applying limit for UID " +:+ Itoa uid +:+ ": ")
   (let cpuMaxFile := filepath_Join [cgroupPath; "cpu.max"] in
    if negb (isValidCPUQuotaFormat quota)
    then mret (Some ("invalid CPU quota format '" +:+ quota +:+ "': expected 'quota period' (e.g., '50000 100000') or 'max period'"))
    else
      try_ ("failed to apply CPU limit " +:+ quota +:+ " to " +:+ cpuMaxFile +:+ " for UID " +:+ Itoa uid +:+ ": ")
        (write_quota cpuMaxFile quota)
        (verify_quota cpuMaxFile quota ≫= fun _ =>
         mgr (fun m => CgroupOperationTimeout (m_cfg m)) ≫= fun secs =>
         os (timer_fires (seconds secs)) ≫= fun fired =>
         MoveAllUserProcesses uid ≫= fun moved =>
         mret (if fired : bool then Some ("timeout moving processes to cgroup for UID " +:+ Itoa uid) else moved))).

Definition clamp_weight (weight : Z) : Z :=
  let weight := if weight <? 1 then 1 else weight in
  if weight >? 10000 then 10000 else weight.

Definition ApplyCPUWeight (uid weight : Z) : CG (option error) :=
  ensure_cgroup_dir uid "failed to create cgroup before applying weight: "
   (getUserCgroupPath uid ≫= fun cgroupPath =>
    try_ ("failed to apply CPU weight for UID " +:+ Itoa uid +:+ ": ")
      (os (os_WriteFile (filepath_Join [cgroupPath; "cpu.weight"]) (Itoa (clamp_weight weight))))
      (mret None)).

Definition RemoveCPULimit (uid : Z) : CG (option error) := ApplyCPULimit uid "max 100000".

(** ** Memory *)

(** The tracked path of [uid], after creating the cgroup if it is not tracked. *)
Definition with_cgroup (uid : Z) (context : string) (k : string -> CG (option error)) : CG (option error) :=
  getCgroupPath uid ≫= fun known =>
  match known with
  | Some cgroupPath => k cgroupPath
  | None =>
      try_ context (CreateUserCgroup uid)
        (getCgroupPath uid ≫= fun known => k (default "" known))
  end.

Definition max_if_empty (limit : string) : string :=
  if String.eqb limit "" || String.eqb limit "0" then "max" else limit.

Definition write_limit (file context : string) (value : string) : CG (option error) :=
  try_ context (os (os_WriteFile file value)) (mret None).

Definition ApplyRAMLimit (uid : Z) (limit : string) : CG (option error) :=
  with_cgroup uid "failed to create cgroup before applying RAM limit: " (fun cgroupPath =>
    write_limit (filepath_Join [cgroupPath; "memory.max"])
      ("failed to apply RAM limit for UID " +:+ Itoa uid +:+ ": ") (max_if_empty limit)).

Definition ApplyRAMHigh (uid : Z) (limit : string) : CG (option error) :=
  with_cgroup uid "failed to create cgroup before applying RAM high: " (fun cgroupPath =>
    write_limit (filepath_Join [cgroupPath; "memory.high"])
      ("failed to apply RAM high limit for UID " +:+ Itoa uid +:+ ": ") (max_if_empty limit)).

Definition disable_swap (uid : Z) : CG (option error) :=
  getCgroupPath uid ≫= fun known =>
  write_limit (filepath_Join [default "" known; "memory.swap.max"])
    ("failed to disable swap for UID " +:+ Itoa uid +:+ ": ") "0".

Definition ApplyRAMLimitWithSwapDisabled (uid : Z) (limit : string) : CG (option error) :=
  try_ "" (ApplyRAMLimit uid limit) (disable_swap uid).

Definition RemoveRAMLimit (uid : Z) : CG (option error) := ApplyRAMLimit uid "max".

Definition ApplyRAMLimitWithHigh (uid : Z) (maxLimit highLimit : string) : CG (option error) :=
  try_ "failed to apply RAM high: " (ApplyRAMHigh uid highLimit)
    (try_ "failed to apply RAM max: " (ApplyRAMLimit uid maxLimit) (mret None)).

Definition ApplyRAMLimitWithHighAndSwapDisabled (uid : Z) (maxLimit highLimit : string) : CG (option error) :=
  try_ "" (ApplyRAMLimitWithHigh uid maxLimit highLimit) (disable_swap uid).

(** An operation on a tracked cgroup that does not create it. *)
Definition tracked_or {A} (uid : Z) (k : string -> CG (W := W) (result A)) : CG (W := W) (result A) :=
  getCgroupPath uid ≫= fun known =>
  match known with
  | None => mret (Err ("cgroup for UID " +:+ Itoa uid +:+ " not found"))
  | Some cgroupPath => k cgroupPath
  end.

Definition tracked_do (uid : Z) (k : string -> CG (W := W) (option error)) : CG (W := W) (option error) :=
  getCgroupPath uid ≫= fun known =>
  match known with
  | None => mret (Some ("cgroup for UID " +:+ Itoa uid +:+ " not found"))
  | Some cgroupPath => k cgroupPath
  end.

Definition RemoveRAMHigh (uid : Z) : CG (option error) :=
  tracked_do uid (fun cgroupPath => os (os_WriteFile (filepath_Join [cgroupPath; "memory.high"]) "max")).

Definition GetCgroupRAMUsage (uid : Z) : CG (result Z) :=
  tracked_or uid (fun cgroupPath =>
    os (os_ReadFile (filepath_Join [cgroupPath; "memory.current"])) ≫= fun r =>
    mret match r with
         | Err e => Err ("failed to read RAM usage for UID " +:+ Itoa uid +:+ ": " +:+ e)
         | Ok data =>
             match ParseUint (TrimSpace data) with
             | Some usage => Ok usage
             | None => Err ("failed to parse RAM usage for UID " +:+ Itoa uid)
             end
         end).

Definition GetMemoryHighEvents (uid : Z) : CG (result Z) :=
  tracked_or uid (fun cgroupPath =>
    os (os_ReadFile (filepath_Join [cgroupPath; "memory.events"])) ≫= fun r =>
    mret match r with
         | Err e => Err ("failed to read memory.events for UID " +:+ Itoa uid +:+ ": " +:+ e)
         | Ok data => high_events (Split data newline)
         end).

(** ** Block I/O *)

Definition iops_str (n : Z) : string := if n >? 0 then Itoa n else "max".

Definition io_device (deviceFilter : string) : string :=
  if negb (String.eqb deviceFilter "") && negb (String.eqb deviceFilter "all") then deviceFilter
  else "default".

Definition io_max_line (readBPS writeBPS : string) (readIOPS writeIOPS : Z) (deviceFilter : string) : string :=
  io_device deviceFilter +:+ " rbps=" +:+ max_if_empty readBPS +:+ " wbps=" +:+ max_if_empty writeBPS +:+
  " riops=" +:+ iops_str readIOPS +:+ " wiops=" +:+ iops_str writeIOPS.

Definition ApplyIOLimit (uid : Z) (readBPS writeBPS : string) (readIOPS writeIOPS : Z)
    (deviceFilter : string) : CG (option error) :=
  with_cgroup uid "failed to create cgroup before applying IO limit: " (fun cgroupPath =>
    write_limit (filepath_Join [cgroupPath; "io.max"])
      ("failed to apply IO limit for UID " +:+ Itoa uid +:+ ": ")
      (io_max_line readBPS writeBPS readIOPS writeIOPS deviceFilter)).

Definition RemoveIOLimit (uid : Z) : CG (option error) :=
  tracked_do uid (fun cgroupPath =>
    os (os_WriteFile (filepath_Join [cgroupPath; "io.max"]) "default rbps=max wbps=max riops=max wiops=max")).

Definition GetIOStats (uid : Z) : CG (result (Z * Z * Z * Z)) :=
  tracked_or uid (fun cgroupPath =>
    os (os_ReadFile (filepath_Join [cgroupPath; "io.stat"])) ≫= fun r =>
    mret match r with
         | Err e =>
             if os_IsNotExist e then Ok (0, 0, 0, 0)
             else Err ("failed to read io.stat for UID " +:+ Itoa uid +:+ ": " +:+ e)
         | Ok data => Ok (parse_io_stat data)
         end).

Definition ApplyTemporaryIOLimit (uid : Z) (readBPS writeBPS : string) (readIOPS writeIOPS : Z)
    (deviceFilter : string) (multiplier : f64) : CG (option error) :=
  tracked_do uid (fun _ =>
    ApplyIOLimit uid (applyMultiplierToBPS oor readBPS multiplier)
      (applyMultiplierToBPS oor writeBPS multiplier)
      (f64_to_i64 oor (fmul (f64_of_Z readIOPS) multiplier))
      (f64_to_i64 oor (fmul (f64_of_Z writeIOPS) multiplier)) deviceFilter).

Definition GetPSIStats (uid : Z) : CG (result PSIStats) :=
  tracked_or uid (fun cgroupPath =>
    os (os_ReadFile (filepath_Join [cgroupPath; "io.pressure"])) ≫= fun r =>
    mret match r with
         | Err e => Err ("failed to read io.pressure for UID " +:+ Itoa uid +:+ ": " +:+ e)
         | Ok data => parsePSI oor data
         end).

(** ** Information *)

Definition read_key (cgroupPath key : string) (info : gmap string string) : CG (gmap string string) :=
  os (os_ReadFile (filepath_Join [cgroupPath; key])) ≫= fun r =>
  mret match r with Ok data => <[key := TrimSpace data]> info | Err _ => info end.

Definition GetCgroupInfo (uid : Z) : CG (result (gmap string string)) :=
  tracked_or uid (fun cgroupPath =>
    read_key cgroupPath "cpu.max" {[ "path" := cgroupPath ]} ≫= fun info =>
    read_key cgroupPath "cpu.weight" info ≫= fun info => mret (Ok info)).

(** cgroupPath, cpuQuota, memoryHighEvents and the four I/O counters. *)
Definition GetUserCgroupMetrics (uid : Z) : CG (result (string * string * Z * (Z * Z * Z * Z))) :=
  tracked_or uid (fun cgroupPath =>
    os (os_ReadFile (filepath_Join [cgroupPath; "cpu.max"])) ≫= fun q =>
    GetMemoryHighEvents uid ≫= fun mem =>
    GetIOStats uid ≫= fun io =>
    mret (Ok (cgroupPath,
              match q with Ok data => TrimSpace data | Err _ => "" end,
              match mem with Ok n => n | Err _ => 0 end,
              match io with Ok s => s | Err _ => (0, 0, 0, 0) end))).

End Limits.

(** ** Lemmas *)

Lemma digit_not_space c d : digit c = Some d -> is_space c = false /\ bps_multiplier c = None.
Proof.
  intros H.
  assert (forallb (fun n => let c := ascii_of_N n in
            match digit c with
            | Some _ => negb (is_space c) && negb (isSome (bps_multiplier c))
            | None => true end) (map N.of_nat (seq 0 256)) = true) as A by (vm_compute; reflexivity).
  rewrite forallb_forall in A. specialize (A (N_of_ascii c)).
  cbv zeta in A. rewrite ascii_N_embedding, H in A.
  assert (In (N_of_ascii c) (map N.of_nat (seq 0 256))) as Hin.
  { apply in_map_iff. exists (N.to_nat (N_of_ascii c)). split; [apply N2Nat.id|].
    apply in_seq. pose proof (N_ascii_bounded c). lia. }
  specialize (A Hin). apply andb_true_iff in A as [A1%negb_true_iff A2%negb_true_iff].
  split; [done|]. by destruct (bps_multiplier c).
Qed.

Lemma parse_digits_all acc s v :
  parse_digits acc s = Some v -> forall c, mem c s = true -> exists d, digit c = Some d.
Proof.
  revert acc. induction s as [|x s IH]; intros acc H c Hc; simpl in *; [done|].
  destruct (digit x) as [d|] eqn:E; [|done].
  apply orb_true_iff in Hc as [->%Ascii.eqb_eq|Hc]; [by eexists|by eapply IH].
Qed.

Lemma ParseUint_digits s v : ParseUint s = Some v -> s <> "" /\ forall c, mem c s = true -> exists d, digit c = Some d.
Proof.
  unfold ParseUint. destruct s as [|c s]; [done|].
  destruct (parse_digits 0 (String c s)) as [w|] eqn:E; [|done]. intros _.
  split; [done|]. by eapply parse_digits_all.
Qed.

Lemma suffix_multiplier c m : (c, m) ∈ suffixes -> bps_multiplier c = Some m /\ is_space c = false.
Proof.
  unfold suffixes. intros H. repeat (apply elem_of_cons in H as [[= -> ->]|H]; [done|]).
  by apply not_elem_of_nil in H.
Qed.

Lemma drop_last_split s c : last_byte s = Some c -> s = drop_last s +:+ String c "".
Proof.
  induction s as [|d s IH]; [done|]. destruct s as [|e s]; [by intros [= ->]|].
  intros H. change (String d (String e s) = String d (drop_last (String e s)) +:+ String c "").
  rewrite append_cons. f_equal. by apply IH.
Qed.

Lemma word_trim s : (forall c, mem c s = true -> is_space c = false) -> TrimSpace s = s.
Proof. apply TrimSpace_no_space. Qed.

Lemma find_suffix c a m :
  List.find (fun p : ascii * Z => Ascii.eqb c p.1) suffixes = Some (a, m) -> (c, m) ∈ suffixes.
Proof.
  intros [H E]%List.find_some. apply Ascii.eqb_eq in E. simpl in E. subst. by apply list_elem_of_In.
Qed.

Lemma ParseRAMQuota_bps q v : ParseRAMQuota q = Ok v -> parseBPSValue q = v.
Proof.
  unfold ParseRAMQuota, ParseRAMQuota_order, parseBPSValue. destruct (String.eqb q ""); [done|].
  rewrite suffix_loop_spec. destruct (last_byte q) as [c|] eqn:El.
  - destruct (List.find _ suffixes) as [[a m]|] eqn:Ef.
    + intros H. destruct (ParseUint (drop_last q)) as [n|] eqn:Ep; [|done]. injection H as <-.
      apply find_suffix, suffix_multiplier in Ef as [Hm Hs].
      apply ParseUint_digits in Ep as Hd. destruct Hd as [_ Hd].
      rewrite word_trim.
      * by rewrite El, Hm, Ep.
      * intros x Hx. rewrite (drop_last_split _ _ El), mem_app in Hx.
        apply orb_true_iff in Hx as [Hx|Hx].
        -- apply Hd in Hx as [d Hx]. by apply digit_not_space in Hx as [? _].
        -- simpl in Hx. rewrite orb_false_r in Hx. by apply Ascii.eqb_eq in Hx as ->.
    + destruct (ParseUint q) as [n|] eqn:Ep; [|done]. intros [= <-].
      apply ParseUint_digits in Ep as Hd. destruct Hd as [_ Hd].
      rewrite word_trim; [|intros x [d Hx]%Hd; by apply digit_not_space in Hx as [? _]].
      rewrite El. apply last_byte_mem, Hd in El as [d Hx]. apply digit_not_space in Hx as [_ ->].
      rewrite Ep, Z.mul_1_r. by apply wrap_u64_small, (ParseUint_range q).
  - destruct (ParseUint q) as [n|] eqn:Ep; [|done].
    apply ParseUint_digits in Ep as [Hq _]. destruct q as [|x q]; [done|].
    exfalso. revert El. clear. revert x. induction q as [|y q IH]; intros x H; [done|]. by apply (IH y).
Qed.

#[export] Instance box_timer : Timer Box := {| timer_fires _ := mret false |}.

Section Box_limits.
Context `{RE : Regexp}.

(** The writes issued since [b0], in order, are [new]. *)
Definition wrote (b0 : Box) (new : list (string * string)) (s : Manager * Box) : Prop :=
  box_log s.2 = box_log b0 ++ new.

Lemma wrote_quiet {A} (m : CG A) b0 new s :
  quiet m -> wrote b0 new s -> wp m (fun _ s' => wrote b0 new s') s.
Proof. intros Hq H. unfold wp, wrote. destruct (Hq s) as [-> _]. done. Qed.

Lemma wrote_write b0 new s p c :
  wrote b0 new s -> wp (os (os_WriteFile p c)) (fun _ s' => wrote b0 (new ++ [(p, c)]) s' /\ s'.1 = s.1) s.
Proof.
  intros H. destruct s as [m b]. apply wp_os. unfold wp, wrote in *.
  cbn [os_WriteFile box_os]. unfold on_disk.
  destruct (@os_WriteFile Disk _ p c (box_disk (log_write p c b))) as [r d]. simpl in *.
  by rewrite H, app_assoc.
Qed.

Lemma CreateUserCgroup_quiet uid : quiet (CreateUserCgroup uid).
Proof.
  unfold CreateUserCgroup, getCgroupPath, getUserCgroupPath, saveCgroupToFile.
  repeat first
    [ apply quiet_disk | apply os_quiet_ret | by intros [? ?] | apply os_quiet_bind; [|intros ?]
    | match goal with |- quiet (match ?x with _ => _ end) => destruct x end ].
Qed.

Lemma clamp_weight_range w : 1 <= clamp_weight w <= 10000.
Proof.
  unfold clamp_weight. destruct (w <? 1) eqn:E1; bool_to_Z; [simpl; lia|].
  destruct (w >? 10000) eqn:E2; lia.
Qed.

Lemma clamp_weight_id w : 1 <= w <= 10000 -> clamp_weight w = w.
Proof.
  intros. unfold clamp_weight. replace (w <? 1) with false by lia. by replace (w >? 10000) with false by lia.
Qed.

Definition weight_write (m : Manager) (uid weight : Z) : string * string :=
  (filepath_Join [filepath_Join [base_path (m_cfg m); user_dir uid]; "cpu.weight"], Itoa (clamp_weight weight)).

Lemma wp_write_weight b0 m uid weight s :
  wrote b0 [] s -> m_cfg s.1 = m_cfg m ->
  wp (getUserCgroupPath uid ≫= fun cgroupPath =>
      try_ ("failed to apply CPU weight for UID " +:+ Itoa uid +:+ ": ")
        (os (os_WriteFile (filepath_Join [cgroupPath; "cpu.weight"]) (Itoa (clamp_weight weight))))
        (mret None))
     (fun _ s' => wrote b0 [weight_write m uid weight] s') s.
Proof.
  intros Hs Hc. destruct s as [m1 b1]. apply wp_bind, wp_mgr. simpl in Hc. rewrite Hc.
  unfold try_. apply wp_bind. eapply wp_mono; [|by apply wrote_write].
  intros [e|] s' [H _]; by apply wp_ret.
Qed.

Lemma CreateUserCgroup_cfg uid (s : Manager * Box) : m_cfg (CreateUserCgroup uid s).2.1 = m_cfg s.1.
Proof.
  destruct s as [m b]. unfold CreateUserCgroup, getCgroupPath, getUserCgroupPath, saveCgroupToFile, mbind, ST_bind, mgr, os.
  simpl. case_match; [done|]. destruct (on_disk _ b) as [[e|] b1]; [done|]. simpl.
  by destruct (on_disk _ b1).
Qed.

(** Neither a write nor a change of configuration. *)
Lemma wp_steady {A} (m : CG A) b0 new s :
  quiet m -> (forall s, m_cfg (m s).2.1 = m_cfg s.1) -> wrote b0 new s ->
  wp m (fun _ s' => wrote b0 new s' /\ m_cfg s'.1 = m_cfg s.1) s.
Proof. intros Hq Hc H. unfold wp. split; [by apply wrote_quiet|apply Hc]. Qed.

Lemma wp_ApplyCPUWeight m b uid weight :
  wp (ApplyCPUWeight uid weight)
     (fun _ s' => wrote b [] s' \/ wrote b [weight_write m uid weight] s') (m, b).
Proof.
  assert (wrote b [] (m, b)) as H0 by (unfold wrote; by rewrite app_nil_r).
  unfold ApplyCPUWeight, ensure_cgroup_dir. apply wp_bind, wp_mgr, wp_bind.
  eapply wp_mono; [|apply wp_steady; [apply quiet_disk|intros s; by rewrite (keeps_os _ s)|exact H0]].
  intros st s1 [H1 C1]. unfold try_ at 1. destruct (is_not_exist st).
  - apply wp_bind.
    eapply wp_mono; [|apply wp_steady; [apply CreateUserCgroup_quiet|apply CreateUserCgroup_cfg|exact H1]].
    intros [e|] s2 [H2 C2]; [apply wp_ret; by left|].
    eapply wp_mono; [|apply (wp_write_weight b m); [exact H2|simpl in *; congruence]]. by right.
  - eapply wp_mono; [|by apply (wp_write_weight b m)]. by right.
Qed.

Lemma wp_write_limit b new file ctx v s :
  wrote b new s ->
  wp (write_limit file ctx v)
     (fun r s' => wrote b (new ++ [(file, v)]) s' /\ s'.1 = s.1) s.
Proof.
  intros H. unfold write_limit, try_. apply wp_bind. eapply wp_mono; [|by apply wrote_write].
  intros [e|] s' H'; by apply wp_ret.
Qed.

Lemma wp_tracked_limit b new uid path ctx (k : string -> CG (option error)) Q s :
  createdCgroups s.1 !! uid = Some path -> wrote b new s ->
  wp (k path) Q s -> wp (with_cgroup uid ctx k) Q s.
Proof.
  intros Ht _ Hk. destruct s as [m w]. unfold with_cgroup. apply wp_bind, wp_mgr. simpl in Ht. by rewrite Ht.
Qed.

Lemma wp_ApplyRAMLimitWithHigh m b uid path maxLimit highLimit :
  createdCgroups m !! uid = Some path ->
  wp (ApplyRAMLimitWithHigh uid maxLimit highLimit)
     (fun r s' =>
        wrote b [(filepath_Join [path; "memory.high"], max_if_empty highLimit);
                 (filepath_Join [path; "memory.max"], max_if_empty maxLimit)] s' \/
        (wrote b [(filepath_Join [path; "memory.high"], max_if_empty highLimit)] s' /\ isSome r = true)) (m, b).
Proof.
  intros Ht. assert (wrote b [] (m, b)) as H0 by (unfold wrote; by rewrite app_nil_r).
  unfold ApplyRAMLimitWithHigh, try_. apply wp_bind, (wp_tracked_limit b [] uid path); [done|done|].
  eapply wp_mono; [|by apply wp_write_limit]. intros [e|] s1 [H1 E1]; [apply wp_ret; by right|].
  apply wp_bind, (wp_tracked_limit b [(filepath_Join [path; "memory.high"], max_if_empty highLimit)] uid path);
    [by rewrite E1|done|].
  eapply wp_mono; [|by apply wp_write_limit]. intros [e|] s2 [H2 E2]; apply wp_ret; by left.
Qed.

End Box_limits.

(** ** Properties *)

(** A byte quota the configuration validation accepts has the same value
    for the I/O limit code, which parses it again with different rules (white
    space, lower-case suffixes, 0 on errors). *)
Theorem validated_bps_agrees q v : ParseRAMQuota q = Ok v -> parseBPSValue q = v.
Proof. apply ParseRAMQuota_bps. Qed.

Lemma validated_bps_agrees_witness : parseBPSValue "100M" = 104857600.
Proof. apply (validated_bps_agrees "100M" 104857600). vm_compute. reflexivity. Defined.

(** Whichever calls fail, applying a CPU weight writes nothing, or writes
    once, to the user's own weight file, a number between 1 and 10000 that is
    the requested weight when that is in range. *)
Theorem ApplyCPUWeight_clamped `{RE : Regexp} m b uid weight :
  let b' := (exec (ApplyCPUWeight uid weight) (m, b)).2 in
  (box_log b' = box_log b \/ box_log b' = box_log b ++ [weight_write m uid weight]) /\
  1 <= clamp_weight weight <= 10000 /\
  (1 <= weight <= 10000 -> clamp_weight weight = weight).
Proof.
  split; [|split; [apply clamp_weight_range|apply clamp_weight_id]].
  destruct (wp_ApplyCPUWeight m b uid weight) as [H|H]; unfold wrote in H.
  - left. unfold exec. by rewrite H, app_nil_r.
  - right. exact H.
Qed.

(** The soft and the hard memory limit of a tracked user are written in
    this order, each once, with an empty or zero value meaning "max"; the hard
    limit is left out only when an error is returned. *)
Theorem ApplyRAMLimitWithHigh_order `{RE : Regexp} m b uid path maxLimit highLimit :
  createdCgroups m !! uid = Some path ->
  let r := eval (ApplyRAMLimitWithHigh uid maxLimit highLimit) (m, b) in
  let b' := (exec (ApplyRAMLimitWithHigh uid maxLimit highLimit) (m, b)).2 in
  let high := (filepath_Join [path; "memory.high"], max_if_empty highLimit) in
  let hard := (filepath_Join [path; "memory.max"], max_if_empty maxLimit) in
  box_log b' = box_log b ++ [high; hard] \/ (box_log b' = box_log b ++ [high] /\ isSome r = true).
Proof. exact (wp_ApplyRAMLimitWithHigh m b uid path maxLimit highLimit). Qed.

Lemma ApplyRAMLimitWithHigh_order_witness :
  let m := @mkManager literal_regexp (DefaultConfig None) ∅ {[ 1000 := "/cg/user_1000" ]} "/t" true true in
  let b := mkBox (mkDisk ∅ ∅ []) [] [] in
  let r := eval (@ApplyRAMLimitWithHigh literal_regexp Box _ 1000 "1G" "800M") (m, b) in
  let b' := (exec (@ApplyRAMLimitWithHigh literal_regexp Box _ 1000 "1G" "800M") (m, b)).2 in
  let high := (filepath_Join ["/cg/user_1000"; "memory.high"], max_if_empty "800M") in
  let hard := (filepath_Join ["/cg/user_1000"; "memory.max"], max_if_empty "1G") in
  box_log b' = box_log b ++ [high; hard] \/ (box_log b' = box_log b ++ [high] /\ isSome r = true).
Proof.
  apply (@ApplyRAMLimitWithHigh_order literal_regexp
           (@mkManager literal_regexp (DefaultConfig None) ∅ {[ 1000 := "/cg/user_1000" ]} "/t" true true)
           (mkBox (mkDisk ∅ ∅ []) [] []) 1000 "/cg/user_1000" "1G" "800M").
  vm_compute. reflexivity.
Defined.
