(* ===== verification/CgroupCleanup.v ===== *)
(** * Cleaning up
      (cgroup/cleanup.go)

    Removal of one user's cgroup and the shutdown sequence.  The errors of
    [CleanupAll] are collected in order. *)

From S2P Require Import Prelude GoStrings Config Blackout ConfigLoad OS UserFilter CgroupBase CgroupProcess CgroupLimits.

#[local] Open Scope Z_scope.

Section Cleanup.
Context `{RE : Regexp} `{O : OS W} `{P : Processes W}.

(** [os.Remove], once more after an error. *)
Definition remove_twice (path : string) : CG (option error) :=
  os (os_Remove path) ≫= fun e =>
  match e with
  | None => mret None
  | Some _ => os (os_Remove path)
  end.

Definition cleanup_at (uid : Z) (cgroupPath : string) : CG (option error) :=
  readPidsFromFile (filepath_Join [cgroupPath; "cgroup.procs"]) ≫= fun pids =>
  for_each (fun pid => getProcessName pid ≫= fun _ => mret tt)
    (match pids with Ok l => l | Err _ => [] end) ≫= fun _ =>
  remove_twice cgroupPath ≫= fun rm =>
  match rm with
  | Some e => mret (Some ("failed to remove cgroup for UID " +:+ Itoa uid +:+ ": " +:+ e))
  | None =>
      set_createdCgroups (delete uid) ≫= fun _ =>
      removeCgroupFromFile uid ≫= fun _ => mret None
  end.

Definition CleanupUserCgroup (uid : Z) : CG (option error) :=
  getCgroupPath uid ≫= fun known =>
  match known with
  | Some cgroupPath => cleanup_at uid cgroupPath
  | None =>
      getUserCgroupPath uid ≫= fun cgroupPath =>
      os (os_Stat cgroupPath) ≫= fun st =>
      if is_not_exist st then mret None else cleanup_at uid cgroupPath
  end.

(** Move the processes listed in a directory to the root cgroup, best effort. *)
Definition evacuate (dir : string) : CG unit :=
  readPidsFromFile (filepath_Join [dir; "cgroup.procs"]) ≫= fun r =>
  mgr (fun m => filepath_Join [CgroupRoot (m_cfg m); "cgroup.procs"]) ≫= fun rootCgroupProcs =>
  match r with
  | Ok pids => writePidsBatch rootCgroupProcs pids ≫= fun _ => mret tt
  | Err _ => mret tt
  end.

Definition cleanup_user (errs : list string) (uid : Z) : CG (list string) :=
  CleanupUserCgroup uid ≫= fun e =>
  mret (match e with Some e => errs ++ ["UID " +:+ Itoa uid +:+ ": " +:+ e] | None => errs end).

Definition cleanup_entry (sharedPath : string) (errs : list string) (entry : string * bool) : CG (list string) :=
  let '(name, is_dir) := entry in
  if is_dir && HasPrefix name "user_" then
    let userPath := filepath_Join [sharedPath; name] in
    evacuate userPath ≫= fun _ =>
    os (os_RemoveAll userPath) ≫= fun e =>
    mret (match e with
          | Some e => errs ++ ["user cgroup " +:+ userPath +:+ ": " +:+ e]
          | None => errs
          end)
  else mret errs.

Definition cleanup_shared (sharedPath : string) (errs : list string) : CG (list string) :=
  os (os_ReadDir sharedPath) ≫= fun entries =>
  fold_st (cleanup_entry sharedPath) errs (match entries with Ok l => l | Err _ => [] end) ≫= fun errs =>
  evacuate sharedPath ≫= fun _ =>
  readPidsFromFile (filepath_Join [sharedPath; "cgroup.procs"]) ≫= fun left_ =>
  let errs := match left_ with
              | Ok (_ :: _ as pids) =>
                  errs ++ ["shared cgroup still has " +:+ Itoa (Z.of_nat (length pids)) +:+ " processes"]
              | _ => errs
              end in
  os (os_RemoveAll sharedPath) ≫= fun e =>
  mret (match e with Some e => errs ++ ["shared cgroup: " +:+ e] | None => errs end).

(** Remove the base cgroup, best effort, and the tracking file. *)
Definition cleanup_finish (base : string) (errs : list string) : CG (option error) :=
  os (os_Stat base) ≫= fun st =>
  (match st with
   | None => os (os_Remove base) ≫= fun _ => mret tt
   | Some _ => mret tt
   end) ≫= fun _ =>
  mgr createdCgroupsFile ≫= fun file =>
  os (os_Remove file) ≫= fun e =>
  let errs := match e with
              | Some e => if os_IsNotExist e then errs else errs ++ ["tracking file: " +:+ e]
              | None => errs
              end in
  mret (match errs with
        | [] => None
        | _ => Some ("errors during cleanup: " +:+ Join errs (String newline ""))
        end).

(** [uids] is the copy of the map's keys, in the order the runtime chose. *)
Definition CleanupAll (uids : list Z) : CG (option error) :=
  fold_st cleanup_user [] uids ≫= fun errs =>
  getBaseCgroupPath ≫= fun base =>
  let sharedPath := filepath_Join [base; "limited"] in
  os (os_Stat sharedPath) ≫= fun st =>
  (match st with None => cleanup_shared sharedPath errs | Some _ => mret errs end) ≫= fun errs =>
  cleanup_finish base errs.

End Cleanup.

(** ** Lemmas *)

Section Cleanup_lemmas.
Context `{RE : Regexp} `{O : OS W} `{P : Processes W}.

Lemma wp_mgr_keeps {A} (m : CG (W := W) A) (Q : A -> Manager * W -> Prop) s :
  keeps_mgr m -> (forall a w, Q a (s.1, w)) -> wp m Q s.
Proof.
  intros Hk HQ. unfold wp. specialize (Hk s). destruct (m s) as [a [m' w]]. simpl in *. subst. apply HQ.
Qed.

Lemma mgr_keeps_for_each {A} (f : A -> CG (W := W) unit) l :
  (forall a, keeps_mgr (f a)) -> keeps_mgr (for_each f l).
Proof.
  intros Hf. induction l as [|x l IH]; [apply keeps_ret|]. simpl. apply mgr_keeps_bind; [apply Hf|intros ?; apply IH].
Qed.

Lemma keeps_fold {A B} (f : B -> A -> CG (W := W) B) b l :
  (forall b a, keeps_mgr (f b a)) -> keeps_mgr (fold_st f b l).
Proof.
  intros Hf. revert b. induction l as [|x l IH]; intros b; [apply keeps_ret|].
  simpl. apply mgr_keeps_bind; [apply Hf|intros ?; apply IH].
Qed.

Lemma keeps_mgr_read {A} (f : Manager -> A) : keeps_mgr (W := W) (mgr f).
Proof. by intros s. Qed.

Ltac keeps :=
  repeat first
    [ apply keeps_os | apply keeps_ret | apply keeps_mgr_read | apply getProcessName_keeps
    | apply mgr_keeps_for_each; intros ? | apply keeps_fold; intros ? ?
    | apply mgr_keeps_bind; [|intros ?]
    | match goal with |- keeps_mgr (match ?x with _ => _ end) => destruct x end ].

Lemma readPids_keeps f : keeps_mgr (readPidsFromFile f).
Proof. unfold readPidsFromFile. keeps. Qed.

Lemma evacuate_keeps d : keeps_mgr (evacuate d).
Proof. unfold evacuate, readPidsFromFile, writePidsBatch. keeps. Qed.

Lemma remove_twice_keeps p : keeps_mgr (remove_twice p).
Proof. unfold remove_twice. keeps. Qed.

Lemma removeCgroupFromFile_keeps uid : keeps_mgr (removeCgroupFromFile uid).
Proof. unfold removeCgroupFromFile. keeps. Qed.

Lemma cleanup_shared_keeps p errs : keeps_mgr (cleanup_shared p errs).
Proof.
  unfold cleanup_shared. apply mgr_keeps_bind; [apply keeps_os|intros entries].
  apply mgr_keeps_bind.
  - apply keeps_fold. intros b [n d]. unfold cleanup_entry. destruct (_ && _); [|apply keeps_ret].
    apply mgr_keeps_bind; [apply evacuate_keeps|intros ?]. keeps.
  - intros e. apply mgr_keeps_bind; [apply evacuate_keeps|intros ?].
    apply mgr_keeps_bind; [apply readPids_keeps|intros ?]. keeps.
Qed.

Lemma wp_cleanup_at uid path (Q : option error -> Manager * W -> Prop) m w :
  (forall w', Q None (with_created (delete uid) m, w')) ->
  (forall e w', Q (Some e) (m, w')) ->
  wp (cleanup_at uid path) Q (m, w).
Proof.
  intros Hn He. unfold cleanup_at. apply wp_bind, wp_mgr_keeps; [apply readPids_keeps|]. intros pids w1.
  apply wp_bind, wp_mgr_keeps; [keeps|]. intros _ w2.
  apply wp_bind, wp_mgr_keeps; [apply remove_twice_keeps|]. intros [e|] w3; [apply wp_ret, He|].
  apply wp_bind, wp_modify, wp_bind, wp_mgr_keeps; [apply removeCgroupFromFile_keeps|].
  intros r w4. apply wp_ret, Hn.
Qed.

(** After a cleanup of [uid]: gone without an error, untouched with one. *)
Lemma wp_CleanupUserCgroup uid m w :
  wp (CleanupUserCgroup uid)
     (fun r s' => s'.1 = match r with None => with_created (delete uid) m | Some _ => m end) (m, w).
Proof.
  unfold CleanupUserCgroup. apply wp_bind, wp_mgr. destruct (createdCgroups m !! uid) as [p|] eqn:E.
  - by apply wp_cleanup_at.
  - apply wp_bind, wp_mgr, wp_bind, wp_os, wp_any. intros st w1.
    destruct (is_not_exist st); [|by apply wp_cleanup_at].
    apply wp_ret. destruct m as [c rc cr f ca cw]. unfold with_created. simpl in *. by rewrite delete_id.
Qed.

(** The users tracked after a run over [uids] are those tracked before it that
    were not in the list, or whose removal failed. *)
Lemma wp_cleanup_users uids m w :
  wp (fold_st cleanup_user [] uids)
     (fun errs s' =>
        (forall uid, createdCgroups s'.1 !! uid = None \/ createdCgroups s'.1 !! uid = createdCgroups m !! uid) /\
        (errs = [] -> forall uid, uid ∈ uids -> createdCgroups s'.1 !! uid = None)) (m, w).
Proof.
  assert (forall errs s done_,
    (forall uid, createdCgroups s.1 !! uid = None \/ createdCgroups s.1 !! uid = createdCgroups m !! uid) ->
    (errs = [] -> forall uid, uid ∈ done_ -> createdCgroups s.1 !! uid = None) ->
    wp (fold_st cleanup_user errs uids)
     (fun errs s' =>
        (forall uid, createdCgroups s'.1 !! uid = None \/ createdCgroups s'.1 !! uid = createdCgroups m !! uid) /\
        (errs = [] -> forall uid, uid ∈ done_ ++ uids -> createdCgroups s'.1 !! uid = None)) s) as H.
  2: { apply (H [] (m, w) []); [by right|set_solver]. }
  induction uids as [|u uids IH]; intros errs s dn H1 H2; simpl.
  - apply wp_ret. split; [done|]. by rewrite app_nil_r.
  - destruct s as [m1 w1]. apply wp_bind. unfold cleanup_user. apply wp_bind.
    eapply wp_mono; [|apply wp_CleanupUserCgroup]. intros r [m2 w2] E. simpl in E. apply wp_ret.
    eapply wp_mono; [|apply (IH _ _ (dn ++ [u]))].
    + intros e s' [A B]. split; [done|]. by rewrite <- app_assoc in B.
    + intros uid. simpl. subst m2. destruct r; [apply H1|]. simpl.
      destruct (decide (u = uid)) as [->|]; [left; apply lookup_delete_eq|].
      rewrite lookup_delete_ne by done. apply H1.
    + simpl. subst m2. destruct r as [e|]; [by destruct errs|]. intros He uid [Hd|Hu]%elem_of_app; simpl.
      * destruct (decide (u = uid)) as [->|]; [apply lookup_delete_eq|].
        rewrite lookup_delete_ne by done. by apply H2.
      * apply list_elem_of_singleton in Hu as ->. apply lookup_delete_eq.
Qed.

(** The errors only grow. *)
Lemma cleanup_shared_grows p errs s : (cleanup_shared p errs s).1 = [] -> errs = [].
Proof.
  change (wp (cleanup_shared p errs) (fun r _ => r = [] -> errs = []) s).
  unfold cleanup_shared. apply wp_bind, wp_any. intros entries s1. apply wp_bind.
  apply (wp_fold_st (fun e _ => e = [] -> errs = [])); [done| |].
  - intros e [n d] s2 _ He. unfold cleanup_entry. destruct (_ && _); [|by apply wp_ret].
    apply wp_bind, wp_any. intros _ s3. apply wp_bind, wp_any. intros [x|] s4; apply wp_ret; [by destruct e|done].
  - intros e s2 He. apply wp_bind, wp_any. intros _ s3. apply wp_bind, wp_any. intros l s4.
    apply wp_bind, wp_any. intros x s5. apply wp_ret.
    destruct l as [[|? ?]|]; destruct x; intros Hx; try (by apply He);
      repeat (apply app_eq_nil in Hx as [Hx _]); by apply He.
Qed.

Lemma wp_cleanup_shared p errs (Q : list string -> Manager * W -> Prop) m w :
  (forall r w', (r = [] -> errs = []) -> Q r (m, w')) -> wp (cleanup_shared p errs) Q (m, w).
Proof.
  intros HQ. pose proof (cleanup_shared_grows p errs (m, w)) as G.
  pose proof (cleanup_shared_keeps p errs (m, w)) as K. unfold wp.
  destruct (cleanup_shared p errs (m, w)) as [r [m' w']]. simpl in *. subst. by apply HQ.
Qed.

Lemma wp_cleanup_finish base errs (Q : option error -> Manager * W -> Prop) m w :
  (forall r w', (r = None -> errs = []) -> Q r (m, w')) -> wp (cleanup_finish base errs) Q (m, w).
Proof.
  intros HQ. unfold cleanup_finish. apply wp_bind, wp_mgr_keeps; [apply keeps_os|]. intros st w1.
  apply wp_bind, wp_mgr_keeps; [destruct st; keeps|]. intros [] w2.
  apply wp_bind, wp_mgr, wp_bind, wp_mgr_keeps; [apply keeps_os|]. intros e w3. apply wp_ret, HQ.
  destruct e as [e|]; [destruct (os_IsNotExist e)|]; by destruct errs.
Qed.

End Cleanup_lemmas.

(** ** Properties *)

(** Cleaning up a user's cgroup, on any operating system: without an error
    the user is no longer tracked, with one the manager is unchanged; no other
    user is touched in either case. *)
Theorem CleanupUserCgroup_tracking `{RE : Regexp} `{O : OS W} `{P : Processes W} uid m (w : W) :
  (exec (CleanupUserCgroup uid) (m, w)).1 =
  match eval (CleanupUserCgroup uid) (m, w) with
  | None => with_created (delete uid) m
  | Some _ => m
  end.
Proof. apply wp_CleanupUserCgroup. Qed.

(** C19: a shutdown that reports no error leaves no tracked cgroup, in
    whatever order the runtime lists them. *)
Theorem CleanupAll_complete `{RE : Regexp} `{O : OS W} `{P : Processes W} uids m (w : W) :
  uids ≡ₚ (map_to_list (createdCgroups m)).*1 ->
  eval (CleanupAll uids) (m, w) = None ->
  createdCgroups (exec (CleanupAll uids) (m, w)).1 = ∅.
Proof.
  intros Hp. change (wp (CleanupAll uids) (fun r s' => r = None -> createdCgroups s'.1 = ∅) (m, w)).
  unfold CleanupAll. apply wp_bind. eapply wp_mono; [|apply wp_cleanup_users].
  intros errs [m1 w1] [H1 H2]. simpl in *. apply wp_bind, wp_mgr.
  apply wp_bind, wp_mgr_keeps; [apply keeps_os|]. intros st w2.
  assert (forall errs' w', (errs' = [] -> errs = []) ->
    wp (cleanup_finish (base_path (m_cfg m1)) errs') (fun r s' => r = None -> createdCgroups s'.1 = ∅) (m1, w'))
    as Hend.
  { intros errs' w' He. apply wp_cleanup_finish. intros r w3 Hr Hn. simpl.
    apply map_empty. intros uid. destruct (H1 uid) as [H|H]; [done|].
    destruct (createdCgroups m !! uid) as [pth|] eqn:E; [|by rewrite H].
    apply H2; [by apply He, Hr|]. rewrite Hp. apply list_elem_of_fmap. exists (uid, pth).
    split; [done|]. by apply elem_of_map_to_list. }
  apply wp_bind. destruct st; [apply wp_ret; by apply Hend|]. apply wp_cleanup_shared. intros r w3 Hr. by apply Hend.
Qed.

Lemma CleanupAll_complete_witness :
  let m := @mkManager literal_regexp (DefaultConfig None) ∅ {[ 1000 := "/cg/user_1000" ]} "/t" true true in
  let b := mkBox (mkDisk {[ "/t" := "1000:/cg/user_1000" ]} {[ "/cg/user_1000" ]} []) [] [] in
  createdCgroups (exec (@CleanupAll literal_regexp Box _ _ [1000]) (m, b)).1 = ∅.
Proof.
  apply (@CleanupAll_complete literal_regexp Box _ _ [1000]
           (@mkManager literal_regexp (DefaultConfig None) ∅ {[ 1000 := "/cg/user_1000" ]} "/t" true true)
           (mkBox (mkDisk {[ "/t" := "1000:/cg/user_1000" ]} {[ "/cg/user_1000" ]} []) [] [])).
  - reflexivity.
  - vm_compute. reflexivity.
Defined.
