(* ===== verification/PSIWatcher.v ===== *)
(** * The pressure watcher
      (cgroup/psi_watcher.go)

    The registered monitors, the poll loop and the bounded event channel, with
    [AddMonitor]/[RemoveMonitor] interleaved anywhere between the loop's
    snapshot of the descriptors and the handling of a ready one.  The results
    of the system calls ([open], [write], [poll]) are arguments of the
    operations; [ReadAt] is the one of package [os]. *)

From S2P Require Import Prelude GoStrings GoFloat CgroupLimits.

#[local] Open Scope Z_scope.

Record PSIEvent := mkEvent { UID : Z; Type_ : string; ev_SomeAvg10 : f64; Timestamp : Time }.

Record psiMonitor := mkMonitor { mon_uid : Z; mon_typ : string; mon_path : string; mon_fd : Z; active : bool }.

(** [wake_pending] counts the bytes in the wake pipe, [None] without a pipe;
    [fdIndex] is the snapshot of the loop between [poll] and the handling. *)
Record PSIWatcher := mkWatcher {
  monitors : list psiMonitor;
  events : list PSIEvent;
  thresholds : gmap string Z;
  windowUs : Z;
  wake_pending : option Z;
  done_ : bool;
  fdIndex : gmap Z nat
}.

Definition event_capacity : nat := 64.

Definition NewPSIWatcher (windowUs : Z) : PSIWatcher := mkWatcher [] [] ∅ windowUs None false ∅.

Definition with_monitors (ms : list psiMonitor) (w : PSIWatcher) : PSIWatcher :=
  mkWatcher ms (events w) (thresholds w) (windowUs w) (wake_pending w) (done_ w) (fdIndex w).

Definition with_events (es : list PSIEvent) (w : PSIWatcher) : PSIWatcher :=
  mkWatcher (monitors w) es (thresholds w) (windowUs w) (wake_pending w) (done_ w) (fdIndex w).

Definition SetThreshold (typ : string) (stallUs : Z) (w : PSIWatcher) : PSIWatcher :=
  mkWatcher (monitors w) (events w) (<[typ := stallUs]> (thresholds w)) (windowUs w) (wake_pending w)
    (done_ w) (fdIndex w).

Definition wake (w : PSIWatcher) : PSIWatcher :=
  mkWatcher (monitors w) (events w) (thresholds w) (windowUs w)
    (match wake_pending w with Some n => Some (n + 1) | None => None end) (done_ w) (fdIndex w).

Definition is_monitor (uid : Z) (typ : string) (m : psiMonitor) : bool :=
  (mon_uid m =? uid) && String.eqb (mon_typ m) typ && active m.

(** [opened] is the descriptor of the pressure file, [written] the error of
    writing the threshold line to it. *)
Definition AddMonitor (uid : Z) (typ pressurePath : string) (opened : result Z) (written : option error)
    (w : PSIWatcher) : option error * PSIWatcher :=
  if existsb (is_monitor uid typ) (monitors w) then (None, w)
  else match thresholds w !! typ with
       | None => (Some ("no threshold configured for type " +:+ Quote typ), w)
       | Some threshold =>
           match opened with
           | Err e => (Some ("open " +:+ pressurePath +:+ ": " +:+ e), w)
           | Ok fd =>
               match written with
               | Some e => (Some ("write threshold to " +:+ pressurePath +:+ ": " +:+ e), w)
               | None =>
                   (None, wake (with_monitors (monitors w ++ [mkMonitor uid typ pressurePath fd true]) w))
               end
           end
       end.

(** The line written to the pressure file. *)
Definition threshold_line (threshold : Z) (w : PSIWatcher) : string :=
  "some " +:+ FormatUint threshold +:+ " " +:+ FormatUint (windowUs w).

Definition deactivate (m : psiMonitor) : psiMonitor :=
  mkMonitor (mon_uid m) (mon_typ m) (mon_path m) (mon_fd m) false.

Definition RemoveMonitor (uid : Z) (typ : string) (w : PSIWatcher) : PSIWatcher :=
  wake (with_monitors (map (fun m => if is_monitor uid typ m then deactivate m else m) (monitors w)) w).

(** [Start] after a successful [os.Pipe]. *)
Definition Start (piped : option error) (w : PSIWatcher) : option error * PSIWatcher :=
  match piped with
  | Some e => (Some ("create wake pipe: " +:+ e), w)
  | None => (None, mkWatcher (monitors w) (events w) (thresholds w) (windowUs w) (Some 0) (done_ w) (fdIndex w))
  end.

(** [Stop] waits for the loop to end before it drops the monitors. *)
Definition Stop (w : PSIWatcher) : PSIWatcher :=
  mkWatcher [] (events w) (thresholds w) (windowUs w) None true ∅.

(** The loop's map from descriptors to indices of active monitors. *)
Fixpoint index_fds (i : nat) (ms : list psiMonitor) (acc : gmap Z nat) : gmap Z nat :=
  match ms with
  | [] => acc
  | m :: rest => index_fds (S i) rest (if active m then <[mon_fd m := i]> acc else acc)
  end.

Definition snapshot (w : PSIWatcher) : PSIWatcher :=
  mkWatcher (monitors w) (events w) (thresholds w) (windowUs w) (wake_pending w) (done_ w)
    (index_fds 0 (monitors w) ∅).

(** [os.File.ReadAt(buf, 0)] with a buffer of [len] bytes: the bytes read and
    whether the error is nil, which it is only when the buffer was filled. *)
Definition ReadAt (content : string) (len : nat) : string * bool :=
  (String.substring 0 len content, (len <=? String.length content)%nat).

(** A non-blocking send on the event channel. *)
Definition send_event (e : PSIEvent) (w : PSIWatcher) : PSIWatcher :=
  if (length (events w) <? event_capacity)%nat then with_events (events w ++ [e]) w else w.

(** One ready descriptor; [content] is what its file holds, [now] the time. *)
Definition handle_ready (oor : f64 -> Z) (fd : Z) (content : string) (now : Time) (w : PSIWatcher) : PSIWatcher :=
  match fdIndex w !! fd with
  | None => w
  | Some idx =>
      match monitors w !! idx with
      | None => w
      | Some mon =>
          if negb (active mon) then w
          else
            let '(data, ok) := ReadAt content 4096 in
            if negb ok then w
            else match parsePSI oor data with
                 | Err _ => w
                 | Ok stats => send_event (mkEvent (mon_uid mon) (mon_typ mon) (SomeAvg10 stats) now) w
                 end
      end
  end.

(** The loop reads at most eight bytes from the wake pipe. *)
Definition drain_wake (w : PSIWatcher) : PSIWatcher :=
  mkWatcher (monitors w) (events w) (thresholds w) (windowUs w)
    (match wake_pending w with Some n => Some (n - Z.min n 8) | None => None end) (done_ w) (fdIndex w).

(** What [poll] reports: an error, or whether the wake pipe is readable and the
    ready descriptors, with what their files hold and the time. *)
Inductive Polled :=
  | PollError
  | PollReady (woken : bool) (ready : list (Z * string * Time)).

(** One round of [pollLoop] with nothing in between. *)
Definition poll_round (oor : f64 -> Z) (polled : Polled) (w : PSIWatcher) : PSIWatcher :=
  if done_ w then w
  else
    let w := snapshot w in
    match polled with
    | PollError => w
    | PollReady woken ready =>
        let w := if woken then drain_wake w else w in
        foldl (fun w '(fd, content, now) => handle_ready oor fd content now w) w ready
    end.

(** The consumer takes the oldest event. *)
Definition receive (w : PSIWatcher) : option (PSIEvent * PSIWatcher) :=
  match events w with [] => None | e :: es => Some (e, with_events es w) end.

(** ** Interleavings

    [pressure fd c]: the file behind [fd] may hold [c]. *)
Inductive watcher_step (oor : f64 -> Z) (pressure : Z -> string -> Prop) : PSIWatcher -> PSIWatcher -> Prop :=
  | step_threshold typ n w : watcher_step oor pressure w (SetThreshold typ n w)
  | step_add uid typ p opened written w :
      watcher_step oor pressure w (AddMonitor uid typ p opened written w).2
  | step_remove uid typ w : watcher_step oor pressure w (RemoveMonitor uid typ w)
  | step_start piped w : watcher_step oor pressure w (Start piped w).2
  | step_snapshot w : done_ w = false -> watcher_step oor pressure w (snapshot w)
  | step_wake w : done_ w = false -> watcher_step oor pressure w (drain_wake w)
  | step_handle fd c now w :
      done_ w = false -> pressure fd c -> watcher_step oor pressure w (handle_ready oor fd c now w)
  | step_receive e w w' : receive w = Some (e, w') -> watcher_step oor pressure w w'
  | step_stop w : done_ w = false -> watcher_step oor pressure w (Stop w).

Definition watcher_init (w : PSIWatcher) : Prop := exists us, w = NewPSIWatcher us.

(** The keys of the active monitors. *)
Definition active_keys (ms : list psiMonitor) : list (Z * string) :=
  omap (fun m => if active m then Some (mon_uid m, mon_typ m) else None) ms.

(** ** Lemmas *)

Lemma is_monitor_spec uid typ m :
  is_monitor uid typ m = true <-> active m = true /\ (mon_uid m, mon_typ m) = (uid, typ).
Proof.
  unfold is_monitor. rewrite !andb_true_iff, Z.eqb_eq, String.eqb_eq. naive_solver.
Qed.

Lemma elem_of_active_keys k ms :
  k ∈ active_keys ms <-> exists m, m ∈ ms /\ active m = true /\ (mon_uid m, mon_typ m) = k.
Proof.
  unfold active_keys. rewrite list_elem_of_omap. split.
  - intros (m & Hm & H). destruct (active m) eqn:E; [|done]. injection H as <-. eauto.
  - intros (m & Hm & Ha & <-). exists m. by rewrite Ha.
Qed.

Lemma not_monitored uid typ ms :
  existsb (is_monitor uid typ) ms = false -> (uid, typ) ∉ active_keys ms.
Proof.
  intros H (m & Hm & Hk)%elem_of_active_keys. apply is_monitor_spec in Hk.
  apply not_true_iff_false in H. apply H, existsb_exists. exists m. by rewrite <- list_elem_of_In.
Qed.

Lemma active_keys_remove uid typ ms :
  active_keys (map (fun m => if is_monitor uid typ m then deactivate m else m) ms) =
  filter (fun k => k <> (uid, typ)) (active_keys ms).
Proof.
  induction ms as [|m ms IH]; [done|]. unfold active_keys in *. cbn [map omap list_omap].
  destruct (active m) eqn:Ea.
  - rewrite filter_cons. destruct (is_monitor uid typ m) eqn:E.
    + apply is_monitor_spec in E as [_ E]. simpl. rewrite IH, decide_False by (rewrite E; auto). done.
    + rewrite Ea. rewrite decide_True; [by rewrite IH|]. intros H.
      apply not_true_iff_false in E. by apply E, is_monitor_spec.
  - assert (is_monitor uid typ m = false) as -> by (unfold is_monitor; rewrite Ea; apply andb_false_r).
    by rewrite Ea, IH.
Qed.

Lemma NoDup_active_add ms uid typ p fd :
  NoDup (active_keys ms) -> (uid, typ) ∉ active_keys ms ->
  NoDup (active_keys (ms ++ [mkMonitor uid typ p fd true])).
Proof.
  intros H1 H2. unfold active_keys in *. rewrite omap_app. apply NoDup_app.
  split; [done|]. split; [|apply NoDup_singleton].
  intros k Hk Hk'. apply list_elem_of_singleton in Hk' as ->. done.
Qed.

Lemma handle_ready_cases oor fd c now w :
  handle_ready oor fd c now w = w \/
  (4096 <= String.length c)%nat /\ exists e, handle_ready oor fd c now w = send_event e w.
Proof.
  unfold handle_ready, ReadAt. destruct (fdIndex w !! fd) as [i|]; [|by left].
  destruct (monitors w !! i) as [m|]; [|by left]. destruct (negb (active m)); [by left|].
  destruct (4096 <=? String.length c)%nat eqn:E; [|by left].
  apply Nat.leb_le in E. simpl. destruct (parsePSI oor _); [|by left]. right. eauto.
Qed.

Lemma send_event_bound e w :
  (length (events w) <= event_capacity)%nat -> (length (events (send_event e w)) <= event_capacity)%nat.
Proof.
  unfold send_event. destruct (_ <? _)%nat eqn:E; [|done]. apply Nat.ltb_lt in E.
  intros _. simpl. rewrite length_app. simpl. lia.
Qed.

Lemma send_event_monitors e w : monitors (send_event e w) = monitors w.
Proof. unfold send_event. by destruct (_ <? _)%nat. Qed.

Lemma handle_ready_done oor fd c now w : done_ (handle_ready oor fd c now w) = done_ w.
Proof.
  destruct (handle_ready_cases oor fd c now w) as [-> | (_ & e & ->)]; [done|]. unfold send_event. by destruct (_ <? _)%nat.
Qed.

(** A round of the loop is a run of steps. *)
Lemma poll_round_steps oor (pressure : Z -> string -> Prop) polled w :
  (forall woken ready fd c now, polled = PollReady woken ready -> (fd, c, now) ∈ ready -> pressure fd c) ->
  rtc (watcher_step oor pressure) w (poll_round oor polled w).
Proof.
  intros Hp. unfold poll_round. destruct (done_ w) eqn:Hd; [done|].
  eapply rtc_l; [by apply step_snapshot|]. destruct polled as [|woken ready]; [done|].
  specialize (Hp woken ready). set (w1 := if woken then drain_wake (snapshot w) else snapshot w).
  assert (done_ w1 = false) as Hd1 by (by destruct woken).
  transitivity w1; [destruct woken; [by apply rtc_once, step_wake|done]|].
  clearbody w1. clear w Hd. assert (forall fd c now, (fd, c, now) ∈ ready -> pressure fd c) as Hc by eauto. clear Hp.
  revert w1 Hd1. induction ready as [|[[fd c] now] ready IH]; intros w Hd; [done|]. cbn [foldl].
  eapply rtc_l; [apply step_handle; [done|by eapply Hc; left]|].
  apply IH; [intros fd' c' now' Hin; eapply Hc; by right|by rewrite handle_ready_done].
Qed.

(** Before [Stop] no step ever drops a monitor: a removed one stays in the list,
    inactive. *)
Lemma monitors_never_freed oor pressure w w' :
  watcher_step oor pressure w w' -> done_ w' = false -> (length (monitors w) <= length (monitors w'))%nat.
Proof.
  intros Hs Hd. destruct Hs as [ | uid typ p opened written w0 | | piped w0 | | | fd c now w0 Hd0 Hc | e w0 w' Hr | ]; try done.
  - unfold AddMonitor. destruct (existsb _ _); [done|]. destruct (thresholds w0 !! typ); [|done].
    destruct opened; [|done]. destruct written; [done|]. simpl. rewrite length_app. lia.
  - simpl. by rewrite length_map.
  - by destruct piped.
  - destruct (handle_ready_cases oor fd c now w0) as [-> | (_ & e & ->)]; [done|]. by rewrite send_event_monitors.
  - unfold receive in Hr. destruct (events w0); [done|]. by injection Hr as _ <-.
Qed.

(** ** Properties *)

(** C20: in every interleaving a user has at most one active monitor per
    pressure type, and the event channel never holds more than 64 events. *)
Theorem watcher_invariant oor pressure w :
  reachable watcher_init (watcher_step oor pressure) w ->
  NoDup (active_keys (monitors w)) /\ (length (events w) <= event_capacity)%nat.
Proof.
  apply (reachable_invariant _ _ (fun w => NoDup (active_keys (monitors w)) /\
                                            (length (events w) <= event_capacity)%nat)).
  - intros ? [us ->]. split; [constructor|simpl; lia].
  - intros w1 w2 [Hn He] Hs. destruct Hs as [ | uid typ p opened written w0 | | piped w0 | | | fd c now w0 | e w0 w' Hr | ].
    + done.
    + unfold AddMonitor. destruct (existsb _ _) eqn:E; [done|].
      destruct (thresholds w0 !! typ); [|done]. destruct opened; [|done]. destruct written; [done|].
      split; [|done]. apply NoDup_active_add; [done|by apply not_monitored].
    + split; [|done]. simpl. rewrite active_keys_remove. by apply NoDup_filter.
    + by destruct piped.
    + done.
    + done.
    + destruct (handle_ready_cases oor fd c now w0) as [-> | [_ [e ->]]]; [done|].
      rewrite send_event_monitors. split; [done|by apply send_event_bound].
    + unfold receive in Hr. destruct (events w0) as [|x es] eqn:E; [done|]. injection Hr as <- <-.
      split; [done|]. simpl in *. lia.
    + split; [constructor|done].
Qed.

Definition io_pressure : string :=
  "some avg10=25.00 avg60=18.50 avg300=12.30 total=1234567
full avg10=10.00 avg60=8.20 avg300=5.10 total=567890
".

(** A monitored file that becomes ready. *)
Definition busy_watcher : PSIWatcher :=
  handle_ready (fun _ => 0) 7 io_pressure 5
    (snapshot (AddMonitor 1000 "io" "/cg/io.pressure" (Ok 7) None
                 (SetThreshold "io" 150000 (NewPSIWatcher 1000000))).2).

Lemma busy_reachable :
  reachable watcher_init (watcher_step (fun _ => 0) (fun _ c => c = io_pressure)) busy_watcher.
Proof.
  unfold busy_watcher. eapply reach_step; [|by apply step_handle].
  eapply reach_step; [|by apply step_snapshot]. eapply reach_step; [|apply step_add].
  eapply reach_step; [|apply step_threshold]. apply reach_init. by eexists.
Qed.

Lemma watcher_invariant_witness :
  active_keys (monitors busy_watcher) = [(1000, "io")] /\
  NoDup (active_keys (monitors busy_watcher)) /\ (length (events busy_watcher) <= event_capacity)%nat.
Proof.
  split; [reflexivity|].
  apply (watcher_invariant (fun _ => 0) (fun _ c => c = io_pressure) busy_watcher). apply busy_reachable.
Defined.

(** C21: pressure files are about a hundred bytes long, less than the 4096-byte
    buffer; then [ReadAt] always reports an end of file, which the loop takes
    for an error, so that no event is ever delivered, in any interleaving. *)
Theorem watcher_never_delivers oor (pressure : Z -> string -> Prop) w :
  (forall fd c, pressure fd c -> (String.length c < 4096)%nat) ->
  reachable watcher_init (watcher_step oor pressure) w -> events w = [].
Proof.
  intros Hp. apply (reachable_invariant _ _ (fun w => events w = [])).
  - by intros ? [us ->].
  - intros w1 w2 He Hs. destruct Hs as [ | uid typ p opened written w0 | | piped w0 | | | fd c now w0 Hd Hc | e w0 w' Hr | ];
      try done.
    + unfold AddMonitor. destruct (existsb _ _); [done|]. destruct (thresholds w0 !! typ); [|done].
      destruct opened; [|done]. by destruct written.
    + by destruct piped.
    + destruct (handle_ready_cases oor fd c now w0) as [-> | [Hl _]]; [done|]. apply Hp in Hc. lia.
    + unfold receive in Hr. by rewrite He in Hr.
Qed.

Lemma watcher_never_delivers_witness :
  is_ok (parsePSI (fun _ => 0) io_pressure) = true /\ events busy_watcher = [].
Proof.
  split; [vm_compute; reflexivity|].
  apply (watcher_never_delivers (fun _ => 0) (fun _ c => c = io_pressure) busy_watcher).
  - intros fd c ->. vm_compute. repeat constructor.
  - apply busy_reachable.
Defined.
