(* ===== verification/Tracker.v ===== *)
(** * Threshold and stability trackers
      (state/decision_engine.go: [ThresholdTracker], [UserStabilityTracker])

    The instants the code reads are arguments: [now] when the first crossing
    is recorded, [since] when the elapsed time is computed. *)

From S2P Require Import Prelude GoFloat.

#[local] Open Scope Z_scope.

Record ThresholdTracker := mkTracker {
  firstOverThresholdTime : Time;
  overThresholdCycles : Z;
  totalCycles : Z
}.

Definition newTracker : ThresholdTracker := mkTracker zero_time 0 0.

Definition Reset (t : ThresholdTracker) : ThresholdTracker := newTracker.

Definition ShouldActivateLimits (currentCPU threshold : f64) (requiredDuration : Duration)
    (now since : Time) (t : ThresholdTracker) : bool * ThresholdTracker :=
  if f_ge currentCPU threshold then
    let first := if IsZero (firstOverThresholdTime t) then now else firstOverThresholdTime t in
    let elapsed := time_sub since first in
    let t' := mkTracker first (overThresholdCycles t + 1) (totalCycles t + 1) in
    (requiredDuration <=? elapsed, t')
  else (false, mkTracker zero_time 0 (totalCycles t)).

Definition GetElapsed (since : Time) (t : ThresholdTracker) : Duration :=
  if IsZero (firstOverThresholdTime t) then 0 else time_sub since (firstOverThresholdTime t).

(** ** Stability of the limited users *)

Definition UserStabilityTracker : Type := gmap Z Z.

(** One pass over the limited users: the samples below the release threshold
    are counted, one above it resets the count; users without metrics keep
    theirs. *)
Fixpoint count_stable (limitedUsers : list Z) (ema : Z -> option f64) (release : f64)
    (under : UserStabilityTracker) : UserStabilityTracker :=
  match limitedUsers with
  | [] => under
  | uid :: rest =>
      let under := match ema uid with
                   | Some e => <[uid := if f_lt e release then default 0 (under !! uid) + 1 else 0]> under
                   | None => under
                   end in
      count_stable rest ema release under
  end.

Definition all_stable (limitedUsers : list Z) (under : UserStabilityTracker) : bool :=
  forallb (fun uid => negb (default 0 (under !! uid) <? 3)) limitedUsers.

(** ** Runs of samples *)

(** A run of the tracker over timed samples; the answers in order. *)
Fixpoint track (threshold : f64) (required : Duration) (samples : list (f64 * Time))
    (t : ThresholdTracker) : list bool * ThresholdTracker :=
  match samples with
  | [] => ([], t)
  | (x, at_) :: rest =>
      let '(b, t1) := ShouldActivateLimits x threshold required at_ at_ t in
      let '(bs, t2) := track threshold required rest t1 in
      (b :: bs, t2)
  end.

Definition over (threshold : f64) (s : f64 * Time) : Prop := f_ge s.1 threshold = true.

(** ** Lemmas *)

Lemma track_app threshold req l1 l2 t :
  track threshold req (l1 ++ l2) t =
  let '(b1, t1) := track threshold req l1 t in
  let '(b2, t2) := track threshold req l2 t1 in (b1 ++ b2, t2).
Proof.
  revert t. induction l1 as [|[x a] l1 IH]; intros t; simpl.
  - by destruct (track threshold req l2 t).
  - destruct (ShouldActivateLimits _ _ _ _ _ _) as [b t1]. rewrite IH.
    destruct (track threshold req l1 t1) as [b1 t2].
    by destruct (track threshold req l2 t2).
Qed.

Lemma track_nonempty threshold req l t : l <> [] -> (track threshold req l t).1 <> [].
Proof.
  destruct l as [|[x a] l]; [done|]. intros _. simpl.
  destruct (ShouldActivateLimits _ _ _ _ _ _). by destruct (track _ _ _ _).
Qed.

Lemma last_app_ne {A} (l1 l2 : list A) d : l2 <> [] -> List.last (l1 ++ l2) d = List.last l2 d.
Proof.
  intros H. induction l1 as [|x l1 IH]; [done|]. simpl. rewrite IH.
  destruct (l1 ++ l2) eqn:E; [|done]. by apply app_eq_nil in E as [_ ?].
Qed.

(** While the samples stay over, the first crossing is remembered. *)
Lemma track_over threshold req l t x a :
  Forall (over threshold) (l ++ [(x, a)]) -> firstOverThresholdTime t <> 0 ->
  let '(bs, t') := track threshold req (l ++ [(x, a)]) t in
  List.last bs false = (req <=? time_sub a (firstOverThresholdTime t)) /\
  firstOverThresholdTime t' = firstOverThresholdTime t.
Proof.
  revert t. induction l as [|[y b] l IH]; intros t [Hy Hl]%Forall_cons Ht; simpl;
    unfold over in Hy; simpl in Hy; unfold ShouldActivateLimits; rewrite Hy;
    unfold IsZero; rewrite (proj2 (Z.eqb_neq _ _) Ht); [done|].
  set (t1 := mkTracker _ _ _).
  specialize (IH t1 Hl). pose proof (track_nonempty threshold req (l ++ [(x, a)]) t1) as Hn.
  destruct (track threshold req (l ++ [(x, a)]) t1) as [bs t'].
  destruct IH as [H1 H2]; [done|]. split; [|done].
  destruct bs as [|b0 bs]; [|done]. exfalso. apply Hn; [|done]. by destruct l.
Qed.

Lemma track_reset threshold req pre t :
  (forall s, last pre = Some s -> ~ over threshold s) ->
  (pre = [] -> firstOverThresholdTime t = 0) ->
  firstOverThresholdTime (track threshold req pre t).2 = 0.
Proof.
  intros Hl Ht. destruct pre as [|s pre _] using rev_ind; [by apply Ht|].
  rewrite track_app. destruct (track threshold req pre t) as [b1 t1].
  destruct s as [x a]. simpl. unfold ShouldActivateLimits.
  destruct (f_ge x threshold) eqn:E; [|done]. exfalso.
  apply (Hl (x, a)); [by rewrite last_snoc|done].
Qed.

(** ** Properties *)

(** Starting from a reset tracker, after any history, the tracker asks for
    activation at a sample exactly when the uninterrupted run of samples at or
    above the threshold that ends there has lasted for the required duration. *)
Theorem tracker_window threshold req pre x0 t0 mid x t :
  Forall (over threshold) ((x0, t0) :: mid ++ [(x, t)]) ->
  (forall s, last pre = Some s -> ~ over threshold s) ->
  0 < t0 ->
  List.last (track threshold req (pre ++ (x0, t0) :: mid ++ [(x, t)]) newTracker).1 false =
  (req <=? time_sub t t0).
Proof.
  intros [H0 Hf]%Forall_cons Hpre Ht0. rewrite track_app.
  pose proof (track_reset threshold req pre newTracker Hpre (fun _ => eq_refl)) as Hr.
  destruct (track threshold req pre newTracker) as [b1 t1]. simpl in Hr. simpl.
  unfold over in H0. simpl in H0. unfold ShouldActivateLimits. rewrite H0. unfold IsZero. rewrite Hr. simpl.
  set (t2 := mkTracker _ _ _).
  pose proof (track_over threshold req mid t2 x t Hf) as K.
  pose proof (track_nonempty threshold req (mid ++ [(x, t)]) t2) as Hn.
  destruct (track threshold req (mid ++ [(x, t)]) t2) as [bs t3].
  destruct K as [K _]; [simpl; lia|]. simpl in Hn |- *.
  rewrite last_app_ne by done. destruct bs; [exfalso; apply Hn; [by destruct mid|done]|exact K].
Qed.

Lemma tracker_window_witness :
  let pct n := f64_of_Z n in
  List.last (track (pct 80) (seconds 60)
    ([(pct 90, 1000 * second); (pct 10, 1030 * second)] ++
     (pct 85, 1060 * second) :: [(pct 80, 1090 * second)] ++ [(pct 99, 1120 * second)]) newTracker).1 false =
  (seconds 60 <=? time_sub (1120 * second) (1060 * second)).
Proof.
  apply (tracker_window (f64_of_Z 80) (seconds 60) [(f64_of_Z 90, 1000 * second); (f64_of_Z 10, 1030 * second)]
           (f64_of_Z 85) (1060 * second) [(f64_of_Z 80, 1090 * second)] (f64_of_Z 99) (1120 * second)).
  - repeat constructor; vm_compute; reflexivity.
  - intros s [= <-] H. vm_compute in H. discriminate H.
  - reflexivity.
Defined.
