(* ===== verification/IORemediation.v ===== *)
(** * I/O starvation remediation
      (state/io_remediation.go)

    The boost states per user and the periodic check.  The cgroup operations
    the check uses are the interface [IORemediationDeps]; the instant each
    function reads is its argument. *)

From S2P Require Import Prelude GoFloat Config CgroupLimits.

#[local] Open Scope Z_scope.

Record IOBoostState := mkBoost {
  IsActive : bool;
  StartTime : Time;
  BoostCount : Z;
  LastBoostTime : Time;
  StarvationStart : Time
}.

(** [&IOBoostState{}]; the four [Original...] fields are never written. *)
Definition newBoost : IOBoostState := mkBoost false zero_time 0 zero_time zero_time.

Record IORemediation := mkIORemediation {
  boostStates : gmap Z IOBoostState;
  lastCheck : Time
}.

Definition NewIORemediation : IORemediation := mkIORemediation ∅ zero_time.

Class IORemediationDeps (W : Type) := {
  dep_GetPSIStats : Z -> ST W (result PSIStats);
  dep_RemoveIOLimit : Z -> ST W (option error)
}.

Section Remediation.
Context `{D : IORemediationDeps W}.

Definition RM (A : Type) : Type := ST (IORemediation * W) A.

Definition dep {A} (m : ST W A) : RM A :=
  fun '(r, w) => let '(a, w') := m w in (a, (r, w')).

Definition put_boost (uid : Z) (st : IOBoostState) : RM unit :=
  modify (fun '(r, w) => (mkIORemediation (<[uid := st]> (boostStates r)) (lastCheck r), w)).

Definition applyBoost (uid : Z) (st : IOBoostState) (now : Time) : RM unit :=
  dep (dep_RemoveIOLimit uid) ≫= fun e =>
  match e with
  | Some _ => mret tt
  | None => put_boost uid (mkBoost true now (BoostCount st + 1) now (StarvationStart st))
  end.

Definition revertBoost (uid : Z) (st : IOBoostState) : RM unit :=
  put_boost uid (mkBoost false (StartTime st) (BoostCount st) (LastBoostTime st) zero_time).

(** When the current starvation began: now, if it was not running. *)
Definition starvation_start (st : IOBoostState) (now : Time) : Time :=
  if IsZero (StarvationStart st) then now else StarvationStart st.

(** The body of the loop over the limited users. *)
Definition check_user (cfg : Config) (now : Time) (uid : Z) : RM unit :=
  gets (fun s => boostStates s.1 !! uid) ≫= fun known =>
  let state := default newBoost known in
  (if known is Some _ then mret tt else put_boost uid newBoost) ≫= fun _ =>
  dep (dep_GetPSIStats uid) ≫= fun r =>
  match r with
  | Err _ => mret tt
  | Ok psiStats =>
      if f_ge (SomeAvg10 psiStats) (IOPSIThreshold cfg) then
        let start := starvation_start state now in
        let state := mkBoost (IsActive state) (StartTime state) (BoostCount state) (LastBoostTime state) start in
        put_boost uid state ≫= fun _ =>
        if (seconds (IOStarvationThreshold cfg) <=? time_sub now start) && negb (IsActive state) then
          if IOBoostMaxPerHour cfg <=? BoostCount state then mret tt
          else applyBoost uid state now
        else if IsActive state then
          when (seconds (IOBoostDuration cfg) <=? time_sub now (StartTime state)) (revertBoost uid state)
        else mret tt
      else
        let state := mkBoost (IsActive state) (StartTime state) (BoostCount state) (LastBoostTime state) zero_time in
        put_boost uid state ≫= fun _ =>
        when (IsActive state && IORevertOnNormal cfg) (revertBoost uid state)
  end.

Definition CheckAndRemediate (cfg : Config) (limitedUsers : list Z) (now : Time) : RM unit :=
  if negb (IORemediationEnabled cfg) then mret tt
  else
    gets (fun s => lastCheck s.1) ≫= fun last_ =>
    if time_sub now last_ <? seconds (IOStarvationCheckInterval cfg) then mret tt
    else
      modify (fun '(r, w) => (mkIORemediation (boostStates r) now, w)) ≫= fun _ =>
      for_each (check_user cfg now) limitedUsers.

(** One entry of [Cleanup]: dropped, or kept with its count reset or not. *)
Definition cleanup_boost (maxAge : Duration) (now : Time) (st : IOBoostState) : option IOBoostState :=
  let age := time_sub now (LastBoostTime st) in
  if negb (IsActive st) && (maxAge <? age) then None
  else Some (mkBoost (IsActive st) (StartTime st) (if hour <? age then 0 else BoostCount st)
               (LastBoostTime st) (StarvationStart st)).

Definition Cleanup (maxAge : Duration) (now : Time) : RM unit :=
  modify (fun '(r, w) => (mkIORemediation (omap (cleanup_boost maxAge now) (boostStates r)) (lastCheck r), w)).

(** The stage of the control cycle. *)
Definition remediation_stage (cfg : Config) (limitedUsers : list Z) (now1 now2 : Time) : RM unit :=
  CheckAndRemediate cfg limitedUsers now1 ≫= fun _ => Cleanup (24 * hour) now2.

(** Only the pressure of the users is read. *)
Definition reads_only (users : list Z) (w : W) : W :=
  exec (for_each (fun uid => dep_GetPSIStats uid ≫= fun _ => mret tt) users) w.

(** ** Lemmas *)

(** A state that has never boosted. *)
Definition never_boosted (now : Time) (st : IOBoostState) : Prop :=
  IsActive st = false /\ LastBoostTime st = zero_time /\
  (StarvationStart st = zero_time \/ StarvationStart st = now).

Lemma wp_dep_exact {A} (m : ST W A) (Q : A -> IORemediation * W -> Prop) r w :
  Q (m w).1 (r, (m w).2) -> wp (dep m) Q (r, w).
Proof. unfold wp, dep. by destruct (m w). Qed.

(** With a positive threshold, a check over states without a starvation older
    than [now] applies no boost. *)
Lemma check_user_idle cfg now uid r w :
  0 < seconds (IOStarvationThreshold cfg) -> now <> 0 ->
  map_Forall (fun _ => never_boosted now) (boostStates r) ->
  wp (check_user cfg now uid)
     (fun _ s => map_Forall (fun _ => never_boosted now) (boostStates s.1) /\
                 s.2 = (dep_GetPSIStats uid w).2) (r, w).
Proof.
  intros Ht Hn Hr. unfold check_user. apply wp_bind, wp_gets. cbn [fst].
  set (st := default newBoost (boostStates r !! uid)).
  assert (never_boosted now st) as (Ha & Hl & Hs).
  { subst st. destruct (boostStates r !! uid) as [x|] eqn:E; [by apply (Hr uid)|].
    split_and!; [done|done|by left]. }
  assert (forall x r', never_boosted now x -> map_Forall (fun _ => never_boosted now) (boostStates r') ->
            map_Forall (fun _ => never_boosted now) (<[uid := x]> (boostStates r'))) as Hins.
  { intros x r' Hx Hr'. by apply map_Forall_insert_2. }
  apply wp_bind.
  apply (wp_mono _ (fun _ s => map_Forall (fun _ => never_boosted now) (boostStates s.1) /\ s.2 = w)).
  2: { destruct (boostStates r !! uid); [by apply wp_ret|]. apply wp_modify. split; [|done].
       apply Hins; [|done]. split_and!; [done|done|by left]. }
  intros _ [r1 w1] [Hr1 Hw]. simpl in Hr1, Hw. subst w1. apply wp_bind, wp_dep_exact.
  destruct (dep_GetPSIStats uid w) as [[psi|e] w2]; cbn [fst snd]; [|by apply wp_ret].
  destruct (f_ge _ _).
  - assert (starvation_start st now = now) as ->.
    { unfold starvation_start. destruct Hs as [-> | ->]; [done|]. by destruct (IsZero now). }
    apply wp_bind, wp_modify. cbn [IsActive]. rewrite Ha, time_sub_refl.
    rewrite (proj2 (Z.leb_gt _ _)) by lia. cbn [andb]. apply wp_ret. simpl. split; [|done].
    apply Hins; [|done]. split_and!; [done|done|by right].
  - apply wp_bind, wp_modify. cbn [IsActive]. rewrite Ha. cbn [andb]. apply wp_ret. simpl. split; [|done].
    apply Hins; [|done]. split_and!; [done|done|by left].
Qed.

Lemma check_users_idle cfg now users r w :
  0 < seconds (IOStarvationThreshold cfg) -> now <> 0 ->
  map_Forall (fun _ => never_boosted now) (boostStates r) ->
  wp (for_each (check_user cfg now) users)
     (fun _ s => map_Forall (fun _ => never_boosted now) (boostStates s.1) /\ s.2 = reads_only users w) (r, w).
Proof.
  intros Ht Hn. revert r w. induction users as [|u users IH]; intros r w Hr; simpl; [by apply wp_ret|].
  apply wp_bind. eapply wp_mono; [|by apply check_user_idle].
  intros [] [r1 w1] [H1 H2]. simpl in H2. subst w1.
  eapply wp_mono; [|by apply IH]. intros _ s [H3 H4]. split; [done|]. rewrite H4.
  unfold reads_only, exec. simpl. unfold mbind, ST_bind. by destruct (dep_GetPSIStats u w).
Qed.

Lemma time_since_zero now maxAge : 0 <= maxAge < max_duration -> maxAge < now -> maxAge < time_sub now zero_time.
Proof.
  intros H1 H2. unfold time_sub, zero_time, max_duration, min_duration, two63 in *. lia.
Qed.

Lemma cleanup_never_boosted maxAge now1 now2 r :
  0 <= maxAge < max_duration -> maxAge < now2 ->
  map_Forall (fun _ => never_boosted now1) (boostStates r) ->
  omap (cleanup_boost maxAge now2) (boostStates r) = ∅.
Proof.
  intros Hm Hn Hr. apply map_empty. intros uid. rewrite lookup_omap.
  destruct (boostStates r !! uid) as [st|] eqn:E; [|done]. simpl.
  destruct (Hr uid st E) as (Ha & Hl & _). unfold cleanup_boost. rewrite Ha, Hl.
  by rewrite (proj2 (Z.ltb_lt _ _) (time_since_zero now2 maxAge Hm Hn)).
Qed.

(** ** The cap on boosts *)

Definition capped (cfg : Config) (st : IOBoostState) : Prop :=
  BoostCount st <= Z.max 0 (IOBoostMaxPerHour cfg).

Lemma wp_put_capped cfg uid st (s : IORemediation * W) :
  capped cfg st -> map_Forall (fun _ => capped cfg) (boostStates s.1) ->
  wp (put_boost uid st) (fun _ s' => map_Forall (fun _ => capped cfg) (boostStates s'.1)) s.
Proof. destruct s. intros. apply wp_modify. simpl. by apply map_Forall_insert_2. Qed.

Lemma wp_dep {A} (m : ST W A) (Q : A -> IORemediation * W -> Prop) s :
  (forall a w, Q a (s.1, w)) -> wp (dep m) Q s.
Proof. intros H. destruct s as [r w]. unfold wp, dep. destruct (m w). apply H. Qed.

Lemma check_user_capped cfg now uid s :
  map_Forall (fun _ => capped cfg) (boostStates s.1) ->
  wp (check_user cfg now uid) (fun _ s' => map_Forall (fun _ => capped cfg) (boostStates s'.1)) s.
Proof.
  intros Hs. unfold check_user. apply wp_bind, wp_gets.
  set (st := default newBoost (boostStates s.1 !! uid)).
  assert (capped cfg st) as Hc.
  { subst st. destruct (boostStates s.1 !! uid) as [x|] eqn:E; [by apply (Hs uid)|].
    unfold capped. simpl. lia. }
  apply wp_bind. apply (wp_mono _ (fun _ s' => map_Forall (fun _ => capped cfg) (boostStates s'.1))).
  2: { destruct (boostStates s.1 !! uid); [by apply wp_ret|]. apply wp_put_capped; [|done].
       unfold capped. simpl. lia. }
  clearbody st. clear s Hs. intros _ s Hs. apply wp_bind, wp_dep. intros [psi|e] w; [|by apply wp_ret].
  change (boostStates s.1) with (boostStates (s.1, w).1) in Hs. revert Hs. generalize (s.1, w).
  clear s w. intros s Hs.
  destruct (f_ge _ _); apply wp_bind; (eapply wp_mono; [|apply wp_put_capped; [exact Hc|exact Hs]]);
    clear s Hs; intros [] s Hs; cbn [IsActive BoostCount].
  - destruct (_ && _).
    + destruct (IOBoostMaxPerHour cfg <=? BoostCount st) eqn:E; [by apply wp_ret|].
      apply wp_bind, wp_dep. intros [e|] w; [by apply wp_ret|]. apply wp_put_capped; [|done].
      unfold capped. simpl. bool_to_Z. lia.
    + destruct (IsActive st); [|by apply wp_ret]. apply wp_when; intros _; [|done].
      by apply wp_put_capped.
  - apply wp_when; intros _; [|done]. by apply wp_put_capped.
Qed.

Lemma stage_capped cfg users now1 now2 s :
  map_Forall (fun _ => capped cfg) (boostStates s.1) ->
  map_Forall (fun _ => capped cfg) (boostStates (exec (remediation_stage cfg users now1 now2) s).1).
Proof.
  intros Hs. apply (wp_exec _ (fun s' => map_Forall (fun _ => capped cfg) (boostStates s'.1))).
  unfold remediation_stage. apply wp_bind.
  apply (wp_mono _ (fun _ s' => map_Forall (fun _ => capped cfg) (boostStates s'.1))).
  - intros _ [r w] Hr. apply wp_modify. simpl. intros uid st'. rewrite lookup_omap.
    destruct (boostStates r !! uid) as [st|] eqn:E; [|done]. simpl. unfold cleanup_boost.
    destruct (_ && _); [done|]. intros [= <-]. unfold capped. simpl.
    specialize (Hr uid st E). unfold capped in Hr. destruct (hour <? _); lia.
  - unfold CheckAndRemediate. destruct (negb _); [by apply wp_ret|]. apply wp_bind, wp_gets.
    destruct (_ <? _); [by apply wp_ret|]. apply wp_bind. destruct s as [r w]. apply wp_modify.
    apply (wp_for_each (fun s' => map_Forall (fun _ => capped cfg) (boostStates s'.1))); [done| |done].
    intros uid s' _. apply check_user_capped.
Qed.

End Remediation.

(** The stages of a run, in order: limited users and the two instants. *)
Fixpoint remediation_run `{D : IORemediationDeps W} (cfg : Config)
    (cycles : list (list Z * Time * Time)) : RM unit :=
  match cycles with
  | [] => mret tt
  | (users, now1, now2) :: rest =>
      remediation_stage cfg users now1 now2 ≫= fun _ => remediation_run cfg rest
  end.

(** ** Properties *)

(** With a positive starvation threshold the remediation never boosts
    anyone, however long the starvation lasts: the cleanup that follows each
    check drops the timer it has just started.  A cycle leaves no state behind
    and makes no call but reading the pressure of the users. *)
Theorem remediation_never_boosts `{D : IORemediationDeps W} cfg users now1 now2 r (w : W) :
  0 < seconds (IOStarvationThreshold cfg) -> 24 * hour < now1 -> 24 * hour < now2 ->
  boostStates r = ∅ ->
  let '(r', w') := exec (remediation_stage cfg users now1 now2) (r, w) in
  boostStates r' = ∅ /\ (w' = w \/ w' = reads_only users w).
Proof.
  intros Ht H1 H2 Hr.
  enough (wp (remediation_stage cfg users now1 now2)
            (fun _ s => boostStates s.1 = ∅ /\ (s.2 = w \/ s.2 = reads_only users w)) (r, w)) as H.
  { unfold wp in H. unfold exec. by destruct (remediation_stage cfg users now1 now2 (r, w)).2. }
  assert (0 <= 24 * hour < max_duration) as Hh by (unfold hour, second, max_duration, two63; lia).
  assert (forall s, (s.2 = w \/ s.2 = reads_only users w) ->
            map_Forall (fun _ => never_boosted now1) (boostStates s.1) ->
            wp (Cleanup (W := W) (24 * hour) now2)
               (fun _ s' => boostStates s'.1 = ∅ /\ (s'.2 = w \/ s'.2 = reads_only users w)) s) as Hclean.
  { intros [r1 w1] Hw Hn. apply wp_modify. simpl. split; [|done].
    eapply cleanup_never_boosted; [exact Hh|done|exact Hn]. }
  unfold remediation_stage. apply wp_bind. unfold CheckAndRemediate.
  assert (map_Forall (fun _ => never_boosted now1) (boostStates r)) as H0 by (rewrite Hr; apply map_Forall_empty).
  destruct (negb _); [apply wp_ret, Hclean; [by left|done]|].
  apply wp_bind, wp_gets. destruct (_ <? _); [apply wp_ret, Hclean; [by left|done]|].
  apply wp_bind, wp_modify.
  eapply wp_mono; [|apply check_users_idle; [done|unfold hour, second in *; lia|exact H0]].
  intros [] s [Hs Hw]. apply Hclean; [by right|done].
Qed.

(** Users that are starved in every cycle, and a log of the removals. *)
#[local] Instance starved_deps : IORemediationDeps (list Z) := {|
  dep_GetPSIStats _ := mret (Ok (mkPSI (f64_of_Z 90) fzero fzero 0 fzero fzero fzero 0));
  dep_RemoveIOLimit uid := fun l => (None, l ++ [uid])
|}.

Definition remediation_config : Config := set_IORemediationEnabled true (DefaultConfig None).

(** Two checks ten minutes apart, users starved throughout: no removal.  With
    a zero threshold the first check would remove the limits. *)
Lemma remediation_never_boosts_witness :
  let t0 := 63000000000 * second in
  let '(r1, w1) := exec (remediation_stage remediation_config [1000] t0 t0) (NewIORemediation, []) in
  let '(r2, w2) := exec (remediation_stage remediation_config [1000] (t0 + 600 * second) (t0 + 600 * second)) (r1, w1) in
  w2 = [] /\
  (exec (remediation_stage (set_IOStarvationThreshold 0 remediation_config) [1000] t0 t0) (NewIORemediation, [])).2 = [1000] /\
  boostStates r1 = ∅ /\ (w1 = [] \/ w1 = reads_only [1000] []).
Proof.
  pose proof (remediation_never_boosts remediation_config [1000] (63000000000 * second) (63000000000 * second)
                NewIORemediation []) as H.
  cbv zeta.
  destruct (exec (remediation_stage remediation_config [1000] (63000000000 * second) (63000000000 * second))
              (NewIORemediation, [])) as [r1 w1] eqn:E1.
  vm_compute in E1. injection E1 as <- <-.
  split; [vm_compute; reflexivity|]. split; [vm_compute; reflexivity|].
  apply H; vm_compute; reflexivity.
Defined.

(** However long the run, no user ever counts more boosts than the
    configured maximum. *)
Theorem boost_count_capped `{D : IORemediationDeps W} cfg cycles (w : W) uid st :
  boostStates (exec (remediation_run cfg cycles) (NewIORemediation, w)).1 !! uid = Some st ->
  BoostCount st <= Z.max 0 (IOBoostMaxPerHour cfg).
Proof.
  assert (forall s, map_Forall (fun _ => capped cfg) (boostStates s.1) ->
            map_Forall (fun _ => capped cfg) (boostStates (exec (remediation_run (W := W) cfg cycles) s).1)) as H.
  { induction cycles as [|[[users now1] now2] cycles IH]; intros s Hs; [done|]. simpl.
    unfold exec, mbind, ST_bind in *. pose proof (stage_capped cfg users now1 now2 s Hs) as Hc.
    unfold exec in Hc. destruct (remediation_stage cfg users now1 now2 s) as [x s']. by apply IH. }
  apply (H (NewIORemediation, w)). apply map_Forall_empty.
Qed.

Lemma boost_count_capped_witness :
  let cfg := set_IOStarvationThreshold 0 remediation_config in
  let t0 := 63000000000 * second in
  exists st, boostStates (exec (remediation_run cfg [([1000], t0, t0)]) (NewIORemediation, [])).1 !! 1000 = Some st /\
    BoostCount st = 1 /\ BoostCount st <= Z.max 0 (IOBoostMaxPerHour cfg).
Proof.
  eexists. split; [vm_compute; reflexivity|]. split; [reflexivity|].
  apply (boost_count_capped (set_IOStarvationThreshold 0 remediation_config)
           [([1000], 63000000000 * second, 63000000000 * second)] [] 1000). vm_compute. reflexivity.
Defined.
