(* ===== verification/Pattern.v ===== *)
(** * Workload patterns and the policies they select
      (state/pattern_detector.go, state/policy_engine.go)

    Hourly statistics per user, the classification over binary64 floats, and
    the policy table.  The hour and the instants are arguments. *)

From S2P Require Import Prelude GoFloat Config.

#[local] Open Scope Z_scope.

Inductive WorkloadPattern :=
  | PatternUnknown
  | PatternBatchNight
  | PatternInteractiveDay
  | PatternMixed
  | PatternAlwaysOn
  | PatternSporadic.

#[export] Instance WorkloadPattern_eq_dec : EqDecision WorkloadPattern.
Proof. solve_decision. Defined.

(** ** Statistics *)

Record UserHourlyStats := mkStats {
  HourlyCPU : list f64;
  HourlyCount : list Z;
  TotalSamples : Z;
  FirstSample : Time;
  LastSample : Time
}.

Record PatternResult := mkResult { Pattern : WorkloadPattern; Confidence : f64 }.

Definition PatternDetector : Type := gmap Z UserHourlyStats.

Definition newStats (now : Time) : UserHourlyStats :=
  mkStats (replicate 24 fzero) (replicate 24 0) 0 now zero_time.

(** One sample: [first] is read when the user is new, [now] and its [hour]
    afterwards. *)
Definition add_sample (cpuUsage : f64) (hour_ : nat) (now : Time) (stats : UserHourlyStats) : UserHourlyStats :=
  let cpu := default fzero (HourlyCPU stats !! hour_) in
  let count := default 0 (HourlyCount stats !! hour_) in
  let avg := fdiv (fadd (fmul cpu (f64_of_Z count)) cpuUsage) (f64_of_Z (count + 1)) in
  mkStats (<[hour_ := avg]> (HourlyCPU stats)) (<[hour_ := count + 1]> (HourlyCount stats))
    (TotalSamples stats + 1) (FirstSample stats) now.

Definition Update (uid : Z) (cpuUsage : f64) (first now : Time) (hour_ : nat) (pd : PatternDetector) : PatternDetector :=
  let stats := default (newStats first) (pd !! uid) in
  <[uid := add_sample cpuUsage hour_ now stats]> pd.

(** ** Averages *)

Fixpoint sum_hours (values : list f64) (hours : list nat) (sum : f64) (count : Z) : f64 * Z :=
  match hours with
  | [] => (sum, count)
  | h :: rest =>
      match values !! h with
      | Some v => sum_hours values rest (fadd sum v) (count + 1)
      | None => sum_hours values rest sum count
      end
  end.

Definition average (values : list f64) (hours : list nat) : f64 :=
  let '(sum, count) := sum_hours values hours fzero 0 in
  if count =? 0 then fzero else fdiv sum (f64_of_Z count).

Fixpoint weighted_sum (values : list f64) (counts : list Z) (sum : f64) (n : Z) : f64 * Z :=
  match values, counts with
  | v :: vs, c :: cs => weighted_sum vs cs (fadd sum (fmul v (f64_of_Z c))) (n + c)
  | _, _ => (sum, n)
  end.

Definition overallAverage (values : list f64) (counts : list Z) : f64 :=
  let '(totalSum, totalCount) := weighted_sum values counts fzero 0 in
  if totalCount =? 0 then fzero else fdiv totalSum (f64_of_Z totalCount).

Fixpoint squared_diffs (mean : f64) (values : list f64) (counts : list Z) (sum : f64) (weight : Z) : f64 * Z :=
  match values, counts with
  | v :: vs, c :: cs =>
      if c >? 0 then
        let diff := fsub v mean in
        squared_diffs mean vs cs (fadd sum (fmul (fmul diff diff) (f64_of_Z c))) (weight + c)
      else squared_diffs mean vs cs sum weight
  | _, _ => (sum, weight)
  end.

Definition calculateVariance (values : list f64) (counts : list Z) : f64 :=
  let mean := overallAverage values counts in
  if f_eq mean fzero then fzero
  else
    let '(sumSquaredDiff, totalWeight) := squared_diffs mean values counts fzero 0 in
    if totalWeight =? 0 then fzero else fdiv sumSquaredDiff (f64_of_Z totalWeight).

(** ** Classification *)

Definition one : f64 := f64_of_Z 1.

Definition classify_case (nightDayRatio normalizedVariance overallAvg : f64) : PatternResult :=
  if f_gt nightDayRatio (lit 15 10) && f_gt normalizedVariance (lit 4 10) then
    mkResult PatternBatchNight
      (math_min (fadd (fmul (fdiv nightDayRatio (f64_of_Z 3)) (lit 6 10)) (fmul normalizedVariance (lit 4 10))) one)
  else if f_lt nightDayRatio (lit 5 10) && f_lt normalizedVariance (lit 3 10) && f_gt overallAvg (f64_of_Z 5) then
    mkResult PatternInteractiveDay
      (math_min (fadd (fmul (fsub one nightDayRatio) (lit 5 10)) (fmul (fsub one normalizedVariance) (lit 5 10))) one)
  else if f_gt normalizedVariance (lit 5 10) && f_gt nightDayRatio (lit 8 10) && f_lt nightDayRatio (lit 12 10) then
    mkResult PatternMixed (math_min normalizedVariance one)
  else if f_lt normalizedVariance (lit 2 10) && f_gt overallAvg (f64_of_Z 10) then
    mkResult PatternAlwaysOn (math_min (fsub one normalizedVariance) one)
  else if f_lt overallAvg (f64_of_Z 5) && f_gt normalizedVariance (lit 6 10) then
    mkResult PatternSporadic
      (math_min (fadd (fmul normalizedVariance (lit 7 10))
                      (fmul (fsub one (fdiv overallAvg (f64_of_Z 5))) (lit 3 10))) one)
  else mkResult PatternUnknown fzero.

Definition classifyPattern (stats : UserHourlyStats) (confidenceThreshold : f64) : PatternResult :=
  let nightAvg := average (HourlyCPU stats) [22; 23; 0; 1; 2; 3; 4; 5; 6]%nat in
  let dayAvg := average (HourlyCPU stats) [8; 9; 10; 11; 12; 13; 14; 15; 16; 17]%nat in
  let overallAvg := overallAverage (HourlyCPU stats) (HourlyCount stats) in
  let variance := calculateVariance (HourlyCPU stats) (HourlyCount stats) in
  let normalizedVariance := math_min (fdiv variance (f64_of_Z 50)) one in
  let nightDayRatio := if f_gt dayAvg fzero then fdiv nightAvg dayAvg else fzero in
  let r := classify_case nightDayRatio normalizedVariance overallAvg in
  if f_lt (Confidence r) confidenceThreshold then mkResult PatternUnknown fzero else r.

Definition analyze_user (cfg : Config) (stats : UserHourlyStats) : PatternResult :=
  if TotalSamples stats <? PatternMinSamples cfg then mkResult PatternUnknown fzero
  else classifyPattern stats (PatternConfidenceThreshold cfg).

Definition Analyze (cfg : Config) (pd : PatternDetector) : gmap Z PatternResult := analyze_user cfg <$> pd.

Definition pattern_Cleanup (maxAge : Duration) (now : Time) (pd : PatternDetector) : PatternDetector :=
  omap (fun stats => if maxAge <? time_sub now (LastSample stats) then None else Some stats) pd.

(** ** Policies *)

Record UserPolicy := mkPolicy {
  CPUQuota : Z;
  RAMQuota : string;
  AppliedAt : Time;
  LastChanged : Time;
  PreviousCPUQuota : Z;
  PreviousRAMQuota : string
}.

Definition PolicyEngine : Type := gmap Z UserPolicy.

Definition getQuotasForPattern (pattern : WorkloadPattern) (cfg : Config) : Z * string :=
  match pattern with
  | PatternBatchNight => (BatchNightCPUQuota cfg, BatchNightRAMQuota cfg)
  | PatternInteractiveDay => (InteractiveCPUQuota cfg, InteractiveRAMQuota cfg)
  | PatternMixed =>
      (Z.quot (wrap_i64 (BatchNightCPUQuota cfg + InteractiveCPUQuota cfg)) 2, InteractiveRAMQuota cfg)
  | PatternAlwaysOn => (InteractiveCPUQuota cfg, InteractiveRAMQuota cfg)
  | PatternSporadic => (Z.quot (InteractiveCPUQuota cfg) 2, InteractiveRAMQuota cfg)
  | PatternUnknown => (0, "")
  end.

Definition ApplyPolicy (uid : Z) (pattern : WorkloadPattern) (cfg : Config) (now : Time)
    (pe : PolicyEngine) : bool * PolicyEngine :=
  let '(cpu, ram) := getQuotasForPattern pattern cfg in
  if decide (pattern = PatternUnknown) then (false, pe)
  else match pe !! uid with
       | Some existing =>
           if (CPUQuota existing =? cpu) && String.eqb (RAMQuota existing) ram then (false, pe)
           else (true, <[uid := mkPolicy cpu ram (AppliedAt existing) now (CPUQuota existing) (RAMQuota existing)]> pe)
       | None => (true, <[uid := mkPolicy cpu ram now now 0 ""]> pe)
       end.

Definition GetPolicy (uid : Z) (pe : PolicyEngine) : option UserPolicy := pe !! uid.

Definition policy_Cleanup (maxAge : Duration) (now : Time) (pe : PolicyEngine) : PolicyEngine :=
  omap (fun p => if maxAge <? time_sub now (LastChanged p) then None else Some p) pe.

(** ** Specification *)

(** The shape of the statistics: one slot per hour, and as many samples as the
    slots count. *)
Definition stats_ok (s : UserHourlyStats) : Prop :=
  length (HourlyCPU s) = 24%nat /\ length (HourlyCount s) = 24%nat /\
  Forall (fun c => 0 <= c) (HourlyCount s) /\ TotalSamples s = foldr Z.add 0 (HourlyCount s).

(** Samples in order: user, usage, the two instants and the hour. *)
Definition record_samples (samples : list (Z * f64 * Time * Time * nat)) (pd : PatternDetector) : PatternDetector :=
  foldl (fun pd '(uid, cpu, first, now, h) => Update uid cpu first now h pd) pd samples.

(** ** Lemmas *)

Lemma foldr_add_insert (l : list Z) i x :
  (i < length l)%nat -> foldr Z.add 0 (<[i := x]> l) = foldr Z.add 0 l - default 0 (l !! i) + x.
Proof.
  revert i. induction l as [|y l IH]; intros i Hi; simpl in *; [lia|].
  destruct i as [|i]; simpl; [lia|]. rewrite IH by lia. lia.
Qed.

Lemma newStats_ok now : stats_ok (newStats now).
Proof. repeat split; repeat constructor; lia. Qed.

Lemma add_sample_ok cpu h now s : (h < 24)%nat -> stats_ok s -> stats_ok (add_sample cpu h now s).
Proof.
  intros Hh (H1 & H2 & H3 & H4). unfold add_sample, stats_ok. simpl. rewrite !length_insert.
  split_and!; [done|done| |].
  - apply Forall_insert; [done|]. destruct (HourlyCount s !! h) as [c|] eqn:E; simpl; [|lia].
    rewrite Forall_lookup in H3. specialize (H3 _ _ E). lia.
  - rewrite foldr_add_insert by lia. lia.
Qed.

Lemma record_samples_ok samples pd :
  Forall (fun '(_, _, _, _, h) => (h < 24)%nat) samples ->
  map_Forall (fun _ => stats_ok) pd -> map_Forall (fun _ => stats_ok) (record_samples samples pd).
Proof.
  intros Hs. revert pd. induction Hs as [|[[[[uid cpu] first] now] h] l Hh _ IH]; intros pd Hpd; [done|].
  simpl. apply IH. apply map_Forall_insert_2; [|done]. apply add_sample_ok; [done|].
  destruct (pd !! uid) as [s|] eqn:E; [by apply (Hpd uid)|apply newStats_ok].
Qed.

(** ** Properties *)

(** Whatever samples arrive, each user's statistics keep one slot per hour
    and the total equals the sum of the hourly counts, so that the minimum-
    sample test of the analysis counts real samples. *)
Theorem samples_counted samples :
  Forall (fun '(_, _, _, _, h) => (h < 24)%nat) samples ->
  map_Forall (fun _ => stats_ok) (record_samples samples ∅).
Proof. intros H. apply record_samples_ok; [done|apply map_Forall_empty]. Qed.

Lemma samples_counted_witness :
  map_Forall (fun _ => stats_ok)
    (record_samples [(1000, f64_of_Z 40, 1, 2, 3%nat); (1000, f64_of_Z 60, 1, 3, 3%nat); (1001, fzero, 4, 4, 23%nat)] ∅).
Proof.
  apply (samples_counted [(1000, f64_of_Z 40, 1, 2, 3%nat); (1000, f64_of_Z 60, 1, 3, 3%nat); (1001, fzero, 4, 4, 23%nat)]).
  repeat constructor; lia.
Defined.

(** The analysis commits to a pattern only with enough samples and a
    confidence that is not below the threshold nor above 1; without one the
    confidence is 0. *)
Theorem Analyze_confident cfg pd uid r :
  Analyze cfg pd !! uid = Some r ->
  exists stats, pd !! uid = Some stats /\
    if decide (Pattern r = PatternUnknown) then Confidence r = fzero
    else PatternMinSamples cfg <= TotalSamples stats /\
         f_lt (Confidence r) (PatternConfidenceThreshold cfg) = false /\
         f_gt (Confidence r) one = false.
Proof.
  unfold Analyze. rewrite lookup_fmap. intros (stats & Hs & ->)%fmap_Some.
  exists stats. split; [done|]. unfold analyze_user.
  destruct (TotalSamples stats <? PatternMinSamples cfg) eqn:E; [done|]. bool_to_Z.
  unfold classifyPattern. destruct (f_lt _ _) eqn:El; [done|].
  revert El. unfold classify_case.
  repeat match goal with |- context [if ?b then mkResult _ _ else _] => destruct b end;
    intros El; cbn [Pattern Confidence] in *; (destruct (decide _) as [e|n]; [by try discriminate e|]);
    (split; [done|]); (split; [done|]); first [by apply math_min_not_gt | by destruct n].
Qed.

(** Nights at 90% and idle days: recognised as a night batch. *)
Lemma Analyze_confident_witness :
  let night h := (1000, f64_of_Z 90, 1, 1, h) in
  let day h := (1000, f64_of_Z 5, 1, 1, h) in
  let samples := (night <$> [22; 23; 0; 1; 2; 3; 4; 5; 6]%nat) ++ (day <$> [8; 9; 10; 11; 12; 13; 14; 15; 16; 17]%nat) in
  let cfg := set_PatternMinSamples 10 (DefaultConfig None) in
  exists r stats, Analyze cfg (record_samples samples ∅) !! 1000 = Some r /\ Pattern r = PatternBatchNight /\
    record_samples samples ∅ !! 1000 = Some stats /\
    if decide (Pattern r = PatternUnknown) then Confidence r = fzero
    else PatternMinSamples cfg <= TotalSamples stats /\
         f_lt (Confidence r) (PatternConfidenceThreshold cfg) = false /\
         f_gt (Confidence r) one = false.
Proof.
  cbv zeta.
  edestruct (Analyze_confident (set_PatternMinSamples 10 (DefaultConfig None))
    (record_samples (((fun h => (1000, f64_of_Z 90, 1, 1, h)) <$> [22; 23; 0; 1; 2; 3; 4; 5; 6]%nat) ++
       ((fun h => (1000, f64_of_Z 5, 1, 1, h)) <$> [8; 9; 10; 11; 12; 13; 14; 15; 16; 17]%nat)) ∅) 1000)
    as (stats & H1 & H2).
  - vm_compute. reflexivity.
  - eexists _, stats. split; [vm_compute; reflexivity|]. split; [reflexivity|]. split; [exact H1|exact H2].
Defined.

(** A policy is reported as changed exactly when the stored quotas differ
    from those of the pattern, after which the stored ones are those of the
    pattern; applying it again changes nothing, and an unknown pattern never
    does. *)
Theorem ApplyPolicy_spec uid pattern cfg now now' pe :
  let '(changed, pe') := ApplyPolicy uid pattern cfg now pe in
  let quotas := getQuotasForPattern pattern cfg in
  (changed = true <-> pattern <> PatternUnknown /\
     ~ exists p, pe !! uid = Some p /\ (CPUQuota p, RAMQuota p) = quotas) /\
  (changed = true -> exists p, GetPolicy uid pe' = Some p /\ (CPUQuota p, RAMQuota p) = quotas) /\
  (changed = false -> pe' = pe) /\
  ApplyPolicy uid pattern cfg now' pe' = (false, pe').
Proof.
  unfold ApplyPolicy, GetPolicy, PolicyEngine in *. destruct (getQuotasForPattern pattern cfg) as [cpu ram].
  destruct (decide (pattern = PatternUnknown)) as [->|Hp]; [naive_solver|].
  destruct (pe !! uid) as [p|] eqn:E.
  - destruct ((CPUQuota p =? cpu) && String.eqb (RAMQuota p) ram) eqn:Eq.
    + pose proof Eq as Eq'. apply andb_true_iff in Eq as [H1%Z.eqb_eq H2%String.eqb_eq]. subst.
      rewrite E, Eq'. split_and!; try done. split; [done|]. intros [_ H]. exfalso. apply H. eauto.
    + cbv beta iota zeta. rewrite lookup_insert_eq. cbn [CPUQuota RAMQuota]. rewrite Z.eqb_refl, String.eqb_refl. simpl. split_and!; try done.
      * split; [|done]. intros _. split; [done|]. intros (q & [= <-] & [= H1 H2]). subst.
        by rewrite Z.eqb_refl, String.eqb_refl in Eq.
      * intros _. by eexists.
  - cbv beta iota zeta. rewrite lookup_insert_eq. cbn [CPUQuota RAMQuota]. rewrite Z.eqb_refl, String.eqb_refl. simpl. split_and!; try done.
    + split; [|done]. intros _. split; [done|]. by intros (q & ? & _).
    + intros _. by eexists.
Qed.
