(* ===== verification/StateBase.v ===== *)
(** * The state manager: data, environment and monad
      (state/manager.go: [Manager] and its three dependency interfaces,
       state/control_cycle.go: [SystemMetrics], [ControlCycleEntry],
       state/limit_hook.go: [limitHookEvent])

    An operation of the manager runs in [SM W = ST (StateManager * W)].  The
    Go interfaces [CgroupManager], [MetricsCollector] and [PrometheusExporter]
    are classes over the world [W], with the clock, the pressure watcher and
    the user filters.

    A goroutine the manager starts becomes a [Task] of the list [pending]; the
    [Scheduler] of the world chooses which task runs next, and [WaitGroup.Wait]
    runs them all.  The order in which a [range] loop visits the keys of a Go
    map is chosen by the world ([MapOrder]); a map the collector returns is a
    list of pairs in that order. *)

From S2P Require Import Prelude GoStrings GoFloat GoNumbers Config Blackout CgroupLimits Tracker IORemediation Pattern.

#[local] Open Scope Z_scope.

(** ** Data *)

Record UserMetrics := mkUserMetrics {
  um_UID : Z;
  Username : string;
  CPUUsage : f64;
  CPUUsageAverage : f64;
  CPUUsageEMA : f64;
  MemoryUsage : Z;
  ProcessCount : Z;
  IsLimited : bool;
  IOReadBytes : Z;
  IOWriteBytes : Z;
  IOReadOps : Z;
  IOWriteOps : Z
}.

Record SystemMetrics := mkMetrics {
  sm_Timestamp : Time;
  TotalCores : Z;
  TotalCPUUsage : f64;
  AllUsersCPUUsage : f64;
  AllUsersMemoryUsage : Z;
  AllUsersCount : Z;
  LimitedUsersCPUUsage : f64;
  LimitedUsersMemoryUsage : Z;
  LimitedUsersCount : Z;
  LimitedUsersRAMUsageBytes : Z;
  LimitedUsersIOWriteBytes : Z;
  sm_MemoryUsage : f64;
  TotalMemoryMB : f64;
  CachedMemoryMB : f64;
  SystemUnderLoad : bool;
  UserCPUUsage : gmap Z f64;
  sm_UserMetrics : list (Z * UserMetrics);
  EligibleUsers : list Z
}.

(** The decisions, and the reasons the manager logs and records with them. *)
Inductive Decision :=
  | ACTIVATE_LIMITS
  | MAINTAIN_CURRENT_STATE
  | DEACTIVATE_LIMITS.

Inductive Reason :=
  | WaitingMinActiveTime
  | AllBelowRelease (cpu : f64) (release : Z)
  | WaitingStability
  | BelowButUnderLoad
  | StillAboveRelease
  | InsufficientCores (total min : Z)
  | UnderLoad
  | WaitingDuration (remaining : Duration) (cpu : f64) (threshold : Z)
  | ThresholdExceeded (cpu : option (f64 * Z)) (ram io : option Z)
  | NormalRange.

Record ControlCycleEntry := mkEntry {
  e_Timestamp : Time;
  e_Decision : Decision;
  e_Reason : Reason;
  e_TotalCPUUsage : f64;
  e_UserCPUUsage : f64;
  e_ActiveUsers : Z;
  e_LimitsActive : bool;
  e_DurationMs : Z
}.

Record limitHookEvent := mkHookEvent {
  h_UID : Z;
  h_Username : string;
  h_CPUUsage : f64;
  h_LimitedUsers : Z;
  h_SharedCgroup : string;
  h_Timestamp : Time;
  h_ServerRole : string
}.

(** The three goroutines of the manager that change cgroups. *)
Inductive Task :=
  | ReleaseTask (uid : Z) (sharedPath : string)
  | ReAddTask (uid : Z) (sharedPath : string)
  | LimitTask (uid weight : Z) (sharedPath : string) (cfg : Config).

Record StateManager := mkState {
  s_cfg : Config;
  limitsActive : bool;
  limitsAppliedTime : Time;
  activeUsers : gset Z;
  sharedCgroupPath : string;
  thresholdTracker : ThresholdTracker;
  ioThresholdTracker : ThresholdTracker;
  stabilityTracker : UserStabilityTracker;
  lastPatternAnalysis : Time;
  ioRemediation : IORemediation;
  patternDetector : PatternDetector;
  policyEngine : PolicyEngine;
  controlHist : list ControlCycleEntry;
  prevIOBytes : gmap Z Z;
  prevIOTime : Time;
  psiBoostedAt : gmap Z Time;
  hasExporter : bool;
  hasPSIWatcher : bool;
  pending : list Task;
  hooks : list limitHookEvent
}.

Definition State_eta (m : StateManager) : StateManager := mkState
  (s_cfg m) (limitsActive m) (limitsAppliedTime m) (activeUsers m) (sharedCgroupPath m) (thresholdTracker m) (ioThresholdTracker m) (stabilityTracker m) (lastPatternAnalysis m) (ioRemediation m) (patternDetector m) (policyEngine m) (controlHist m) (prevIOBytes m) (prevIOTime m) (psiBoostedAt m) (hasExporter m) (hasPSIWatcher m) (pending m) (hooks m).

Definition set_s_cfg : Config -> StateManager -> StateManager := ltac:(setter State_eta s_cfg).

Definition set_limitsActive : bool -> StateManager -> StateManager := ltac:(setter State_eta limitsActive).

Definition set_limitsAppliedTime : Time -> StateManager -> StateManager := ltac:(setter State_eta limitsAppliedTime).

Definition set_activeUsers : (gset Z) -> StateManager -> StateManager := ltac:(setter State_eta activeUsers).

Definition set_sharedCgroupPath : string -> StateManager -> StateManager := ltac:(setter State_eta sharedCgroupPath).

Definition set_thresholdTracker : ThresholdTracker -> StateManager -> StateManager := ltac:(setter State_eta thresholdTracker).

Definition set_ioThresholdTracker : ThresholdTracker -> StateManager -> StateManager := ltac:(setter State_eta ioThresholdTracker).

Definition set_stabilityTracker : UserStabilityTracker -> StateManager -> StateManager := ltac:(setter State_eta stabilityTracker).

Definition set_lastPatternAnalysis : Time -> StateManager -> StateManager := ltac:(setter State_eta lastPatternAnalysis).

Definition set_ioRemediation : IORemediation -> StateManager -> StateManager := ltac:(setter State_eta ioRemediation).

Definition set_patternDetector : PatternDetector -> StateManager -> StateManager := ltac:(setter State_eta patternDetector).

Definition set_policyEngine : PolicyEngine -> StateManager -> StateManager := ltac:(setter State_eta policyEngine).

Definition set_controlHist : (list ControlCycleEntry) -> StateManager -> StateManager := ltac:(setter State_eta controlHist).

Definition set_prevIOBytes : (gmap Z Z) -> StateManager -> StateManager := ltac:(setter State_eta prevIOBytes).

Definition set_prevIOTime : Time -> StateManager -> StateManager := ltac:(setter State_eta prevIOTime).

Definition set_psiBoostedAt : (gmap Z Time) -> StateManager -> StateManager := ltac:(setter State_eta psiBoostedAt).

Definition set_hasExporter : bool -> StateManager -> StateManager := ltac:(setter State_eta hasExporter).

Definition set_hasPSIWatcher : bool -> StateManager -> StateManager := ltac:(setter State_eta hasPSIWatcher).

Definition set_pending : (list Task) -> StateManager -> StateManager := ltac:(setter State_eta pending).

Definition set_hooks : (list limitHookEvent) -> StateManager -> StateManager := ltac:(setter State_eta hooks).

(** ** Environment *)

(** [local_time]: the civil time of an instant in the time zone of the host. *)
Class Clock (W : Type) := { time_Now : ST W Time; local_time : W -> Time -> Civil }.

Class CgroupManager (W : Type) := {
  cg_ApplyCPULimit : Z -> string -> ST W (option error);
  cg_ApplyCPUWeight : Z -> Z -> ST W (option error);
  cg_ApplyRAMLimit : Z -> string -> ST W (option error);
  cg_ApplyRAMLimitWithHigh : Z -> string -> string -> ST W (option error);
  cg_ApplyRAMLimitWithHighAndSwapDisabled : Z -> string -> string -> ST W (option error);
  cg_RemoveRAMLimit : Z -> ST W (option error);
  cg_RemoveRAMHigh : Z -> ST W (option error);
  cg_ApplyIOLimit : Z -> string -> string -> Z -> Z -> string -> ST W (option error);
  cg_RemoveIOLimit : Z -> ST W (option error);
  cg_GetUserCgroupMetrics : Z -> ST W (result (string * string * Z * (Z * Z * Z * Z)));
  cg_GetPSIStats : Z -> ST W (result PSIStats);
  cg_MoveAllUserProcessesToSharedCgroup : Z -> string -> ST W (option error);
  cg_ReleaseUserFromSharedCgroup : Z -> string -> ST W (option error);
  cg_CreateSharedCgroup : ST W (result string);
  cg_ApplySharedCPULimit : string -> string -> ST W (option error);
  cg_CreateUserSubCgroup : Z -> string -> ST W (result string);
  cg_CleanupAll : ST W (option error)
}.

Class MetricsCollector (W : Type) := {
  mc_GetTotalCores : ST W Z;
  mc_GetTotalCPUUsage : ST W f64;
  mc_GetLimitedUsers : ST W (list Z);
  mc_GetMemoryUsage : ST W f64;
  mc_GetTotalMemoryMB : ST W f64;
  mc_GetCachedMemoryMB : ST W f64;
  mc_IsSystemUnderLoad : ST W bool;
  mc_GetAllUserMetrics : ST W (list (Z * UserMetrics));
  mc_ShouldWrite : ST W (option bool);
  mc_WriteMetricsToDatabase : list (Z * UserMetrics) -> f64 -> Z -> f64 -> bool -> Z -> ST W unit;
  mc_GetUsernameFromUID : Z -> ST W string
}.

(** The figures exported for one user. *)
Record UserExport := mkUserExport {
  x_uid : Z;
  x_username : string;
  x_metrics : UserMetrics;
  x_isLimited : bool;
  x_cgroupPath : string;
  x_cpuQuota : string;
  x_memoryHighEvents : Z;
  x_io : Z * Z * Z * Z
}.

Class PrometheusExporter (W : Type) := {
  px_UpdateMetrics : list (string * f64) -> ST W unit;
  px_UpdateUserMetrics : UserExport -> ST W unit;
  px_UpdateSystemMetrics : Z -> Z -> f64 -> ST W unit;
  px_UpdateUserWorkloadPattern : Z -> string -> WorkloadPattern -> f64 -> ST W unit;
  px_RecordControlCycleTrigger : string -> ST W unit;
  px_CleanupUserMetrics : list Z -> ST W unit;
  px_IncrementLimitsActivated : ST W unit;
  px_IncrementLimitsDeactivated : ST W unit;
  px_Stop : ST W unit
}.

Class PressureMonitoring (W : Type) := {
  psi_AddMonitor : Z -> string -> string -> ST W (option error);
  psi_RemoveMonitor : Z -> string -> ST W unit
}.

(** [IsUserWhitelistedForRAM] and [IsUserWhitelistedForIO], with the cache of
    compiled patterns in the world. *)
Class UserFilters (W : Type) := {
  uf_RAM : Config -> string -> ST W bool;
  uf_IO : Config -> string -> ST W bool
}.

(** The files the manager touches itself: the shared cgroup it removes and
    the load average. *)
Class ManagerFiles (W : Type) := {
  mf_RemoveAll : string -> ST W (option error);
  mf_ReadLoadAvg : ST W (result string)
}.

(** The index of the pending task that runs next. *)
Class Scheduler (W : Type) := { next_task : nat -> ST W nat }.

(** The keys of a Go map or set in the order a [range] loop visits them. *)
Class MapOrder (W : Type) := {
  range_keys : gset Z -> ST W (list Z);
  range_keys_perm : forall s w, eval (range_keys s) w ≡ₚ elements s
}.

(** [env_oor]: the value of a float-to-integer conversion out of range. *)
Class Env (W : Type) := {
  #[global] env_clock :: Clock W;
  #[global] env_cgroups :: CgroupManager W;
  #[global] env_metrics :: MetricsCollector W;
  #[global] env_exporter :: PrometheusExporter W;
  #[global] env_psi :: PressureMonitoring W;
  #[global] env_filters :: UserFilters W;
  #[global] env_files :: ManagerFiles W;
  #[global] env_sched :: Scheduler W;
  #[global] env_order :: MapOrder W;
  env_oor : f64 -> Z
}.

#[export] Instance cgroup_remediation `{CgroupManager W} : IORemediationDeps W := {|
  dep_GetPSIStats := cg_GetPSIStats;
  dep_RemoveIOLimit := cg_RemoveIOLimit
|}.

(** ** Monad *)

Definition SM (W A : Type) : Type := ST (StateManager * W) A.

Definition env {W A} (m : ST W A) : SM W A :=
  fun '(s, w) => let '(a, w') := m w in (a, (s, w')).

Definition read {W A} (f : StateManager -> A) : SM W A := fun s => (f s.1, s).

Definition update {W} (f : StateManager -> StateManager) : SM W unit := modify (fun '(s, w) => (f s, w)).

(** Run and drop the result. *)
Definition ignore {S A} (m : ST S A) : ST S unit := m ≫= fun _ => mret tt.

(** [defaultPath]: [NewManager]. *)
Definition NewStateManager (cfg : Config) (exporter : bool) : StateManager :=
  mkState cfg false zero_time ∅ "" newTracker newTracker ∅ zero_time NewIORemediation ∅ ∅ [] ∅ zero_time ∅
    exporter false [] [].

Section Manager.
Context {W : Type} {E : Env W}.

Definition getUsername (uid : Z) : SM W string := env (mc_GetUsernameFromUID uid).

Definition find_username (username : string) (l : list (Z * UserMetrics)) : Z :=
  match List.find (fun p => String.eqb (Username p.2) username) l with
  | Some (uid, _) => uid
  | None => 0
  end.

Definition GetUIDFromUsername (username : string) : SM W Z :=
  if String.eqb username "" then mret 0
  else env mc_GetAllUserMetrics ≫= fun l => mret (find_username username l).

Definition isUserLimited (uid : Z) : SM W bool := read (fun m => bool_decide (uid ∈ activeUsers m)).

Definition getLoadAverage : SM W (result f64) :=
  env mf_ReadLoadAvg ≫= fun r =>
  mret match r with
       | Err e => Err e
       | Ok data =>
           match Fields data with
           | [] => Err "invalid loadavg format"
           | f :: _ => ParseFloatE f
           end
       end.

Definition boolToFloat (b : bool) : f64 := if b then f64_of_Z 1 else fzero.

Definition UpdateConfig (newConfig : option Config) : SM W unit :=
  match newConfig with None => mret tt | Some c => update (set_s_cfg c) end.

Definition RegisterPSIWatcher : SM W unit := update (set_hasPSIWatcher true).

Definition isMissingUserCgroupError (e : option error) : bool :=
  match e with
  | None => false
  | Some e => Contains e "cgroup for UID" && Contains e "not found"
  end.

(** ** Tasks *)

Definition shouldApplyRAMLimits (uid : Z) : SM W bool :=
  read s_cfg ≫= fun cfg =>
  if negb (RAMEnabled cfg) then mret false
  else getUsername uid ≫= fun username => env (uf_RAM cfg username).

Definition shouldApplyIOLimits (uid : Z) : SM W bool :=
  read s_cfg ≫= fun cfg =>
  if negb (IOEnabled cfg) then mret false
  else getUsername uid ≫= fun username => env (uf_IO cfg username).

End Manager.

(** ** Rules *)

Section Rules.
Context {W : Type}.

Lemma wp_env {A} (m : ST W A) (Q : A -> StateManager * W -> Prop) s :
  (forall a w, Q a (s.1, w)) -> wp (env m) Q s.
Proof. intros H. destruct s as [s w]. unfold wp, env. destruct (m w). apply H. Qed.

(** A range loop sees each key once, in some order. *)
Lemma wp_range `{MapOrder W} (keys : gset Z) (Q : list Z -> StateManager * W -> Prop) s :
  (forall l w, l ≡ₚ elements keys -> Q l (s.1, w)) -> wp (env (range_keys keys)) Q s.
Proof.
  intros HQ. destruct s as [s w]. pose proof (range_keys_perm keys w) as Hp.
  unfold wp, env, eval in *. destruct (range_keys keys w). by apply HQ.
Qed.

Lemma elem_of_range (keys : gset Z) l x : l ≡ₚ elements keys -> x ∈ l <-> x ∈ keys.
Proof. intros ->. apply elem_of_elements. Qed.

Lemma wp_read {A} (f : StateManager -> A) (Q : A -> StateManager * W -> Prop) s :
  Q (f s.1) s -> wp (read f) Q s.
Proof. done. Qed.

Lemma wp_update (f : StateManager -> StateManager) (Q : unit -> StateManager * W -> Prop) s :
  Q tt (f s.1, s.2) -> wp (update f) Q s.
Proof. by destruct s. Qed.

Lemma wp_ignore {S A} (m : ST S A) (Q : unit -> S -> Prop) s :
  wp m (fun _ s' => Q tt s') s -> wp (ignore m) Q s.
Proof. intros H. unfold ignore. apply wp_bind. eapply wp_mono; [|exact H]. intros a s' Hs. by apply wp_ret. Qed.

End Rules.

(** The environment never changes the manager's own state. *)
Ltac sm_step :=
  match goal with
  | |- wp (env (range_keys _)) _ _ => apply wp_range; intros
  | |- wp (env _) _ _ => apply wp_env; intros
  | |- wp (read _) _ _ => apply wp_read
  | |- wp (update _) _ _ => apply wp_update
  | |- wp (ignore _) _ _ => apply wp_ignore
  | |- wp (getUsername _) _ _ => unfold getUsername; apply wp_env; intros
  | _ => wp_step
  end; cbn beta.
