(* ===== verification/Recorder.v ===== *)
(** * A concrete environment of the state manager

    The world keeps the clock, the metrics the collector returns, and the list
    of the cgroup operations it was asked for, most recent first; [r_fault]
    makes an operation fail, and [r_picks] schedules the tasks.  It plays the role of the mocks of
    state/manager_test.go: the witnesses of the state files run in it. *)

From S2P Require Import Prelude GoStrings GoFloat Config Blackout CgroupLimits Pattern StateBase.

#[local] Open Scope Z_scope.

Inductive Call :=
  | CallCPULimit (uid : Z) (quota : string)
  | CallCPUWeight (uid weight : Z)
  | CallRAMLimit (uid : Z) (max : string) (high : option string) (noSwap : bool)
  | CallRemoveRAM (uid : Z)
  | CallRemoveRAMHigh (uid : Z)
  | CallIOLimit (uid : Z) (readBPS writeBPS : string)
  | CallRemoveIO (uid : Z)
  | CallMoveAll (uid : Z) (sharedPath : string)
  | CallRelease (uid : Z) (sharedPath : string)
  | CallCreateShared
  | CallSharedLimit (sharedPath quota : string)
  | CallCreateSub (uid : Z) (sharedPath : string)
  | CallCleanupAll
  | CallRemoveAll (path : string)
  | CallMonitor (uid : Z) (type path : string)
  | CallUnmonitor (uid : Z) (type : string).

Record Recorder := mkRecorder {
  r_now : Time;
  r_cores : Z;
  r_cpu : f64;
  r_underLoad : bool;
  r_users : list (Z * UserMetrics);
  r_calls : list Call;
  r_fault : Call -> option error;
  r_picks : list nat
}.

(** The operation is recorded, then succeeds or fails. *)
Definition record_call (c : Call) : ST Recorder (option error) := fun r =>
  (r_fault r c, mkRecorder (r_now r) (r_cores r) (r_cpu r) (r_underLoad r) (r_users r) (c :: r_calls r) (r_fault r) (r_picks r)).

Definition next_pick (n : nat) : ST Recorder nat := fun r =>
  (hd 0%nat (r_picks r),
   mkRecorder (r_now r) (r_cores r) (r_cpu r) (r_underLoad r) (r_users r) (r_calls r) (r_fault r) (tail (r_picks r))).

Definition record_path (c : Call) (path : string) : ST Recorder (result string) :=
  record_call c ≫= fun e => mret match e with Some e => Err e | None => Ok path end.

Definition limited_of (l : list (Z * UserMetrics)) : list Z := map fst (List.filter (fun p => IsLimited p.2) l).

(** Universal time: 1970-01-01, day 719162 since year 1, was a Thursday. *)
Definition utc (t : Time) : Civil :=
  let day := t / (24 * hour) in mkCivil day ((day + 1) mod 7) ((t / hour) mod 24).

#[export] Instance recorder_clock : Clock Recorder := {| time_Now := gets r_now; local_time _ := utc |}.

#[export] Instance recorder_cgroups : CgroupManager Recorder := {|
  cg_ApplyCPULimit uid q := record_call (CallCPULimit uid q);
  cg_ApplyCPUWeight uid w := record_call (CallCPUWeight uid w);
  cg_ApplyRAMLimit uid l := record_call (CallRAMLimit uid l None false);
  cg_ApplyRAMLimitWithHigh uid l h := record_call (CallRAMLimit uid l (Some h) false);
  cg_ApplyRAMLimitWithHighAndSwapDisabled uid l h := record_call (CallRAMLimit uid l (Some h) true);
  cg_RemoveRAMLimit uid := record_call (CallRemoveRAM uid);
  cg_RemoveRAMHigh uid := record_call (CallRemoveRAMHigh uid);
  cg_ApplyIOLimit uid r w _ _ _ := record_call (CallIOLimit uid r w);
  cg_RemoveIOLimit uid := record_call (CallRemoveIO uid);
  cg_GetUserCgroupMetrics uid := mret (Err ("cgroup for UID " +:+ Itoa uid +:+ " not found"));
  cg_GetPSIStats uid := mret (Err "no pressure file");
  cg_MoveAllUserProcessesToSharedCgroup uid p := record_call (CallMoveAll uid p);
  cg_ReleaseUserFromSharedCgroup uid p := record_call (CallRelease uid p);
  cg_CreateSharedCgroup := record_path CallCreateShared "/sys/fs/cgroup/resman/limited";
  cg_ApplySharedCPULimit p q := record_call (CallSharedLimit p q);
  cg_CreateUserSubCgroup uid p := record_path (CallCreateSub uid p) (p +:+ "/user_" +:+ Itoa uid);
  cg_CleanupAll := record_call CallCleanupAll
|}.

#[export] Instance recorder_metrics : MetricsCollector Recorder := {|
  mc_GetTotalCores := gets r_cores;
  mc_GetTotalCPUUsage := gets r_cpu;
  mc_GetLimitedUsers := gets (fun r => limited_of (r_users r));
  mc_GetMemoryUsage := mret fzero;
  mc_GetTotalMemoryMB := mret fzero;
  mc_GetCachedMemoryMB := mret fzero;
  mc_IsSystemUnderLoad := gets r_underLoad;
  mc_GetAllUserMetrics := gets r_users;
  mc_ShouldWrite := mret None;
  mc_WriteMetricsToDatabase _ _ _ _ _ _ := mret tt;
  mc_GetUsernameFromUID uid := mret ("u" +:+ Itoa uid)
|}.

#[export] Instance recorder_exporter : PrometheusExporter Recorder := {|
  px_UpdateMetrics _ := mret tt;
  px_UpdateUserMetrics _ := mret tt;
  px_UpdateSystemMetrics _ _ _ := mret tt;
  px_UpdateUserWorkloadPattern _ _ _ _ := mret tt;
  px_RecordControlCycleTrigger _ := mret tt;
  px_CleanupUserMetrics _ := mret tt;
  px_IncrementLimitsActivated := mret tt;
  px_IncrementLimitsDeactivated := mret tt;
  px_Stop := mret tt
|}.

#[export] Instance recorder_psi : PressureMonitoring Recorder := {|
  psi_AddMonitor uid t p := record_call (CallMonitor uid t p);
  psi_RemoveMonitor uid t := ignore (record_call (CallUnmonitor uid t))
|}.

#[export] Instance recorder_filters : UserFilters Recorder := {|
  uf_RAM _ _ := mret true;
  uf_IO _ _ := mret true
|}.

#[export] Instance recorder_files : ManagerFiles Recorder := {|
  mf_RemoveAll p := record_call (CallRemoveAll p);
  mf_ReadLoadAvg := mret (Err "no load average")
|}.

(** [r_picks] is the schedule; the oldest task runs when it is exhausted. *)
#[export] Instance recorder_sched : Scheduler Recorder := {| next_task := next_pick |}.

#[export] Instance recorder_order : MapOrder Recorder := {|
  range_keys s := mret (elements s);
  range_keys_perm s w := reflexivity (elements s)
|}.

#[export] Instance recorder_env : Env Recorder := {| env_clock := recorder_clock; env_oor _ := 0 |}.

(** A user with a given CPU usage, for the examples. *)
Definition user_at (uid : Z) (cpu : Z) (eligible : bool) : Z * UserMetrics :=
  (uid, mkUserMetrics uid ("u" +:+ Itoa uid) (f64_of_Z cpu) (f64_of_Z cpu) (f64_of_Z cpu) 0 1 eligible 0 0 0 0).

Definition site (now cores : Z) (users : list (Z * UserMetrics)) : Recorder :=
  mkRecorder now cores (f64_of_Z 50) false users [] (fun _ => None) [].

(** ** A recorded call is never forgotten *)

Definition remembers {A} (m : ST Recorder A) : Prop :=
  forall c r, c ∈ r_calls r -> c ∈ r_calls (exec m r).

Lemma remembers_record c : remembers (record_call c).
Proof. intros c' r Hc. unfold exec. simpl. by right. Qed.

Lemma remembers_gets {A} (f : Recorder -> A) : remembers (gets f).
Proof. by intros c r Hc. Qed.

Lemma remembers_ret {A} (a : A) : remembers (mret a).
Proof. by intros c r Hc. Qed.

Lemma remembers_pick n : remembers (next_pick n).
Proof. by intros c r Hc. Qed.

Lemma remembers_bind {A B} (m : ST Recorder A) (f : A -> ST Recorder B) :
  remembers m -> (forall a, remembers (f a)) -> remembers (m ≫= f).
Proof.
  intros Hm Hf c r Hc. specialize (Hm c r Hc). unfold exec, mbind, ST_bind in *.
  destruct (m r) as [a r']. by apply Hf.
Qed.

#[export] Hint Resolve remembers_record remembers_gets remembers_ret remembers_pick : resman.

(** The same for the operations of the manager. *)
Definition recalls {A} (m : SM Recorder A) : Prop :=
  forall c s, c ∈ r_calls s.2 -> c ∈ r_calls (exec m s).2.

Lemma recalls_env {A} (m : ST Recorder A) : remembers m -> recalls (env m).
Proof.
  intros Hm c [s r] Hc. specialize (Hm c r Hc). unfold exec, env in *. simpl in *. by destruct (m r).
Qed.

Lemma recalls_ret {A} (a : A) : recalls (mret a).
Proof. by intros c r Hc. Qed.

Lemma recalls_read {A} (f : StateManager -> A) : recalls (read f).
Proof. by intros c r Hc. Qed.

Lemma recalls_update f : recalls (update f).
Proof. by intros c [s r] Hc. Qed.

Lemma recalls_bind {A B} (m : SM Recorder A) (f : A -> SM Recorder B) :
  recalls m -> (forall a, recalls (f a)) -> recalls (m ≫= f).
Proof.
  intros Hm Hf c s Hc. specialize (Hm c s Hc). unfold exec, mbind, ST_bind in *.
  destruct (m s) as [a s']. by apply Hf.
Qed.

Lemma recalls_ignore {A} (m : SM Recorder A) : recalls m -> recalls (ignore m).
Proof. intros. apply recalls_bind; [done|]. intros a. apply recalls_ret. Qed.

Lemma recalls_when b (m : SM Recorder unit) : recalls m -> recalls (when b m).
Proof. destruct b; [done|]. intros _. apply recalls_ret. Qed.

Lemma recalls_for_each {A} (f : A -> SM Recorder unit) l : (forall a, recalls (f a)) -> recalls (for_each f l).
Proof. intros Hf. induction l; [apply recalls_ret|]. by apply recalls_bind. Qed.

Lemma recalls_fold {A B} (f : B -> A -> SM Recorder B) l b : (forall b a, recalls (f b a)) -> recalls (fold_st f b l).
Proof. intros Hf. revert b. induction l; intros b; [apply recalls_ret|]. by apply recalls_bind. Qed.

(** Every element a loop visits leaves its call behind. *)
Lemma recalls_in_loop {A B} (f : B -> A -> SM Recorder B) l b (call : A -> Call) x s :
  (forall b a, recalls (f b a)) -> (forall b a s, call a ∈ r_calls (exec (f b a) s).2) ->
  x ∈ l -> call x ∈ r_calls (exec (fold_st f b l) s).2.
Proof.
  intros Hf Hc. revert b s. induction l as [|y l IH]; intros b s Hx; [by apply elem_of_nil in Hx|].
  unfold exec. cbn [fold_st]. unfold mbind, ST_bind.
  destruct (f b y s) as [b' s'] eqn:Ef. apply elem_of_cons in Hx as [->|Hx].
  - apply (recalls_fold f l b' Hf). specialize (Hc b y s). unfold exec in Hc. by rewrite Ef in Hc.
  - by apply IH.
Qed.

Ltac recalls_using tac :=
  repeat first
    [ tac | apply recalls_ret | apply recalls_read | apply recalls_update | apply recalls_ignore
    | apply recalls_when | apply recalls_for_each; intros ? | apply recalls_fold; intros ? ?
    | apply recalls_bind; [|intros ?]
    | apply recalls_env; repeat (apply remembers_bind; [|intros ?]); solve [auto with resman]
    | match goal with
      | |- recalls (match ?x with _ => _ end) => destruct x
      | |- recalls (if ?x then _ else _) => destruct x
      end
    | assumption ].

Ltac recalls := recalls_using fail.
