(* ===== verification/Prometheus.v ===== *)
(** * The Prometheus exporter
      (metrics/prometheus.go)

    A series is the name of a metric with the values of its labels; gauges and
    counters are one map from series to numbers (the labels [hostname] and
    [server_role], constant for a process, are left out), histograms the list
    of what they observed.  An operation runs in [XM W = ST (Exporter * W)].
    The HTTP server itself belongs to net/http; the checks made on a request,
    and the states of the server, are modelled.  [jwt_Parse] is the token library. *)

From S2P Require Import Prelude GoStrings GoFloat GoNumbers ProcFiles Config Blackout ConfigLoad OS Pattern StateBase.

#[local] Open Scope Z_scope.

(** ** State *)

Definition Series : Type := string * list string.

Record ioStatsSnapshot := mkSnapshot {
  ReadBytes : Z;
  WriteBytes : Z;
  ReadOps : Z;
  WriteOps : Z
}.

Definition no_snapshot : ioStatsSnapshot := mkSnapshot 0 0 0 0.

(** [stopPending]: a signal waits in [stopChan], whose capacity is one. *)
Record Exporter := mkExporter {
  e_cfg : Config;
  series : gmap Series f64;
  observations : list (string * f64);
  activeUserMetrics : gset string;
  prevMemoryHighEvents : gmap string Z;
  prevIOStats : gmap string ioStatsSnapshot;
  prevUserPatterns : gmap string string;
  lastUpdate : Time;
  isRunning : bool;
  stopPending : bool;
  basicAuthPassword : string;
  jwtSecret : string;
  tlsCertFile : string;
  tlsKeyFile : string;
  tlsCAFile : string
}.

Definition updateInterval : Duration := 15 * second.

Definition Exporter_eta (e : Exporter) : Exporter :=
  mkExporter (e_cfg e) (series e) (observations e) (activeUserMetrics e) (prevMemoryHighEvents e) (prevIOStats e)
    (prevUserPatterns e) (lastUpdate e) (isRunning e) (stopPending e) (basicAuthPassword e) (jwtSecret e)
    (tlsCertFile e) (tlsKeyFile e) (tlsCAFile e).

Definition set_series : gmap Series f64 -> Exporter -> Exporter := ltac:(setter Exporter_eta series).

Definition set_observations : list (string * f64) -> Exporter -> Exporter := ltac:(setter Exporter_eta observations).

Definition set_activeUserMetrics : gset string -> Exporter -> Exporter := ltac:(setter Exporter_eta activeUserMetrics).

Definition set_prevMemoryHighEvents : gmap string Z -> Exporter -> Exporter :=
  ltac:(setter Exporter_eta prevMemoryHighEvents).

Definition set_prevIOStats : gmap string ioStatsSnapshot -> Exporter -> Exporter := ltac:(setter Exporter_eta prevIOStats).

Definition set_prevUserPatterns : gmap string string -> Exporter -> Exporter := ltac:(setter Exporter_eta prevUserPatterns).

Definition set_lastUpdate : Time -> Exporter -> Exporter := ltac:(setter Exporter_eta lastUpdate).

Definition set_isRunning : bool -> Exporter -> Exporter := ltac:(setter Exporter_eta isRunning).

Definition set_stopPending : bool -> Exporter -> Exporter := ltac:(setter Exporter_eta stopPending).

Definition set_basicAuthPassword : string -> Exporter -> Exporter := ltac:(setter Exporter_eta basicAuthPassword).

Definition set_jwtSecret : string -> Exporter -> Exporter := ltac:(setter Exporter_eta jwtSecret).

Definition set_tlsCertFile : string -> Exporter -> Exporter := ltac:(setter Exporter_eta tlsCertFile).

Definition set_tlsKeyFile : string -> Exporter -> Exporter := ltac:(setter Exporter_eta tlsKeyFile).

Definition set_tlsCAFile : string -> Exporter -> Exporter := ltac:(setter Exporter_eta tlsCAFile).

(** ** Series *)

(** [WithLabelValues(labels).Set(value)]. *)
Definition gauge (name : string) (labels : list string) (value : f64) (e : Exporter) : Exporter :=
  set_series (<[(name, labels) := value]> (series e)) e.

(** [WithLabelValues(labels).Add(value)]. *)
Definition count (name : string) (labels : list string) (value : f64) (e : Exporter) : Exporter :=
  set_series (<[(name, labels) := fadd (default fzero (series e !! (name, labels))) value]> (series e)) e.

Definition inc (name : string) (labels : list string) : Exporter -> Exporter := count name labels (f64_of_Z 1).

Definition Observe (name : string) (value : f64) (e : Exporter) : Exporter :=
  set_observations ((name, value) :: observations e) e.

(** [DeleteLabelValues]. *)
Definition delete_series (s : Series) (e : Exporter) : Exporter := set_series (delete s (series e)) e.

(** [parseCPUQuota]: quota and period, -1 for "max" and for another format. *)
Definition parse_or_zero (s : string) : Z := default 0 (Atoi s).

Definition parseCPUQuota (quotaStr : string) : Z * Z :=
  match Fields quotaStr with
  | [q; p] => (if String.eqb q "max" then -1 else parse_or_zero q, parse_or_zero p)
  | _ => (-1, -1)
  end.

Definition user_key (uidStr username : string) : string := uidStr +:+ String "_" username.

(** The substring after the first occurrence of a byte, if any. *)
Fixpoint after_byte (c : ascii) (s : string) : option string :=
  match s with
  | EmptyString => None
  | String x s' => if Ascii.eqb c x then Some s' else after_byte c s'
  end.

(** [updateCgroupMetric]: the first "_" of the key is taken for the end of its
    prefix. *)
Definition updateCgroupMetric (key : string) (value : f64) (name : string) (e : Exporter) : Exporter :=
  if negb (mem ":"%char key) then e
  else match after_byte "_"%char key with
       | None => e
       | Some remaining =>
           match after_byte ":"%char remaining with
           | None => e
           | Some cgroupPath => gauge name [before ":"%char remaining; cgroupPath] value e
           end
       end.

(** ** Passing an operation through the deltas of a counter *)

Definition high_events (uidStr username : string) (events : Z) (e : Exporter) : Exporter :=
  let key := user_key uidStr username in
  let prev := default 0 (prevMemoryHighEvents e !! key) in
  let e := if events >? prev
           then count "userMemoryHighEvents" [uidStr; username] (f64_of_Z (events - prev)) e else e in
  set_prevMemoryHighEvents (<[key := events]> (prevMemoryHighEvents e)) e.

Definition io_delta (name : string) (labels : list string) (now prev : Z) (e : Exporter) : Exporter :=
  if now >=? prev then count name labels (f64_of_Z (now - prev)) e else e.

Definition io_stats (uidStr username : string) (io : ioStatsSnapshot) (e : Exporter) : Exporter :=
  let key := user_key uidStr username in
  let prev := default no_snapshot (prevIOStats e !! key) in
  let labels := [uidStr; username] in
  let e := io_delta "userIOReadBytes" labels (ReadBytes io) (ReadBytes prev) e in
  let e := io_delta "userIOWriteBytes" labels (WriteBytes io) (WriteBytes prev) e in
  let e := io_delta "userIOReadOps" labels (ReadOps io) (ReadOps prev) e in
  let e := io_delta "userIOWriteOps" labels (WriteOps io) (WriteOps prev) e in
  set_prevIOStats (<[key := io]> (prevIOStats e)) e.

Definition cgroup_series (uidStr cgroupPath cpuQuota : string) (memory : Z) (e : Exporter) : Exporter :=
  if String.eqb cgroupPath "" then e
  else
    let e :=
      if String.eqb cpuQuota "" then e
      else
        let '(quota, period) := parseCPUQuota cpuQuota in
        let e := if quota >=? 0 then gauge "cgroupCPUQuota" [uidStr; cgroupPath] (f64_of_Z quota) e else e in
        if period >? 0 then gauge "cgroupCPUPeriod" [uidStr; cgroupPath] (f64_of_Z period) e else e in
    gauge "cgroupMemoryUsage" [uidStr; cgroupPath] (f64_of_Z memory) e.

(** [UpdateUserMetrics] under the lock, with the name and the memory of the
    cgroup it read before. *)
Definition update_user (x : UserExport) (uidStr username : string) (cgroupMemory : Z) (e : Exporter) : Exporter :=
  let m := x_metrics x in
  let labels := [uidStr; username] in
  let e := set_activeUserMetrics ({[user_key uidStr username]} ∪ activeUserMetrics e) e in
  let e := gauge "userCPUUsage" labels (CPUUsage m) e in
  let e := gauge "userCPUUsageAverage" labels (CPUUsageAverage m) e in
  let e := gauge "userCPUUsageEMA" labels (CPUUsageEMA m) e in
  let e := gauge "userMemoryUsage" labels (f64_of_Z (MemoryUsage m)) e in
  let e := gauge "userProcessCount" labels (f64_of_Z (ProcessCount m)) e in
  let e := gauge "userLimited" labels (if x_isLimited x then f64_of_Z 1 else fzero) e in
  let e := high_events uidStr username (x_memoryHighEvents x) e in
  let '(rb, wb, ro, wo) := x_io x in
  let e := io_stats uidStr username (mkSnapshot rb wb ro wo) e in
  cgroup_series uidStr (x_cgroupPath x) (x_cpuQuota x) cgroupMemory e.

(** The families [CleanupUserMetrics] deletes. *)
Definition cleaned_families : list string :=
  ["userCPUUsage"; "userMemoryUsage"; "userProcessCount"; "userLimited"; "userMemoryHighEvents";
   "userIOReadBytes"; "userIOWriteBytes"; "userIOReadOps"; "userIOWriteOps"].

Definition remove_user (userKey uidStr username : string) (e : Exporter) : Exporter :=
  let e := foldl (fun e name => delete_series (name, [uidStr; username]) e) e cleaned_families in
  let e := match prevUserPatterns e !! userKey with
           | Some p => delete_series ("userWorkloadPattern", [uidStr; username; p]) e
           | None => e
           end in
  let key := user_key uidStr username in
  let e := set_prevMemoryHighEvents (delete key (prevMemoryHighEvents e)) e in
  let e := set_prevIOStats (delete key (prevIOStats e)) e in
  let e := set_prevUserPatterns (delete userKey (prevUserPatterns e)) e in
  set_activeUserMetrics (activeUserMetrics e ∖ {[userKey]}) e.

Definition cleanup_key (activeUids : list Z) (e : Exporter) (userKey : string) : Exporter :=
  match SplitN2 userKey "_"%char with
  | [uidStr; username] =>
      match Atoi uidStr with
      | None => e
      | Some uid => if bool_decide (uid ∈ activeUids) then e else remove_user userKey uidStr username e
      end
  | _ => e
  end.

(** The loop deletes series of distinct users: its order is of no account. *)
Definition cleanup_users (activeUids : list Z) (e : Exporter) : Exporter :=
  foldl (cleanup_key activeUids) e (elements (activeUserMetrics e)).

(** ** Credentials and access *)

Definition uses_basic (cfg : Config) : bool :=
  String.eqb (PrometheusAuthType cfg) "basic" || String.eqb (PrometheusAuthType cfg) "both".

Definition uses_jwt (cfg : Config) : bool :=
  String.eqb (PrometheusAuthType cfg) "jwt" || String.eqb (PrometheusAuthType cfg) "both".

(** What a handler reads of a request: the credentials of [BasicAuth()] and the
    Authorization header. *)
Record Request := mkRequest {
  rq_basic : option (string * string);
  rq_authorization : string
}.

(** Claims of a token: the ones that are strings. *)
Definition Claims : Type := string -> option string.

Section Access.
Context (jwt_Parse : string -> string -> option Claims).

Definition checkBasicAuth (e : Exporter) (r : Request) : bool :=
  match rq_basic r with
  | None => false
  | Some (username, password) =>
      String.eqb username (PrometheusAuthUsername (e_cfg e)) && String.eqb password (basicAuthPassword e)
  end.

Definition claim_matches (expected : string) (claim : option string) : bool :=
  String.eqb expected "" || match claim with Some c => String.eqb c expected | None => false end.

Definition checkJWTAuth (e : Exporter) (r : Request) : bool :=
  if String.eqb (rq_authorization r) "" then false
  else match Split (rq_authorization r) " "%char with
       | [bearer; token] =>
           if negb (String.eqb bearer "Bearer") then false
           else match jwt_Parse token (jwtSecret e) with
                | None => false
                | Some claims =>
                    claim_matches (PrometheusJWTIssuer (e_cfg e)) (claims "iss") &&
                    claim_matches (PrometheusJWTAudience (e_cfg e)) (claims "aud")
                end
       | _ => false
       end.

(** Does the middleware pass the request on to the metrics? *)
Definition authMiddleware (e : Exporter) (r : Request) : bool :=
  if String.eqb (PrometheusAuthType (e_cfg e)) "none" || String.eqb (PrometheusAuthType (e_cfg e)) "" then true
  else
    let authenticated := uses_basic (e_cfg e) && checkBasicAuth e r in
    authenticated || (uses_jwt (e_cfg e) && checkJWTAuth e r).

End Access.

(** ** Operations *)

Section Exporter.
Context {W : Type} `{O : OS W} `{C : Clock W}.

Definition XM (A : Type) : Type := ST (Exporter * W) A.

Definition outside {A} (m : ST W A) : XM A := fun '(e, w) => let '(a, w') := m w in (a, (e, w')).

Definition exporter {A} (f : Exporter -> A) : XM A := fun s => (f s.1, s).

Definition change (f : Exporter -> Exporter) : XM unit := modify (fun '(e, w) => (f e, w)).

(** [loadCredentials]; what is loaded before an error stays. *)
Definition load_file (path label : string) (store : string -> Exporter -> Exporter) : XM (option error) :=
  if String.eqb path "" then mret None
  else
    outside (os_ReadFile path) ≫= fun r =>
    match r with
    | Err e => mret (Some ("failed to read " +:+ label +:+ " file: " +:+ e))
    | Ok content => change (store (TrimSpace content)) ≫= fun _ => mret None
    end.

Definition find_file (path label : string) (store : string -> Exporter -> Exporter) : XM (option error) :=
  if String.eqb path "" then mret None
  else
    outside (os_Stat path) ≫= fun r =>
    match r with
    | Some _ => mret (Some (label +:+ " file not found: " +:+ path))
    | None => change (store path) ≫= fun _ => mret None
    end.

(** The first error ends the sequence. *)
Fixpoint until_error (l : list (XM (option error))) : XM (option error) :=
  match l with
  | [] => mret None
  | m :: l' => m ≫= fun r => match r with Some e => mret (Some e) | None => until_error l' end
  end.

Definition later_credentials (cfg : Config) : list (XM (option error)) :=
  [(if uses_jwt cfg then load_file (PrometheusJWTSecretFile cfg) "JWT secret" set_jwtSecret else mret None);
   (if PrometheusTLSEnabled cfg then find_file (PrometheusTLSCertFile cfg) "TLS certificate" set_tlsCertFile else mret None);
   (if PrometheusTLSEnabled cfg then find_file (PrometheusTLSKeyFile cfg) "TLS key" set_tlsKeyFile else mret None);
   (if PrometheusTLSEnabled cfg then find_file (PrometheusTLSCAFile cfg) "TLS CA" set_tlsCAFile else mret None)].

Definition loadCredentials : XM (option error) :=
  exporter e_cfg ≫= fun cfg =>
  until_error
    ((if uses_basic cfg then load_file (PrometheusAuthPasswordFile cfg) "password" set_basicAuthPassword else mret None)
     :: later_credentials cfg).

Definition new_exporter (cfg : Config) : Exporter :=
  mkExporter cfg ∅ [] ∅ ∅ ∅ ∅ zero_time false false "" "" "" "" "".

(** [NewPrometheusExporter]: [None] when the exporter is disabled; an error of
    the credentials is only logged. *)
Definition NewPrometheusExporter (cfg : Config) : ST W (result (option Exporter)) :=
  if negb (EnablePrometheus cfg) then mret (Ok None)
  else if (PrometheusMetricsBindPort cfg <=? 0) || (PrometheusMetricsBindPort cfg >? 65535) then
    mret (Err ("invalid Prometheus metrics bind port " +:+ Itoa (PrometheusMetricsBindPort cfg) +:+ " (must be 1-65535)"))
  else fun w => let '(_, (e, w')) := loadCredentials (new_exporter cfg, w) in (Ok (Some e), w').

Fixpoint passwd_lookup (id : string) (lines : list string) : option string :=
  match lines with
  | [] => None
  | line :: rest =>
      match Split line ":"%char with
      | name :: _ :: f :: _ => if String.eqb id f then Some name else passwd_lookup id rest
      | _ => passwd_lookup id rest
      end
  end.

Definition getUsernameFromUID (uidStr : string) : XM string :=
  match Atoi uidStr with
  | None => mret "unknown"
  | Some uid =>
      outside (os_ReadFile "/etc/passwd") ≫= fun r =>
      mret match r with
           | Err _ => uidStr
           | Ok content => default uidStr (passwd_lookup (Itoa uid) (ScanLines content))
           end
  end.

Definition resolve_name (uidStr username : string) : XM string :=
  if String.eqb username "" || String.eqb username uidStr then getUsernameFromUID uidStr else mret username.

Definition getCgroupMemoryUsage (cgroupPath : string) : XM Z :=
  outside (os_ReadFile (filepath_Join [cgroupPath; "memory.current"])) ≫= fun r =>
  mret match r with
       | Err _ => 0
       | Ok data => parse_or_zero (TrimSpace data)
       end.

(** The gauges of the machine [UpdateMetrics] knows by their key. *)
Definition plain_gauges : list (string * string) :=
  [("cpu_total_usage", "cpuTotalUsage"); ("all_users_cpu_usage", "allUsersCPUUsage"); ("all_users_count", "allUsersCount");
   ("limited_users", "limitedUsers"); ("limited_users_cpu_usage", "limitedUsersCPUUsage");
   ("limited_users_count", "limitedUsersCount"); ("memory_usage_mb", "memoryUsage"); ("total_memory_mb", "totalMemoryMB");
   ("cached_memory_mb", "cachedMemoryMB"); ("all_users_memory_usage", "allUsersMemoryUsage");
   ("limited_users_memory_usage", "limitedUsersMemoryUsage"); ("limits_active", "limitsActive");
   ("system_load", "systemLoad"); ("total_cores", "totalCores")].

Definition user_gauge (name : string) (uid : option string) (value : f64) : XM unit :=
  match uid with
  | None => mret tt
  | Some uid => getUsernameFromUID uid ≫= fun username => change (gauge name [uid; username] value)
  end.

Definition update_metric (p : string * f64) : XM unit :=
  let '(key, value) := p in
  match List.find (fun g => String.eqb g.1 key) plain_gauges with
  | Some (_, name) => change (gauge name [] value)
  | None =>
      let parts := Split key "_"%char in
      if HasPrefix key "user_cpu_usage_" then user_gauge "userCPUUsage" (nth_error parts 3) value
      else if HasPrefix key "user_memory_usage_" then
        user_gauge "userMemoryUsage" (nth_error parts 3)
          (if HasSuffix key "_mb" then fmul (fmul value (f64_of_Z 1024)) (f64_of_Z 1024) else value)
      else if HasPrefix key "user_limited_" then user_gauge "userLimited" (nth_error parts 2) value
      else if HasPrefix key "cgroup_cpu_quota_" then change (updateCgroupMetric key value "cgroupCPUQuota")
      else if HasPrefix key "cgroup_cpu_period_" then change (updateCgroupMetric key value "cgroupCPUPeriod")
      else if HasPrefix key "cgroup_memory_usage_" then change (updateCgroupMetric key value "cgroupMemoryUsage")
      else if String.eqb key "control_cycle_duration" then change (Observe "controlCycleDuration" value)
      else if String.eqb key "metrics_collection_duration" then change (Observe "metricsCollectionDuration" value)
      else mret tt
  end.

(** The map of metrics is given in the order the loop visits it. *)
Definition UpdateMetrics (metrics : list (string * f64)) : XM unit :=
  outside time_Now ≫= fun now =>
  exporter lastUpdate ≫= fun last =>
  if time_sub now last <? updateInterval then mret tt
  else
    change (set_lastUpdate now) ≫= fun _ =>
    change (inc "controlCyclesTotal" []) ≫= fun _ =>
    for_each update_metric metrics.

Definition UpdateUserMetrics (x : UserExport) : XM unit :=
  let uidStr := Itoa (x_uid x) in
  resolve_name uidStr (x_username x) ≫= fun username =>
  (if String.eqb (x_cgroupPath x) "" then mret 0 else getCgroupMemoryUsage (x_cgroupPath x)) ≫= fun memory =>
  change (update_user x uidStr username (wrap_u64 memory)).

Definition CleanupUserMetrics (activeUids : list Z) : XM unit := change (cleanup_users activeUids).

Definition UpdateSystemMetrics (totalCores actionCores : Z) (systemLoad : f64) : XM unit :=
  change (fun e => gauge "systemLoad" [] systemLoad
                     (gauge "actionCores" [] (f64_of_Z actionCores) (gauge "totalCores" [] (f64_of_Z totalCores) e))).

Definition set_pattern (userKey uidStr username pattern : string) (confidence : f64) (e : Exporter) : Exporter :=
  let e := match prevUserPatterns e !! userKey with
           | Some prev =>
               if String.eqb prev pattern then e else delete_series ("userWorkloadPattern", [uidStr; username; prev]) e
           | None => e
           end in
  set_prevUserPatterns (<[userKey := pattern]> (prevUserPatterns e))
    (gauge "userWorkloadPattern" [uidStr; username; pattern] confidence e).

Definition UpdateUserWorkloadPattern (uid : Z) (username pattern : string) (confidence : f64) : XM unit :=
  let uidStr := Itoa uid in
  resolve_name uidStr username ≫= fun username =>
  change (set_pattern (user_key uidStr username) uidStr username pattern confidence).

Definition IncrementLimitsActivated : XM unit := change (inc "limitsActivatedTotal" []).

Definition IncrementLimitsDeactivated : XM unit := change (inc "limitsDeactivatedTotal" []).

Definition or_unknown (s : string) : string := if String.eqb s "" then "unknown" else s.

Definition RecordControlCycleTrigger (trigger : string) : XM unit :=
  change (inc "controlCycleTriggers" [or_unknown trigger]).

(** Seconds since the Unix epoch. *)
Definition Unix (t : Time) : Z := t / second - 62135596800.

Definition RecordPSIEvent (typ scope : string) (timestamp : Time) : XM unit :=
  (if IsZero timestamp then outside time_Now else mret timestamp) ≫= fun timestamp =>
  change (inc "psiEventsTotal" [or_unknown typ; or_unknown scope]) ≫= fun _ =>
  change (gauge "psiLastEventTimestamp" [or_unknown typ; or_unknown scope] (f64_of_Z (Unix timestamp))).

Definition RecordControlCycleDuration (duration : Duration) : XM unit :=
  change (Observe "controlCycleDuration" (dur_seconds duration)).

Definition RecordMetricsCollectionDuration (duration : Duration) : XM unit :=
  change (Observe "metricsCollectionDuration" (dur_seconds duration)).

Definition RecordError (component errorType : string) : XM unit := change (inc "errorsTotal" [component; errorType]).

(** *** The server *)

(** [Start] without the goroutines, and whether the server can listen: TLS needs
    a certificate and a key. *)
Definition Start : XM (option error) :=
  exporter isRunning ≫= fun running =>
  if running : bool then mret (Some "exporter already running")
  else change (set_isRunning true) ≫= fun _ => mret None.

Definition can_listen (e : Exporter) : bool :=
  negb (PrometheusTLSEnabled (e_cfg e)) || (negb (String.eqb (tlsCertFile e) "") && negb (String.eqb (tlsKeyFile e) "")).

(** The goroutine that waits for the context, a listening error or [stopChan]. *)
Definition shutdown : XM unit := change (fun e => if isRunning e then set_isRunning false e else e).

Definition take_stop : XM unit :=
  exporter stopPending ≫= fun pending => when pending (change (set_stopPending false) ≫= fun _ => shutdown).

Definition Stop : XM (option error) :=
  exporter stopPending ≫= fun pending =>
  if pending : bool then mret (Some "stop already in progress")
  else change (set_stopPending true) ≫= fun _ => mret None.

Definition IsRunning : XM bool := exporter isRunning.

Definition metrics_endpoint (cfg : Config) : string :=
  "http://" +:+ PrometheusMetricsBindHost cfg +:+ ":" +:+ Itoa (PrometheusMetricsBindPort cfg) +:+ "/metrics".

Definition GetMetricsEndpoint : XM string := exporter (fun e => metrics_endpoint (e_cfg e)).

End Exporter.

Arguments XM W A : clear implicits.
