(* ===== verification/CollectorBase.v ===== *)
(** * The metrics collector: state, sensors and caches
      (metrics/collector.go: [Collector], the three caches and their clean-up;
       metrics/db_writer.go)

    An operation of the collector runs in [CM W = ST (Collector * W)], where
    the world [W] answers gopsutil ([Sensors]), the files ([OS]), the process
    table ([Processes]) and the clock.  A range loop over a map visits its
    entries in the order the world chooses ([MapVisit]).

    The cache holds values of any type; a reader asserts the type it expects.
    A failed assertion is a panic: it sets [panicked], and what the operation
    does next is of no interest.  [collector_ok] shows that it never happens. *)

From S2P Require Import Prelude GoStrings GoFloat GoNumbers ProcFiles Config Blackout ConfigLoad OS UserFilter CgroupBase CgroupProcess StateBase.

#[local] Open Scope Z_scope.

(** ** Sensors *)

(** [cpu.TimesStat]. *)
Record TimesStat := mkTimes {
  t_User : f64;
  t_Nice : f64;
  t_System : f64;
  t_Idle : f64;
  t_Iowait : f64;
  t_Irq : f64;
  t_Softirq : f64;
  t_Steal : f64
}.

Record VirtualMemory := mkVirtualMemory {
  vm_Total : Z;
  vm_Used : Z;
  vm_Cached : Z
}.

(** The calls of gopsutil; an operation on a process names it by its
    identifier. *)
Class Sensors (W : Type) := {
  cpu_Counts : ST W (result Z);
  cpu_Percent : ST W (result (list f64));
  cpu_Times : ST W (result (list TimesStat));
  mem_VirtualMemory : ST W (result VirtualMemory);
  host_BootTime : ST W (result Z);
  process_NewProcess : Z -> ST W (result unit);
  proc_Times : Z -> ST W (result TimesStat);
  proc_RSS : Z -> ST W (result Z);
  proc_CreateTime : Z -> ST W (result Z);
  proc_Status : Z -> ST W (result (list string))
}.

Class MapVisit (W : Type) := {
  visit : forall {K A : Type} `{Countable K}, gmap K A -> ST W (list (K * A));
  visit_perm : forall {K A : Type} `{Countable K} (m : gmap K A) w, eval (visit m) w ≡ₚ map_to_list m
}.

(** The rows the writer hands to the database. *)
Record UserMetricsRecord := mkUserRecord {
  r_UID : Z;
  r_Username : string;
  r_CPUUsagePercent : f64;
  r_MemoryUsageBytes : Z;
  r_ProcessCount : Z;
  r_CgroupPath : string;
  r_CPUQuota : string;
  r_IsLimited : bool;
  r_Timestamp : Time
}.

Record SystemMetricsRecord := mkSystemRecord {
  r_TotalCPUUsagePercent : f64;
  r_TotalCores : Z;
  r_SystemLoad : f64;
  r_LimitsActive : bool;
  r_LimitedUsersCount : Z;
  r_SystemTimestamp : Time
}.

Class Database (W : Type) := {
  db_WriteUserMetrics : UserMetricsRecord -> ST W (option error);
  db_WriteSystemMetrics : SystemMetricsRecord -> ST W (option error)
}.

(** [hasDatabase]: is [dbManager] set? *)
Record DBWriter := mkDBWriter {
  hasDatabase : bool;
  writeInterval : Duration;
  lastWriteTime : Time;
  enabled : bool
}.

(** ** State *)

(** The values of the general cache. *)
Inductive CacheVal :=
  | VInt (n : Z)
  | VFloat (x : f64)
  | VUint (n : Z)
  | VBool (b : bool)
  | VUsers (l : list Z)
  | VMetrics (m : gmap Z UserMetrics).

Definition as_int (v : CacheVal) : option Z := match v with VInt n => Some n | _ => None end.

Definition as_float (v : CacheVal) : option f64 := match v with VFloat x => Some x | _ => None end.

Definition as_uint (v : CacheVal) : option Z := match v with VUint n => Some n | _ => None end.

Definition as_bool (v : CacheVal) : option bool := match v with VBool b => Some b | _ => None end.

Definition as_users (v : CacheVal) : option (list Z) := match v with VUsers l => Some l | _ => None end.

Definition as_metrics (v : CacheVal) : option (gmap Z UserMetrics) := match v with VMetrics m => Some m | _ => None end.

Record Collector `{RE : Regexp} := mkCollector {
  c_cfg : Config;
  c_regexCache : regexCache;
  cache : gmap string CacheVal;
  cacheTimestamps : gmap string Time;
  prevCPUStats : TimesStat;
  prevCPUTime : Time;
  prevProcCPU : gmap Z TimesStat;
  prevProcTime : gmap Z Time;
  emaValues : gmap Z f64;
  dbWriter : option DBWriter;
  usernameCache : gmap Z string;
  usernameCacheTime : gmap Z Time;
  usernameCacheTTL : Duration;
  panicked : bool
}.

Definition minute : Duration := 60 * second.

Definition DEFAULT_USERNAME_CACHE_TTL : Duration := 60 * minute.

Definition MAX_CACHE_SIZE : Z := 10000.

Definition MAX_PROC_CACHE_SIZE : Z := 5000.

Definition MAX_USERNAME_CACHE_SIZE : Z := 10000.

Definition map_size {K A} `{Countable K} (m : gmap K A) : Z := Z.of_nat (size m).

Section State.
Context `{RE : Regexp}.

Definition Collector_eta (c : Collector) : Collector :=
  mkCollector _ (c_cfg c) (c_regexCache c) (cache c) (cacheTimestamps c) (prevCPUStats c) (prevCPUTime c)
    (prevProcCPU c) (prevProcTime c) (emaValues c) (dbWriter c) (usernameCache c) (usernameCacheTime c)
    (usernameCacheTTL c) (panicked c).

Definition set_c_cfg : Config -> Collector -> Collector := ltac:(setter Collector_eta c_cfg).

Definition set_c_regexCache : regexCache -> Collector -> Collector := ltac:(setter Collector_eta c_regexCache).

Definition set_caches (v : gmap string CacheVal) (t : gmap string Time) (c : Collector) : Collector :=
  mkCollector _ (c_cfg c) (c_regexCache c) v t (prevCPUStats c) (prevCPUTime c) (prevProcCPU c) (prevProcTime c)
    (emaValues c) (dbWriter c) (usernameCache c) (usernameCacheTime c) (usernameCacheTTL c) (panicked c).

Definition set_prevCPUStats : TimesStat -> Collector -> Collector := ltac:(setter Collector_eta prevCPUStats).

Definition set_prevCPUTime : Time -> Collector -> Collector := ltac:(setter Collector_eta prevCPUTime).

Definition set_procs (v : gmap Z TimesStat) (t : gmap Z Time) (c : Collector) : Collector :=
  mkCollector _ (c_cfg c) (c_regexCache c) (cache c) (cacheTimestamps c) (prevCPUStats c) (prevCPUTime c) v t
    (emaValues c) (dbWriter c) (usernameCache c) (usernameCacheTime c) (usernameCacheTTL c) (panicked c).

Definition set_emaValues : gmap Z f64 -> Collector -> Collector := ltac:(setter Collector_eta emaValues).

Definition set_dbWriter : option DBWriter -> Collector -> Collector := ltac:(setter Collector_eta dbWriter).

Definition set_usernames (v : gmap Z string) (t : gmap Z Time) (c : Collector) : Collector :=
  mkCollector _ (c_cfg c) (c_regexCache c) (cache c) (cacheTimestamps c) (prevCPUStats c) (prevCPUTime c)
    (prevProcCPU c) (prevProcTime c) (emaValues c) (dbWriter c) v t (usernameCacheTTL c) (panicked c).

Definition set_usernameCacheTTL : Duration -> Collector -> Collector := ltac:(setter Collector_eta usernameCacheTTL).

Definition set_panicked : bool -> Collector -> Collector := ltac:(setter Collector_eta panicked).

End State.

(** ** Operations on the caches *)

(** The eviction loops: the earliest of the entries before [t0], if any. *)
Fixpoint oldest {K} (t0 : Time) (k0 : option K) (l : list (K * Time)) : option K :=
  match l with
  | [] => k0
  | (k, ts) :: l' => if ts <? t0 then oldest ts (Some k) l' else oldest t0 k0 l'
  end.

(** With the [first] flag: the earliest of all entries. *)
Definition oldest_of_all {K} (l : list (K * Time)) : option K :=
  match l with [] => None | (k, ts) :: l' => oldest ts (Some k) l' end.

(** The entries of [m] that are not older than [limit] at [now]. *)
Definition still_fresh {K A} `{Countable K} (now : Time) (limit : Duration) (stamps : gmap K Time) (m : gmap K A) : gmap K A :=
  filter (fun p => match stamps !! p.1 with Some ts => time_sub now ts <=? limit | None => true end = true) m.

Section Caches.
Context `{RE : Regexp} {W : Type} `{C : Clock W} `{V : MapVisit W}.

Definition CM (A : Type) : Type := ST (Collector * W) A.

(** A call of the environment. *)
Definition sense {A} (m : ST W A) : CM A := fun '(c, w) => let '(a, w') := m w in (a, (c, w')).

Definition field {A} (f : Collector -> A) : CM A := fun s => (f s.1, s).

Definition put (f : Collector -> Collector) : CM unit := modify (fun '(c, w) => (f c, w)).

(** [val.(T)]. *)
Definition assertion {A} (proj : CacheVal -> option A) (dflt : A) (v : CacheVal) : CM A :=
  match proj v with
  | Some a => mret a
  | None => put (set_panicked true) ≫= fun _ => mret dflt
  end.

Definition metricsCacheTTL : CM Duration := field (fun c => seconds (MetricsCacheTTL (c_cfg c))).

Definition getFromCache (key : string) (ttl : Duration) : CM (option CacheVal) :=
  field cache ≫= fun values =>
  match values !! key with
  | None => mret None
  | Some val =>
      field cacheTimestamps ≫= fun stamps =>
      match stamps !! key with
      | None => mret None
      | Some timestamp =>
          sense time_Now ≫= fun now =>
          mret (if time_sub now timestamp >? ttl then None else Some val)
      end
  end.

Definition evict_cached : CM unit :=
  sense time_Now ≫= fun now =>
  field cacheTimestamps ≫= fun stamps =>
  sense (visit stamps) ≫= fun entries =>
  match oldest now None entries with
  | Some k =>
      if String.eqb k "" then mret tt
      else put (fun c => set_caches (delete k (cache c)) (delete k (cacheTimestamps c)) c)
  | None => mret tt
  end.

Definition setInCache (key : string) (value : CacheVal) : CM unit :=
  field (fun c => map_size (cache c) >=? MAX_CACHE_SIZE) ≫= fun full =>
  when full evict_cached ≫= fun _ =>
  sense time_Now ≫= fun now =>
  put (fun c => set_caches (<[key := value]> (cache c)) (<[key := now]> (cacheTimestamps c)) c).

(** The pattern of every getter: the cached value, or a computed one. *)
Definition cached {A} (key : string) (ttl : Duration) (proj : CacheVal -> option A) (dflt : A) (compute : CM A) : CM A :=
  getFromCache key ttl ≫= fun hit =>
  match hit with Some val => assertion proj dflt val | None => compute end.

Definition keep {A} (key : string) (inj : A -> CacheVal) (a : A) : CM A :=
  setInCache key (inj a) ≫= fun _ => mret a.

Definition ClearCache : CM unit := put (set_caches ∅ ∅).

Definition UpdateConfig (newConfig : Config) : CM unit :=
  put (set_c_cfg newConfig) ≫= fun _ => ClearCache.

(** The clean-up of the ticker, and of [Stop]. *)
Definition cleanupCache : CM unit :=
  sense time_Now ≫= fun now =>
  put (fun c => set_caches (still_fresh now (5 * minute) (cacheTimestamps c) (cache c))
                  (still_fresh now (5 * minute) (cacheTimestamps c) (cacheTimestamps c)) c) ≫= fun _ =>
  put (fun c => set_procs (still_fresh now (5 * minute) (prevProcTime c) (prevProcCPU c))
                  (still_fresh now (5 * minute) (prevProcTime c) (prevProcTime c)) c) ≫= fun _ =>
  put (fun c => set_usernames (still_fresh now (usernameCacheTTL c) (usernameCacheTime c) (usernameCache c))
                  (still_fresh now (usernameCacheTTL c) (usernameCacheTime c) (usernameCacheTime c)) c).

(** *** User names *)

Definition getCachedUsername (uid : Z) : CM (option string) :=
  field usernameCache ≫= fun names =>
  match names !! uid with
  | None => mret None
  | Some username =>
      field usernameCacheTime ≫= fun stamps =>
      match stamps !! uid with
      | None => mret None
      | Some timestamp =>
          sense time_Now ≫= fun now =>
          field usernameCacheTTL ≫= fun ttl =>
          mret (if time_sub now timestamp >? ttl then None else Some username)
      end
  end.

Definition evict_username : CM unit :=
  sense time_Now ≫= fun now =>
  field usernameCacheTime ≫= fun stamps =>
  sense (visit stamps) ≫= fun entries =>
  match oldest now None entries with
  | Some uid =>
      if uid =? 0 then mret tt
      else put (fun c => set_usernames (delete uid (usernameCache c)) (delete uid (usernameCacheTime c)) c)
  | None => mret tt
  end.

Definition cacheUsername (uid : Z) (username : string) : CM unit :=
  field (fun c => map_size (usernameCache c) >=? MAX_USERNAME_CACHE_SIZE) ≫= fun full =>
  when full evict_username ≫= fun _ =>
  sense time_Now ≫= fun now =>
  put (fun c => set_usernames (<[uid := username]> (usernameCache c)) (<[uid := now]> (usernameCacheTime c)) c).

Definition SetUsernameCacheTTL (ttl : Duration) : CM unit := put (set_usernameCacheTTL ttl).

Definition GetUsernameCacheTTL : CM Duration := field usernameCacheTTL.

(** *** CPU times of processes *)

Definition evict_process : CM unit :=
  field prevProcTime ≫= fun stamps =>
  sense (visit stamps) ≫= fun entries =>
  match oldest_of_all entries with
  | Some pid => put (fun c => set_procs (delete pid (prevProcCPU c)) (delete pid (prevProcTime c)) c)
  | None => mret tt
  end.

Definition put_sample (pid : Z) (times : TimesStat) (now : Time) : CM unit :=
  put (fun c => set_procs (<[pid := times]> (prevProcCPU c)) (<[pid := now]> (prevProcTime c)) c).

(** *** Moving averages *)

Definition alpha : f64 := lit 3 10.

Definition one_minus_alpha : f64 := lit 7 10.

Definition next_ema (prev : option f64) (current : f64) : f64 :=
  match prev with
  | None => current
  | Some p => fadd (fmul alpha current) (fmul one_minus_alpha p)
  end.

Definition calculateEMA (uid : Z) (currentValue : f64) : CM f64 :=
  field emaValues ≫= fun values =>
  let ema := next_ema (values !! uid) currentValue in
  put (fun c => set_emaValues (<[uid := ema]> (emaValues c)) c) ≫= fun _ => mret ema.

(** *** Database writer *)

Definition NewDBWriter (database : bool) (writeIntervalSeconds : Z) : DBWriter :=
  mkDBWriter database (seconds writeIntervalSeconds) zero_time true.

Definition SetDBWriter (writer : option DBWriter) : CM unit := put (set_dbWriter writer).

Definition GetDBWriter : CM (option DBWriter) := field dbWriter.

Definition ShouldWrite (w : DBWriter) (now : Time) : bool :=
  if negb (enabled w) then false else time_sub now (lastWriteTime w) >=? writeInterval w.

Definition MarkWritten (w : DBWriter) (now : Time) : DBWriter :=
  mkDBWriter (hasDatabase w) (writeInterval w) now (enabled w).

Definition SetEnabled (b : bool) (w : DBWriter) : DBWriter :=
  mkDBWriter (hasDatabase w) (writeInterval w) (lastWriteTime w) b.

Definition Close (w : DBWriter) : DBWriter := SetEnabled false w.

Context `{D : Database W}.

(** The count and the counters are converted to [int64]. *)
Definition WriteUserMetrics (w : DBWriter) (uid : Z) (username : string) (cpuUsage : f64) (memoryUsage processCount : Z)
    (isLimited : bool) (cgroupPath cpuQuota : string) : CM unit :=
  if negb (enabled w) then mret tt
  else if negb (hasDatabase w) then mret tt
  else
    sense time_Now ≫= fun now =>
    ignore (sense (db_WriteUserMetrics
      (mkUserRecord uid username cpuUsage (wrap_i64 memoryUsage) processCount cgroupPath cpuQuota isLimited now))).

Definition WriteSystemMetrics (w : DBWriter) (totalCPUUsage : f64) (totalCores : Z) (systemLoad : f64)
    (limitsActive : bool) (limitedUsersCount : Z) : CM unit :=
  if negb (enabled w) then mret tt
  else if negb (hasDatabase w) then mret tt
  else
    sense time_Now ≫= fun now =>
    ignore (sense (db_WriteSystemMetrics (mkSystemRecord totalCPUUsage totalCores systemLoad limitsActive limitedUsersCount now))).

(** The map of users is given in the order the loop visits it. *)
Definition WriteMetricsToDatabase (users : list (Z * UserMetrics)) (totalCPUUsage : f64) (totalCores : Z)
    (systemLoad : f64) (limitsActive : bool) (limitedUsersCount : Z) : CM unit :=
  field dbWriter ≫= fun writer =>
  match writer with
  | None => mret tt
  | Some w =>
      WriteSystemMetrics w totalCPUUsage totalCores systemLoad limitsActive limitedUsersCount ≫= fun _ =>
      for_each (fun '(uid, m) =>
        WriteUserMetrics w uid (Username m) (CPUUsage m) (MemoryUsage m) (ProcessCount m) false "" "") users ≫= fun _ =>
      sense time_Now ≫= fun now => put (set_dbWriter (Some (MarkWritten w now)))
  end.

End Caches.

Arguments CM {RE} W A.
