(* ===== verification/Collector.v ===== *)
(** * The metrics collector: measurements
      (metrics/collector.go: the system metrics, the scan of the processes and
       the figures derived from it)

    A measurement comes from gopsutil, or from /proc when gopsutil fails; the
    fall-backs on /proc are not cached.  The figures of the users derive from
    [GetAllUserMetrics], and are cached again under their own keys. *)

From S2P Require Import Prelude GoStrings GoFloat GoNumbers ProcFiles Config Blackout ConfigLoad OS UserFilter CgroupBase CgroupProcess StateBase CollectorBase.

#[local] Open Scope Z_scope.

(** [int32(pid)]. *)
Definition int32 (z : Z) : Z := (z + 2147483648) mod 4294967296 - 2147483648.

(** What a scan accumulates for a user. *)
Record userData := mkUserData {
  u_cpuUsage : f64;
  u_cpuUsageAvg : f64;
  u_processCount : Z;
  u_memoryUsage : Z;
  u_io : ProcessIO
}.

Definition no_data : userData := mkUserData fzero fzero 0 0 no_io.

(** Counters are added modulo [2^64]. *)
Definition add_io (a b : ProcessIO) : ProcessIO :=
  mkProcessIO (wrap_u64 (readBytes a + readBytes b)) (wrap_u64 (writeBytes a + writeBytes b))
    (wrap_u64 (readOps a + readOps b)) (wrap_u64 (writeOps a + writeOps b)).

Definition add_process (cpu avg : f64) (rss : Z) (d : userData) : userData :=
  mkUserData (fadd (u_cpuUsage d) cpu) (fadd (u_cpuUsageAvg d) avg) (u_processCount d + 1)
    (wrap_u64 (u_memoryUsage d + rss)) (u_io d).

Definition with_io (io : ProcessIO) (d : userData) : userData :=
  mkUserData (u_cpuUsage d) (u_cpuUsageAvg d) (u_processCount d) (u_memoryUsage d) (add_io (u_io d) io).

Definition user_data (uid : Z) (m : gmap Z userData) : userData := default no_data (m !! uid).

Definition megabytes (bytes : Z) : f64 := fdiv (fdiv (f64_of_Z bytes) (f64_of_Z 1024)) (f64_of_Z 1024).

Definition hundred_percent : f64 := f64_of_Z 100.

(** [GetTotalCPUUsage] after a sample of /proc/stat: the percentage of the
    time that was not idle since the previous one. *)
Definition times_total (oor : f64 -> Z) (t : TimesStat) : Z :=
  wrap_u64 (f64_to_u64 oor (t_User t) + f64_to_u64 oor (t_Nice t) + f64_to_u64 oor (t_System t) +
            f64_to_u64 oor (t_Idle t) + f64_to_u64 oor (t_Iowait t) + f64_to_u64 oor (t_Irq t) +
            f64_to_u64 oor (t_Softirq t) + f64_to_u64 oor (t_Steal t)).

Definition times_of (l : list Z) : TimesStat :=
  let f n := f64_of_Z (nth n l 0) in
  mkTimes (f 0%nat) (f 1%nat) (f 2%nat) (f 3%nat) (f 4%nat) (f 5%nat) (f 6%nat) (f 7%nat).

Definition cpu_delta (oor : f64 -> Z) (prev : TimesStat) (counters : list Z) : option f64 :=
  let total := wrap_u64 (foldl Z.add 0 counters) in
  let totalDelta := wrap_u64 (total - times_total oor prev) in
  let idleDelta := wrap_u64 (nth 3 counters 0 - f64_to_u64 oor (t_Idle prev)) in
  if totalDelta =? 0 then None
  else Some (fdiv (fmul hundred_percent (f64_of_Z (wrap_u64 (totalDelta - idleDelta)))) (f64_of_Z totalDelta)).

(** The share of a processor a process used since it started, clamped. *)
Definition average_of (uptime : f64) (times : TimesStat) (createTime bootTime : Z) : f64 :=
  let totalCPUSeconds := fadd (t_User times) (t_System times) in
  let age := fsub uptime (fsub (fdiv (f64_of_Z createTime) (f64_of_Z 1000)) (f64_of_Z bootTime)) in
  if f_le age fzero then fzero
  else
    let avgCPU := fmul (fdiv totalCPUSeconds age) hundred_percent in
    if f_lt avgCPU fzero then fzero
    else if f_gt avgCPU hundred_percent then hundred_percent
    else avgCPU.

(** Milliseconds since the Unix epoch, 62135596800 seconds after year 1. *)
Definition UnixMilli (t : Time) : Z := Z.div (t - 62135596800 * second) 1000000.

Section Measure.
Context `{RE : Regexp} {W : Type} `{C : Clock W} `{V : MapVisit W} `{O : OS W} `{P : Processes W} `{N : Sensors W}.
Context (oor : f64 -> Z).

Definition getConfig : CM W Config := field c_cfg.

Definition isMonitoredUserUID (uid : Z) : CM W bool :=
  getConfig ≫= fun cfg => mret ((SystemUIDMin cfg <=? uid) && (uid <=? SystemUIDMax cfg)).

(** ** System metrics *)

Definition getTotalCoresFallback : CM W Z :=
  sense (os_ReadFile "/proc/cpuinfo") ≫= fun r =>
  mret match r with Err _ => 1 | Ok content => count_processors content end.

Definition GetTotalCores : CM W Z :=
  cached "total_cores" hour as_int 0 (
    sense cpu_Counts ≫= fun r =>
    match r with Ok cores => mret cores | Err _ => getTotalCoresFallback end ≫=
    keep "total_cores" VInt).

Definition getTotalCPUUsageFallback : CM W f64 :=
  sense (os_ReadFile "/proc/stat") ≫= fun r =>
  match r with
  | Err _ => mret fzero
  | Ok content =>
      match stat_counters content with
      | None => mret fzero
      | Some counters =>
          field prevCPUStats ≫= fun prev =>
          if f_eq (t_User prev) fzero && f_eq (t_System prev) fzero && f_eq (t_Idle prev) fzero then
            put (set_prevCPUStats (times_of counters)) ≫= fun _ =>
            sense time_Now ≫= fun now =>
            put (set_prevCPUTime now) ≫= fun _ => mret fzero
          else
            put (set_prevCPUStats (times_of counters)) ≫= fun _ =>
            match cpu_delta oor prev counters with
            | None => mret fzero
            | Some usage => keep "total_cpu_usage" VFloat usage
            end
      end
  end.

Definition GetTotalCPUUsage : CM W f64 :=
  metricsCacheTTL ≫= fun ttl =>
  cached "total_cpu_usage" ttl as_float fzero (
    sense cpu_Percent ≫= fun r =>
    match r with
    | Ok (usage :: _) => keep "total_cpu_usage" VFloat usage
    | _ => getTotalCPUUsageFallback
    end).

(** The three memory figures. *)
Definition memory_figure (key : string) (figure : VirtualMemory -> Z) (fallback : string -> f64) : CM W f64 :=
  metricsCacheTTL ≫= fun ttl =>
  cached key ttl as_float fzero (
    sense mem_VirtualMemory ≫= fun r =>
    match r with
    | Ok vm => keep key VFloat (megabytes (figure vm))
    | Err _ =>
        sense (os_ReadFile "/proc/meminfo") ≫= fun f =>
        mret match f with Err _ => fzero | Ok content => fallback content end
    end).

Definition GetMemoryUsage : CM W f64 := memory_figure "memory_usage" vm_Used used_mb.

Definition GetTotalMemoryMB : CM W f64 :=
  memory_figure "total_memory" vm_Total (fun content => meminfo_mb "MemTotal:" (ScanLines content)).

Definition GetCachedMemoryMB : CM W f64 :=
  memory_figure "cached_memory" vm_Cached (fun content => meminfo_mb "Cached:" (ScanLines content)).

Definition GetSystemLoad : CM W (result f64) :=
  sense (os_ReadFile "/proc/loadavg") ≫= fun r =>
  mret (let? data := r in load1 data).

Definition collectorLoadAverage : CM W (result (f64 * Z)) :=
  sense (os_ReadFile "/proc/loadavg") ≫= fun r =>
  match r with
  | Err e => mret (Err ("failed to read /proc/loadavg: " +:+ e))
  | Ok data =>
      match load1 data with
      | Err e => mret (Err e)
      | Ok load => GetTotalCores ≫= fun cores => mret (Ok (load, cores))
      end
  end.

Definition IsSystemUnderLoad : CM W bool :=
  cached "system_under_load" (10 * second) as_bool false (
    collectorLoadAverage ≫= fun r =>
    match r with
    | Err _ => mret false
    | Ok (load, cores) => keep "system_under_load" VBool (f_gt load (fmul (f64_of_Z cores) (lit 7 10)))
    end).

(** ** User names *)

Definition getUsernameFromPasswd (uid : Z) : CM W (result string) :=
  sense (os_ReadFile "/etc/passwd") ≫= fun r =>
  mret (let? content := r in passwd_name uid (ScanLines content)).

Definition GetUsernameFromUID (uid : Z) : CM W string :=
  getCachedUsername uid ≫= fun hit =>
  match hit with
  | Some name => mret name
  | None =>
      sense (user_LookupId (Itoa uid)) ≫= fun u =>
      match u with
      | Ok (String _ _ as name) => cacheUsername uid name ≫= fun _ => mret name
      | _ =>
          getUsernameFromPasswd uid ≫= fun p =>
          match p with
          | Ok (String _ _ as name) => cacheUsername uid name ≫= fun _ => mret name
          | _ => mret (Itoa uid)
          end
      end
  end.

(** ** Processes *)

Definition proc_file (pid : Z) (name : string) : string := "/proc/" +:+ Itoa pid +:+ "/" +:+ name.

Definition getProcessIO (pid : Z) : CM W ProcessIO :=
  sense (os_ReadFile (proc_file pid "io")) ≫= fun r =>
  mret match r with Err _ => no_io | Ok data => parse_io data end.

Definition getProcessMemoryUsage (pid : Z) : CM W Z :=
  sense (os_ReadFile (proc_file pid "status")) ≫= fun r =>
  mret match r with Err _ => 0 | Ok data => status_rss (Split data newline) end.

Definition getUIDFromStatusFile (statusFile : string) : CM W (result Z) :=
  sense (os_ReadFile statusFile) ≫= fun r =>
  mret (let? data := r in status_uid (ScanLines data)).

Definition getSystemUptimeSeconds : CM W f64 :=
  sense (os_ReadFile "/proc/uptime") ≫= fun r =>
  mret match r with Err _ => fzero | Ok data => parse_uptime data end.

Definition getProcessCPUAverage (pid : Z) (uptime : f64) : CM W f64 :=
  sense (proc_Times pid) ≫= fun r =>
  match r with
  | Err _ => mret fzero
  | Ok times =>
      sense (proc_CreateTime pid) ≫= fun r =>
      match r with
      | Err _ => mret fzero
      | Ok createTime =>
          if createTime =? 0 then mret fzero
          else
            sense host_BootTime ≫= fun r =>
            match r with
            | Err _ => mret fzero
            | Ok bootTime => mret (if bootTime =? 0 then fzero else average_of uptime times createTime bootTime)
            end
      end
  end.

Definition is_running (statuses : list string) : bool :=
  existsb (fun s => String.eqb s "R" || String.eqb s "running") statuses.

Definition isProcessRunningLongEnough (pid : Z) : CM W bool :=
  sense (proc_Status pid) ≫= fun r =>
  match r with
  | Err _ => mret false
  | Ok statuses =>
      if negb (is_running statuses) then mret false
      else
        getConfig ≫= fun cfg =>
        if ProcessMinAgeSeconds cfg <=? 0 then mret true
        else
          sense (proc_CreateTime pid) ≫= fun r =>
          match r with
          | Err _ => mret false
          | Ok createTime =>
              if createTime =? 0 then mret false
              else
                sense time_Now ≫= fun now =>
                mret (f_ge (fdiv (fsub (f64_of_Z (UnixMilli now)) (f64_of_Z createTime)) (f64_of_Z 1000))
                        (f64_of_Z (ProcessMinAgeSeconds cfg)))
          end
  end.

(** The percentage since the previous sample, when there is an earlier one. *)
Definition cpu_since (prev : option TimesStat) (prevTime : option Time) (times : TimesStat) (now : Time) : option f64 :=
  match prev, prevTime with
  | Some p, Some t =>
      let elapsed := dur_seconds (time_sub now t) in
      if f_gt elapsed fzero then
        let delta := fadd (fsub (t_User times) (t_User p)) (fsub (t_System times) (t_System p)) in
        Some (fmul (fdiv delta elapsed) hundred_percent)
      else None
  | _, _ => None
  end.

(** Under the lock of the process cache. *)
Definition sample_process (pid : Z) (times : TimesStat) (now : Time) : CM W f64 :=
  field (fun c => cpu_since (prevProcCPU c !! pid) (prevProcTime c !! pid) times now) ≫= fun usage =>
  match usage with
  | Some cpuPercent => put_sample pid times now ≫= fun _ => mret cpuPercent
  | None =>
      field (fun c => map_size (prevProcCPU c) >=? MAX_PROC_CACHE_SIZE) ≫= fun full =>
      when full evict_process ≫= fun _ =>
      put_sample pid times now ≫= fun _ => mret fzero
  end.

Definition getProcessCPUUsageSimpleWithHandle (pid : Z) : CM W f64 :=
  isProcessRunningLongEnough pid ≫= fun stable =>
  if negb stable then mret fzero
  else
    sense (proc_Times pid) ≫= fun r =>
    match r with
    | Err _ => mret fzero
    | Ok times => sense time_Now ≫= sample_process pid times
    end.

Definition getProcessCPUUsageSimple (pid : Z) : CM W f64 :=
  sense (process_NewProcess (int32 pid)) ≫= fun r =>
  match r with Err _ => mret fzero | Ok _ => getProcessCPUUsageSimpleWithHandle (int32 pid) end.

(** ** The scan *)

(** First pass over the processes: CPU and memory of the monitored users. *)
Definition scan_process (uptime : f64) (temp : gmap Z userData) (pid : Z) : CM W (gmap Z userData) :=
  sense (process_Uids pid) ≫= fun r =>
  match r with
  | Ok (uid :: _) =>
      isMonitoredUserUID uid ≫= fun monitored =>
      if negb monitored then mret temp
      else
        getProcessCPUUsageSimpleWithHandle pid ≫= fun cpu =>
        sense (proc_RSS pid) ≫= fun mem =>
        getProcessCPUAverage pid uptime ≫= fun avg =>
        mret (<[uid := add_process cpu avg (match mem with Ok rss => rss | Err _ => 0 end) (user_data uid temp)]> temp)
  | _ => mret temp
  end.

(** Second pass: I/O of all users. *)
Definition scan_io (ioData : gmap Z userData) (pid : Z) : CM W (gmap Z userData) :=
  sense (process_Uids pid) ≫= fun r =>
  match r with
  | Ok (uid :: _) =>
      getProcessIO pid ≫= fun io => mret (<[uid := with_io io (user_data uid ioData)]> ioData)
  | _ => mret ioData
  end.

Definition merge_io (temp : gmap Z userData) (p : Z * userData) : CM W (gmap Z userData) :=
  let '(uid, ioD) := p in
  isMonitoredUserUID uid ≫= fun monitored =>
  mret (if monitored : bool then <[uid := with_io (u_io ioD) (user_data uid temp)]> temp else temp).

Definition isUserWhitelisted (username : string) : CM W bool :=
  fun '(c, w) =>
    let '(b, r) := IsUserWhitelisted (c_cfg c) username (c_regexCache c) in (b, (set_c_regexCache r c, w)).

(** The metrics of a user from what the scan accumulated. *)
Definition to_metrics (users : gmap Z UserMetrics) (p : Z * userData) : CM W (gmap Z UserMetrics) :=
  let '(uid, data) := p in
  GetUsernameFromUID uid ≫= fun username =>
  calculateEMA uid (u_cpuUsage data) ≫= fun ema =>
  isUserWhitelisted username ≫= fun limited =>
  mret (<[uid := mkUserMetrics uid username (u_cpuUsage data) (u_cpuUsageAvg data) ema (u_memoryUsage data)
                   (u_processCount data) limited (readBytes (u_io data)) (writeBytes (u_io data))
                   (readOps (u_io data)) (writeOps (u_io data))]> users).

Definition convert (temp : gmap Z userData) : CM W (gmap Z UserMetrics) :=
  sense (visit temp) ≫= fold_st to_metrics ∅.

(** The scan of /proc, whose result is not cached. *)
Definition scan_entry (uptime : f64) (acc : gmap Z userData * gmap Z userData) (entry : string * bool) :
    CM W (gmap Z userData * gmap Z userData) :=
  let '(temp, ioData) := acc in
  let '(name, isDir) := entry in
  if negb isDir then mret acc
  else match Atoi name with
  | None => mret acc
  | Some pid =>
      getUIDFromStatusFile (filepath_Join ["/proc"; name; "status"]) ≫= fun r =>
      match r with
      | Err _ => mret acc
      | Ok uid =>
          isMonitoredUserUID uid ≫= fun monitored =>
          if negb monitored then mret acc
          else
            getProcessCPUUsageSimple pid ≫= fun cpu =>
            getProcessMemoryUsage pid ≫= fun mem =>
            sense (process_NewProcess (int32 pid)) ≫= fun proc =>
            match proc with Ok _ => getProcessCPUAverage (int32 pid) uptime | Err _ => mret fzero end ≫= fun avg =>
            getProcessIO pid ≫= fun io =>
            mret (<[uid := add_process cpu avg mem (user_data uid temp)]> temp,
                  <[uid := with_io io (user_data uid ioData)]> ioData)
      end
  end.

Definition merge_all (temp : gmap Z userData) (p : Z * userData) : gmap Z userData :=
  <[p.1 := with_io (u_io p.2) (user_data p.1 temp)]> temp.

Definition getAllUserMetricsFallback : CM W (gmap Z UserMetrics) :=
  sense (os_ReadDir "/proc") ≫= fun r =>
  match r with
  | Err _ => mret ∅
  | Ok entries =>
      getSystemUptimeSeconds ≫= fun uptime =>
      fold_st (scan_entry uptime) (∅, ∅) entries ≫= fun '(temp, ioData) =>
      sense (visit ioData) ≫= fun ios =>
      convert (foldl merge_all temp ios)
  end.

Definition scan_processes (procs : list Z) : CM W (gmap Z UserMetrics) :=
  getSystemUptimeSeconds ≫= fun uptime =>
  fold_st (scan_process uptime) ∅ procs ≫= fun temp =>
  fold_st scan_io ∅ procs ≫= fun ioData =>
  sense (visit ioData) ≫= fun ios =>
  fold_st merge_io temp ios ≫= fun merged =>
  convert merged.

Definition GetAllUserMetrics : CM W (gmap Z UserMetrics) :=
  metricsCacheTTL ≫= fun ttl =>
  getFromCache "all_user_metrics" ttl ≫= fun hit =>
  match hit with
  | Some (VMetrics m) => mret m
  | _ =>
      sense process_Processes ≫= fun r =>
      match r with
      | Err _ => getAllUserMetricsFallback
      | Ok procs => scan_processes procs ≫= keep "all_user_metrics" VMetrics
      end
  end.

(** ** Derived figures *)

(** The figure of one user. *)
Definition user_figure {A} (prefix : string) (proj : CacheVal -> option A) (inj : A -> CacheVal) (dflt : A)
    (figure : UserMetrics -> A) (uid : Z) : CM W A :=
  isMonitoredUserUID uid ≫= fun monitored =>
  if negb monitored then mret dflt
  else
    let key := prefix +:+ Itoa uid in
    metricsCacheTTL ≫= fun ttl =>
    cached key ttl proj dflt (
      GetAllUserMetrics ≫= fun all =>
      keep key inj (match all !! uid with Some m => figure m | None => dflt end)).

Definition GetUserCPUUsage : Z -> CM W f64 := user_figure "cpu_usage_uid_" as_float VFloat fzero CPUUsage.

Definition GetUserMemoryUsage : Z -> CM W Z := user_figure "memory_usage_uid_" as_uint VUint 0 MemoryUsage.

Definition GetUserProcessCount : Z -> CM W Z := user_figure "process_count_uid_" as_int VInt 0 ProcessCount.

(** A figure over all users, in the order the loop visits them. *)
Definition overall {A} (key : string) (proj : CacheVal -> option A) (inj : A -> CacheVal) (dflt : A)
    (summary : list (Z * UserMetrics) -> A) : CM W A :=
  metricsCacheTTL ≫= fun ttl =>
  cached key ttl proj dflt (
    GetAllUserMetrics ≫= fun all =>
    sense (visit all) ≫= fun users =>
    keep key inj (summary users)).

Definition limited (users : list (Z * UserMetrics)) : list (Z * UserMetrics) := List.filter (fun p => IsLimited p.2) users.

Definition sum_cpu (users : list (Z * UserMetrics)) : f64 := foldl (fun t p => fadd t (CPUUsage p.2)) fzero users.

Definition sum_memory (users : list (Z * UserMetrics)) : Z := foldl (fun t p => wrap_u64 (t + MemoryUsage p.2)) 0 users.

Definition GetAllUsersCPUUsage : CM W f64 := overall "all_users_cpu_usage" as_float VFloat fzero sum_cpu.

Definition GetLimitedUsersCPUUsage : CM W f64 :=
  overall "limited_users_cpu_usage" as_float VFloat fzero (fun users => sum_cpu (limited users)).

Definition GetAllUsersMemoryUsage : CM W Z := overall "all_users_memory_usage" as_uint VUint 0 sum_memory.

Definition GetLimitedUsersMemoryUsage : CM W Z :=
  overall "limited_users_memory_usage" as_uint VUint 0 (fun users => sum_memory (limited users)).

Definition GetAllUsers : CM W (list Z) := overall "all_users" as_users VUsers [] (map fst).

Definition GetLimitedUsers : CM W (list Z) := overall "limited_users" as_users VUsers [] (fun users => map fst (limited users)).

(** The fall-backs that count and weigh the processes of one user in /proc. *)
Definition fallback_pids (weigh : Z -> CM W Z) (uid : Z) (total : Z) (entry : string * bool) : CM W Z :=
  let '(name, isDir) := entry in
  if negb isDir then mret total
  else match Atoi name with
  | None => mret total
  | Some pid =>
      getUIDFromStatusFile (filepath_Join ["/proc"; name; "status"]) ≫= fun r =>
      match r with
      | Ok procUID => if procUID =? uid then weigh pid ≫= fun n => mret (wrap_u64 (total + n)) else mret total
      | Err _ => mret total
      end
  end.

Definition proc_total (weigh : Z -> CM W Z) (uid : Z) : CM W Z :=
  sense (os_ReadDir "/proc") ≫= fun r =>
  match r with
  | Err _ => mret 0
  | Ok entries => fold_st (fallback_pids weigh uid) 0 entries
  end.

Definition getUserMemoryUsageFallback : Z -> CM W Z := proc_total getProcessMemoryUsage.

Definition getUserProcessCountFallback : Z -> CM W Z := proc_total (fun _ => mret 1).

(** [GetDetailedMetrics], a field for each key of its map. *)
Record DetailedMetrics := mkDetailed {
  total_cores : Z;
  total_cpu_usage : f64;
  all_users_cpu_usage : f64;
  all_users_memory_usage : Z;
  all_users_count : Z;
  limited_users_cpu_usage : f64;
  limited_users_memory_usage : Z;
  limited_users_count : Z;
  memory_usage_mb : f64;
  total_memory_mb : f64;
  cached_memory_mb : f64;
  system_under_load : bool;
  user_cpu_usage : gmap Z f64;
  cache_size : Z
}.

Definition GetDetailedMetrics : CM W DetailedMetrics :=
  GetTotalCores ≫= fun cores =>
  GetTotalCPUUsage ≫= fun cpu =>
  GetAllUsersCPUUsage ≫= fun allCPU =>
  GetAllUsersMemoryUsage ≫= fun allMem =>
  GetAllUsers ≫= fun allUsers =>
  GetLimitedUsersCPUUsage ≫= fun limitedCPU =>
  GetLimitedUsersMemoryUsage ≫= fun limitedMem =>
  GetLimitedUsers ≫= fun limitedUsers =>
  GetMemoryUsage ≫= fun used =>
  GetTotalMemoryMB ≫= fun total =>
  GetCachedMemoryMB ≫= fun cachedMB =>
  IsSystemUnderLoad ≫= fun load =>
  fold_st (fun m uid => GetUserCPUUsage uid ≫= fun x => mret (<[uid := x]> m)) (∅ : gmap Z f64) allUsers ≫= fun userCPU =>
  field (fun c => map_size (cache c)) ≫= fun size =>
  mret (mkDetailed cores cpu allCPU allMem (Z.of_nat (length allUsers)) limitedCPU limitedMem
          (Z.of_nat (length limitedUsers)) used total cachedMB load userCPU size).

(** ** Construction *)

(** The statistics start from gopsutil's. *)
Definition NewCollector (cfg : Config) (now : Time) (stats : result (list TimesStat)) : Collector :=
  let none := mkTimes fzero fzero fzero fzero fzero fzero fzero fzero in
  mkCollector _ cfg ∅ ∅ ∅ (match stats with Ok (s :: _) => s | _ => none end) now ∅ ∅ ∅ None ∅ ∅
    DEFAULT_USERNAME_CACHE_TTL false.

End Measure.
