(* ===== verification/Bench.v ===== *)
(** * A concrete machine for the metrics collector

    The clock stands still unless it is set, gopsutil answers from a table of
    processes (or fails, when [b_broken]), the files are a map and the rows
    written to the database are kept.  The witnesses of the collector run on
    it. *)

From S2P Require Import Prelude GoStrings GoFloat GoNumbers ProcFiles Config Blackout ConfigLoad OS UserFilter CgroupBase CgroupProcess StateBase Recorder CollectorBase Collector.

#[local] Open Scope Z_scope.

Record BenchProc := mkBenchProc {
  bp_uid : Z;
  bp_rss : Z;
  bp_times : TimesStat;
  bp_created : Z
}.

Record Bench := mkBench {
  b_now : Time;
  b_broken : bool;
  b_table : gmap Z BenchProc;
  b_files : gmap string string;
  b_rows : list UserMetricsRecord
}.

Definition bench_time (t : Time) (b : Bench) : Bench := mkBench t (b_broken b) (b_table b) (b_files b) (b_rows b).

Definition broken {A} : result A := Err "not available".

Definition bench_proc {A} (f : BenchProc -> A) (pid : Z) : ST Bench (result A) :=
  gets (fun b => if b_broken b then broken else match b_table b !! pid with Some p => Ok (f p) | None => Err "no process" end).

#[export] Instance bench_clock : Clock Bench := {| time_Now := gets b_now; local_time _ := utc |}.

#[export] Instance bench_visit : MapVisit Bench := {|
  visit K A _ _ m := mret (map_to_list m);
  visit_perm K A _ _ m w := Permutation_refl (map_to_list m)
|}.

#[export] Instance bench_os : OS Bench := {|
  os_ReadFile p := gets (fun b => match b_files b !! p with Some c => Ok c | None => Err ENOENT end);
  os_WriteFile _ _ := mret (Some EACCES);
  os_AppendFile _ _ := mret (Some EACCES);
  os_Stat p := gets (fun b => if isSome (b_files b !! p) then None else Some ENOENT);
  os_ReadDir _ := gets (fun b => Ok (map (fun p => (Itoa p.1, true)) (map_to_list (b_table b))));
  os_Mkdir _ := mret (Some EACCES);
  os_MkdirAll _ := mret (Some EACCES);
  os_Remove _ := mret (Some EACCES);
  os_RemoveAll _ := mret (Some EACCES);
  os_Rename _ _ := mret (Some EACCES);
  os_Chmod _ := mret (Some EACCES)
|}.

#[export] Instance bench_processes : Processes Bench := {|
  process_Processes := gets (fun b => if b_broken b then broken else Ok (map fst (map_to_list (b_table b))));
  process_Uids := bench_proc (fun p => [bp_uid p]);
  user_LookupId id := mret (Ok ("u" +:+ id))
|}.

#[export] Instance bench_sensors : Sensors Bench := {|
  cpu_Counts := gets (fun b => if b_broken b then broken else Ok 4);
  cpu_Percent := gets (fun b => if b_broken b then broken else Ok [f64_of_Z 50]);
  cpu_Times := mret broken;
  mem_VirtualMemory := gets (fun b => if b_broken b then broken else Ok (mkVirtualMemory 8589934592 4294967296 1073741824));
  host_BootTime := gets (fun b => if b_broken b then broken else Ok 1000);
  process_NewProcess pid := bench_proc (fun _ => tt) pid;
  proc_Times := bench_proc bp_times;
  proc_RSS := bench_proc bp_rss;
  proc_CreateTime := bench_proc bp_created;
  proc_Status := bench_proc (fun _ => ["R"])
|}.

#[export] Instance bench_database : Database Bench := {|
  db_WriteUserMetrics r := fun b => (None, mkBench (b_now b) (b_broken b) (b_table b) (b_files b) (r :: b_rows b));
  db_WriteSystemMetrics _ := mret None
|}.

Definition cpu_times (user : Z) : TimesStat := mkTimes (f64_of_Z user) fzero fzero fzero fzero fzero fzero fzero.

(** Two processes of user 1000, one of root. *)
Definition bench : Bench :=
  mkBench (70000000000 * second) false
    {[ 10 := mkBenchProc 1000 4096 (cpu_times 5) 2000000; 11 := mkBenchProc 1000 8192 (cpu_times 7) 2000000;
       12 := mkBenchProc 0 1024 (cpu_times 1) 2000000 ]}
    {[ "/proc/10/io" := print_io (mkKernelIO 0 0 2 3 100 200 0);
       "/proc/11/io" := print_io (mkKernelIO 0 0 5 7 1000 2000 0);
       "/proc/uptime" := "5000.00 100.00" ]} [].
