(* ===== verification/MetricTable.v ===== *)
(** * The table of metrics and the pages of the exporter
      (metrics/prometheus.go: registerMetrics, the handlers, the multiplexer)

    A family is a field of the exporter with the name it is registered under, its
    kind and its labels.  The client library panics when two families have one
    name ([registered_once]) and when [WithLabelValues] gets another number of
    values than the family has labels ([typed], which [PrometheusFacts] shows of
    every series of every reachable exporter). *)

From S2P Require Import Prelude GoStrings GoFloat GoNumbers Calendar ProcFiles Config Blackout ConfigLoad OS Pattern StateBase Prometheus.

#[local] Open Scope Z_scope.

(** ** Families *)

(** [Histogram None] has the default buckets of the client library. *)
Inductive Kind := Gauge | Counter | Histogram (buckets : option (list string)).

(** [f_field]: the field of the exporter, as the series of [Prometheus] name it;
    [f_static]: has the family the labels [hostname] and [server_role]? *)
Record Family := mkFamily {
  f_field : string;
  f_kind : Kind;
  f_name : string;
  f_labels : list string;
  f_static : bool
}.

Definition plain (field name : string) : Family := mkFamily field Gauge name [] true.

Definition per_user (kind : Kind) (field name : string) : Family := mkFamily field kind name ["uid"; "username"] true.

Definition per_cgroup (field name : string) : Family := mkFamily field Gauge name ["uid"; "cgroup_path"] false.

Definition total (field name : string) : Family := mkFamily field Counter name [] false.

(** The gauges of the machine. *)
Definition machine_families : list Family :=
  [plain "cpuTotalUsage" "cpu_total_usage_percent";
   plain "memoryUsage" "memory_usage_megabytes";
   plain "totalMemoryMB" "memory_total_megabytes";
   plain "cachedMemoryMB" "memory_cached_megabytes";
   plain "limitedUsers" "limited_users_count";
   plain "allUsersCPUUsage" "all_users_cpu_usage_percent";
   plain "allUsersMemoryUsage" "all_users_memory_usage_bytes";
   plain "allUsersCount" "all_users_count";
   plain "limitedUsersCPUUsage" "limited_users_cpu_usage_percent";
   plain "limitedUsersMemoryUsage" "limited_users_memory_usage_bytes";
   plain "limitedUsersCount" "limited_users_count_filtered";
   plain "limitsActive" "limits_active";
   plain "systemLoad" "system_load_average";
   plain "totalCores" "cpu_total_cores";
   plain "actionCores" "cpu_action_cores"].

Definition user_families : list Family :=
  [per_user Gauge "userCPUUsage" "user_cpu_usage_percent";
   per_user Gauge "userCPUUsageAverage" "user_cpu_usage_average_percent";
   per_user Gauge "userCPUUsageEMA" "user_cpu_usage_ema_percent";
   per_user Gauge "userMemoryUsage" "user_memory_usage_bytes";
   per_user Gauge "userProcessCount" "user_process_count";
   per_user Gauge "userLimited" "user_cpu_limited";
   per_user Counter "userMemoryHighEvents" "user_memory_high_breaches_total";
   per_user Counter "userIOReadBytes" "user_io_read_bytes_total";
   per_user Counter "userIOWriteBytes" "user_io_write_bytes_total";
   per_user Counter "userIOReadOps" "user_io_read_ops_total";
   per_user Counter "userIOWriteOps" "user_io_write_ops_total";
   mkFamily "userWorkloadPattern" Gauge "user_workload_pattern_confidence" ["uid"; "username"; "pattern"] true].

Definition other_families : list Family :=
  [per_cgroup "cgroupCPUQuota" "cgroup_cpu_quota_microseconds";
   per_cgroup "cgroupCPUPeriod" "cgroup_cpu_period_microseconds";
   per_cgroup "cgroupMemoryUsage" "cgroup_memory_usage_bytes";
   total "limitsActivatedTotal" "limits_activated_total";
   total "limitsDeactivatedTotal" "limits_deactivated_total";
   total "controlCyclesTotal" "control_cycles_total";
   mkFamily "controlCycleTriggers" Counter "control_cycle_triggers_total" ["trigger"] true;
   mkFamily "psiEventsTotal" Counter "psi_events_total" ["type"; "scope"] true;
   mkFamily "psiLastEventTimestamp" Gauge "psi_last_event_timestamp_seconds" ["type"; "scope"] true;
   mkFamily "errorsTotal" Counter "errors_total" ["component"; "error_type"] false;
   mkFamily "controlCycleDuration" (Histogram None)
     "control_cycle_duration_seconds" [] false;
   mkFamily "metricsCollectionDuration" (Histogram (Some [".001"; ".005"; ".01"; ".025"; ".05"; ".1"; ".25"; ".5"]))
     "metrics_collection_duration_seconds" [] false].

Definition registerMetrics : list Family := machine_families ++ user_families ++ other_families.

Definition family (field : string) : option Family := List.find (fun f => String.eqb (f_field f) field) registerMetrics.

(** The name of a family on the page. *)
Definition full_name (f : Family) : string := "resman_" +:+ f_name f.

(** ** Pages *)

Section Pages.
Context `{Zn : Zones} (jwt_Parse : string -> string -> option Claims).

Definition quoted (s : string) : string := String "034"%char (s +:+ String "034"%char "").

Definition healthHandler (e : Exporter) (now : GoTime) : string :=
  "{" +:+ quoted "status" +:+ ": " +:+ quoted "healthy" +:+ ", " +:+ quoted "timestamp" +:+ ": " +:+ quoted (format_RFC3339 now) +:+ ", " +:+
  quoted "auth_enabled" +:+ ": " +:+ quoted (PrometheusAuthType (e_cfg e)) +:+ "}".

(** [None]: not found. *)
Definition rootHandler (e : Exporter) (path : string) : option string :=
  if negb (String.eqb path "/") then None
  else
    let kind := PrometheusAuthType (e_cfg e) in
    let authInfo := if negb (String.eqb kind "none") && negb (String.eqb kind "") then " (Authentication: " +:+ kind +:+ ")" else "" in
    Some ("<html><body><h1>Resource Manager Metrics" +:+ authInfo +:+ "</h1><p><a href=" +:+ quoted "/metrics" +:+ ">Metrics</a></p><p><a href=" +:+
          quoted "/health" +:+ ">Health</a></p></body></html>").

Inductive Page :=
  | PageMetrics (s : gmap Series f64) (o : list (string * f64))
  | PageText (status : Z) (body : string).

(** The multiplexer of [Start], on a path [net/http] has cleaned: every other
    path goes to the root handler. *)
Definition serve_page (e : Exporter) (now : GoTime) (path : string) (r : Request) : Page :=
  if String.eqb path "/metrics" then
    if authMiddleware jwt_Parse e r then PageMetrics (series e) (observations e) else PageText 401 "Unauthorized"
  else if String.eqb path "/health" then PageText 200 (healthHandler e now)
  else match rootHandler e path with Some page => PageText 200 page | None => PageText 404 "404 page not found" end.

End Pages.

(** ** Well-typed series *)

Definition same_kind (k k' : Kind) : bool :=
  match k, k' with Gauge, Gauge | Counter, Counter | Histogram _, Histogram _ => true | _, _ => false end.

(** May a method of that kind be called on the field with so many values? *)
Definition fits (k : Kind) (field : string) (arity : nat) : bool :=
  match family field with
  | Some f => same_kind k (f_kind f) && Nat.eqb (length (f_labels f)) arity
  | None => false
  end.

(** A series of a registered gauge or counter, with as many values as labels. *)
Definition typed (s : Series) : bool := fits Gauge s.1 (length s.2) || fits Counter s.1 (length s.2).

(** No two metrics are registered under one name, or kept in one field. *)
Lemma registered_once : NoDup (map full_name registerMetrics) /\ NoDup (map f_field registerMetrics).
Proof. split; apply (bool_decide_unpack _); by vm_compute. Qed.

(** Only the path of the metrics shows them. *)
Lemma serve_page_metrics `{Zones} jwt_Parse e now path r :
  (exists s o, serve_page jwt_Parse e now path r = PageMetrics s o) <-> path = "/metrics" /\ authMiddleware jwt_Parse e r = true.
Proof.
  unfold serve_page. destruct (String.eqb_spec path "/metrics") as [->|Hn].
  - destruct (authMiddleware jwt_Parse e r); naive_solver.
  - destruct (String.eqb path "/health"); [naive_solver|]. destruct (rootHandler e path); naive_solver.
Qed.
