(* ===== verification/PrometheusFacts.v ===== *)
(** * Properties of the Prometheus exporter *)

From S2P Require Import Prelude GoStrings GoFloat GoNumbers Calendar ProcFiles Config Blackout ConfigLoad OS Pattern StateBase Recorder CollectorBase Collector Bench Prometheus MetricTable.

#[local] Open Scope Z_scope.

(** ** Clean-up *)

(** The users with a process that are tracked under a key. *)
Definition key_of (uid : Z) (username : string) : string := user_key (Itoa uid) username.

Definition keys_ok (e : Exporter) : Prop :=
  forall k, k ∈ activeUserMetrics e -> exists uid username, in_i64 uid /\ k = key_of uid username.

Lemma Split_key uid username : SplitN2 (key_of uid username) "_"%char = [Itoa uid; username].
Proof. apply SplitN2_app. by apply Itoa_not_mem. Qed.

Lemma key_inj uid uid' n n' : in_i64 uid -> in_i64 uid' -> key_of uid n = key_of uid' n' -> uid = uid' /\ n = n'.
Proof.
  intros Hu Hu' E. pose proof (Split_key uid n) as H. rewrite E, Split_key in H. injection H as HI ->.
  apply (f_equal Atoi) in HI. rewrite !Atoi_Itoa in HI by done. by injection HI.
Qed.

Lemma cleanup_key_of active e uid username :
  in_i64 uid ->
  cleanup_key active e (key_of uid username) =
  if bool_decide (uid ∈ active) then e else remove_user (key_of uid username) (Itoa uid) username e.
Proof. intros Hu. unfold cleanup_key. by rewrite Split_key, Atoi_Itoa. Qed.

Definition removed_series (e : Exporter) (k uidStr username : string) (s : Series) : Prop :=
  (s.1 ∈ cleaned_families /\ s.2 = [uidStr; username]) \/
  (exists p, prevUserPatterns e !! k = Some p /\ s = ("userWorkloadPattern", [uidStr; username; p])).

Lemma delete_families labels l e s :
  series (foldl (fun e name => delete_series (name, labels) e) e l) !! s =
  if decide (s.1 ∈ l /\ s.2 = labels) then None else series e !! s.
Proof.
  revert e. induction l as [|name l IH]; intros e; cbn [foldl].
  { rewrite decide_False; [done|]. intros [H _]. by apply elem_of_nil in H. }
  rewrite IH. unfold delete_series. cbn [series set_series]. destruct s as [f ls]. cbn [fst snd].
  destruct (decide (f ∈ l /\ ls = labels)) as [[Hf ->]|Hn].
  - rewrite decide_True; [done|]. split; [by right|done].
  - destruct (decide ((name, labels) = (f, ls))) as [[= -> ->]|Hne].
    + rewrite lookup_delete_eq, decide_True; [done|]. split; [left|done].
    + rewrite lookup_delete_ne by done. rewrite decide_False; [done|].
      intros [[->|Hf]%elem_of_cons ->]; [by apply Hne|by apply Hn].
Qed.

Lemma foldl_delete_prev labels l e :
  prevUserPatterns (foldl (fun e name => delete_series (name, labels) e) e l) = prevUserPatterns e.
Proof. revert e. induction l as [|name l IH]; intros e; [done|]. cbn [foldl]. by rewrite IH. Qed.

Lemma foldl_delete_active labels l e :
  activeUserMetrics (foldl (fun e name => delete_series (name, labels) e) e l) = activeUserMetrics e.
Proof. revert e. induction l as [|name l IH]; intros e; [done|]. cbn [foldl]. by rewrite IH. Qed.

Lemma remove_user_series k u n e s :
  (removed_series e k u n s -> (series (remove_user k u n e) !! s) = None) /\
  (~ removed_series e k u n s -> series (remove_user k u n e) !! s = series e !! s).
Proof.
  unfold remove_user, removed_series. cbn [set_activeUserMetrics set_prevUserPatterns set_prevIOStats set_prevMemoryHighEvents series].
  rewrite foldl_delete_prev. destruct (prevUserPatterns e !! k) as [p|] eqn:Ep.
  - unfold delete_series at 1 3. cbn [set_series series]. destruct (decide (("userWorkloadPattern", [u; n; p]) = s)) as [<-|Hne].
    + rewrite lookup_delete_eq. split; [done|]. intros H. exfalso. apply H. right. by exists p.
    + rewrite lookup_delete_ne by done. rewrite delete_families. split; intros H.
      * rewrite decide_True; [done|]. destruct H as [H|(p' & [= <-] & ->)]; [done|by destruct Hne].
      * rewrite decide_False; [done|]. intros H'. apply H. by left.
  - rewrite delete_families. split; intros H.
    + rewrite decide_True; [done|]. by destruct H as [H|(p' & ? & _)].
    + rewrite decide_False; [done|]. intros H'. apply H. by left.
Qed.

Lemma remove_user_active k u n e : activeUserMetrics (remove_user k u n e) = activeUserMetrics e ∖ {[k]}.
Proof.
  unfold remove_user. cbn [set_activeUserMetrics set_prevUserPatterns set_prevIOStats set_prevMemoryHighEvents activeUserMetrics].
  by destruct (prevUserPatterns _ !! _); cbn [delete_series set_series activeUserMetrics]; rewrite foldl_delete_active.
Qed.

(** The keys of users that are gone. *)
Definition gone (active : list Z) (k : string) : Prop :=
  exists uid username, in_i64 uid /\ (uid ∉ active) /\ k = key_of uid username.

(** A series of another family, or of a user that is still there. *)
Definition kept (active : list Z) (s : Series) : Prop :=
  ((s.1 ∉ cleaned_families) /\ s.1 <> "userWorkloadPattern") \/
  exists uid rest, in_i64 uid /\ uid ∈ active /\ s.2 = Itoa uid :: rest.

#[local] Opaque remove_user.

(** One key of the loop. *)
Lemma cleanup_step active e uid username e1 :
  in_i64 uid -> uid ∉ active -> cleanup_key active e (key_of uid username) = e1 ->
  activeUserMetrics e1 = activeUserMetrics e ∖ {[key_of uid username]} /\
  (forall s, series e !! s = None -> series e1 !! s = None) /\
  (forall family, family ∈ cleaned_families -> series e1 !! (family, [Itoa uid; username]) = None) /\
  (forall s, kept active s -> series e1 !! s = series e !! s).
Proof.
  intros Hu Ha. rewrite cleanup_key_of, bool_decide_eq_false_2 by done. intros <-.
  pose proof (remove_user_series (key_of uid username) (Itoa uid) username e) as Hr. split_and!.
  - apply remove_user_active.
  - intros s Hs. destruct (Hr s) as [H1 H2].
    destruct (decide (s.1 ∈ cleaned_families /\ s.2 = [Itoa uid; username])); [by apply H1; left|].
    destruct (prevUserPatterns e !! key_of uid username) as [p|] eqn:Ep.
    + destruct (decide (s = ("userWorkloadPattern", [Itoa uid; username; p]))); [apply H1; right; by exists p|].
      rewrite H2; [done|]. intros [?|(p' & Hp & ->)]; [done|]. congruence.
    + rewrite H2; [done|]. intros [?|(p' & Hp & ->)]; [done|]. congruence.
  - intros f Hf. apply Hr. by left.
  - intros s Hs. apply Hr.
    destruct Hs as [[H1 H2]|(u' & rest & Hu' & Hin & Hs)]; intros [[H3 H4]|(p & _ & ->)]; try done.
    + rewrite Hs in H4. injection H4 as E _. apply (f_equal Atoi) in E. rewrite !Atoi_Itoa in E by done. naive_solver.
    + cbn in Hs. injection Hs as E _. apply (f_equal Atoi) in E. rewrite !Atoi_Itoa in E by done. naive_solver.
Qed.

Lemma cleanup_fold active l e e' :
  (forall k, k ∈ l -> exists uid username, in_i64 uid /\ k = key_of uid username) ->
  foldl (cleanup_key active) e l = e' ->
  (forall k, k ∈ activeUserMetrics e' <-> k ∈ activeUserMetrics e /\ ~ (k ∈ l /\ gone active k)) /\
  (forall s, series e !! s = None -> series e' !! s = None) /\
  (forall family uid username, family ∈ cleaned_families -> in_i64 uid -> uid ∉ active -> key_of uid username ∈ l ->
     series e' !! (family, [Itoa uid; username]) = None) /\
  (forall s, kept active s -> series e' !! s = series e !! s).
Proof.
  revert e. induction l as [|k l IH]; intros e Hl; cbn [foldl].
  { intros ->. split_and!; try done; [|by intros family uid username _ _ _ ?%elem_of_nil].
    intros k. split; [intros H; split; [done|]; by intros [?%elem_of_nil _]|by intros [? _]]. }
  destruct (Hl k) as (uid & username & Hu & ->); [left|]. intros He'.
  destruct (decide (uid ∈ active)) as [Ha|Ha].
  - rewrite cleanup_key_of, bool_decide_eq_true_2 in He' by done.
    destruct (IH e) as (IA & IN & IC & IK); [intros k' Hk'; apply Hl; by right|done|]. split_and!; [|done| |done].
    + intros k'. rewrite IA, elem_of_cons. split; intros [H1 H2]; (split; [done|]); [|intros [H3 H4]; apply H2; by split; [right|]].
      intros [[->|H3] H4]; [|by apply H2]. destruct H4 as (u' & n' & Hu' & Hna & E). by apply key_inj in E as [-> ->].
    + intros f u' n' Hf Hu' Hna [E|Hin]%elem_of_cons; [|by apply IC]. by apply key_inj in E as [-> ->].
  - remember (cleanup_key active e (key_of uid username)) as e1 eqn:E1. symmetry in E1.
    apply cleanup_step in E1 as (HA & HN & HC & HK); [|done..].
    destruct (IH e1) as (IA & IN & IC & IK); [intros k' Hk'; apply Hl; by right|done|]. split_and!.
    + intros k'. rewrite IA, HA, elem_of_difference, elem_of_singleton, elem_of_cons. split.
      * intros [[H1 H2] H3]. split; [done|]. intros [[H4|H4] H5]; [done|by apply H3].
      * intros [H1 H2]. split; [split; [done|]|].
        -- intros ->. apply H2. split; [by left|]. by exists uid, username.
        -- intros [H3 H4]. apply H2. split; [by right|done].
    + auto.
    + intros f u' n' Hf Hu' Hna [E|Hin]%elem_of_cons; [|by apply IC]. apply key_inj in E as [-> ->]; [|done..]. auto.
    + intros s Hs. by rewrite IK, HK.
Qed.

(** ** Series that last *)

Definition cleaned (family : string) : Prop := family ∈ cleaned_families \/ family = "userWorkloadPattern".

Lemma cleanup_lasting active l e s :
  ~ cleaned s.1 -> series (foldl (cleanup_key active) e l) !! s = series e !! s.
Proof.
  intros Hs. revert e. induction l as [|k l IH]; intros e; [done|]. cbn [foldl]. rewrite IH.
  unfold cleanup_key. destruct (SplitN2 k "_"%char) as [|u [|n [|]]]; try done. destruct (Atoi u); [|done].
  destruct (bool_decide _); [done|]. apply remove_user_series.
  intros [[H _]|(p & _ & ->)]; apply Hs; [by left|by right].
Qed.

(** The calls the other components make (a uid is a Go int), and what the
    server does. *)
Inductive ExporterStep {W} `{O : OS W} `{C : Clock W} : Exporter * W -> Exporter * W -> Prop :=
  | x_metrics_step m s : ExporterStep s (exec (UpdateMetrics m) s)
  | x_user_step x s : in_i64 (x_uid x) -> ExporterStep s (exec (UpdateUserMetrics x) s)
  | x_cleanup_step uids s : ExporterStep s (exec (CleanupUserMetrics uids) s)
  | x_system_step total action load s : ExporterStep s (exec (UpdateSystemMetrics total action load) s)
  | x_pattern_step uid name p c s : ExporterStep s (exec (UpdateUserWorkloadPattern uid name p c) s)
  | x_activated_step s : ExporterStep s (exec IncrementLimitsActivated s)
  | x_deactivated_step s : ExporterStep s (exec IncrementLimitsDeactivated s)
  | x_trigger_step t s : ExporterStep s (exec (RecordControlCycleTrigger t) s)
  | x_psi_step typ scope t s : ExporterStep s (exec (RecordPSIEvent typ scope t) s)
  | x_cycle_step d s : ExporterStep s (exec (RecordControlCycleDuration d) s)
  | x_collection_step d s : ExporterStep s (exec (RecordMetricsCollectionDuration d) s)
  | x_error_step c t s : ExporterStep s (exec (RecordError c t) s)
  | x_start_step s : ExporterStep s (exec Start s)
  | x_stop_step s : ExporterStep s (exec Stop s)
  | x_take_step s : ExporterStep s (exec take_stop s)
  | x_shutdown_step s : ExporterStep s (exec shutdown s).

(** What an operation maintains of the exporter. *)
Section Lasting.
Context {W : Type} `{O : OS W} (P : Exporter -> Prop).

Definition lasting {A} (m : XM W A) : Prop := forall s, P s.1 -> wp m (fun _ s' => P s'.1) s.

Lemma lasting_ret {A} (a : A) : lasting (mret a).
Proof. intros s Hs. by apply wp_ret. Qed.

Lemma lasting_bind {A B} (m : XM W A) (f : A -> XM W B) : lasting m -> (forall a, lasting (f a)) -> lasting (m ≫= f).
Proof. intros Hm Hf s Hs. apply wp_bind. eapply wp_mono; [|by apply Hm]. intros a s' Hs'. by apply Hf. Qed.

Lemma lasting_outside {A} (m : ST W A) : lasting (outside m).
Proof. intros [e w] Hs. unfold wp, outside. by destruct (m w). Qed.

Lemma lasting_exporter {A} (f : Exporter -> A) : lasting (exporter f).
Proof. by intros s Hs. Qed.

Lemma lasting_change f : (forall e, P e -> P (f e)) -> lasting (change f).
Proof. intros Hf [e w] Hs. by apply Hf. Qed.

Lemma lasting_for_each {A} (f : A -> XM W unit) l : (forall x, lasting (f x)) -> lasting (for_each f l).
Proof. intros Hf. induction l as [|x l IH]; [apply lasting_ret|]. by apply lasting_bind. Qed.

Lemma lasting_until_error l : Forall lasting l -> lasting (until_error l).
Proof.
  induction 1 as [|m l Hm _ IH]; [apply lasting_ret|]. apply lasting_bind; [done|].
  intros [e|]; [apply lasting_ret|done].
Qed.

Lemma lasting_load_file path label store : (forall c e, P e -> P (store c e)) -> lasting (load_file path label store).
Proof.
  intros Hs. unfold load_file. destruct (String.eqb _ _); [apply lasting_ret|]. apply lasting_bind; [apply lasting_outside|].
  intros [c|e]; [|apply lasting_ret]. apply lasting_bind; [apply lasting_change; intros; by apply Hs|intros; apply lasting_ret].
Qed.

Lemma lasting_find_file path label store : (forall c e, P e -> P (store c e)) -> lasting (find_file path label store).
Proof.
  intros Hs. unfold find_file. destruct (String.eqb _ _); [apply lasting_ret|]. apply lasting_bind; [apply lasting_outside|].
  intros [e|]; [apply lasting_ret|]. apply lasting_bind; [apply lasting_change; intros; by apply Hs|intros; apply lasting_ret].
Qed.

(** Loading the credentials, all of them or all but the password. *)
Definition later_setters : list (string -> Exporter -> Exporter) := [set_jwtSecret; set_tlsCertFile; set_tlsKeyFile; set_tlsCAFile].

Lemma lasting_later_credentials cfg :
  (forall f v e, f ∈ later_setters -> P e -> P (f v e)) -> Forall lasting (later_credentials cfg).
Proof.
  intros HP. unfold later_credentials. destruct (uses_jwt cfg), (PrometheusTLSEnabled cfg);
    repeat match goal with
    | |- Forall _ (_ :: _) => apply List.Forall_cons
    | |- Forall _ [] => apply List.Forall_nil
    | |- lasting (mret _) => apply lasting_ret
    | |- lasting (load_file _ _ _) => apply lasting_load_file
    | |- lasting (find_file _ _ _) => apply lasting_find_file
    end; intros c e; apply HP; unfold later_setters; rewrite !elem_of_cons; auto 8.
Qed.

Lemma lasting_credentials :
  (forall f v e, f ∈ set_basicAuthPassword :: later_setters -> P e -> P (f v e)) -> lasting loadCredentials.
Proof.
  intros HP. unfold loadCredentials. apply lasting_bind; [apply lasting_exporter|]. intros cfg. apply lasting_until_error.
  apply List.Forall_cons; [|apply lasting_later_credentials; intros f v e Hf; apply HP; by right].
  destruct (uses_basic cfg); [|apply lasting_ret]. apply lasting_load_file. intros c e. apply HP. by left.
Qed.

End Lasting.

Ltac lasting_steps :=
  repeat match goal with
  | |- forall _, _ => intros ?
  | |- lasting _ (match ?x with _ => _ end) => destruct x
  | |- lasting _ (when ?b _) => destruct b; unfold when
  | |- lasting _ (_ ≫= _) => apply lasting_bind
  | |- lasting _ (for_each _ _) => apply lasting_for_each
  | |- lasting _ (mret _) => apply lasting_ret
  | |- lasting _ (outside _) => apply lasting_outside
  | |- lasting _ (exporter _) => apply lasting_exporter
  | |- lasting _ (change _) => apply lasting_change; intros ? ?; cbn beta
  end.

(** What every update of the exporter maintains; [U] restricts the users that
    are exported.  A call of the client library gives a registered metric of the
    right kind the labels it has. *)
Record closed (U : Z -> Prop) (P : Exporter -> Prop) : Prop := {
  cl_gauge name labels v e : fits Gauge name (length labels) = true -> P e -> P (gauge name labels v e);
  cl_count name labels v e : fits Counter name (length labels) = true -> P e -> P (count name labels v e);
  cl_observe name v e : fits (Histogram None) name 0 = true -> P e -> P (Observe name v e);
  cl_updated t e : P e -> P (set_lastUpdate t e);
  cl_running b e : P e -> P (set_isRunning b e);
  cl_pending b e : P e -> P (set_stopPending b e);
  cl_user x n m e : U (x_uid x) -> P e -> P (update_user x (Itoa (x_uid x)) n m e);
  cl_cleanup uids e : P e -> P (cleanup_users uids e);
  cl_pattern key u n p conf e : P e -> P (set_pattern key u n p conf e)
}.

Lemma closed_and U P Q : closed U P -> closed U Q -> closed U (fun e => P e /\ Q e).
Proof. intros [] []. by constructor; intros ??; naive_solver. Qed.

Section Closed.
Context {W : Type} `{O : OS W} `{C : Clock W} (U : Z -> Prop) (P : Exporter -> Prop) (K : closed U P).

Lemma cl_inc name labels e : fits Counter name (length labels) = true -> P e -> P (inc name labels e).
Proof. apply (cl_count _ _ K). Qed.

Lemma cl_cgroup key v name e : fits Gauge name 2 = true -> P e -> P (updateCgroupMetric key v name e).
Proof.
  intros Hf H. unfold updateCgroupMetric. destruct (negb _); [done|]. destruct (after_byte _ key); [|done].
  destruct (after_byte _ _); [by apply (cl_gauge _ _ K)|done].
Qed.

Lemma lasting_username u : lasting P (getUsernameFromUID (W := W) u).
Proof. unfold getUsernameFromUID. lasting_steps. Qed.

Lemma lasting_resolve u n : lasting P (resolve_name (W := W) u n).
Proof. unfold resolve_name. lasting_steps. apply lasting_username. Qed.

Lemma plain_fits key g : List.find (fun g => String.eqb g.1 key) plain_gauges = Some g -> fits Gauge g.2 0 = true.
Proof.
  intros [H _]%find_some. revert g H. apply List.Forall_forall.
  apply (bool_decide_unpack (Forall (fun g => fits Gauge g.2 0 = true) plain_gauges)). by vm_compute.
Qed.

Lemma lasting_metric p : lasting P (update_metric (W := W) p).
Proof.
  destruct p as [key v]. unfold update_metric, user_gauge. destruct (List.find _ plain_gauges) as [g|] eqn:Eg.
  { apply plain_fits in Eg. destruct g as [k name]. lasting_steps. by apply (cl_gauge _ _ K). }
  lasting_steps; first [apply lasting_username | by apply (cl_gauge _ _ K) | by apply cl_cgroup | by apply (cl_observe _ _ K)].
Qed.

Lemma lasting_UpdateMetrics l : lasting P (UpdateMetrics (W := W) l).
Proof. unfold UpdateMetrics. lasting_steps; [by apply (cl_updated _ _ K)|by apply cl_inc|apply lasting_metric]. Qed.

Lemma lasting_UpdateUserMetrics x : U (x_uid x) -> lasting P (UpdateUserMetrics (W := W) x).
Proof.
  intros Hu. unfold UpdateUserMetrics, getCgroupMemoryUsage. lasting_steps; [apply lasting_resolve|by apply (cl_user _ _ K)].
Qed.

Lemma lasting_cleanup uids : lasting P (CleanupUserMetrics (W := W) uids).
Proof. apply lasting_change, (cl_cleanup _ _ K). Qed.

Lemma lasting_system total action load : lasting P (UpdateSystemMetrics (W := W) total action load).
Proof. apply lasting_change. intros e He. do 3 (apply (cl_gauge _ _ K); [done|]). done. Qed.

Lemma lasting_pattern uid name p c : lasting P (UpdateUserWorkloadPattern (W := W) uid name p c).
Proof. unfold UpdateUserWorkloadPattern. lasting_steps; [apply lasting_resolve|by apply (cl_pattern _ _ K)]. Qed.

Lemma lasting_inc name labels :
  fits Counter name (length labels) = true -> lasting P (change (W := W) (inc name labels)).
Proof. intros Hf. apply lasting_change. intros e. by apply cl_inc. Qed.

Lemma lasting_psi typ scope t : lasting P (RecordPSIEvent (W := W) typ scope t).
Proof. unfold RecordPSIEvent. lasting_steps; [by apply cl_inc|by apply (cl_gauge _ _ K)]. Qed.

Lemma lasting_observe name v :
  fits (Histogram None) name 0 = true -> lasting P (change (W := W) (Observe name v)).
Proof. intros Hf. apply lasting_change. intros e. by apply (cl_observe _ _ K). Qed.

Lemma lasting_Stop : lasting P (Stop (W := W)).
Proof. unfold Stop. lasting_steps. by apply (cl_pending _ _ K). Qed.

Lemma lasting_shutdown : lasting P (shutdown (W := W)).
Proof. apply lasting_change. intros e He. destruct (isRunning e); [by apply (cl_running _ _ K)|done]. Qed.

Lemma lasting_preserves {A} (m : XM W A) : lasting P m -> preserves (fun s => P s.1) m.
Proof. done. Qed.

Lemma closed_step s s' : (forall uid, in_i64 uid -> U uid) -> ExporterStep (W := W) s s' -> P s.1 -> P s'.1.
Proof.
  intros HU H. destruct H; apply lasting_preserves.
  - apply lasting_UpdateMetrics.
  - by apply lasting_UpdateUserMetrics, HU.
  - apply lasting_cleanup.
  - apply lasting_system.
  - apply lasting_pattern.
  - by apply lasting_inc.
  - by apply lasting_inc.
  - by apply lasting_inc.
  - apply lasting_psi.
  - by apply lasting_observe.
  - by apply lasting_observe.
  - by apply lasting_inc.
  - unfold Start. lasting_steps. by apply (cl_running _ _ K).
  - apply lasting_Stop.
  - unfold take_stop. lasting_steps; [by apply (cl_pending _ _ K)|apply lasting_shutdown].
  - apply lasting_shutdown.
Qed.

End Closed.

Section Has.
Context (k : Series).

Definition has (e : Exporter) : Prop := is_Some (series e !! k).

Lemma has_gauge name labels v e : has e -> has (gauge name labels v e).
Proof. intros H. unfold has, gauge. cbn [series set_series]. rewrite lookup_insert. by case_decide. Qed.

Lemma has_count name labels v e : has e -> has (count name labels v e).
Proof. intros H. unfold has, count. cbn [series set_series]. rewrite lookup_insert. by case_decide. Qed.

Lemma has_io_delta name labels now prev e : has e -> has (io_delta name labels now prev e).
Proof. intros H. unfold io_delta. destruct (_ >=? _); [by apply has_count|done]. Qed.

Lemma has_cgroup_series u path quota mem e : has e -> has (cgroup_series u path quota mem e).
Proof.
  intros H. unfold cgroup_series. destruct (String.eqb path ""); [done|]. apply has_gauge.
  destruct (String.eqb quota ""); [done|]. destruct (parseCPUQuota quota) as [q p].
  destruct (q >=? 0), (p >? 0); auto using has_gauge.
Qed.

Lemma has_io_stats u n io e : has e -> has (io_stats u n io e).
Proof. intros H. unfold io_stats. by do 4 apply has_io_delta. Qed.

Lemma has_high_events u n events e : has e -> has (high_events u n events e).
Proof. intros H. unfold high_events, has. cbn [series set_prevMemoryHighEvents]. destruct (_ >? _); [by apply has_count|done]. Qed.

Lemma has_update_user x u n mem e : has e -> has (update_user x u n mem e).
Proof.
  intros H. unfold update_user. destruct (x_io x) as [[[rb wb] ro] wo].
  apply has_cgroup_series, has_io_stats, has_high_events. by repeat apply has_gauge.
Qed.

End Has.

(** Every update of a user sets both averages. *)
Lemma has_averages x u n mem e family :
  family = "userCPUUsageAverage" \/ family = "userCPUUsageEMA" -> has (family, [u; n]) (update_user x u n mem e).
Proof.
  intros Hf. unfold update_user. destruct (x_io x) as [[[rb wb] ro] wo].
  match goal with |- has ?k (cgroup_series _ _ _ _ (io_stats _ _ _ (high_events _ _ _ ?e1))) =>
    assert (has k e1) as H end.
  { do 3 apply has_gauge. destruct Hf as [-> | ->]; [apply has_gauge|]; unfold has, gauge; cbn [series set_series];
      rewrite lookup_insert_eq; by eexists. }
  by apply has_cgroup_series, has_io_stats, has_high_events.
Qed.

Lemma average_not_cleaned family : family = "userCPUUsageAverage" \/ family = "userCPUUsageEMA" -> ~ cleaned family.
Proof.
  intros Hf [H|H]; [|by destruct Hf; subst]. revert H. apply (bool_decide_eq_false (family ∈ cleaned_families)).
  by destruct Hf as [-> | ->].
Qed.

Section Lasting_series.
Context (k : Series).

Hypothesis not_cleaned : ~ cleaned k.1.

Lemma has_pattern key u n p conf e : has k e -> has k (set_pattern key u n p conf e).
Proof.
  intros H. unfold set_pattern. unfold has. cbn [series set_prevUserPatterns]. apply has_gauge.
  destruct (prevUserPatterns e !! key) as [prev|]; [|done]. destruct (String.eqb prev p); [done|].
  unfold has, delete_series. cbn [series set_series]. rewrite lookup_delete_ne; [done|].
  intros E. apply not_cleaned. right. by rewrite <- E.
Qed.

Lemma has_cleanup uids e : has k e -> has k (cleanup_users uids e).
Proof. intros H. unfold has, cleanup_users. by rewrite cleanup_lasting. Qed.

Lemma has_closed : closed (fun _ => True) (has k).
Proof.
  constructor; intros; [by apply has_gauge|by apply has_count|done|done|done|done|by apply has_update_user
                       |by apply has_cleanup|by apply has_pattern].
Qed.

End Lasting_series.

(** ** The keys of the tracked users *)

Section Keys.
Context {W : Type} `{O : OS W} `{C : Clock W}.

Lemma keys_ok_sub e e' : activeUserMetrics e' ⊆ activeUserMetrics e -> keys_ok e -> keys_ok e'.
Proof. intros Hs He k Hk. apply He. set_solver. Qed.

Lemma keys_ok_same e e' : activeUserMetrics e' = activeUserMetrics e -> keys_ok e -> keys_ok e'.
Proof. intros E. apply keys_ok_sub. by rewrite E. Qed.

Lemma pattern_active key u n p conf e : activeUserMetrics (set_pattern key u n p conf e) = activeUserMetrics e.
Proof. unfold set_pattern. destruct (prevUserPatterns e !! key) as [q|]; [|done]. by destruct (String.eqb q p). Qed.

Lemma io_delta_active name labels now prev e : activeUserMetrics (io_delta name labels now prev e) = activeUserMetrics e.
Proof. unfold io_delta. by destruct (_ >=? _). Qed.

Lemma high_events_active u n events e : activeUserMetrics (high_events u n events e) = activeUserMetrics e.
Proof. unfold high_events. by destruct (_ >? _). Qed.

Lemma update_user_active x u n mem e :
  activeUserMetrics (update_user x u n mem e) = {[user_key u n]} ∪ activeUserMetrics e.
Proof.
  unfold update_user. destruct (x_io x) as [[[rb wb] ro] wo].
  assert (forall p q m e, activeUserMetrics (cgroup_series u p q m e) = activeUserMetrics e) as ->.
  { intros p q m e0. unfold cgroup_series. destruct (String.eqb p ""); [done|]. destruct (String.eqb q ""); [done|].
    destruct (parseCPUQuota q) as [a b]. by destruct (a >=? 0), (b >? 0). }
  unfold io_stats. cbn [activeUserMetrics set_prevIOStats]. by rewrite !io_delta_active, high_events_active.
Qed.

Lemma cleanup_active_sub active l e : activeUserMetrics (foldl (cleanup_key active) e l) ⊆ activeUserMetrics e.
Proof.
  revert e. induction l as [|k l IH]; intros e; [done|]. cbn [foldl]. etransitivity; [apply IH|]. unfold cleanup_key.
  destruct (SplitN2 k "_"%char) as [|u [|n [|]]]; try done. destruct (Atoi u); [|done].
  destruct (bool_decide _); [done|]. rewrite remove_user_active. set_solver.
Qed.

(** The tracked keys are those of users, under every operation. *)
Lemma keys_closed : closed in_i64 keys_ok.
Proof.
  constructor; intros; try done.
  - intros k. rewrite update_user_active, elem_of_union, elem_of_singleton. intros [->|Hk]; [by eexists _, _|auto].
  - eapply keys_ok_sub; [apply cleanup_active_sub|done].
  - eapply keys_ok_same; [apply pattern_active|done].
Qed.

End Keys.

(** ** The exporters the application makes *)

Section Created.
Context {W : Type} `{O : OS W} `{C : Clock W}.

(** An exporter as the application makes it. *)
Definition created (s : Exporter * W) : Prop := exists cfg w, NewPrometheusExporter cfg w = (Ok (Some s.1), s.2).

Lemma created_keeps (P : Exporter -> Prop) (s : Exporter * W) :
  (forall cfg, P (new_exporter cfg)) -> (forall f v e, f ∈ set_basicAuthPassword :: later_setters -> P e -> P (f v e)) ->
  created s -> P s.1.
Proof.
  intros HN HS (cfg & w & H). revert H. unfold NewPrometheusExporter. destruct (negb _); [done|]. destruct (_ || _); [done|].
  assert (P (exec loadCredentials (new_exporter cfg, w)).1) as K.
  { apply (wp_exec loadCredentials (fun s => P s.1)). by apply lasting_credentials; [|apply HN]. }
  revert K. unfold exec. destruct (loadCredentials (new_exporter cfg, w)) as [o [e w1]]. by intros K [= <- _].
Qed.

(** What the updates keep holds in every state of an exporter. *)
Lemma reachable_keeps (U : Z -> Prop) (P : Exporter -> Prop) (s : Exporter * W) :
  closed U P -> (forall uid, in_i64 uid -> U uid) ->
  (forall cfg, P (new_exporter cfg)) -> (forall f v e, f ∈ set_basicAuthPassword :: later_setters -> P e -> P (f v e)) ->
  reachable created ExporterStep s -> P s.1.
Proof.
  intros K HU HN HS. apply (reachable_invariant _ _ (fun s => P s.1)); [intros; by apply created_keeps|].
  intros s1 s2 H1 H2. by eapply (closed_step _ _ K).
Qed.

Lemma setters_keep (P : Exporter -> Prop) :
  (forall e e', series e' = series e -> observations e' = observations e -> activeUserMetrics e' = activeUserMetrics e -> P e -> P e') ->
  forall f v e, f ∈ set_basicAuthPassword :: later_setters -> P e -> P (f v e).
Proof.
  intros HP f v e Hf. unfold later_setters in Hf. rewrite !elem_of_cons, elem_of_nil in Hf.
  by repeat destruct Hf as [-> |Hf]; try apply HP.
Qed.

End Created.

(** ** Well-typed exporters *)

Section Typed.

(** Every series and every observation belongs to a registered metric, with the
    labels it has. *)
Definition well_typed (e : Exporter) : Prop :=
  map_Forall (fun s _ => typed s = true) (series e) /\
  Forall (fun o => fits (Histogram None) o.1 0 = true) (observations e).

Lemma typed_gauge name labels v e : fits Gauge name (length labels) = true -> well_typed e -> well_typed (gauge name labels v e).
Proof. intros Hf [H1 H2]. split; [|done]. apply map_Forall_insert_2; [|done]. unfold typed. cbn [fst snd]. by rewrite Hf. Qed.

Lemma typed_count name labels v e : fits Counter name (length labels) = true -> well_typed e -> well_typed (count name labels v e).
Proof.
  intros Hf [H1 H2]. split; [|done]. apply map_Forall_insert_2; [|done]. unfold typed. cbn [fst snd]. by rewrite Hf, orb_true_r.
Qed.

Lemma typed_delete k e : well_typed e -> well_typed (delete_series k e).
Proof. intros [H1 H2]. split; [|done]. by apply map_Forall_delete. Qed.

Lemma typed_same e e' : series e' = series e -> observations e' = observations e -> well_typed e -> well_typed e'.
Proof. unfold well_typed. by intros -> ->. Qed.

(** The series do not depend on what the exporter remembers of a user. *)
Ltac unremember :=
  match goal with
  | |- well_typed (set_prevIOStats _ ?e) => change (well_typed e)
  | |- well_typed (set_prevMemoryHighEvents _ ?e) => change (well_typed e)
  | |- well_typed (set_prevUserPatterns _ ?e) => change (well_typed e)
  | |- well_typed (set_activeUserMetrics _ ?e) => change (well_typed e)
  end.

Lemma typed_io name labels now prev e :
  fits Counter name (length labels) = true -> well_typed e -> well_typed (io_delta name labels now prev e).
Proof. intros Hf H. unfold io_delta. destruct (_ >=? _); [by apply typed_count|done]. Qed.

Lemma typed_user x u n mem e : well_typed e -> well_typed (update_user x u n mem e).
Proof.
  intros H. unfold update_user. destruct (x_io x) as [[[rb wb] ro] wo].
  assert (forall p q m e, well_typed e -> well_typed (cgroup_series u p q m e)) as HG.
  { intros p q m e0 H0. unfold cgroup_series. destruct (String.eqb p ""); [done|]. apply typed_gauge; [done|].
    destruct (String.eqb q ""); [done|]. destruct (parseCPUQuota q) as [a b].
    destruct (a >=? 0), (b >? 0); repeat (apply typed_gauge; [done|]); done. }
  assert (forall k e, well_typed e -> well_typed (high_events u n k e)) as HH.
  { intros k e0 H0. unfold high_events. unremember. destruct (_ >? _); [by apply typed_count|done]. }
  apply HG. unfold io_stats. unremember. repeat (apply typed_io; [done|]). apply HH.
  repeat (apply typed_gauge; [done|]). by unremember.
Qed.

Lemma typed_forget a b c d e :
  well_typed e ->
  well_typed (set_activeUserMetrics a (set_prevUserPatterns b (set_prevIOStats c (set_prevMemoryHighEvents d e)))).
Proof. by apply typed_same. Qed.

#[local] Transparent remove_user.

Lemma typed_remove k u n e : well_typed e -> well_typed (remove_user k u n e).
Proof.
  intros H. assert (forall l e, well_typed e -> well_typed (foldl (fun e name => delete_series (name, [u; n]) e) e l)) as HF.
  { intros l. induction l as [|a l IH]; intros e0 H0; [done|]. by apply IH, typed_delete. }
  apply (HF cleaned_families) in H. unfold remove_user. revert H.
  generalize (foldl (fun e name => delete_series (name, [u; n]) e) e cleaned_families). intros e1 H1.
  apply typed_forget. destruct (prevUserPatterns e1 !! k); [by apply typed_delete|done].
Qed.

#[local] Opaque remove_user.

Lemma typed_cleanup uids e : well_typed e -> well_typed (cleanup_users uids e).
Proof.
  unfold cleanup_users. generalize (elements (activeUserMetrics e)). intros l. revert e.
  induction l as [|k l IH]; intros e H; [done|]. apply IH. unfold cleanup_key.
  destruct (SplitN2 k "_"%char) as [|u [|n [|]]]; try done. destruct (Atoi u); [|done].
  destruct (bool_decide _); [done|by apply typed_remove].
Qed.

Lemma typed_pattern key u n p conf e : well_typed e -> well_typed (set_pattern key u n p conf e).
Proof.
  intros H. unfold set_pattern. unremember. apply typed_gauge; [done|].
  destruct (prevUserPatterns e !! key) as [prev|]; [|done]. destruct (String.eqb prev p); [done|by apply typed_delete].
Qed.

Lemma typed_closed : closed (fun _ => True) well_typed.
Proof.
  constructor; intros; [by apply typed_gauge|by apply typed_count| |done|done|done|by apply typed_user
                       |by apply typed_cleanup|by apply typed_pattern].
  destruct H0 as [H1 H2]. split; [done|]. by constructor.
Qed.

End Typed.

Lemma well_typed_created {W} `{O : OS W} `{C : Clock W} (s : Exporter * W) : created s -> well_typed s.1.
Proof.
  apply (created_keeps well_typed).
  - intros cfg. split; [apply map_Forall_empty|constructor].
  - apply setters_keep. intros e e1 H1 H2 _. by apply typed_same.
Qed.

(** ** Properties *)

Section Properties.
Context {W : Type} `{O : OS W} `{C : Clock W}.

(** C26: every call the exporter makes to the client library is well typed: in each
    state it can reach, each series belongs to a metric [registerMetrics]
    registers as a gauge or a counter, with exactly the labels of that metric,
    and each observation to a histogram.  So [WithLabelValues], which panics when
    the numbers differ, never does; and since the names are distinct, neither
    does the registration. *)
Theorem exporter_well_typed (s : Exporter * W) :
  reachable created ExporterStep s -> well_typed s.1 /\ NoDup (map full_name registerMetrics).
Proof.
  intros Hr. split; [|apply registered_once]. revert Hr.
  apply (reachable_invariant _ _ (fun s => well_typed s.1)); [apply well_typed_created|].
  intros s1 s2 H1 H2. by eapply (closed_step _ _ typed_closed).
Qed.


(** Once a user was exported, the two families of averaged CPU usage keep a
    series for it for ever: nothing the exporter does removes it. *)
Theorem averages_never_removed x (s s' : Exporter * W) family :
  family = "userCPUUsageAverage" \/ family = "userCPUUsageEMA" ->
  x_username x <> "" -> x_username x <> Itoa (x_uid x) ->
  reachable (fun s1 => s1 = exec (UpdateUserMetrics x) s) ExporterStep s' ->
  is_Some (series s'.1 !! (family, [Itoa (x_uid x); x_username x])).
Proof.
  intros Hf Hn1 Hn2. apply (reachable_invariant _ _ (fun s' => has (family, [Itoa (x_uid x); x_username x]) s'.1)).
  - intros s0 ->. apply (wp_exec (UpdateUserMetrics x) (fun s => has _ s.1)). unfold UpdateUserMetrics, resolve_name.
    apply String.eqb_neq in Hn1, Hn2. rewrite Hn1, Hn2. apply wp_bind, wp_ret, wp_bind.
    assert (forall m (s0 : Exporter * W), wp (change (update_user x (Itoa (x_uid x)) (x_username x) m))
      (fun _ s' => has (family, [Itoa (x_uid x); x_username x]) s'.1) s0) as K.
    { intros m [e w]. unfold wp, change, modify. cbn [fst snd]. by apply has_averages. }
    destruct (String.eqb (x_cgroupPath x) ""); [by apply wp_ret|].
    unfold getCgroupMemoryUsage. apply wp_bind. destruct s as [e w]. unfold wp, outside. destruct (os_ReadFile _ w). by apply K.
  - intros s1 s2 H1 H2. eapply (closed_step _ _ (has_closed (family, [Itoa (x_uid x); x_username x]) (average_not_cleaned family Hf))); [done|exact H2|done].
Qed.

(** What [basic_access] compares a password with: the trimmed content of the
    password file, and the empty string when it is not set or not readable. *)
Definition expected_password (cfg : Config) (w : W) : string :=
  if String.eqb (PrometheusAuthPasswordFile cfg) "" then ""
  else match (os_ReadFile (PrometheusAuthPasswordFile cfg) w).1 with Ok content => TrimSpace content | Err _ => "" end.

#[local] Opaque later_credentials.

Lemma load_password cfg (w : W) :
  uses_basic cfg = true ->
  let e := (exec loadCredentials (new_exporter cfg, w)).1 in
  e_cfg e = cfg /\ basicAuthPassword e = expected_password cfg w.
Proof.
  intros Hb. pose (P pw e := e_cfg e = cfg /\ basicAuthPassword e = pw).
  assert (forall pw, lasting (W := W) (P pw) (until_error (later_credentials cfg))) as K.
  { intros pw. apply lasting_until_error, lasting_later_credentials. intros f v e Hf.
    unfold later_setters in Hf. rewrite !elem_of_cons, elem_of_nil in Hf. by repeat destruct Hf as [-> |Hf]. }
  apply (wp_exec loadCredentials (fun s => P (expected_password cfg w) s.1)).
  unfold loadCredentials, expected_password. apply wp_bind. unfold wp at 1, exporter. cbn [fst e_cfg new_exporter].
  rewrite Hb. cbn [until_error]. apply wp_bind.
  unfold load_file at 1. destruct (String.eqb (PrometheusAuthPasswordFile cfg) ""); [apply wp_ret; by apply K|].
  apply wp_bind. unfold wp at 1, outside. cbn [fst snd]. destruct (os_ReadFile _ w) as [[c|e] w1]; [|by split].
  apply wp_bind. unfold wp at 1, change, modify. apply wp_ret. by apply K.
Qed.

(** C23: with basic authentication the server answers a request with the metrics
    exactly when it asks for their path and carries the configured user name and
    the trimmed content of the password file, whatever else could not be loaded;
    when the file is not set or cannot be read, the password that passes is the
    empty one. *)
Theorem basic_access `{Zones} cfg (w : W) :
  EnablePrometheus cfg = true -> 0 < PrometheusMetricsBindPort cfg <= 65535 -> PrometheusAuthType cfg = "basic" ->
  exists e, (NewPrometheusExporter cfg w).1 = Ok (Some e) /\
    forall jwt_Parse now path rq, (exists s o, serve_page jwt_Parse e now path rq = PageMetrics s o) <->
      path = "/metrics" /\ rq_basic rq = Some (PrometheusAuthUsername cfg, expected_password cfg w).
Proof.
  intros He Hp Ht. unfold NewPrometheusExporter. rewrite He.
  rewrite (proj2 (Z.leb_gt _ _)), (proj1 (not_true_iff_false (_ >? _))) by lia. cbn [negb orb].
  assert (uses_basic cfg = true) as Hb by (unfold uses_basic; by rewrite Ht).
  destruct (load_password cfg w Hb) as [H1 H2]. revert H1 H2. unfold exec.
  destruct (loadCredentials (new_exporter cfg, w)) as [o [e w1]]. cbn [fst snd]. intros H1 H2. exists e.
  split; [done|]. intros jwt_Parse now path rq. rewrite serve_page_metrics. apply and_iff_compat_l. unfold authMiddleware, uses_basic, uses_jwt, checkBasicAuth. rewrite H1, H2, Ht.
  cbn [String.eqb Ascii.eqb Bool.eqb orb andb]. rewrite orb_false_r. destruct (rq_basic rq) as [[u p]|]; [|done].
  rewrite andb_true_iff, !String.eqb_eq. naive_solver.
Qed.

(** A new exporter has the configuration it was given, and does not run. *)
Lemma new_exporter_idle cfg (w : W) e : (NewPrometheusExporter cfg w).1 = Ok (Some e) -> e_cfg e = cfg /\ isRunning e = false.
Proof.
  unfold NewPrometheusExporter. destruct (negb _); [done|]. destruct (_ || _); [done|].
  assert (lasting (W := W) (fun e => e_cfg e = cfg /\ isRunning e = false) loadCredentials) as K.
  { apply lasting_credentials. intros f v e' Hf. unfold later_setters in Hf. rewrite !elem_of_cons, elem_of_nil in Hf.
    by repeat destruct Hf as [-> |Hf]. }
  specialize (K (new_exporter cfg, w) ltac:(done)). unfold wp in K. destruct (loadCredentials (new_exporter cfg, w)) as [o [e' w']].
  by intros [= <-].
Qed.

End Properties.

(** ** Witnesses *)

Definition metrics_cfg : Config :=
  set_EnablePrometheus true (set_PrometheusAuthType "basic" (set_PrometheusAuthPasswordFile "/etc/pw" (DefaultConfig None))).

Definition export_of (uid : Z) (name : string) : UserExport :=
  mkUserExport uid name (mkUserMetrics uid name fzero fzero fzero 4096 1 false 0 0 0 0) false "" "" 0 (1, 2, 3, 4).

Definition metrics_bench : Bench := mkBench 0 false ∅ {[ "/etc/pw" := " secret " ]} [].

Definition fresh_exporter : Exporter := (exec loadCredentials (new_exporter metrics_cfg, metrics_bench)).1.

Definition exported (x : UserExport) (s : Exporter * Bench) : Exporter * Bench := exec (UpdateUserMetrics x) s.

(** alice and bob are exported; bob alone is left. *)
Definition two_users : Exporter * Bench :=
  exported (export_of 1001 "bob") (exported (export_of 1000 "alice") (fresh_exporter, metrics_bench)).

Lemma two_users_reachable : reachable created ExporterStep two_users.
Proof.
  unfold two_users, exported. eapply reach_step; [|by apply x_user_step]. eapply reach_step; [|by apply x_user_step].
  apply reach_init. exists metrics_cfg, metrics_bench. by vm_compute.
Qed.


Lemma averages_never_removed_witness :
  is_Some (series (exec (CleanupUserMetrics []) (exported (export_of 1000 "alice") (fresh_exporter, metrics_bench))).1
             !! ("userCPUUsageAverage", ["1000"; "alice"])).
Proof.
  apply (averages_never_removed (export_of 1000 "alice") (fresh_exporter, metrics_bench)
    (exec (CleanupUserMetrics []) (exported (export_of 1000 "alice") (fresh_exporter, metrics_bench)))); [by left|done|done|].
  eapply reach_step; [by apply reach_init|apply x_cleanup_step].
Defined.

#[local] Existing Instance greenwich.

Lemma basic_access_witness :
  exists e, (NewPrometheusExporter metrics_cfg metrics_bench).1 = Ok (Some e) /\
    (exists s o, serve_page (fun _ _ => None) e (mkGoTime 0 UTC) "/metrics"
       (mkRequest (Some (PrometheusAuthUsername metrics_cfg, "secret")) "") = PageMetrics s o) /\
    ~ (exists s o, serve_page (fun _ _ => None) e (mkGoTime 0 UTC) "/metrics"
       (mkRequest (Some (PrometheusAuthUsername metrics_cfg, "")) "") = PageMetrics s o).
Proof.
  destruct (basic_access metrics_cfg metrics_bench) as (e & H & Ha); [done..|]. exists e. split; [done|]. split.
  - apply Ha. split; [done|by vm_compute].
  - rewrite Ha. intros [_ H1]. by vm_compute in H1.
Defined.

Lemma exporter_well_typed_witness :
  is_Some (series two_users.1 !! ("userLimited", ["1000"; "alice"])) /\ typed ("userLimited", ["1000"; "alice"]) = true /\
  typed ("userLimited", ["1000"]) = false.
Proof.
  split_and!; [by apply (bool_decide_unpack _); vm_compute| |done].
  destruct (exporter_well_typed two_users two_users_reachable) as [[H _] _].
  by apply (H ("userLimited", ["1000"; "alice"]) fzero); vm_compute.
Defined.
