(* ===== verification/CollectorSafe.v ===== *)
(** * Safety of the metrics collector

    Every key of the general cache has one type of value ([well_typed]), so
    that no type assertion of a reader fails; the two halves of each cache stay
    in step, and the cache of processes stays within its limit. *)

From S2P Require Import Prelude GoStrings GoFloat GoNumbers ProcFiles Config Blackout ConfigLoad OS UserFilter CgroupBase CgroupProcess StateBase CollectorBase Collector Bench.

#[local] Open Scope Z_scope.

(** ** The invariant *)

Definition fixed_keys : list (string * (CacheVal -> bool)) :=
  [("total_cores", fun v => isSome (as_int v));
   ("total_cpu_usage", fun v => isSome (as_float v));
   ("memory_usage", fun v => isSome (as_float v));
   ("total_memory", fun v => isSome (as_float v));
   ("cached_memory", fun v => isSome (as_float v));
   ("all_users_cpu_usage", fun v => isSome (as_float v));
   ("limited_users_cpu_usage", fun v => isSome (as_float v));
   ("all_users_memory_usage", fun v => isSome (as_uint v));
   ("limited_users_memory_usage", fun v => isSome (as_uint v));
   ("all_users", fun v => isSome (as_users v));
   ("limited_users", fun v => isSome (as_users v));
   ("system_under_load", fun v => isSome (as_bool v));
   ("all_user_metrics", fun v => isSome (as_metrics v))].

Definition well_typed (key : string) (v : CacheVal) : bool :=
  if HasPrefix key "cpu_usage_uid_" then isSome (as_float v)
  else if HasPrefix key "memory_usage_uid_" then isSome (as_uint v)
  else if HasPrefix key "process_count_uid_" then isSome (as_int v)
  else match List.find (fun p => String.eqb p.1 key) fixed_keys with
       | Some (_, typed) => typed v
       | None => false
       end.

Definition collector_ok `{RE : Regexp} (c : Collector) : Prop :=
  panicked c = false /\
  (forall k v, cache c !! k = Some v -> well_typed k v = true) /\
  dom (cache c) = dom (cacheTimestamps c) /\
  dom (prevProcCPU c) = dom (prevProcTime c) /\
  map_size (prevProcCPU c) <= MAX_PROC_CACHE_SIZE /\
  dom (usernameCache c) = dom (usernameCacheTime c) /\
  cache_ok (c_regexCache c).

(** The calls other components make, the ticker of the clean-up included. *)
Inductive Request :=
  | ReqCores | ReqCPU | ReqMemory | ReqTotalMemory | ReqCachedMemory | ReqLoad | ReqSystemLoad
  | ReqAllUserMetrics | ReqAllUsers | ReqLimitedUsers
  | ReqAllCPU | ReqLimitedCPU | ReqAllMemory | ReqLimitedMemory
  | ReqUserCPU (uid : Z) | ReqUserMemory (uid : Z) | ReqUserProcesses (uid : Z)
  | ReqUsername (uid : Z) | ReqUsernameTTL (ttl : Duration)
  | ReqDetailed | ReqWrite (users : list (Z * UserMetrics)) (cpu : f64) (cores : Z) (load : f64) (active : bool) (count : Z)
  | ReqWriter (writer : option DBWriter) | ReqConfig (cfg : Config) | ReqClear | ReqCleanup.

Section Serve.
Context `{RE : Regexp} {W : Type} `{C : Clock W} `{V : MapVisit W} `{O : OS W} `{P : Processes W} `{N : Sensors W} `{D : Database W}.
Context (oor : f64 -> Z).

Definition serve (r : Request) : CM W unit :=
  match r with
  | ReqCores => ignore GetTotalCores
  | ReqCPU => ignore (GetTotalCPUUsage oor)
  | ReqMemory => ignore GetMemoryUsage
  | ReqTotalMemory => ignore GetTotalMemoryMB
  | ReqCachedMemory => ignore GetCachedMemoryMB
  | ReqLoad => ignore IsSystemUnderLoad
  | ReqSystemLoad => ignore GetSystemLoad
  | ReqAllUserMetrics => ignore GetAllUserMetrics
  | ReqAllUsers => ignore GetAllUsers
  | ReqLimitedUsers => ignore GetLimitedUsers
  | ReqAllCPU => ignore GetAllUsersCPUUsage
  | ReqLimitedCPU => ignore GetLimitedUsersCPUUsage
  | ReqAllMemory => ignore GetAllUsersMemoryUsage
  | ReqLimitedMemory => ignore GetLimitedUsersMemoryUsage
  | ReqUserCPU uid => ignore (GetUserCPUUsage uid)
  | ReqUserMemory uid => ignore (GetUserMemoryUsage uid)
  | ReqUserProcesses uid => ignore (GetUserProcessCount uid)
  | ReqUsername uid => ignore (GetUsernameFromUID uid)
  | ReqUsernameTTL ttl => SetUsernameCacheTTL ttl
  | ReqDetailed => ignore (GetDetailedMetrics oor)
  | ReqWrite users cpu cores load active count => WriteMetricsToDatabase users cpu cores load active count
  | ReqWriter writer => SetDBWriter writer
  | ReqConfig cfg => CollectorBase.UpdateConfig cfg
  | ReqClear => ClearCache
  | ReqCleanup => cleanupCache
  end.

Inductive collector_step : Collector * W -> Collector * W -> Prop :=
  | step_serve r s : collector_step s (exec (serve r) s)
  | step_outside c w w' : collector_step (c, w) (c, w').

Definition new_collector (s : Collector * W) : Prop := exists cfg now stats, s.1 = NewCollector cfg now stats.

End Serve.

(** ** Caches as maps *)

Section Maps.
Context {K : Type} `{Countable K}.

Lemma oldest_elem (l : list (K * Time)) t0 k0 k : oldest t0 k0 l = Some k -> k0 = Some k \/ k ∈ l.*1.
Proof.
  revert t0 k0. induction l as [|[k1 ts] l IH]; intros t0 k0; cbn [oldest fmap list_fmap fst]; [by left|].
  rewrite elem_of_cons. destruct (ts <? t0); intros [E|E]%IH; [right; left; congruence|by right; right|by left|by right; right].
Qed.

Lemma oldest_of_all_elem (l : list (K * Time)) k : oldest_of_all l = Some k -> k ∈ l.*1.
Proof.
  destruct l as [|[k1 ts] l]; [done|]. cbn [fmap list_fmap fst]. rewrite elem_of_cons.
  intros [E|E]%oldest_elem; [left; congruence|by right].
Qed.

Lemma oldest_some (l : list (K * Time)) t0 k0 : is_Some k0 -> is_Some (oldest t0 k0 l).
Proof. revert t0 k0. induction l as [|[k1 ts] l IH]; intros; cbn [oldest]; [done|]. destruct (_ <? _); eauto. Qed.

Lemma oldest_of_all_some (l : list (K * Time)) : l <> [] -> is_Some (oldest_of_all l).
Proof. destruct l as [|[k ts] l]; [done|]. intros _. by apply oldest_some. Qed.

Lemma elem_of_entries {A} (l : list (K * A)) (m : gmap K A) k : l ≡ₚ map_to_list m -> k ∈ l.*1 -> k ∈ dom m.
Proof.
  intros -> Hk. apply list_elem_of_fmap in Hk as ([k' a] & -> & Hk). apply elem_of_map_to_list in Hk. by eapply elem_of_dom_2.
Qed.

Lemma dom_still_fresh {A} now limit (stamps : gmap K Time) (m : gmap K A) :
  dom m = dom stamps -> dom (still_fresh now limit stamps m) = dom (still_fresh now limit stamps stamps).
Proof.
  intros Hd. apply set_eq. intros k. unfold still_fresh. rewrite !elem_of_dom.
  assert (is_Some (m !! k) <-> is_Some (stamps !! k)) as Hk by (rewrite <- !elem_of_dom; by rewrite Hd).
  split; intros [a [Ha Hf]%map_lookup_filter_Some]; cbn [fst] in Hf.
  - destruct (proj1 Hk (ex_intro _ _ Ha)) as [ts Hts]. exists ts. by apply map_lookup_filter_Some.
  - destruct (proj2 Hk (ex_intro _ _ Ha)) as [v Hv]. exists v. by apply map_lookup_filter_Some.
Qed.

Lemma size_insert_le {A} (m : gmap K A) k a n : map_size m < n -> map_size (<[k := a]> m) <= n.
Proof.
  unfold map_size. destruct (m !! k) eqn:E.
  - rewrite map_size_insert_Some by (by rewrite E). lia.
  - rewrite map_size_insert_None by done. lia.
Qed.

Lemma size_same_dom {A B} (m : gmap K A) (m' : gmap K B) : dom m = dom m' -> size m = size m'.
Proof. intros Hd. by rewrite <- !size_dom, Hd. Qed.

End Maps.

(** ** Rules *)

Section Rules.
Context `{RE : Regexp} {W : Type} `{C : Clock W} `{V : MapVisit W}.

Lemma wp_sense {A} (m : ST W A) (Q : A -> Collector * W -> Prop) s :
  (forall a w, Q a (s.1, w)) -> wp (sense m) Q s.
Proof. intros H. destruct s as [c w]. unfold wp, sense. destruct (m w). apply H. Qed.

Lemma wp_visit {K A} `{Countable K} (m : gmap K A) (Q : list (K * A) -> Collector * W -> Prop) s :
  (forall l w, l ≡ₚ map_to_list m -> Q l (s.1, w)) -> wp (sense (visit m)) Q s.
Proof.
  intros HQ. destruct s as [c w]. pose proof (visit_perm m w) as Hp.
  unfold wp, sense, eval in *. destruct (visit m w). by apply HQ.
Qed.

Lemma wp_field {A} (f : Collector -> A) (Q : A -> Collector * W -> Prop) s : Q (f s.1) s -> wp (field f) Q s.
Proof. done. Qed.

Lemma wp_put f (Q : unit -> Collector * W -> Prop) s : Q tt (f s.1, s.2) -> wp (put f) Q s.
Proof. by destruct s. Qed.

(** ** Operations that keep the invariant *)

Definition safe {A} (m : CM W A) : Prop := forall s, collector_ok s.1 -> wp m (fun _ s' => collector_ok s'.1) s.

Lemma safe_ret {A} (a : A) : safe (mret a).
Proof. intros s Hs. by apply wp_ret. Qed.

Lemma safe_bind {A B} (m : CM W A) (f : A -> CM W B) : safe m -> (forall a, safe (f a)) -> safe (m ≫= f).
Proof. intros Hm Hf s Hs. apply wp_bind. eapply wp_mono; [|by apply Hm]. intros a s' Hs'. by apply Hf. Qed.

Lemma safe_sense {A} (m : ST W A) : safe (sense m).
Proof. intros s Hs. by apply wp_sense. Qed.

Lemma safe_field {A} (f : Collector -> A) : safe (field f).
Proof. intros s Hs. by apply wp_field. Qed.

Lemma safe_put f : (forall c, collector_ok c -> collector_ok (f c)) -> safe (put f).
Proof. intros Hf s Hs. by apply wp_put, Hf. Qed.

Lemma safe_ignore {A} (m : CM W A) : safe m -> safe (ignore m).
Proof. intros Hm. apply safe_bind; [done|]. intros a. apply safe_ret. Qed.

Lemma safe_when b (m : CM W unit) : safe m -> safe (when b m).
Proof. destruct b; [done|]. intros _. apply safe_ret. Qed.

Lemma safe_for_each {A} (f : A -> CM W unit) l : (forall x, safe (f x)) -> safe (for_each f l).
Proof. intros Hf. induction l as [|x l IH]; [apply safe_ret|]. by apply safe_bind. Qed.

Lemma safe_fold {A B} (f : B -> A -> CM W B) l b : (forall b x, safe (f b x)) -> safe (fold_st f b l).
Proof. intros Hf. revert b. induction l as [|x l IH]; intros b; [apply safe_ret|]. by apply safe_bind. Qed.

End Rules.

Create HintDb collector.
#[export] Hint Resolve safe_ret safe_sense safe_field : collector.

(** Every construct of an operation in turn; what is left are its updates. *)
Ltac safe_steps :=
  repeat match goal with
  | |- forall _, _ => intros ?
  | |- safe (match ?x with _ => _ end) => destruct x
  | |- safe (_ ≫= _) => apply safe_bind
  | |- safe (when _ _) => apply safe_when
  | |- safe (ignore _) => apply safe_ignore
  | |- safe (for_each _ _) => apply safe_for_each
  | |- safe (fold_st _ _ _) => apply safe_fold
  | |- safe _ => solve [eauto with collector]
  end.

(** Updates that touch no part of the invariant. *)
Ltac safe_frame := apply safe_put; intros c Hc; exact Hc.

Section Updates.
Context `{RE : Regexp} {W : Type} `{C : Clock W} `{V : MapVisit W}.

Lemma ok_caches values stamps c :
  (forall k v, values !! k = Some v -> well_typed k v = true) -> dom values = dom stamps ->
  collector_ok c -> collector_ok (set_caches values stamps c).
Proof. intros Hv Hd (H1 & H2 & H3 & H4 & H5 & H6 & H7). by split_and!. Qed.

Lemma ok_procs values stamps c :
  dom values = dom stamps -> map_size values <= MAX_PROC_CACHE_SIZE ->
  collector_ok c -> collector_ok (set_procs values stamps c).
Proof. intros Hv Hd (H1 & H2 & H3 & H4 & H5 & H6 & H7). by split_and!. Qed.

Lemma ok_usernames values stamps c :
  dom values = dom stamps -> collector_ok c -> collector_ok (set_usernames values stamps c).
Proof. intros Hv (H1 & H2 & H3 & H4 & H5 & H6 & H7). by split_and!. Qed.

Lemma safe_getFromCache key ttl : safe (W := W) (getFromCache key ttl).
Proof. unfold getFromCache. safe_steps. Qed.

Lemma wp_getFromCache key ttl (Q : option CacheVal -> Collector * W -> Prop) s :
  (forall w, Q None (s.1, w)) -> (forall v w, cache s.1 !! key = Some v -> Q (Some v) (s.1, w)) ->
  wp (getFromCache key ttl) Q s.
Proof.
  intros HN HS. unfold getFromCache. apply wp_bind, wp_field. destruct s as [c w]. cbn [fst] in *.
  destruct (cache c !! key) eqn:E; [|by apply wp_ret].
  apply wp_bind, wp_field. cbn [fst]. destruct (cacheTimestamps c !! key); [|by apply wp_ret].
  apply wp_bind, wp_sense. intros now w'. apply wp_ret. destruct (_ >? _); [apply HN|by apply HS].
Qed.

Lemma safe_evict_cached : safe (W := W) evict_cached.
Proof.
  unfold evict_cached. safe_steps. apply safe_put. intros c Hc. apply ok_caches; [| |done].
  - intros k' v [_ Hk]%lookup_delete_Some. by apply Hc in Hk.
  - rewrite !dom_delete_L. by destruct Hc as (_ & _ & -> & _).
Qed.

Lemma safe_setInCache key v : well_typed key v = true -> safe (W := W) (setInCache key v).
Proof.
  intros Hv. unfold setInCache. safe_steps; [apply safe_evict_cached|].
  apply safe_put. intros c Hc. apply ok_caches; [| |done].
  - intros k v' [[<- <-]|[_ Hk]]%lookup_insert_Some; [done|]. by apply Hc in Hk.
  - rewrite !dom_insert_L. by destruct Hc as (_ & _ & -> & _).
Qed.

Lemma safe_keep {A} key (inj : A -> CacheVal) a : well_typed key (inj a) = true -> safe (W := W) (keep key inj a).
Proof. intros H. apply safe_bind; [by apply safe_setInCache|]. intros _. apply safe_ret. Qed.

Lemma safe_cached {A} key ttl proj (dflt : A) (compute : CM W A) :
  (forall v, well_typed key v = true -> is_Some (proj v)) -> safe compute -> safe (cached key ttl proj dflt compute).
Proof.
  intros Hk Hc s Hs. unfold cached. apply wp_bind, wp_getFromCache.
  - intros w. by apply (Hc (s.1, w)).
  - intros v w Hv. unfold assertion. destruct Hs as (H1 & H2 & H3).
    destruct (Hk v (H2 _ _ Hv)) as [a ->]. by apply wp_ret.
Qed.

Lemma safe_ClearCache : safe (W := W) ClearCache.
Proof. apply safe_put. intros c Hc. by apply ok_caches. Qed.

Lemma safe_cleanupCache : safe (W := W) cleanupCache.
Proof.
  unfold cleanupCache. safe_steps; apply safe_put; intros c Hc.
  - apply ok_caches; [| |done].
    + intros k v [Hk _]%map_lookup_filter_Some. by apply Hc in Hk.
    + apply dom_still_fresh. apply Hc.
  - apply ok_procs; [apply dom_still_fresh, Hc| |done].
    destruct Hc as (_ & _ & _ & _ & Hn & _). unfold map_size in *.
    pose proof (map_size_filter (fun p : Z * TimesStat => match prevProcTime c !! p.1 with Some ts => time_sub a ts <=? 5 * minute | None => true end = true) (prevProcCPU c)).
    unfold still_fresh. lia.
  - apply ok_usernames; [apply dom_still_fresh, Hc|done].
Qed.

Lemma safe_getCachedUsername uid : safe (W := W) (getCachedUsername uid).
Proof. unfold getCachedUsername. safe_steps. Qed.

Lemma safe_cacheUsername uid name : safe (W := W) (cacheUsername uid name).
Proof.
  unfold cacheUsername, evict_username. safe_steps; apply safe_put; intros c Hc; (apply ok_usernames; [|done]).
  - rewrite !dom_delete_L. by destruct Hc as (_ & _ & _ & _ & _ & -> & _).
  - rewrite !dom_insert_L. by destruct Hc as (_ & _ & _ & _ & _ & -> & _).
Qed.

Lemma safe_calculateEMA uid x : safe (W := W) (calculateEMA uid x).
Proof. unfold calculateEMA. safe_steps. safe_frame. Qed.

End Updates.

#[export] Hint Resolve safe_getFromCache safe_ClearCache safe_cleanupCache safe_getCachedUsername safe_cacheUsername
  safe_calculateEMA : collector.

(** ** Measurements *)

Section Measurements.
Context `{RE : Regexp} {W : Type} `{C : Clock W} `{V : MapVisit W} `{O : OS W} `{P : Processes W} `{N : Sensors W}.
Context (oor : f64 -> Z).

Lemma safe_isMonitored uid : safe (W := W) (isMonitoredUserUID uid).
Proof. unfold isMonitoredUserUID, getConfig. safe_steps. Qed.

Lemma safe_ttl : safe (W := W) metricsCacheTTL.
Proof. unfold metricsCacheTTL. safe_steps. Qed.

#[local] Hint Resolve safe_isMonitored safe_ttl : collector.

(** The getters of one figure: the key has the type the reader asserts. *)
Ltac safe_key := first [apply safe_keep; reflexivity | apply safe_cached; [by intros []|]].

Lemma safe_GetTotalCores : safe (W := W) GetTotalCores.
Proof. unfold GetTotalCores, getTotalCoresFallback. safe_key. safe_steps; safe_key. Qed.

Lemma safe_GetTotalCPUUsage : safe (W := W) (GetTotalCPUUsage oor).
Proof.
  unfold GetTotalCPUUsage, getTotalCPUUsageFallback. safe_steps. safe_key.
  safe_steps; first [safe_key | safe_frame].
Qed.

Lemma safe_memory_figure key figure fallback :
  (forall v, well_typed key v = isSome (as_float v)) -> safe (W := W) (memory_figure key figure fallback).
Proof.
  intros Hk. unfold memory_figure. safe_steps. apply safe_cached.
  - intros v. rewrite Hk. destruct v; by eauto.
  - safe_steps. apply safe_keep. by rewrite Hk.
Qed.

Lemma safe_GetMemoryUsage : safe (W := W) GetMemoryUsage.
Proof. by apply safe_memory_figure. Qed.

Lemma safe_GetTotalMemoryMB : safe (W := W) GetTotalMemoryMB.
Proof. by apply safe_memory_figure. Qed.

Lemma safe_GetCachedMemoryMB : safe (W := W) GetCachedMemoryMB.
Proof. by apply safe_memory_figure. Qed.

Lemma safe_IsSystemUnderLoad : safe (W := W) IsSystemUnderLoad.
Proof.
  unfold IsSystemUnderLoad, collectorLoadAverage. safe_key. safe_steps; first [apply safe_GetTotalCores | safe_key].
Qed.

Lemma safe_GetUsernameFromUID uid : safe (W := W) (GetUsernameFromUID uid).
Proof. unfold GetUsernameFromUID, getUsernameFromPasswd. safe_steps. Qed.

Lemma safe_put_sample pid times now c :
  map_size (prevProcCPU c) < MAX_PROC_CACHE_SIZE \/ is_Some (prevProcCPU c !! pid) ->
  collector_ok c ->
  collector_ok (set_procs (<[pid := times]> (prevProcCPU c)) (<[pid := now]> (prevProcTime c)) c).
Proof.
  intros Hsz Hc. apply ok_procs; [| |done].
  - rewrite !dom_insert_L. by destruct Hc as (_ & _ & _ & -> & _).
  - destruct Hsz as [Hsz|Hs]; [by apply size_insert_le|]. destruct Hc as (_ & _ & _ & _ & Hn & _).
    unfold map_size in *. by rewrite map_size_insert_Some.
Qed.

(** Evicting from a full cache makes room. *)
Lemma wp_evict_process (s : Collector * W) :
  collector_ok s.1 -> (map_size (prevProcCPU s.1) >=? MAX_PROC_CACHE_SIZE) = true ->
  wp evict_process (fun _ s' => collector_ok s'.1 /\ map_size (prevProcCPU s'.1) < MAX_PROC_CACHE_SIZE) s.
Proof.
  intros Hs Hfull. unfold evict_process. apply wp_bind, wp_field, wp_bind, wp_visit. intros l w Hl. cbn [fst].
  pose proof Hs as (_ & _ & _ & Hd & Hn & _).
  pose proof (size_same_dom _ _ Hd) as Hsz. unfold map_size, MAX_PROC_CACHE_SIZE in *.
  assert (l <> []) as Hne.
  { intros ->. apply Permutation_length in Hl. rewrite length_map_to_list in Hl. cbn in Hl. lia. }
  destruct (oldest_of_all_some l Hne) as [pid Hpid]. rewrite Hpid.
  apply oldest_of_all_elem in Hpid. apply (elem_of_entries _ _ _ Hl) in Hpid. rewrite <- Hd, elem_of_dom in Hpid.
  apply wp_put. cbn [fst].
  assert (size (delete pid (prevProcCPU s.1)) = pred (size (prevProcCPU s.1))) as Hdel by by apply map_size_delete_Some.
  split; [|cbn; lia]. apply ok_procs; [rewrite !dom_delete_L; by rewrite Hd| |done]. unfold map_size, MAX_PROC_CACHE_SIZE. lia.
Qed.

Lemma safe_sample_process pid times now : safe (W := W) (sample_process pid times now).
Proof.
  intros s Hs. apply wp_bind, wp_field. destruct (cpu_since _ _ _ _) eqn:E.
  - apply wp_bind, wp_put, wp_ret. apply safe_put_sample; [right|done].
    unfold cpu_since in E. destruct (prevProcCPU s.1 !! pid); [by eauto|done].
  - apply wp_bind, wp_field, wp_bind. apply wp_when; intros Hfull.
    + eapply wp_mono; [|by apply wp_evict_process]. intros _ s' [Hs' Hn]. apply wp_bind, wp_put, wp_ret.
      apply safe_put_sample; [by left|done].
    + apply wp_bind, wp_put, wp_ret. apply safe_put_sample; [left|done].
      unfold map_size in *. rewrite Z.geb_leb in Hfull. apply Z.leb_gt in Hfull. lia.
Qed.

Lemma safe_process_cpu pid : safe (W := W) (getProcessCPUUsageSimpleWithHandle pid).
Proof.
  unfold getProcessCPUUsageSimpleWithHandle, isProcessRunningLongEnough, getConfig.
  safe_steps; apply safe_sample_process.
Qed.

Lemma safe_process_average pid up : safe (W := W) (getProcessCPUAverage pid up).
Proof. unfold getProcessCPUAverage. safe_steps. Qed.

#[local] Hint Resolve safe_GetTotalCores safe_GetTotalCPUUsage safe_GetMemoryUsage safe_GetTotalMemoryMB
  safe_GetCachedMemoryMB safe_IsSystemUnderLoad safe_GetUsernameFromUID safe_process_cpu safe_process_average : collector.

Lemma safe_isUserWhitelisted name : safe (W := W) (isUserWhitelisted name).
Proof.
  intros [c w] Hs. pose proof Hs as (H1 & H2 & H3 & H4 & H5 & H6 & H7). cbn [fst] in *.
  pose proof (wp_filter (UserIncludeList (c_cfg c)) (UserExcludeList (c_cfg c)) name (c_regexCache c) H7) as [_ Hr].
  unfold wp, isUserWhitelisted, IsUserWhitelisted, IsUserIncluded, IsUserExcluded in *.
  destruct (and_not _ _ _) as [b r]. by split_and!.
Qed.

Lemma safe_convert temp : safe (W := W) (convert temp).
Proof. unfold convert, to_metrics. safe_steps. apply safe_isUserWhitelisted. Qed.

#[local] Hint Resolve safe_convert : collector.

Lemma safe_scan procs : safe (W := W) (scan_processes procs).
Proof.
  unfold scan_processes, getSystemUptimeSeconds, scan_process, scan_io, merge_io, getProcessIO. safe_steps.
Qed.

Lemma safe_scan_fallback : safe (W := W) getAllUserMetricsFallback.
Proof.
  unfold getAllUserMetricsFallback, getSystemUptimeSeconds, scan_entry, getUIDFromStatusFile, getProcessCPUUsageSimple,
    getProcessMemoryUsage, getProcessIO. safe_steps.
Qed.

#[local] Hint Resolve safe_scan safe_scan_fallback : collector.

Lemma safe_GetAllUserMetrics : safe (W := W) GetAllUserMetrics.
Proof. unfold GetAllUserMetrics. safe_steps; by apply safe_keep. Qed.

#[local] Hint Resolve safe_GetAllUserMetrics : collector.

Lemma safe_user_figure {A} prefix proj (inj : A -> CacheVal) dflt figure uid :
  (forall x v, well_typed (prefix +:+ x) v = isSome (proj v)) -> (forall a, proj (inj a) = Some a) ->
  safe (W := W) (user_figure prefix proj inj dflt figure uid).
Proof.
  intros Hk Hp. unfold user_figure. safe_steps. apply safe_cached.
  - intros v. rewrite Hk. destruct (proj v); [by eauto|done].
  - safe_steps; apply safe_keep; by rewrite Hk, Hp.
Qed.

Lemma safe_overall {A} key proj (inj : A -> CacheVal) dflt summary :
  (forall v, well_typed key v = isSome (proj v)) -> (forall a, proj (inj a) = Some a) ->
  safe (W := W) (overall key proj inj dflt summary).
Proof.
  intros Hk Hp. unfold overall. safe_steps. apply safe_cached.
  - intros v. rewrite Hk. destruct (proj v); [by eauto|done].
  - safe_steps; apply safe_keep; by rewrite Hk, Hp.
Qed.

Lemma key_cpu x v : well_typed ("cpu_usage_uid_" +:+ x) v = isSome (as_float v).
Proof. unfold well_typed. by rewrite HasPrefix_app. Qed.

Lemma key_memory x v : well_typed ("memory_usage_uid_" +:+ x) v = isSome (as_uint v).
Proof. unfold well_typed. by rewrite HasPrefix_app. Qed.

Lemma key_count x v : well_typed ("process_count_uid_" +:+ x) v = isSome (as_int v).
Proof. unfold well_typed. by rewrite HasPrefix_app. Qed.

#[local] Hint Resolve key_cpu key_memory key_count : collector.
#[local] Hint Extern 1 (safe (user_figure _ _ _ _ _ _)) => apply safe_user_figure : collector.
#[local] Hint Extern 1 (safe (overall _ _ _ _ _)) => apply safe_overall : collector.

Lemma safe_GetUserCPUUsage uid : safe (W := W) (GetUserCPUUsage uid).
Proof. by apply safe_user_figure; [apply key_cpu|]. Qed.

Lemma safe_GetUserMemoryUsage uid : safe (W := W) (GetUserMemoryUsage uid).
Proof. by apply safe_user_figure; [apply key_memory|]. Qed.

Lemma safe_GetUserProcessCount uid : safe (W := W) (GetUserProcessCount uid).
Proof. by apply safe_user_figure; [apply key_count|]. Qed.

Lemma safe_derived :
  safe (W := W) GetAllUsersCPUUsage /\ safe (W := W) GetLimitedUsersCPUUsage /\ safe (W := W) GetAllUsersMemoryUsage /\
  safe (W := W) GetLimitedUsersMemoryUsage /\ safe (W := W) GetAllUsers /\ safe (W := W) GetLimitedUsers.
Proof. by split_and!; apply safe_overall. Qed.

Lemma safe_GetDetailedMetrics : safe (W := W) (GetDetailedMetrics oor).
Proof.
  destruct safe_derived as (? & ? & ? & ? & ? & ?). pose proof safe_GetUserCPUUsage.
  unfold GetDetailedMetrics. safe_steps.
Qed.

Context `{D : Database W}.

Lemma safe_WriteMetrics users cpu cores load active n : safe (W := W) (WriteMetricsToDatabase users cpu cores load active n).
Proof. unfold WriteMetricsToDatabase, WriteSystemMetrics, WriteUserMetrics. safe_steps. safe_frame. Qed.

Lemma safe_serve r : safe (serve oor r).
Proof.
  destruct safe_derived as (? & ? & ? & ? & ? & ?). pose proof safe_GetUserCPUUsage. pose proof safe_GetUserMemoryUsage.
  pose proof safe_GetUserProcessCount. pose proof safe_GetDetailedMetrics. pose proof safe_WriteMetrics.
  destruct r; cbn [serve]; unfold SetUsernameCacheTTL, SetDBWriter, CollectorBase.UpdateConfig, GetSystemLoad;
    safe_steps; safe_frame.
Qed.

End Measurements.

(** ** Properties *)

Lemma new_collector_ok `{RE : Regexp} {W} (s : Collector * W) : new_collector s -> collector_ok s.1.
Proof.
  intros (cfg & now & stats & ->). by split_and!.
Qed.

(** C12: whatever the other components ask the collector, in whatever order and
    whatever the machine answers, no reader of its cache meets a value of
    another type (so no type assertion panics), a cached value always has its
    timestamp and the converse, and the process cache never exceeds its limit. *)
Theorem collector_invariant `{RE : Regexp} {W : Type} `{C : Clock W} `{V : MapVisit W} `{O : OS W} `{P : Processes W}
    `{N : Sensors W} `{D : Database W} oor (s : Collector * W) :
  reachable new_collector (collector_step oor) s -> collector_ok s.1.
Proof.
  apply (reachable_invariant _ _ (fun s => collector_ok s.1)); [apply new_collector_ok|].
  intros s1 s2 Hs Hstep. destruct Hstep as [r s'|c w w']; [|exact Hs]. by apply (wp_exec (serve oor r) (fun s => collector_ok s.1)), safe_serve.
Qed.

#[local] Existing Instance literal_regexp.

(** A few requests, a quarter of an hour apart. *)
Definition bench_run : Collector * Bench :=
  let s0 := (NewCollector (DefaultConfig None) zero_time (Err "none"), bench) in
  let s1 := exec (serve (fun _ => 0) ReqDetailed) s0 in
  let s2 := (s1.1, bench_time (b_now bench + 15 * minute) s1.2) in
  exec (serve (fun _ => 0) (ReqUserMemory 1000)) s2.

Lemma bench_run_reachable : reachable new_collector (collector_step (fun _ => 0)) bench_run.
Proof.
  unfold bench_run. eapply reach_step; [|apply step_serve]. eapply reach_step; [|apply step_outside].
  rewrite <- surjective_pairing. eapply reach_step; [|apply step_serve]. apply reach_init. by eexists _, _, _.
Qed.

Lemma collector_invariant_witness :
  cache bench_run.1 !! "memory_usage_uid_1000" = Some (VUint 12288) /\ collector_ok bench_run.1.
Proof. split; [vm_compute; reflexivity|]. apply (collector_invariant (fun _ => 0) bench_run bench_run_reachable). Defined.
