(* ===== verification/CollectorScan.v ===== *)
(** * What a scan of the processes yields

    On a machine whose process table does not change during the scan
    ([Steady]), [GetAllUserMetrics] reports exactly the monitored users that
    own a process, each with its number of processes and its totals of memory
    and I/O. *)

From S2P Require Import Prelude GoStrings GoFloat GoNumbers ProcFiles Config Blackout ConfigLoad OS UserFilter CgroupBase CgroupProcess StateBase CollectorBase Collector Bench CollectorSafe.

#[local] Open Scope Z_scope.

(** ** Specification *)

Definition monitored (cfg : Config) (uid : Z) : bool := (SystemUIDMin cfg <=? uid) && (uid <=? SystemUIDMax cfg).

(** What the machine answers during the scan: the user of a process, its
    resident memory and its I/O. *)
Record Table := mkTable {
  tb_procs : list Z;
  tb_uid : Z -> option Z;
  tb_rss : Z -> Z;
  tb_io : Z -> ProcessIO
}.

Definition first_uid (r : result (list Z)) : option Z := match r with Ok (uid :: _) => Some uid | _ => None end.

Definition or_zero (r : result Z) : Z := match r with Ok n => n | Err _ => 0 end.

Definition or_no_io (r : result string) : ProcessIO := match r with Ok data => parse_io data | Err _ => no_io end.

Record Steady {W} `{O : OS W} `{P : Processes W} `{N : Sensors W} (tb : Table) : Prop := {
  steady_procs : forall w, eval process_Processes w = Ok (tb_procs tb);
  steady_uid : forall pid w, first_uid (eval (process_Uids pid) w) = tb_uid tb pid;
  steady_rss : forall pid w, or_zero (eval (proc_RSS pid) w) = tb_rss tb pid;
  steady_io : forall pid w, or_no_io (eval (os_ReadFile (proc_file pid "io")) w) = tb_io tb pid
}.

(** The processes of a user, in the order of the table. *)
Definition owned (tb : Table) (uid : Z) : list Z := filter (fun pid => tb_uid tb pid = Some uid) (tb_procs tb).

Definition sum_of (f : Z -> Z) (pids : list Z) : Z := foldr (fun pid n => f pid + n) 0 pids.

(** The metrics of a user who owns [pids], when the moving average was [ema]. *)
Definition user_spec (cfg : Config) `{RE : Regexp} (tb : Table) (ema : option f64) (uid : Z) (pids : list Z) (m : UserMetrics) : Prop :=
  um_UID m = uid /\
  ProcessCount m = Z.of_nat (length pids) /\
  MemoryUsage m = wrap_u64 (sum_of (tb_rss tb) pids) /\
  IOReadBytes m = wrap_u64 (sum_of (fun pid => readBytes (tb_io tb pid)) pids) /\
  IOWriteBytes m = wrap_u64 (sum_of (fun pid => writeBytes (tb_io tb pid)) pids) /\
  IOReadOps m = wrap_u64 (sum_of (fun pid => readOps (tb_io tb pid)) pids) /\
  IOWriteOps m = wrap_u64 (sum_of (fun pid => writeOps (tb_io tb pid)) pids) /\
  IsLimited m = allowed (UserIncludeList cfg) (UserExcludeList cfg) (Username m) /\
  CPUUsageEMA m = next_ema ema (CPUUsage m).

Definition scan_spec `{RE : Regexp} (c : Collector) (tb : Table) (users : gmap Z UserMetrics) : Prop :=
  forall uid,
  match users !! uid with
  | Some m => monitored (c_cfg c) uid = true /\ owned tb uid <> [] /\
              user_spec (c_cfg c) tb (emaValues c !! uid) uid (owned tb uid) m
  | None => monitored (c_cfg c) uid = false \/ owned tb uid = []
  end.

(** ** Calls that leave the configuration and the averages alone *)

Section Still.
Context `{RE : Regexp} {W : Type} `{C : Clock W} `{V : MapVisit W} `{O : OS W} `{P : Processes W} `{N : Sensors W}.

Definition outline (c : Collector) : Config * gmap Z f64 := (c_cfg c, emaValues c).

Definition still {A} (m : CM W A) : Prop := forall s, wp m (fun _ s' => outline s'.1 = outline s.1) s.

Lemma still_ret {A} (a : A) : still (mret a).
Proof. done. Qed.

Lemma still_bind {A B} (m : CM W A) (f : A -> CM W B) : still m -> (forall a, still (f a)) -> still (m ≫= f).
Proof.
  intros Hm Hf s. apply wp_bind. eapply wp_mono; [|apply Hm]. intros a s' Hs'. cbn beta.
  eapply wp_mono; [|apply Hf]. intros b s'' Hs''. congruence.
Qed.

Lemma still_sense {A} (m : ST W A) : still (sense m).
Proof. intros s. by apply wp_sense. Qed.

Lemma still_field {A} (f : Collector -> A) : still (field f).
Proof. done. Qed.

Lemma still_put f : (forall c, outline (f c) = outline c) -> still (put f).
Proof. intros Hf s. apply wp_put, Hf. Qed.

Lemma still_when b (m : CM W unit) : still m -> still (when b m).
Proof. by destruct b. Qed.

Ltac still_steps :=
  repeat match goal with
  | |- forall _, _ => intros ?
  | |- still (match ?x with _ => _ end) => destruct x
  | |- still (_ ≫= _) => apply still_bind
  | |- still (when _ _) => apply still_when
  | |- still (put _) => apply still_put; done
  | |- still (sense _) => apply still_sense
  | |- still (field _) => apply still_field
  | |- still (mret _) => apply still_ret
  end.

Lemma still_process_cpu pid : still (getProcessCPUUsageSimpleWithHandle pid).
Proof.
  unfold getProcessCPUUsageSimpleWithHandle, isProcessRunningLongEnough, getConfig, sample_process, evict_process, put_sample.
  still_steps.
Qed.

Lemma still_process_average pid up : still (getProcessCPUAverage pid up).
Proof. unfold getProcessCPUAverage. still_steps. Qed.

Lemma still_username uid : still (GetUsernameFromUID uid).
Proof.
  unfold GetUsernameFromUID, getCachedUsername, cacheUsername, evict_username, getUsernameFromPasswd. still_steps.
Qed.

(** Both at once. *)
Definition calm (c : Collector) (s : Collector * W) : Prop := collector_ok s.1 /\ outline s.1 = outline c.

Lemma wp_calm {A} (m : CM W A) c (Q : A -> Collector * W -> Prop) s :
  safe m -> still m -> calm c s -> (forall a s', calm c s' -> Q a s') -> wp m Q s.
Proof.
  intros Hsafe Hstill [Hok Ho] HQ. unfold wp. apply HQ. split; [by apply (Hsafe s)|].
  etrans; [apply (Hstill s)|exact Ho].
Qed.

Lemma calm_cfg c s : calm c s -> c_cfg s.1 = c_cfg c.
Proof. intros [_ H]. by injection H. Qed.

Lemma calm_ema c s : calm c s -> emaValues s.1 = emaValues c.
Proof. intros [_ H]. by injection H. Qed.

Lemma wp_monitored uid c (Q : bool -> Collector * W -> Prop) s :
  calm c s -> Q (monitored (c_cfg c) uid) s -> wp (isMonitoredUserUID uid) Q s.
Proof.
  intros Hc HQ. unfold isMonitoredUserUID, getConfig. apply wp_bind, wp_field, wp_ret.
  by rewrite (calm_cfg _ _ Hc).
Qed.

(** An answer that does not depend on the world. *)
Lemma wp_sense_fixed {A B} (m : ST W A) (f : A -> B) (b : B) (Q : A -> Collector * W -> Prop) s :
  (forall w, f (eval m w) = b) -> (forall a w, f a = b -> Q a (s.1, w)) -> wp (sense m) Q s.
Proof.
  intros Hm HQ. destruct s as [c w]. specialize (Hm w). unfold wp, sense, eval in *. destruct (m w). by apply HQ.
Qed.

End Still.

(** ** Sums modulo [2^64] *)

Ltac wrap_sum := unfold wrap_u64; rewrite ?Zplus_mod_idemp_l, ?Zplus_mod_idemp_r; f_equal; lia.

Lemma sum_of_cons f p l : sum_of f (p :: l) = f p + sum_of f l.
Proof. done. Qed.

Definition fact (d : userData) : Z * Z * ProcessIO := (u_processCount d, u_memoryUsage d, u_io d).

(** One more process in the totals of its user. *)
Definition count_one (rss : Z) (o : option (Z * Z * ProcessIO)) : option (Z * Z * ProcessIO) :=
  let '(n, mem, io) := default (fact no_data) o in Some (n + 1, wrap_u64 (mem + rss), io).

Definition count_all (rss : Z -> Z) (pids : list Z) (o : option (Z * Z * ProcessIO)) : option (Z * Z * ProcessIO) :=
  foldl (fun o pid => count_one (rss pid) o) o pids.

Lemma count_all_some rss pids n mem io :
  wrap_u64 mem = mem ->
  count_all rss pids (Some (n, mem, io)) = Some (n + Z.of_nat (length pids), wrap_u64 (mem + sum_of rss pids), io).
Proof.
  unfold count_all. revert n mem. induction pids as [|p pids IH]; intros n mem Hm; cbn [foldl length].
  - cbn [sum_of foldr]. by rewrite Z.add_0_r, Z.add_0_r, Hm.
  - unfold count_one at 2. cbn [default id]. rewrite IH by (unfold wrap_u64; by rewrite Z.mod_mod).
    f_equal. f_equal. f_equal; [lia|]. rewrite sum_of_cons. wrap_sum.
Qed.

Lemma count_all_none rss pids :
  count_all rss pids None =
  match pids with [] => None | _ => Some (Z.of_nat (length pids), wrap_u64 (sum_of rss pids), no_io) end.
Proof.
  destruct pids as [|p pids]; [done|]. change (count_all rss pids (Some (0 + 1, wrap_u64 (0 + rss p), no_io)) =
    Some (Z.of_nat (length (p :: pids)), wrap_u64 (sum_of rss (p :: pids)), no_io)).
  rewrite count_all_some by (unfold wrap_u64; by rewrite Z.mod_mod). rewrite sum_of_cons. cbn [length].
  f_equal. f_equal. f_equal; [lia|]. wrap_sum.
Qed.

Definition io_all (io : Z -> ProcessIO) (pids : list Z) (o : option ProcessIO) : option ProcessIO :=
  foldl (fun o pid => Some (add_io (default no_io o) (io pid))) o pids.

Definition io_sum (io : Z -> ProcessIO) (pids : list Z) : ProcessIO :=
  mkProcessIO (wrap_u64 (sum_of (fun pid => readBytes (io pid)) pids)) (wrap_u64 (sum_of (fun pid => writeBytes (io pid)) pids))
    (wrap_u64 (sum_of (fun pid => readOps (io pid)) pids)) (wrap_u64 (sum_of (fun pid => writeOps (io pid)) pids)).

Lemma add_io_sum a io p pids : add_io (add_io a (io p)) (io_sum io pids) = add_io a (io_sum io (p :: pids)).
Proof. unfold add_io, io_sum. rewrite !sum_of_cons. cbn [readBytes writeBytes readOps writeOps]. f_equal; wrap_sum. Qed.

Lemma io_all_some io p pids a : io_all io (p :: pids) (Some a) = Some (add_io a (io_sum io (p :: pids))).
Proof.
  unfold io_all. revert p a. induction pids as [|q pids IH]; intros p a.
  - cbn [foldl default id]. f_equal. unfold add_io, io_sum. rewrite !sum_of_cons. cbn [readBytes writeBytes readOps writeOps].
    f_equal; cbn [sum_of foldr]; wrap_sum.
  - change (io_all io (q :: pids) (Some (add_io a (io p))) = Some (add_io a (io_sum io (p :: q :: pids)))).
    unfold io_all. rewrite IH. f_equal. apply add_io_sum.
Qed.

Lemma add_no_io io pids : add_io no_io (io_sum io pids) = io_sum io pids.
Proof. unfold add_io, io_sum, no_io. cbn. f_equal; wrap_sum. Qed.

Lemma io_all_none io pids : io_all io pids None = match pids with [] => None | _ => Some (io_sum io pids) end.
Proof.
  destruct pids as [|p pids]; [done|]. change (io_all io (p :: pids) (Some no_io) = Some (io_sum io (p :: pids))).
  by rewrite io_all_some, add_no_io.
Qed.

(** ** The passes *)

Section Passes.
Context `{RE : Regexp} {W : Type} `{C : Clock W} `{V : MapVisit W} `{O : OS W} `{P : Processes W} `{N : Sensors W}.
Context (tb : Table) (HS : Steady (W := W) tb) (c : Collector).

Definition of_user (uid : Z) (l : list Z) : list Z := filter (fun pid => tb_uid tb pid = Some uid) l.

Lemma fact_user_data uid (temp : gmap Z userData) : fact (user_data uid temp) = default (fact no_data) (fact <$> temp !! uid).
Proof. unfold user_data. by destruct (temp !! uid). Qed.

Lemma wp_scan_process up temp pid s :
  calm c s ->
  wp (scan_process up temp pid) (fun temp' s' => calm c s' /\ forall uid,
    fact <$> temp' !! uid =
    if decide (tb_uid tb pid = Some uid /\ monitored (c_cfg c) uid = true)
    then count_one (tb_rss tb pid) (fact <$> temp !! uid) else fact <$> temp !! uid) s.
Proof.
  intros Hc. unfold scan_process. apply wp_bind.
  apply (wp_sense_fixed _ first_uid (tb_uid tb pid)); [apply HS|]. intros r w Hr. cbn beta.
  assert (tb_uid tb pid = None -> wp (mret temp) (fun temp' s' => calm c s' /\ forall uid, fact <$> temp' !! uid =
    if decide (tb_uid tb pid = Some uid /\ monitored (c_cfg c) uid = true)
    then count_one (tb_rss tb pid) (fact <$> temp !! uid) else fact <$> temp !! uid) (s.1, w)) as Hnone.
  { intros E. apply wp_ret. split; [done|]. intros uid. rewrite decide_False; [done|]. rewrite E. naive_solver. }
  destruct r as [[|u us]|e]; [by apply Hnone|cbn in Hr|by apply Hnone].
  apply wp_bind, (wp_monitored u c); [done|]. destruct (monitored (c_cfg c) u) eqn:Em; cbn [negb].
  2: { apply wp_ret. split; [done|]. intros uid. rewrite decide_False; [done|]. intros [E ?]. congruence. }
  apply wp_bind. apply (wp_calm _ c); [apply safe_process_cpu|apply still_process_cpu|done|]. intros cpu s1 H1.
  apply wp_bind. apply (wp_sense_fixed _ or_zero (tb_rss tb pid)); [apply HS|]. intros mem w1 Hmem. cbn beta.
  apply wp_bind. apply (wp_calm _ c); [apply safe_process_average|apply still_process_average|by destruct s1|]. intros avg s2 H2.
  apply wp_ret. split; [done|]. intros uid. destruct (decide (u = uid)) as [->|Hne].
  - rewrite lookup_insert, decide_True, decide_True by done. cbn [fmap option_fmap option_map].
    unfold count_one. rewrite <- fact_user_data. fold (or_zero mem). by rewrite Hmem.
  - rewrite lookup_insert_ne, decide_False by (done || naive_solver congruence). done.
Qed.

Lemma wp_first_pass up procs temp (s : Collector * W) :
  calm c s ->
  wp (fold_st (scan_process up) temp procs) (fun temp' s' => calm c s' /\ forall uid,
    fact <$> temp' !! uid =
    if monitored (c_cfg c) uid then count_all (tb_rss tb) (of_user uid procs) (fact <$> temp !! uid)
    else fact <$> temp !! uid) s.
Proof.
  revert temp s. induction procs as [|pid procs IH]; intros temp s Hc; cbn [fold_st].
  - apply wp_ret. split; [done|]. intros uid. by destruct (monitored _ _).
  - apply wp_bind. eapply wp_mono; [|by apply wp_scan_process]. intros t1 s1 [H1 Ht1]. cbn beta.
    eapply wp_mono; [|by apply IH]. intros t2 s2 [H2 Ht2]. split; [done|]. intros uid. rewrite Ht2, Ht1.
    unfold of_user. rewrite filter_cons. destruct (monitored (c_cfg c) uid) eqn:Em.
    + destruct (decide (tb_uid tb pid = Some uid)); [by rewrite decide_True|]. by rewrite decide_False by naive_solver.
    + by rewrite decide_False by naive_solver.
Qed.

Lemma wp_io_pass procs ioData (s : Collector * W) :
  calm c s ->
  wp (fold_st scan_io ioData procs) (fun io' s' => calm c s' /\ forall uid,
    u_io <$> io' !! uid = io_all (tb_io tb) (of_user uid procs) (u_io <$> ioData !! uid)) s.
Proof.
  revert ioData s. induction procs as [|pid procs IH]; intros ioData s Hc; cbn [fold_st]; [by apply wp_ret|].
  apply wp_bind. unfold scan_io at 1. apply wp_bind.
  apply (wp_sense_fixed _ first_uid (tb_uid tb pid)); [apply HS|]. intros r w Hr. cbn beta.
  assert (forall s0 d, calm c s0 -> tb_uid tb pid = None -> d = ioData ->
    wp (fold_st scan_io d procs) (fun io' s' => calm c s' /\ forall uid,
      u_io <$> io' !! uid = io_all (tb_io tb) (of_user uid (pid :: procs)) (u_io <$> ioData !! uid)) s0) as Hnone.
  { intros s0 d H0 E ->. eapply wp_mono; [|by apply IH]. intros io' s' [H' Hio]. split; [done|]. intros uid.
    rewrite Hio. unfold of_user. by rewrite filter_cons_False by (rewrite E; congruence). }
  destruct r as [[|u us]|e]; [by apply wp_ret, Hnone|cbn in Hr|by apply wp_ret, Hnone].
  unfold getProcessIO. apply wp_bind, wp_bind.
  apply (wp_sense_fixed _ or_no_io (tb_io tb pid)); [apply HS|]. intros f w1 Hf. apply wp_ret, wp_ret.
  eapply wp_mono; [|by apply IH]. intros io' s' [H' Hio]. split; [done|]. intros uid. rewrite Hio. unfold of_user.
  destruct (decide (u = uid)) as [->|Hne].
  - rewrite filter_cons_True by done. rewrite lookup_insert, decide_True by done. cbn [fmap option_fmap option_map io_all foldl].
    f_equal. f_equal. unfold with_io. cbn [u_io]. fold (or_no_io f). rewrite Hf. unfold user_data. by destruct (ioData !! uid).
  - rewrite filter_cons_False by congruence. by rewrite lookup_insert_ne.
Qed.

End Passes.

Section Merge.
Context `{RE : Regexp} {W : Type} (c : Collector).

Lemma wp_merge ios temp (s : Collector * W) :
  calm c s -> NoDup ios.*1 ->
  wp (fold_st merge_io temp ios) (fun t' s' => calm c s' /\ forall uid,
    (forall d, (uid, d) ∈ ios -> monitored (c_cfg c) uid = true -> t' !! uid = Some (with_io (u_io d) (user_data uid temp))) /\
    ((uid ∉ ios.*1 \/ monitored (c_cfg c) uid = false) -> t' !! uid = temp !! uid)) s.
Proof.
  revert temp s. induction ios as [|[u d] ios IH]; intros temp s Hc Hnd; cbn [fold_st].
  { apply wp_ret. split; [done|]. intros uid. split; [|done]. intros d H. by apply elem_of_nil in H. }
  apply NoDup_cons in Hnd as [Hu Hnd]. apply wp_bind. unfold merge_io at 1. apply wp_bind, (wp_monitored u c); [done|].
  apply wp_ret. eapply wp_mono; [|by apply IH]. intros t' s' [H' Ht]. split; [done|]. intros uid.
  specialize (Ht uid) as [Hin Hout]. cbn [fmap list_fmap fst] in *. destruct (decide (u = uid)) as [->|Hne].
  - rewrite (Hout (or_introl Hu)). split.
    + intros d' [[= ->]|Hd]%elem_of_cons Hm; [rewrite Hm; by rewrite lookup_insert, decide_True|].
      exfalso. apply Hu. by apply (list_elem_of_fmap_2 fst) in Hd.
    + intros [H|H]; [exfalso; apply H; left|by rewrite H].
  - assert (forall b : bool, (if b then <[u:=with_io (u_io d) (user_data u temp)]> temp else temp) !! uid = temp !! uid) as Hk.
    { intros []; [by rewrite lookup_insert_ne|done]. }
    split.
    + intros d' [[= -> ->]|Hd]%elem_of_cons Hm; [done|]. rewrite (Hin d' Hd Hm). unfold user_data. by rewrite Hk.
    + intros H. rewrite Hout; [apply Hk|]. destruct H as [H|H]; [left; set_solver|by right].
Qed.

End Merge.

(** ** From the totals to the metrics *)

Section Convert.
Context `{RE : Regexp} {W : Type} `{C : Clock W} `{V : MapVisit W} `{O : OS W} `{P : Processes W} `{N : Sensors W}.

(** The metrics [to_metrics] makes of the totals of a user. *)
Definition metrics_of (cfg : Config) (ema : option f64) (uid : Z) (data : userData) (m : UserMetrics) : Prop :=
  um_UID m = uid /\ (ProcessCount m, MemoryUsage m, mkProcessIO (IOReadBytes m) (IOWriteBytes m) (IOReadOps m) (IOWriteOps m)) = fact data /\
  IsLimited m = allowed (UserIncludeList cfg) (UserExcludeList cfg) (Username m) /\
  CPUUsageEMA m = next_ema ema (CPUUsage m).

Lemma wp_isUserWhitelisted name (Q : bool -> Collector * W -> Prop) s :
  collector_ok s.1 ->
  (forall r, collector_ok (set_c_regexCache r s.1) ->
    Q (allowed (UserIncludeList (c_cfg s.1)) (UserExcludeList (c_cfg s.1)) name) (set_c_regexCache r s.1, s.2)) ->
  wp (isUserWhitelisted name) Q s.
Proof.
  intros Hs HQ. destruct s as [c w]. pose proof (safe_isUserWhitelisted name (c, w) Hs) as Hok. cbn [fst snd] in *.
  pose proof (wp_filter (UserIncludeList (c_cfg c)) (UserExcludeList (c_cfg c)) name (c_regexCache c)) as Hf.
  destruct Hs as (_ & _ & _ & _ & _ & _ & Hr). specialize (Hf Hr) as [Hb _].
  unfold wp, isUserWhitelisted, IsUserWhitelisted, IsUserIncluded, IsUserExcluded in *.
  destruct (and_not _ _ _) as [b r]. cbn [fst snd] in *. subst b. by apply HQ.
Qed.

Lemma wp_to_metrics users uid data (s : Collector * W) :
  collector_ok s.1 ->
  wp (to_metrics users (uid, data)) (fun r s' => collector_ok s'.1 /\ c_cfg s'.1 = c_cfg s.1 /\
    exists m, r = <[uid := m]> users /\ emaValues s'.1 = <[uid := CPUUsageEMA m]> (emaValues s.1) /\
              metrics_of (c_cfg s.1) (emaValues s.1 !! uid) uid data m) s.
Proof.
  intros Hs. unfold to_metrics. apply wp_bind. apply (wp_calm _ s.1); [apply safe_GetUsernameFromUID|apply still_username|by split|].
  intros username s1 H1. apply wp_bind. unfold calculateEMA. apply wp_bind, wp_field, wp_bind, wp_put, wp_ret.
  apply wp_bind, wp_isUserWhitelisted; [by destruct H1 as [(?&?&?&?&?&?&?) _]; split_and!|].
  intros r Hr. apply wp_ret. cbn [fst snd] in *. split; [done|]. pose proof (calm_cfg _ _ H1) as Hcfg.
  pose proof (calm_ema _ _ H1) as Hema. split; [exact Hcfg|]. eexists. split; [reflexivity|].
  cbn [emaValues set_emaValues set_c_regexCache c_cfg]. rewrite Hema, Hcfg. split; [done|].
  split_and!; try done. unfold fact. by destruct (u_io data).
Qed.

Lemma wp_convert users (l : list (Z * userData)) (s : Collector * W) :
  collector_ok s.1 -> NoDup l.*1 ->
  wp (fold_st to_metrics users l) (fun r s' => collector_ok s'.1 /\ c_cfg s'.1 = c_cfg s.1 /\ forall uid,
    (uid ∉ l.*1 -> r !! uid = users !! uid /\ emaValues s'.1 !! uid = emaValues s.1 !! uid) /\
    (forall d, (uid, d) ∈ l -> exists m, r !! uid = Some m /\ emaValues s'.1 !! uid = Some (CPUUsageEMA m) /\
       metrics_of (c_cfg s.1) (emaValues s.1 !! uid) uid d m)) s.
Proof.
  revert users s. induction l as [|[u data] l IH]; intros users s Hs Hnd; cbn [fold_st].
  { apply wp_ret. split_and!; [done..|]. intros uid. split; [done|]. intros d H. by apply elem_of_nil in H. }
  apply NoDup_cons in Hnd as [Hu Hnd]. apply wp_bind. eapply wp_mono; [|by apply wp_to_metrics].
  intros r1 s1 (H1 & Hcfg & m & -> & Hema & Hm). cbn beta.
  eapply wp_mono; [|by apply IH]. intros r s' (H' & Hcfg' & Hl). split_and!; [done|congruence|].
  intros uid. specialize (Hl uid) as [Hout Hin]. cbn [fmap list_fmap fst] in *. rewrite Hcfg in Hin.
  destruct (decide (u = uid)) as [->|Hne].
  - split; [intros H; exfalso; apply H; left|]. intros d [[= ->]|Hd]%elem_of_cons.
    + destruct (Hout Hu) as [-> ->]. rewrite Hema, !lookup_insert, !decide_True by done. by exists m.
    + exfalso. apply Hu. by apply (list_elem_of_fmap_2 fst) in Hd.
  - rewrite Hema, lookup_insert_ne in Hin, Hout by done. rewrite lookup_insert_ne in Hout by done. split.
    + intros H. apply Hout. set_solver.
    + intros d [[= -> ->]|Hd]%elem_of_cons; [done|]. by apply Hin.
Qed.

Lemma wp_setInCache key v (Q : unit -> Collector * W -> Prop) s :
  (forall s', outline s'.1 = outline s.1 -> cache s'.1 !! key = Some v -> Q tt s') -> wp (setInCache key v) Q s.
Proof.
  intros HQ. unfold setInCache. apply wp_bind, wp_field, wp_bind.
  assert (forall s1 : Collector * W, outline s1.1 = outline s.1 ->
    wp (sense time_Now ≫= fun now => put (fun c => set_caches (<[key := v]> (cache c)) (<[key := now]> (cacheTimestamps c)) c)) Q s1) as K.
  { intros s1 H1. apply wp_bind, wp_sense. intros now w. apply wp_put, HQ; [done|]. by apply lookup_insert_eq. }
  apply wp_when; intros _; [|by apply K]. unfold evict_cached.
  apply wp_bind, wp_sense. intros now w. apply wp_bind, wp_field, wp_bind, wp_visit. intros l w1 _.
  destruct (oldest now None l) as [k|]; [|by apply wp_ret, K].
  destruct (String.eqb k ""); [by apply wp_ret, K|by apply wp_put, K].
Qed.

Lemma wp_getFromCache_is key ttl (Q : option CacheVal -> Collector * W -> Prop) s :
  (forall w, Q (eval (getFromCache key ttl) s) (s.1, w)) -> wp (getFromCache key ttl) Q s.
Proof.
  intros HQ. unfold wp. assert ((getFromCache key ttl s).2.1 = s.1) as Hs.
  { apply (wp_getFromCache key ttl (fun _ s' => s'.1 = s.1)); done. }
  specialize (HQ (getFromCache key ttl s).2.2). unfold eval in HQ. rewrite <- Hs in HQ.
  by destruct (getFromCache key ttl s) as [r [c w]].
Qed.

End Convert.

Section Scan.
Context `{RE : Regexp} {W : Type} `{C : Clock W} `{V : MapVisit W} `{O : OS W} `{P : Processes W} `{N : Sensors W}.

(** The totals of a user after both passes and the merge. *)
Lemma totals (c : Collector) tb uid (temp io merged : gmap Z userData) :
  fact <$> temp !! uid = (if monitored (c_cfg c) uid then count_all (tb_rss tb) (owned tb uid) None else None) ->
  u_io <$> io !! uid = io_all (tb_io tb) (owned tb uid) None ->
  (forall d, io !! uid = Some d -> monitored (c_cfg c) uid = true -> merged !! uid = Some (with_io (u_io d) (user_data uid temp))) ->
  (io !! uid = None \/ monitored (c_cfg c) uid = false -> merged !! uid = temp !! uid) ->
  fact <$> merged !! uid =
  if monitored (c_cfg c) uid then
    match owned tb uid with
    | [] => None
    | pids => Some (Z.of_nat (length pids), wrap_u64 (sum_of (tb_rss tb) pids), io_sum (tb_io tb) pids)
    end
  else None.
Proof.
  rewrite count_all_none, io_all_none. intros Ht Hio Hin Hout.
  destruct (monitored (c_cfg c) uid); [|rewrite Hout, Ht by auto; done].
  destruct (owned tb uid) as [|p pids].
  - rewrite Hout, Ht; [done|]. left. by destruct (io !! uid).
  - destruct (io !! uid) as [d|]; [|done]. injection Hio as Hd. rewrite (Hin d) by done. cbn [fmap option_fmap option_map].
    f_equal. unfold with_io, user_data. destruct (temp !! uid) as [t|]; [|done]. injection Ht as H1 H2 H3.
    unfold fact. cbn [default id u_processCount u_memoryUsage u_io]. rewrite H1, H2, H3, Hd. by rewrite add_no_io.
Qed.

Lemma user_spec_of cfg tb ema uid data pids m :
  metrics_of cfg ema uid data m ->
  fact data = (Z.of_nat (length pids), wrap_u64 (sum_of (tb_rss tb) pids), io_sum (tb_io tb) pids) ->
  user_spec cfg tb ema uid pids m.
Proof.
  intros (H1 & H2 & H3 & H4) Hf. rewrite Hf in H2. injection H2 as H5 H6 H7 H8 H9 H10. by split_and!.
Qed.

(** Keys of a visited map. *)
Lemma visited {A} (l : list (Z * A)) (m : gmap Z A) :
  l ≡ₚ map_to_list m -> NoDup l.*1 /\ (forall k a, (k, a) ∈ l <-> m !! k = Some a) /\ (forall k, k ∉ l.*1 <-> m !! k = None).
Proof.
  intros Hl. assert (forall k a, (k, a) ∈ l <-> m !! k = Some a) as Hin.
  { intros k a. rewrite Hl. apply elem_of_map_to_list. }
  split_and!; [rewrite Hl; apply NoDup_fst_map_to_list|done|]. intros k. rewrite list_elem_of_fmap. split.
  - intros H. destruct (m !! k) as [a|] eqn:E; [|done]. exfalso. apply H. exists (k, a). by rewrite Hin.
  - intros H ([k' a] & -> & Ha). apply Hin in Ha. cbn in H. congruence.
Qed.

Lemma wp_scan_processes tb (s : Collector * W) :
  Steady (W := W) tb -> collector_ok s.1 ->
  wp (scan_processes (tb_procs tb)) (fun users s' => collector_ok s'.1 /\ scan_spec s.1 tb users /\
    forall uid, emaValues s'.1 !! uid = match users !! uid with Some m => Some (CPUUsageEMA m) | None => emaValues s.1 !! uid end) s.
Proof.
  intros HS Hs. unfold scan_processes, getSystemUptimeSeconds. apply wp_bind, wp_bind, wp_sense. intros up w.
  apply wp_ret, wp_bind. eapply wp_mono; [|by apply (wp_first_pass tb HS s.1)]. intros temp s1 [H1 Ht]. cbn beta.
  apply wp_bind. eapply wp_mono; [|by apply (wp_io_pass tb HS s.1)]. intros io s2 [H2 Hio]. cbn beta.
  apply wp_bind, wp_visit. intros ios w2 Hios. apply visited in Hios as (Hnd & Hin & Hout).
  apply wp_bind. eapply wp_mono; [|by apply (wp_merge s.1)]. intros merged s3 [H3 Hm]. cbn beta.
  unfold convert. apply wp_bind, wp_visit. intros l w3 Hl. apply visited in Hl as (Hnd' & Hin' & Hout').
  eapply wp_mono; [|apply wp_convert; [by destruct H3|done]]. intros users s' (H' & Hcfg & Hu). cbn [fst] in *.
  rewrite (calm_cfg _ _ H3), (calm_ema _ _ H3) in *. split; [done|].
  assert (forall uid, fact <$> merged !! uid = if monitored (c_cfg s.1) uid then
    match owned tb uid with [] => None | pids => Some (Z.of_nat (length pids), wrap_u64 (sum_of (tb_rss tb) pids), io_sum (tb_io tb) pids) end
    else None) as Hf.
  { intros uid. apply (totals s.1 tb uid temp io); [apply Ht|apply Hio|..]; specialize (Hm uid) as [Ha Hb].
    - intros d Hd. by apply Ha, Hin.
    - rewrite <- Hout. exact Hb. }
  split; intros uid; specialize (Hu uid) as [Hno Hyes]; specialize (Hf uid); destruct (merged !! uid) as [d|] eqn:Ed.
  - destruct (Hyes d (proj2 (Hin' _ _) Ed)) as (m & -> & _ & Hmm). destruct (monitored _ uid); [|done].
    split; [done|]. destruct (owned tb uid) as [|p pids] eqn:Eo; [done|]. split; [done|].
    apply user_spec_of with d; [done|]. by apply (inj Some).
  - destruct (Hno (proj2 (Hout' _) Ed)) as [-> _]. rewrite lookup_empty. destruct (monitored _ uid); [|by left].
    destruct (owned tb uid); [by right|done].
  - by destruct (Hyes d (proj2 (Hin' _ _) Ed)) as (m & -> & -> & _).
  - destruct (Hno (proj2 (Hout' _) Ed)) as [-> ->]. by rewrite lookup_empty.
Qed.

(** C15: a scan reports exactly the monitored users that own a process, each
    with the number of its processes, its memory and its I/O summed modulo
    [2^64], whether the filters of the configuration let it be limited, and a
    moving average advanced by exactly one sample; the averages of the other
    users are kept, and the result is cached. *)
Theorem GetAllUserMetrics_spec tb (c : Collector) (w : W) :
  Steady (W := W) tb -> collector_ok c ->
  eval (metricsCacheTTL ≫= getFromCache "all_user_metrics") (c, w) = None ->
  wp GetAllUserMetrics (fun users s' => scan_spec c tb users /\
    cache s'.1 !! "all_user_metrics" = Some (VMetrics users) /\
    forall uid, emaValues s'.1 !! uid = match users !! uid with Some m => Some (CPUUsageEMA m) | None => emaValues c !! uid end) (c, w).
Proof.
  intros HS Hc Hmiss. unfold GetAllUserMetrics. apply wp_bind, wp_field, wp_bind, wp_getFromCache_is. intros w1.
  change (eval (getFromCache "all_user_metrics" (seconds (MetricsCacheTTL (c_cfg c)))) (c, w) = None) in Hmiss.
  cbn [fst]. rewrite Hmiss. apply wp_bind.
  apply (wp_sense_fixed _ id (Ok (tb_procs tb))); [apply HS|]. intros r w2 Hr. cbn [id] in Hr. subst r.
  apply wp_bind. eapply wp_mono; [|by apply wp_scan_processes]. intros users s' (_ & Hspec & Hema). cbn beta.
  unfold keep. apply wp_bind, wp_setInCache. intros s2 Ho Hv. apply wp_ret. split_and!; [done|done|].
  injection Ho as _ ->. exact Hema.
Qed.

End Scan.

(** ** Witness *)

#[local] Existing Instance literal_regexp.

Definition bench_tb : Table :=
  mkTable (map fst (map_to_list (b_table bench)))
    (fun pid => bp_uid <$> b_table bench !! pid)
    (fun pid => match b_table bench !! pid with Some p => bp_rss p | None => 0 end)
    (fun pid => match b_files bench !! proc_file pid "io" with Some data => parse_io data | None => no_io end).

(** The bench as a machine that never changes. *)
Definition frozen {A} (m : ST Bench A) : ST unit A := mret (eval m bench).

#[local] Instance frozen_clock : Clock unit := {| time_Now := frozen time_Now; local_time _ := local_time bench |}.

#[local] Instance frozen_visit : MapVisit unit := {|
  visit K A _ _ m := mret (map_to_list m);
  visit_perm K A _ _ m w := Permutation_refl (map_to_list m)
|}.

#[local] Instance frozen_os : OS unit := {|
  os_ReadFile p := frozen (os_ReadFile p);
  os_WriteFile p c := frozen (os_WriteFile p c);
  os_AppendFile p c := frozen (os_AppendFile p c);
  os_Stat p := frozen (os_Stat p);
  os_ReadDir p := frozen (os_ReadDir p);
  os_Mkdir p := frozen (os_Mkdir p);
  os_MkdirAll p := frozen (os_MkdirAll p);
  os_Remove p := frozen (os_Remove p);
  os_RemoveAll p := frozen (os_RemoveAll p);
  os_Rename p q := frozen (os_Rename p q);
  os_Chmod p := frozen (os_Chmod p)
|}.

#[local] Instance frozen_processes : Processes unit := {|
  process_Processes := frozen process_Processes;
  process_Uids pid := frozen (process_Uids pid);
  user_LookupId id := frozen (user_LookupId id)
|}.

#[local] Instance frozen_sensors : Sensors unit := {|
  cpu_Counts := frozen cpu_Counts;
  cpu_Percent := frozen cpu_Percent;
  cpu_Times := frozen cpu_Times;
  mem_VirtualMemory := frozen mem_VirtualMemory;
  host_BootTime := frozen host_BootTime;
  process_NewProcess pid := frozen (process_NewProcess pid);
  proc_Times pid := frozen (proc_Times pid);
  proc_RSS pid := frozen (proc_RSS pid);
  proc_CreateTime pid := frozen (proc_CreateTime pid);
  proc_Status pid := frozen (proc_Status pid)
|}.

Lemma bench_steady : Steady (W := unit) bench_tb.
Proof.
  split; try done.
  - intros pid w. unfold bench_tb, tb_uid, process_Uids, frozen_processes, frozen, eval. cbn. by destruct (_ !! pid).
  - intros pid w. unfold bench_tb, tb_rss, proc_RSS, frozen_sensors, frozen, eval. cbn. by destruct (_ !! pid).
  - intros pid w. unfold bench_tb, tb_io, os_ReadFile, frozen_os, frozen, eval. cbn. by destruct (_ !! proc_file pid "io").
Qed.

Definition bench_collector : Collector := NewCollector (DefaultConfig None) zero_time (Err "none").

Lemma bench_collector_ok : collector_ok bench_collector.
Proof. apply (new_collector_ok (W := unit) (bench_collector, tt)). by eexists _, _, _. Qed.

Lemma GetAllUserMetrics_spec_witness :
  (forall m, (eval GetAllUserMetrics (bench_collector, tt)) !! 1000 = Some m -> ProcessCount m = 2 /\ MemoryUsage m = 12288) /\
  wp GetAllUserMetrics (fun users s' => scan_spec bench_collector bench_tb users /\
    cache s'.1 !! "all_user_metrics" = Some (VMetrics users) /\
    forall uid, emaValues s'.1 !! uid = match users !! uid with Some m => Some (CPUUsageEMA m) | None => emaValues bench_collector !! uid end)
    (bench_collector, tt).
Proof.
  split.
  - intros m Hm. vm_compute in Hm. by injection Hm as <-.
  - exact (GetAllUserMetrics_spec bench_tb bench_collector tt bench_steady bench_collector_ok eq_refl).
Defined.
