(* ===== verification/Decision.v ===== *)
(** * The decision engine
      (state/decision_engine.go: [makeDecision])

    The tests on the collected metrics are pure functions; [makeDecision] puts
    them together with the trackers and the clock. *)

From S2P Require Import Prelude GoStrings GoFloat Config Blackout ConfigLoad Tracker Pattern StateBase Recorder.

#[local] Open Scope Z_scope.

(** ** Tests on the metrics *)

Definition hundred : f64 := f64_of_Z 100.

Definition cpuExceeded (cfg : Config) (m : SystemMetrics) : bool :=
  f_ge (LimitedUsersCPUUsage m) (f64_of_Z (CPUThreshold cfg)).

Definition cpuBelow (cfg : Config) (m : SystemMetrics) : bool :=
  f_lt (LimitedUsersCPUUsage m) (f64_of_Z (CPUReleaseThreshold cfg)).

(** The memory of the limited users in percent, when it is compared with
    [limit] at all. *)
Definition ramPercent (cfg : Config) (limit : Z) (m : SystemMetrics) : option f64 :=
  if RAMEnabled cfg && (limit >? 0) && f_gt (TotalMemoryMB m) fzero then
    let limitedRAMMB := fdiv (f64_of_Z (LimitedUsersRAMUsageBytes m)) (f64_of_Z (1024 * 1024)) in
    Some (fmul (fdiv limitedRAMMB (TotalMemoryMB m)) hundred)
  else None.

Definition ramExceeded (cfg : Config) (m : SystemMetrics) : bool :=
  match ramPercent cfg (RAMThreshold cfg) m with
  | Some p => f_ge p (f64_of_Z (RAMThreshold cfg))
  | None => false
  end.

Definition ramBelow (cfg : Config) (m : SystemMetrics) : bool :=
  match ramPercent cfg (RAMReleaseThreshold cfg) m with
  | Some p => f_lt p (f64_of_Z (RAMReleaseThreshold cfg))
  | None => true
  end.

(** The write rate of the limited users in percent of their total quota. *)
Definition ioPercent (cfg : Config) (limit : Z) (m : SystemMetrics) : option f64 :=
  if IOEnabled cfg && (limit >? 0) && negb (String.eqb (IOWriteBPS cfg) "") && negb (String.eqb (IOWriteBPS cfg) "max") then
    match ParseRAMQuota (IOWriteBPS cfg) with
    | Ok writeLimit =>
        if writeLimit >? 0 then
          let totalWriteLimit := wrap_u64 (writeLimit * wrap_u64 (LimitedUsersCount m)) in
          if totalWriteLimit >? 0 then
            Some (fmul (fdiv (f64_of_Z (LimitedUsersIOWriteBytes m)) (f64_of_Z totalWriteLimit)) hundred)
          else None
        else None
    | Err _ => None
    end
  else None.

Definition ioOver (cfg : Config) (m : SystemMetrics) : bool :=
  match ioPercent cfg (IOThreshold cfg) m with
  | Some p => f_ge p (f64_of_Z (IOThreshold cfg))
  | None => false
  end.

Definition ioBelow (cfg : Config) (m : SystemMetrics) : bool :=
  match ioPercent cfg (IOReleaseThreshold cfg) m with
  | Some p => f_lt p (f64_of_Z (IOReleaseThreshold cfg))
  | None => true
  end.

Definition allBelow (cfg : Config) (m : SystemMetrics) : bool :=
  cpuBelow cfg m && ramBelow cfg m && ioBelow cfg m.

(** ** Reasons *)

Definition buildActivateReason (cfg : Config) (cpu ram io : bool) (m : SystemMetrics) : Reason :=
  ThresholdExceeded (if cpu then Some (LimitedUsersCPUUsage m, CPUThreshold cfg) else None)
    (if ram then Some (RAMThreshold cfg) else None)
    (if io then Some (IOThreshold cfg) else None).

Definition buildDeactivateReason (cfg : Config) (m : SystemMetrics) : Reason :=
  AllBelowRelease (LimitedUsersCPUUsage m) (CPUReleaseThreshold cfg).

Section Decision.
Context {W : Type} {E : Env W}.

(** ** The trackers of the manager *)

Definition run_tracker (proj : StateManager -> ThresholdTracker)
    (put : ThresholdTracker -> StateManager -> StateManager)
    (current threshold : f64) (required : Duration) : SM W bool :=
  read proj ≫= fun t =>
  (if f_ge current threshold then
     (if IsZero (firstOverThresholdTime t) then env time_Now else mret zero_time) ≫= fun now =>
     env time_Now ≫= fun since => mret (now, since)
   else mret (zero_time, zero_time)) ≫= fun '(now, since) =>
  let '(b, t') := ShouldActivateLimits current threshold required now since t in
  update (put t') ≫= fun _ => mret b.

Definition reset_trackers : SM W unit :=
  update (set_thresholdTracker newTracker) ≫= fun _ => update (set_ioThresholdTracker newTracker).

(** Is the I/O threshold exceeded, for long enough when a duration is set? *)
Definition ioExceeded (cfg : Config) (m : SystemMetrics) : SM W bool :=
  if (IOThresholdDuration cfg >? 0) && ioOver cfg m then
    run_tracker ioThresholdTracker set_ioThresholdTracker
      (default fzero (ioPercent cfg (IOThreshold cfg) m)) (f64_of_Z (IOThreshold cfg))
      (seconds (IOThresholdDuration cfg))
  else update (set_ioThresholdTracker newTracker) ≫= fun _ => mret (ioOver cfg m).

Definition ema_of (l : list (Z * UserMetrics)) (uid : Z) : option f64 :=
  match List.find (fun p => p.1 =? uid) l with Some (_, um) => Some (CPUUsageEMA um) | None => None end.

(** One more sample for each limited user; are they all stable? *)
Definition stability_sample (cfg : Config) : SM W bool :=
  env mc_GetLimitedUsers ≫= fun limitedUsers =>
  env mc_GetAllUserMetrics ≫= fun all =>
  read stabilityTracker ≫= fun under =>
  let under' := count_stable limitedUsers (ema_of all) (f64_of_Z (CPUReleaseThreshold cfg)) under in
  update (set_stabilityTracker under') ≫= fun _ => mret (all_stable limitedUsers under').

Definition decide_active (cfg : Config) (m : SystemMetrics) : SM W (Decision * Reason) :=
  read limitsAppliedTime ≫= fun appliedTime =>
  env time_Now ≫= fun now =>
  if time_sub now appliedTime <? seconds (MinActiveTime cfg) then
    mret (MAINTAIN_CURRENT_STATE, WaitingMinActiveTime)
  else if allBelow cfg m then
    stability_sample cfg ≫= fun stable =>
    if negb (SystemUnderLoad m) && stable then
      reset_trackers ≫= fun _ => mret (DEACTIVATE_LIMITS, buildDeactivateReason cfg m)
    else if negb stable then mret (MAINTAIN_CURRENT_STATE, WaitingStability)
    else mret (MAINTAIN_CURRENT_STATE, BelowButUnderLoad)
  else mret (MAINTAIN_CURRENT_STATE, StillAboveRelease).

(** The time window of the CPU, which holds back only when the CPU is the one
    resource that is exceeded. *)
Definition cpu_window (cfg : Config) (m : SystemMetrics) (others : bool) : SM W (option Duration) :=
  if cpuExceeded cfg m && (CPUThresholdDuration cfg >? 0) then
    run_tracker thresholdTracker set_thresholdTracker (LimitedUsersCPUUsage m)
      (f64_of_Z (CPUThreshold cfg)) (seconds (CPUThresholdDuration cfg)) ≫= fun shouldActivate =>
    if negb shouldActivate && negb others then
      read thresholdTracker ≫= fun t =>
      (if IsZero (firstOverThresholdTime t) then mret zero_time else env time_Now) ≫= fun since =>
      mret (Some (wrap_i64 (seconds (CPUThresholdDuration cfg) - GetElapsed since t)))
    else mret None
  else mret None.

Definition decide_inactive (cfg : Config) (m : SystemMetrics) (io : bool) : SM W (Decision * Reason) :=
  if cpuExceeded cfg m || ramExceeded cfg m || io then
    if TotalCores m <=? MinSystemCores cfg then
      reset_trackers ≫= fun _ =>
      mret (MAINTAIN_CURRENT_STATE, InsufficientCores (TotalCores m) (MinSystemCores cfg))
    else if negb (IgnoreSystemLoad cfg) && SystemUnderLoad m then
      reset_trackers ≫= fun _ => mret (MAINTAIN_CURRENT_STATE, UnderLoad)
    else
      cpu_window cfg m (ramExceeded cfg m || io) ≫= fun wait =>
      mret match wait with
           | Some remaining =>
               (MAINTAIN_CURRENT_STATE, WaitingDuration remaining (LimitedUsersCPUUsage m) (CPUThreshold cfg))
           | None => (ACTIVATE_LIMITS, buildActivateReason cfg (cpuExceeded cfg m) (ramExceeded cfg m) io m)
           end
  else reset_trackers ≫= fun _ => mret (MAINTAIN_CURRENT_STATE, NormalRange).

Definition makeDecision (m : SystemMetrics) : SM W (Decision * Reason) :=
  read s_cfg ≫= fun cfg =>
  read limitsActive ≫= fun limitsActive =>
  ioExceeded cfg m ≫= fun io =>
  if limitsActive : bool then decide_active cfg m else decide_inactive cfg m io.

End Decision.

(** ** Lemmas *)

(** Only the trackers may differ. *)
Definition same_but_trackers (m m' : StateManager) : Prop :=
  set_thresholdTracker newTracker (set_ioThresholdTracker newTracker (set_stabilityTracker ∅ m)) =
  set_thresholdTracker newTracker (set_ioThresholdTracker newTracker (set_stabilityTracker ∅ m')).

Lemma same_refl m : same_but_trackers m m.
Proof. done. Qed.

Lemma same_trans m1 m2 m3 : same_but_trackers m1 m2 -> same_but_trackers m2 m3 -> same_but_trackers m1 m3.
Proof. unfold same_but_trackers. congruence. Qed.

#[export] Instance same_equiv : Equivalence same_but_trackers.
Proof. split; [exact same_refl| |exact same_trans]. intros m1 m2. unfold same_but_trackers. congruence. Qed.

Lemma same_threshold t m m' : same_but_trackers m m' -> same_but_trackers m (set_thresholdTracker t m').
Proof. by destruct m, m'. Qed.

Lemma same_io t m m' : same_but_trackers m m' -> same_but_trackers m (set_ioThresholdTracker t m').
Proof. by destruct m, m'. Qed.

Lemma same_stability t m m' : same_but_trackers m m' -> same_but_trackers m (set_stabilityTracker t m').
Proof. by destruct m, m'. Qed.

#[export] Hint Resolve same_refl same_threshold same_io same_stability : resman.

Lemma same_fields m m' :
  same_but_trackers m m' ->
  s_cfg m' = s_cfg m /\ limitsActive m' = limitsActive m /\ limitsAppliedTime m' = limitsAppliedTime m /\
  activeUsers m' = activeUsers m /\ sharedCgroupPath m' = sharedCgroupPath m /\ pending m' = pending m.
Proof. destruct m, m'. unfold same_but_trackers. simpl. intros [=]. subst. done. Qed.

Section Decision_lemmas.
Context {W : Type} {E : Env W}.

Lemma wp_run_tracker proj put cur thr req m0 (Q : bool -> StateManager * W -> Prop) s :
  (forall t m, same_but_trackers m0 m -> same_but_trackers m0 (put t m)) ->
  same_but_trackers m0 s.1 ->
  (forall b m w, same_but_trackers m0 m -> (b = true -> f_ge cur thr = true) -> Q b (m, w)) ->
  wp (run_tracker proj put cur thr req) Q s.
Proof.
  intros Hput Hs HQ. unfold run_tracker. apply wp_bind, wp_read, wp_bind.
  assert (forall now since s, same_but_trackers m0 s.1 ->
    wp (let '(b, t') := ShouldActivateLimits cur thr req now since (proj s.1) in
        update (put t') ≫= fun _ => mret b) Q s) as K.
  { intros now since s1 H1. unfold ShouldActivateLimits.
    destruct (f_ge cur thr) eqn:Ef; apply wp_bind, wp_update, wp_ret, HQ; auto. }
  destruct (f_ge cur thr) eqn:Ef.
  - apply wp_bind. destruct (IsZero _); [apply wp_env; intros now w|apply wp_ret]; apply wp_bind, wp_env;
      intros since w'; apply wp_ret; cbn [fst].
    + change (proj s.1) with (proj (s.1, w').1). by apply K.
    + change (proj s.1) with (proj (s.1, w').1). by apply K.
  - apply wp_ret. by apply K.
Qed.

Lemma wp_ioExceeded cfg m m0 (Q : bool -> StateManager * W -> Prop) s :
  same_but_trackers m0 s.1 ->
  (forall b m' w, same_but_trackers m0 m' -> (b = true -> ioOver cfg m = true) -> Q b (m', w)) ->
  wp (ioExceeded cfg m) Q s.
Proof.
  intros Hs HQ. unfold ioExceeded. destruct (_ && _) eqn:Eb.
  - apply andb_true_iff in Eb as [_ Eo]. eapply wp_run_tracker; [|exact Hs|]; [auto with resman|].
    intros b m' w Hm' _. by apply HQ.
  - apply wp_bind, wp_update, wp_ret, HQ; auto with resman.
Qed.

(** What a decision of the active branch may be. *)
Lemma wp_decide_active cfg m m0 s :
  same_but_trackers m0 s.1 ->
  wp (decide_active cfg m)
     (fun r s' => same_but_trackers m0 s'.1 /\ r.1 <> ACTIVATE_LIMITS /\
        (r.1 = DEACTIVATE_LIMITS ->
         allBelow cfg m = true /\ SystemUnderLoad m = false /\
         (exists now, seconds (MinActiveTime cfg) <= time_sub now (limitsAppliedTime s.1)) /\
         (exists users, all_stable users (stabilityTracker s'.1) = true))) s.
Proof.
  intros Hs. unfold decide_active. apply wp_bind, wp_read, wp_bind, wp_env. intros now w.
  destruct (_ <? _) eqn:Et; [by apply wp_ret|]. bool_to_Z.
  destruct (allBelow cfg m) eqn:Ea; [|by apply wp_ret].
  apply wp_bind. unfold stability_sample. repeat (sm_step; cbn [fst snd]).
  all: split; [eauto 6 with resman|]; split; [done|]; intros Hd; try done.
  bool_to_Z. split_and!; [done|done|by exists now|]. simpl. by exists a.
Qed.

(** What a decision of the inactive branch may be. *)
Lemma wp_decide_inactive cfg m io m0 s :
  same_but_trackers m0 s.1 ->
  wp (decide_inactive cfg m io)
     (fun r s' => same_but_trackers m0 s'.1 /\ r.1 <> DEACTIVATE_LIMITS /\
        (r.1 = ACTIVATE_LIMITS ->
         (cpuExceeded cfg m = true \/ ramExceeded cfg m = true \/ io = true) /\
         MinSystemCores cfg < TotalCores m /\
         (IgnoreSystemLoad cfg = true \/ SystemUnderLoad m = false))) s.
Proof.
  intros Hs. unfold decide_inactive, reset_trackers. destruct (_ || _) eqn:Ex.
  2: { repeat (sm_step; cbn [fst snd]). split_and!; [eauto 6 with resman|done|done]. }
  destruct (_ <=? _) eqn:Ec; [repeat (sm_step; cbn [fst snd]); split_and!; [eauto 6 with resman|done|done]|].
  destruct (_ && _) eqn:El; [repeat (sm_step; cbn [fst snd]); split_and!; [eauto 6 with resman|done|done]|].
  assert ((cpuExceeded cfg m = true \/ ramExceeded cfg m = true \/ io = true) /\
         MinSystemCores cfg < TotalCores m /\
         (IgnoreSystemLoad cfg = true \/ SystemUnderLoad m = false)) as K.
  { bool_to_Z. rewrite !orb_true_iff in Ex. split; [tauto|]. split; [lia|].
    apply andb_false_iff in El as [El|El]; bool_to_Z; auto. }
  apply wp_bind. apply (wp_mono _ (fun _ s' => same_but_trackers m0 s'.1)).
  { intros [d|] s' Hs'; apply wp_ret; (split; [exact Hs'|split; [done|intros ?; exact K || done]]). }
  unfold cpu_window. destruct (cpuExceeded cfg m && (CPUThresholdDuration cfg >? 0)); [|apply wp_ret; exact Hs].
  apply wp_bind. eapply wp_run_tracker; [|exact Hs|]; [auto with resman|].
  intros b m' w Hm' _. destruct (negb b && _); [|apply wp_ret; exact Hm'].
  apply wp_bind, wp_read, wp_bind. destruct (IsZero _).
  - repeat apply wp_ret. exact Hm'.
  - apply wp_env. intros. apply wp_ret. exact Hm'.
Qed.

End Decision_lemmas.

(** ** Specification of the decision

    What is decided when the clock does not move during the decision. *)

Section Spec.
Context (now : Time) (users : list Z) (all : list (Z * UserMetrics)).

(** Has the run of samples over the threshold, the present one included,
    lasted for [required]? *)
Definition window_passed (t : ThresholdTracker) (required : Duration) : bool :=
  required <=? time_sub now (if IsZero (firstOverThresholdTime t) then now else firstOverThresholdTime t).

Definition cpu_ready (s : StateManager) (m : SystemMetrics) : bool :=
  cpuExceeded (s_cfg s) m &&
  ((CPUThresholdDuration (s_cfg s) <=? 0) ||
   window_passed (thresholdTracker s) (seconds (CPUThresholdDuration (s_cfg s)))).

Definition io_ready (s : StateManager) (m : SystemMetrics) : bool :=
  ioOver (s_cfg s) m &&
  ((IOThresholdDuration (s_cfg s) <=? 0) ||
   window_passed (ioThresholdTracker s) (seconds (IOThresholdDuration (s_cfg s)))).

Definition activate_spec (s : StateManager) (m : SystemMetrics) : bool :=
  negb (limitsActive s) && (MinSystemCores (s_cfg s) <? TotalCores m) &&
  (IgnoreSystemLoad (s_cfg s) || negb (SystemUnderLoad m)) &&
  (cpu_ready s m || ramExceeded (s_cfg s) m || io_ready s m).

Definition deactivate_spec (s : StateManager) (m : SystemMetrics) : bool :=
  limitsActive s && (seconds (MinActiveTime (s_cfg s)) <=? time_sub now (limitsAppliedTime s)) &&
  allBelow (s_cfg s) m && negb (SystemUnderLoad m) &&
  all_stable users (count_stable users (ema_of all) (f64_of_Z (CPUReleaseThreshold (s_cfg s))) (stabilityTracker s)).

Definition decision_spec (s : StateManager) (m : SystemMetrics) : Decision :=
  if activate_spec s m then ACTIVATE_LIMITS
  else if deactivate_spec s m then DEACTIVATE_LIMITS
  else MAINTAIN_CURRENT_STATE.

End Spec.

(** From a world in [P] the operation returns [a] and stays in [P]. *)
Definition yields {W A} (P : W -> Prop) (m : ST W A) (a : A) : Prop :=
  forall w, P w -> wp m (fun a' w' => a' = a /\ P w') w.

Section Refinement.
Context {W : Type} {E : Env W} (now : Time) (users : list Z) (all : list (Z * UserMetrics)).
Context (P : W -> Prop) (Hnow : yields P time_Now now).
Context (Husers : yields P mc_GetLimitedUsers users) (Hall : yields P mc_GetAllUserMetrics all).

Lemma wp_env_eval {A} (m : ST W A) a (Q : A -> StateManager * W -> Prop) s :
  yields P m a -> P s.2 -> (forall w, P w -> Q a (s.1, w)) -> wp (env m) Q s.
Proof.
  intros Ha Hs HQ. destruct s as [s w]. specialize (Ha w Hs). unfold wp, env in *.
  destruct (m w). simpl in *. destruct Ha as [-> ?]. by apply HQ.
Qed.

Lemma run_tracker_frozen proj put cur thr req s (Q : bool -> StateManager * W -> Prop) :
  f_ge cur thr = true -> P s.2 ->
  (forall t w, P w -> Q (window_passed now (proj s.1) req) (put t s.1, w)) ->
  wp (run_tracker proj put cur thr req) Q s.
Proof.
  intros Hge Hs HQ. unfold run_tracker, ShouldActivateLimits. rewrite Hge.
  apply wp_bind, wp_read, wp_bind, wp_bind. unfold window_passed in HQ.
  destruct (IsZero _); [apply (wp_env_eval _ now); [done|done|]; intros w Hw|apply wp_ret];
    apply wp_bind, (wp_env_eval _ now); try done; intros w' Hw'; by apply wp_ret, wp_bind, wp_update, wp_ret, HQ.
Qed.

Lemma ioOver_percent cfg m :
  ioOver cfg m = true -> f_ge (default fzero (ioPercent cfg (IOThreshold cfg) m)) (f64_of_Z (IOThreshold cfg)) = true.
Proof. unfold ioOver. by destruct (ioPercent _ _ _). Qed.

Lemma ioExceeded_frozen m s (Q : bool -> StateManager * W -> Prop) :
  P s.2 ->
  (forall t w, P w -> Q (io_ready now s.1 m) (set_ioThresholdTracker t s.1, w)) ->
  wp (ioExceeded (s_cfg s.1) m) Q s.
Proof.
  intros Hs HQ. unfold ioExceeded. unfold io_ready in HQ.
  destruct (IOThresholdDuration _ >? 0) eqn:Ed, (ioOver _ m) eqn:Eo; cbn [andb].
  1: eapply run_tracker_frozen; [by apply ioOver_percent|done|]; intros t w Hw;
     replace (IOThresholdDuration (s_cfg s.1) <=? 0) with false in HQ by lia; by apply HQ.
  all: apply wp_bind, wp_update, wp_ret; try by apply HQ.
  replace (IOThresholdDuration (s_cfg s.1) <=? 0) with true in HQ by lia. by apply HQ.
Qed.

Lemma decide_active_frozen m s :
  limitsActive s.1 = true -> P s.2 ->
  wp (decide_active (s_cfg s.1) m) (fun r _ => r.1 = decision_spec now users all s.1 m) s.
Proof.
  intros Ha Hs. unfold decide_active, decision_spec, activate_spec, deactivate_spec. rewrite Ha. cbn [negb andb].
  apply wp_bind, wp_read, wp_bind, (wp_env_eval _ now); [done|done|]. intros w Hw.
  rewrite Z.leb_antisym. destruct (_ <? _); [by apply wp_ret|]. cbn [negb andb].
  destruct (allBelow _ _); [|by apply wp_ret]. cbn [andb]. apply wp_bind. unfold stability_sample.
  apply wp_bind, (wp_env_eval _ users); [done|done|]. intros w1 Hw1.
  apply wp_bind, (wp_env_eval _ all); [done|done|]. intros w2 Hw2.
  apply wp_bind, wp_read, wp_bind, wp_update, wp_ret. cbn [fst snd].
  destruct (SystemUnderLoad m), (all_stable _ _); cbn [negb andb]; try (by apply wp_ret).
  unfold reset_trackers. by repeat sm_step.
Qed.

Lemma cpu_window_frozen cfg m others s (Q : option Duration -> StateManager * W -> Prop) :
  P s.2 ->
  (forall d s', (isSome d = false <->
     cpuExceeded cfg m = false \/ CPUThresholdDuration cfg <= 0 \/ others = true \/
     window_passed now (thresholdTracker s.1) (seconds (CPUThresholdDuration cfg)) = true) -> Q d s') ->
  wp (cpu_window cfg m others) Q s.
Proof.
  intros Hs HQ. unfold cpu_window. destruct (cpuExceeded cfg m) eqn:Ec; cbn [andb]; [|apply wp_ret, HQ; tauto].
  destruct (CPUThresholdDuration cfg >? 0) eqn:Ed; [|apply wp_ret, HQ; split; [right; left; lia|done]].
  apply wp_bind. eapply run_tracker_frozen; [exact Ec|exact Hs|]. intros t w Hw.
  destruct (window_passed _ _ _) eqn:Ew, others; cbn [negb andb]; try (apply wp_ret, HQ; tauto).
  apply wp_bind, wp_read, wp_bind.
  destruct (IsZero _); [apply wp_ret|apply wp_env; intros]; apply wp_ret, HQ; (split; [done|]);
    intros [?|[?|[?|?]]]; first [congruence|lia].
Qed.

Lemma decide_inactive_frozen t m s0 w :
  limitsActive s0 = false -> P w ->
  wp (decide_inactive (s_cfg s0) m (io_ready now s0 m))
     (fun r _ => r.1 = decision_spec now users all s0 m) (set_ioThresholdTracker t s0, w).
Proof.
  intros Ha Hw. unfold decide_inactive, decision_spec, activate_spec, deactivate_spec, reset_trackers.
  rewrite Ha. cbn [negb andb]. rewrite <- Z.ltb_antisym || rewrite Z.ltb_antisym.
  set (io := io_ready now s0 m). set (ram := ramExceeded (s_cfg s0) m).
  destruct (cpuExceeded (s_cfg s0) m || ram || io) eqn:Ex; cycle 1.
  { apply orb_false_iff in Ex as [[Ec ->]%orb_false_iff ->]. unfold cpu_ready. rewrite Ec.
    rewrite andb_false_r. by repeat sm_step. }
  destruct (TotalCores m <=? _); [by repeat sm_step|]. cbn [negb andb].
  destruct (IgnoreSystemLoad _) eqn:Ei, (SystemUnderLoad m) eqn:Eu; cbn [negb andb orb]; try (by repeat sm_step).
  all: apply wp_bind, cpu_window_frozen; [done|]; intros d s' Hd; apply wp_ret; cbn [fst thresholdTracker set_ioThresholdTracker] in Hd.
  all: unfold cpu_ready; destruct d as [d|]; cbn [isSome] in Hd; cbn [fst].
  all: destruct (cpuExceeded _ m), (CPUThresholdDuration (s_cfg s0) <=? 0) eqn:Ed, (window_passed _ _ _), ram, io;
    cbn [andb orb] in *; try done; bool_to_Z; exfalso; destruct Hd as [H1 H2];
    first [by discriminate H2; tauto | specialize (H1 eq_refl); naive_solver lia].
Qed.

Lemma makeDecision_frozen m s :
  P s.2 ->
  wp (makeDecision m) (fun r _ => r.1 = decision_spec now users all s.1 m) s.
Proof.
  intros Hs. unfold makeDecision. apply wp_bind, wp_read, wp_bind, wp_read, wp_bind, ioExceeded_frozen; [done|]. intros t w Hw.
  destruct (limitsActive s.1) eqn:Ha; [|by apply decide_inactive_frozen].
  pose proof (decide_active_frozen m (set_ioThresholdTracker t s.1, w) Ha Hw) as K.
  cbn [fst s_cfg set_ioThresholdTracker] in K. eapply wp_mono; [|exact K]. intros r _ ->.
  unfold decision_spec, activate_spec. cbn [limitsActive set_ioThresholdTracker]. by rewrite Ha.
Qed.

End Refinement.

(** ** Hysteresis of the tests *)

Lemma hysteresis_le release threshold :
  hysteresis_ok release threshold -> f_le (f64_of_Z release) (f64_of_Z threshold) = true.
Proof. intros [? ?]. apply percent_mono; lia. Qed.

Lemma gtb_pos z : 1 <= z -> (z >? 0) = true.
Proof. lia. Qed.

Lemma exceeded_not_below url_Parse cfg m :
  valid_config url_Parse cfg ->
  cpuExceeded cfg m = true \/ ramExceeded cfg m = true \/ ioOver cfg m = true ->
  allBelow cfg m = false.
Proof.
  intros V H. unfold allBelow. rewrite !andb_false_iff.
  unfold cpuExceeded, cpuBelow, ramExceeded, ramBelow, ioOver, ioBelow, ramPercent, ioPercent in *.
  destruct H as [H|[H|H]].
  - left. left. eapply f_window; [eapply hysteresis_le, V|done].
  - left. right. destruct (RAMEnabled cfg) eqn:Er; [|done].
    destruct (vc_ram _ _ V Er) as (Hh & _). rewrite (gtb_pos (RAMReleaseThreshold cfg)) by (destruct Hh; lia).
    rewrite (gtb_pos (RAMThreshold cfg)) in H by (destruct Hh; lia). cbn [andb] in *.
    destruct (f_gt _ _); [|done]. eapply f_window; [by eapply hysteresis_le|done].
  - right. destruct (IOEnabled cfg) eqn:Er; [|done].
    destruct (vc_io _ _ V Er) as (Hh & _). rewrite (gtb_pos (IOReleaseThreshold cfg)) by (destruct Hh; lia).
    rewrite (gtb_pos (IOThreshold cfg)) in H by (destruct Hh; lia). cbn [andb] in *.
    destruct (_ && _); [|done]. destruct (ParseRAMQuota _); [|done].
    destruct (_ >? 0); [|done]. cbn zeta in *. destruct (_ >? 0); [|done].
    eapply f_window; [by eapply hysteresis_le|done].
Qed.

(** ** Properties *)

Section Properties.
Context {W : Type} {E : Env W}.

Lemma makeDecision_wp m s :
  wp (makeDecision m) (fun r s' =>
    same_but_trackers s.1 s'.1 /\
    (r.1 = ACTIVATE_LIMITS ->
       limitsActive s.1 = false /\ MinSystemCores (s_cfg s.1) < TotalCores m /\
       (cpuExceeded (s_cfg s.1) m = true \/ ramExceeded (s_cfg s.1) m = true \/ ioOver (s_cfg s.1) m = true) /\
       (IgnoreSystemLoad (s_cfg s.1) = true \/ SystemUnderLoad m = false)) /\
    (r.1 = DEACTIVATE_LIMITS ->
       limitsActive s.1 = true /\ allBelow (s_cfg s.1) m = true /\ SystemUnderLoad m = false /\
       exists now, seconds (MinActiveTime (s_cfg s.1)) <= time_sub now (limitsAppliedTime s.1))) s.
Proof.
  unfold makeDecision. apply wp_bind, wp_read, wp_bind, wp_read, wp_bind. eapply wp_ioExceeded; [done|].
  intros io m' w Hm Hio. pose proof (same_fields _ _ Hm) as (_ & _ & Ht & _).
  destruct (limitsActive s.1) eqn:Ha.
  - eapply wp_mono; [|by apply wp_decide_active]. cbn [fst]. rewrite Ht.
    intros r s' (H1 & H2 & H3). split; [done|]. split; [done|]. intros Hd. destruct (H3 Hd) as (? & ? & ? & _). done.
  - eapply wp_mono; [|by apply wp_decide_inactive].
    intros r s' (H1 & H2 & H3). split; [done|]. split; [|done]. intros Hd. destruct (H3 Hd) as (? & ? & ?). naive_solver.
Qed.

(** C5: the decision refines its specification: limits are activated exactly
    when they are off, the machine has more cores than the reserved ones, it
    is not under load from elsewhere (unless that is ignored) and some
    resource has been over its threshold for its required duration; they are
    lifted exactly when they are on, have been for the minimum time, every
    resource is below its release threshold, the machine is not under load and
    every limited user has three samples below; the state is kept otherwise.
    The clock and the collector give the same answers all along ([P] holds of
    the worlds in which they do). *)
Theorem makeDecision_refines (P : W -> Prop) now users all m s :
  yields P time_Now now -> yields P mc_GetLimitedUsers users -> yields P mc_GetAllUserMetrics all ->
  P s.2 ->
  (eval (makeDecision m) s).1 = decision_spec now users all s.1 m.
Proof. intros Hn Hu Ha Hs. exact (makeDecision_frozen now users all P Hn Hu Ha m s Hs). Qed.

(** Whatever the clock and the collector do, a decision changes only the
    trackers; it activates only when limits are off and some resource is over
    its threshold on a machine with cores to spare that is not under other
    load, and lifts only when limits are on, every resource is below its
    release threshold, the load is gone and the minimum time has passed. *)
Theorem makeDecision_sound m s :
  let d := (eval (makeDecision m) s).1 in
  let cfg := s_cfg s.1 in
  same_but_trackers s.1 (exec (makeDecision m) s).1 /\
  (d = ACTIVATE_LIMITS ->
     limitsActive s.1 = false /\ MinSystemCores cfg < TotalCores m /\
     (cpuExceeded cfg m = true \/ ramExceeded cfg m = true \/ ioOver cfg m = true) /\
     (IgnoreSystemLoad cfg = true \/ SystemUnderLoad m = false)) /\
  (d = DEACTIVATE_LIMITS ->
     limitsActive s.1 = true /\ allBelow cfg m = true /\ SystemUnderLoad m = false /\
     exists now, seconds (MinActiveTime cfg) <= time_sub now (limitsAppliedTime s.1)).
Proof.
  exact (makeDecision_wp m s).
Qed.

(** C10: hysteresis: under a validated configuration no reading of the metrics
    can make one manager activate and another (or the same one, later) lift
    the limits, whatever their histories. *)
Theorem makeDecision_hysteresis url_Parse m s1 s2 :
  valid_config url_Parse (s_cfg s1.1) -> s_cfg s2.1 = s_cfg s1.1 ->
  ~ ((eval (makeDecision m) s1).1 = ACTIVATE_LIMITS /\ (eval (makeDecision m) s2).1 = DEACTIVATE_LIMITS).
Proof.
  intros Hv Hc [H1 H2].
  destruct (makeDecision_wp m s1) as (_ & (_ & _ & Hex & _)%(fun H => H H1) & _).
  destruct (makeDecision_wp m s2) as (_ & _ & (_ & Hb & _)%(fun H => H H2)).
  rewrite Hc in Hb. by apply (exceeded_not_below url_Parse) in Hex; [congruence|].
Qed.

End Properties.

(** Two users over the default threshold of 75% on eight cores. *)
Definition busy_metrics : SystemMetrics :=
  mkMetrics 0 8 (f64_of_Z 90) (f64_of_Z 90) 0 2 (f64_of_Z 90) 0 2 0 0 fzero fzero fzero false ∅ [] [1000; 1001].

Definition fresh_state : StateManager := NewStateManager (DefaultConfig None) true.


Lemma makeDecision_refines_witness :
  let all := [user_at 1000 50 true; user_at 1001 40 true] in
  (eval (makeDecision busy_metrics) (fresh_state, site (1000 * second) 8 all)).1 =
  decision_spec (1000 * second) [1000; 1001] all fresh_state busy_metrics.
Proof.
  intros all.
  apply (makeDecision_refines (fun w => r_now w = 1000 * second /\ r_users w = all)
           (1000 * second) [1000; 1001] all busy_metrics (fresh_state, site (1000 * second) 8 all)).
  - intros w [H1 H2]. split; [exact H1|split; assumption].
  - intros w [H1 H2]. split; [simpl; rewrite H2; reflexivity|split; assumption].
  - intros w [H1 H2]. split; [exact H2|split; assumption].
  - split; reflexivity.
Defined.

Lemma makeDecision_hysteresis_witness :
  let s := (fresh_state, site (1000 * second) 8 []) in
  ~ ((eval (makeDecision busy_metrics) s).1 = ACTIVATE_LIMITS /\
     (eval (makeDecision busy_metrics) (set_limitsActive true fresh_state, s.2)).1 = DEACTIVATE_LIMITS).
Proof.
  intros s.
  apply (makeDecision_hysteresis (fun _ => None) busy_metrics s (set_limitsActive true fresh_state, s.2)).
  - apply validateConfig_valid. vm_compute. reflexivity.
  - reflexivity.
Defined.
