(* ===== verification/Limits.v ===== *)
(** * Applying and lifting the limits
      (state/limits_applier.go; [notifyUserLimited] of state/limit_hook.go;
       [executeDecision] of state/decision_engine.go)

    The goroutines of [activateLimits] and [releaseIdleUsers] are tasks: they
    are queued in [pending], run one at a time in the order the scheduler
    picks ([run_next]), and [wait] runs all of them, as [m.wg.Wait()] does.
    Sleeping has no effect on the state and is omitted. *)

From S2P Require Import Prelude GoStrings GoFloat GoNumbers Config Blackout ConfigLoad OS Tracker IORemediation Pattern StateBase Decision Recorder.

#[local] Open Scope Z_scope.

(** 0.1% of CPU. *)
Definition idleThreshold : f64 := lit 1 10.

Section Limits.
Context {W : Type} {E : Env W}.

(** ** Tasks *)

Definition spawn (t : Task) : SM W unit := update (fun m => set_pending (pending m ++ [t]) m).

(** The memory limits of a user: [memory.high] is a part of [memory.max]. *)
Definition limit_ram (cfg : Config) (uid : Z) : SM W unit :=
  match ParseRAMQuota (RAMQuotaPerUser cfg) with
  | Err _ => mret tt
  | Ok quotaBytes =>
      if quotaBytes =? 0 then mret tt
      else
        let highBytes := f64_to_u64 env_oor (fmul (f64_of_Z quotaBytes) (RAMHighRatio cfg)) in
        let highStr := FormatUint highBytes in
        let maxStr := RAMQuotaPerUser cfg in
        if DisableSwap cfg
        then ignore (env (cg_ApplyRAMLimitWithHighAndSwapDisabled uid maxStr highStr))
        else ignore (env (cg_ApplyRAMLimitWithHigh uid maxStr highStr))
  end.

Definition run_task (t : Task) : SM W unit :=
  match t with
  | ReleaseTask uid sharedPath =>
      if String.eqb sharedPath "" then mret tt
      else ignore (env (cg_ReleaseUserFromSharedCgroup uid sharedPath))
  | ReAddTask uid sharedPath =>
      ignore (env (cg_MoveAllUserProcessesToSharedCgroup uid sharedPath)) ≫= fun _ =>
      ignore (env (cg_ApplyCPUWeight uid 100))
  | LimitTask uid weight sharedPath cfg =>
      ignore (env (cg_MoveAllUserProcessesToSharedCgroup uid sharedPath)) ≫= fun _ =>
      ignore (env (cg_ApplyCPUWeight uid weight)) ≫= fun _ =>
      shouldApplyRAMLimits uid ≫= fun ram =>
      when ram (limit_ram cfg uid) ≫= fun _ =>
      shouldApplyIOLimits uid ≫= fun io =>
      when io (ignore (env (cg_ApplyIOLimit uid (IOReadBPS cfg) (IOWriteBPS cfg) (IOReadIOPS cfg) (IOWriteIOPS cfg)
                              (IODeviceFilter cfg))))
  end.

(** One pending task, the one the scheduler picks, runs to its end. *)
Definition run_next : SM W unit :=
  read pending ≫= fun tasks =>
  match tasks with
  | [] => mret tt
  | t0 :: _ =>
      env (next_task (length tasks)) ≫= fun n =>
      let i := (n mod length tasks)%nat in
      update (set_pending (delete i tasks)) ≫= fun _ => run_task (default t0 (tasks !! i))
  end.

Fixpoint drain (n : nat) : SM W unit :=
  match n with
  | O => mret tt
  | S n' => run_next ≫= fun _ => drain n'
  end.

(** [m.wg.Wait()]. *)
Definition wait : SM W unit := read pending ≫= fun tasks => drain (length tasks).

(** ** Idle users *)

Definition is_idle (metrics : SystemMetrics) (uid : Z) : bool :=
  match UserCPUUsage metrics !! uid with
  | None => true
  | Some cpuUsage => f_lt cpuUsage idleThreshold
  end.

Definition is_busy (metrics : SystemMetrics) (uid : Z) : bool :=
  match UserCPUUsage metrics !! uid with
  | None => false
  | Some cpuUsage => f_ge cpuUsage idleThreshold
  end.

Definition remove_monitors (uid : Z) : SM W unit :=
  read hasPSIWatcher ≫= fun b =>
  when b (env (psi_RemoveMonitor uid "cpu") ≫= fun _ => env (psi_RemoveMonitor uid "io")).

Definition add_monitors (uid : Z) (userCgroupPath : string) : SM W unit :=
  read hasPSIWatcher ≫= fun b =>
  when b (ignore (env (psi_AddMonitor uid "cpu" (filepath_Join [userCgroupPath; "cpu.pressure"]))) ≫= fun _ =>
          ignore (env (psi_AddMonitor uid "io" (filepath_Join [userCgroupPath; "io.pressure"])))).

Definition release_user (sharedPath : string) (uid : Z) : SM W unit :=
  update (fun m => set_activeUsers (activeUsers m ∖ {[uid]}) m) ≫= fun _ =>
  update (fun m => set_psiBoostedAt (delete uid (psiBoostedAt m)) m) ≫= fun _ =>
  remove_monitors uid ≫= fun _ =>
  spawn (ReleaseTask uid sharedPath).

(** The users whose cgroup could be created again, oldest first. *)
Definition re_add_user (sharedPath : string) (added : list Z) (uid : Z) : SM W (list Z) :=
  getUsername uid ≫= fun _ =>
  env (cg_CreateUserSubCgroup uid sharedPath) ≫= fun r =>
  match r with
  | Err _ => mret added
  | Ok userCgroupPath =>
      spawn (ReAddTask uid sharedPath) ≫= fun _ =>
      add_monitors uid userCgroupPath ≫= fun _ => mret (added ++ [uid])
  end.

Definition mark_added (added : list Z) : SM W unit :=
  match added with
  | [] => mret tt
  | _ =>
      update (fun m => set_activeUsers (activeUsers m ∪ list_to_set added) m) ≫= fun _ =>
      env time_Now ≫= fun now => update (set_limitsAppliedTime now)
  end.

Definition releaseIdleUsers (metrics : SystemMetrics) : SM W (option error) :=
  read limitsActive ≫= fun limitsActive =>
  if negb limitsActive then mret None
  else
    read sharedCgroupPath ≫= fun sharedPath =>
    read activeUsers ≫= fun active =>
    env (range_keys active) ≫= fun keys =>
    let usersToRelease := List.filter (is_idle metrics) keys in
    let usersToAdd :=
      List.filter (fun uid => negb (bool_decide (uid ∈ active)) && is_busy metrics uid) (EligibleUsers metrics) in
    for_each (release_user sharedPath) usersToRelease ≫= fun _ =>
    (if String.eqb sharedPath "" then mret tt
     else fold_st (re_add_user sharedPath) [] usersToAdd ≫= mark_added) ≫= fun _ =>
    mret None.

(** ** Activation *)

Definition notifyUserLimited (cfg : Config) (uid : Z) (username : string) (metrics : SystemMetrics) : SM W unit :=
  if negb (LimitHookEnabled cfg) then mret tt
  else
    read sharedCgroupPath ≫= fun sharedCgroup =>
    env time_Now ≫= fun now =>
    update (fun m => set_hooks (hooks m ++
      [mkHookEvent uid username (default fzero (UserCPUUsage metrics !! uid)) (LimitedUsersCount metrics)
         sharedCgroup now (ServerRole cfg)]) m).

(** Phase 1: users without processes are forgotten; how many were? *)
Definition forget_absent (metrics : SystemMetrics) (removedCount : Z) (uid : Z) : SM W Z :=
  if isSome (UserCPUUsage metrics !! uid) then mret removedCount
  else update (fun m => set_activeUsers (activeUsers m ∖ {[uid]}) m) ≫= fun _ => mret (removedCount + 1).

(** The quota of the shared cgroup: every core but the reserved ones. *)
Definition availableCores (cfg : Config) (metrics : SystemMetrics) : Z :=
  Z.max 1 (wrap_i64 (TotalCores metrics - MinSystemCores cfg)).

Definition sharedQuota (cfg : Config) (metrics : SystemMetrics) : string :=
  Itoa (wrap_i64 (availableCores cfg metrics * 100000)) +:+ " 100000".

(** Phase 2: the shared cgroup. *)
Definition ensure_shared (cfg : Config) (metrics : SystemMetrics) : SM W (result unit) :=
  read sharedCgroupPath ≫= fun sharedPath =>
  if negb (String.eqb sharedPath "") then mret (Ok tt)
  else
    env cg_CreateSharedCgroup ≫= fun r =>
    match r with
    | Err e =>
        mret (Err ("failed to create shared cgroup (min_system_cores=" +:+ Itoa (MinSystemCores cfg) +:+
                   ", total_cores=" +:+ Itoa (TotalCores metrics) +:+ "): " +:+ e))
    | Ok sharedPath =>
        update (set_sharedCgroupPath sharedPath) ≫= fun _ =>
        env (cg_ApplySharedCPULimit sharedPath (sharedQuota cfg metrics)) ≫= fun e =>
        mret match e with
             | Some e => Err ("failed to apply shared CPU limit " +:+ sharedQuota cfg metrics +:+ " to " +:+ sharedPath +:+ ": " +:+ e)
             | None => Ok tt
             end
    end.

(** Phase 3: one eligible user; the first error and the users limited so far. *)
Definition limit_user (cfg : Config) (metrics : SystemMetrics) (acc : option error * Z) (uid : Z) :
    SM W (option error * Z) :=
  let '(firstError, limitedCount) := acc in
  getUsername uid ≫= fun username =>
  isUserLimited uid ≫= fun alreadyLimited =>
  if alreadyLimited : bool then mret acc
  else
    read sharedCgroupPath ≫= fun sharedPath =>
    env (cg_CreateUserSubCgroup uid sharedPath) ≫= fun r =>
    match r with
    | Err e => mret (match firstError with None => Some e | Some _ => firstError end, limitedCount)
    | Ok userCgroupPath =>
        add_monitors uid userCgroupPath ≫= fun _ =>
        spawn (LimitTask uid 100 sharedPath cfg) ≫= fun _ =>
        update (fun m => set_activeUsers (activeUsers m ∪ {[uid]}) m) ≫= fun _ =>
        notifyUserLimited cfg uid username metrics ≫= fun _ =>
        mret (firstError, limitedCount + 1)
    end.

Definition activateLimits (metrics : SystemMetrics) : SM W (option error) :=
  read s_cfg ≫= fun cfg =>
  read hasExporter ≫= fun exporter =>
  when exporter (env px_IncrementLimitsActivated) ≫= fun _ =>
  read activeUsers ≫= fun active =>
  env (range_keys active) ≫= fun previouslyLimited =>
  fold_st (forget_absent metrics) 0 previouslyLimited ≫= fun removedCount =>
  ensure_shared cfg metrics ≫= fun r =>
  match r with
  | Err e => mret (Some e)
  | Ok _ =>
      fold_st (limit_user cfg metrics) (None, 0) (EligibleUsers metrics) ≫= fun '(firstError, limitedCount) =>
      when ((limitedCount >? 0) || (removedCount >? 0))
        (update (set_limitsActive true) ≫= fun _ =>
         env time_Now ≫= fun now => update (set_limitsAppliedTime now)) ≫= fun _ =>
      mret firstError
  end.

(** ** Deactivation *)

(** The limits of one user are lifted, unless its CPU limit cannot be. *)
Definition unlimit_user (cfg : Config) (firstError : option error) (uid : Z) : SM W (option error) :=
  getUsername uid ≫= fun _ =>
  env (cg_ApplyCPULimit uid (CPUQuotaNormal cfg)) ≫= fun e =>
  match e with
  | Some err => mret (match firstError with None => Some err | Some _ => firstError end)
  | None =>
      shouldApplyRAMLimits uid ≫= fun ram =>
      when ram (ignore (env (cg_RemoveRAMHigh uid)) ≫= fun _ => ignore (env (cg_RemoveRAMLimit uid))) ≫= fun _ =>
      shouldApplyIOLimits uid ≫= fun io =>
      when io (ignore (env (cg_RemoveIOLimit uid))) ≫= fun _ =>
      mret firstError
  end.

Definition deactivateLimits : SM W (option error) :=
  read s_cfg ≫= fun cfg =>
  wait ≫= fun _ =>
  read hasExporter ≫= fun exporter =>
  when exporter (env px_IncrementLimitsDeactivated) ≫= fun _ =>
  read activeUsers ≫= fun active =>
  env (range_keys active) ≫= fun usersToCleanup =>
  update (set_activeUsers ∅) ≫= fun _ =>
  update (set_limitsActive false) ≫= fun _ =>
  update (set_limitsAppliedTime zero_time) ≫= fun _ =>
  read sharedCgroupPath ≫= fun sharedPath =>
  update (set_sharedCgroupPath "") ≫= fun _ =>
  for_each remove_monitors usersToCleanup ≫= fun _ =>
  for_each (fun uid => update (fun m => set_stabilityTracker (delete uid (stabilityTracker m)) m)) usersToCleanup ≫= fun _ =>
  for_each (fun uid => update (fun m => set_psiBoostedAt (delete uid (psiBoostedAt m)) m)) usersToCleanup ≫= fun _ =>
  fold_st (unlimit_user cfg) None usersToCleanup ≫= fun firstError =>
  when (negb (String.eqb sharedPath "")) (ignore (env (mf_RemoveAll sharedPath))) ≫= fun _ =>
  mret firstError.

(** [ForceActivateLimits] collects fresh metrics first: see [ControlCycle]. *)
Definition ForceDeactivateLimits : SM W (option error) :=
  deactivateLimits ≫= fun err =>
  update (set_stabilityTracker ∅) ≫= fun _ => mret err.

Definition executeDecision (decision : Decision) (metrics : SystemMetrics) : SM W (option error) :=
  match decision with
  | ACTIVATE_LIMITS => activateLimits metrics
  | DEACTIVATE_LIMITS => deactivateLimits
  | MAINTAIN_CURRENT_STATE => releaseIdleUsers metrics
  end.

(** [Cleanup], at the end of the program. *)
Definition Cleanup : SM W (option error) :=
  wait ≫= fun _ =>
  read limitsActive ≫= fun active =>
  (if active : bool then deactivateLimits else mret None) ≫= fun err =>
  match err with
  | Some e => mret (Some e)
  | None =>
      env cg_CleanupAll ≫= fun err =>
      match err with
      | Some e => mret (Some e)
      | None =>
          read hasExporter ≫= fun exporter =>
          when exporter (env px_Stop) ≫= fun _ => mret None
      end
  end.

End Limits.

(** ** Operations that leave the manager's state alone *)

Section Lemmas.
Context {W : Type} {E : Env W}.

Definition quiet {A} (m : SM W A) : Prop := forall s, (exec m s).1 = s.1.

Lemma wp_quiet {A} (m : SM W A) (Q : A -> StateManager * W -> Prop) s :
  quiet m -> (forall a w, Q a (s.1, w)) -> wp m Q s.
Proof.
  intros Hm HQ. specialize (Hm s). unfold wp, exec in *. destruct (m s) as [a [s' w]]. simpl in *. subst. apply HQ.
Qed.

Lemma quiet_ret {A} (a : A) : quiet (mret a).
Proof. done. Qed.

Lemma quiet_env {A} (m : ST W A) : quiet (env m).
Proof. intros [s w]. unfold exec, env. simpl. by destruct (m w). Qed.

Lemma quiet_read {A} (f : StateManager -> A) : quiet (read f).
Proof. done. Qed.

Lemma quiet_bind {A B} (m : SM W A) (f : A -> SM W B) : quiet m -> (forall a, quiet (f a)) -> quiet (m ≫= f).
Proof.
  intros Hm Hf s. specialize (Hm s). unfold exec, mbind, ST_bind in *. destruct (m s) as [a s']. simpl in *.
  specialize (Hf a s'). unfold exec in Hf. congruence.
Qed.

Lemma quiet_when b (m : SM W unit) : quiet m -> quiet (when b m).
Proof. by destruct b. Qed.

Lemma quiet_ignore {A} (m : SM W A) : quiet m -> quiet (ignore m).
Proof. intros. by apply quiet_bind. Qed.

Lemma quiet_for_each {A} (f : A -> SM W unit) l : (forall a, quiet (f a)) -> quiet (for_each f l).
Proof. intros Hf. induction l as [|x l IH]; [done|]. apply quiet_bind; [apply Hf|done]. Qed.

Lemma quiet_fold {A B} (f : B -> A -> SM W B) l b : (forall b a, quiet (f b a)) -> quiet (fold_st f b l).
Proof. intros Hf. revert b. induction l as [|x l IH]; intros b; [done|]. by apply quiet_bind. Qed.

End Lemmas.

(** Decides [quiet] by the structure of the operation. *)
Ltac quiet :=
  repeat first
    [ apply quiet_ret | apply quiet_env | apply quiet_read | apply quiet_ignore | apply quiet_when
    | apply quiet_for_each; intros ? | apply quiet_fold; intros ? ?
    | apply quiet_bind; [|intros ?]
    | match goal with
      | |- quiet (match ?x with _ => _ end) => destruct x
      | |- quiet (if ?x then _ else _) => destruct x
      end
    | assumption ].

Section Frames.
Context {W : Type} {E : Env W}.

Lemma quiet_run_task t : quiet (run_task t).
Proof. destruct t; unfold run_task, shouldApplyRAMLimits, shouldApplyIOLimits, getUsername, limit_ram; quiet. Qed.

Lemma quiet_remove_monitors uid : quiet (remove_monitors uid).
Proof. unfold remove_monitors. quiet. Qed.

Lemma quiet_add_monitors uid p : quiet (add_monitors uid p).
Proof. unfold add_monitors. quiet. Qed.

Lemma quiet_unlimit_user cfg e uid : quiet (unlimit_user cfg e uid).
Proof. unfold unlimit_user, shouldApplyRAMLimits, shouldApplyIOLimits, getUsername. quiet. Qed.

(** A task leaves the queue and the state is otherwise unchanged. *)
Lemma wp_run_next s :
  wp run_next (fun _ s' => exists i, s'.1 = set_pending (delete i (pending s.1)) s.1 /\
                                     (pending s.1 <> [] -> (i < length (pending s.1))%nat)) s.
Proof.
  unfold run_next. apply wp_bind, wp_read. destruct (pending s.1) as [|t0 l] eqn:Ep.
  - apply wp_ret. exists 0%nat. split; [|done]. destruct s as [m w]. destruct m. simpl in *. by subst.
  - apply wp_bind, wp_env. intros n w. apply wp_bind, wp_update, wp_quiet; [apply quiet_run_task|].
    intros [] w'. exists (n mod length (t0 :: l))%nat. split; [done|]. intros _.
    apply Nat.mod_upper_bound. done.
Qed.

Lemma wp_drain n s :
  length (pending s.1) = n -> wp (drain n) (fun _ s' => s'.1 = set_pending [] s.1) s.
Proof.
  revert s. induction n as [|n IH]; intros s Hn.
  - apply wp_ret. destruct s as [m w]. destruct m. simpl in *. by destruct pending.
  - simpl. apply wp_bind. eapply wp_mono; [|apply wp_run_next]. intros [] s' (i & Hs' & Hi).
    assert (i < length (pending s.1))%nat by (apply Hi; by destruct (pending s.1)).
    eapply wp_mono; [|apply IH].
    + intros _ s'' ->. by rewrite Hs'.
    + rewrite Hs'. cbn [pending set_pending]. rewrite length_delete; [lia|]. by apply lookup_lt_is_Some.
Qed.

(** [WaitGroup.Wait] runs every task. *)
Lemma wp_wait (Q : unit -> StateManager * W -> Prop) s :
  (forall w, Q tt (set_pending [] s.1, w)) -> wp wait Q s.
Proof.
  intros HQ. unfold wait. apply wp_bind, wp_read. eapply wp_mono; [|by apply wp_drain].
  intros [] [m w]. simpl. intros ->. apply HQ.
Qed.

End Frames.

(** ** Effects of the loops on the manager's state *)

Definition release_state (sharedPath : string) (m : StateManager) (uid : Z) : StateManager :=
  set_pending (pending m ++ [ReleaseTask uid sharedPath])
    (set_psiBoostedAt (delete uid (psiBoostedAt m)) (set_activeUsers (activeUsers m ∖ {[uid]}) m)).

Definition drop_keys {A} (l : list Z) (m : gmap Z A) : gmap Z A := foldl (fun m k => delete k m) m l.

Lemma lookup_drop_keys {A} l (m : gmap Z A) k : drop_keys l m !! k = if bool_decide (k ∈ l) then None else m !! k.
Proof.
  unfold drop_keys. revert m. induction l as [|x l IH]; intros m; cbn [foldl].
  - by rewrite bool_decide_false by set_solver.
  - rewrite IH. destruct (decide (k = x)) as [->|Hk].
    + rewrite (bool_decide_true (x ∈ x :: l)) by set_solver. rewrite lookup_delete_eq. by case_bool_decide.
    + rewrite lookup_delete_ne by done. rewrite (bool_decide_ext (k ∈ x :: l) (k ∈ l)) by set_solver. done.
Qed.

Lemma release_states sharedPath l m :
  foldl (release_state sharedPath) m l =
  set_pending (pending m ++ map (fun u => ReleaseTask u sharedPath) l)
    (set_psiBoostedAt (drop_keys l (psiBoostedAt m)) (set_activeUsers (activeUsers m ∖ list_to_set l) m)).
Proof.
  revert m. induction l as [|u l IH]; intros m; simpl.
  - rewrite app_nil_r. replace (activeUsers m ∖ ∅) with (activeUsers m) by set_solver. by destruct m.
  - rewrite IH. unfold release_state. cbn [pending psiBoostedAt activeUsers set_pending set_psiBoostedAt set_activeUsers].
    rewrite <- app_assoc. cbn [app].
    replace (activeUsers m ∖ {[u]} ∖ list_to_set l) with (activeUsers m ∖ ({[u]} ∪ list_to_set l)) by set_solver.
    by destruct m.
Qed.

Section Loops.
Context {W : Type} {E : Env W}.

Lemma wp_for_each_fun {A} (f : A -> SM W unit) (g : StateManager -> A -> StateManager) l s
    (Q : unit -> StateManager * W -> Prop) :
  (forall x s, wp (f x) (fun _ s' => s'.1 = g s.1 x) s) ->
  (forall w, Q tt (foldl g s.1 l, w)) ->
  wp (for_each f l) Q s.
Proof.
  intros Hf HQ. revert s HQ. induction l as [|x l IH]; intros s HQ; simpl.
  - apply wp_ret. destruct s. apply HQ.
  - apply wp_bind. eapply wp_mono; [|apply Hf]. intros [] s' Hs'. apply IH. rewrite Hs'. apply HQ.
Qed.

Lemma wp_release_user sharedPath uid s :
  wp (release_user sharedPath uid) (fun _ s' => s'.1 = release_state sharedPath s.1 uid) s.
Proof.
  unfold release_user, spawn. apply wp_bind, wp_update, wp_bind, wp_update, wp_bind, wp_quiet;
    [apply quiet_remove_monitors|]. intros [] w. by apply wp_update.
Qed.

(** The cgroup of a user can always be created. *)
Definition always_creates : Prop :=
  forall uid p (w : W), is_ok (eval (cg_CreateUserSubCgroup uid p) w) = true.

Lemma wp_create uid p (Q : result string -> StateManager * W -> Prop) s :
  (forall r w, (always_creates -> is_ok r = true) -> Q r (s.1, w)) -> wp (env (cg_CreateUserSubCgroup uid p)) Q s.
Proof.
  intros HQ. destruct s as [m w]. unfold wp, env. destruct (cg_CreateUserSubCgroup uid p w) as [r w'] eqn:Ec.
  apply HQ. intros H. specialize (H uid p w). unfold eval in H. by rewrite Ec in H.
Qed.

(** The users [re_add_user] could create a cgroup for. *)
Lemma wp_re_add sharedPath l acc s :
  wp (fold_st (re_add_user sharedPath) acc l) (fun added' s' => exists added,
    added' = acc ++ added /\ sublist added l /\
    s'.1 = set_pending (pending s.1 ++ map (fun u => ReAddTask u sharedPath) added) s.1 /\
    (always_creates -> added = l)) s.
Proof.
  revert acc s. induction l as [|u l IH]; intros acc s; simpl.
  - apply wp_ret. exists []. rewrite !app_nil_r. split_and!; [done|done|by destruct s as [[] ?]|done].
  - apply wp_bind. unfold re_add_user at 1, getUsername. apply wp_bind, wp_env. intros name w. apply wp_bind.
    apply wp_create. intros [path|e] w' Hok.
    + unfold spawn. apply wp_bind, wp_update, wp_bind, wp_quiet; [apply quiet_add_monitors|]. intros [] w1. apply wp_ret.
      eapply wp_mono; [|apply IH]. intros added' s'' (added & -> & Hsub & Hs'' & Hall).
      exists (u :: added). rewrite <- app_assoc. split_and!; [done|by constructor| |].
      * rewrite Hs''. cbn [fst pending set_pending]. rewrite <- app_assoc. by destruct s as [[] ?].
      * intros H. by rewrite (Hall H).
    + apply wp_ret. eapply wp_mono; [|apply IH]. intros added' s'' (added & -> & Hsub & Hs'' & Hall).
      exists added. split_and!; [done|by constructor| |].
      * by rewrite Hs''.
      * intros H. by specialize (Hok H).
Qed.

End Loops.

Section Activation_lemmas.
Context {W : Type} {E : Env W}.

Lemma wp_forget_absent metrics l n (s : StateManager * W) :
  wp (fold_st (forget_absent metrics) n l) (fun n' s' =>
    let gone := List.filter (fun uid => negb (isSome (UserCPUUsage metrics !! uid))) l in
    n' = n + Z.of_nat (length gone) /\
    s'.1 = set_activeUsers (activeUsers s.1 ∖ list_to_set gone) s.1) s.
Proof.
  revert n s. induction l as [|u l IH]; intros n s; cbn [fold_st List.filter].
  - apply wp_ret. split; [simpl; lia|]. replace (activeUsers s.1 ∖ list_to_set []) with (activeUsers s.1) by set_solver.
    by destruct s as [[] ?].
  - apply wp_bind. unfold forget_absent at 1. destruct (isSome _) eqn:Eu; cbn [negb].
    + apply wp_ret, IH.
    + apply wp_bind, wp_update, wp_ret. eapply wp_mono; [|apply IH]. intros n' s' [-> ->]. split.
      * cbn [length]. lia.
      * cbn [fst activeUsers set_activeUsers list_to_set].
        match goal with |- set_activeUsers (_ ∖ _ ∖ ?Y) _ = set_activeUsers (_ ∖ (_ ∪ ?Z)) _ => change Z with Y end.
        replace (activeUsers s.1 ∖ {[u]} ∖ list_to_set _) with
          (activeUsers s.1 ∖ ({[u]} ∪ list_to_set (List.filter (fun uid => negb (isSome (UserCPUUsage metrics !! uid))) l)))
          by set_solver. by destruct s as [[] ?].
Qed.

Lemma wp_notify cfg uid name metrics s :
  wp (notifyUserLimited cfg uid name metrics) (fun _ s' => exists h, s'.1 = set_hooks h s.1) s.
Proof.
  unfold notifyUserLimited. destruct (negb _).
  - apply wp_ret. exists (hooks s.1). by destruct s as [[] ?].
  - apply wp_bind, wp_read, wp_bind, wp_env. intros now w. apply wp_update. by eexists.
Qed.

(** What phase 3 does with a list of eligible users. *)
Definition limited_users (s0 s1 : StateManager) (cfg : Config) (l created : list Z) : Prop :=
  (exists h, s1 = set_hooks h
     (set_pending (pending s0 ++ map (fun u => LimitTask u 100 (sharedCgroupPath s0) cfg) created)
        (set_activeUsers (activeUsers s0 ∪ list_to_set created) s0))) /\
  sublist created l /\ NoDup created /\ (forall u, u ∈ created -> u ∉ activeUsers s0).

Lemma limited_users_skip s0 s1 cfg u l created :
  limited_users s0 s1 cfg l created -> limited_users s0 s1 cfg (u :: l) created.
Proof. intros (H1 & H2 & H3 & H4). split_and!; try done. by constructor. Qed.

Lemma limited_users_cons s0 s1 cfg h u l created :
  u ∉ activeUsers s0 ->
  limited_users (set_hooks h (set_activeUsers (activeUsers s0 ∪ {[u]})
    (set_pending (pending s0 ++ [LimitTask u 100 (sharedCgroupPath s0) cfg]) s0))) s1 cfg l created ->
  limited_users s0 s1 cfg (u :: l) (u :: created).
Proof.
  intros Hu ((h' & ->) & Hsub & Hnd & Hdis).
  cbn [activeUsers pending sharedCgroupPath set_hooks set_activeUsers set_pending] in *. split_and!.
  - exists h'. rewrite <- app_assoc. cbn [app map list_to_set].
    replace (activeUsers s0 ∪ {[u]} ∪ list_to_set created) with (activeUsers s0 ∪ ({[u]} ∪ list_to_set created)) by set_solver.
    by destruct s0.
  - by constructor.
  - constructor; [|done]. intros Hin. specialize (Hdis _ Hin). set_solver.
  - intros v [->|Hv]%elem_of_cons; [done|]. specialize (Hdis v Hv). set_solver.
Qed.

Lemma wp_limit_users cfg metrics l fe n s :
  wp (fold_st (limit_user cfg metrics) (fe, n) l) (fun r s' => exists created,
    limited_users s.1 s'.1 cfg l created /\ r.2 = n + Z.of_nat (length created) /\
    (always_creates (W := W) -> r.1 = fe /\ forall u, u ∈ l -> u ∈ activeUsers s'.1)) s.
Proof.
  revert fe n s. induction l as [|u l IH]; intros fe n s; cbn [fold_st].
  - apply wp_ret. exists []. split_and!; [|simpl; lia|set_solver]. split_and!; try done; [|constructor|set_solver].
    exists (hooks s.1). rewrite app_nil_r. replace (activeUsers s.1 ∪ list_to_set []) with (activeUsers s.1) by set_solver.
    by destruct s as [[] ?].
  - apply wp_bind. unfold limit_user at 1, getUsername, isUserLimited. apply wp_bind, wp_env. intros name w.
    apply wp_bind, wp_read. case_bool_decide as Hu.
    { apply wp_ret. eapply wp_mono; [|apply IH]. intros r s' (created & H1 & H2 & H3). exists created.
      split_and!; [by apply limited_users_skip|done|]. intros Hok. destruct (H3 Hok) as [? Hin]. split; [done|].
      intros v [->|Hv]%elem_of_cons; [|by apply Hin]. destruct H1 as ((h & ->) & _). simpl. by apply elem_of_union_l. }
    apply wp_bind, wp_read, wp_bind, wp_create. intros [path|e] w1 Hok1.
    + apply wp_bind, wp_quiet; [apply quiet_add_monitors|]. intros [] w2. unfold spawn.
      apply wp_bind, wp_update, wp_bind, wp_update, wp_bind. eapply wp_mono; [|apply wp_notify].
      intros [] s2 [h Hs2]. apply wp_ret. eapply wp_mono; [|apply IH]. intros r s' (created & H1 & H2 & H3).
      rewrite Hs2 in H1. exists (u :: created). split_and!; [by eapply limited_users_cons|cbn [length]; lia|].
      intros Hok. destruct (H3 Hok) as [? Hin]. split; [done|].
      intros v [->|Hv]%elem_of_cons; [|by apply Hin]. destruct H1 as ((h' & ->) & _). simpl.
      by apply elem_of_union_l, elem_of_union_r, elem_of_singleton.
    + apply wp_ret. eapply wp_mono; [|apply IH]. intros r s' (created & H1 & H2 & H3). exists created.
      split_and!; [by apply limited_users_skip|done|]. intros Hok. by specialize (Hok1 Hok).
Qed.

End Activation_lemmas.

(** ** Interface: what the cgroup manager promises

    The shared cgroup it creates has a path. *)
Class SharedPathLaw (W : Type) `{CgroupManager W} : Prop :=
  shared_path_nonempty : forall (w : W) p, eval cg_CreateSharedCgroup w = Ok p -> p <> "".

#[export] Instance recorder_shared_path : SharedPathLaw Recorder.
Proof. intros w p. unfold eval. simpl. destruct (r_fault w CallCreateShared); [done|]. by intros [= <-]. Qed.

(** Users are limited only while limits are active, and then there is a
    shared cgroup. *)
Definition limits_ok (m : StateManager) : Prop :=
  (activeUsers m <> ∅ -> limitsActive m = true) /\ (limitsActive m = true -> sharedCgroupPath m <> "").

(** The limited users that still have processes. *)
Definition kept_users (metrics : SystemMetrics) (m : StateManager) : gset Z :=
  filter (fun uid => isSome (UserCPUUsage metrics !! uid) = true) (activeUsers m).

Section Activation.
Context {W : Type} {E : Env W}.

Lemma wp_ensure_shared `{!SharedPathLaw W} cfg metrics (Q : result unit -> StateManager * W -> Prop) s :
  (forall r p w, (sharedCgroupPath s.1 <> "" -> r = Ok tt /\ p = sharedCgroupPath s.1) ->
                 (r = Ok tt -> p <> "") -> Q r (set_sharedCgroupPath p s.1, w)) ->
  wp (ensure_shared cfg metrics) Q s.
Proof.
  destruct s as [m w0]. cbn [fst]. intros HQ.
  assert (forall r w, (sharedCgroupPath m <> "" -> r = Ok tt) -> (r = Ok tt -> sharedCgroupPath m <> "") -> Q r (m, w)) as Hkeep.
  { intros r w H1 H2. replace m with (set_sharedCgroupPath (sharedCgroupPath m) m) at 1 by (by destruct m). apply HQ; auto. }
  unfold ensure_shared. apply wp_bind, wp_read. cbn [fst].
  destruct (String.eqb_spec (sharedCgroupPath m) "") as [Hp|Hp]; cbn [negb]; [|by apply wp_ret, Hkeep].
  apply wp_bind. unfold wp at 1, env. pose proof (shared_path_nonempty w0) as Hlaw. unfold eval in Hlaw.
  destruct (cg_CreateSharedCgroup w0) as [[p|e] w1]; cbn [fst snd] in *; [|by apply wp_ret, Hkeep].
  apply wp_bind, wp_update, wp_bind, wp_env. intros r w2. apply wp_ret. apply HQ; [done|].
  intros _. by apply Hlaw.
Qed.

Definition activation (metrics : SystemMetrics) (m m' : StateManager) (r : option error) (created : list Z) : Prop :=
  s_cfg m' = s_cfg m /\ controlHist m' = controlHist m /\
  (sharedCgroupPath m <> "" -> sharedCgroupPath m' = sharedCgroupPath m) /\
  activeUsers m' = kept_users metrics m ∪ list_to_set created /\
  sublist created (EligibleUsers metrics) /\ NoDup created /\ (forall u, u ∈ created -> u ∉ kept_users metrics m) /\
  pending m' = pending m ++ map (fun u => LimitTask u 100 (sharedCgroupPath m') (s_cfg m)) created /\
  ((sharedCgroupPath m = "" /\ isSome r = true /\ created = [] /\ limitsActive m' = limitsActive m) \/
   (sharedCgroupPath m' <> "" /\
    limitsActive m' = limitsActive m || bool_decide (created <> []) || bool_decide (kept_users metrics m <> activeUsers m))).

Lemma gone_users metrics m (l : list Z) :
  l ≡ₚ elements (activeUsers m) ->
  let gone := List.filter (fun uid => negb (isSome (UserCPUUsage metrics !! uid))) l in
  activeUsers m ∖ list_to_set gone = kept_users metrics m /\
  (Z.of_nat (length gone) >? 0) = bool_decide (kept_users metrics m <> activeUsers m).
Proof.
  intros Hp gone. assert (forall u, u ∈ gone <-> u ∈ activeUsers m /\ isSome (UserCPUUsage metrics !! u) = false) as Hg.
  { intros u. unfold gone. rewrite list_elem_of_In, filter_In, <- list_elem_of_In, negb_true_iff.
    by rewrite (elem_of_range (activeUsers m) l u Hp). }
  assert (activeUsers m ∖ list_to_set gone = kept_users metrics m) as Heq.
  { unfold kept_users. apply set_eq. intros u. rewrite elem_of_difference, elem_of_list_to_set, Hg, elem_of_filter.
    destruct (isSome _); naive_solver. }
  split; [done|]. rewrite <- Heq. destruct gone as [|u g]; cbn [length].
  - symmetry. apply bool_decide_false. intros H. apply H. set_solver.
  - rewrite bool_decide_true; [apply Z.gtb_lt; lia|]. intros H. destruct (proj1 (Hg u) (list_elem_of_here _ _)) as [Hu _].
    rewrite <- H in Hu. set_solver.
Qed.

Lemma wp_activateLimits `{!SharedPathLaw W} metrics s :
  wp (activateLimits metrics) (fun r s' => exists created, activation metrics s.1 s'.1 r created /\
    (always_creates (W := W) -> r = None -> forall u, u ∈ EligibleUsers metrics -> u ∈ activeUsers s'.1) /\
    (always_creates (W := W) -> sharedCgroupPath s.1 <> "" -> r = None)) s.
Proof.
  unfold activateLimits. apply wp_bind, wp_read, wp_bind, wp_read, wp_bind, wp_quiet; [quiet|]. intros [] w0.
  apply wp_bind, wp_read, wp_bind, wp_range. intros prev w1 Hprev. destruct (gone_users metrics s.1 prev Hprev) as [Hkept Hcount].
  apply wp_bind. eapply wp_mono; [|apply wp_forget_absent]. cbv zeta. intros n s1 [-> Hs1]. cbn [fst] in Hs1.
  rewrite Hkept in Hs1. rewrite Z.add_0_l.
  apply wp_bind, wp_ensure_shared. intros r p w2 Hsame Hne. rewrite Hs1 in *.
  cbn [sharedCgroupPath set_activeUsers] in Hsame. destruct r as [[]|e].
  - apply wp_bind. eapply wp_mono; [|apply wp_limit_users]. intros [fe k] s2 (created & (((h & Hs2) & Hsub & Hnd & Hdis) & Hk & Hok)).
    cbn [fst snd] in *. apply wp_bind.
    apply (wp_mono _ (fun _ s3 => exists t, s3.1 = set_limitsAppliedTime t
      (set_limitsActive (limitsActive s2.1 || ((k >? 0) || bool_decide (kept_users metrics s.1 <> activeUsers s.1))) s2.1))).
    2: { rewrite Hcount. apply wp_when; intros Hb; rewrite Hb.
         - apply wp_bind, wp_update, wp_bind, wp_env. intros t w3. apply wp_update. exists t. rewrite orb_true_r. done.
         - exists (limitsAppliedTime s2.1). rewrite orb_false_r. by destruct s2 as [[] ?]. }
    intros [] s3 [t Hs3]. apply wp_ret. exists created. rewrite Hs3, Hs2. split; [|split].
    + unfold activation. cbn. split_and!; try done; [by intros [? ?]%Hsame|]. right. split; [by apply Hne|]. rewrite orb_assoc.
      f_equal. f_equal. rewrite Hk. destruct created; [done|]. rewrite bool_decide_true by done. cbn [length]. apply Z.gtb_lt. lia.
    + intros Ha _ u Hu. destruct (Hok Ha) as [_ Hin]. specialize (Hin u Hu). rewrite Hs2 in Hin. exact Hin.
    + intros Ha _. by destruct (Hok Ha).
  - apply wp_ret. exists []. split; [|split].
    + unfold activation. cbn. rewrite app_nil_r. split_and!;
        [done|done|by intros [? ?]%Hsame|by rewrite union_empty_r_L|apply sublist_nil_l|constructor|by intros u Hu%elem_of_nil|done|].
      left. split_and!; try done. destruct (String.eqb_spec (sharedCgroupPath s.1) ""); [done|]. by destruct Hsame.
    + intros _ ?. done.
    + intros _ Hp. by destruct (Hsame Hp).
Qed.

Lemma activation_limits_ok metrics m m' r created :
  limits_ok m -> activation metrics m m' r created -> limits_ok m'.
Proof.
  intros [H1 H2] (_ & _ & _ & Ha & _ & _ & _ & _ & Hc).
  assert (kept_users metrics m ⊆ activeUsers m) as Hk by (unfold kept_users; set_solver).
  destruct Hc as [(Hp & _ & -> & Hl)|(Hp & Hl)].
  - split; rewrite Hl; [rewrite Ha; intros Hne; apply H1; set_solver|intros Ht; by destruct (H2 Ht)].
  - split; [|done]. intros Hne. rewrite Hl. destruct created as [|u c].
    + destruct (decide (activeUsers m = ∅)) as [He|]; [|rewrite H1 by done; done]. exfalso. apply Hne.
      rewrite Ha. assert (kept_users metrics m = ∅) as -> by (rewrite He in Hk; clear -Hk; set_solver).
      exact (union_empty_l_L (C := gset Z) ∅).
    + rewrite bool_decide_true by done. by rewrite orb_true_r.
Qed.

End Activation.

Section Release.
Context {W : Type} {E : Env W}.

Definition lifted (l : list Z) (m : StateManager) : StateManager :=
  set_psiBoostedAt (drop_keys l (psiBoostedAt m))
    (set_stabilityTracker (drop_keys l (stabilityTracker m))
       (set_sharedCgroupPath "" (set_limitsAppliedTime zero_time (set_limitsActive false
          (set_activeUsers ∅ (set_pending [] m)))))).

Lemma drop_stability l m :
  foldl (fun m uid => set_stabilityTracker (delete uid (stabilityTracker m)) m) m l =
  set_stabilityTracker (drop_keys l (stabilityTracker m)) m.
Proof. revert m. induction l as [|u l IH]; intros m; [by destruct m|]. simpl. rewrite IH. by destruct m. Qed.

Lemma drop_boosts l m :
  foldl (fun m uid => set_psiBoostedAt (delete uid (psiBoostedAt m)) m) m l =
  set_psiBoostedAt (drop_keys l (psiBoostedAt m)) m.
Proof. revert m. induction l as [|u l IH]; intros m; [by destruct m|]. simpl. rewrite IH. by destruct m. Qed.

Lemma wp_deactivateLimits (Q : option error -> StateManager * W -> Prop) s :
  (forall r l w, l ≡ₚ elements (activeUsers s.1) -> Q r (lifted l s.1, w)) ->
  wp deactivateLimits Q s.
Proof.
  intros HQ. unfold deactivateLimits. apply wp_bind, wp_read, wp_bind, wp_wait. intros w0.
  apply wp_bind, wp_read, wp_bind, wp_quiet; [quiet|]. intros [] w1.
  apply wp_bind, wp_read, wp_bind, wp_range. intros l w2 Hl.
  do 3 apply wp_bind, wp_update. apply wp_bind, wp_read, wp_bind, wp_update.
  apply wp_bind, wp_quiet; [apply quiet_for_each; intros; apply quiet_remove_monitors|]. intros [] w3.
  apply wp_bind, (wp_for_each_fun _ (fun m uid => set_stabilityTracker (delete uid (stabilityTracker m)) m));
    [intros; by apply wp_update|]. intros w4.
  apply wp_bind, (wp_for_each_fun _ (fun m uid => set_psiBoostedAt (delete uid (psiBoostedAt m)) m));
    [intros; by apply wp_update|]. intros w5. rewrite drop_stability, drop_boosts.
  apply wp_bind, wp_quiet; [apply quiet_fold; intros; apply quiet_unlimit_user|]. intros r w6.
  apply wp_bind, wp_quiet; [quiet|]. intros [] w7. apply wp_ret. by apply HQ.
Qed.

(** The effect of [releaseIdleUsers] while limits are active. *)
Definition idle_users (metrics : SystemMetrics) (m : StateManager) : gset Z :=
  filter (fun uid => is_idle metrics uid = true) (activeUsers m).

Definition returning_users (metrics : SystemMetrics) (m : StateManager) : list Z :=
  List.filter (fun uid => negb (bool_decide (uid ∈ activeUsers m)) && is_busy metrics uid) (EligibleUsers metrics).

Definition rebalanced (metrics : SystemMetrics) (m m' : StateManager) (released added : list Z) : Prop :=
  s_cfg m' = s_cfg m /\ controlHist m' = controlHist m /\
  released ≡ₚ elements (idle_users metrics m) /\ sublist added (returning_users metrics m) /\
  activeUsers m' = (activeUsers m ∖ idle_users metrics m) ∪ list_to_set added /\
  pending m' = pending m ++ map (fun u => ReleaseTask u (sharedCgroupPath m)) released
                         ++ map (fun u => ReAddTask u (sharedCgroupPath m)) added /\
  limitsActive m' = limitsActive m /\ sharedCgroupPath m' = sharedCgroupPath m /\
  (forall u, psiBoostedAt m' !! u = if bool_decide (u ∈ idle_users metrics m) then None else psiBoostedAt m !! u).

Lemma released_perm metrics m (l : list Z) :
  l ≡ₚ elements (activeUsers m) ->
  List.filter (is_idle metrics) l ≡ₚ elements (idle_users metrics m).
Proof.
  intros Hl. apply NoDup_Permutation; [|apply NoDup_elements|].
  - assert (NoDup l) as Hnd by (rewrite Hl; apply NoDup_elements). rewrite NoDup_ListNoDup in *.
    by apply List.NoDup_filter.
  - intros u. unfold idle_users. rewrite list_elem_of_In, filter_In, <- list_elem_of_In.
    rewrite (elem_of_range (activeUsers m) l u Hl), elem_of_elements, elem_of_filter. tauto.
Qed.

Lemma wp_mark_added added (s : StateManager * W) (Q : unit -> StateManager * W -> Prop) :
  (forall t w, Q tt (set_limitsAppliedTime t (set_activeUsers (activeUsers s.1 ∪ list_to_set added) s.1), w)) ->
  wp (mark_added added) Q s.
Proof.
  intros HQ. unfold mark_added. destruct added.
  - apply wp_ret. destruct s as [m w]. specialize (HQ (limitsAppliedTime m) w). cbn [fst list_to_set] in HQ.
    rewrite union_empty_r_L in HQ. by destruct m.
  - apply wp_bind, wp_update, wp_bind, wp_env. intros t w. apply wp_update, HQ.
Qed.

Lemma wp_releaseIdleUsers metrics s :
  limitsActive s.1 = true ->
  wp (releaseIdleUsers metrics) (fun r s' => r = None /\ exists released added,
    rebalanced metrics s.1 s'.1 released added /\
    (always_creates (W := W) -> sharedCgroupPath s.1 <> "" -> added = returning_users metrics s.1)) s.
Proof.
  intros Ha. unfold releaseIdleUsers. apply wp_bind, wp_read. rewrite Ha. cbn [negb].
  apply wp_bind, wp_read, wp_bind, wp_read, wp_bind, wp_range. intros keys w0 Hk.
  pose proof (released_perm metrics s.1 keys Hk) as Hrel. set (released := List.filter (is_idle metrics) keys) in *.
  apply wp_bind, (wp_for_each_fun _ (release_state (sharedCgroupPath s.1))); [intros; apply wp_release_user|].
  intros w1. rewrite release_states. cbn [fst].
  assert (activeUsers s.1 ∖ list_to_set released = activeUsers s.1 ∖ idle_users metrics s.1) as Hact
    by (f_equal; rewrite Hrel; apply list_to_set_elements_L).
  assert (forall u, drop_keys released (psiBoostedAt s.1) !! u =
    if bool_decide (u ∈ idle_users metrics s.1) then None else psiBoostedAt s.1 !! u) as Hdrop.
  { intros u. rewrite lookup_drop_keys. rewrite (bool_decide_ext (u ∈ released) (u ∈ idle_users metrics s.1)); [done|].
    by rewrite Hrel, elem_of_elements. }
  rewrite Hact. apply wp_bind. destruct (String.eqb_spec (sharedCgroupPath s.1) "") as [Hp|Hp].
  - apply wp_ret, wp_ret. split; [done|]. exists released, []. split; [|done]. unfold rebalanced. cbn.
    rewrite union_empty_r_L, app_nil_r. split_and!; try done. apply sublist_nil_l.
  - apply wp_bind. eapply wp_mono; [|apply wp_re_add]. intros added' s2 (added & -> & Hsub & Hs2 & Hok).
    cbn [app]. apply wp_mark_added. intros t w2. apply wp_ret. split; [done|]. exists released, added.
    split; [|intros Hc _; by apply Hok]. unfold rebalanced. rewrite Hs2. cbn. rewrite app_assoc. by split_and!.
Qed.

End Release.

(** ** What is left behind in the recorded world *)

Lemma recalls_run_task t : recalls (run_task t).
Proof. destruct t; unfold run_task, shouldApplyRAMLimits, shouldApplyIOLimits, getUsername, limit_ram; cbn; recalls. Qed.

Lemma recalls_run_next : recalls run_next.
Proof. unfold run_next. cbn. recalls; apply recalls_run_task. Qed.

Lemma recalls_drain n : recalls (drain n).
Proof. induction n; simpl; [apply recalls_ret|]. apply recalls_bind; [apply recalls_run_next|done]. Qed.

Lemma recalls_unlimit_user cfg e uid : recalls (unlimit_user cfg e uid).
Proof. unfold unlimit_user, shouldApplyRAMLimits, shouldApplyIOLimits, getUsername. cbn. recalls. Qed.

(** The call that a task makes first. *)
Definition task_call (t : Task) : Call :=
  match t with
  | ReleaseTask uid p => CallRelease uid p
  | ReAddTask uid p => CallMoveAll uid p
  | LimitTask uid _ p _ => CallMoveAll uid p
  end.

(** A release without a shared cgroup has nothing to do. *)
Definition has_effect (t : Task) : Prop :=
  match t with ReleaseTask _ p => p <> "" | _ => True end.

Lemma run_task_call t s : has_effect t -> task_call t ∈ r_calls (exec (run_task t) s).2.
Proof.
  assert (forall c (f : unit -> SM Recorder unit) s, (forall u, recalls (f u)) ->
    c ∈ r_calls (exec (ignore (env (record_call c)) ≫= f) s).2) as K.
  { intros c f [m r] Hf. apply (Hf tt c). by left. }
  destruct t as [uid p|uid p|uid w p cfg]; cbn [task_call has_effect]; intros He.
  - unfold run_task. destruct (String.eqb_spec p ""); [done|]. destruct s as [m r]. by left.
  - apply K. intros _. cbn. recalls.
  - apply K. intros _. unfold shouldApplyRAMLimits, shouldApplyIOLimits, getUsername, limit_ram. cbn. recalls.
Qed.

Lemma drain_calls n s t :
  length (pending s.1) = n -> t ∈ pending s.1 -> has_effect t -> task_call t ∈ r_calls (exec (drain n) s).2.
Proof.
  revert s. induction n as [|n IH]; intros s Hn Ht He.
  { destruct (pending s.1); [by apply elem_of_nil in Ht|done]. }
  destruct s as [m r]. cbn [fst] in *. destruct (pending m) as [|t0 l] eqn:Ep; [done|].
  set (i := (hd 0%nat (r_picks r) mod length (t0 :: l))%nat).
  assert (exec (drain (S n)) (m, r) =
    exec (drain n) (exec (run_task (default t0 ((t0 :: l) !! i))) (set_pending (delete i (t0 :: l)) m, exec (next_pick 0) r))) as ->.
  { etransitivity; [exact (exec_bind run_next (fun _ => drain n) (m, r))|]. f_equal. unfold run_next.
    etransitivity; [exact (exec_bind _ _ (m, r))|]. cbn [read exec eval fst snd]. rewrite Ep. reflexivity. }
  assert (i < length (t0 :: l))%nat as Hi by (by apply Nat.mod_upper_bound).
  destruct (lookup_lt_is_Some_2 _ _ Hi) as [ti Hti]. rewrite Hti. change (default t0 (Some ti)) with ti.
  pose proof (quiet_run_task ti (set_pending (delete i (t0 :: l)) m, exec (next_pick 0) r)) as Hq.
  assert (t = ti \/ t ∈ delete i (t0 :: l)) as [->|Hin].
  { rewrite delete_take_drop, elem_of_app. rewrite <- (take_drop_middle (t0 :: l) i ti Hti) in Ht.
    rewrite elem_of_app, elem_of_cons in Ht. tauto. }
  - apply recalls_drain. by apply run_task_call.
  - apply IH; [| |done]; rewrite Hq; cbn [fst pending set_pending]; [|done].
    rewrite length_delete by (by eexists). simpl in Hn |- *. lia.
Qed.

Lemma wp_recalls {A} (m : SM Recorder A) c (Q : A -> StateManager * Recorder -> Prop) s :
  recalls m -> c ∈ r_calls s.2 -> (forall a s', c ∈ r_calls s'.2 -> Q a s') -> wp m Q s.
Proof. intros Hm Hc HQ. apply HQ. by apply (Hm c s). Qed.

Lemma wp_call c (Q : option error -> StateManager * Recorder -> Prop) s :
  (forall r w, c ∈ r_calls w -> Q r (s.1, w)) -> wp (env (record_call c)) Q s.
Proof. intros HQ. destruct s as [m r]. apply HQ. by left. Qed.

Lemma unlimit_user_call cfg e uid s :
  wp (unlimit_user cfg e uid) (fun _ s' => CallCPULimit uid (CPUQuotaNormal cfg) ∈ r_calls s'.2) s.
Proof.
  unfold unlimit_user, getUsername. apply wp_bind, wp_env. intros name w. apply wp_bind, wp_call. intros r w1 Hc.
  eapply wp_recalls; [|exact Hc|done].
  unfold shouldApplyRAMLimits, shouldApplyIOLimits, getUsername. cbn. recalls.
Qed.

Lemma recalls_remove_monitors uid : recalls (remove_monitors uid).
Proof. unfold remove_monitors. cbn. recalls. Qed.

(** The three groups of calls that lifting the limits makes. *)
Inductive deactivation_call (m : StateManager) : Call -> Prop :=
  | dc_user uid : uid ∈ activeUsers m -> deactivation_call m (CallCPULimit uid (CPUQuotaNormal (s_cfg m)))
  | dc_shared : sharedCgroupPath m <> "" -> deactivation_call m (CallRemoveAll (sharedCgroupPath m))
  | dc_task t : t ∈ pending m -> has_effect t -> deactivation_call m (task_call t).

Lemma deactivate_calls s c : deactivation_call s.1 c -> wp deactivateLimits (fun _ s' => c ∈ r_calls s'.2) s.
Proof.
  intros Hc. unfold deactivateLimits. apply wp_bind, wp_read, wp_bind.
  destruct Hc as [uid Hu|Hp|t Ht He].
  3: { unfold wait. apply wp_bind, wp_read. apply (wp_mono _ (fun _ s' => task_call t ∈ r_calls s'.2)).
       - intros [] s' Hc. eapply wp_recalls; [|exact Hc|done]. cbn.
         recalls_using ltac:(first [apply recalls_remove_monitors|apply recalls_unlimit_user]).
       - by apply drain_calls. }
  all: apply wp_wait; intros w0;
    apply wp_bind, wp_read, wp_bind, wp_quiet; [quiet|]; intros [] w1;
    apply wp_bind, wp_read, wp_bind, wp_range; intros l w2 Hl;
    do 3 apply wp_bind, wp_update; apply wp_bind, wp_read, wp_bind, wp_update;
    apply wp_bind, wp_quiet; [apply quiet_for_each; intros; apply quiet_remove_monitors|]; intros [] w3;
    apply wp_bind, (wp_for_each_fun _ (fun m uid => set_stabilityTracker (delete uid (stabilityTracker m)) m));
      [intros; by apply wp_update|]; intros w4;
    apply wp_bind, (wp_for_each_fun _ (fun m uid => set_psiBoostedAt (delete uid (psiBoostedAt m)) m));
      [intros; by apply wp_update|]; intros w5; apply wp_bind.
  - apply (wp_mono _ (fun _ s' => CallCPULimit uid (CPUQuotaNormal (s_cfg s.1)) ∈ r_calls s'.2)).
    + intros r s' Hc. eapply wp_recalls; [|exact Hc|done]. cbn. recalls.
    + apply (recalls_in_loop (unlimit_user (s_cfg s.1)) l None (fun uid => CallCPULimit uid (CPUQuotaNormal (s_cfg s.1))) uid).
      * intros. apply recalls_unlimit_user.
      * intros. apply unlimit_user_call.
      * by apply (elem_of_range (activeUsers s.1) l uid Hl).
  - apply wp_quiet; [apply quiet_fold; intros; apply quiet_unlimit_user|]. intros r w6. cbn [fst sharedCgroupPath set_sharedCgroupPath set_limitsAppliedTime set_limitsActive set_activeUsers set_pending].
    destruct (String.eqb_spec (sharedCgroupPath s.1) ""); [done|]. cbn [negb when].
    apply wp_bind. unfold ignore. apply wp_bind, wp_call. intros e w7 Hc. by apply wp_ret, wp_ret.
Qed.

(** ** Properties *)

Section Properties.
Context {W : Type} {E : Env W}.

(** Lifting the limits always ends with no limited user, no shared cgroup
    and no pending task, whatever the cgroup operations report, and forgets
    the stability counters and the boosts of exactly the users it released. *)
Theorem deactivateLimits_resets s :
  let m := s.1 in
  let m' := (exec (deactivateLimits (W := W)) s).1 in
  activeUsers m' = ∅ /\ limitsActive m' = false /\ limitsAppliedTime m' = zero_time /\
  sharedCgroupPath m' = "" /\ pending m' = [] /\ s_cfg m' = s_cfg m /\ controlHist m' = controlHist m /\
  (forall u, stabilityTracker m' !! u = if bool_decide (u ∈ activeUsers m) then None else stabilityTracker m !! u) /\
  (forall u, psiBoostedAt m' !! u = if bool_decide (u ∈ activeUsers m) then None else psiBoostedAt m !! u).
Proof.
  intros m m'.
  assert (exists l, l ≡ₚ elements (activeUsers m) /\ m' = lifted l m) as (l & Hl & ->).
  { apply (wp_deactivateLimits (fun _ s' => exists l, l ≡ₚ elements (activeUsers m) /\ s'.1 = lifted l m) s). eauto. }
  assert (forall u, bool_decide (u ∈ l) = bool_decide (u ∈ activeUsers m)) as Hd
    by (intros u; apply bool_decide_ext; by apply elem_of_range).
  unfold lifted. cbn. split_and!; try done; intros u; rewrite <- Hd; apply lookup_drop_keys.
Qed.



End Properties.


(** Waiting runs every pending task, in any schedule and whatever fails. *)
Theorem wait_runs_tasks (s : StateManager * Recorder) t :
  t ∈ pending s.1 -> has_effect t ->
  pending (exec wait s).1 = [] /\ task_call t ∈ r_calls (exec wait s).2.
Proof.
  intros Ht He. split.
  - apply (wp_wait (fun _ s' => pending s'.1 = []) s). done.
  - unfold wait. by apply (wp_bind (read pending) _ (fun _ s' => task_call t ∈ r_calls s'.2)), wp_read, drain_calls.
Qed.

(** ** Witnesses *)

(** Two limited users, a shared cgroup and a task under way. *)
Definition limited_state : StateManager :=
  set_pending [LimitTask 1001 100 "/sys/fs/cgroup/resman/limited" (DefaultConfig None)]
    (set_sharedCgroupPath "/sys/fs/cgroup/resman/limited"
       (set_limitsActive true (set_activeUsers {[1000; 1001]} fresh_state))).

(** One busy user that comes back, one limited user that is idle. *)
Definition idle_metrics : SystemMetrics :=
  mkMetrics 0 8 (f64_of_Z 90) (f64_of_Z 90) 0 2 (f64_of_Z 90) 0 2 0 0 fzero fzero fzero false
    {[1000 := f64_of_Z 50; 1001 := fzero; 1002 := f64_of_Z 30]} [] [1000; 1001; 1002].

Definition quiet_site : Recorder := site (1000 * second) 8 [].

(** Every second cgroup operation on user 1000 fails, and the only task runs. *)
Definition faulty_site : Recorder :=
  mkRecorder 0 8 fzero false [] []
    (fun c => match c with CallCPULimit 1000 _ | CallMoveAll _ _ => Some "input/output error" | _ => None end) [3%nat].



Example activation_example :
  let s' := exec (activateLimits idle_metrics) (fresh_state, quiet_site) in
  elements (activeUsers s'.1) = [1001; 1002; 1000] /\ limitsActive s'.1 = true /\ length (pending s'.1) = 3%nat.
Proof. vm_compute. done. Qed.

Example maintenance_example :
  elements (activeUsers (exec (releaseIdleUsers idle_metrics) (limited_state, quiet_site)).1) = [1002; 1000].
Proof. vm_compute. done. Qed.


Lemma wait_runs_tasks_witness :
  pending (exec wait (limited_state, faulty_site)).1 = [] /\
  CallMoveAll 1001 "/sys/fs/cgroup/resman/limited" ∈ r_calls (exec wait (limited_state, faulty_site)).2.
Proof.
  apply (wait_runs_tasks (limited_state, faulty_site)
           (LimitTask 1001 100 "/sys/fs/cgroup/resman/limited" (DefaultConfig None))).
  - apply list_elem_of_here.
  - exact I.
Defined.
