(* ===== verification/Collect.v ===== *)
(** * Collecting and exporting the metrics of a cycle
      (state/control_cycle.go: [collectSystemMetricsWithIOState],
       [updatePrometheusMetrics], [writeDatabaseMetrics] and the control
       history)

    One pass over the users of the collector computes the totals of all users
    and of the eligible ones, and the write rate since the previous cycle. *)

From S2P Require Import Prelude GoStrings GoFloat GoNumbers Config Blackout CgroupLimits Pattern StateBase Recorder Decision Limits.

#[local] Open Scope Z_scope.

(** ** Totals of a pass *)

Record Totals := mkTotals {
  t_cpu : f64;
  t_memory : Z;
  t_count : Z;
  t_limitedCPU : f64;
  t_limitedMemory : Z;
  t_ioWrite : Z;
  t_userCPU : gmap Z f64;
  t_userMetrics : list (Z * UserMetrics);
  t_eligible : list Z
}.

Definition no_totals : Totals := mkTotals fzero 0 0 fzero 0 0 ∅ [] [].

Definition with_limited (b : bool) (um : UserMetrics) : UserMetrics :=
  mkUserMetrics (um_UID um) (Username um) (CPUUsage um) (CPUUsageAverage um) (CPUUsageEMA um) (MemoryUsage um)
    (ProcessCount um) b (IOReadBytes um) (IOWriteBytes um) (IOReadOps um) (IOWriteOps um).

(** The part of the pass that concerns every user. *)
Definition add_user (t : Totals) (uid : Z) (um : UserMetrics) (actuallyLimited : bool) : Totals :=
  mkTotals (fadd (t_cpu t) (CPUUsage um)) (wrap_u64 (t_memory t + MemoryUsage um)) (t_count t + 1)
    (t_limitedCPU t) (t_limitedMemory t) (t_ioWrite t)
    (<[uid := CPUUsage um]> (t_userCPU t)) (t_userMetrics t ++ [(uid, with_limited actuallyLimited um)]) (t_eligible t).

Definition add_eligible (t : Totals) (uid : Z) (um : UserMetrics) : Totals :=
  mkTotals (t_cpu t) (t_memory t) (t_count t)
    (fadd (t_limitedCPU t) (CPUUsage um)) (wrap_u64 (t_limitedMemory t + MemoryUsage um)) (t_ioWrite t)
    (t_userCPU t) (t_userMetrics t) (t_eligible t ++ [uid]).

Definition add_io (t : Totals) (rate : Z) : Totals :=
  mkTotals (t_cpu t) (t_memory t) (t_count t) (t_limitedCPU t) (t_limitedMemory t) (wrap_u64 (t_ioWrite t + rate))
    (t_userCPU t) (t_userMetrics t) (t_eligible t).

Definition metrics_of (now : Time) (cores : Z) (cpu mem total cached : f64) (load : bool) (t : Totals) : SystemMetrics :=
  mkMetrics now cores cpu (t_cpu t) (t_memory t) (t_count t) (t_limitedCPU t) (t_limitedMemory t)
    (Z.of_nat (length (t_eligible t))) (t_limitedMemory t) (t_ioWrite t) mem total cached load
    (t_userCPU t) (t_userMetrics t) (t_eligible t).

Section Collect.
Context {W : Type} {E : Env W}.

(** Bytes written per second since the previous cycle. *)
Definition io_rate (uid : Z) (ioDelta : Z) (t : Totals) : SM W Totals :=
  read prevIOBytes ≫= fun prevs =>
  read prevIOTime ≫= fun prevTime =>
  (match prevs !! uid with
   | Some prev =>
       if IsZero prevTime then mret t
       else
         env time_Now ≫= fun now =>
         let elapsed := dur_seconds (time_sub now prevTime) in
         mret (if f_gt elapsed fzero && (prev <=? ioDelta)
               then add_io t (f64_to_u64 env_oor (fdiv (f64_of_Z (ioDelta - prev)) elapsed))
               else t)
   | None => mret t
   end) ≫= fun t' =>
  update (fun m => set_prevIOBytes (<[uid := ioDelta]> (prevIOBytes m)) m) ≫= fun _ => mret t'.

Definition collect_user (updateIOState : bool) (t : Totals) (p : Z * UserMetrics) : SM W Totals :=
  let '(uid, um) := p in
  isUserLimited uid ≫= fun actuallyLimited =>
  let t1 := add_user t uid um actuallyLimited in
  if IsLimited um then
    let t2 := add_eligible t1 uid um in
    if updateIOState then io_rate uid (IOWriteBytes um) t2 else mret t2
  else mret t1.

Definition collectSystemMetricsWithIOState (updateIOState : bool) : SM W SystemMetrics :=
  env time_Now ≫= fun timestamp =>
  env mc_GetTotalCores ≫= fun cores =>
  env mc_GetTotalCPUUsage ≫= fun cpu =>
  env mc_GetMemoryUsage ≫= fun mem =>
  env mc_GetTotalMemoryMB ≫= fun total =>
  env mc_GetCachedMemoryMB ≫= fun cached =>
  env mc_IsSystemUnderLoad ≫= fun load =>
  env mc_GetAllUserMetrics ≫= fun allUserMetrics =>
  fold_st (collect_user updateIOState) no_totals allUserMetrics ≫= fun t =>
  when updateIOState
    (env time_Now ≫= fun now =>
     update (set_prevIOTime now) ≫= fun _ =>
     update (fun m => set_prevIOBytes
       (filter (fun p => p.1 ∈ map fst allUserMetrics) (prevIOBytes m)) m)) ≫= fun _ =>
  mret (metrics_of timestamp cores cpu mem total cached load t).

Definition collectSystemMetrics : SM W SystemMetrics := collectSystemMetricsWithIOState true.

Definition collectSystemMetricsForRefresh : SM W SystemMetrics := collectSystemMetricsWithIOState false.

(** ** Export *)

(** The counters of the kernel for the cgroup when the processes have none. *)
Definition exported_io (um : UserMetrics) (io : Z * Z * Z * Z) : Z * Z * Z * Z :=
  let '(rb, wb, ro, wo) := io in
  if (IOReadBytes um =? 0) && (IOWriteBytes um =? 0) && (rb >? 0) then (rb, wb, ro, wo)
  else (IOReadBytes um, IOWriteBytes um, IOReadOps um, IOWriteOps um).

Definition export_user (p : Z * UserMetrics) : SM W unit :=
  let '(uid, um) := p in
  (if String.eqb (Username um) "" || String.eqb (Username um) (Itoa uid) then getUsername uid
   else mret (Username um)) ≫= fun username =>
  isUserLimited uid ≫= fun isLimited =>
  env (cg_GetUserCgroupMetrics uid) ≫= fun r =>
  let '(cgroupPath, cpuQuota, memoryHighEvents, io) :=
    match r with Ok x => x | Err _ => ("", "", 0, (0, 0, 0, 0)) end in
  env (px_UpdateUserMetrics (mkUserExport uid username um isLimited cgroupPath cpuQuota memoryHighEvents (exported_io um io))).

Definition updatePrometheusMetrics (metrics : SystemMetrics) : SM W unit :=
  read hasExporter ≫= fun exporter =>
  if negb exporter then mret tt
  else
    read activeUsers ≫= fun active =>
    read limitsActive ≫= fun limitsActive =>
    getLoadAverage ≫= fun load1 =>
    env (px_UpdateMetrics
      ([("cpu_total_usage", TotalCPUUsage metrics); ("total_cores", f64_of_Z (TotalCores metrics));
        ("all_users_cpu_usage", AllUsersCPUUsage metrics); ("all_users_count", f64_of_Z (AllUsersCount metrics));
        ("all_users_memory_usage", f64_of_Z (AllUsersMemoryUsage metrics));
        ("limited_users_cpu_usage", LimitedUsersCPUUsage metrics);
        ("limited_users_count", f64_of_Z (LimitedUsersCount metrics));
        ("limited_users_memory_usage", f64_of_Z (LimitedUsersMemoryUsage metrics));
        ("memory_usage_mb", sm_MemoryUsage metrics); ("total_memory_mb", TotalMemoryMB metrics);
        ("cached_memory_mb", CachedMemoryMB metrics); ("limited_users", f64_of_Z (Z.of_nat (size active)));
        ("limits_active", boolToFloat limitsActive)] ++
       match load1 with Ok load => [("system_load", load)] | Err _ => [] end)) ≫= fun _ =>
    for_each export_user (sm_UserMetrics metrics) ≫= fun _ =>
    env (px_CleanupUserMetrics (map fst (sm_UserMetrics metrics))) ≫= fun _ =>
    getLoadAverage ≫= fun load2 =>
    match load2 with
    | Err _ => mret tt
    | Ok load =>
        read s_cfg ≫= fun cfg =>
        env (px_UpdateSystemMetrics (TotalCores metrics) (availableCores cfg metrics) load)
    end.

(** [ShouldWrite]: [None] when no database is configured. *)
Definition writeDatabaseMetrics (metrics : SystemMetrics) : SM W unit :=
  env mc_ShouldWrite ≫= fun writer =>
  match writer with
  | Some true =>
      read limitsActive ≫= fun limitsActive =>
      read activeUsers ≫= fun active =>
      env (mc_WriteMetricsToDatabase (sm_UserMetrics metrics) (TotalCPUUsage metrics) (TotalCores metrics) fzero
             limitsActive (Z.of_nat (size active)))
  | _ => mret tt
  end.

(** ** Control history *)

Definition maxSize : nat := 100.

Definition add_entry (entry : ControlCycleEntry) (entries : list ControlCycleEntry) : list ControlCycleEntry :=
  let entries := entries ++ [entry] in
  if (maxSize <? length entries)%nat then drop (length entries - maxSize) entries else entries.

Definition addControlHistoryEntry (entry : ControlCycleEntry) : SM W unit :=
  update (fun m => set_controlHist (add_entry entry (controlHist m)) m).

Definition recent (limit : Z) (entries : list ControlCycleEntry) : list ControlCycleEntry :=
  let n := Z.of_nat (length entries) in
  let limit := if (limit <=? 0) || (limit >? n) then n else limit in
  take (Z.to_nat limit) (drop (Z.to_nat (Z.max 0 (n - limit))) entries).

Definition GetControlHistory (limit : Z) : SM W (list ControlCycleEntry) :=
  read (fun m => recent limit (controlHist m)).

Definition Milliseconds (d : Duration) : Z := Z.quot d 1000000.

Definition recordControlCycle (decision : Decision) (reason : Reason) (metrics : SystemMetrics) (duration : Duration) :
    SM W unit :=
  read limitsActive ≫= fun limitsActive =>
  env time_Now ≫= fun now =>
  addControlHistoryEntry
    (mkEntry now decision reason (TotalCPUUsage metrics) (LimitedUsersCPUUsage metrics)
       (Z.of_nat (size (UserCPUUsage metrics))) limitsActive (Milliseconds duration)).

End Collect.

(** ** Lemmas *)

Lemma add_entry_window entry es :
  add_entry entry (drop (length es - maxSize) es) = drop (length (es ++ [entry]) - maxSize) (es ++ [entry]).
Proof.
  unfold add_entry. rewrite !length_app, length_drop. cbn [length].
  destruct (Nat.ltb_spec maxSize (length es - (length es - maxSize) + 1)%nat) as [H|H].
  - assert (length es >= maxSize)%nat as Hge by lia.
    replace (length es - (length es - maxSize) + 1 - maxSize)%nat with 1%nat by lia.
    replace (length es + 1 - maxSize)%nat with (S (length es - maxSize))%nat by lia.
    rewrite (drop_app_le es) by (unfold maxSize in *; lia).
    rewrite (drop_app_le _ _ 1) by (rewrite length_drop; unfold maxSize in *; lia). rewrite drop_drop.
    f_equal. f_equal. lia.
  - replace (length es - maxSize)%nat with 0%nat by lia. rewrite !drop_0.
    replace (length es + 1 - maxSize)%nat with 0%nat by lia. done.
Qed.

(** The history after the entries [es], oldest first. *)
Definition history (es : list ControlCycleEntry) : list ControlCycleEntry := foldl (fun h e => add_entry e h) [] es.

Lemma history_window es : history es = drop (length es - maxSize) es.
Proof.
  unfold history. induction es as [|e es IH] using rev_ind; [done|].
  rewrite foldl_app. cbn [foldl]. by rewrite IH, add_entry_window.
Qed.

Lemma recent_drop limit l :
  recent limit l =
  drop (length l - (if (limit <=? 0)%Z then length l else Nat.min (Z.to_nat limit) (length l))) l.
Proof.
  unfold recent. destruct (Z.leb_spec limit 0) as [H|H]; cbn [orb].
  - rewrite Nat.sub_diag, Z.sub_diag, Nat2Z.id. cbn. by rewrite !drop_0, firstn_all.
  - destruct (limit >? Z.of_nat (length l)) eqn:E.
    + rewrite Nat.min_r by lia. rewrite Nat.sub_diag, Z.sub_diag, Nat2Z.id. cbn. by rewrite !drop_0, firstn_all.
    + rewrite Nat.min_l by lia. replace (Z.to_nat (Z.max 0 (Z.of_nat (length l) - limit))) with (length l - Z.to_nat limit)%nat by lia.
      apply take_ge. rewrite length_drop. lia.
Qed.

Section Collect_lemmas.
Context {W : Type} {E : Env W}.

(** Only the write counters may differ. *)
Definition same_but_io (m m' : StateManager) : Prop :=
  m' = set_prevIOBytes (prevIOBytes m') (set_prevIOTime (prevIOTime m') m).

(** What a pass over [l] adds to the totals, the write rate apart. *)
Definition pass_totals (active : gset Z) (l : list (Z * UserMetrics)) (t : Totals) : Totals :=
  foldl (fun t p =>
    let t1 := add_user t p.1 p.2 (bool_decide (p.1 ∈ active)) in
    if IsLimited p.2 then add_eligible t1 p.1 p.2 else t1) t l.

Definition without_io (t : Totals) : Totals :=
  mkTotals (t_cpu t) (t_memory t) (t_count t) (t_limitedCPU t) (t_limitedMemory t) 0
    (t_userCPU t) (t_userMetrics t) (t_eligible t).

Lemma wp_io_rate uid bytes t (s : StateManager * W) :
  wp (io_rate uid bytes t) (fun t' s' => without_io t' = without_io t /\
    s'.1 = set_prevIOBytes (<[uid := bytes]> (prevIOBytes s.1)) s.1) s.
Proof.
  unfold io_rate. apply wp_bind, wp_read, wp_bind, wp_read, wp_bind.
  assert (forall t' w, without_io t' = without_io t ->
    wp (update (fun m => set_prevIOBytes (<[uid := bytes]> (prevIOBytes m)) m) ≫= fun _ => mret t')
       (fun t' s' => without_io t' = without_io t /\
          (s' : StateManager * W).1 = set_prevIOBytes (<[uid := bytes]> (prevIOBytes s.1)) s.1) (s.1, w)) as K
    by (intros t' w Ht; by apply wp_bind, wp_update, wp_ret).
  destruct (prevIOBytes s.1 !! uid); [destruct (IsZero _)|].
  - apply wp_ret. destruct s. by apply K.
  - apply wp_bind, wp_env. intros now w. apply wp_ret. destruct (_ && _); by apply K.
  - apply wp_ret. destruct s. by apply K.
Qed.

Lemma without_io_add active t t' p :
  without_io t = without_io t' ->
  without_io (pass_totals active [p] t) = without_io (pass_totals active [p] t').
Proof. intros H. destruct t, t', p as [uid um]. cbn in *. injection H as -> -> -> -> -> -> -> ->. by destruct (IsLimited um). Qed.

Definition counted (l : list (Z * UserMetrics)) : list (Z * Z) :=
  map (fun p => (p.1, IOWriteBytes p.2)) (List.filter (fun p => IsLimited p.2) l).

Lemma wp_collect_users upd l t t0 s :
  without_io t = without_io t0 ->
  wp (fold_st (collect_user upd) t l) (fun t' s' =>
    without_io t' = without_io (pass_totals (activeUsers s.1) l t0) /\
    s'.1 = set_prevIOBytes (if upd then foldl (fun b p => <[p.1 := p.2]> b) (prevIOBytes s.1) (counted l) else prevIOBytes s.1) s.1) s.
Proof.
  revert t t0 s. induction l as [|[uid um] l IH]; intros t t0 s Ht; cbn [fold_st].
  - apply wp_ret. split; [done|]. destruct upd; by destruct s as [[] ?].
  - apply wp_bind. unfold collect_user at 1, isUserLimited. apply wp_bind, wp_read.
    change (pass_totals (activeUsers s.1) ((uid, um) :: l) t0) with
      (pass_totals (activeUsers s.1) l (pass_totals (activeUsers s.1) [(uid, um)] t0)).
    pose proof (without_io_add (activeUsers s.1) t t0 (uid, um) Ht) as Ht1. cbn [pass_totals foldl fst snd] in Ht1 |- *.
    unfold counted. cbn [List.filter]. destruct (IsLimited um) eqn:El; cbn [snd]; rewrite ?El; [|by apply wp_ret, IH].
    destruct upd; [|by apply wp_ret, IH].
    eapply wp_mono; [|apply wp_io_rate]. intros t1 s1 [Ht2 Hs1]. cbn beta.
    eapply wp_mono; [|apply (IH _ _ _ (eq_trans Ht2 Ht1))]. intros t' s' [H1 H2]. rewrite H2, Hs1. rewrite Hs1 in H1.
    split; [exact H1|]. cbn [map foldl fst snd]. by destruct s as [[] ?].
Qed.

End Collect_lemmas.

Definition eligible_of (l : list (Z * UserMetrics)) : list Z := map fst (List.filter (fun p => IsLimited p.2) l).

(** The metrics of the users, marked with who is limited right now. *)
Definition marked (active : gset Z) (l : list (Z * UserMetrics)) : list (Z * UserMetrics) :=
  map (fun p => (p.1, with_limited (bool_decide (p.1 ∈ active)) p.2)) l.

Definition usage_of (l : list (Z * UserMetrics)) (m : gmap Z f64) : gmap Z f64 :=
  foldl (fun m p => <[p.1 := CPUUsage p.2]> m) m l.

Lemma pass_totals_fields active l t :
  let t' := pass_totals active l t in
  t_eligible t' = t_eligible t ++ eligible_of l /\
  t_userMetrics t' = t_userMetrics t ++ marked active l /\
  t_userCPU t' = usage_of l (t_userCPU t) /\
  t_count t' = t_count t + Z.of_nat (length l).
Proof.
  revert t. induction l as [|[uid um] l IH]; intros t; cbn zeta.
  - unfold eligible_of, marked, usage_of. cbn. rewrite !app_nil_r, Z.add_0_r. done.
  - change (pass_totals active ((uid, um) :: l) t) with (pass_totals active l (pass_totals active [(uid, um)] t)).
    destruct (IH (pass_totals active [(uid, um)] t)) as (-> & -> & -> & ->).
    unfold pass_totals, eligible_of, marked, usage_of. cbn [foldl List.filter fst snd length map].
    destruct (IsLimited um); cbn; rewrite <- ?app_assoc; split_and!; try done; lia.
Qed.

Lemma lookup_usage uid l m :
  NoDup (map fst l) ->
  usage_of l m !! uid =
  match List.find (fun p => p.1 =? uid) l with Some p => Some (CPUUsage p.2) | None => m !! uid end.
Proof.
  unfold usage_of. revert m. induction l as [|[u um] l IH]; intros m Hnd; [done|]. cbn [map fst] in Hnd.
  apply NoDup_cons in Hnd as [Hu Hnd]. cbn [foldl find fst snd]. rewrite IH by done.
  destruct (Z.eqb_spec u uid) as [->|Hne].
  - destruct (List.find _ l) as [p|] eqn:Ef; [|by rewrite lookup_insert_eq]. exfalso.
    apply find_some in Ef as [Hp He%Z.eqb_eq]. apply Hu. rewrite <- He. by apply list_elem_of_In, in_map.
  - destruct (List.find _ l); [done|]. by rewrite lookup_insert_ne.
Qed.

(** The write counters after a cycle. *)
Definition next_counters (l : list (Z * UserMetrics)) (b : gmap Z Z) : gmap Z Z :=
  filter (fun p => p.1 ∈ map fst l) (foldl (fun b p => <[p.1 := p.2]> b) b (counted l)).

Section Spec.
Context {W : Type} {E : Env W}.

Definition collected (active : gset Z) (all : list (Z * UserMetrics)) (m : SystemMetrics) : Prop :=
  EligibleUsers m = eligible_of all /\ LimitedUsersCount m = Z.of_nat (length (eligible_of all)) /\
  UserCPUUsage m = usage_of all ∅ /\ sm_UserMetrics m = marked active all /\
  AllUsersCount m = Z.of_nat (length all).

Lemma wp_collect upd (s : StateManager * W) :
  wp (collectSystemMetricsWithIOState upd) (fun m s' => exists (w : W) all,
    eval mc_GetAllUserMetrics w = all /\ collected (activeUsers s.1) all m /\
    (upd = false -> s'.1 = s.1) /\
    (upd = true -> exists now, s'.1 =
       set_prevIOBytes (next_counters all (prevIOBytes s.1)) (set_prevIOTime now s.1))) s.
Proof.
  unfold collectSystemMetricsWithIOState. do 7 (apply wp_bind, wp_env; intros ? ?). apply wp_bind.
  match goal with |- wp _ _ ?st => set (s0 := st) end.
  apply (wp_mono _ (fun a s' => s'.1 = s.1 /\ exists w : W, eval mc_GetAllUserMetrics w = a)).
  2: { unfold wp, env. destruct s0 as [m wc] eqn:E0. destruct (mc_GetAllUserMetrics wc) eqn:Em.
       split; [by inversion E0|]. exists wc. unfold eval. by rewrite Em. }
  intros all s1 [Hs1 [wa Hall]]. apply wp_bind. eapply wp_mono; [|by apply (wp_collect_users upd all no_totals no_totals s1)].
  intros t s2 [Ht Hs2]. rewrite Hs1 in Ht, Hs2. apply wp_bind.
  pose proof (pass_totals_fields (activeUsers s.1) all no_totals) as (F1 & F2 & F3 & F4).
  assert (collected (activeUsers s.1) all (metrics_of a a0 a1 a2 a3 a4 a5 t)) as Hc.
  { destruct t, (pass_totals (activeUsers s.1) all no_totals). cbn in *. injection Ht as -> -> -> -> -> -> -> ->.
    unfold collected, metrics_of. cbn. by rewrite F1, F2, F3, F4. }
  destruct upd; cbn [when].
  - apply wp_bind, wp_env. intros now wn. apply wp_bind, wp_update, wp_update, wp_ret.
    exists wa, all. split_and!; try done. intros _. exists now. rewrite Hs2. cbn. by destruct s as [[] ?].
  - apply wp_ret, wp_ret. exists wa, all. split_and!; try done. intros _. rewrite Hs2. by destruct s as [[] ?].
Qed.

Lemma quiet_collect_refresh : quiet (W := W) collectSystemMetricsForRefresh.
Proof.
  intros s. destruct (wp_collect false s) as (w & all & _ & _ & H & _). by apply H.
Qed.

Lemma quiet_updatePrometheus metrics : quiet (W := W) (updatePrometheusMetrics metrics).
Proof. unfold updatePrometheusMetrics, export_user, getLoadAverage, getUsername, isUserLimited. quiet. Qed.

Lemma quiet_writeDatabase metrics : quiet (W := W) (writeDatabaseMetrics metrics).
Proof. unfold writeDatabaseMetrics. quiet. Qed.

End Spec.

(** ** Properties *)

(** The control history holds the last hundred entries in the order they
    were recorded, and [GetControlHistory] returns the most recent ones:
    [limit] of them, or all when [limit] is not positive or too large. *)
Theorem history_recent (es : list ControlCycleEntry) limit :
  let n := Nat.min maxSize (length es) in
  recent limit (history es) =
  drop (length es - (if (limit <=? 0)%Z then n else Nat.min (Z.to_nat limit) n)) es /\
  (length (history es) <= 100)%nat.
Proof.
  cbn zeta. rewrite recent_drop, history_window, length_drop. split; [|unfold maxSize; lia].
  rewrite drop_drop. f_equal. destruct (limit <=? 0); unfold maxSize; lia.
Qed.

(** What a cycle collects is what one call of the collector returned: the
    eligible users are the ones it marks, in its order, and every user is
    marked again with whether it is limited right now; a metrics refresh
    leaves the manager untouched, and a control cycle replaces only the write
    counters, keeping one for each present user that is or was eligible. *)
Theorem collect_spec {W} {E : Env W} upd (s : StateManager * W) :
  let m := eval (collectSystemMetricsWithIOState upd) s in
  let m' := (exec (collectSystemMetricsWithIOState upd) s).1 in
  exists (w : W) all, eval mc_GetAllUserMetrics w = all /\ collected (activeUsers s.1) all m /\
    (upd = false -> m' = s.1) /\
    (upd = true -> exists now,
       m' = set_prevIOBytes (next_counters all (prevIOBytes s.1)) (set_prevIOTime now s.1)).
Proof. exact (wp_collect upd s). Qed.

Lemma collect_spec_witness :
  let s := (limited_state, site (1000 * second) 8 [user_at 1000 50 true; user_at 1001 40 false]) in
  let m := eval (collectSystemMetricsWithIOState true) s in
  let m' := (exec (collectSystemMetricsWithIOState true) s).1 in
  exists (w : Recorder) all, eval mc_GetAllUserMetrics w = all /\ collected (activeUsers s.1) all m /\
    (true = false -> m' = s.1) /\
    (true = true -> exists now,
       m' = set_prevIOBytes (next_counters all (prevIOBytes s.1)) (set_prevIOTime now s.1)).
Proof.
  exact (collect_spec true (limited_state, site (1000 * second) 8 [user_at 1000 50 true; user_at 1001 40 false])).
Defined.
