(* ===== verification/ControlCycle.v ===== *)
(** * The control cycle and the manager's entry points
      (state/control_cycle.go: the pipeline of stages, [RunMetricsRefresh];
       state/manager.go: [OnUserPSIEvent], [revertPSIBoosts], [Cleanup];
       state/limits_applier.go: [ForceActivateLimits])

    A stage takes and returns the context of the cycle, with an error when it
    fails; [run_pipeline] stops at the first error and when a stage asks to.
    The entry points exclude one another ([opMu]), so that a run of the
    manager is a sequence of them and of tasks: see [manager_step]. *)

From S2P Require Import Prelude GoStrings GoFloat GoNumbers Config Blackout ConfigLoad CgroupLimits Tracker IORemediation Pattern StateBase Recorder Decision Limits Collect.

#[local] Open Scope Z_scope.

(** ** Context of a cycle *)

Record controlCycleContext := mkCycle {
  cc_cfg : Config;
  cc_trigger : string;
  cc_startTime : Time;
  cc_metrics : SystemMetrics;
  cc_decision : option Decision;
  cc_reason : Reason;
  cc_duration : Duration;
  cc_activeLimitedUsers : Z;
  cc_stopWithoutError : bool
}.

Definition Cycle_eta (c : controlCycleContext) : controlCycleContext := mkCycle
  (cc_cfg c) (cc_trigger c) (cc_startTime c) (cc_metrics c) (cc_decision c) (cc_reason c) (cc_duration c)
  (cc_activeLimitedUsers c) (cc_stopWithoutError c).

Definition set_cc_metrics : SystemMetrics -> controlCycleContext -> controlCycleContext := ltac:(setter Cycle_eta cc_metrics).

Definition set_cc_decision : option Decision -> controlCycleContext -> controlCycleContext := ltac:(setter Cycle_eta cc_decision).

Definition set_cc_reason : Reason -> controlCycleContext -> controlCycleContext := ltac:(setter Cycle_eta cc_reason).

Definition set_cc_duration : Duration -> controlCycleContext -> controlCycleContext := ltac:(setter Cycle_eta cc_duration).

Definition set_cc_activeLimitedUsers : Z -> controlCycleContext -> controlCycleContext := ltac:(setter Cycle_eta cc_activeLimitedUsers).

Definition set_cc_stopWithoutError : bool -> controlCycleContext -> controlCycleContext := ltac:(setter Cycle_eta cc_stopWithoutError).

(** The nil metrics the context starts with; no stage reads them. *)
Definition nil_metrics : SystemMetrics :=
  mkMetrics zero_time 0 fzero fzero 0 0 fzero 0 0 0 0 fzero fzero fzero false ∅ [] [].

(** 1970-01-01, in nanoseconds since year 1. *)
Definition unix_epoch : Time := 62135596800 * second.

Definition cycleID (run : controlCycleContext) : Z := (cc_startTime run - unix_epoch) / second.

Definition decision_string (d : option Decision) : string :=
  match d with
  | Some ACTIVATE_LIMITS => "ACTIVATE_LIMITS"
  | Some MAINTAIN_CURRENT_STATE => "MAINTAIN_CURRENT_STATE"
  | Some DEACTIVATE_LIMITS => "DEACTIVATE_LIMITS"
  | None => ""
  end.

Section Cycle.
Context {W : Type} {E : Env W}.

Definition Stage : Type := controlCycleContext -> SM W (controlCycleContext * option error).

(** The end of the window is computed for the log only. *)
Definition stageCheckBlackout : Stage := fun run =>
  env time_Now ≫= fun now =>
  env (gets (fun w => local_time w now)) ≫= fun civil =>
  mret (if IsInBlackout (cc_cfg run) civil then set_cc_stopWithoutError true run else run, None).

Definition stageCollectMetrics : Stage := fun run =>
  collectSystemMetrics ≫= fun metrics => mret (set_cc_metrics metrics run, None).

Definition stageUpdatePrometheus : Stage := fun run =>
  read hasExporter ≫= fun exporter =>
  when exporter (updatePrometheusMetrics (cc_metrics run)) ≫= fun _ => mret (run, None).

Definition stageWriteDatabase : Stage := fun run =>
  writeDatabaseMetrics (cc_metrics run) ≫= fun _ => mret (run, None).

Definition stageMakeDecision : Stage := fun run =>
  makeDecision (cc_metrics run) ≫= fun '(decision, reason) =>
  mret (set_cc_reason reason (set_cc_decision (Some decision) run), None).

Definition execute (decision : option Decision) (metrics : SystemMetrics) : SM W (option error) :=
  match decision with
  | Some d => executeDecision d metrics
  | None => mret (Some "unknown decision '': expected ACTIVATE_LIMITS, DEACTIVATE_LIMITS, or MAINTAIN_CURRENT_STATE")
  end.

Definition stageExecuteDecision : Stage := fun run =>
  execute (cc_decision run) (cc_metrics run) ≫= fun err =>
  mret (run, match err with
             | Some e => Some ("failed to execute decision " +:+ decision_string (cc_decision run) +:+
                               " (cycle " +:+ Itoa (cycleID run) +:+ "): " +:+ e)
             | None => None
             end).

Definition stageRecordHistory : Stage := fun run =>
  env time_Now ≫= fun now =>
  let run := set_cc_duration (time_sub now (cc_startTime run)) run in
  recordControlCycle (default MAINTAIN_CURRENT_STATE (cc_decision run)) (cc_reason run) (cc_metrics run) (cc_duration run) ≫= fun _ =>
  mret (run, None).

(** An operation on the remediation part of the state. *)
Definition with_remediation {A} (m : ST (IORemediation * W) A) : SM W A := fun '(s, w) =>
  let '(a, (r, w')) := m (ioRemediation s, w) in (a, (set_ioRemediation r s, w')).

Definition stageIORemediation : Stage := fun run =>
  env mc_GetLimitedUsers ≫= fun limitedUsers =>
  env time_Now ≫= fun now1 =>
  with_remediation (CheckAndRemediate (cc_cfg run) limitedUsers now1) ≫= fun _ =>
  env time_Now ≫= fun now2 =>
  with_remediation (IORemediation.Cleanup (24 * hour) now2) ≫= fun _ =>
  mret (run, None).

(** ** Workload patterns *)

Definition detect_user (p : Z * UserMetrics) : SM W unit :=
  env time_Now ≫= fun first =>
  env time_Now ≫= fun now =>
  env (gets (fun w => local_time w now)) ≫= fun civil =>
  update (fun m => set_patternDetector
    (Update p.1 (CPUUsage p.2) first now (Z.to_nat (civ_hour civil)) (patternDetector m)) m).

Definition apply_policy (uid : Z) (policy : UserPolicy) : SM W unit :=
  when (CPUQuota policy >? 0)
    (ignore (env (cg_ApplyCPULimit uid (Itoa (CPUQuota policy) +:+ " 100000")))) ≫= fun _ =>
  when (negb (String.eqb (RAMQuota policy) ""))
    (ignore (env (cg_ApplyRAMLimit uid (RAMQuota policy)))).

Definition apply_pattern (cfg : Config) (patterns : gmap Z PatternResult) (uid : Z) : SM W unit :=
  let result := default (mkResult PatternUnknown fzero) (patterns !! uid) in
  read hasExporter ≫= fun exporter =>
  when exporter
    (env (mc_GetUsernameFromUID uid) ≫= fun username =>
     env (px_UpdateUserWorkloadPattern uid username (Pattern result) (Confidence result))) ≫= fun _ =>
  if bool_decide (Pattern result = PatternUnknown) then mret tt
  else
    env time_Now ≫= fun now =>
    read policyEngine ≫= fun pe =>
    let '(changed, pe') := ApplyPolicy uid (Pattern result) cfg now pe in
    update (set_policyEngine pe') ≫= fun _ =>
    if negb changed then mret tt
    else match GetPolicy uid pe' with
         | Some policy => apply_policy uid policy
         | None => mret tt
         end.

Definition stageWorkloadPatternDetection : Stage := fun run =>
  let cfg := cc_cfg run in
  when (AutodetectPatterns cfg)
    (env mc_GetAllUserMetrics ≫= fun allMetrics =>
     for_each detect_user allMetrics ≫= fun _ =>
     env time_Now ≫= fun now =>
     read lastPatternAnalysis ≫= fun last_ =>
     when (hour <? time_sub now last_)
       (env time_Now ≫= fun now1 =>
        update (set_lastPatternAnalysis now1) ≫= fun _ =>
        read (fun m => Analyze cfg (patternDetector m)) ≫= fun patterns =>
        env (range_keys (dom patterns)) ≫= fun uids =>
        for_each (apply_pattern cfg patterns) uids ≫= fun _ =>
        env time_Now ≫= fun now2 =>
        update (fun m => set_patternDetector
          (pattern_Cleanup (wrap_i64 (PatternHistoryHours cfg * hour)) now2 (patternDetector m)) m) ≫= fun _ =>
        env time_Now ≫= fun now3 =>
        update (fun m => set_policyEngine (policy_Cleanup (24 * hour) now3 (policyEngine m)) m))) ≫= fun _ =>
  mret (run, None).

(** ** Boosts *)

Definition boost_expired (now : Time) (duration : Duration) (boosts : gmap Z Time) (uid : Z) : bool :=
  match boosts !! uid with Some boostedAt => duration <=? time_sub now boostedAt | None => false end.

Definition revertPSIBoosts : SM W unit :=
  read s_cfg ≫= fun cfg =>
  env time_Now ≫= fun now =>
  read psiBoostedAt ≫= fun boosts =>
  env (range_keys (dom boosts)) ≫= fun uids =>
  let expired := List.filter (boost_expired now (seconds (PSIBoostDuration cfg)) boosts) uids in
  for_each (fun uid => ignore (env (cg_ApplyCPUWeight uid 100))) expired ≫= fun _ =>
  for_each (fun uid => update (fun m => set_psiBoostedAt (delete uid (psiBoostedAt m)) m)) expired.

Definition stageRevertPSIBoosts : Stage := fun run =>
  read hasPSIWatcher ≫= fun b => when b revertPSIBoosts ≫= fun _ => mret (run, None).

Definition stageLogCompletion : Stage := fun run =>
  read activeUsers ≫= fun active =>
  mret (set_cc_activeLimitedUsers (Z.of_nat (size active)) run, None).

(** A pressure event of a user raises its weight. *)
Definition OnUserPSIEvent (uid : Z) : SM W unit :=
  if uid <=? 0 then mret tt
  else
    read s_cfg ≫= fun cfg =>
    read activeUsers ≫= fun activeUsers =>
    if negb (bool_decide (uid ∈ activeUsers)) then mret tt
    else
      env (cg_ApplyCPUWeight uid (PSIBoostWeight cfg)) ≫= fun err =>
      match err with
      | Some _ => mret tt
      | None =>
          env time_Now ≫= fun now =>
          update (fun m => set_psiBoostedAt (<[uid := now]> (psiBoostedAt m)) m)
      end.

(** ** Pipeline *)

Definition defaultControlCyclePipeline : list Stage :=
  [stageCheckBlackout; stageCollectMetrics; stageUpdatePrometheus; stageWriteDatabase; stageMakeDecision;
   stageExecuteDecision; stageRecordHistory; stageIORemediation; stageWorkloadPatternDetection;
   stageRevertPSIBoosts; stageLogCompletion].

Fixpoint run_pipeline (stages : list Stage) (run : controlCycleContext) : SM W (option error) :=
  match stages with
  | [] => mret None
  | stage :: rest =>
      stage run ≫= fun '(run', err) =>
      match err with
      | Some e => mret (Some e)
      | None => if cc_stopWithoutError run' then mret None else run_pipeline rest run'
      end
  end.

Definition RunControlCycleWithTrigger (trigger : string) : SM W (option error) :=
  let trigger := if String.eqb trigger "" then "manual" else trigger in
  read s_cfg ≫= fun cfg =>
  env time_Now ≫= fun startTime =>
  read hasExporter ≫= fun exporter =>
  when exporter (env (px_RecordControlCycleTrigger trigger)) ≫= fun _ =>
  run_pipeline defaultControlCyclePipeline
    (mkCycle cfg trigger startTime nil_metrics None NormalRange 0 0 false).

Definition RunControlCycle : SM W (option error) := RunControlCycleWithTrigger "manual".

Definition RunMetricsRefresh (trigger : string) : SM W (option error) :=
  collectSystemMetricsForRefresh ≫= fun metrics =>
  read hasExporter ≫= fun exporter =>
  when exporter (updatePrometheusMetrics metrics) ≫= fun _ => mret None.

Definition ForceActivateLimits : SM W (option error) :=
  collectSystemMetrics ≫= fun metrics => activateLimits metrics.

(** ** Runs of the manager

    One entry point, one task, or a change of the world outside. *)
Inductive manager_step : StateManager * W -> StateManager * W -> Prop :=
  | step_cycle trigger s : manager_step s (exec (RunControlCycleWithTrigger trigger) s)
  | step_refresh trigger s : manager_step s (exec (RunMetricsRefresh trigger) s)
  | step_activate s : manager_step s (exec ForceActivateLimits s)
  | step_deactivate s : manager_step s (exec ForceDeactivateLimits s)
  | step_event uid s : manager_step s (exec (OnUserPSIEvent uid) s)
  | step_config c s : manager_step s (exec (UpdateConfig c) s)
  | step_watcher s : manager_step s (exec RegisterPSIWatcher s)
  | step_task s : manager_step s (exec run_next s)
  | step_cleanup s : manager_step s (exec Cleanup s)
  | step_world m w w' : manager_step (m, w) (m, w').

(** The manager as [NewManager] builds it. *)
Definition initial (s : StateManager * W) : Prop := exists cfg exporter, s.1 = NewStateManager cfg exporter.

End Cycle.

(** ** The part of the state that decides about the limits *)

Definition core (m : StateManager) :=
  (s_cfg m, limitsActive m, limitsAppliedTime m, activeUsers m, sharedCgroupPath m, pending m, controlHist m).

Lemma core_fields m m' :
  core m' = core m ->
  s_cfg m' = s_cfg m /\ limitsActive m' = limitsActive m /\ limitsAppliedTime m' = limitsAppliedTime m /\
  activeUsers m' = activeUsers m /\ sharedCgroupPath m' = sharedCgroupPath m /\ pending m' = pending m /\
  controlHist m' = controlHist m.
Proof. destruct m, m'. cbn. intros [=]. subst. done. Qed.

Section Core.
Context {W : Type} {E : Env W}.

Definition keeps_core {A} (m : SM W A) : Prop := forall s, core (exec m s).1 = core s.1.

Lemma keeps_quiet {A} (m : SM W A) : quiet m -> keeps_core m.
Proof. intros H s. by rewrite H. Qed.

Lemma keeps_update (f : StateManager -> StateManager) : (forall m, core (f m) = core m) -> keeps_core (update f).
Proof. intros H [m w]. apply H. Qed.

Lemma keeps_bind {A B} (m : SM W A) (f : A -> SM W B) : keeps_core m -> (forall a, keeps_core (f a)) -> keeps_core (m ≫= f).
Proof.
  intros Hm Hf s. specialize (Hm s). unfold exec, mbind, ST_bind in *. destruct (m s) as [a s']. simpl in *.
  rewrite <- Hm. apply Hf.
Qed.

Lemma keeps_when b (m : SM W unit) : keeps_core m -> keeps_core (when b m).
Proof. destruct b; [done|]. by intros _ s. Qed.

Lemma keeps_for_each {A} (f : A -> SM W unit) l : (forall a, keeps_core (f a)) -> keeps_core (for_each f l).
Proof. intros Hf. induction l as [|x l IH]; [by intros s|]. by apply keeps_bind. Qed.

Lemma keeps_remediation {A} (m : ST (IORemediation * W) A) : keeps_core (with_remediation m).
Proof. intros [s w]. unfold exec, with_remediation. by destruct (m _) as [a [r w']]. Qed.

End Core.

Ltac keeps_core_with tac :=
  repeat first
    [ tac
    | apply keeps_update; intros []; reflexivity
    | apply keeps_when
    | apply keeps_for_each; intros ?
    | apply keeps_remediation
    | apply keeps_quiet; solve [quiet]
    | apply keeps_bind; [|intros ?]
    | match goal with
      | |- keeps_core (match ?x with _ => _ end) => destruct x
      | |- keeps_core (if ?x then _ else _) => destruct x
      end ].

Section Stages.
Context {W : Type} {E : Env W}.

Lemma keeps_collect upd : keeps_core (W := W) (collectSystemMetricsWithIOState upd).
Proof.
  intros s. destruct (wp_collect upd s) as (w & all & _ & _ & H1 & H2).
  change (core (exec (collectSystemMetricsWithIOState upd) s).1 = core s.1). unfold exec. destruct upd.
  - destruct (H2 eq_refl) as [now ->]. by destruct s as [[] ?].
  - by rewrite H1.
Qed.

Lemma keeps_apply_pattern cfg patterns uid : keeps_core (W := W) (apply_pattern cfg patterns uid).
Proof.
  unfold apply_pattern, apply_policy. keeps_core_with fail.
Qed.

Lemma keeps_detect_user p : keeps_core (W := W) (detect_user p).
Proof. unfold detect_user. keeps_core_with fail. Qed.

Lemma keeps_revert : keeps_core (W := W) revertPSIBoosts.
Proof. unfold revertPSIBoosts. keeps_core_with fail. Qed.

Lemma keeps_event uid : keeps_core (W := W) (OnUserPSIEvent uid).
Proof. unfold OnUserPSIEvent. keeps_core_with fail. Qed.

(** A stage that neither fails nor touches the limits. *)
Definition harmless (stage : Stage (W := W)) : Prop :=
  forall run s, wp (stage run) (fun r s' => r.2 = None /\ core s'.1 = core s.1 /\
    cc_metrics r.1 = cc_metrics run /\ cc_decision r.1 = cc_decision run /\
    cc_stopWithoutError r.1 = cc_stopWithoutError run) s.

Lemma wp_keeps {A} (m : SM W A) (Q : A -> StateManager * W -> Prop) s :
  keeps_core m -> (forall a s', core s'.1 = core s.1 -> Q a s') -> wp m Q s.
Proof. intros Hm HQ. apply HQ, Hm. Qed.

Lemma harmless_of (m : controlCycleContext -> SM W unit) :
  (forall run, keeps_core (m run)) -> harmless (fun run => m run ≫= fun _ => mret (run, None)).
Proof. intros Hm run s. apply wp_bind, wp_keeps; [apply Hm|]. intros [] s' Hs'. by apply wp_ret. Qed.

Lemma harmless_prometheus : harmless stageUpdatePrometheus.
Proof.
  intros run s. unfold stageUpdatePrometheus. apply wp_bind, wp_read, wp_bind, wp_keeps.
  - apply keeps_when, keeps_quiet, quiet_updatePrometheus.
  - intros [] s' Hs'. by apply wp_ret.
Qed.

Lemma harmless_database : harmless stageWriteDatabase.
Proof. apply (harmless_of (fun run => writeDatabaseMetrics (cc_metrics run))). intros. apply keeps_quiet, quiet_writeDatabase. Qed.

Lemma harmless_remediation : harmless stageIORemediation.
Proof.
  intros run s. unfold stageIORemediation. apply wp_bind, wp_env. intros u w. apply wp_bind, wp_env. intros n1 w1.
  apply wp_bind, wp_keeps; [apply keeps_remediation|]. intros [] s1 H1. apply wp_bind, wp_env. intros n2 w2.
  apply wp_bind, wp_keeps; [apply keeps_remediation|]. intros [] s2 H2. apply wp_ret. split_and!; try done.
  by rewrite H2.
Qed.

Lemma harmless_patterns : harmless stageWorkloadPatternDetection.
Proof.
  apply (harmless_of (fun run => when (AutodetectPatterns (cc_cfg run)) _)). intros run.
  keeps_core_with ltac:(first [apply keeps_detect_user|apply keeps_apply_pattern]).
Qed.

Lemma harmless_revert : harmless stageRevertPSIBoosts.
Proof.
  intros run s. unfold stageRevertPSIBoosts. apply wp_bind, wp_read, wp_bind, wp_keeps.
  - apply keeps_when, keeps_revert.
  - intros [] s' Hs'. by apply wp_ret.
Qed.

Lemma harmless_completion : harmless stageLogCompletion.
Proof. intros run s. unfold stageLogCompletion. by apply wp_bind, wp_read, wp_ret. Qed.

Lemma wp_stage stage rest run (Q : option error -> StateManager * W -> Prop) s :
  wp (stage run) (fun r => wp (match r.2 with
    | Some e => mret (Some e)
    | None => if cc_stopWithoutError r.1 then mret None else run_pipeline rest r.1
    end) Q) s ->
  wp (run_pipeline (stage :: rest) run) Q s.
Proof. intros H. cbn [run_pipeline]. apply wp_bind. eapply wp_mono; [|exact H]. by intros [run' err] s'. Qed.

(** A harmless stage of the pipeline can be skipped. *)
Lemma wp_harmless stage rest run (Q : option error -> StateManager * W -> Prop) s :
  harmless stage -> cc_stopWithoutError run = false ->
  (forall run' s', core s'.1 = core s.1 -> cc_metrics run' = cc_metrics run -> cc_decision run' = cc_decision run ->
     cc_stopWithoutError run' = false -> wp (run_pipeline rest run') Q s') ->
  wp (run_pipeline (stage :: rest) run) Q s.
Proof.
  intros Hh Hstop HQ. cbn [run_pipeline]. apply wp_bind. eapply wp_mono; [|apply Hh].
  intros [run' err] s' (He & Hc & Hm & Hd & Hst). cbn [fst snd] in *. rewrite He, Hst, Hstop. apply HQ; congruence.
Qed.

End Stages.

(** What a cycle may do: nothing, in a blackout; a decision that fails; or a
    decision that is carried out and recorded. *)
Inductive cycle_outcome {W} {E : Env W} (s : StateManager * W) : option error -> StateManager * W -> Prop :=
  | cycle_blackout w :
      cycle_outcome s None (s.1, w)
  | cycle_failed s1 mt e e' :
      core s1.1 = core s.1 ->
      let s2 := exec (makeDecision mt) s1 in
      let d := (eval (makeDecision mt) s1).1 in
      eval (executeDecision d mt) s2 = Some e ->
      cycle_outcome s (Some e') (exec (executeDecision d mt) s2)
  | cycle_done s1 mt entry s' :
      core s1.1 = core s.1 ->
      let s2 := exec (makeDecision mt) s1 in
      let d := (eval (makeDecision mt) s1).1 in
      let s3 := exec (executeDecision d mt) s2 in
      eval (executeDecision d mt) s2 = None ->
      e_Decision entry = d -> e_LimitsActive entry = limitsActive s3.1 ->
      core s'.1 = core (set_controlHist (add_entry entry (controlHist s3.1)) s3.1) ->
      cycle_outcome s None s'.

Section Outcome.
Context {W : Type} {E : Env W}.

(** The stages after the decision was carried out. *)
Lemma wp_after_execution run (s : StateManager * W) d :
  cc_stopWithoutError run = false -> cc_decision run = Some d ->
  wp (run_pipeline [stageRecordHistory; stageIORemediation; stageWorkloadPatternDetection;
                    stageRevertPSIBoosts; stageLogCompletion] run)
     (fun r s' => r = None /\ exists entry, e_Decision entry = d /\ e_LimitsActive entry = limitsActive s.1 /\
        core s'.1 = core (set_controlHist (add_entry entry (controlHist s.1)) s.1)) s.
Proof.
  intros Hstop Hd. apply wp_stage. unfold stageRecordHistory, recordControlCycle, addControlHistoryEntry.
  apply wp_bind, wp_env. intros now w. apply wp_bind, wp_bind, wp_read, wp_bind, wp_env. intros now' w'.
  apply wp_update, wp_ret. cbn [cc_stopWithoutError set_cc_duration fst snd]. rewrite Hstop.
  match goal with |- wp _ _ (set_controlHist (add_entry ?e _) _, _) => set (entry := e) end.
  apply wp_harmless; [apply harmless_remediation|done|]. intros run1 s1 H1 _ _ Hs1.
  apply wp_harmless; [apply harmless_patterns|done|]. intros run2 s2 H2 _ _ Hs2.
  apply wp_harmless; [apply harmless_revert|done|]. intros run3 s3 H3 _ _ Hs3.
  apply wp_harmless; [apply harmless_completion|done|]. intros run4 s4 H4 _ _ Hs4.
  apply wp_ret. split; [done|]. exists entry. split_and!; [|done|].
  - unfold entry. cbn. by rewrite Hd.
  - rewrite H4, H3, H2, H1. done.
Qed.

Lemma wp_RunControlCycle trigger (s : StateManager * W) :
  wp (RunControlCycleWithTrigger trigger) (cycle_outcome s) s.
Proof.
  unfold RunControlCycleWithTrigger. apply wp_bind, wp_read, wp_bind, wp_env. intros start w.
  apply wp_bind, wp_read, wp_bind, wp_quiet; [quiet|]. intros [] w1. unfold defaultControlCyclePipeline.
  apply wp_stage. unfold stageCheckBlackout.
  apply wp_bind, wp_env. intros now w2. apply wp_bind, wp_env. intros civil w3. apply wp_ret. cbn [cc_cfg fst snd].
  destruct (IsInBlackout _ _); cbn [cc_stopWithoutError set_cc_stopWithoutError].
  { apply wp_ret. apply cycle_blackout. }
  apply wp_stage. unfold stageCollectMetrics. apply wp_bind, wp_keeps; [apply keeps_collect|].
  intros mt s1 H1. apply wp_ret. cbn [cc_stopWithoutError set_cc_metrics fst snd].
  apply (wp_harmless stageUpdatePrometheus); [apply harmless_prometheus|done|]. intros run2 s2 H2 Hm2 Hd2 Hs2.
  apply (wp_harmless stageWriteDatabase); [apply harmless_database|done|]. intros run3 s3 H3 Hm3 Hd3 Hs3.
  apply wp_stage. unfold stageMakeDecision. apply wp_bind.
  rewrite Hm3, Hm2. cbn [cc_metrics set_cc_metrics].
  assert (core s3.1 = core s.1) as Hcore by (rewrite H3, H2, H1; done).
  destruct (makeDecision mt s3) as [[d reason] s4] eqn:Ed. unfold wp at 1. rewrite Ed. cbn [fst snd].
  apply wp_ret. cbn [cc_stopWithoutError set_cc_reason set_cc_decision fst snd]. rewrite Hs3.
  apply wp_stage. unfold stageExecuteDecision. apply wp_bind.
  cbn [cc_decision cc_metrics set_cc_reason set_cc_decision execute]. rewrite Hm3, Hm2. cbn [cc_metrics set_cc_metrics].
  destruct (executeDecision d mt s4) as [err s5] eqn:Ex. unfold wp at 1. rewrite Ex. cbn [fst snd].
  apply wp_ret. cbn [fst snd]. destruct err as [e|].
  - apply wp_ret. pose proof (cycle_failed s s3 mt e) as K. unfold exec, eval in K. rewrite Ed in K.
    cbn [fst snd] in K. rewrite Ex in K. cbn [fst snd] in K. by apply K.
  - cbn [cc_stopWithoutError set_cc_reason set_cc_decision]. rewrite Hs3.
    eapply wp_mono; [|by apply (wp_after_execution _ s5 d)]. intros r s' (-> & entry & He & Hl & Hc).
    pose proof (cycle_done s s3 mt entry s') as K. unfold exec, eval in K. rewrite Ed in K.
    cbn [fst snd] in K. rewrite Ex in K. cbn [fst snd] in K. by apply K.
Qed.

End Outcome.

(** ** Invariant of the runs *)

Definition task_path (t : Task) : string :=
  match t with ReleaseTask _ p | ReAddTask _ p | LimitTask _ _ p _ => p end.

(** Users are limited only while limits are active and a shared cgroup exists;
    a pending task always works on the present shared cgroup; the history is
    bounded. *)
Definition manager_ok (m : StateManager) : Prop :=
  limits_ok m /\
  Forall (fun t => task_path t = sharedCgroupPath m /\ sharedCgroupPath m <> "") (pending m) /\
  (length (controlHist m) <= maxSize)%nat.

Lemma manager_ok_core m m' : core m' = core m -> manager_ok m -> manager_ok m'.
Proof.
  intros (_ & Hl & _ & Ha & Hp & Ht & Hh)%core_fields. unfold manager_ok, limits_ok. by rewrite Hl, Ha, Hp, Ht, Hh.
Qed.

Lemma manager_ok_lifted l m : manager_ok m -> manager_ok (lifted l m).
Proof. intros (_ & _ & Hh). split_and!; [by split|constructor|done]. Qed.

Lemma tasks_path_app m m' ts :
  manager_ok m -> (sharedCgroupPath m <> "" -> sharedCgroupPath m' = sharedCgroupPath m) ->
  pending m' = pending m ++ ts ->
  Forall (fun t => task_path t = sharedCgroupPath m' /\ sharedCgroupPath m' <> "") ts ->
  Forall (fun t => task_path t = sharedCgroupPath m' /\ sharedCgroupPath m' <> "") (pending m').
Proof.
  intros (_ & Hp & _) Hsame -> Hts. apply Forall_app. split; [|done].
  eapply Forall_impl; [exact Hp|]. intros t [Ht Hne]. by rewrite Hsame.
Qed.

Lemma manager_ok_activation metrics m m' r created :
  activation metrics m m' r created -> manager_ok m -> manager_ok m'.
Proof.
  intros Hact Hok. pose proof Hok as (Hl & Hp & Hh). split_and!.
  - by eapply activation_limits_ok.
  - destruct Hact as (_ & _ & Hsame & _ & _ & _ & _ & Hpend & Hc).
    eapply tasks_path_app; [exact Hok|exact Hsame|exact Hpend|]. apply Forall_map.
    destruct Hc as [(_ & _ & -> & _)|[Hne _]]; [constructor|]. by apply Forall_true.
  - by destruct Hact as (_ & -> & _).
Qed.

Lemma manager_ok_rebalanced metrics m m' released added :
  limitsActive m = true -> rebalanced metrics m m' released added -> manager_ok m -> manager_ok m'.
Proof.
  intros Ha (_ & Hhist & _ & _ & _ & Hpend & Hl & Hp & _) Hok. pose proof Hok as ((_ & H2) & _ & Hh).
  specialize (H2 Ha). split_and!.
  - split; rewrite ?Hl, ?Hp; done.
  - eapply tasks_path_app; [exact Hok|by intros _|exact Hpend|]. rewrite Hp.
    apply Forall_app; split; apply Forall_map; by apply Forall_true.
  - by rewrite Hhist.
Qed.

Lemma add_entry_length entry l : (length l <= maxSize)%nat -> (length (add_entry entry l) <= maxSize)%nat.
Proof.
  intros H. unfold add_entry. destruct (Nat.ltb_spec maxSize (length (l ++ [entry]))) as [Hlt|]; [|done].
  rewrite length_drop. lia.
Qed.

Section Invariant.
Context {W : Type} {E : Env W} {L : SharedPathLaw W}.

Definition maintains {A} (m : SM W A) : Prop := forall s, manager_ok s.1 -> manager_ok (exec m s).1.

Lemma maintains_core {A} (m : SM W A) : keeps_core m -> maintains m.
Proof. intros Hm s. apply manager_ok_core, Hm. Qed.

Lemma maintains_bind {A B} (m : SM W A) (f : A -> SM W B) : maintains m -> (forall a, maintains (f a)) -> maintains (m ≫= f).
Proof.
  intros Hm Hf s Hs. specialize (Hm s Hs). unfold exec, mbind, ST_bind in *. destruct (m s) as [a s']. by apply Hf.
Qed.

Lemma maintains_ret {A} (a : A) : maintains (mret a).
Proof. by intros s. Qed.

Lemma maintains_activate metrics : maintains (activateLimits metrics).
Proof.
  intros s Hs. destruct (wp_activateLimits metrics s) as (created & Hact & _).
  by eapply manager_ok_activation.
Qed.

Lemma maintains_deactivate : maintains deactivateLimits.
Proof.
  intros s Hs. apply (wp_deactivateLimits (fun _ s' => manager_ok s'.1) s). intros r l w _. by apply manager_ok_lifted.
Qed.

Lemma maintains_release metrics : maintains (releaseIdleUsers metrics).
Proof.
  intros s Hs. destruct (limitsActive s.1) eqn:Ha.
  - destruct (wp_releaseIdleUsers metrics s Ha) as (_ & released & added & Hr & _). by eapply manager_ok_rebalanced.
  - apply (wp_exec (releaseIdleUsers metrics) (fun s' => manager_ok s'.1)).
    unfold releaseIdleUsers. apply wp_bind, wp_read. rewrite Ha. by apply wp_ret.
Qed.

Lemma maintains_execute d metrics : maintains (executeDecision d metrics).
Proof. destruct d; [apply maintains_activate|apply maintains_release|apply maintains_deactivate]. Qed.

Lemma maintains_run_next : maintains run_next.
Proof.
  intros s (Hl & Hp & Hh). apply (wp_exec run_next (fun s' => manager_ok s'.1)).
  eapply wp_mono; [|apply wp_run_next]. intros _ s' (i & -> & _). split_and!; [done| |done].
  cbn [pending set_pending sharedCgroupPath]. rewrite delete_take_drop. apply Forall_app. split.
  - by apply Forall_take.
  - by apply Forall_drop.
Qed.

Lemma maintains_wait : maintains wait.
Proof. intros s (Hl & _ & Hh). apply (wp_wait (fun _ s' => manager_ok s'.1) s). intros w. split_and!; [done|constructor|done]. Qed.

Lemma makeDecision_core mt (s : StateManager * W) : core (exec (makeDecision mt) s).1 = core s.1.
Proof.
  destruct (makeDecision_wp mt s) as [H _]. unfold exec. revert H. unfold same_but_trackers, core.
  destruct s as [[] w], (makeDecision mt _) as [d [[] w']]. cbn. intros [=]. by subst.
Qed.

Lemma maintains_cycle trigger : maintains (RunControlCycleWithTrigger trigger).
Proof.
  intros s Hs. pose proof (wp_RunControlCycle trigger s) as K. unfold wp in K. unfold exec.
  destruct K as [w|s1 mt e e' Hc s2 d He|s1 mt entry s' Hc s2 d s3 He Hd Hl Hs'].
  - done.
  - apply maintains_execute. apply (manager_ok_core s.1); [|done]. unfold s2. by rewrite makeDecision_core, Hc.
  - assert (manager_ok s3.1) as H3.
    { apply maintains_execute. apply (manager_ok_core s.1); [|done]. unfold s2. by rewrite makeDecision_core, Hc. }
    eapply manager_ok_core; [exact Hs'|]. destruct H3 as (H1 & H2 & H3). split_and!; [done|done|].
    by apply add_entry_length.
Qed.

Lemma maintains_cleanup : maintains Limits.Cleanup.
Proof.
  apply maintains_bind; [apply maintains_wait|]. intros _. apply maintains_bind; [by apply maintains_core|]. intros b.
  apply maintains_bind; [destruct b; [apply maintains_deactivate|apply maintains_ret]|]. intros [e|]; [apply maintains_ret|].
  apply maintains_core, keeps_quiet. quiet.
Qed.

Lemma manager_step_ok s s' : manager_ok s.1 -> manager_step s s' -> manager_ok s'.1.
Proof.
  intros Hs Hstep. destruct Hstep as [trigger s|trigger s|s|s|uid s|c s|s|s|s|m w w'].
  - by apply maintains_cycle.
  - apply (maintains_core (RunMetricsRefresh trigger)); [|done]. unfold RunMetricsRefresh.
    keeps_core_with ltac:(first [apply keeps_collect|apply keeps_quiet, quiet_updatePrometheus]).
  - apply (maintains_bind _ activateLimits); [|apply maintains_activate|done]. apply maintains_core, keeps_collect.
  - apply (maintains_bind deactivateLimits _ maintains_deactivate); [|done]. intros err.
    apply maintains_core. keeps_core_with fail.
  - apply (maintains_core _ (keeps_event uid)); done.
  - destruct c as [c|]; [|done]. destruct s as [m w], Hs as (H1 & H2 & H3). by split_and!.
  - by apply (maintains_core RegisterPSIWatcher); [keeps_core_with fail|].
  - by apply maintains_run_next.
  - by apply maintains_cleanup.
  - done.
Qed.

End Invariant.

(** ** What the operations do to the mark of active limits *)

Section Effects.
Context {W : Type} {E : Env W}.

Lemma limitsActive_release metrics (s : StateManager * W) :
  limitsActive (exec (releaseIdleUsers metrics) s).1 = limitsActive s.1.
Proof.
  destruct (limitsActive s.1) eqn:Ha.
  - destruct (wp_releaseIdleUsers metrics s Ha) as (_ & r & a & (_ & _ & _ & _ & _ & _ & Hl & _) & _).
    unfold exec. by rewrite Hl.
  - apply (wp_exec (releaseIdleUsers metrics) (fun s' => limitsActive s'.1 = false)).
    unfold releaseIdleUsers. apply wp_bind, wp_read. rewrite Ha. by apply wp_ret.
Qed.

Lemma limitsActive_activate `{!SharedPathLaw W} metrics (s : StateManager * W) :
  limitsActive s.1 = true -> limitsActive (exec (activateLimits metrics) s).1 = true.
Proof.
  intros Ha. destruct (wp_activateLimits metrics s) as (created & Hact & _).
  destruct Hact as (_ & _ & _ & _ & _ & _ & _ & _ & Hc). unfold exec.
  destruct Hc as [(_ & _ & _ & ->)|(_ & ->)]; [done|]. by rewrite Ha.
Qed.

Lemma limitsActive_deactivate (s : StateManager * W) : limitsActive (exec deactivateLimits s).1 = false.
Proof. by apply (wp_deactivateLimits (fun _ s' => limitsActive s'.1 = false) s). Qed.

Lemma wp_env_in {A} (P : W -> Prop) (m : ST W A) (Q : A -> StateManager * W -> Prop) s :
  (forall w, P w -> P (exec m w)) -> P s.2 ->
  (forall a w, P w -> (exists w0, P w0 /\ a = eval m w0 /\ w = exec m w0) -> Q a (s.1, w)) ->
  wp (env m) Q s.
Proof.
  intros Hp Hs HQ. destruct s as [st w]. specialize (Hp w Hs). unfold wp, env. unfold exec in *.
  specialize (HQ (m w).1 (m w).2 Hp). destruct (m w) as [a w'] eqn:Em. apply HQ. exists w. unfold eval. by rewrite Em.
Qed.

Lemma wp_env_gets {A} (f : W -> A) (Q : A -> StateManager * W -> Prop) s : Q (f s.2) s -> wp (env (gets f)) Q s.
Proof. by destruct s. Qed.

Lemma wp_event uid (s : StateManager * W) :
  wp (OnUserPSIEvent uid) (fun _ s' => s'.1 = s.1 \/ (0 < uid /\ uid ∈ activeUsers s.1 /\
    exists now, s'.1 = set_psiBoostedAt (<[uid := now]> (psiBoostedAt s.1)) s.1)) s.
Proof.
  unfold OnUserPSIEvent. destruct (Z.leb_spec uid 0); [by apply wp_ret; left|].
  apply wp_bind, wp_read, wp_bind, wp_read. case_bool_decide as Hu; cbn [negb]; [|by apply wp_ret; left].
  apply wp_bind, wp_env. intros [e|] w; [by apply wp_ret; left|].
  apply wp_bind, wp_env. intros now w'. apply wp_update. right. split_and!; [done|done|]. by exists now.
Qed.

Lemma expired_elem now d (boosts : gmap Z Time) (uids : list Z) u :
  uids ≡ₚ elements (dom boosts) ->
  u ∈ List.filter (boost_expired now d boosts) uids <-> boost_expired now d boosts u = true.
Proof.
  intros Hu. rewrite list_elem_of_In, filter_In, <- list_elem_of_In, (elem_of_range (dom boosts) uids u Hu).
  unfold boost_expired. rewrite elem_of_dom. destruct (boosts !! u); [naive_solver|]. split; [by intros [? ?]|done].
Qed.

Lemma wp_revert (s : StateManager * W) :
  wp revertPSIBoosts (fun _ s' => exists now l, s'.1 = set_psiBoostedAt l s.1 /\
    forall u, l !! u =
      if boost_expired now (seconds (PSIBoostDuration (s_cfg s.1))) (psiBoostedAt s.1) u then None
      else psiBoostedAt s.1 !! u) s.
Proof.
  unfold revertPSIBoosts. apply wp_bind, wp_read, wp_bind, wp_env. intros now w. apply wp_bind, wp_read, wp_bind, wp_range.
  intros uids w1 Hu. cbn [fst] in *. apply wp_bind, wp_quiet; [quiet|]. intros [] w2.
  apply (wp_for_each_fun _ (fun m uid => set_psiBoostedAt (delete uid (psiBoostedAt m)) m)); [intros; by apply wp_update|].
  intros w3. exists now. cbn [fst]. rewrite drop_boosts. eexists. split; [done|]. intros u. rewrite lookup_drop_keys.
  pose proof (expired_elem now (seconds (PSIBoostDuration (s_cfg s.1))) (psiBoostedAt s.1) uids u Hu) as He.
  case_bool_decide as Hd; rewrite He in Hd; [by rewrite Hd|]. by destruct (boost_expired _ _ _ _).
Qed.

End Effects.

(** ** Properties *)

Section Properties.
Context {W : Type} {E : Env W}.

Lemma initial_ok (s : StateManager * W) : initial s -> manager_ok s.1.
Proof. intros (cfg & exporter & ->). split_and!; [by split|constructor|]. cbn. lia. Qed.

(** C2: in every state the manager can reach, through any sequence of control
    cycles, refreshes, forced operations, pressure events, reconfigurations
    and tasks, users are limited only while limits are active and a shared
    cgroup exists, every task under way works on that shared cgroup (never on
    one that was removed), and the history holds at most a hundred entries. *)
Theorem manager_invariant `{!SharedPathLaw W} (s : StateManager * W) :
  reachable initial manager_step s -> manager_ok s.1.
Proof.
  apply (reachable_invariant _ _ (fun s => manager_ok s.1)); [apply initial_ok|intros s1 s2; apply manager_step_ok].
Qed.



(** A control cycle started in a blackout window succeeds and leaves the
    manager exactly as it was. *)
Theorem blackout_untouched (P : W -> Prop) trigger (s : StateManager * W) :
  P s.2 -> preserves P time_Now ->
  (forall t, preserves P (px_RecordControlCycleTrigger t)) ->
  (forall w, P w -> IsInBlackout (s_cfg s.1) (local_time (exec time_Now w) (eval time_Now w)) = true) ->
  eval (RunControlCycleWithTrigger trigger) s = None /\ (exec (RunControlCycleWithTrigger trigger) s).1 = s.1.
Proof.
  intros Hs Hnow Hrec Hb.
  change (wp (RunControlCycleWithTrigger trigger) (fun r s' => r = None /\ s'.1 = s.1) s).
  unfold RunControlCycleWithTrigger. apply wp_bind, wp_read, wp_bind, (wp_env_in P); [done|done|]. intros start w1 H1 _.
  apply wp_bind, wp_read, wp_bind. apply (wp_mono _ (fun _ s' => s'.1 = s.1 /\ P s'.2)).
  2: { apply wp_when; [|done]. intros _. apply (wp_env_in P); [apply Hrec|done|]. intros [] w2 H2 _. by split. }
  intros [] [m2 w2] [Hm2 H2]. cbn [fst snd] in *. subst m2. apply wp_stage. unfold stageCheckBlackout.
  apply wp_bind, (wp_env_in P); [done|done|]. intros now w3 H3 (w0 & H0 & -> & ->).
  apply wp_bind, wp_env_gets, wp_ret. cbn [cc_cfg fst snd]. rewrite Hb by done. by apply wp_ret.
Qed.

(** A metrics refresh never fails and leaves the manager exactly as it
    was, whatever it exports. *)
Theorem RunMetricsRefresh_untouched trigger (s : StateManager * W) :
  eval (RunMetricsRefresh trigger) s = None /\ (exec (RunMetricsRefresh trigger) s).1 = s.1.
Proof.
  change (wp (RunMetricsRefresh trigger) (fun r s' => r = None /\ s'.1 = s.1) s).
  unfold RunMetricsRefresh. apply wp_bind, wp_quiet; [apply quiet_collect_refresh|]. intros m w.
  apply wp_bind, wp_read, wp_bind, wp_quiet; [apply quiet_when, quiet_updatePrometheus|]. intros [] w'. by apply wp_ret.
Qed.

(** Pressure boosts: an event marks only a limited user, and the periodic
    pass forgets exactly the users whose boost has expired at some instant,
    touching nothing else. *)
Theorem boosts_spec uid (s : StateManager * W) :
  ((exec (OnUserPSIEvent uid) s).1 = s.1 \/
   (0 < uid /\ uid ∈ activeUsers s.1 /\
    exists now, (exec (OnUserPSIEvent uid) s).1 = set_psiBoostedAt (<[uid := now]> (psiBoostedAt s.1)) s.1)) /\
  exists now l, (exec revertPSIBoosts s).1 = set_psiBoostedAt l s.1 /\
    forall u, l !! u =
      if boost_expired now (seconds (PSIBoostDuration (s_cfg s.1))) (psiBoostedAt s.1) u then None
      else psiBoostedAt s.1 !! u.
Proof. split; [apply wp_event|apply wp_revert]. Qed.

End Properties.

(** ** Witnesses *)

(** A cycle over two busy users, then one task, from a fresh manager. *)
Definition busy_site : Recorder := site (1000 * second) 8 [user_at 1000 50 true; user_at 1001 40 true].

Definition impatient_config : Config := set_CPUThresholdDuration 0 (DefaultConfig None).

Definition started : StateManager * Recorder := (NewStateManager impatient_config true, busy_site).

Definition cycled : StateManager * Recorder := exec (RunControlCycleWithTrigger "ticker") started.

Example first_cycle :
  limitsActive cycled.1 = true /\ sharedCgroupPath cycled.1 = "/sys/fs/cgroup/resman/limited" /\
  length (pending cycled.1) = 2%nat /\ map e_Decision (controlHist cycled.1) = [ACTIVATE_LIMITS] /\
  eval (RunControlCycleWithTrigger "ticker") started = None.
Proof. vm_compute. done. Qed.

Lemma manager_invariant_witness : manager_ok (exec run_next cycled).1.
Proof.
  apply (manager_invariant (exec run_next cycled)).
  apply (reach_step _ _ cycled); [|apply step_task].
  apply (reach_step _ _ started); [|apply step_cycle].
  apply reach_init. exists impatient_config, true. reflexivity.
Defined.


(** Thursday 1970-01-01 at 00:16 UTC, in a window from Monday to Friday. *)
Definition blackout_config : Config :=
  set_BlackoutTimeframes [mkTimeframe [1; 2; 3; 4; 5] 0 8] (DefaultConfig None).

Definition night : StateManager * Recorder :=
  (NewStateManager blackout_config true, site (unix_epoch + 1000 * second) 8 [user_at 1000 90 true]).

Lemma blackout_untouched_witness :
  eval (RunControlCycleWithTrigger "ticker") night = None /\
  (exec (RunControlCycleWithTrigger "ticker") night).1 = NewStateManager blackout_config true.
Proof.
  apply (blackout_untouched (fun r => r_now r = unix_epoch + 1000 * second) "ticker" night).
  - reflexivity.
  - intros w H. exact H.
  - intros t w H. exact H.
  - intros w H. change (eval time_Now w) with (r_now w). rewrite H. vm_compute. reflexivity.
Defined.
