(* ===== verification/Linked.v ===== *)
(** * The state manager on top of the cgroup package

    [package_manager] gives the operations of the cgroup manager (the files
    [CgroupBase] .. [CgroupCleanup]) as the interface the state manager was
    proved against, and discharges the interface's law; the world of the state
    manager is then the cgroup manager with the operating system below it. *)

From S2P Require Import Prelude GoStrings GoFloat Config Blackout ConfigLoad OS UserFilter CgroupBase CgroupProcess CgroupLimits CgroupCleanup StateBase Recorder Decision Limits Collect ControlCycle.

#[local] Open Scope Z_scope.

Section Package.
Context `{RE : Regexp} {W : Type} {O : OS W} {P : Processes W} {T : Timer W} (oor : f64 -> Z).

(** [GetCreatedCgroups] gives [CleanupAll] the users in the order of the map. *)
#[local] Instance package_manager : CgroupManager (Manager * W) := {|
  cg_ApplyCPULimit := ApplyCPULimit;
  cg_ApplyCPUWeight := ApplyCPUWeight;
  cg_ApplyRAMLimit := ApplyRAMLimit;
  cg_ApplyRAMLimitWithHigh := ApplyRAMLimitWithHigh;
  cg_ApplyRAMLimitWithHighAndSwapDisabled := ApplyRAMLimitWithHighAndSwapDisabled;
  cg_RemoveRAMLimit := RemoveRAMLimit;
  cg_RemoveRAMHigh := RemoveRAMHigh;
  cg_ApplyIOLimit := ApplyIOLimit;
  cg_RemoveIOLimit := RemoveIOLimit;
  cg_GetUserCgroupMetrics := GetUserCgroupMetrics;
  cg_GetPSIStats := GetPSIStats oor;
  cg_MoveAllUserProcessesToSharedCgroup := MoveAllUserProcessesToSharedCgroup;
  cg_ReleaseUserFromSharedCgroup := ReleaseUserFromSharedCgroup;
  cg_CreateSharedCgroup := CreateSharedCgroup;
  cg_ApplySharedCPULimit := ApplySharedCPULimit;
  cg_CreateUserSubCgroup := CreateUserSubCgroup;
  cg_CleanupAll := GetCreatedCgroups ≫= fun uids => CleanupAll uids
|}.

(** ** Paths are never empty *)

Lemma app_nonempty (a b : string) : a <> "" -> a +:+ b <> "".
Proof. by destruct a. Qed.

Lemma Clean_nonempty p : Clean p <> "".
Proof.
  unfold Clean. destruct (HasPrefix p "/"); [done|]. by destruct (String.eqb_spec (Join (clean_segments false (Split p "/"%char) []) "/") "").
Qed.

Lemma filepath_Join_nonempty base name : name <> "" -> filepath_Join [base; name] <> "".
Proof.
  intros Hn. cbn [filepath_Join]. destruct (String.eqb base ""); [|apply Clean_nonempty].
  destruct (String.eqb_spec name ""); [done|apply Clean_nonempty].
Qed.

(** ** The law of the interface *)

Lemma CreateSharedCgroup_path (s : Manager * W) p :
  eval CreateSharedCgroup s = Ok p -> exists base, p = filepath_Join [base; "limited"].
Proof.
  revert p. change (wp CreateSharedCgroup (fun r _ => forall p, r = Ok p -> exists base, p = filepath_Join [base; "limited"]) s).
  unfold CreateSharedCgroup. apply wp_bind, wp_any. intros base s1.
  apply wp_bind, wp_any. intros st s2. apply wp_bind, wp_any. intros [] s3. apply wp_bind, wp_any.
  intros [e|] s4; [by apply wp_ret|]. apply wp_bind, wp_any. intros c s5. cbn zeta.
  do 4 (apply wp_bind, wp_any; intros [] ?). apply wp_ret. intros p [= <-]. by exists base.
Qed.

#[local] Instance package_shared_path : SharedPathLaw (Manager * W).
Proof. intros s p Hp. apply CreateSharedCgroup_path in Hp as [base ->]. by apply filepath_Join_nonempty. Qed.

(** ** The linked system *)

Context {C : Clock (Manager * W)} {M : MetricsCollector (Manager * W)} {X : PrometheusExporter (Manager * W)}
  {Y : PressureMonitoring (Manager * W)} {U : UserFilters (Manager * W)} {F : ManagerFiles (Manager * W)}
  {D : Scheduler (Manager * W)} {R : MapOrder (Manager * W)}.

Definition linked_env : Env (Manager * W) := {| env_cgroups := package_manager; env_oor := oor |}.

(** The whole system, the state manager over the cgroup package over any
    operating system: no reachable state has a limited user outside an active
    limitation with a shared cgroup, nor a task working on a removed one. *)
Theorem linked_invariant (s : StateManager * (Manager * W)) :
  reachable initial (manager_step (E := linked_env)) s -> manager_ok s.1.
Proof.
  apply (reachable_invariant _ _ (fun s => manager_ok s.1)).
  - apply initial_ok.
  - intros s1 s2. apply (manager_step_ok (E := linked_env)).
Qed.

End Package.

(** ** Witness: the linked system on a quiet machine *)

Section Quiet.
Context {W : Type}.

Definition quiet_clock : Clock W := {| time_Now := mret (1000 * second); local_time _ := utc |}.

Definition quiet_metrics : MetricsCollector W := {|
  mc_GetTotalCores := mret 4;
  mc_GetTotalCPUUsage := mret fzero;
  mc_GetLimitedUsers := mret [1000];
  mc_GetMemoryUsage := mret fzero;
  mc_GetTotalMemoryMB := mret fzero;
  mc_GetCachedMemoryMB := mret fzero;
  mc_IsSystemUnderLoad := mret false;
  mc_GetAllUserMetrics := mret [user_at 1000 90 true];
  mc_ShouldWrite := mret None;
  mc_WriteMetricsToDatabase _ _ _ _ _ _ := mret tt;
  mc_GetUsernameFromUID uid := mret ("u" +:+ Itoa uid)
|}.

Definition quiet_exporter : PrometheusExporter W := {|
  px_UpdateMetrics _ := mret tt;
  px_UpdateUserMetrics _ := mret tt;
  px_UpdateSystemMetrics _ _ _ := mret tt;
  px_UpdateUserWorkloadPattern _ _ _ _ := mret tt;
  px_RecordControlCycleTrigger _ := mret tt;
  px_CleanupUserMetrics _ := mret tt;
  px_IncrementLimitsActivated := mret tt;
  px_IncrementLimitsDeactivated := mret tt;
  px_Stop := mret tt
|}.

Definition quiet_psi : PressureMonitoring W := {|
  psi_AddMonitor _ _ _ := mret None;
  psi_RemoveMonitor _ _ := mret tt
|}.

Definition quiet_filters : UserFilters W := {| uf_RAM _ _ := mret true; uf_IO _ _ := mret true |}.

Definition quiet_files : ManagerFiles W := {| mf_RemoveAll _ := mret None; mf_ReadLoadAvg := mret (Err "no load average") |}.

Definition quiet_sched : Scheduler W := {| next_task _ := mret 0%nat |}.

Definition quiet_order : MapOrder W := {| range_keys s := mret (elements s); range_keys_perm s w := Permutation_refl (elements s) |}.

End Quiet.

#[local] Existing Instance literal_regexp.

Definition quiet_env : Env (Manager * Box) :=
  linked_env (fun _ => 0) (C := quiet_clock) (M := quiet_metrics) (X := quiet_exporter) (Y := quiet_psi)
    (U := quiet_filters) (F := quiet_files) (D := quiet_sched) (R := quiet_order).

Definition linked_start : StateManager * (Manager * Box) :=
  (NewStateManager impatient_config true,
   (@mkManager literal_regexp impatient_config ∅ ∅ "/run/resman-cgroups.txt" true true,
    mkBox (mkDisk ∅ ∅ []) [(42, 1000)] [])).

Definition linked_cycled : StateManager * (Manager * Box) :=
  exec (RunControlCycleWithTrigger (E := quiet_env) "ticker") linked_start.

Lemma linked_invariant_witness : manager_ok linked_cycled.1.
Proof.
  apply (linked_invariant (fun _ => 0) (C := quiet_clock) (M := quiet_metrics) (X := quiet_exporter) (Y := quiet_psi)
           (U := quiet_filters) (F := quiet_files) (D := quiet_sched) (R := quiet_order) linked_cycled).
  apply (reach_step _ _ linked_start); [|apply step_cycle].
  apply reach_init. exists impatient_config, true. reflexivity.
Defined.

(** Four cores, one reserved: the user is moved under a quota of three. *)
Example linked_cycle_effect :
  elements (activeUsers linked_cycled.1) = [1000] /\
  box_log linked_cycled.2.2 =
    [("/sys/fs/cgroup/resman/limited/cpu.max", "300000 100000");
     ("/sys/fs/cgroup/resman/limited/user_1000/cpu.weight", "100")].
Proof. vm_compute. done. Qed.
