(* ===== verification/Reload.v ===== *)
(** * Reloading the configuration
      (config/watcher.go, reloader/reloader.go)

    The watcher keeps the last configuration that was applied with the
    modification time and the size of its file, and its loop, whose events are
    notifications, ticks and the debounce timer; [onChange] is its handler.
    The reloader is such a handler: it hands a configuration to the exporter,
    the state manager and the collector of [Targets].  Its lock is a flag: to
    take it while it is held blocks for ever ([Blocked]), as nobody else holds
    it.  The file is seen through [os_ReadFile] and [os_StatInfo]. *)

From S2P Require Import Prelude GoStrings GoFloat GoNumbers Config Blackout ConfigLoad OS UserFilter StateBase CollectorBase Prometheus.

#[local] Open Scope Z_scope.

(** ** The outside *)

(** The environment variables and [url.Parse]; modification time and size of a
    file. *)
Class Site (W : Type) := {
  os_Getenv : string -> string;
  url_Parse : string -> option (string * string);
  os_StatInfo : string -> ST W (result (Time * Z))
}.

(** [os.ReadFile] in [loadFromFile]. *)
Definition read_of (r : result string) : read_result :=
  match r with
  | Ok data => FileData data
  | Err e => if os_IsNotExist e then FileMissing else FileError e
  end.

Definition contents (r : result string) : option string := match r with Ok data => Some data | Err _ => None end.

Section Load.
Context `{RE : Regexp} {W : Type} `{O : OS W} `{S : Site W}.

(** [LoadAndValidate] on the files as they are. *)
Definition load_config (path : string) : ST W (result Config) :=
  os_ReadFile "/proc/sys/kernel/pid_max" ≫= fun pid =>
  os_ReadFile path ≫= fun file =>
  mret (LoadAndValidate url_Parse (contents pid) path (read_of file) os_Getenv).1.

End Load.

(** ** The watcher *)

Record Watcher := mkWatcher {
  configPath : string;
  currentConfig : Config;
  lastModTime : Time;
  lastFileSize : Z;
  w_isRunning : bool;
  pendingReload : bool;
  debounce : option Time
}.

Definition Watcher_eta (w : Watcher) : Watcher := mkWatcher (configPath w) (currentConfig w) (lastModTime w)
  (lastFileSize w) (w_isRunning w) (pendingReload w) (debounce w).

Definition set_w_isRunning : bool -> Watcher -> Watcher := ltac:(setter Watcher_eta w_isRunning).

Definition set_pendingReload : bool -> Watcher -> Watcher := ltac:(setter Watcher_eta pendingReload).

Definition set_debounce : option Time -> Watcher -> Watcher := ltac:(setter Watcher_eta debounce).

(** The last lines of [handleConfigChange]. *)
Definition applied (cfg : Config) (modTime : Time) (size : Z) (w : Watcher) : Watcher :=
  mkWatcher (configPath w) cfg modTime size (w_isRunning w) (pendingReload w) (debounce w).

(** The operations of a notification. *)
Inductive FsOp := Create | Write | Remove | Rename | Chmod.

Definition concerns (op : list FsOp) : bool :=
  existsb (fun o => match o with Chmod => false | _ => true end) op.

Definition debounce_delay : Duration := 2 * second.

Section Watch.
Context `{RE : Regexp} {W : Type} `{O : OS W} `{S : Site W} `{C : Clock W}.
Context (onChange : option (Config -> ST W (blocking (option error)))).

Definition WM (A : Type) : Type := ST (Watcher * W) A.

Definition out {A} (m : ST W A) : WM A := fun '(s, w) => let '(a, w') := m w in (a, (s, w')).

Definition watcher {A} (f : Watcher -> A) : WM A := fun s => (f s.1, s).

Definition alter_watcher (f : Watcher -> Watcher) : WM unit := modify (fun '(s, w) => (f s, w)).

(** [NewWatcher], for the configuration that is in use. *)
Definition NewWatcher (path : string) (initialConfig : Config) : ST W (result Watcher) :=
  os_StatInfo path ≫= fun r =>
  mret match r with
       | Err e => Err ("cannot stat config file at " +:+ path +:+ ": " +:+ e)
       | Ok (modTime, size) => Ok (mkWatcher path initialConfig modTime size false false None)
       end.

Definition StartWatcher : WM (option error) :=
  watcher w_isRunning ≫= fun running =>
  if running : bool then mret (Some "watcher already running")
  else alter_watcher (set_w_isRunning true) ≫= fun _ => mret None.

Definition StopWatcher : WM (option error) :=
  alter_watcher (fun w => if w_isRunning w then set_w_isRunning false w else w) ≫= fun _ => mret None.

Definition same_file (w : Watcher) (info : Time * Z) : bool :=
  (info.1 =? lastModTime w) && (info.2 =? lastFileSize w).

(** [handleConfigChange]. *)
Definition handleConfigChange : WM (blocking unit) :=
  watcher configPath ≫= fun path =>
  out (os_StatInfo path) ≫= fun r =>
  match r with
  | Err _ => mret (Returned tt)
  | Ok info =>
      watcher (fun w => same_file w info) ≫= fun same =>
      if same : bool then mret (Returned tt)
      else
        out (load_config path) ≫= fun r =>
        match r with
        | Err _ => mret (Returned tt)
        | Ok newConfig =>
            match onChange with
            | None => mret (Returned None)
            | Some handler => out (handler newConfig)
            end ≫= fun res =>
            match res with
            | Blocked => mret Blocked
            | Returned (Some _) => mret (Returned tt)
            | Returned None => alter_watcher (applied newConfig info.1 info.2) ≫= fun _ => mret (Returned tt)
            end
        end
  end.

(** The periodic check. *)
Definition checkConfigChange : WM (blocking unit) :=
  watcher configPath ≫= fun path =>
  out (os_StatInfo path) ≫= fun r =>
  match r with
  | Err _ => mret (Returned tt)
  | Ok info => watcher (fun w => same_file w info) ≫= fun same => if same : bool then mret (Returned tt) else handleConfigChange
  end.

(** A notification for the file arms the timer, unless it is armed. *)
Definition file_event (name : string) (op : list FsOp) : WM unit :=
  watcher configPath ≫= fun path =>
  if negb (concerns op) then mret tt
  else if negb (String.eqb name path) then mret tt
  else
    watcher pendingReload ≫= fun pending =>
    when (negb pending)
      (alter_watcher (set_pendingReload true) ≫= fun _ =>
       out time_Now ≫= fun now =>
       alter_watcher (set_debounce (Some (now + debounce_delay)))).

(** The timer fires. *)
Definition timer_event : WM (blocking unit) :=
  alter_watcher (set_debounce None) ≫= fun _ =>
  watcher pendingReload ≫= fun pending =>
  if pending : bool then alter_watcher (set_pendingReload false) ≫= fun _ => handleConfigChange
  else mret (Returned tt).

(** The iterations of [watchLoop], the signal that asks for a reload, and the
    world changing by itself; a blocked loop takes no other step.  [Q] is what
    the world does between them. *)
Inductive watch_step (Q : W -> W -> Prop) : Watcher * W -> Watcher * W -> Prop :=
  | watch_file name op s : w_isRunning s.1 = true -> watch_step Q s (exec (file_event name op) s)
  | watch_periodic s : w_isRunning s.1 = true -> eval checkConfigChange s = Returned tt ->
      watch_step Q s (exec checkConfigChange s)
  | watch_timer s deadline : w_isRunning s.1 = true -> debounce s.1 = Some deadline -> deadline <= eval time_Now s.2 ->
      eval timer_event s = Returned tt -> watch_step Q s (exec timer_event s)
  | watch_signal s : eval handleConfigChange s = Returned tt -> watch_step Q s (exec handleConfigChange s)
  | watch_stop s : watch_step Q s (exec StopWatcher s)
  | watch_world s w w' : Q w w' -> watch_step Q (s, w) (s, w').

End Watch.

(** ** The reloader *)

Record Targets `{RE : Regexp} := mkTargets {
  t_state : option StateManager;
  t_collector : option Collector;
  t_exporter : option Exporter;
  t_locked : bool
}.

Section Reloader.
Context `{RE : Regexp} {W : Type} `{O : OS W} `{C : Clock W}.

Definition RM (A : Type) : Type := ST (Targets * W) A.

Definition targets {A} (f : Targets -> A) : RM A := fun s => (f s.1, s).

Definition alter_targets (f : Targets -> Targets) : RM unit := modify (fun '(t, w) => (f t, w)).

Definition set_t_state (m : option StateManager) (t : Targets) : Targets :=
  mkTargets _ m (t_collector t) (t_exporter t) (t_locked t).

Definition set_t_collector (c : option Collector) (t : Targets) : Targets :=
  mkTargets _ (t_state t) c (t_exporter t) (t_locked t).

Definition set_t_exporter (e : option Exporter) (t : Targets) : Targets :=
  mkTargets _ (t_state t) (t_collector t) e (t_locked t).

Definition set_t_locked (b : bool) (t : Targets) : Targets :=
  mkTargets _ (t_state t) (t_collector t) (t_exporter t) b.

(** A call on a component, when there is one. *)
Definition on_state {A} (m : SM W A) : RM (option A) := fun '(t, w) =>
  match t_state t with
  | None => (None, (t, w))
  | Some s => let '(a, (s', w')) := m (s, w) in (Some a, (set_t_state (Some s') t, w'))
  end.

Definition on_collector {A} (m : CM W A) : RM (option A) := fun '(t, w) =>
  match t_collector t with
  | None => (None, (t, w))
  | Some s => let '(a, (s', w')) := m (s, w) in (Some a, (set_t_collector (Some s') t, w'))
  end.

Definition on_exporter {A} (m : XM W A) : RM (option A) := fun '(t, w) =>
  match t_exporter t with
  | None => (None, (t, w))
  | Some s => let '(a, (s', w')) := m (s, w) in (Some a, (set_t_exporter (Some s') t, w'))
  end.

(** [r.mu.Lock()] and the deferred unlock around a call. *)
Definition locked {A} (m : RM (blocking A)) : RM (blocking A) :=
  targets t_locked ≫= fun held =>
  if held : bool then mret Blocked
  else
    alter_targets (set_t_locked true) ≫= fun _ =>
    m ≫= fun r =>
    match r with
    | Blocked => mret Blocked
    | Returned a => alter_targets (set_t_locked false) ≫= fun _ => mret (Returned a)
    end.

(** The tests of [handlePrometheusConfigChange]. *)
Definition exporter_change (newConfig : Config) : XM W (option error) :=
  IsRunning ≫= fun running =>
  if negb running && EnablePrometheus newConfig then mret (Some "enabling Prometheus requires restart")
  else if running && negb (EnablePrometheus newConfig) then
    Prometheus.Stop ≫= fun err =>
    mret match err with Some e => Some ("failed to stop Prometheus exporter: " +:+ e) | None => None end
  else
    GetMetricsEndpoint ≫= fun endpoint =>
    mret (if negb (String.eqb endpoint (metrics_endpoint newConfig))
          then Some "changing Prometheus bind address requires restart" else None).

Definition handlePrometheusConfigChange (newConfig : Config) : RM (blocking (option error)) :=
  locked (on_exporter (exporter_change newConfig) ≫= fun r => mret (Returned (default None r))).

(** [OnConfigChange]. *)
Definition OnConfigChange (newConfig : Config) : RM (blocking (option error)) :=
  targets t_exporter ≫= fun exporter =>
  match exporter with
  | None => mret (Returned None)
  | Some _ => handlePrometheusConfigChange newConfig
  end ≫= fun r =>
  match r with
  | Blocked => mret Blocked
  | Returned err =>
      on_state (StateBase.UpdateConfig (Some newConfig)) ≫= fun _ =>
      on_collector (CollectorBase.UpdateConfig newConfig) ≫= fun _ =>
      mret (Returned match err with
                     | Some e => Some ("errors applying new config: [Prometheus exporter: " +:+ e +:+ "]")
                     | None => None
                     end)
  end.

Definition SafeConfigUpdate (updateFunc : Config -> option Config) : RM (blocking (option error)) :=
  locked
    (targets t_state ≫= fun st =>
     match st with
     | None => mret (Returned (Some "state manager not initialized"))
     | Some m =>
         match updateFunc (s_cfg m) with
         | None => mret (Returned (Some "updateFunc returned nil config"))
         | Some newCfg => OnConfigChange newCfg
         end
     end).

End Reloader.

Arguments WM W A : clear implicits.
Arguments RM {RE} W A.
