(* ===== verification/Lift.v ===== *)
(** * Components on top of components

    A component keeps its state next to the world it runs in.  What the world
    offers is offered to whatever is put on top of it: [lifted] runs a
    computation of the world below, and every interface of the environment is
    lifted.  With the general rules for what a computation maintains, [frame]. *)

From S2P Require Import Prelude GoStrings GoFloat OS Config Blackout ConfigLoad UserFilter CgroupBase CgroupProcess CgroupLimits StateBase CollectorBase Prometheus Reload.

#[local] Open Scope Z_scope.

Definition lifted {X W A} (m : ST W A) : ST (X * W) A := fun '(x, w) => let '(a, w') := m w in (a, (x, w')).

Lemma lifted_keeps {X W A} (m : ST W A) (s : X * W) : exec (lifted m) s = (s.1, exec m s.2) /\ eval (lifted m) s = eval m s.2.
Proof. destruct s as [x w]. unfold exec, eval, lifted. cbn. by destruct (m w). Qed.

Section Instances.
Context {X W : Type}.

#[export] Instance lifted_os `{OS W} : OS (X * W) := {|
  os_ReadFile p := lifted (os_ReadFile p);
  os_WriteFile p c := lifted (os_WriteFile p c);
  os_AppendFile p c := lifted (os_AppendFile p c);
  os_Stat p := lifted (os_Stat p);
  os_ReadDir p := lifted (os_ReadDir p);
  os_Mkdir p := lifted (os_Mkdir p);
  os_MkdirAll p := lifted (os_MkdirAll p);
  os_Remove p := lifted (os_Remove p);
  os_RemoveAll p := lifted (os_RemoveAll p);
  os_Rename p q := lifted (os_Rename p q);
  os_Chmod p := lifted (os_Chmod p)
|}.

#[export] Instance lifted_clock `{Clock W} : Clock (X * W) :=
  {| time_Now := lifted time_Now; local_time s := local_time s.2 |}.

#[export] Instance lifted_site `{Site W} : Site (X * W) :=
  {| os_Getenv := os_Getenv; url_Parse := url_Parse; os_StatInfo p := lifted (os_StatInfo p) |}.

#[export] Instance lifted_processes `{Processes W} : Processes (X * W) := {|
  process_Processes := lifted process_Processes;
  process_Uids pid := lifted (process_Uids pid);
  user_LookupId id := lifted (user_LookupId id)
|}.

#[export] Instance lifted_timer `{Timer W} : Timer (X * W) := {| timer_fires d := lifted (timer_fires d) |}.

#[export] Instance lifted_sensors `{Sensors W} : Sensors (X * W) := {|
  cpu_Counts := lifted cpu_Counts;
  cpu_Percent := lifted cpu_Percent;
  cpu_Times := lifted cpu_Times;
  mem_VirtualMemory := lifted mem_VirtualMemory;
  host_BootTime := lifted host_BootTime;
  process_NewProcess pid := lifted (process_NewProcess pid);
  proc_Times pid := lifted (proc_Times pid);
  proc_RSS pid := lifted (proc_RSS pid);
  proc_CreateTime pid := lifted (proc_CreateTime pid);
  proc_Status pid := lifted (proc_Status pid)
|}.

#[export] Program Instance lifted_visit `{MapVisit W} : MapVisit (X * W) :=
  {| visit K A _ _ m := lifted (visit m) |}.
Next Obligation.
  intros HV K A EK CK m s. destruct s as [x w]. pose proof (visit_perm m w) as Hp. unfold eval, lifted in *. by destruct (visit m w).
Qed.

#[export] Instance lifted_database `{Database W} : Database (X * W) := {|
  db_WriteUserMetrics r := lifted (db_WriteUserMetrics r);
  db_WriteSystemMetrics r := lifted (db_WriteSystemMetrics r)
|}.

#[export] Instance lifted_scheduler `{Scheduler W} : Scheduler (X * W) := {| next_task n := lifted (next_task n) |}.

#[export] Program Instance lifted_order `{MapOrder W} : MapOrder (X * W) := {| range_keys s := lifted (range_keys s) |}.
Next Obligation.
  intros HO l [x w]. pose proof (range_keys_perm l w) as Hp. unfold eval, lifted in *. by destruct (range_keys l w).
Qed.

#[export] Instance lifted_psi `{PressureMonitoring W} : PressureMonitoring (X * W) := {|
  psi_AddMonitor uid typ path := lifted (psi_AddMonitor uid typ path);
  psi_RemoveMonitor uid typ := lifted (psi_RemoveMonitor uid typ)
|}.

#[export] Instance lifted_metrics `{MetricsCollector W} : MetricsCollector (X * W) := {|
  mc_GetTotalCores := lifted mc_GetTotalCores;
  mc_GetTotalCPUUsage := lifted mc_GetTotalCPUUsage;
  mc_GetLimitedUsers := lifted mc_GetLimitedUsers;
  mc_GetMemoryUsage := lifted mc_GetMemoryUsage;
  mc_GetTotalMemoryMB := lifted mc_GetTotalMemoryMB;
  mc_GetCachedMemoryMB := lifted mc_GetCachedMemoryMB;
  mc_IsSystemUnderLoad := lifted mc_IsSystemUnderLoad;
  mc_GetAllUserMetrics := lifted mc_GetAllUserMetrics;
  mc_ShouldWrite := lifted mc_ShouldWrite;
  mc_WriteMetricsToDatabase users cpu cores load active n := lifted (mc_WriteMetricsToDatabase users cpu cores load active n);
  mc_GetUsernameFromUID uid := lifted (mc_GetUsernameFromUID uid)
|}.

#[export] Instance lifted_exporter `{PrometheusExporter W} : PrometheusExporter (X * W) := {|
  px_UpdateMetrics m := lifted (px_UpdateMetrics m);
  px_UpdateUserMetrics x := lifted (px_UpdateUserMetrics x);
  px_UpdateSystemMetrics total action load := lifted (px_UpdateSystemMetrics total action load);
  px_UpdateUserWorkloadPattern uid name p conf := lifted (px_UpdateUserWorkloadPattern uid name p conf);
  px_RecordControlCycleTrigger t := lifted (px_RecordControlCycleTrigger t);
  px_CleanupUserMetrics uids := lifted (px_CleanupUserMetrics uids);
  px_IncrementLimitsActivated := lifted px_IncrementLimitsActivated;
  px_IncrementLimitsDeactivated := lifted px_IncrementLimitsDeactivated;
  px_Stop := lifted px_Stop
|}.

#[export] Instance lifted_cgroups `{CgroupManager W} : CgroupManager (X * W) := {|
  cg_ApplyCPULimit uid q := lifted (cg_ApplyCPULimit uid q);
  cg_ApplyCPUWeight uid n := lifted (cg_ApplyCPUWeight uid n);
  cg_ApplyRAMLimit uid q := lifted (cg_ApplyRAMLimit uid q);
  cg_ApplyRAMLimitWithHigh uid q h := lifted (cg_ApplyRAMLimitWithHigh uid q h);
  cg_ApplyRAMLimitWithHighAndSwapDisabled uid q h := lifted (cg_ApplyRAMLimitWithHighAndSwapDisabled uid q h);
  cg_RemoveRAMLimit uid := lifted (cg_RemoveRAMLimit uid);
  cg_RemoveRAMHigh uid := lifted (cg_RemoveRAMHigh uid);
  cg_ApplyIOLimit uid a b c d f := lifted (cg_ApplyIOLimit uid a b c d f);
  cg_RemoveIOLimit uid := lifted (cg_RemoveIOLimit uid);
  cg_GetUserCgroupMetrics uid := lifted (cg_GetUserCgroupMetrics uid);
  cg_GetPSIStats uid := lifted (cg_GetPSIStats uid);
  cg_MoveAllUserProcessesToSharedCgroup uid p := lifted (cg_MoveAllUserProcessesToSharedCgroup uid p);
  cg_ReleaseUserFromSharedCgroup uid p := lifted (cg_ReleaseUserFromSharedCgroup uid p);
  cg_CreateSharedCgroup := lifted cg_CreateSharedCgroup;
  cg_ApplySharedCPULimit p q := lifted (cg_ApplySharedCPULimit p q);
  cg_CreateUserSubCgroup uid p := lifted (cg_CreateUserSubCgroup uid p);
  cg_CleanupAll := lifted cg_CleanupAll
|}.

End Instances.
