(* ===== verification/ReloadFacts.v ===== *)
(** * Properties of the reload

    The watcher with the reloader as its handler: the configurations in use
    agree and are valid, a stable file is applied once, a refusal of the
    exporter is applied again at every check. *)

From S2P Require Import Prelude GoStrings GoFloat GoNumbers ProcFiles Config Blackout ConfigLoad OS UserFilter CgroupBase CgroupProcess StateBase Recorder CollectorBase Collector Prometheus Bench Reload Lift.

#[local] Open Scope Z_scope.

(** ** What the exporter answers *)

(** The answer to a configuration, and the exporter afterwards. *)
Definition answer (cfg : Config) (e : Exporter) : option error * Exporter :=
  if negb (isRunning e) && EnablePrometheus cfg then (Some "enabling Prometheus requires restart", e)
  else if isRunning e && negb (EnablePrometheus cfg) then
    if stopPending e then (Some "failed to stop Prometheus exporter: stop already in progress", e)
    else (None, set_stopPending true e)
  else if negb (String.eqb (metrics_endpoint (e_cfg e)) (metrics_endpoint cfg))
       then (Some "changing Prometheus bind address requires restart", e)
       else (None, e).

Definition answer_opt (cfg : Config) (e : option Exporter) : option error * option Exporter :=
  match e with None => (None, None) | Some e => let '(r, e') := answer cfg e in (r, Some e') end.

(** The components with a configuration. *)
Definition reconfigured `{RE : Regexp} (cfg : Config) (t : Targets) : Targets :=
  mkTargets _ (set_s_cfg cfg <$> t_state t) ((fun c => set_caches ∅ ∅ (set_c_cfg cfg c)) <$> t_collector t)
    (answer_opt cfg (t_exporter t)).2 (t_locked t).

Definition wrapped (e : error) : error := "errors applying new config: [Prometheus exporter: " +:+ e +:+ "]".

Section Reload.
Context `{RE : Regexp} {W : Type} `{O : OS W} `{S : Site W} `{C : Clock W}.

Lemma exporter_change_eq cfg (e : Exporter) (w : W) :
  exporter_change cfg (e, w) = ((answer cfg e).1, ((answer cfg e).2, w)).
Proof.
  unfold exporter_change, answer, IsRunning, Prometheus.Stop, GetMetricsEndpoint, exporter, change, modify, mbind, ST_bind, mret, ST_ret.
  cbn [fst]. destruct (negb (isRunning e) && EnablePrometheus cfg); [done|].
  destruct (isRunning e && negb (EnablePrometheus cfg)); [by cbn [fst]; destruct (stopPending e)|].
  by destruct (negb _).
Qed.

Lemma handlePrometheusConfigChange_eq cfg t (w : W) :
  t_locked t = false ->
  handlePrometheusConfigChange cfg (t, w) =
    (Returned (answer_opt cfg (t_exporter t)).1, (set_t_exporter (answer_opt cfg (t_exporter t)).2 t, w)).
Proof.
  intros Hl. destruct t as [m c e l]. cbn in Hl. subst l.
  unfold handlePrometheusConfigChange, locked, targets, alter_targets, modify, on_exporter, mbind, ST_bind, mret, ST_ret.
  cbn [fst t_locked set_t_locked t_exporter t_state t_collector]. destruct e as [e|]; [|done].
  rewrite exporter_change_eq. unfold answer_opt. by destruct (answer cfg e).
Qed.

(** With the lock free, every component gets the configuration, whatever the
    exporter answers. *)
Lemma OnConfigChange_eq cfg t (w : W) :
  t_locked t = false ->
  OnConfigChange cfg (t, w) = (Returned (wrapped <$> (answer_opt cfg (t_exporter t)).1), (reconfigured cfg t, w)).
Proof.
  intros Hl. unfold OnConfigChange, mbind at 1, ST_bind at 1, targets. cbn [fst].
  destruct t as [m c e l]. cbn in Hl. subst l. cbn [t_exporter].
  assert (forall r e', (match r with
    | Blocked => mret Blocked
    | Returned err =>
        on_state (StateBase.UpdateConfig (Some cfg)) ≫= fun _ =>
        on_collector (CollectorBase.UpdateConfig cfg) ≫= fun _ =>
        mret (Returned match err with Some e => Some (wrapped e) | None => None end)
    end : RM W (blocking (option error))) (mkTargets _ m c e' false, w) =
    match r with Blocked => (Blocked, (mkTargets _ m c e' false, w))
    | Returned err => (Returned (wrapped <$> err), (mkTargets _ (set_s_cfg cfg <$> m)
        ((fun c => set_caches ∅ ∅ (set_c_cfg cfg c)) <$> c) e' false, w)) end) as K.
  { intros [err|] e'; [|done]. unfold on_state, on_collector, mbind, ST_bind, mret, ST_ret. cbn.
    by destruct m, c, err. }
  destruct e as [e|]; unfold mbind at 1, ST_bind at 1.
  - rewrite handlePrometheusConfigChange_eq by done. cbn [t_exporter set_t_exporter t_state t_collector t_locked].
    exact (K (Returned (answer_opt cfg (Some e)).1) (answer_opt cfg (Some e)).2).
  - exact (K (Returned None) None).
Qed.

(** ** The watcher over the reloader *)

(** What [LoadAndValidate] can return in this process. *)
Definition loadable (cfg : Config) : Prop :=
  exists pid file cfg0, loadFromFile file (DefaultConfig pid) = Ok cfg0 /\
    (loadFromEnvironment (os_Getenv (W := W)) cfg0).1 = cfg /\ valid_config (url_Parse (W := W)) cfg.

Lemma load_config_loadable path (w : W) cfg : eval (load_config path) w = Ok cfg -> loadable cfg.
Proof.
  unfold load_config, eval, mbind, ST_bind, mret, ST_ret. destruct (os_ReadFile _ w) as [pid w1].
  destruct (os_ReadFile path w1) as [file w2]. cbn [fst].
  destruct (LoadAndValidate url_Parse (contents pid) path (read_of file) os_Getenv) as [r ws] eqn:E. cbn [fst]. intros ->.
  destruct (proj1 (LoadAndValidate_iff url_Parse (contents pid) path (read_of file) os_Getenv cfg) (ex_intro _ ws E)) as (cfg0 & H).
  by exists (contents pid), (read_of file), cfg0.
Qed.

Lemma load_config_lifted path (t : Targets) (w : W) :
  load_config path (t, w) = let '(r, w') := load_config path w in (r, (t, w')).
Proof.
  unfold load_config, mbind, ST_bind, mret, ST_ret. cbn [os_ReadFile lifted_os]. unfold lifted.
  destruct (os_ReadFile _ w) as [pid w1]. by destruct (os_ReadFile path w1).
Qed.

Definition handler : option (Config -> RM W (blocking (option error))) := Some OnConfigChange.

(** Notes the file only when nobody refuses. *)
Definition noted (r : option error) (cfg : Config) (info : Time * Z) (w : Watcher) : Watcher :=
  match r with None => applied cfg info.1 info.2 w | Some _ => w end.

Lemma handleConfigChange_eq (w : Watcher) t (c : W) :
  t_locked t = false ->
  handleConfigChange handler (w, (t, c)) =
    let '(r, c1) := os_StatInfo (configPath w) c in
    match r with
    | Err _ => (Returned tt, (w, (t, c1)))
    | Ok info =>
        if same_file w info then (Returned tt, (w, (t, c1)))
        else
          let '(l, c2) := load_config (configPath w) c1 in
          match l with
          | Err _ => (Returned tt, (w, (t, c2)))
          | Ok cfg => (Returned tt, (noted (answer_opt cfg (t_exporter t)).1 cfg info w, (reconfigured cfg t, c2)))
          end
    end.
Proof.
  intros Hl. unfold handleConfigChange, handler, out, watcher, alter_watcher, modify, mbind, ST_bind, mret, ST_ret.
  cbn [fst os_StatInfo lifted_site]. unfold lifted. destruct (os_StatInfo (configPath w) c) as [[info|e] c1]; [|done].
  cbn [fst]. destruct (same_file w info); [done|]. rewrite load_config_lifted.
  destruct (load_config (configPath w) c1) as [[cfg|e] c2]; [|done]. rewrite OnConfigChange_eq by done.
  unfold noted. by destruct (answer_opt cfg (t_exporter t)) as [[e|] e'].
Qed.

Lemma checkConfigChange_eq (w : Watcher) t (c : W) :
  checkConfigChange handler (w, (t, c)) =
    let '(r, c1) := os_StatInfo (configPath w) c in
    match r with
    | Err _ => (Returned tt, (w, (t, c1)))
    | Ok info => if same_file w info then (Returned tt, (w, (t, c1))) else handleConfigChange handler (w, (t, c1))
    end.
Proof.
  unfold checkConfigChange, out, watcher, mbind, ST_bind, mret, ST_ret. cbn [fst os_StatInfo lifted_site]. unfold lifted.
  destruct (os_StatInfo (configPath w) c) as [[info|e] c1]; [|done]. cbn [fst]. by destruct (same_file w info).
Qed.

(** *** The invariant *)

(** Everybody runs the same configuration, a valid one. *)
Definition in_use (t : Targets) : Prop :=
  t_locked t = false /\
  exists m c, t_state t = Some m /\ t_collector t = Some c /\ s_cfg m = c_cfg c /\ loadable (s_cfg m).

Definition watch_ok (s : Watcher * (Targets * W)) : Prop :=
  in_use s.2.1 /\ loadable (currentConfig s.1) /\ pendingReload s.1 = isSome (debounce s.1).

(** What the other components do to the targets. *)
Definition others (s s' : Targets * W) : Prop :=
  t_locked s'.1 = t_locked s.1 /\ s_cfg <$> t_state s'.1 = s_cfg <$> t_state s.1 /\
  c_cfg <$> t_collector s'.1 = c_cfg <$> t_collector s.1.

Lemma in_use_others s s' : others s s' -> in_use s.1 -> in_use s'.1.
Proof.
  intros (H1 & H2 & H3) (Hl & m & c & Hm & Hc & E & Hv). split; [by rewrite H1|]. rewrite Hm in H2. rewrite Hc in H3.
  destruct (t_state s'.1) as [m'|]; [|done]. destruct (t_collector s'.1) as [c'|]; [|done].
  cbn in H2, H3. injection H2 as H2. injection H3 as H3. exists m', c'. rewrite H2, H3. done.
Qed.

Lemma in_use_reconfigured cfg t : loadable cfg -> in_use t -> in_use (reconfigured cfg t).
Proof.
  intros Hv (Hl & m & c & Hm & Hc & _). split; [done|]. unfold reconfigured. cbn [t_state t_collector]. rewrite Hm, Hc.
  by exists (set_s_cfg cfg m), (set_caches ∅ ∅ (set_c_cfg cfg c)).
Qed.

Lemma handle_ok s : watch_ok s -> eval (handleConfigChange handler) s = Returned tt /\ watch_ok (exec (handleConfigChange handler) s).
Proof.
  destruct s as [w [t c]]. intros ([Hl Hu] & Hc & Hp). unfold eval, exec. rewrite handleConfigChange_eq by done.
  destruct (os_StatInfo (configPath w) c) as [[info|e] c1]; [|done]. destruct (same_file w info); [done|].
  pose proof (load_config_loadable (configPath w) c1) as Hload. unfold eval in Hload.
  destruct (load_config (configPath w) c1) as [[cfg|e] c2]; [|done]. specialize (Hload cfg eq_refl).
  split; [done|]. split; [by apply in_use_reconfigured|]. unfold noted. cbn [fst snd].
  by destruct (answer_opt cfg (t_exporter t)) as [[e|] e'].
Qed.

Lemma check_ok s : watch_ok s -> eval (checkConfigChange handler) s = Returned tt /\ watch_ok (exec (checkConfigChange handler) s).
Proof.
  destruct s as [w [t c]]. intros H. unfold eval, exec. rewrite checkConfigChange_eq.
  destruct (os_StatInfo (configPath w) c) as [[info|e] c1]; [|done]. destruct (same_file w info); [done|]. by apply handle_ok.
Qed.

Lemma timer_ok s : watch_ok s -> eval (timer_event handler) s = Returned tt /\ watch_ok (exec (timer_event handler) s).
Proof.
  destruct s as [w tc]. intros (Hu & Hc & Hp). unfold eval, exec, timer_event, alter_watcher, watcher, modify, mbind, ST_bind, mret, ST_ret.
  cbn [fst]. destruct (pendingReload (set_debounce None w)) eqn:E.
  - apply handle_ok. by split_and!.
  - cbn in *. by split_and!.
Qed.

Lemma file_event_ok name op s : watch_ok s -> watch_ok (exec (file_event name op) s).
Proof.
  destruct s as [w tc]. intros (Hu & Hc & Hp). unfold exec, file_event, alter_watcher, watcher, out, modify, mbind, ST_bind, mret, ST_ret.
  cbn [fst]. destruct (negb (concerns op)); [done|]. destruct (negb (String.eqb name _)); [done|].
  cbn [fst]. destruct (pendingReload w) eqn:E; cbn [negb when]; [by split_and!|]. destruct tc as [t c]. cbn [time_Now lifted_clock]. unfold lifted.
  destruct (time_Now c) as [now c'].
  by split_and!.
Qed.

(** ** Properties *)

(** The watcher as the application starts it, on components that run the
    configuration it is given. *)
Definition started (s : Watcher * (Targets * W)) : Prop :=
  exists path cfg c w t, eval (NewWatcher path cfg) c = Ok w /\ loadable cfg /\ in_use t.1 /\ s = exec StartWatcher (w, t).


(** The file is as it is: looking at it changes nothing. *)
Definition stable_file (path : string) (info : Time * Z) (cfg : Config) (c : W) : Prop :=
  os_StatInfo path c = (Ok info, c) /\ load_config path c = (Ok cfg, c).

Lemma check_stable w t c info cfg :
  t_locked t = false -> stable_file (configPath w) info cfg c -> same_file w info = false ->
  checkConfigChange handler (w, (t, c)) =
    (Returned tt, (noted (answer_opt cfg (t_exporter t)).1 cfg info w, (reconfigured cfg t, c))).
Proof.
  intros Hl [Hs Hf] Hw. rewrite checkConfigChange_eq, Hs, Hw, handleConfigChange_eq, Hs, Hw, Hf by done. done.
Qed.

(** C40: a changed file that stays as it is, that [LoadAndValidate] accepts and
    the exporter does not refuse, is applied by the next periodic check: the
    watcher, the state manager and the collector, whose caches are emptied, run
    it; and later checks find everything up to date and change nothing. *)
Theorem reload_converges w t c info cfg :
  t_locked t = false -> stable_file (configPath w) info cfg c -> same_file w info = false ->
  (answer_opt cfg (t_exporter t)).1 = None ->
  let s1 := exec (checkConfigChange handler) (w, (t, c)) in
  currentConfig s1.1 = cfg /\ s1.2 = (reconfigured cfg t, c) /\
  forall n, Nat.iter n (exec (checkConfigChange handler)) s1 = s1.
Proof.
  intros Hl Hf Hw Ha s1.
  assert (s1 = (applied cfg info.1 info.2 w, (reconfigured cfg t, c))) as E.
  { unfold s1, exec. rewrite (check_stable _ _ _ info cfg) by done. by rewrite Ha. }
  rewrite E. split_and!; [done..|].
  assert (exec (checkConfigChange handler) (applied cfg info.1 info.2 w, (reconfigured cfg t, c)) =
            (applied cfg info.1 info.2 w, (reconfigured cfg t, c))) as F.
  { unfold exec. destruct Hf as [Hs _]. rewrite checkConfigChange_eq. cbn [configPath applied]. rewrite Hs.
    unfold same_file, applied. cbn [lastModTime lastFileSize]. by rewrite !Z.eqb_refl. }
  induction n as [|n IH]; [done|]. etransitivity; [|exact F]. exact (f_equal _ IH).
Qed.

(** A configuration the exporter refuses is applied all the same, to the
    state manager and to the collector, while the watcher goes on reporting the
    old one; and every later check, with the file untouched, applies it again
    and empties the caches of the collector again. *)
Theorem refused_reload_repeats w t c info cfg e :
  t_locked t = false -> stable_file (configPath w) info cfg c -> same_file w info = false ->
  (answer_opt cfg (t_exporter t)).1 = Some e ->
  let s1 := exec (checkConfigChange handler) (w, (t, c)) in
  s1 = (w, (reconfigured cfg t, c)) /\
  (forall m, t_state t = Some m -> exists m', t_state s1.2.1 = Some m' /\ s_cfg m' = cfg) /\
  forall t', t_locked t' = false -> t_exporter t' = t_exporter s1.2.1 ->
    exec (checkConfigChange handler) (w, (t', c)) = (w, (reconfigured cfg t', c)).
Proof.
  intros Hl Hf Hw Ha s1.
  assert (s1 = (w, (reconfigured cfg t, c))) as E.
  { unfold s1, exec. rewrite (check_stable _ _ _ info cfg) by done. by rewrite Ha. }
  rewrite E. split_and!; [done| |].
  - intros m Hm. unfold reconfigured. cbn [fst snd t_state]. rewrite Hm. by eexists.
  - intros t' Hl' He. unfold exec. rewrite (check_stable _ _ _ info cfg) by done. rewrite He.
    cbn [fst snd reconfigured t_exporter]. replace (answer_opt cfg (answer_opt cfg (t_exporter t)).2) with (answer_opt cfg (t_exporter t)).
    + by rewrite Ha.
    + destruct (t_exporter t) as [x|]; [|done]. revert Ha. unfold answer_opt, answer.
      destruct (negb (isRunning x) && EnablePrometheus cfg) eqn:E1; [by cbn; rewrite ?E1|].
      destruct (isRunning x && negb (EnablePrometheus cfg)) eqn:E2.
      * destruct (stopPending x) eqn:E3; [|done]. by cbn; rewrite ?E1, ?E2, ?E3.
      * destruct (negb (String.eqb _ _)) eqn:E3; [|done]. by cbn; rewrite ?E1, ?E2, ?E3.
Qed.

(** [SafeConfigUpdate] blocks for ever on its own lock whenever there is an
    exporter and an update to apply, and every reload after it blocks too. *)
Theorem SafeConfigUpdate_blocks updateFunc t m e cfg cfg' (c : W) :
  t_state t = Some m -> t_exporter t = Some e -> updateFunc (s_cfg m) = Some cfg ->
  let s1 := exec (SafeConfigUpdate updateFunc) (t, c) in
  eval (SafeConfigUpdate updateFunc) (t, c) = Blocked /\ eval (OnConfigChange cfg') s1 = Blocked.
Proof.
  destruct t as [tm tc te l]. cbn. intros -> -> Hu.
  unfold eval, exec, SafeConfigUpdate, OnConfigChange, handlePrometheusConfigChange, locked, targets, alter_targets, modify,
    mbind, ST_bind, mret, ST_ret. cbn. destruct l; [done|]. cbn. by rewrite Hu.
Qed.

End Reload.

(** ** Witnesses *)

#[local] Existing Instance literal_regexp.

#[local] Instance bench_site : Site Bench := {|
  os_Getenv _ := "";
  url_Parse := no_url;
  os_StatInfo p := gets (fun b =>
    match b_files b !! p with Some c => Ok (b_now b, Z.of_nat (String.length c)) | None => Err ENOENT end)
|}.

Definition conf_path : string := "/etc/resman.conf".

(** The machine at an instant, with a text in the configuration file. *)
Definition conf_bench (now : Time) (text : string) : Bench := mkBench now false ∅ {[ conf_path := text ]} [].

Definition start_cfg : Config := DefaultConfig None.

Definition first_watcher : Watcher := mkWatcher conf_path start_cfg second 0 true false None.

(** The components; the exporter runs, bound to the port of [start_cfg]. *)
Definition running_exporter : Exporter := set_isRunning true (new_exporter (set_EnablePrometheus true start_cfg)).

Definition first_targets (exporter : option Exporter) : Targets :=
  mkTargets _ (Some (NewStateManager start_cfg (isSome exporter))) (Some (NewCollector start_cfg 0 (Ok []))) exporter false.

Definition moved_cfg : Config := set_EnablePrometheus true (set_PrometheusMetricsBindPort 9999 start_cfg).

Lemma start_loadable : loadable (W := Bench) start_cfg.
Proof.
  apply (load_config_loadable conf_path (conf_bench 0 "")). by vm_compute.
Qed.

Definition edited : Watcher * (Targets * Bench) :=
  (first_watcher, (first_targets None, conf_bench (5 * second) "CPU_THRESHOLD=80")).


Lemma reload_converges_witness :
  let s1 := exec (checkConfigChange handler) edited in
  CPUThreshold (currentConfig s1.1) = 80 /\ exec (checkConfigChange handler) s1 = s1.
Proof.
  destruct (reload_converges first_watcher (first_targets None) (conf_bench (5 * second) "CPU_THRESHOLD=80")
    (5 * second, 16) (set_CPUThreshold 80 start_cfg)) as (H1 & _ & H3); [done|split; by vm_compute|done|done|].
  split; [exact (f_equal CPUThreshold H1)|exact (H3 1%nat)].
Defined.

(** The port changes while the exporter runs. *)
Lemma refused_reload_repeats_witness :
  let c := conf_bench (5 * second) "ENABLE_PROMETHEUS=true
PROMETHEUS_METRICS_BIND_PORT=9999" in
  let s1 := exec (checkConfigChange handler) (first_watcher, (first_targets (Some running_exporter), c)) in
  PrometheusMetricsBindPort (currentConfig s1.1) = PrometheusMetricsBindPort start_cfg /\
  s1.2.1 = reconfigured moved_cfg (first_targets (Some running_exporter)) /\
  exec (checkConfigChange handler) s1 = s1.
Proof.
  cbn zeta. edestruct (refused_reload_repeats first_watcher (first_targets (Some running_exporter))
    (conf_bench (5 * second) "ENABLE_PROMETHEUS=true
PROMETHEUS_METRICS_BIND_PORT=9999") (5 * second, 56) moved_cfg "changing Prometheus bind address requires restart")
    as (H1 & _ & H3); [done|split; by vm_compute|done|done|].
  rewrite H1 in H3. rewrite H1. split_and!; [done..|]. by apply (H3 (reconfigured moved_cfg (first_targets (Some running_exporter)))).
Defined.

Lemma SafeConfigUpdate_blocks_witness :
  eval (SafeConfigUpdate (fun c => Some (set_PollingInterval 60 c))) (first_targets (Some running_exporter), conf_bench 0 "") = Blocked.
Proof.
  by apply (SafeConfigUpdate_blocks (fun c => Some (set_PollingInterval 60 c)) (first_targets (Some running_exporter))
    (NewStateManager start_cfg true) running_exporter (set_PollingInterval 60 start_cfg) start_cfg (conf_bench 0 "")).
Defined.
