(* ===== verification/Frame.v ===== *)
(** * What the state manager leaves alone

    The manager reaches the world only through the interfaces of [Env], and
    never changes its own configuration except in [UpdateConfig].  [Frame Q]
    says that every operation of the interfaces maintains [Q] of the world;
    then so does every entry point of the manager. *)

From S2P Require Import Prelude GoStrings GoFloat GoNumbers Config Blackout ConfigLoad CgroupLimits Tracker IORemediation Pattern StateBase Recorder Decision Limits Collect ControlCycle.

#[local] Open Scope Z_scope.

Record Frame {W} (E : Env W) (Q : W -> Prop) : Prop := {
  fr_now : preserves Q time_Now;
  fr_cpu uid s : preserves Q (cg_ApplyCPULimit uid s);
  fr_weight uid n : preserves Q (cg_ApplyCPUWeight uid n);
  fr_ram uid s : preserves Q (cg_ApplyRAMLimit uid s);
  fr_ram_high uid s h : preserves Q (cg_ApplyRAMLimitWithHigh uid s h);
  fr_ram_swap uid s h : preserves Q (cg_ApplyRAMLimitWithHighAndSwapDisabled uid s h);
  fr_unram uid : preserves Q (cg_RemoveRAMLimit uid);
  fr_unhigh uid : preserves Q (cg_RemoveRAMHigh uid);
  fr_io uid a b c d f : preserves Q (cg_ApplyIOLimit uid a b c d f);
  fr_unio uid : preserves Q (cg_RemoveIOLimit uid);
  fr_cgroup uid : preserves Q (cg_GetUserCgroupMetrics uid);
  fr_stats uid : preserves Q (cg_GetPSIStats uid);
  fr_move uid p : preserves Q (cg_MoveAllUserProcessesToSharedCgroup uid p);
  fr_release uid p : preserves Q (cg_ReleaseUserFromSharedCgroup uid p);
  fr_shared : preserves Q cg_CreateSharedCgroup;
  fr_quota p s : preserves Q (cg_ApplySharedCPULimit p s);
  fr_sub uid p : preserves Q (cg_CreateUserSubCgroup uid p);
  fr_cleanup : preserves Q cg_CleanupAll;
  fr_cores : preserves Q mc_GetTotalCores;
  fr_total : preserves Q mc_GetTotalCPUUsage;
  fr_limited : preserves Q mc_GetLimitedUsers;
  fr_memory : preserves Q mc_GetMemoryUsage;
  fr_total_mb : preserves Q mc_GetTotalMemoryMB;
  fr_cached_mb : preserves Q mc_GetCachedMemoryMB;
  fr_load : preserves Q mc_IsSystemUnderLoad;
  fr_all : preserves Q mc_GetAllUserMetrics;
  fr_should : preserves Q mc_ShouldWrite;
  fr_write l a b c d n : preserves Q (mc_WriteMetricsToDatabase l a b c d n);
  fr_username uid : preserves Q (mc_GetUsernameFromUID uid);
  fr_metrics l : preserves Q (px_UpdateMetrics l);
  fr_user x : preserves Q (px_UpdateUserMetrics x);
  fr_system a b c : preserves Q (px_UpdateSystemMetrics a b c);
  fr_pattern a b c d : preserves Q (px_UpdateUserWorkloadPattern a b c d);
  fr_trigger t : preserves Q (px_RecordControlCycleTrigger t);
  fr_forget l : preserves Q (px_CleanupUserMetrics l);
  fr_inc : preserves Q px_IncrementLimitsActivated;
  fr_dec : preserves Q px_IncrementLimitsDeactivated;
  fr_stop : preserves Q px_Stop;
  fr_add uid t p : preserves Q (psi_AddMonitor uid t p);
  fr_remove uid t : preserves Q (psi_RemoveMonitor uid t);
  fr_uf_ram c u : preserves Q (uf_RAM c u);
  fr_uf_io c u : preserves Q (uf_IO c u);
  fr_rmdir p : preserves Q (mf_RemoveAll p);
  fr_loadavg : preserves Q mf_ReadLoadAvg;
  fr_next n : preserves Q (next_task n);
  fr_keys s : preserves Q (range_keys s)
}.

Create HintDb frame.

#[export] Hint Resolve fr_now fr_cpu fr_weight fr_ram fr_ram_high fr_ram_swap fr_unram fr_unhigh fr_io fr_unio fr_cgroup
  fr_stats fr_move fr_release fr_shared fr_quota fr_sub fr_cleanup fr_cores fr_total fr_limited fr_memory fr_total_mb
  fr_cached_mb fr_load fr_all fr_should fr_write fr_username fr_metrics fr_user fr_system fr_pattern fr_trigger fr_forget
  fr_inc fr_dec fr_stop fr_add fr_remove fr_uf_ram fr_uf_io fr_rmdir fr_loadavg fr_next fr_keys : frame.

Section Frame.
Context {W : Type} {E : Env W} (Q : W -> Prop) (cfg : Config).

Hypothesis F : Frame E Q.

(** The configuration is [cfg] and the world satisfies [Q]. *)
Definition framed (s : StateManager * W) : Prop := s_cfg s.1 = cfg /\ Q s.2.

Lemma frame_env {A} (m : ST W A) : preserves Q m -> preserves framed (env m).
Proof. intros Hm [s w] [Hs Hw]. specialize (Hm w Hw). unfold exec, env in *. by destruct (m w). Qed.

Lemma frame_read {A} (f : StateManager -> A) : preserves framed (read f).
Proof. by intros s Hs. Qed.

Lemma frame_update f : (forall m, s_cfg (f m) = s_cfg m) -> preserves framed (update f).
Proof. intros Hf [m w] [Hm Hw]. split; [|done]. by cbn; rewrite Hf. Qed.

Lemma frame_gets {A} (f : W -> A) : preserves Q (gets f).
Proof. by intros w Hw. Qed.

Lemma frame_remediation {A} (m : ST (IORemediation * W) A) :
  preserves (fun s => Q s.2) m -> preserves framed (with_remediation m).
Proof.
  intros Hm [s w] [Hs Hw]. specialize (Hm (ioRemediation s, w) Hw). unfold exec, with_remediation in *.
  destruct (m (ioRemediation s, w)) as [a [r w']]. by destruct s.
Qed.

End Frame.

#[export] Hint Extern 1 (s_cfg _ = s_cfg _) => reflexivity : frame.

(** Through binds, loops and branches; the leaves are in the database. *)
Ltac frame :=
  repeat match goal with
  | |- forall _, _ => intros ?
  | |- preserves _ (mret _) => apply preserves_ret
  | |- preserves _ (_ ≫= _) => apply preserves_bind
  | |- preserves _ (when _ _) => apply preserves_when
  | |- preserves _ (for_each _ _) => apply preserves_for_each
  | |- preserves _ (fold_st _ _ _) => apply preserves_fold
  | |- preserves _ (ignore _) => unfold ignore
  | |- preserves _ (match ?x with _ => _ end) => destruct x
  | |- preserves _ (let _ := _ in _) => cbv zeta
  | |- preserves _ (env _) => apply frame_env
  | |- preserves _ (gets _) => apply frame_gets
  | |- preserves _ (read _) => apply frame_read
  | |- preserves _ (update _) => apply frame_update; intros []; reflexivity
  | |- preserves _ _ => solve [eauto with frame]
  end.

Section Operations.
Context {W : Type} {E : Env W} (Q : W -> Prop) (cfg : Config) (F : Frame E Q).

Lemma frame_getUsername uid : preserves (framed Q cfg) (getUsername uid).
Proof. unfold getUsername. frame. Qed.

#[local] Hint Resolve frame_getUsername : frame.

Lemma frame_getLoadAverage : preserves (framed Q cfg) getLoadAverage.
Proof. unfold getLoadAverage. frame. Qed.

#[local] Hint Resolve frame_getLoadAverage : frame.

Lemma frame_shouldApplyRAMLimits uid : preserves (framed Q cfg) (shouldApplyRAMLimits uid).
Proof. unfold shouldApplyRAMLimits. frame. Qed.

#[local] Hint Resolve frame_shouldApplyRAMLimits : frame.

Lemma frame_shouldApplyIOLimits uid : preserves (framed Q cfg) (shouldApplyIOLimits uid).
Proof. unfold shouldApplyIOLimits. frame. Qed.

#[local] Hint Resolve frame_shouldApplyIOLimits : frame.

Lemma frame_run_tracker proj put a b d :
  (forall t m, s_cfg (put t m) = s_cfg m) -> preserves (framed Q cfg) (run_tracker proj put a b d).
Proof. intros Hp. unfold run_tracker. frame. by apply frame_update. Qed.

#[local] Hint Resolve frame_run_tracker : frame.

Lemma frame_ioExceeded c m : preserves (framed Q cfg) (ioExceeded c m).
Proof. unfold ioExceeded. frame. Qed.

#[local] Hint Resolve frame_ioExceeded : frame.

Lemma frame_stability_sample c : preserves (framed Q cfg) (stability_sample c).
Proof. unfold stability_sample. frame. Qed.

#[local] Hint Resolve frame_stability_sample : frame.

Lemma frame_reset_trackers : preserves (framed Q cfg) reset_trackers.
Proof. unfold reset_trackers. frame. Qed.

#[local] Hint Resolve frame_reset_trackers : frame.

Lemma frame_decide_active c m : preserves (framed Q cfg) (decide_active c m).
Proof. unfold decide_active. frame. Qed.

#[local] Hint Resolve frame_decide_active : frame.

Lemma frame_cpu_window c m o : preserves (framed Q cfg) (cpu_window c m o).
Proof. unfold cpu_window. frame. Qed.

#[local] Hint Resolve frame_cpu_window : frame.

Lemma frame_decide_inactive c m io : preserves (framed Q cfg) (decide_inactive c m io).
Proof. unfold decide_inactive. frame. Qed.

#[local] Hint Resolve frame_decide_inactive : frame.

Lemma frame_makeDecision m : preserves (framed Q cfg) (makeDecision m).
Proof. unfold makeDecision. frame. Qed.

#[local] Hint Resolve frame_makeDecision : frame.

Lemma frame_limit_ram c uid : preserves (framed Q cfg) (limit_ram c uid).
Proof. unfold limit_ram. frame. Qed.

#[local] Hint Resolve frame_limit_ram : frame.

Lemma frame_run_task t : preserves (framed Q cfg) (run_task t).
Proof. unfold run_task. frame. Qed.

#[local] Hint Resolve frame_run_task : frame.

Lemma frame_run_next : preserves (framed Q cfg) run_next.
Proof. unfold run_next. frame. Qed.

#[local] Hint Resolve frame_run_next : frame.

Lemma frame_drain n : preserves (framed Q cfg) (drain n).
Proof. induction n; cbn [drain]; frame. Qed.

#[local] Hint Resolve frame_drain : frame.

Lemma frame_wait : preserves (framed Q cfg) wait.
Proof. unfold wait. frame. Qed.

#[local] Hint Resolve frame_wait : frame.

Lemma frame_remove_monitors uid : preserves (framed Q cfg) (remove_monitors uid).
Proof. unfold remove_monitors. frame. Qed.

#[local] Hint Resolve frame_remove_monitors : frame.

Lemma frame_add_monitors uid p : preserves (framed Q cfg) (add_monitors uid p).
Proof. unfold add_monitors. frame. Qed.

#[local] Hint Resolve frame_add_monitors : frame.

Lemma frame_spawn t : preserves (framed Q cfg) (spawn t).
Proof. unfold spawn. frame. Qed.

#[local] Hint Resolve frame_spawn : frame.

Lemma frame_release_user p uid : preserves (framed Q cfg) (release_user p uid).
Proof. unfold release_user. frame. Qed.

#[local] Hint Resolve frame_release_user : frame.

Lemma frame_re_add_user p l uid : preserves (framed Q cfg) (re_add_user p l uid).
Proof. unfold re_add_user. frame. Qed.

#[local] Hint Resolve frame_re_add_user : frame.

Lemma frame_mark_added l : preserves (framed Q cfg) (mark_added l).
Proof. unfold mark_added. frame. Qed.

#[local] Hint Resolve frame_mark_added : frame.

Lemma frame_releaseIdleUsers m : preserves (framed Q cfg) (releaseIdleUsers m).
Proof. unfold releaseIdleUsers. frame. Qed.

#[local] Hint Resolve frame_releaseIdleUsers : frame.

Lemma frame_notifyUserLimited c uid n m : preserves (framed Q cfg) (notifyUserLimited c uid n m).
Proof. unfold notifyUserLimited. frame. Qed.

#[local] Hint Resolve frame_notifyUserLimited : frame.

Lemma frame_forget_absent m n uid : preserves (framed Q cfg) (forget_absent m n uid).
Proof. unfold forget_absent. frame. Qed.

#[local] Hint Resolve frame_forget_absent : frame.

Lemma frame_ensure_shared c m : preserves (framed Q cfg) (ensure_shared c m).
Proof. unfold ensure_shared. frame. Qed.

#[local] Hint Resolve frame_ensure_shared : frame.

Lemma frame_isUserLimited x0 : preserves (framed Q cfg) (isUserLimited x0).
Proof. unfold isUserLimited. frame. Qed.

#[local] Hint Resolve frame_isUserLimited : frame.

Lemma frame_limit_user c m acc uid : preserves (framed Q cfg) (limit_user c m acc uid).
Proof. unfold limit_user. frame. Qed.

#[local] Hint Resolve frame_limit_user : frame.

Lemma frame_activateLimits m : preserves (framed Q cfg) (activateLimits m).
Proof. unfold activateLimits. frame. Qed.

#[local] Hint Resolve frame_activateLimits : frame.

Lemma frame_unlimit_user c e uid : preserves (framed Q cfg) (unlimit_user c e uid).
Proof. unfold unlimit_user. frame. Qed.

#[local] Hint Resolve frame_unlimit_user : frame.

Lemma frame_deactivateLimits : preserves (framed Q cfg) deactivateLimits.
Proof. unfold deactivateLimits. frame. Qed.

#[local] Hint Resolve frame_deactivateLimits : frame.

Lemma frame_ForceDeactivateLimits : preserves (framed Q cfg) ForceDeactivateLimits.
Proof. unfold ForceDeactivateLimits. frame. Qed.

#[local] Hint Resolve frame_ForceDeactivateLimits : frame.

Lemma frame_executeDecision d m : preserves (framed Q cfg) (executeDecision d m).
Proof. unfold executeDecision. frame. Qed.

#[local] Hint Resolve frame_executeDecision : frame.

Lemma frame_Cleanup : preserves (framed Q cfg) Limits.Cleanup.
Proof. unfold Limits.Cleanup. frame. Qed.

#[local] Hint Resolve frame_Cleanup : frame.

Lemma frame_io_rate uid n t : preserves (framed Q cfg) (io_rate uid n t).
Proof. unfold io_rate. frame. Qed.

#[local] Hint Resolve frame_io_rate : frame.

Lemma frame_collect_user b t p : preserves (framed Q cfg) (collect_user b t p).
Proof. unfold collect_user. frame. Qed.

#[local] Hint Resolve frame_collect_user : frame.

Lemma frame_collectSystemMetricsWithIOState b : preserves (framed Q cfg) (collectSystemMetricsWithIOState b).
Proof. unfold collectSystemMetricsWithIOState. frame. Qed.

#[local] Hint Resolve frame_collectSystemMetricsWithIOState : frame.

Lemma frame_export_user p : preserves (framed Q cfg) (export_user p).
Proof. unfold export_user. frame. Qed.

#[local] Hint Resolve frame_export_user : frame.

Lemma frame_updatePrometheusMetrics m : preserves (framed Q cfg) (updatePrometheusMetrics m).
Proof. unfold updatePrometheusMetrics. frame. Qed.

#[local] Hint Resolve frame_updatePrometheusMetrics : frame.

Lemma frame_writeDatabaseMetrics m : preserves (framed Q cfg) (writeDatabaseMetrics m).
Proof. unfold writeDatabaseMetrics. frame. Qed.

#[local] Hint Resolve frame_writeDatabaseMetrics : frame.

Lemma frame_addControlHistoryEntry e : preserves (framed Q cfg) (addControlHistoryEntry e).
Proof. unfold addControlHistoryEntry. frame. Qed.

#[local] Hint Resolve frame_addControlHistoryEntry : frame.

Lemma frame_recordControlCycle d r m n : preserves (framed Q cfg) (recordControlCycle d r m n).
Proof. unfold recordControlCycle. frame. Qed.

#[local] Hint Resolve frame_recordControlCycle : frame.

Lemma frame_detect_user p : preserves (framed Q cfg) (detect_user p).
Proof. unfold detect_user. frame. Qed.

#[local] Hint Resolve frame_detect_user : frame.

Lemma frame_apply_policy uid p : preserves (framed Q cfg) (apply_policy uid p).
Proof. unfold apply_policy. frame. Qed.

#[local] Hint Resolve frame_apply_policy : frame.

Lemma frame_apply_pattern c p uid : preserves (framed Q cfg) (apply_pattern c p uid).
Proof. unfold apply_pattern. frame. Qed.

#[local] Hint Resolve frame_apply_pattern : frame.

Lemma frame_revertPSIBoosts : preserves (framed Q cfg) revertPSIBoosts.
Proof. unfold revertPSIBoosts. frame. Qed.

#[local] Hint Resolve frame_revertPSIBoosts : frame.

Lemma frame_OnUserPSIEvent uid : preserves (framed Q cfg) (OnUserPSIEvent uid).
Proof. unfold OnUserPSIEvent. frame. Qed.

#[local] Hint Resolve frame_OnUserPSIEvent : frame.

(** The remediation has a state of its own. *)
Lemma frame_dep {A} (m : ST W A) : preserves Q m -> preserves (fun s : IORemediation * W => Q s.2) (dep m).
Proof. intros Hm [r w] Hw. specialize (Hm w Hw). unfold exec, dep in *. by destruct (m w). Qed.

Lemma frame_put_boost uid st : preserves (fun s : IORemediation * W => Q s.2) (put_boost uid st).
Proof. by intros [r w] Hw. Qed.

Lemma frame_check_user c now uid : preserves (fun s : IORemediation * W => Q s.2) (check_user c now uid).
Proof.
  unfold check_user, applyBoost, revertBoost.
  repeat match goal with
  | |- forall _, _ => intros ?
  | |- preserves _ (mret _) => apply preserves_ret
  | |- preserves _ (_ ≫= _) => apply preserves_bind
  | |- preserves _ (when _ _) => apply preserves_when
  | |- preserves _ (let _ := _ in _) => cbv zeta
  | |- preserves _ (gets _) => apply preserves_gets
  | |- preserves _ (put_boost _ _) => apply frame_put_boost
  | |- preserves _ (dep _) => apply frame_dep
  | |- preserves _ (match ?x with _ => _ end) => destruct x
  | |- preserves _ (dep_GetPSIStats _) => exact (fr_stats _ _ F _)
  | |- preserves _ (dep_RemoveIOLimit _) => exact (fr_unio _ _ F _)
  end.
Qed.

Lemma frame_CheckAndRemediate c l now : preserves (fun s : IORemediation * W => Q s.2) (CheckAndRemediate c l now).
Proof.
  unfold CheckAndRemediate. destruct (negb _); [apply preserves_ret|]. apply preserves_bind; [apply preserves_gets|].
  intros t. destruct (_ <? _); [apply preserves_ret|]. apply preserves_bind; [by intros [r w] Hw|].
  intros []. apply preserves_for_each, frame_check_user.
Qed.

Lemma frame_remediation_Cleanup d now : preserves (fun s : IORemediation * W => Q s.2) (IORemediation.Cleanup d now).
Proof. by intros [r w] Hw. Qed.

#[local] Hint Resolve frame_CheckAndRemediate frame_remediation_Cleanup frame_remediation : frame.

Lemma frame_stageCheckBlackout run : preserves (framed Q cfg) (stageCheckBlackout run).
Proof. unfold stageCheckBlackout. frame. Qed.

#[local] Hint Resolve frame_stageCheckBlackout : frame.

Lemma frame_collectSystemMetrics : preserves (framed Q cfg) collectSystemMetrics.
Proof. unfold collectSystemMetrics. frame. Qed.

Lemma frame_collectSystemMetricsForRefresh : preserves (framed Q cfg) collectSystemMetricsForRefresh.
Proof. unfold collectSystemMetricsForRefresh. frame. Qed.

#[local] Hint Resolve frame_collectSystemMetrics frame_collectSystemMetricsForRefresh : frame.

Lemma frame_stageCollectMetrics run : preserves (framed Q cfg) (stageCollectMetrics run).
Proof. unfold stageCollectMetrics. frame. Qed.

#[local] Hint Resolve frame_stageCollectMetrics : frame.

Lemma frame_stageUpdatePrometheus run : preserves (framed Q cfg) (stageUpdatePrometheus run).
Proof. unfold stageUpdatePrometheus. frame. Qed.

#[local] Hint Resolve frame_stageUpdatePrometheus : frame.

Lemma frame_stageWriteDatabase run : preserves (framed Q cfg) (stageWriteDatabase run).
Proof. unfold stageWriteDatabase. frame. Qed.

#[local] Hint Resolve frame_stageWriteDatabase : frame.

Lemma frame_stageMakeDecision run : preserves (framed Q cfg) (stageMakeDecision run).
Proof. unfold stageMakeDecision. frame. Qed.

#[local] Hint Resolve frame_stageMakeDecision : frame.

Lemma frame_execute d m : preserves (framed Q cfg) (execute d m).
Proof. unfold execute. frame. Qed.

#[local] Hint Resolve frame_execute : frame.

Lemma frame_stageExecuteDecision run : preserves (framed Q cfg) (stageExecuteDecision run).
Proof. unfold stageExecuteDecision. frame. Qed.

#[local] Hint Resolve frame_stageExecuteDecision : frame.

Lemma frame_stageRecordHistory run : preserves (framed Q cfg) (stageRecordHistory run).
Proof. unfold stageRecordHistory. frame. Qed.

#[local] Hint Resolve frame_stageRecordHistory : frame.

Lemma frame_stageIORemediation run : preserves (framed Q cfg) (stageIORemediation run).
Proof. unfold stageIORemediation. frame. Qed.

#[local] Hint Resolve frame_stageIORemediation : frame.

Lemma frame_stageWorkloadPatternDetection run : preserves (framed Q cfg) (stageWorkloadPatternDetection run).
Proof. unfold stageWorkloadPatternDetection. frame. Qed.

#[local] Hint Resolve frame_stageWorkloadPatternDetection : frame.

Lemma frame_stageRevertPSIBoosts run : preserves (framed Q cfg) (stageRevertPSIBoosts run).
Proof. unfold stageRevertPSIBoosts. frame. Qed.

#[local] Hint Resolve frame_stageRevertPSIBoosts : frame.

Lemma frame_stageLogCompletion run : preserves (framed Q cfg) (stageLogCompletion run).
Proof. unfold stageLogCompletion. frame. Qed.

#[local] Hint Resolve frame_stageLogCompletion : frame.

Lemma frame_run_pipeline stages run :
  Forall (fun stage => forall run, preserves (framed Q cfg) (stage run)) stages -> preserves (framed Q cfg) (run_pipeline stages run).
Proof. intros H. revert run. induction H as [|stage stages Hs _ IH]; intros run; cbn [run_pipeline]; frame. Qed.

Lemma frame_RunControlCycleWithTrigger trigger : preserves (framed Q cfg) (RunControlCycleWithTrigger trigger).
Proof.
  unfold RunControlCycleWithTrigger. frame. apply frame_run_pipeline. unfold defaultControlCyclePipeline.
  repeat (apply Forall_cons_2; [intros ?; eauto with frame|]). apply Forall_nil_2.
Qed.

Lemma frame_RunMetricsRefresh trigger : preserves (framed Q cfg) (RunMetricsRefresh trigger).
Proof. unfold RunMetricsRefresh. frame. Qed.

Lemma frame_ForceActivateLimits : preserves (framed Q cfg) ForceActivateLimits.
Proof. unfold ForceActivateLimits. frame. Qed.

End Operations.

(** ** Entry points *)

Inductive Entry :=
  | Cycle (trigger : string)
  | Refresh (trigger : string)
  | ForceOn
  | ForceOff
  | Pressure (uid : Z)
  | Register
  | RunTask
  | Shutdown.

Section Entries.
Context {W : Type} {E : Env W}.

Definition enter (e : Entry) : SM W unit :=
  match e with
  | Cycle trigger => ignore (RunControlCycleWithTrigger trigger)
  | Refresh trigger => ignore (RunMetricsRefresh trigger)
  | ForceOn => ignore ForceActivateLimits
  | ForceOff => ignore ForceDeactivateLimits
  | Pressure uid => OnUserPSIEvent uid
  | Register => RegisterPSIWatcher
  | RunTask => run_next
  | Shutdown => ignore Limits.Cleanup
  end.

Lemma exec_ignore {S A} (m : ST S A) s : exec (ignore m) s = exec m s.
Proof. unfold exec, ignore, mbind, ST_bind. by destruct (m s). Qed.

Lemma enter_step e s : manager_step s (exec (enter e) s).
Proof. destruct e; cbn [enter]; rewrite ?exec_ignore; constructor. Qed.

Lemma frame_enter (Q : W -> Prop) cfg e : Frame E Q -> preserves (framed Q cfg) (enter e).
Proof.
  intros F s Hs. destruct e; cbn [enter]; rewrite ?exec_ignore; revert s Hs.
  - by apply frame_RunControlCycleWithTrigger.
  - by apply frame_RunMetricsRefresh.
  - by apply frame_ForceActivateLimits.
  - by apply frame_ForceDeactivateLimits.
  - by apply frame_OnUserPSIEvent.
  - by apply frame_update.
  - by apply frame_run_next.
  - by apply frame_Cleanup.
Qed.

End Entries.
