(* ===== verification/AppLoop.v ===== *)
(** * The daemon's loop
      (internal/app/app.go, app_loop.go, app_psi.go, app_shutdown.go)

    [App] holds the variables of the loop next to the fields of the Go type;
    an operation runs on it with the state manager and the world below
    ([AM]).  A ticker is its period.  [time.NewTicker] panics when the period
    is not positive: the operation then ends with the phase [Crashed].  The
    services the application starts and stops are the interface [Services]. *)

From S2P Require Import Prelude GoStrings GoFloat GoNumbers Config Blackout ConfigLoad CgroupLimits OS PSIWatcher StateBase Recorder Decision Limits Collect ControlCycle Frame Reload Lift.

#[local] Open Scope Z_scope.

(** ** State *)

Inductive Phase := Built | Looping | Finished | Crashed.

(** [hasX]: the field is not nil.  [killAfter]: the forced exit armed by a
    termination signal. *)
Record App := mkApp {
  a_cfg : Config;
  hasPrometheus : bool;
  hasConfigWatcher : bool;
  hasMCP : bool;
  hasDB : bool;
  hasCollector : bool;
  hasPSI : bool;
  psiEventDriven : bool;
  pollingInterval : Z;
  metricsRefreshInterval : Z;
  ticker : Duration;
  metricsTicker : option Duration;
  cycleComplete : bool;
  cancelled : bool;
  killAfter : option Duration;
  phase : Phase
}.

Definition App_eta (a : App) : App :=
  mkApp (a_cfg a) (hasPrometheus a) (hasConfigWatcher a) (hasMCP a) (hasDB a) (hasCollector a) (hasPSI a)
    (psiEventDriven a) (pollingInterval a) (metricsRefreshInterval a) (ticker a) (metricsTicker a) (cycleComplete a)
    (cancelled a) (killAfter a) (phase a).

Definition set_hasPSI : bool -> App -> App := ltac:(setter App_eta hasPSI).

Definition set_psiEventDriven : bool -> App -> App := ltac:(setter App_eta psiEventDriven).

Definition set_pollingInterval : Z -> App -> App := ltac:(setter App_eta pollingInterval).

Definition set_metricsRefreshInterval : Z -> App -> App := ltac:(setter App_eta metricsRefreshInterval).

Definition set_ticker : Duration -> App -> App := ltac:(setter App_eta ticker).

Definition set_metricsTicker : option Duration -> App -> App := ltac:(setter App_eta metricsTicker).

Definition set_cycleComplete : bool -> App -> App := ltac:(setter App_eta cycleComplete).

Definition set_cancelled : bool -> App -> App := ltac:(setter App_eta cancelled).

Definition set_killAfter : option Duration -> App -> App := ltac:(setter App_eta killAfter).

Definition set_phase : Phase -> App -> App := ltac:(setter App_eta phase).

(** The PSI watcher, [RecordPSIEvent] of the exporter and what [shutdown]
    stops. *)
Class Services (W : Type) := {
  sv_NewPSIWatcher : Z -> ST W unit;
  sv_SetThreshold : string -> Z -> ST W unit;
  sv_StartPSI : ST W (option error);
  sv_AddMonitor : Z -> string -> string -> ST W (option error);
  sv_StopPSI : ST W unit;
  sv_RecordPSIEvent : string -> string -> Time -> ST W unit;
  sv_StopConfigWatcher : ST W (option error);
  sv_StopMCP : ST W (option error);
  sv_CloseDB : ST W (option error);
  sv_StopCollector : ST W unit
}.

Inductive Signal := SIGHUP | SIGINT | SIGTERM.

Section Loop.
Context {W : Type} {E : Env W} `{O : OS W} `{V : Services W}.

Definition AM (A : Type) : Type := ST (App * (StateManager * W)) A.

Definition mgr {A} (m : SM W A) : AM A := lifted m.

Definition ext {A} (m : ST W A) : AM A := lifted (env m).

Definition app {A} (f : App -> A) : AM A := fun s => (f s.1, s).

Definition alter (f : App -> App) : AM unit := modify (fun '(a, s) => (f a, s)).

(** ** Intervals *)

Definition isPSIEventDrivenActive (a : App) : bool := PSIEventDriven (a_cfg a) && psiEventDriven a.

Definition controlCycleInterval : AM Z :=
  mgr (read s_cfg) ≫= fun cfg =>
  app isPSIEventDrivenActive ≫= fun active =>
  mret (if active : bool then PSIFallbackInterval cfg else PollingInterval cfg).

Definition metricsRefresh : AM Z :=
  mgr (read s_cfg) ≫= fun cfg =>
  app (fun a => negb (isPSIEventDrivenActive a) || negb (hasPrometheus a)) ≫= fun off =>
  mret (if off : bool then 0 else MetricsRefreshInterval cfg).

(** [time.NewTicker]: the period, unless it panics. *)
Definition NewTicker (interval : Z) : option Duration :=
  if seconds interval <=? 0 then None else Some (seconds interval).

(** [newOptionalTicker]: [None] is the panic. *)
Definition newOptionalTicker (interval : Z) : option (option Duration) :=
  if interval <=? 0 then Some None else Some <$> NewTicker interval.

Definition crash : AM unit := alter (set_phase Crashed).

(** ** The loop *)

Definition acquireCycleSlot : AM bool := app cycleComplete.

(** A cycle inside its slot. *)
Definition run_cycle (trigger : string) : AM unit :=
  alter (set_cycleComplete false) ≫= fun _ =>
  mgr (ignore (RunControlCycleWithTrigger trigger)) ≫= fun _ =>
  alter (set_cycleComplete true).

Definition tick : AM unit :=
  acquireCycleSlot ≫= fun free => when free (run_cycle "ticker").

Definition handleTickerCycle : AM unit :=
  controlCycleInterval ≫= fun current =>
  app pollingInterval ≫= fun old =>
  if current =? old then tick
  else
    alter (set_pollingInterval current) ≫= fun _ =>
    match NewTicker current with
    | None => crash
    | Some period => alter (set_ticker period) ≫= fun _ => tick
    end.

Definition handleMetricsRefreshCycle : AM unit := mgr (ignore (RunMetricsRefresh "metrics_refresh")).

Definition refreshMetricsTicker : AM unit :=
  metricsRefresh ≫= fun next =>
  app metricsRefreshInterval ≫= fun current =>
  if next =? current then mret tt
  else
    alter (set_metricsRefreshInterval next) ≫= fun _ =>
    match newOptionalTicker next with
    | None => crash
    | Some t => alter (set_metricsTicker t)
    end.

(** The next statement runs unless there was a panic. *)
Definition unless_crashed (m : AM unit) : AM unit :=
  app phase ≫= fun p => match p with Crashed => mret tt | _ => m end.

Definition psi_scope (uid : Z) : string := if uid >? 0 then "user" else "system".

Definition handlePSIEvent (e : PSIEvent) : AM unit :=
  when (UID e >? 0) (mgr (OnUserPSIEvent (UID e))) ≫= fun _ =>
  app hasPrometheus ≫= fun exporter =>
  when exporter (ext (sv_RecordPSIEvent (Type_ e) (psi_scope (UID e)) (Timestamp e))) ≫= fun _ =>
  acquireCycleSlot ≫= fun free =>
  when free (run_cycle ("psi_" +:+ psi_scope (UID e) +:+ "_" +:+ Type_ e)).

Definition shutdown_app : AM unit :=
  app hasConfigWatcher ≫= fun b => when b (ext (ignore sv_StopConfigWatcher)) ≫= fun _ =>
  mgr (ignore Limits.Cleanup) ≫= fun _ =>
  app hasMCP ≫= fun b => when b (ext (ignore sv_StopMCP)) ≫= fun _ =>
  app hasDB ≫= fun b => when b (ext (ignore sv_CloseDB)) ≫= fun _ =>
  app hasCollector ≫= fun b => when b (ext sv_StopCollector) ≫= fun _ =>
  app hasPSI ≫= fun b => when b (ext sv_StopPSI) ≫= fun _ =>
  alter (set_phase Finished).

(** ** Start *)

Definition pressureFileExists (path : string) : AM bool :=
  ext (os_Stat path) ≫= fun r => mret (negb (isSome r)).

Definition selectPressurePath (cgroupPath procPath : string) : AM string :=
  pressureFileExists cgroupPath ≫= fun c =>
  if c : bool then mret cgroupPath
  else pressureFileExists procPath ≫= fun p => mret (if p : bool then procPath else "").

Definition monitor_system (typ path : string) : AM Z :=
  if String.eqb path "" then mret 0
  else ext (sv_AddMonitor 0 typ path) ≫= fun r => mret (match r with Some _ => 0 | None => 1 end).

Definition startPSIWatcher : AM unit :=
  app a_cfg ≫= fun cfg =>
  if negb (PSIEventDriven cfg) then mret tt
  else
    let cpu := CgroupRoot cfg +:+ "/cpu.pressure" in
    let io := CgroupRoot cfg +:+ "/io.pressure" in
    selectPressurePath cpu "/proc/pressure/cpu" ≫= fun sysCPU =>
    selectPressurePath io "/proc/pressure/io" ≫= fun sysIO =>
    if String.eqb sysCPU "" && String.eqb sysIO "" then mret tt
    else
      ext (sv_NewPSIWatcher (wrap_u64 (PSIWindowUs cfg))) ≫= fun _ =>
      ext (sv_SetThreshold "cpu" (wrap_u64 (PSICPUStallThreshold cfg))) ≫= fun _ =>
      ext (sv_SetThreshold "io" (wrap_u64 (PSIOStallThreshold cfg))) ≫= fun _ =>
      ext sv_StartPSI ≫= fun err =>
      match err with
      | Some _ => mret tt
      | None =>
          monitor_system "cpu" sysCPU ≫= fun n1 =>
          monitor_system "io" sysIO ≫= fun n2 =>
          if n1 + n2 =? 0 then ext sv_StopPSI
          else
            alter (set_hasPSI true) ≫= fun _ =>
            alter (set_psiEventDriven true) ≫= fun _ =>
            pressureFileExists cpu ≫= fun c =>
            (if c : bool then mret true else pressureFileExists io) ≫= fun cgroups =>
            when cgroups (mgr RegisterPSIWatcher)
      end.

(** [runControlLoop] up to its loop. *)
Definition enter_loop : AM unit :=
  controlCycleInterval ≫= fun polling =>
  metricsRefresh ≫= fun refresh =>
  alter (set_pollingInterval polling) ≫= fun _ =>
  alter (set_metricsRefreshInterval refresh) ≫= fun _ =>
  match NewTicker polling, newOptionalTicker refresh with
  | Some period, Some t =>
      alter (set_ticker period) ≫= fun _ =>
      alter (set_metricsTicker t) ≫= fun _ =>
      mgr (ignore (RunControlCycleWithTrigger "initial")) ≫= fun _ =>
      alter (set_cycleComplete true) ≫= fun _ =>
      alter (set_phase Looping)
  | _, _ => crash
  end.

(** [Run], whose signal handler is part of [app_step]. *)
Definition Run : AM unit := startPSIWatcher ≫= fun _ => enter_loop.

(** A termination signal cancels the context and arms the forced exit; a
    hang-up asks the watcher for a reload, a step of the watcher. *)
Definition handleSignal (sig : Signal) : AM unit :=
  match sig with
  | SIGHUP => mret tt
  | _ =>
      app a_cfg ≫= fun cfg =>
      alter (set_cancelled true) ≫= fun _ =>
      alter (set_killAfter (Some (seconds (wrap_i64 (MCPShutdownTimeout cfg * 2)))))
  end.

(** The iterations of the loop, and what the other goroutines do meanwhile: a
    step of the manager, which may bring a configuration that satisfies
    [admitted]. *)
Inductive app_step (admitted : Config -> Prop) : App * (StateManager * W) -> App * (StateManager * W) -> Prop :=
  | loop_tick s : phase s.1 = Looping ->
      app_step admitted s (exec (handleTickerCycle ≫= fun _ => unless_crashed refreshMetricsTicker) s)
  | loop_refresh s : phase s.1 = Looping -> isSome (metricsTicker s.1) = true ->
      app_step admitted s (exec (handleMetricsRefreshCycle ≫= fun _ => refreshMetricsTicker) s)
  | loop_psi e s : phase s.1 = Looping -> psiEventDriven s.1 = true -> app_step admitted s (exec (handlePSIEvent e) s)
  | loop_done s : phase s.1 = Looping -> cancelled s.1 = true -> app_step admitted s (exec shutdown_app s)
  | loop_signal sig s : app_step admitted s (exec (handleSignal sig) s)
  | loop_other e s : app_step admitted s (exec (mgr (enter e)) s)
  | loop_config c s : admitted c -> app_step admitted s (exec (mgr (UpdateConfig (Some c))) s)
  | loop_world a m w w' : app_step admitted (a, (m, w)) (a, (m, w')).

End Loop.

Arguments AM W A : clear implicits.
