(* ===== verification/AppFacts.v ===== *)
(** * Properties of the daemon's loop *)

From S2P Require Import Prelude GoStrings GoFloat GoNumbers Config Blackout ConfigLoad CgroupLimits OS PSIWatcher StateBase Recorder Decision Limits Collect ControlCycle Frame CollectorBase Collector Bench Prometheus Reload Lift ReloadFacts AppLoop.

#[local] Open Scope Z_scope.

(** ** The loop as a client of the manager *)

Section Trace.
Context {W : Type} {E : Env W} `{O : OS W} `{V : Services W}.

(** The manager goes through steps of its own. *)
Definition traced {A} (m : AM W A) : Prop := forall s, rtc manager_step s.2 (exec m s).2.

Lemma traced_ret {A} (a : A) : traced (mret a).
Proof. by intros s. Qed.

Lemma traced_bind {A B} (m : AM W A) (f : A -> AM W B) : traced m -> (forall a, traced (f a)) -> traced (m ≫= f).
Proof.
  intros Hm Hf s. specialize (Hm s). unfold exec, mbind, ST_bind in *. destruct (m s) as [a s'].
  etransitivity; [exact Hm|apply Hf].
Qed.

Lemma traced_when b (m : AM W unit) : traced m -> traced (when b m).
Proof. destruct b; [done|]. by intros _ s. Qed.

Lemma traced_app {A} (f : App -> A) : traced (app f).
Proof. by intros s. Qed.

Lemma traced_alter f : traced (alter f).
Proof. by intros [a s]. Qed.

Lemma traced_read {A} (f : StateManager -> A) : traced (mgr (read f)).
Proof. by intros [a s]. Qed.

Lemma traced_ext {A} (m : ST W A) : traced (ext m).
Proof.
  intros [a [s w]]. unfold exec, ext, lifted, env. destruct (m w) as [r w']. apply rtc_once, step_world.
Qed.

Lemma traced_enter e : traced (mgr (enter e)).
Proof. intros s. unfold mgr. rewrite (proj1 (lifted_keeps (enter e) s)). apply rtc_once, enter_step. Qed.

End Trace.

Ltac traced :=
  repeat match goal with
  | |- forall _, _ => intros ?
  | |- traced (mret _) => apply traced_ret
  | |- traced (_ ≫= _) => apply traced_bind
  | |- traced (when _ _) => apply traced_when
  | |- traced (app _) => apply traced_app
  | |- traced (alter _) => apply traced_alter
  | |- traced crash => apply traced_alter
  | |- traced acquireCycleSlot => apply traced_app
  | |- traced (mgr (read _)) => apply traced_read
  | |- traced (ext _) => apply traced_ext
  | |- traced (mgr (ignore (RunControlCycleWithTrigger ?t))) => apply (traced_enter (Cycle t))
  | |- traced (mgr (ignore (RunMetricsRefresh ?t))) => apply (traced_enter (Refresh t))
  | |- traced (mgr (ignore Limits.Cleanup)) => apply (traced_enter Shutdown)
  | |- traced (mgr (OnUserPSIEvent ?u)) => apply (traced_enter (Pressure u))
  | |- traced (mgr RegisterPSIWatcher) => apply (traced_enter Register)
  | |- traced (match ?x with _ => _ end) => destruct x
  | |- traced (let _ := _ in _) => cbv zeta
  end.

Section Traced.
Context {W : Type} {E : Env W} `{O : OS W} `{V : Services W}.

Lemma traced_tick : traced (W := W) handleTickerCycle.
Proof. unfold handleTickerCycle, controlCycleInterval, tick, run_cycle. traced. Qed.

Lemma traced_refresh : traced (W := W) refreshMetricsTicker.
Proof. unfold refreshMetricsTicker, metricsRefresh. traced. Qed.

Lemma traced_psi e : traced (W := W) (handlePSIEvent e).
Proof. unfold handlePSIEvent, run_cycle. traced. Qed.

Lemma traced_shutdown : traced (W := W) shutdown_app.
Proof. unfold shutdown_app. traced. Qed.

Lemma traced_start : traced (W := W) startPSIWatcher.
Proof. unfold startPSIWatcher, selectPressurePath, pressureFileExists, monitor_system. traced. Qed.

Lemma traced_Run : traced (W := W) Run.
Proof.
  unfold Run. apply traced_bind; [apply traced_start|]. intros []. unfold enter_loop, controlCycleInterval, metricsRefresh. traced.
Qed.

Lemma traced_signal sig : traced (W := W) (handleSignal sig).
Proof. unfold handleSignal. traced. Qed.

Lemma app_step_traced admitted s s' : app_step (W := W) admitted s s' -> rtc manager_step s.2 s'.2.
Proof.
  destruct 1.
  - apply traced_bind; [apply traced_tick|]. intros []. unfold unless_crashed. traced; apply traced_refresh.
  - apply traced_bind; [apply (traced_enter (Refresh "metrics_refresh"))|]. intros []. apply traced_refresh.
  - apply traced_psi.
  - apply traced_shutdown.
  - apply traced_signal.
  - apply traced_enter.
  - unfold mgr. rewrite (proj1 (lifted_keeps _ s)). apply rtc_once, step_config.
  - apply rtc_once, step_world.
Qed.

End Traced.

(** ** What the operations do *)

(** The intervals a configuration asks for. *)
Definition wanted_cycle (a : App) (c : Config) : Z :=
  if isPSIEventDrivenActive a then PSIFallbackInterval c else PollingInterval c.

Definition wanted_refresh (a : App) (c : Config) : Z :=
  if negb (isPSIEventDrivenActive a) || negb (hasPrometheus a) then 0 else MetricsRefreshInterval c.

(** The optional ticker of an interval. *)
Definition refresh_period (interval : Z) : option Duration :=
  if interval <=? 0 then None else Some (seconds interval).

(** The tickers tick at their intervals, and no cycle holds the slot. *)
Record regular (a : App) : Prop := {
  rg_slot : cycleComplete a = true;
  rg_ticker : ticker a = seconds (pollingInterval a);
  rg_positive : 0 < ticker a;
  rg_refresh : metricsTicker a = refresh_period (metricsRefreshInterval a)
}.

(** The loop, when it follows [c]. *)
Definition follow_cycle (c : Config) (a : App) : App :=
  set_ticker (seconds (wanted_cycle a c)) (set_pollingInterval (wanted_cycle a c) a).

Definition follow_refresh (c : Config) (a : App) : App :=
  set_metricsTicker (refresh_period (wanted_refresh a c)) (set_metricsRefreshInterval (wanted_refresh a c) a).

Section Effects.
Context {W : Type} {E : Env W} `{O : OS W} `{V : Services W}.

Lemma exec_mgr_ignore {A} (m : SM W A) a s : exec (mgr (ignore m)) (a, s) = (a, exec m s).
Proof. unfold mgr. rewrite (proj1 (lifted_keeps (ignore m) (a, s))). cbn [fst snd]. by rewrite exec_ignore. Qed.

Lemma exec_then {S A B} (m : ST S A) (k : ST S B) s : exec (m ≫= fun _ => k) s = exec k (exec m s).
Proof. unfold exec, mbind, ST_bind. by destruct (m s). Qed.

Lemma exec_known {S A B} (m : ST S A) (f : A -> ST S B) s a s' : m s = (a, s') -> exec (m ≫= f) s = exec (f a) s'.
Proof. intros H. unfold exec, mbind, ST_bind. by rewrite H. Qed.

Lemma exec_app {A B} (f : App -> A) (k : A -> ST (App * (StateManager * W)) B) s : exec (app f ≫= k) s = exec (k (f s.1)) s.
Proof. done. Qed.

Lemma exec_alter f (a : App) (s : StateManager * W) : exec (alter f) (a, s) = (f a, s).
Proof. done. Qed.

Lemma run_cycle_eq t (a : App) (s : StateManager * W) :
  exec (run_cycle t) (a, s) = (set_cycleComplete true a, exec (RunControlCycleWithTrigger t) s).
Proof. unfold run_cycle, AM. by rewrite !exec_then, !exec_alter, exec_mgr_ignore. Qed.

Lemma controlCycleInterval_eq (a : App) (s : StateManager * W) :
  controlCycleInterval (a, s) = (wanted_cycle a (s_cfg s.1), (a, s)).
Proof. by destruct s. Qed.

Lemma metricsRefresh_eq (a : App) (s : StateManager * W) :
  metricsRefresh (a, s) = (wanted_refresh a (s_cfg s.1), (a, s)).
Proof. by destruct s. Qed.

Lemma NewTicker_positive n : 0 < seconds n -> NewTicker n = Some (seconds n).
Proof. intros H. unfold NewTicker. by rewrite (proj2 (Z.leb_gt _ _) H). Qed.

Lemma newOptionalTicker_eq n : (0 < n -> 0 < seconds n) -> newOptionalTicker n = Some (refresh_period n).
Proof.
  intros H. unfold newOptionalTicker, refresh_period. destruct (Z.leb_spec n 0); [done|]. by rewrite NewTicker_positive by auto.
Qed.

Lemma tick_eq (a : App) (s : StateManager * W) :
  cycleComplete a = true -> exec tick (a, s) = (a, exec (RunControlCycleWithTrigger "ticker") s).
Proof.
  intros Hc. unfold tick, acquireCycleSlot, AM. rewrite exec_app. cbn [fst]. rewrite Hc. cbn [when].
  rewrite run_cycle_eq. destruct a. cbn in Hc. by subst.
Qed.

Lemma handleTickerCycle_eq (a : App) (s : StateManager * W) :
  regular a -> 0 < seconds (wanted_cycle a (s_cfg s.1)) ->
  exec handleTickerCycle (a, s) = (follow_cycle (s_cfg s.1) a, exec (RunControlCycleWithTrigger "ticker") s).
Proof.
  intros [Hc Ht Hp Hr] Hw. unfold handleTickerCycle, AM. rewrite (exec_known _ _ _ _ _ (controlCycleInterval_eq a s)), exec_app.
  cbn [fst]. destruct (Z.eqb_spec (wanted_cycle a (s_cfg s.1)) (pollingInterval a)) as [Ew|Hn].
  - rewrite tick_eq by done. unfold follow_cycle. rewrite Ew. f_equal. destruct a. cbn in *. by rewrite <- Ht.
  - rewrite exec_then, exec_alter, NewTicker_positive, exec_then, exec_alter by done. by rewrite tick_eq.
Qed.

Lemma refreshMetricsTicker_eq (a : App) (s : StateManager * W) :
  metricsTicker a = refresh_period (metricsRefreshInterval a) ->
  (0 < wanted_refresh a (s_cfg s.1) -> 0 < seconds (wanted_refresh a (s_cfg s.1))) ->
  exec refreshMetricsTicker (a, s) = (follow_refresh (s_cfg s.1) a, s).
Proof.
  intros Hr Hw. unfold refreshMetricsTicker, AM. rewrite (exec_known _ _ _ _ _ (metricsRefresh_eq a s)), exec_app. cbn [fst].
  destruct (Z.eqb_spec (wanted_refresh a (s_cfg s.1)) (metricsRefreshInterval a)) as [Ew|Hn].
  - unfold follow_refresh. rewrite Ew. unfold exec. cbn [mret ST_ret snd]. f_equal. destruct a. cbn in *. by rewrite <- Hr.
  - by rewrite exec_then, exec_alter, newOptionalTicker_eq, exec_alter by done.
Qed.

End Effects.

(** ** The invariant of the loop *)

(** The longest interval that fits a duration. *)
Definition max_interval : Z := 9223372036.

Definition bounded (c : Config) : Prop :=
  PollingInterval c <= max_interval /\ PSIFallbackInterval c <= max_interval /\ MetricsRefreshInterval c <= max_interval.

Lemma seconds_positive n : 0 < n <= max_interval -> 0 < seconds n.
Proof.
  unfold max_interval, seconds, second. intros H. rewrite wrap_i64_small; [lia|]. unfold in_i64, two63. lia.
Qed.

Section Invariant.
Context `{RE : Regexp} {W : Type} {E : Env W} `{O : OS W} `{V : Services W} `{S : Site W}.

(** The fields the loop is built from. *)
Definition same_loop (c c' : Config) : Prop :=
  PollingInterval c' = PollingInterval c /\ PSIFallbackInterval c' = PSIFallbackInterval c /\ PSIEventDriven c' = PSIEventDriven c.

(** What a reload or the start can bring, with intervals that fit a duration: a
    configuration of the file, of which the daemon may have switched services
    off. *)
Definition admitted (c : Config) : Prop := exists c0, loadable (W := W) c0 /\ same_loop c0 c /\ bounded c.

Lemma admitted_loadable c : loadable (W := W) c -> bounded c -> admitted c.
Proof. intros H1 H2. by exists c. Qed.

Lemma admitted_cycle a c : admitted (a_cfg a) -> admitted c -> 0 < seconds (wanted_cycle a c).
Proof.
  intros (c0 & (pid0 & file0 & cfg0 & H0 & E0 & Hv0) & (_ & _ & Hd0) & _).
  intros (c1 & (pid & file & cfg1 & H1 & E1 & Hv) & (Hp1 & Hf1 & _) & (Hp & Hf & _)).
  apply seconds_positive. unfold wanted_cycle, isPSIEventDrivenActive. rewrite Hd0. destruct (PSIEventDriven c0) eqn:Ed; cbn [andb].
  - destruct (psiEventDriven a); [|pose proof (vc_polling _ _ Hv); lia]. split; [|done]. rewrite Hf1. subst c1.
    apply (driven_fallback url_Parse pid0 file0 pid file os_Getenv cfg0 cfg1); [done| |by rewrite E0|done]. by rewrite E0.
  - pose proof (vc_polling _ _ Hv). lia.
Qed.

Lemma admitted_refresh a c : admitted c -> 0 < wanted_refresh a c -> 0 < seconds (wanted_refresh a c).
Proof.
  intros (_ & _ & _ & _ & _ & Hr). unfold wanted_refresh. destruct (_ || _); [lia|]. intros H. by apply seconds_positive.
Qed.

(** *** What the parts maintain *)

Section Parts.
Context (A : App -> Prop) (c : Config).

Definition stays (s : App * (StateManager * W)) : Prop := A s.1 /\ s_cfg s.2.1 = c.

Lemma stays_app {B} (f : App -> B) : preserves stays (app f).
Proof. by intros s Hs. Qed.

Lemma stays_alter f : (forall a, A a -> A (f a)) -> preserves stays (alter f).
Proof. intros Hf [a s] [Ha Hs]. split; [by apply Hf|done]. Qed.

Lemma stays_ext {B} (m : ST W B) : preserves stays (ext m).
Proof. intros [a [s w]] H. unfold exec, ext, lifted, env. by destruct (m w). Qed.

Lemma frame_true : Frame E (fun _ => True).
Proof. by constructor. Qed.

Lemma stays_enter e : preserves stays (mgr (enter e)).
Proof.
  intros [a s] [Ha Hs]. unfold mgr. rewrite (proj1 (lifted_keeps (enter e) (a, s))). split; [done|].
  apply (frame_enter (fun _ => True) c e frame_true). done.
Qed.

Lemma stays_cycle t : (forall a, A a -> A (set_cycleComplete true a)) -> preserves stays (run_cycle t).
Proof.
  intros Hf [a s] [Ha Hs]. rewrite run_cycle_eq. split; [by apply Hf|]. cbn [snd].
  apply (frame_RunControlCycleWithTrigger (fun _ => True) c frame_true). done.
Qed.

End Parts.

Ltac stays :=
  repeat match goal with
  | |- forall _, _ => intros ?
  | |- preserves _ (mret _) => apply preserves_ret
  | |- preserves _ (_ ≫= _) => apply preserves_bind
  | |- preserves _ (when _ _) => apply preserves_when
  | |- preserves _ (app _) => apply stays_app
  | |- preserves _ acquireCycleSlot => apply stays_app
  | |- preserves _ (ext _) => apply stays_ext
  | |- preserves _ (run_cycle _) => apply stays_cycle
  | |- preserves _ (mgr (ignore (RunMetricsRefresh ?t))) => apply (stays_enter _ _ (Refresh t))
  | |- preserves _ (mgr (ignore Limits.Cleanup)) => apply (stays_enter _ _ Shutdown)
  | |- preserves _ (mgr (OnUserPSIEvent ?u)) => apply (stays_enter _ _ (Pressure u))
  | |- preserves _ (mgr RegisterPSIWatcher) => apply (stays_enter _ _ Register)
  | |- preserves _ (alter _) => apply stays_alter
  | |- preserves _ (match ?x with _ => _ end) => destruct x
  | |- preserves _ (let _ := _ in _) => cbv zeta
  end.

Lemma stays_psi (A : App -> Prop) c e :
  (forall a, A a -> A (set_cycleComplete true a)) -> preserves (stays A c) (handlePSIEvent e).
Proof. intros Hc. unfold handlePSIEvent. stays. by apply Hc. Qed.

Lemma stays_start (A : App -> Prop) c :
  (forall a, A a -> A (set_hasPSI true a)) -> (forall a, A a -> A (set_psiEventDriven true a)) -> preserves (stays A c) startPSIWatcher.
Proof.
  intros H1 H2. unfold startPSIWatcher, selectPressurePath, pressureFileExists, monitor_system. stays; auto.
Qed.

Lemma stays_shutdown (A : App -> Prop) c :
  (forall a, A a -> A (set_phase Finished a)) -> preserves (stays A c) shutdown_app.
Proof. intros Hf. unfold shutdown_app. stays. by apply Hf. Qed.

Lemma stays_signal (A : App -> Prop) c sig :
  (forall a, A a -> A (set_cancelled true a)) -> (forall d a, A a -> A (set_killAfter d a)) -> preserves (stays A c) (handleSignal sig).
Proof. intros H1 H2. unfold handleSignal. stays; auto. Qed.

(** *** The invariant *)

(** The daemon has not panicked; while it loops its tickers are regular. *)
Definition app_ok (s : App * (StateManager * W)) : Prop :=
  admitted (a_cfg s.1) /\ admitted (s_cfg s.2.1) /\ phase s.1 <> Crashed /\ (phase s.1 = Looping -> regular s.1).

(** The application on the components of its configuration, when [Run] was
    called. *)
Definition launched (s : App * (StateManager * W)) : Prop :=
  exists a exporter w, phase a = Built /\ admitted (a_cfg a) /\ s = exec Run (a, (NewStateManager (a_cfg a) exporter, w)).

Lemma enter_loop_eq (a : App) (s : StateManager * W) :
  0 < seconds (wanted_cycle a (s_cfg s.1)) ->
  (0 < wanted_refresh a (s_cfg s.1) -> 0 < seconds (wanted_refresh a (s_cfg s.1))) ->
  exec enter_loop (a, s) =
    (set_phase Looping (set_cycleComplete true (follow_refresh (s_cfg s.1) (follow_cycle (s_cfg s.1) a))),
     exec (RunControlCycleWithTrigger "initial") s).
Proof.
  intros Hc Hr. unfold enter_loop, AM.
  rewrite (exec_known _ _ _ _ _ (controlCycleInterval_eq a s)), (exec_known _ _ _ _ _ (metricsRefresh_eq a s)).
  rewrite !exec_then, !exec_alter, NewTicker_positive, newOptionalTicker_eq by done.
  rewrite !exec_then, !exec_alter, exec_mgr_ignore. done.
Qed.

Lemma follow_regular a c : admitted (a_cfg a) -> admitted c ->
  regular (set_cycleComplete true (follow_refresh c (follow_cycle c a))).
Proof. intros Ha Hc. constructor; [done|done|by apply admitted_cycle|done]. Qed.

Lemma app_ok_launched s : launched s -> app_ok s.
Proof.
  intros (a & exporter & w & Hb & Ha & ->). unfold Run, AM. rewrite exec_then.
  assert (stays (fun a' => phase a' = Built /\ a_cfg a' = a_cfg a) (a_cfg a)
            (exec startPSIWatcher (a, (NewStateManager (a_cfg a) exporter, w)))) as [[Hb' Ha'] Hs].
  { by apply stays_start. }
  destruct (exec startPSIWatcher _) as [a1 s1]. cbn [fst snd] in *.
  assert (admitted (a_cfg a1)) as Ha1 by (by rewrite Ha'). assert (admitted (s_cfg s1.1)) as Hs1 by (by rewrite Hs).
  rewrite enter_loop_eq; [|by apply admitted_cycle|by apply admitted_refresh]. split_and!; [done| |done|].
  - cbn [snd]. by rewrite (proj1 (frame_RunControlCycleWithTrigger (fun _ => True) (a_cfg a) frame_true "initial" s1 (conj Hs I))).
  - intros _. destruct (follow_regular a1 (s_cfg s1.1) Ha1 Hs1). by constructor.
Qed.

Lemma app_ok_stays {B} (m : AM W B) s :
  (forall A c, (A = fun a => a_cfg a = a_cfg s.1 /\ phase a <> Crashed /\ (phase a = Looping -> regular a)) ->
     preserves (stays A c) m) ->
  app_ok s -> app_ok (exec m s).
Proof.
  intros Hm (H1 & H2 & H3 & H4). destruct (Hm _ (s_cfg s.2.1) eq_refl s) as [(E1 & E2 & E3) E4]; [done|].
  unfold app_ok. by rewrite E1, E4.
Qed.

Lemma regular_unlooped a b : phase b <> Looping -> (phase b = Looping -> regular a).
Proof. done. Qed.

Lemma app_ok_step s s' : app_step admitted s s' -> app_ok s -> app_ok s'.
Proof.
  intros Hstep Hok. pose proof Hok as (Ha & Hs & Hp & Hr). destruct Hstep as [s Hl|s Hl Ht|e s Hl He|s Hl Hc|sig s|e s|c s Hc|a m w w'].
  - destruct s as [a s]. specialize (Hr Hl). unfold AM. rewrite exec_then, handleTickerCycle_eq by (done || by apply admitted_cycle).
    pose proof (frame_RunControlCycleWithTrigger (fun _ => True) (s_cfg s.1) frame_true "ticker" s (conj eq_refl I)) as [Hf _].
    unfold unless_crashed, AM. rewrite exec_app. cbn [fst] in *. change (phase (follow_cycle (s_cfg s.1) a)) with (phase a). rewrite Hl.
    rewrite refreshMetricsTicker_eq; [|apply Hr|rewrite Hf; by apply admitted_refresh]. rewrite Hf. split_and!; [done| |exact Hp|].
    + cbn [snd]. by rewrite Hf.
    + intros _. destruct Hr as [Hr1 Hr2 Hr3 Hr4]. constructor; [done|done|by apply admitted_cycle|done].
  - destruct s as [a s]. specialize (Hr Hl). unfold AM. rewrite exec_then. unfold handleMetricsRefreshCycle. rewrite exec_mgr_ignore.
    pose proof (frame_RunMetricsRefresh (fun _ => True) (s_cfg s.1) frame_true "metrics_refresh" s (conj eq_refl I)) as [Hf _].
    rewrite refreshMetricsTicker_eq; [|apply Hr|rewrite Hf; by apply admitted_refresh]. rewrite Hf. split_and!; [done| |exact Hp|].
    + cbn [snd]. by rewrite Hf.
    + intros _. destruct Hr as [Hr1 Hr2 Hr3 Hr4]. by constructor.
  - apply app_ok_stays; [|done]. intros A c ->. apply stays_psi. intros a (E1 & E2 & E3). split_and!; [done|done|].
    intros H. destruct (E3 H). by constructor.
  - apply app_ok_stays; [|done]. intros A c ->. apply stays_shutdown. intros a (E1 & E2 & E3). by split_and!.
  - apply app_ok_stays; [|done]. intros A c ->. apply stays_signal; [|intros d]; intros a (E1 & E2 & E3);
      (split_and!; [done|done|intros H; destruct (E3 H); by constructor]).
  - apply app_ok_stays; [|done]. intros A c ->. apply stays_enter.
  - destruct s as [a [m w]]. by split_and!.
  - done.
Qed.

End Invariant.

(** ** Properties *)

Section Properties.
Context `{RE : Regexp} {W : Type} {E : Env W} `{O : OS W} `{V : Services W} `{S : Site W}.


(** C11: with intervals below 9223372037 seconds, the daemon never panics on a
    ticker, whatever valid configurations the reloads bring, and while it loops
    no cycle holds the slot when an event arrives: no cycle is ever skipped. *)
Theorem loop_never_panics (s : App * (StateManager * W)) :
  reachable launched (app_step admitted) s ->
  phase s.1 <> Crashed /\
  (phase s.1 = Looping -> cycleComplete s.1 = true /\ ticker s.1 = seconds (pollingInterval s.1) /\ 0 < ticker s.1).
Proof.
  intros H. assert (app_ok s) as (_ & _ & Hp & Hr).
  { revert H. apply reachable_invariant; [apply app_ok_launched|]. intros s1 s2 H1 H2. by eapply app_ok_step. }
  split; [done|]. intros Hl. by destruct (Hr Hl).
Qed.

(** A tick always runs a control cycle, and leaves the loop at the intervals
    of the configuration in use: the fallback interval when pressure events
    drive it, the polling interval otherwise, and a refresh ticker exactly when
    they do and there is an exporter. *)
Theorem tick_follows_config (s : App * (StateManager * W)) :
  reachable launched (app_step admitted) s -> phase s.1 = Looping ->
  let c := s_cfg s.2.1 in
  let s' := exec (handleTickerCycle ≫= fun _ => unless_crashed refreshMetricsTicker) s in
  s'.2 = exec (RunControlCycleWithTrigger "ticker") s.2 /\
  pollingInterval s'.1 = wanted_cycle s.1 c /\ ticker s'.1 = seconds (wanted_cycle s.1 c) /\
  metricsTicker s'.1 = refresh_period (wanted_refresh s.1 c).
Proof.
  intros H Hl c s'. assert (app_ok s) as (Ha & Hs & _ & Hr).
  { revert H. apply reachable_invariant; [apply app_ok_launched|]. intros s1 s2 H1 H2. by eapply app_ok_step. }
  specialize (Hr Hl). destruct s as [a s]. unfold s', AM. rewrite exec_then, handleTickerCycle_eq by (done || by apply admitted_cycle).
  pose proof (frame_RunControlCycleWithTrigger (fun _ => True) (s_cfg s.1) frame_true "ticker" s (conj eq_refl I)) as [Hf _].
  unfold unless_crashed, AM. rewrite exec_app. cbn [fst] in *. change (phase (follow_cycle (s_cfg s.1) a)) with (phase a). rewrite Hl.
  rewrite refreshMetricsTicker_eq; [|apply Hr|rewrite Hf; by apply admitted_refresh]. by rewrite Hf.
Qed.

Lemma load_env_empty getenv fields cfg : (forall k, getenv k = "") -> load_env getenv fields cfg = (cfg, []).
Proof. intros Hg. induction fields as [|[k f] fields IH]; [done|]. cbn [load_env]. by rewrite Hg. Qed.

(** A polling interval of 292 years. *)
Definition patient_cfg : Config := set_PollingInterval 9223372037 (DefaultConfig None).

Lemma patient_loadable : (forall k, os_Getenv (W := W) k = "") -> loadable (W := W) patient_cfg.
Proof.
  intros Hg. exists None, (FileData "POLLING_INTERVAL=9223372037"), patient_cfg. split_and!.
  - by vm_compute.
  - unfold loadFromEnvironment. by rewrite load_env_empty.
  - apply validateConfig_valid. by vm_compute.
Qed.

(** A polling interval of 9223372037 seconds is accepted by the validation,
    but its duration wraps to a negative one: the daemon panics before its
    first cycle. *)
Theorem long_interval_panics :
  (forall k, os_Getenv (W := W) k = "") ->
  loadable (W := W) patient_cfg /\
  forall a exporter (w : W), a_cfg a = patient_cfg ->
    exists a', exec Run (a, (NewStateManager patient_cfg exporter, w)) = (a', (NewStateManager patient_cfg exporter, w)) /\
      phase a' = Crashed.
Proof.
  intros Hg. split; [by apply patient_loadable|]. intros a exporter w Ha.
  assert (exec startPSIWatcher (a, (NewStateManager patient_cfg exporter, w)) = (a, (NewStateManager patient_cfg exporter, w))) as Hs.
  { unfold startPSIWatcher, AM. rewrite exec_app. cbn [fst]. by rewrite Ha. }
  unfold Run, AM. rewrite exec_then, Hs. unfold enter_loop, AM.
  rewrite (exec_known _ _ _ _ _ (controlCycleInterval_eq a _)), (exec_known _ _ _ _ _ (metricsRefresh_eq a _)).
  rewrite !exec_then, !exec_alter. unfold wanted_cycle, isPSIEventDrivenActive. rewrite Ha. cbn [fst s_cfg NewStateManager andb].
  replace (NewTicker _) with (@None Duration) by done. by eexists.
Qed.

End Properties.

(** ** Witnesses *)

#[local] Existing Instance literal_regexp.

#[local] Instance recorder_os : OS Recorder := {|
  os_ReadFile _ := mret (Err ENOENT);
  os_WriteFile _ _ := mret None;
  os_AppendFile _ _ := mret None;
  os_Stat _ := mret None;
  os_ReadDir _ := mret (Err ENOENT);
  os_Mkdir _ := mret None;
  os_MkdirAll _ := mret None;
  os_Remove _ := mret None;
  os_RemoveAll _ := mret None;
  os_Rename _ _ := mret None;
  os_Chmod _ := mret None
|}.

#[local] Instance recorder_services : Services Recorder := {|
  sv_NewPSIWatcher _ := mret tt;
  sv_SetThreshold _ _ := mret tt;
  sv_StartPSI := mret None;
  sv_AddMonitor _ _ _ := mret None;
  sv_StopPSI := mret tt;
  sv_RecordPSIEvent _ _ _ := mret tt;
  sv_StopConfigWatcher := mret None;
  sv_StopMCP := mret None;
  sv_CloseDB := mret None;
  sv_StopCollector := mret tt
|}.

#[local] Instance recorder_site : Site Recorder := {|
  os_Getenv _ := "";
  url_Parse := no_url;
  os_StatInfo _ := mret (Err ENOENT)
|}.

(** Driven by pressure events, with an exporter. *)
Definition driven_cfg : Config := set_PSIEventDriven true (set_CPUThresholdDuration 0 (DefaultConfig None)).

Definition built : App :=
  mkApp driven_cfg true true false false true false false 0 0 0 None false false None Built.

Definition running : App * (StateManager * Recorder) := exec Run (built, (NewStateManager driven_cfg true, busy_site)).

Lemma driven_admitted : admitted (W := Recorder) driven_cfg.
Proof.
  apply admitted_loadable; [|done]. exists None, (FileData "PSI_EVENT_DRIVEN=true
CPU_THRESHOLD_DURATION=0"), driven_cfg. split_and!; [by vm_compute..|]. apply validateConfig_valid. by vm_compute.
Qed.

Lemma running_reachable : reachable launched (app_step (admitted (W := Recorder))) running.
Proof. apply reach_init. exists built, true, busy_site. split_and!; [done|apply driven_admitted|done]. Qed.


Lemma loop_never_panics_witness :
  phase running.1 = Looping /\ ticker running.1 = 300 * second /\ phase running.1 <> Crashed.
Proof. split_and!; [by vm_compute..|]. apply (loop_never_panics running running_reachable). Defined.

(** The next reload lengthens the fallback interval. *)
Definition slower_cfg : Config := set_PSIFallbackInterval 600 driven_cfg.

Definition slower : App * (StateManager * Recorder) := exec (mgr (StateBase.UpdateConfig (Some slower_cfg))) running.

Lemma tick_follows_config_witness :
  let s' := exec (handleTickerCycle ≫= fun _ => unless_crashed refreshMetricsTicker) slower in
  ticker slower.1 = 300 * second /\ ticker s'.1 = 600 * second /\ metricsTicker s'.1 = Some (30 * second).
Proof.
  assert (reachable launched (app_step (admitted (W := Recorder))) slower) as Hr.
  { apply (reach_step _ _ running); [apply running_reachable|]. apply loop_config, admitted_loadable; [|done].
    exists None, (FileData "PSI_EVENT_DRIVEN=true
CPU_THRESHOLD_DURATION=0
PSI_FALLBACK_INTERVAL=600"), slower_cfg. split_and!; [by vm_compute..|]. apply validateConfig_valid. by vm_compute. }
  destruct (tick_follows_config slower Hr) as (_ & _ & Ht & Hm); [by vm_compute|]. split_and!; [by vm_compute|..].
  - rewrite Ht. by vm_compute.
  - rewrite Hm. by vm_compute.
Defined.

Lemma long_interval_panics_witness :
  loadable (W := Recorder) patient_cfg /\
  exists a', exec Run (set_pollingInterval 0 (mkApp patient_cfg true true false false true false false 0 0 0 None false false None Built),
    (NewStateManager patient_cfg true, busy_site)) = (a', (NewStateManager patient_cfg true, busy_site)) /\ phase a' = Crashed.
Proof. destruct (long_interval_panics (W := Recorder)) as [H1 H2]; [done|]. split; [done|]. by apply H2. Defined.
