(* ===== verification/System.v ===== *)
(** * The daemon, linked

    The state manager over the exporter, the collector and the cgroup package,
    over an operating system: each package is given as the interface the
    manager was proved against.  The world of the manager is
    [Exporter * (Collector * (Manager * W))]; the exporter and the collector do
    not know each other ([beside]).  An invariant of a package that all its
    operations maintain holds in every state of the daemon ([Frame]). *)

From S2P Require Import Prelude GoStrings GoFloat GoNumbers ProcFiles Config Blackout ConfigLoad OS UserFilter CgroupBase CgroupProcess CgroupLimits CgroupCleanup Pattern StateBase Recorder CollectorBase Collector Bench CollectorSafe Prometheus PrometheusFacts Decision Limits Collect ControlCycle Frame Linked Reload Lift.

#[local] Open Scope Z_scope.

(** [string(pattern)]. *)
Definition pattern_name (p : WorkloadPattern) : string :=
  match p with
  | PatternUnknown => "unknown"
  | PatternBatchNight => "batch_night"
  | PatternInteractiveDay => "interactive_day"
  | PatternMixed => "mixed"
  | PatternAlwaysOn => "always_on"
  | PatternSporadic => "sporadic"
  end.

(** ** The packages as interfaces *)

Section Packages.
Context `{RE : Regexp} {W : Type} `{C : Clock W} `{O : OS W} `{P : Processes W} `{N : Sensors W} `{V : MapVisit W} `{D : Database W}.
Context (oor : f64 -> Z).

Definition exporter_package : PrometheusExporter (Exporter * W) := {|
  px_UpdateMetrics := UpdateMetrics;
  px_UpdateUserMetrics := UpdateUserMetrics;
  px_UpdateSystemMetrics := UpdateSystemMetrics;
  px_UpdateUserWorkloadPattern uid name p conf := UpdateUserWorkloadPattern uid name (pattern_name p) conf;
  px_RecordControlCycleTrigger := RecordControlCycleTrigger;
  px_CleanupUserMetrics := CleanupUserMetrics;
  px_IncrementLimitsActivated := IncrementLimitsActivated;
  px_IncrementLimitsDeactivated := IncrementLimitsDeactivated;
  px_Stop := ignore Prometheus.Stop
|}.

(** The writer the collector holds, asked at the present time. *)
Definition should_write : CM W (option bool) :=
  GetDBWriter ≫= fun writer =>
  match writer with
  | None => mret None
  | Some wr => sense time_Now ≫= fun now => mret (Some (ShouldWrite wr now))
  end.

(** A map is handed over in the order it is visited in. *)
Definition collector_package : MetricsCollector (Collector * W) := {|
  mc_GetTotalCores := GetTotalCores;
  mc_GetTotalCPUUsage := GetTotalCPUUsage oor;
  mc_GetLimitedUsers := GetLimitedUsers;
  mc_GetMemoryUsage := GetMemoryUsage;
  mc_GetTotalMemoryMB := GetTotalMemoryMB;
  mc_GetCachedMemoryMB := GetCachedMemoryMB;
  mc_IsSystemUnderLoad := IsSystemUnderLoad;
  mc_GetAllUserMetrics := GetAllUserMetrics ≫= fun all => sense (visit all);
  mc_ShouldWrite := should_write;
  mc_WriteMetricsToDatabase users cpu cores load active n := WriteMetricsToDatabase users cpu cores load active n;
  mc_GetUsernameFromUID := GetUsernameFromUID
|}.

(** A filter, with the cache of compiled patterns the configuration shares with
    the collector. *)
Definition filter_call (f : Config -> string -> ST regexCache bool) (cfg : Config) (username : string) : CM W bool :=
  fun '(c, w) => let '(b, r) := f cfg username (c_regexCache c) in (b, (set_c_regexCache r c, w)).

Definition filters_package : UserFilters (Collector * W) := {|
  uf_RAM := filter_call IsUserWhitelistedForRAM;
  uf_IO := filter_call IsUserWhitelistedForIO
|}.

Definition files_package {X : Type} `{OS X} : ManagerFiles X := {|
  mf_RemoveAll := os_RemoveAll;
  mf_ReadLoadAvg := os_ReadFile "/proc/loadavg"
|}.

(** What the daemon needs of the collector: nobody finds a value of another
    type in its caches. *)
Lemma safe_filter_call f cfg u :
  (forall cache, cache_ok cache -> wp (f cfg u) (fun _ cache' => cache_ok cache') cache) -> safe (filter_call f cfg u).
Proof.
  intros Hf [c w] (H1 & H2 & H3 & H4 & H5 & H6 & H7). specialize (Hf _ H7). unfold wp, filter_call in *.
  cbn [fst] in *. destruct (f cfg u (c_regexCache c)) as [b r]. cbn [fst snd] in *. unfold collector_ok. by destruct c.
Qed.

Lemma safe_should_write : safe should_write.
Proof. unfold should_write, GetDBWriter. safe_steps. Qed.

Lemma safe_listing : safe (GetAllUserMetrics ≫= fun all => sense (visit all)).
Proof. apply safe_bind; [apply safe_GetAllUserMetrics|]. intros a. apply safe_sense. Qed.

End Packages.

(** ** Credentials *)

(** What decides about access. *)
Definition credentials (e : Exporter) := (e_cfg e, basicAuthPassword e, jwtSecret e).

Lemma credentials_decide e e' jwt_Parse r :
  credentials e = credentials e' -> authMiddleware jwt_Parse e r = authMiddleware jwt_Parse e' r.
Proof. destruct e, e'. unfold credentials. cbn. intros [= -> -> ->]. reflexivity. Qed.

Lemma credentials_cgroup u p q m e : credentials (cgroup_series u p q m e) = credentials e.
Proof.
  unfold cgroup_series. destruct (String.eqb p ""); [done|]. destruct (String.eqb q ""); [done|].
  destruct (parseCPUQuota q) as [a b]. by destruct (a >=? 0), (b >? 0).
Qed.

Lemma credentials_io name labels now prev e : credentials (io_delta name labels now prev e) = credentials e.
Proof. unfold io_delta. by destruct (_ >=? _). Qed.

Lemma credentials_events u n events e : credentials (high_events u n events e) = credentials e.
Proof. unfold high_events. by destruct (_ >? _). Qed.

Lemma credentials_user x u n mem e : credentials (update_user x u n mem e) = credentials e.
Proof.
  unfold update_user. destruct (x_io x) as [[[rb wb] ro] wo]. rewrite credentials_cgroup. unfold io_stats, credentials at 1.
  cbn [e_cfg basicAuthPassword jwtSecret set_prevIOStats]. fold (credentials e).
  match goal with |- (_ ?e1, _, _) = _ => change (credentials e1 = credentials e) end.
  by rewrite !credentials_io, credentials_events.
Qed.

Lemma credentials_pattern key u n p conf e : credentials (set_pattern key u n p conf e) = credentials e.
Proof. unfold set_pattern. destruct (prevUserPatterns e !! key) as [q|]; [|done]. by destruct (String.eqb q p). Qed.

Lemma credentials_cleanup uids e : credentials (cleanup_users uids e) = credentials e.
Proof.
  unfold cleanup_users. generalize (elements (activeUserMetrics e)). intros l. revert e.
  induction l as [|k l IH]; intros e; [done|]. cbn [foldl]. rewrite IH. unfold cleanup_key.
  destruct (SplitN2 k "_"%char) as [|u [|n [|]]]; try done. destruct (Atoi u); [|done]. destruct (bool_decide _); [done|].
  unfold remove_user. cbn zeta. by destruct (prevUserPatterns _ !! k).
Qed.

Lemma credentials_closed k : closed (fun _ => True) (fun e => credentials e = k).
Proof.
  constructor; try done; intros.
  - by rewrite credentials_user.
  - by rewrite credentials_cleanup.
  - by rewrite credentials_pattern.
Qed.

(** ** The daemon *)

(** Next to a component the operation does not know. *)
Definition beside {X Y W A} (m : ST (X * W) A) : ST (X * (Y * W)) A := fun '(x, (y, w)) =>
  let '(a, (x', w')) := m (x, w) in (a, (x', (y, w'))).

Section Daemon.
Context `{RE : Regexp} {W : Type} `{C : Clock W} `{O : OS W} `{P : Processes W} `{T : Timer W} `{N : Sensors W}
  `{V : MapVisit W} `{D : Database W} `{Y : PressureMonitoring W} `{S : Scheduler W} `{R : MapOrder W}.
Context (oor : f64 -> Z).

Definition World : Type := Exporter * (Collector * (Manager * W)).

Definition world_exporter (s : World) : Exporter := s.1.
Definition world_collector (s : World) : Collector := s.2.1.
Definition world_cgroups (s : World) : Manager := s.2.2.1.

#[local] Instance daemon_cgroups : CgroupManager World :=
  lifted_cgroups (H := lifted_cgroups (H := package_manager oor)).

#[local] Instance daemon_collector : MetricsCollector World := lifted_metrics (H := collector_package (W := Manager * W) oor).

#[local] Instance daemon_filters : UserFilters World := {|
  uf_RAM cfg name := lifted (uf_RAM (UserFilters := filters_package (W := Manager * W)) cfg name);
  uf_IO cfg name := lifted (uf_IO (UserFilters := filters_package (W := Manager * W)) cfg name)
|}.

#[local] Instance daemon_exporter : PrometheusExporter World := {|
  px_UpdateMetrics m := beside (px_UpdateMetrics (PrometheusExporter := exporter_package (W := Manager * W)) m);
  px_UpdateUserMetrics x := beside (px_UpdateUserMetrics (PrometheusExporter := exporter_package (W := Manager * W)) x);
  px_UpdateSystemMetrics total action load :=
    beside (px_UpdateSystemMetrics (PrometheusExporter := exporter_package (W := Manager * W)) total action load);
  px_UpdateUserWorkloadPattern uid name p conf :=
    beside (px_UpdateUserWorkloadPattern (PrometheusExporter := exporter_package (W := Manager * W)) uid name p conf);
  px_RecordControlCycleTrigger t :=
    beside (px_RecordControlCycleTrigger (PrometheusExporter := exporter_package (W := Manager * W)) t);
  px_CleanupUserMetrics uids := beside (px_CleanupUserMetrics (PrometheusExporter := exporter_package (W := Manager * W)) uids);
  px_IncrementLimitsActivated := beside (px_IncrementLimitsActivated (PrometheusExporter := exporter_package (W := Manager * W)));
  px_IncrementLimitsDeactivated := beside (px_IncrementLimitsDeactivated (PrometheusExporter := exporter_package (W := Manager * W)));
  px_Stop := beside (px_Stop (PrometheusExporter := exporter_package (W := Manager * W)))
|}.

#[local] Instance daemon_files : ManagerFiles World := files_package.

Definition daemon_env : Env World := {| env_oor := oor |}.

#[local] Existing Instance daemon_env.

(** Everything that happens to the daemon: an entry of the manager, a new
    configuration, a request to the collector (of the MCP server, or of its
    clean-up ticker), an operation of the exporter (of its HTTP server, or of
    the application), and whatever the cgroup package and the machine do. *)
Inductive daemon_step : StateManager * World -> StateManager * World -> Prop :=
  | daemon_enter e s : daemon_step s (exec (enter e) s)
  | daemon_config cfg s : daemon_step s (exec (StateBase.UpdateConfig cfg) s)
  | daemon_serve r m (w : World) : daemon_step (m, w) (m, exec (lifted (serve oor r)) w)
  | daemon_export m e c w e' w' :
      ExporterStep (W := Manager * W) (e, w) (e', w') -> daemon_step (m, (e, (c, w))) (m, (e', (c, w')))
  | daemon_outside m e c w w' : daemon_step (m, (e, (c, w))) (m, (e, (c, w'))).

(** As the application starts it; without an exporter in use, the one of the
    world is never called. *)
Definition started (s : StateManager * World) : Prop :=
  initial s /\ new_collector (W := Manager * W) s.2.2 /\ exists w : Manager * W, created (world_exporter s.2, w).

(** What the packages maintain of the world; [P] of the exporter. *)
Definition world_ok (P : Exporter -> Prop) (w : World) : Prop := collector_ok (world_collector w) /\ P (world_exporter w).

Section Maintained.
Context (P0 : Exporter -> Prop) (K : closed (fun _ => True) P0).

Lemma deep_ok {A} (m : ST (Manager * W) A) : preserves (world_ok P0) (lifted (lifted m)).
Proof. intros [e [c w]] H. unfold exec, lifted. by destruct (m w). Qed.

Lemma collector_calls {A} (m : CM (Manager * W) A) : safe m -> preserves (world_ok P0) (lifted m).
Proof.
  intros Hm [e [c w]] [H1 H2]. specialize (Hm (c, w) H1). unfold wp in Hm. unfold exec, lifted.
  by destruct (m (c, w)) as [a [c' w']].
Qed.

Lemma exporter_calls {A} (m : XM (Manager * W) A) :
  lasting P0 m -> preserves (world_ok P0) (beside m).
Proof.
  intros Hm [e [c w]] [H1 H2]. specialize (Hm (e, w) H2). unfold wp in Hm. unfold exec, beside.
  by destruct (m (e, w)) as [a [e' w']].
Qed.

Lemma lasting_ignored {A} (m : XM (Manager * W) A) :
  lasting P0 m -> lasting P0 (ignore m).
Proof. intros Hm. apply lasting_bind; [done|]. intros a. apply lasting_ret. Qed.

Lemma ram_filter_safe cfg u : safe (filter_call IsUserWhitelistedForRAM cfg u : CM (Manager * W) bool).
Proof. apply safe_filter_call. intros cache Hc. eapply wp_mono; [|by apply wp_filter]. by intros b c' [_ H]. Qed.

Lemma io_filter_safe cfg u : safe (filter_call IsUserWhitelistedForIO cfg u : CM (Manager * W) bool).
Proof. apply safe_filter_call. intros cache Hc. eapply wp_mono; [|by apply wp_filter]. by intros b c' [_ H]. Qed.

Lemma daemon_frame : Frame daemon_env (world_ok P0).
Proof.
  destruct (safe_derived (W := Manager * W)) as (_ & _ & _ & _ & _ & Hlimited).
  constructor; intros; first
    [ exact (deep_ok _)
    | apply collector_calls; first
        [ exact safe_GetTotalCores | exact (safe_GetTotalCPUUsage oor) | exact Hlimited | exact safe_GetMemoryUsage
        | exact safe_GetTotalMemoryMB | exact safe_GetCachedMemoryMB | exact safe_IsSystemUnderLoad | exact safe_listing
        | exact safe_should_write | exact (safe_WriteMetrics _ _ _ _ _ _) | exact (safe_GetUsernameFromUID _)
        | exact (ram_filter_safe _ _) | exact (io_filter_safe _ _) ]
    | apply exporter_calls; first
        [ by apply (lasting_UpdateMetrics _ _ K) | by apply (lasting_UpdateUserMetrics _ _ K) | by apply (lasting_system _ _ K)
        | by apply (lasting_pattern _ _ K) | by apply (lasting_cleanup _ _ K) | by apply (lasting_inc _ _ K)
        | by apply lasting_ignored, (lasting_Stop _ _ K) ] ].
Qed.

End Maintained.

#[local] Instance daemon_shared_path : SharedPathLaw World.
Proof.
  intros [e [c w]] p Hp. apply (package_shared_path oor w p). revert Hp. unfold eval. cbn. unfold lifted. by destruct (CreateSharedCgroup w).
Qed.

Lemma daemon_keeps P0 s s' :
  closed (fun _ => True) P0 -> daemon_step s s' -> manager_ok s.1 /\ world_ok P0 s.2 -> manager_ok s'.1 /\ world_ok P0 s'.2.
Proof.
  intros K H [Hm Hw]. destruct H as [e s|cfg s|r m w|m e c w e' w' Hx|m e c w w'].
  - split; [by eapply manager_step_ok; [|apply enter_step]|].
    by apply (frame_enter (world_ok P0) (s_cfg s.1) e (daemon_frame P0 K) s).
  - split; [by eapply manager_step_ok; [|apply step_config]|]. destruct cfg; [|done]. by destruct s.
  - split; [done|]. by apply collector_calls; [apply safe_serve|].
  - split; [done|]. destruct Hw as [H1 H2]. split; [done|]. exact (closed_step _ _ K _ _ (fun _ _ => I) Hx H2).
  - done.
Qed.


End Daemon.

(** ** Witness: one cycle on a machine with two processes of a user *)

#[local] Existing Instance literal_regexp.

#[local] Instance bench_timer : Timer Bench := {| timer_fires _ := mret false |}.

Definition guarded_bench : Bench := mkBench (b_now bench) false (b_table bench) (<["/etc/pw" := "secret"]> (b_files bench)) [].

Definition guarded_exporter : Exporter := (exec loadCredentials (new_exporter metrics_cfg, guarded_bench)).1.

Definition machine_start : StateManager * World (W := Bench) :=
  (NewStateManager metrics_cfg true,
   (guarded_exporter,
    (NewCollector metrics_cfg zero_time (Err "none"),
     (@mkManager literal_regexp metrics_cfg ∅ ∅ "/run/resman-cgroups.txt" true true, guarded_bench)))).

Definition machine_env : Env (World (W := Bench)) :=
  daemon_env (Y := quiet_psi) (S := quiet_sched) (R := quiet_order) (fun _ => 0).

Definition machine_cycled : StateManager * World (W := Bench) :=
  exec (enter (E := machine_env) (Cycle "ticker")) machine_start.

Definition asks (user password : string) : Prometheus.Request := Prometheus.mkRequest (Some (user, password)) "".

