(* ===== verification/Locks.v ===== *)
(** * The lock of the state manager
      (state/manager.go: [Manager.mu])

    A [sync.RWMutex] and the threads that take it.  A writer announces itself,
    which keeps new readers out, then waits for the readers inside to leave; a
    second writer waits for the first.  A thread is the list of the calls on
    the lock that it has still to make. *)

From S2P Require Import Prelude.

Inductive LockOp := RLock | RUnlock | Lock | Unlock.

(** [holds]: how often it is inside as a reader. *)
Record Thread := mkThread { holds : nat; announced : bool; writing : bool; program : list LockOp }.

Definition busy (t : Thread) : bool := announced t || writing t.

Definition readers (ts : list Thread) : nat := sum_list (map holds ts).

Inductive lock_step (ts : list Thread) : list Thread -> Prop :=
  | step_rlock i n r :
      ts !! i = Some (mkThread n false false (RLock :: r)) -> existsb busy ts = false ->
      lock_step ts (<[i := mkThread (S n) false false r]> ts)
  | step_runlock i n a w r :
      ts !! i = Some (mkThread (S n) a w (RUnlock :: r)) -> lock_step ts (<[i := mkThread n a w r]> ts)
  | step_announce i n r :
      ts !! i = Some (mkThread n false false (Lock :: r)) -> existsb busy ts = false ->
      lock_step ts (<[i := mkThread n true false (Lock :: r)]> ts)
  | step_lock i n r :
      ts !! i = Some (mkThread n true false (Lock :: r)) -> readers ts = 0%nat ->
      lock_step ts (<[i := mkThread n false true r]> ts)
  | step_unlock i n r :
      ts !! i = Some (mkThread n false true (Unlock :: r)) -> lock_step ts (<[i := mkThread n false false r]> ts).

Definition thread (p : list LockOp) : Thread := mkThread 0 false false p.

Definition started (programs : list (list LockOp)) (ts : list Thread) : Prop := ts = map thread programs.

Definition finished (ts : list Thread) : Prop := Forall (fun t => program t = []) ts.

(** ** The programs of the manager *)

(** [GetConfig], [isUserLimited] and the other reading sections. *)
Definition read_section : list LockOp := [RLock; RUnlock].

(** [UpdateConfig] and the other writing sections. *)
Definition write_section : list LockOp := [Lock; Unlock].

Definition getActiveUsersList_locks : list LockOp := [RLock; RUnlock].

(** [GetStatus] calls [getActiveUsersList] inside its own section. *)
Definition GetStatus_locks : list LockOp := [RLock] ++ getActiveUsersList_locks ++ [RUnlock].

(** Sections one after the other. *)
Inductive flat : list LockOp -> Prop :=
  | flat_nil : flat []
  | flat_read p : flat p -> flat (RLock :: RUnlock :: p)
  | flat_write p : flat p -> flat (Lock :: Unlock :: p).

(** ** Flat programs *)

Inductive thread_ok : Thread -> Prop :=
  | ok_outside p : flat p -> thread_ok (mkThread 0 false false p)
  | ok_announced p : flat p -> thread_ok (mkThread 0 true false (Lock :: Unlock :: p))
  | ok_reading p : flat p -> thread_ok (mkThread 1 false false (RUnlock :: p))
  | ok_writing p : flat p -> thread_ok (mkThread 0 false true (Unlock :: p)).

Definition threads_ok (ts : list Thread) : Prop := Forall thread_ok ts.

Lemma flat_cons op r : flat (op :: r) -> exists r', (op = RLock /\ r = RUnlock :: r' \/ op = Lock /\ r = Unlock :: r') /\ flat r'.
Proof. inversion 1; subst; eauto. Qed.

Lemma threads_ok_start programs ts : Forall flat programs -> started programs ts -> threads_ok ts.
Proof. intros H ->. apply Forall_map. eapply Forall_impl; [exact H|]. intros p Hp. by constructor. Qed.

Lemma threads_ok_step ts ts' : threads_ok ts -> lock_step ts ts' -> threads_ok ts'.
Proof.
  intros H Hs. destruct Hs as [i n r Hi _|i n a w r Hi|i n r Hi _|i n r Hi _|i n r Hi];
    pose proof (Forall_lookup_1 _ _ _ _ H Hi) as Ht; apply Forall_insert; try done; inversion Ht; subst.
  all: repeat match goal with
       | K : flat (_ :: _) |- _ => apply flat_cons in K as (? & [[? ?]|[? ?]] & ?)
       | K : _ :: _ = _ :: _ |- _ => injection K as ?
       end; simplify_eq; by constructor.
Qed.

Lemma readers_none ts : (forall i t, ts !! i = Some t -> holds t = 0%nat) -> readers ts = 0%nat.
Proof.
  induction ts as [|t ts IH]; intros H; [done|]. unfold readers in *. cbn. rewrite (H 0%nat t eq_refl), IH; [done|].
  intros i. apply (H (S i)).
Qed.

Lemma none_busy ts : (forall i t, ts !! i = Some t -> busy t = false) -> existsb busy ts = false.
Proof.
  induction ts as [|t ts IH]; intros H; [done|]. cbn [existsb]. rewrite (H 0%nat t eq_refl), IH; [done|]. intros i. apply (H (S i)).
Qed.

(** Someone with the property, or nobody. *)
Lemma some_thread (f : Thread -> bool) (ts : list Thread) :
  (exists i t, ts !! i = Some t /\ f t = true) \/ (forall i t, ts !! i = Some t -> f t = false).
Proof.
  destruct (existsb f ts) eqn:E.
  - left. apply existsb_exists in E as (t & [i Hi]%list_elem_of_In%list_elem_of_lookup_1 & Ht). by exists i, t.
  - right. intros i t Hi. destruct (f t) eqn:Ht; [|done]. rewrite <- E. symmetry. apply existsb_exists. exists t.
    split; [|done]. by apply list_elem_of_In, list_elem_of_lookup_2 with i.
Qed.

Definition unfinished (t : Thread) : bool := match program t with [] => false | _ => true end.

Lemma progress ts : threads_ok ts -> finished ts \/ exists ts', lock_step ts ts'.
Proof.
  intros H. destruct (some_thread writing ts) as [(i & t & Hi & Hw)|Hw].
  { right. pose proof (Forall_lookup_1 _ _ _ _ H Hi) as Ht. inversion Ht; subst; try done. eexists. by eapply step_unlock. }
  destruct (some_thread (fun t => (0 <? holds t)%nat) ts) as [(i & t & Hi & Hr)|Hr].
  { right. pose proof (Forall_lookup_1 _ _ _ _ H Hi) as Ht. inversion Ht; subst; try done. eexists. by eapply step_runlock. }
  assert (readers ts = 0%nat) as H0.
  { apply readers_none. intros i t Hi. specialize (Hr i t Hi). apply Nat.ltb_ge in Hr. lia. }
  destruct (some_thread announced ts) as [(i & t & Hi & Ha)|Ha].
  { right. pose proof (Forall_lookup_1 _ _ _ _ H Hi) as Ht. inversion Ht; subst; try done. eexists. by eapply step_lock. }
  assert (existsb busy ts = false) as Hb.
  { apply none_busy. intros i t Hi. unfold busy. by rewrite (Ha i t Hi), (Hw i t Hi). }
  destruct (some_thread unfinished ts) as [(i & t & Hi & Hu)|Hu].
  - right. pose proof (Forall_lookup_1 _ _ _ _ H Hi) as Ht. destruct Ht as [p Hp|p Hp|p Hp|p Hp]; try (specialize (Hw i _ Hi); done);
      try (specialize (Ha i _ Hi); done); try (specialize (Hr i _ Hi); done).
    destruct p as [|op p]; [done|]. apply flat_cons in Hp as (p' & [[-> ->]|[-> ->]] & _); eexists;
      [by eapply step_rlock|by eapply step_announce].
  - left. apply Forall_lookup_2. intros i t Hi. specialize (Hu i t Hi). unfold unfinished in Hu. by destruct (program t).
Qed.

(** ** Steps left *)

Definition steps_left (t : Thread) : nat := 2 * length (program t) - (if announced t then 1 else 0).

Definition work (ts : list Thread) : nat := sum_list (map steps_left ts).

Lemma work_insert ts i t t' : ts !! i = Some t -> (work (<[i := t']> ts) + steps_left t = work ts + steps_left t')%nat.
Proof.
  revert i. induction ts as [|u ts IH]; intros i; [done|]. unfold work in *. destruct i as [|i]; cbn [lookup list_lookup].
  - intros [= ->]. change (steps_left t' + sum_list (map steps_left ts) + steps_left t = steps_left t + sum_list (map steps_left ts) + steps_left t')%nat. lia.
  - intros Hi. specialize (IH i Hi).
    change (steps_left u + sum_list (map steps_left (<[i := t']> ts)) + steps_left t = steps_left u + sum_list (map steps_left ts) + steps_left t')%nat. lia.
Qed.

Lemma work_decreases ts ts' : lock_step ts ts' -> (work ts' < work ts)%nat.
Proof.
  intros Hs. destruct Hs as [i n r Hi _|i n a w r Hi|i n r Hi _|i n r Hi _|i n r Hi];
    match type of Hi with _ = Some ?t => match goal with |- (work (<[_ := ?t']> _) < _)%nat => pose proof (work_insert ts i t t' Hi) as K end end;
    unfold steps_left in K; cbn [program announced length] in K; try (destruct a); lia.
Qed.

Lemma all_finish ts : threads_ok ts -> exists ts', rtc lock_step ts ts' /\ finished ts'.
Proof.
  remember (work ts) as n eqn:Hn. revert ts Hn. induction n as [n IH] using lt_wf_ind. intros ts -> H.
  destruct (progress ts H) as [Hf|[ts' Hs]]; [by exists ts|].
  destruct (IH (work ts') (work_decreases _ _ Hs) ts' eq_refl (threads_ok_step _ _ H Hs)) as (ts2 & Hr & Hf).
  exists ts2. split; [|done]. by eapply rtc_l.
Qed.

(** ** Properties *)

(** Threads that take the manager's lock for one section after the other never
    block one another: wherever they are they can all run to their end, and no
    schedule has more steps than calls on the lock (a [Lock] counts twice). *)
Theorem flat_locks_finish programs ts :
  Forall flat programs -> reachable (started programs) lock_step ts ->
  (exists ts', rtc lock_step ts ts' /\ finished ts') /\
  (forall n ts', nsteps lock_step n ts ts' -> (n <= work ts)%nat).
Proof.
  intros Hf Hr. assert (threads_ok ts) as Hok.
  { revert Hr. apply reachable_invariant; [intros s; by apply threads_ok_start|]. intros s1 s2. apply threads_ok_step. }
  split; [by apply all_finish|]. intros n. clear. revert ts. induction n as [|n IH]; intros ts ts' H; [lia|].
  inversion H as [|? ? s2 ? Hs H2]; subst. apply work_decreases in Hs. specialize (IH _ _ H2). lia.
Qed.

(** The others before they move. *)
Lemma others_idle programs : existsb busy (map thread programs) = false /\ readers (map thread programs) = 0%nat.
Proof. induction programs as [|p l [IH1 IH2]]; [done|]. unfold readers in *. cbn. by rewrite IH1, IH2. Qed.

(** C39: [GetStatus] takes the lock a second time while it holds it.  When
    [UpdateConfig] asks for it in between, the writer waits for the reader and
    the reader for the writer, and every other thread that needs the lock (the
    control loop reads its configuration under it) waits for ever with them. *)
Theorem GetStatus_deadlock others :
  Forall (fun p => flat p /\ p <> []) others ->
  exists ts, reachable (started (GetStatus_locks :: write_section :: others)) lock_step ts /\
    ~ (exists ts', lock_step ts ts') /\ Forall (fun t => program t <> []) ts.
Proof.
  intros Ho. destruct (others_idle others) as [Hb Hr].
  set (t1 := mkThread 1 false false [RLock; RUnlock; RUnlock]). set (t2 := mkThread 0 true false [Lock; Unlock]).
  exists (t1 :: t2 :: map thread others). split_and!.
  - apply (reach_step _ _ (t1 :: thread write_section :: map thread others)).
    + apply (reach_step _ _ (map thread (GetStatus_locks :: write_section :: others))); [by apply reach_init|].
      by refine (step_rlock (map thread (GetStatus_locks :: write_section :: others)) 0 0 [RLock; RUnlock; RUnlock] eq_refl _).
    + by refine (step_announce (t1 :: thread write_section :: map thread others) 1 0 [Unlock] eq_refl _).
  - intros [ts' Hs].
    assert (forall i t, (t1 :: t2 :: map thread others) !! i = Some t -> t = t1 \/ t = t2 \/ exists p, flat p /\ t = thread p) as K.
    { intros [|[|i]] t; cbn [lookup list_lookup]; [intros [= <-]; by left|intros [= <-]; by right; left|].
      intros Hi. apply list_lookup_fmap_Some in Hi as (p & -> & Hp). right. right. exists p.
      by destruct (Forall_lookup_1 _ _ _ _ Ho Hp). }
    inversion Hs as [i n r Hi Hbusy|i n a w r Hi|i n r Hi Hbusy|i n r Hi H0|i n r Hi]; subst.
    1, 3: by cbn in Hbusy.
    all: apply K in Hi as [Hi|[Hi|(p & Hp & Hi)]]; try discriminate Hi; try (injection Hi as; subst; inversion Hp).
    by unfold readers in H0; cbn in H0.
  - constructor; [done|]. constructor; [done|]. apply Forall_map. eapply Forall_impl; [exact Ho|]. by intros p [_ Hp].
Qed.

(** ** Witnesses *)

Lemma flat_locks_finish_witness :
  exists ts', rtc lock_step (map thread [read_section; write_section]) ts' /\ finished ts'.
Proof.
  apply (flat_locks_finish [read_section; write_section]); [|by apply reach_init].
  constructor; [apply flat_read, flat_nil|]. constructor; [apply flat_write, flat_nil|constructor].
Defined.

Lemma GetStatus_deadlock_witness :
  exists ts, reachable (started [GetStatus_locks; write_section; read_section]) lock_step ts /\
    ~ (exists ts', lock_step ts ts') /\ Forall (fun t => program t <> []) ts.
Proof. apply (GetStatus_deadlock [read_section]). constructor; [|constructor]. split; [apply flat_read, flat_nil|done]. Defined.
