(* ===== verification/Status.v ===== *)
(** * Reports of the state manager
      (state/manager.go: [GetStatus], [getActiveUsersList];
       state/limit_hook.go: [runLimitHook] and what it calls)

    What the manager tells the outside: the status asked for by the MCP server,
    and the event that goes to a script and to a web service when a user is
    limited.  The script and the service are the interface [HookTargets]; the
    body that is posted is the list of the fields of its JSON text. *)

From S2P Require Import Prelude GoStrings GoFloat GoNumbers Calendar GoAny Config Blackout ConfigLoad OS UserFilter CgroupBase CgroupProcess CgroupLimits CgroupCleanup StateBase Recorder Decision Limits Collect ControlCycle Linked Reload Lift.

#[local] Open Scope Z_scope.

(** ** Status *)

Section Report.
Context {W : Type} {E : Env W} `{O : OS W} `{Zn : Zones}.

Definition getActiveUsersList : SM W (list Z) := read activeUsers ≫= fun users => env (range_keys users).

(** A directory of a user. *)
Definition is_user_dir (entry : string * bool) : bool := entry.2 && HasPrefix entry.1 "user_".

(** The figures read from the shared cgroup. *)
Definition shared_status (path : string) (status : gmap string Any) : SM W (gmap string Any) :=
  env (os_ReadFile (filepath_Join [path; "cpu.max"])) ≫= fun quota =>
  env (os_ReadDir path) ≫= fun entries =>
  let status := match quota with
                | Ok data => <["shared_cgroup_quota" := AString (TrimSpace data)]> status
                | Err _ => status
                end in
  mret match entries with
       | Ok entries =>
           <["shared_cgroup_user_count" := AInt (Z.of_nat (length (List.filter is_user_dir entries)))]> status
       | Err _ => status
       end.

Definition GetStatus : SM W (gmap string Any) :=
  read (fun m => m) ≫= fun m =>
  getActiveUsersList ≫= fun users =>
  let status : gmap string Any := list_to_map
    [("limits_active", ABool (limitsActive m));
     ("limits_applied_time", AString (format_RFC3339 (shown (limitsAppliedTime m))));
     ("active_users_count", AInt (Z.of_nat (size (activeUsers m))));
     ("active_users", AInts users);
     ("shared_cgroup_path", AString (sharedCgroupPath m));
     ("shared_cgroup_active", ABool (negb (String.eqb (sharedCgroupPath m) "")))] in
  if String.eqb (sharedCgroupPath m) "" then mret status else shared_status (sharedCgroupPath m) status.

End Report.

(** ** The limit hook *)

(** The fields of a JSON object. *)
Inductive JSON :=
  | JInt (n : Z)
  | JFloat (x : f64)
  | JString (s : string)
  | JTime (t : GoTime).

(** [json.Marshal] of an event, whose server role is left out when empty. *)
Definition marshal_event (event : limitHookEvent) : result (list (string * JSON)) :=
  if negb (is_finite (h_CPUUsage event)) then Err "json: unsupported value"
  else Ok (
    [("uid", JInt (h_UID event));
     ("username", JString (h_Username event));
     ("cpu_usage", JFloat (h_CPUUsage event));
     ("limited_users", JInt (h_LimitedUsers event));
     ("shared_cgroup", JString (h_SharedCgroup event));
     ("timestamp", JTime (mkGoTime (h_Timestamp event) UTC))]
    ++ (if String.eqb (h_ServerRole event) "" then [] else [("server_role", JString (h_ServerRole event))])
    ++ [("source", JString "resman")]).

(** [deadline]: when the context of the call expires. *)
Class HookTargets (W : Type) := {
  os_Environ : list string;
  exec_CombinedOutput : Time -> string -> list string -> ST W (string * option error);
  http_NewRequest : string -> option error;
  http_Post : Time -> string -> list (string * string) -> list (string * JSON) -> ST W (result Z)
}.

Section Hook.
Context {W : Type} `{C : Clock W} `{H : HookTargets W} `{Zn : Zones}.

Definition hook_environment (event : limitHookEvent) : list string :=
  ["RESMAN_LIMIT_UID=" +:+ Itoa (h_UID event);
   "RESMAN_LIMIT_USERNAME=" +:+ h_Username event;
   "RESMAN_LIMIT_CPU_USAGE=" +:+ format_fixed 2 (h_CPUUsage event);
   "RESMAN_LIMIT_LIMITED_USERS=" +:+ Itoa (h_LimitedUsers event);
   "RESMAN_LIMIT_SHARED_CGROUP=" +:+ h_SharedCgroup event;
   "RESMAN_LIMIT_TIMESTAMP=" +:+ format_RFC3339 (mkGoTime (h_Timestamp event) UTC);
   "RESMAN_LIMIT_SERVER_ROLE=" +:+ h_ServerRole event].

Definition runLimitHookScript (deadline : Time) (script : string) (event : limitHookEvent) : ST W (option error) :=
  exec_CombinedOutput deadline script (os_Environ ++ hook_environment event) ≫= fun '(output, err) =>
  mret match err with Some e => Some (e +:+ ": " +:+ output) | None => None end.

Definition postLimitHook (deadline : Time) (endpoint : string) (event : limitHookEvent) : ST W (option error) :=
  match marshal_event event with
  | Err e => mret (Some ("marshal hook event: " +:+ e))
  | Ok body =>
      match http_NewRequest endpoint with
      | Some e => mret (Some ("create hook request: " +:+ e))
      | None =>
          http_Post deadline endpoint [("Content-Type", "application/json"); ("User-Agent", "resman-limit-hook")] body ≫= fun r =>
          mret match r with
               | Err e => Some ("post hook request: " +:+ e)
               | Ok status =>
                   if (status <? 200) || (300 <=? status) then Some ("hook endpoint returned HTTP " +:+ Itoa status) else None
               end
      end
  end.

(** Both calls share one deadline; an error is only logged. *)
Definition runLimitHook (cfg : Config) (event : limitHookEvent) : ST W unit :=
  time_Now ≫= fun now =>
  let deadline := now + seconds (LimitHookTimeout cfg) in
  when (negb (String.eqb (LimitHookScript cfg) "")) (ignore (runLimitHookScript deadline (LimitHookScript cfg) event)) ≫= fun _ =>
  when (negb (String.eqb (LimitHookURL cfg) "")) (ignore (postLimitHook deadline (LimitHookURL cfg) event)).

End Hook.

(** ** Properties *)

Section Consistent.
Context {W : Type} {E : Env W} `{O : OS W} `{Zn : Zones} `{L : !SharedPathLaw W}.

Lemma shared_status_keeps path status (Q : gmap string Any -> StateManager * W -> Prop) s :
  (forall status' w, (forall k, k <> "shared_cgroup_quota" -> k <> "shared_cgroup_user_count" -> status' !! k = status !! k) ->
     Q status' (s.1, w)) ->
  wp (shared_status path status) Q s.
Proof.
  intros HQ. unfold shared_status. apply wp_bind, wp_env. intros quota w1. apply wp_bind, wp_env. intros entries w2. apply wp_ret, HQ.
  intros k H1 H2. destruct entries, quota; rewrite ?lookup_insert_ne by congruence; done.
Qed.

(** In every state the manager can reach, the status lists each limited user
    once, with their number, and whenever it lists one it says that limits are
    active and that there is a shared cgroup; asking changes nothing. *)
Theorem GetStatus_consistent (s : StateManager * W) :
  reachable initial manager_step s ->
  (exec GetStatus s).1 = s.1 /\
  exists users, let status := eval GetStatus s in
    status !! "active_users" = Some (AInts users) /\ NoDup users /\
    (forall uid, uid ∈ users <-> uid ∈ activeUsers s.1) /\
    status !! "active_users_count" = Some (AInt (Z.of_nat (length users))) /\
    (users <> [] -> status !! "limits_active" = Some (ABool true) /\ status !! "shared_cgroup_active" = Some (ABool true)).
Proof.
  intros Hr. assert (manager_ok s.1) as [[Hl Hp] _].
  { revert Hr. apply (reachable_invariant _ _ (fun s => manager_ok s.1)); [apply initial_ok|intros s1 s2; apply manager_step_ok]. }
  enough (wp GetStatus (fun status s' => s'.1 = s.1 /\ exists users,
    status !! "active_users" = Some (AInts users) /\ NoDup users /\
    (forall uid, uid ∈ users <-> uid ∈ activeUsers s.1) /\
    status !! "active_users_count" = Some (AInt (Z.of_nat (length users))) /\
    (users <> [] -> status !! "limits_active" = Some (ABool true) /\ status !! "shared_cgroup_active" = Some (ABool true))) s)
    as K by (unfold wp, exec, eval in *; by destruct (GetStatus s)).
  unfold GetStatus, getActiveUsersList. apply wp_bind, wp_read, wp_bind, wp_bind, wp_read, wp_range. intros users w Hk.
  assert (NoDup users) as Hd by (rewrite Hk; apply NoDup_elements).
  assert (forall uid, uid ∈ users <-> uid ∈ activeUsers s.1) as Hu by (intros uid; by rewrite Hk, elem_of_elements).
  assert (size (activeUsers s.1) = length users) as Hs by (by rewrite Hk).
  assert (users <> [] -> limitsActive s.1 = true /\ sharedCgroupPath s.1 <> "") as Ha.
  { intros Hn. assert (limitsActive s.1 = true); [|by auto]. apply Hl. intros Ee. destruct users as [|u l]; [done|].
    specialize (Hu u). rewrite Ee, elem_of_cons in Hu. set_solver. }
  destruct (String.eqb_spec (sharedCgroupPath s.1) "") as [Ee|Ee].
  - apply wp_ret. split; [done|]. exists users. split_and!; [done..|by rewrite <- Hs|]. intros [_ ?]%Ha. by rewrite Ee in *.
  - apply shared_status_keeps. intros status' w2 Hkeep. split; [done|]. exists users. rewrite !Hkeep by done.
    split_and!; [done..|by rewrite <- Hs|]. intros [-> _]%Ha. done.
Qed.

End Consistent.

(** ** Witness: one limited user *)

#[local] Existing Instance literal_regexp.

#[local] Existing Instance greenwich.

#[local] Instance quiet_law : @SharedPathLaw (Manager * Box) (@env_cgroups _ quiet_env).
Proof. exact (package_shared_path (fun _ => 0)). Qed.

Lemma linked_cycled_reachable : reachable initial (manager_step (E := quiet_env)) linked_cycled.
Proof.
  apply (reach_step _ _ linked_start); [|apply step_cycle]. apply reach_init. exists impatient_config, true. reflexivity.
Qed.

Lemma GetStatus_consistent_witness :
  let status := eval (GetStatus (E := quiet_env)) linked_cycled in
  status !! "shared_cgroup_quota" = Some (AString "300000 100000") /\
  status !! "limits_applied_time" = Some (AString "0001-01-01T00:16:40Z") /\
  exists users, status !! "active_users" = Some (AInts users) /\ 1000 ∈ users.
Proof.
  split_and!; [by vm_compute..|].
  destruct (GetStatus_consistent (E := quiet_env) linked_cycled linked_cycled_reachable) as (_ & users & H1 & _ & H2 & _).
  exists users. split; [done|]. apply H2. by apply (bool_decide_unpack _); vm_compute.
Defined.
