(* ===== verification/Bootstrap.v ===== *)
(** * Start of the daemon
      (main.go, internal/app/app_bootstrap.go)

    The application is built by a chain of methods, each of which does nothing
    once [err] is set.  The configuration is one object that the components
    share: what the chain changes in it ([set_config]) changes for those that
    were built before.  The database, the network and the MCP server are the
    interface [Startup]; the other constructors are those of the components.
    The result is an application of [AppLoop]. *)

From S2P Require Import Prelude GoStrings GoFloat GoNumbers Config Blackout ConfigLoad OS UserFilter CgroupBase CgroupProcess CgroupLimits StateBase Recorder CollectorBase Collector Bench Prometheus PrometheusFacts Decision Limits Collect ControlCycle Reload Lift ReloadFacts Frame AppLoop AppFacts.

#[local] Open Scope Z_scope.

(** [NewDatabaseManager], [CleanupOldData], the dial of [checkPortAvailable]
    (is there somebody?), [mcp.NewServer] and its [Start]. *)
Class Startup (W : Type) := {
  db_NewDatabaseManager : string -> ST W (option error);
  db_CleanupOldData : Z -> ST W (result Z);
  net_DialTimeout : string -> Z -> ST W bool;
  mcp_NewServer : ST W (option error);
  mcp_Start : ST W (option error)
}.

Record Builder `{RE : Regexp} := mkBuilder {
  b_cfg : Config;
  b_configPath : string;
  b_err : option error;
  b_cgroupMgr : option Manager;
  b_collector : option Collector;
  b_dbManager : bool;
  b_exporter : option Exporter;
  b_stateManager : option StateManager;
  b_configWatcher : option Watcher;
  b_mcpServer : bool
}.

Section Chain.
Context `{RE : Regexp} {W : Type} `{O : OS W} `{C : Clock W} `{S : Site W} `{N : Sensors W} `{V : MapVisit W} `{U : Startup W}.

Definition Builder_eta (b : Builder) : Builder := mkBuilder _ (b_cfg b) (b_configPath b) (b_err b) (b_cgroupMgr b) (b_collector b)
  (b_dbManager b) (b_exporter b) (b_stateManager b) (b_configWatcher b) (b_mcpServer b).

Definition set_b_err : option error -> Builder -> Builder := ltac:(setter Builder_eta b_err).

Definition set_b_cgroupMgr : option Manager -> Builder -> Builder := ltac:(setter Builder_eta b_cgroupMgr).

Definition set_b_collector : option Collector -> Builder -> Builder := ltac:(setter Builder_eta b_collector).

Definition set_b_dbManager : bool -> Builder -> Builder := ltac:(setter Builder_eta b_dbManager).

Definition set_b_exporter : option Exporter -> Builder -> Builder := ltac:(setter Builder_eta b_exporter).

Definition set_b_stateManager : option StateManager -> Builder -> Builder := ltac:(setter Builder_eta b_stateManager).

Definition set_b_configWatcher : option Watcher -> Builder -> Builder := ltac:(setter Builder_eta b_configWatcher).

Definition set_b_mcpServer : bool -> Builder -> Builder := ltac:(setter Builder_eta b_mcpServer).

Definition BM (A : Type) : Type := ST (Builder * W) A.

Definition builder {A} (f : Builder -> A) : BM A := fun s => (f s.1, s).

Definition build (f : Builder -> Builder) : BM unit := modify (fun '(b, w) => (f b, w)).

Definition around {A} (m : ST W A) : BM A := fun '(b, w) => let '(a, w') := m w in (a, (b, w')).

Definition with_m_cfg (cfg : Config) (m : Manager) : Manager :=
  mkManager _ cfg (m_regexCache m) (createdCgroups m) (createdCgroupsFile m) (controllersAvailable m) (cgroupRootWritable m).

(** An assignment to a field of the shared configuration; it is made before
    the other components are built. *)
Definition set_config (f : Config -> Config) (b : Builder) : Builder :=
  let cfg := f (b_cfg b) in
  mkBuilder _ cfg (b_configPath b) (b_err b) (with_m_cfg cfg <$> b_cgroupMgr b) (set_c_cfg cfg <$> b_collector b)
    (b_dbManager b) (b_exporter b) (b_stateManager b) (b_configWatcher b) (b_mcpServer b).

(** [if a.err != nil { return a }]. *)
Definition unless_failed (m : BM unit) : BM unit :=
  builder b_err ≫= fun err => match err with Some _ => mret tt | None => m end.

Definition WithCgroupManager : BM unit :=
  unless_failed (
    builder b_cfg ≫= fun cfg =>
    around (CgroupBase.NewManager cfg) ≫= fun r =>
    match r with
    | Err e => build (set_b_err (Some e))
    | Ok mgr => build (set_b_cgroupMgr (Some mgr))
    end).

Definition WithMetricsCollector : BM unit :=
  unless_failed (
    builder b_cfg ≫= fun cfg =>
    around time_Now ≫= fun now =>
    around cpu_Times ≫= fun stats =>
    build (set_b_collector (Some (NewCollector cfg now stats)))).

(** A call on the collector that was built. *)
Definition collect (m : CM W unit) : BM unit := fun '(b, w) =>
  match b_collector b with
  | None => (tt, (b, w))
  | Some c => let '(_, (c', w')) := m (c, w) in (tt, (set_b_collector (Some c') b, w'))
  end.

Definition WithDatabase : BM unit :=
  unless_failed (
    builder b_cfg ≫= fun cfg =>
    if negb (MetricsDBEnabled cfg) then mret tt
    else
      around (db_NewDatabaseManager (MetricsDBPath cfg)) ≫= fun err =>
      match err with
      | Some _ => build (set_config (set_MetricsDBEnabled false))
      | None =>
          collect (SetDBWriter (Some (NewDBWriter true (MetricsDBWriteInterval cfg)))) ≫= fun _ =>
          build (set_b_dbManager true) ≫= fun _ =>
          collect (SetUsernameCacheTTL (wrap_i64 (UsernameCacheTTL cfg * minute))) ≫= fun _ =>
          around (ignore (db_CleanupOldData (MetricsDBRetentionDays cfg)))
      end).

Definition checkPortAvailable (host : string) (port : Z) : ST W bool :=
  net_DialTimeout host port ≫= fun connected => mret (negb connected).

(** [Start] on a fresh exporter. *)
Definition start_exporter (e : Exporter) : ST W (Exporter * option error) := fun w =>
  let '(err, (e', w')) := Prometheus.Start (e, w) in ((e', err), w').

Definition WithPrometheus : BM unit :=
  unless_failed (
    builder b_cfg ≫= fun cfg =>
    if negb (EnablePrometheus cfg) then mret tt
    else
      around (checkPortAvailable (PrometheusMetricsBindHost cfg) (PrometheusMetricsBindPort cfg)) ≫= fun free =>
      if negb free then build (set_config (set_EnablePrometheus false))
      else
        around (NewPrometheusExporter cfg) ≫= fun r =>
        match r with
        | Err _ | Ok None => mret tt
        | Ok (Some e) =>
            around (start_exporter e) ≫= fun '(e', err) =>
            match err with
            | Some _ => mret tt
            | None => build (set_b_exporter (Some e'))
            end
        end).

(** The manager's exporter is an interface around the pointer, so it is never
    [nil] even when there is no exporter. *)
Definition WithStateManager : BM unit :=
  unless_failed (
    builder b_cfg ≫= fun cfg => build (set_b_stateManager (Some (NewStateManager cfg true)))).

(** [Start] on a fresh watcher. *)
Definition start_watcher (r : Watcher) : ST W (Watcher * option error) := fun w =>
  let '(err, (r', w')) := StartWatcher (r, w) in ((r', err), w').

Definition WithConfigWatcher : BM unit :=
  unless_failed (
    builder b_configPath ≫= fun path =>
    if String.eqb path "" then mret tt
    else
      builder b_cfg ≫= fun cfg =>
      around (NewWatcher path cfg) ≫= fun r =>
      match r with
      | Err _ => mret tt
      | Ok watcher =>
          around (start_watcher watcher) ≫= fun '(watcher, err) =>
          match err with
          | Some _ => mret tt
          | None => build (set_b_configWatcher (Some watcher))
          end
      end).

Definition WithMCPServer : BM unit :=
  unless_failed (
    builder b_cfg ≫= fun cfg =>
    if negb (MCPEnabled cfg) then mret tt
    else
      around mcp_NewServer ≫= fun err =>
      match err with
      | Some _ => mret tt
      | None =>
          around mcp_Start ≫= fun err =>
          match err with
          | Some _ => mret tt
          | None => build (set_b_mcpServer true)
          end
      end).

Definition NewApp (cfg : Config) (path : string) : Builder :=
  mkBuilder _ cfg path None None None false None None None false.

Definition chain : BM unit :=
  WithCgroupManager ≫= fun _ => WithMetricsCollector ≫= fun _ => WithDatabase ≫= fun _ => WithPrometheus ≫= fun _ =>
  WithStateManager ≫= fun _ => WithConfigWatcher ≫= fun _ => WithMCPServer.

(** The application the loop runs on. *)
Definition app_of (b : Builder) : App :=
  mkApp (b_cfg b) (isSome (b_exporter b)) (isSome (b_configWatcher b)) (b_mcpServer b) (b_dbManager b) (isSome (b_collector b))
    false false 0 0 0 None false false None Built.

(** [main] up to [Run]: the exit code 1, or what [Run] starts from. *)
Definition main_start (path : string) : ST W (result Builder) := fun w =>
  let '(r, w1) := load_config path w in
  match r with
  | Err e => (Err e, w1)
  | Ok cfg =>
      let '(_, (b, w2)) := chain (NewApp cfg path, w1) in
      (match b_err b with Some e => Err e | None => Ok b end, w2)
  end.

End Chain.

Arguments BM {RE} W A.

(** ** Rules *)

Section Rules.
Context `{RE : Regexp} {W : Type}.

Lemma wp_builder {A} (f : Builder -> A) (Q : A -> Builder * W -> Prop) s : Q (f s.1) s -> wp (builder f) Q s.
Proof. done. Qed.

Lemma wp_build f (Q : unit -> Builder * W -> Prop) s : Q tt (f s.1, s.2) -> wp (build f) Q s.
Proof. by destruct s. Qed.

Lemma wp_around {A} (m : ST W A) (Q : A -> Builder * W -> Prop) s : wp m (fun a w => Q a (s.1, w)) s.2 -> wp (around m) Q s.
Proof. destruct s as [b w]. unfold wp, around. cbn [fst snd]. by destruct (m w). Qed.

Lemma wp_unless_failed (m : BM W unit) (Q : unit -> Builder * W -> Prop) s : b_err s.1 = None -> wp m Q s -> wp (unless_failed m) Q s.
Proof. intros He Hm. unfold unless_failed. apply wp_bind, wp_builder. by rewrite He. Qed.

Lemma failed_skips (m : BM W unit) b w e : b_err b = Some e -> unless_failed m (b, w) = (tt, (b, w)).
Proof. intros He. unfold unless_failed, builder, mbind, ST_bind. cbn [fst]. by rewrite He. Qed.

End Rules.

(** ** The cgroup manager keeps its configuration *)

Section Keeps.
Context `{RE : Regexp} {W : Type} `{O : OS W} (cfg : Config).

Definition of_cfg (s : Manager * W) : Prop := m_cfg s.1 = cfg.

Lemma cfg_os {A} (m : ST W A) : preserves of_cfg (os m).
Proof. intros [g w] H. unfold exec, os. by destruct (m w). Qed.

Ltac cfg_steps :=
  repeat match goal with
  | |- forall _, _ => intros ?
  | |- preserves _ (mret _) => apply preserves_ret
  | |- preserves _ (_ ≫= _) => apply preserves_bind
  | |- preserves _ (for_each _ _) => apply preserves_for_each
  | |- preserves _ (os _) => apply cfg_os
  | |- preserves _ (CgroupBase.mgr _) => by intros ? ?
  | |- preserves _ (set_createdCgroups _) => by intros [? ?] ?
  | |- preserves _ (set_controllersAvailable _) => by intros [? ?] ?
  | |- preserves _ (set_cgroupRootWritable _) => by intros [? ?] ?
  | |- preserves _ (try_ _ _ _) => unfold try_
  | |- preserves _ (best_effort _ _) => unfold best_effort
  | |- preserves _ (writeControllerIfMissing _ _) => unfold writeControllerIfMissing
  | |- preserves _ (match ?x with _ => _ end) => destruct x
  | |- preserves _ (let _ := _ in _) => cbv zeta
  end.

Lemma cfg_verify : preserves of_cfg verifyCgroupSetup.
Proof.
  unfold verifyCgroupSetup, controllers_step, writable_step, base_step, base_controllers_step, enableCPUControllers, getBaseCgroupPath.
  cfg_steps.
Qed.

Lemma cfg_load : preserves of_cfg loadExistingCgroups.
Proof. unfold loadExistingCgroups, load_entry. cfg_steps. Qed.

Lemma NewManager_cfg (w : W) m : (CgroupBase.NewManager cfg w).1 = Ok m -> m_cfg m = cfg.
Proof.
  unfold CgroupBase.NewManager. set (m0 := mkManager _ cfg ∅ ∅ _ false false). pose proof (cfg_verify (m0, w) eq_refl) as H1. unfold exec, of_cfg in H1.
  destruct (verifyCgroupSetup (m0, w)) as [[e|] [m1 w1]]; [done|]. pose proof (cfg_load (m1, w1) H1) as H2. unfold exec, of_cfg in H2.
  destruct (loadExistingCgroups (m1, w1)) as [o [m2 w2]]. by intros [= <-].
Qed.

End Keeps.

(** ** Specification *)

Section Spec.
Context `{RE : Regexp} {W : Type} `{O : OS W} `{C : Clock W} `{S : Site W} `{N : Sensors W} `{V : MapVisit W} `{U : Startup W}.

(** The services the start may have switched off. *)
Definition switched (cfg cfg' : Config) : Prop :=
  cfg' ∈ [cfg; set_MetricsDBEnabled false cfg; set_EnablePrometheus false cfg; set_EnablePrometheus false (set_MetricsDBEnabled false cfg)].

(** Every component sees the one configuration; the collector writes to the
    database exactly when it is open; a server that is reported runs. *)
Record wired (cfg : Config) (m : Manager) (b : Builder) : Prop := {
  wi_err : b_err b = None;
  wi_cfg : switched cfg (b_cfg b);
  wi_cgroups : b_cgroupMgr b = Some (with_m_cfg (b_cfg b) m);
  wi_collector : exists c, b_collector b = Some c /\ c_cfg c = b_cfg b /\ isSome (dbWriter c) = b_dbManager b;
  wi_exporter e : b_exporter b = Some e -> e_cfg e = b_cfg b /\ isRunning e = true /\ EnablePrometheus (b_cfg b) = true;
  wi_state st : b_stateManager b = Some st -> st = NewStateManager (b_cfg b) true;
  wi_watcher r : b_configWatcher b = Some r -> currentConfig r = b_cfg b /\ w_isRunning r = true
}.

(** Nobody but the cgroup manager and the collector was built. *)
Definition early (b : Builder) : Prop := b_exporter b = None /\ b_stateManager b = None /\ b_configWatcher b = None.

Lemma wp_collector cfg m (s : Builder * W) :
  s.1 = set_b_cgroupMgr (Some m) (NewApp cfg (b_configPath s.1)) -> m_cfg m = cfg ->
  wp WithMetricsCollector (fun _ s' => wired cfg m s'.1 /\ early s'.1 /\ b_cfg s'.1 = cfg /\ b_dbManager s'.1 = false /\
    b_configPath s'.1 = b_configPath s.1) s.
Proof.
  intros Hs Hm. unfold WithMetricsCollector. apply wp_unless_failed; [by rewrite Hs|].
  apply wp_bind, wp_builder, wp_bind, wp_around, wp_any. intros now w1. apply wp_bind, wp_around, wp_any. intros stats w2. apply wp_build.
  destruct s as [b w]. cbn [fst snd] in *. rewrite Hs.
  split_and!; [|done..]. constructor; try done; [by left|by subst; destruct m|by eexists].
Qed.

Lemma start_idle e (w : W) : isRunning e = false -> start_exporter e w = ((set_isRunning true e, None), w).
Proof. intros He. unfold start_exporter, Prometheus.Start, exporter, mbind, ST_bind. cbn [fst]. by rewrite He. Qed.

Lemma wp_new_exporter cfg (w : W) (Q : result (option Exporter) -> W -> Prop) :
  (forall r w', (forall e, r = Ok (Some e) -> e_cfg e = cfg /\ isRunning e = false) -> Q r w') -> wp (NewPrometheusExporter cfg) Q w.
Proof. intros HQ. apply HQ. intros e. apply new_exporter_idle. Qed.

(** To switch a service off in the shared configuration. *)
Lemma switched_off cfg m b f : early b -> switched cfg (f (b_cfg b)) -> wired cfg m b -> wired cfg m (set_config f b).
Proof.
  intros (He & Hst & Hr) Hf [H1 H2 H3 (c & Hc & Hcfg & Hw) H5 H6 H7]. destruct b. cbn in *. subst.
  constructor; try done; cbn. by eexists.
Qed.

Lemma wp_database cfg m (s : Builder * W) :
  wired cfg m s.1 -> early s.1 -> b_cfg s.1 = cfg -> b_dbManager s.1 = false ->
  wp WithDatabase (fun _ s' => wired cfg m s'.1 /\ early s'.1 /\ b_configPath s'.1 = b_configPath s.1 /\
    b_cfg s'.1 ∈ [cfg; set_MetricsDBEnabled false cfg] /\ b_dbManager s'.1 = MetricsDBEnabled (b_cfg s'.1)) s.
Proof.
  intros Hwd He <- Hd. unfold WithDatabase. apply wp_unless_failed; [apply Hwd|]. apply wp_bind, wp_builder.
  destruct (MetricsDBEnabled (b_cfg s.1)) eqn:Em; cbn [negb].
  2:{ apply wp_ret. split_and!; [done..|by left|by rewrite Hd]. }
  apply wp_bind, wp_around, wp_any. intros [e|] w1.
  - apply wp_build. cbn [fst snd]. split_and!; [|by destruct s as [[] ?]|by destruct s as [[] ?]|by right; left|by destruct s as [[] ?]].
    apply switched_off; [done| |done]. by right; left.
  - destruct Hwd as [H1 H2 H3 (c & Hc & Hcfg & Hw) H5 H6 H7]. destruct s as [[] w]. cbn in *. subst.
    apply wp_bind. unfold wp at 1. cbn. apply wp_bind. unfold wp at 1. cbn. apply wp_bind. unfold wp at 1. cbn.
    apply wp_around, wp_any. intros [] w2. split_and!; [|done|done|by left|done]. constructor; try done; cbn. by eexists.
Qed.

Lemma wp_prometheus cfg m (s : Builder * W) :
  wired cfg m s.1 -> early s.1 -> b_cfg s.1 ∈ [cfg; set_MetricsDBEnabled false cfg] -> b_dbManager s.1 = MetricsDBEnabled (b_cfg s.1) ->
  wp WithPrometheus (fun _ s' => wired cfg m s'.1 /\ b_stateManager s'.1 = None /\ b_configWatcher s'.1 = None /\
    b_configPath s'.1 = b_configPath s.1 /\ b_dbManager s'.1 = MetricsDBEnabled (b_cfg s'.1)) s.
Proof.
  intros Hwd He Hb Hd. pose proof He as (He1 & Hst & Hr). unfold WithPrometheus. apply wp_unless_failed; [apply Hwd|].
  apply wp_bind, wp_builder. destruct (EnablePrometheus (b_cfg s.1)) eqn:Em; cbn [negb]; [|by apply wp_ret].
  apply wp_bind, wp_around, wp_any. intros [] w1; cbn [negb].
  - apply wp_bind, wp_around, wp_new_exporter. intros [[e|]|e] w2 Hn; [|by apply wp_ret..].
    destruct (Hn e eq_refl) as [Hn1 Hn2]. apply wp_bind, wp_around. cbn [fst snd]. unfold wp at 1. rewrite start_idle by done.
    apply wp_build. split_and!; [|done..]. destruct Hwd as [H1 H2 H3 H4 H5 H6 H7]. destruct s as [[] w]. cbn in *. constructor; try done; cbn.
    intros e' [= <-]. by destruct e.
  - apply wp_build. cbn [fst snd]. split_and!; [|by destruct s as [[] ?]; cbn in *; subst..].
    apply switched_off; [done| |done].
    apply list_elem_of_In in Hb. cbn in Hb. unfold switched. rewrite !elem_of_cons. destruct Hb as [<-|[<-|[]]]; auto.
Qed.

Lemma wp_watcher cfg m (s : Builder * W) :
  wired cfg m s.1 -> is_Some (b_stateManager s.1) ->
  wp WithConfigWatcher (fun _ s' => wired cfg m s'.1 /\ is_Some (b_stateManager s'.1) /\ b_cfg s'.1 = b_cfg s.1 /\
    b_dbManager s'.1 = b_dbManager s.1) s.
Proof.
  intros Hwd Hst. unfold WithConfigWatcher. apply wp_unless_failed; [apply Hwd|]. apply wp_bind, wp_builder.
  destruct (String.eqb _ ""); [by apply wp_ret|]. apply wp_bind, wp_builder, wp_bind, wp_around. unfold NewWatcher. apply wp_bind, wp_any.
  intros [[t n]|e] w1; apply wp_ret; [|by apply wp_ret]. apply wp_bind, wp_around. unfold wp, start_watcher. cbn.
  destruct Hwd as [H1 H2 H3 H4 H5 H6 H7]. destruct s as [[] w]. cbn in *. split_and!; [|done..]. constructor; try done; cbn.
  by intros r [= <-].
Qed.

Lemma wp_mcp cfg m (s : Builder * W) :
  wired cfg m s.1 -> is_Some (b_stateManager s.1) ->
  wp WithMCPServer (fun _ s' => wired cfg m s'.1 /\ is_Some (b_stateManager s'.1) /\ b_cfg s'.1 = b_cfg s.1 /\
    b_dbManager s'.1 = b_dbManager s.1) s.
Proof.
  intros Hwd Hst. unfold WithMCPServer. apply wp_unless_failed; [apply Hwd|]. apply wp_bind, wp_builder.
  destruct (negb _); [by apply wp_ret|]. apply wp_bind, wp_around, wp_any. intros [e|] w1; [by apply wp_ret|].
  apply wp_bind, wp_around, wp_any. intros [e|] w2; [by apply wp_ret|]. apply wp_build.
  destruct Hwd as [H1 H2 H3 H4 H5 H6 H7]. destruct s as [[] w]. cbn in *. split_and!; [|done..]. by constructor.
Qed.

Lemma chain_failed cfg path e (w w1 : W) :
  CgroupBase.NewManager cfg w = (Err e, w1) -> exec chain (NewApp cfg path, w) = (set_b_err (Some e) (NewApp cfg path), w1).
Proof.
  intros He.
  assert (WithCgroupManager (NewApp cfg path, w) = (tt, (set_b_err (Some e) (NewApp cfg path), w1))) as H1.
  { unfold WithCgroupManager, unless_failed, builder, around, mbind, ST_bind. cbn [fst b_err b_cfg NewApp]. by rewrite He. }
  unfold exec, chain, mbind, ST_bind. rewrite H1. unfold WithMetricsCollector, WithDatabase, WithPrometheus, WithStateManager, WithConfigWatcher, WithMCPServer.
  by rewrite !(failed_skips _ _ _ e) by done.
Qed.

Lemma chain_wired cfg path m (w w1 : W) :
  CgroupBase.NewManager cfg w = (Ok m, w1) ->
  wp chain (fun _ s' => wired cfg m s'.1 /\ is_Some (b_stateManager s'.1) /\ b_dbManager s'.1 = MetricsDBEnabled (b_cfg s'.1))
    (NewApp cfg path, w).
Proof.
  intros Hm. unfold chain. apply wp_bind.
  unfold WithCgroupManager. apply wp_unless_failed; [done|]. apply wp_bind, wp_builder, wp_bind, wp_around. unfold wp at 1. cbn [fst snd b_cfg NewApp].
  rewrite Hm. apply wp_build. cbn [fst snd].
  apply wp_bind. eapply wp_mono; [|apply (wp_collector cfg m); [done|]]; [|apply (NewManager_cfg cfg w); by rewrite Hm].
  intros _ s1 (Hw & He & Hc & Hd & _).
  apply wp_bind. eapply wp_mono; [|by apply (wp_database cfg m)]. intros _ s2 (Hw2 & He2 & _ & Hc2 & Hd2).
  apply wp_bind. eapply wp_mono; [|by apply (wp_prometheus cfg m)]. intros _ s3 (Hw3 & Hst3 & Hr3 & _ & Hd3).
  apply wp_bind. unfold WithStateManager at 1. apply wp_unless_failed; [apply Hw3|]. apply wp_bind, wp_builder, wp_build.
  assert (wired cfg m (set_b_stateManager (Some (NewStateManager (b_cfg s3.1) true)) s3.1) /\
    b_dbManager (set_b_stateManager (Some (NewStateManager (b_cfg s3.1) true)) s3.1) =
    MetricsDBEnabled (b_cfg (set_b_stateManager (Some (NewStateManager (b_cfg s3.1) true)) s3.1))) as [Hw4 Hd4].
  { destruct Hw3 as [H1 H2 H3 H4 H5 H6 H7]. destruct s3 as [[] w3]. cbn in *. split; [|done]. constructor; try done. by intros st [= <-]. }
  apply wp_bind. eapply wp_mono; [|apply (wp_watcher cfg m); [exact Hw4|by destruct s3 as [[] ?]]].
  intros _ s5 (Hw5 & Hst5 & Hc5 & Hd5). eapply wp_mono; [|by apply (wp_mcp cfg m)].
  intros _ s6 (Hw6 & Hst6 & Hc6 & Hd6). split_and!; [done..|]. by rewrite Hd6, Hc6, Hc5, Hd5.
Qed.

(** ** Properties *)

(** C28: only the cgroup setup can stop the start, and then nothing else is built.
    Otherwise the state manager is there whatever fails in the database, the
    exporter, the watcher and the MCP server; all components see one
    configuration, in which at most the database and the exporter were switched
    off, and the collector writes to a database exactly when it is open. *)
Theorem bootstrap_spec cfg path (w : W) :
  let b := (exec chain (NewApp cfg path, w)).1 in
  match (CgroupBase.NewManager cfg w).1 with
  | Err e => b = set_b_err (Some e) (NewApp cfg path)
  | Ok m => wired cfg m b /\ b_stateManager b = Some (NewStateManager (b_cfg b) true) /\ b_dbManager b = MetricsDBEnabled (b_cfg b)
  end.
Proof.
  cbn zeta. destruct (CgroupBase.NewManager cfg w) as [[m|e] w1] eqn:Em; cbn [fst]; [|by rewrite (chain_failed cfg path e w w1)].
  pose proof (wp_exec chain (fun s' => wired cfg m s'.1 /\ is_Some (b_stateManager s'.1) /\ b_dbManager s'.1 = MetricsDBEnabled (b_cfg s'.1))
    (NewApp cfg path, w) (chain_wired cfg path m w w1 Em)) as (Hw & [st Hst] & Hd).
  split_and!; [done| |done]. rewrite Hst. f_equal. by apply (wi_state _ _ _ Hw).
Qed.

End Spec.

(** ** From the command line to the loop *)

Section Main.
Context `{RE : Regexp} {W : Type} `{O : OS W} `{C : Clock W} `{S : Site W} `{N : Sensors W} `{V : MapVisit W} `{U : Startup W}.

(** The world of the running daemon: the same environment variables. *)
Context {X : Type} {E : Env X} {OX : OS X} {SX : Site X} {VX : Services X}.

Hypothesis same_getenv : os_Getenv (W := X) = os_Getenv (W := W).
Hypothesis same_urls : url_Parse (W := X) = url_Parse (W := W).

Lemma switched_admitted c c' : loadable (W := W) c -> switched c c' -> bounded c -> admitted (W := X) c'.
Proof.
  intros (pid & file & cfg0 & H1 & H2 & H3) Hs Hb. exists c. split_and!.
  - exists pid, file, cfg0. rewrite same_getenv, same_urls. by split_and!.
  - apply list_elem_of_In in Hs. cbn in Hs. destruct Hs as [<-|[<-|[<-|[<-|[]]]]]; by destruct c.
  - apply list_elem_of_In in Hs. cbn in Hs. destruct Hs as [<-|[<-|[<-|[<-|[]]]]]; by destruct c.
Qed.

(** C27: what [main] starts is one of the daemons of [AppFacts]: with the loaded
    file, the environment and the components as the chain built them, [Run]
    never panics on a ticker, in any later state, as long as the intervals
    stay below 9223372037 seconds. *)
Theorem main_runs path (w : W) (b : Builder) (x : X) :
  (main_start path w).1 = Ok b -> bounded (b_cfg b) ->
  exists st, b_stateManager b = Some st /\ launched (exec Run (app_of b, (st, x))) /\
    forall s, reachable (eq (exec Run (app_of b, (st, x)))) (app_step admitted) s -> phase s.1 <> Crashed.
Proof.
  unfold main_start. destruct (load_config path w) as [[cfg|e] w1] eqn:El; [|done].
  pose proof (load_config_loadable path w cfg) as Hl. unfold eval in Hl. rewrite El in Hl. specialize (Hl eq_refl).
  destruct (CgroupBase.NewManager cfg w1) as [[m|e] w2] eqn:Em.
  2:{ pose proof (chain_failed cfg path e w1 w2 Em) as Hf. unfold exec in Hf. destruct (chain _) as [[] s2]. cbn [snd] in Hf. by subst. }
  pose proof (wp_exec chain _ (NewApp cfg path, w1) (chain_wired cfg path m w1 w2 Em)) as (Hw & [st Hst] & Hd).
  unfold exec in *. destruct (chain _) as [[] [b' w3]]. cbn [snd fst] in *. rewrite (wi_err _ _ _ Hw). intros [= <-] Hb.
  exists st. split; [done|]. pose proof (wi_state _ _ _ Hw st Hst) as ->.
  assert (launched (exec Run (app_of b', (NewStateManager (b_cfg b') true, x)))) as HL.
  { exists (app_of b'), true, x. split_and!; [done| |done].
    apply (switched_admitted cfg); [done|apply Hw|]. pose proof (wi_cfg _ _ _ Hw) as Hs.
    apply list_elem_of_In in Hs. cbn in Hs. destruct Hs as [Hs|[Hs|[Hs|[Hs|[]]]]]; rewrite <- Hs in Hb; by destruct cfg. }
  split; [exact HL|]. intros s Hr. assert (app_ok s) as (_ & _ & Hp & _); [|exact Hp].
  revert Hr. apply (reachable_invariant _ _ app_ok); [intros s0 <-; by apply app_ok_launched|]. intros s1 s2 H1 H2. by eapply app_ok_step.
Qed.

End Main.


(** ** Witness *)

#[local] Existing Instance literal_regexp.
#[local] Existing Instance AppFacts.recorder_os.
#[local] Existing Instance AppFacts.recorder_services.
#[local] Existing Instance AppFacts.recorder_site.

#[local] Instance disk_clock : Clock Disk := {| time_Now := mret 0; local_time _ := utc |}.

#[local] Instance disk_site : Site Disk := {| os_Getenv _ := ""; url_Parse := no_url; os_StatInfo _ := mret (Err ENOENT) |}.

#[local] Instance disk_sensors : Sensors Disk := {|
  cpu_Counts := mret (Ok 4);
  cpu_Percent := mret broken;
  cpu_Times := mret broken;
  mem_VirtualMemory := mret broken;
  host_BootTime := mret broken;
  process_NewProcess _ := mret broken;
  proc_Times _ := mret broken;
  proc_RSS _ := mret broken;
  proc_CreateTime _ := mret broken;
  proc_Status _ := mret broken
|}.

#[local] Instance disk_visit : MapVisit Disk := {|
  visit K A _ _ m := mret (map_to_list m);
  visit_perm K A _ _ m w := Permutation_refl (map_to_list m)
|}.

(** The database cannot be opened; somebody listens on every port. *)
#[local] Instance disk_startup : Startup Disk := {|
  db_NewDatabaseManager _ := mret (Some "unable to open database file");
  db_CleanupOldData _ := mret (Ok 0);
  net_DialTimeout _ _ := mret true;
  mcp_NewServer := mret None;
  mcp_Start := mret (Some "address already in use")
|}.

Definition host : Disk :=
  mkDisk {[ "/sys/fs/cgroup/cgroup.controllers" := "cpuset cpu io memory";
            "/sys/fs/cgroup/cgroup.subtree_control" := "cpuset cpu io memory";
            "/sys/fs/cgroup/resman/cgroup.subtree_control" := "cpuset cpu";
            "/etc/resman.conf" := "METRICS_DB_ENABLED=true
ENABLE_PROMETHEUS=true" ]} {[ "/sys/fs/cgroup" ]} [].

(** What the witness needs of the start on [host]. *)
Definition host_starts : bool :=
  match (main_start "/etc/resman.conf" host).1 with
  | Ok b => negb (MetricsDBEnabled (b_cfg b)) && negb (EnablePrometheus (b_cfg b)) &&
      (PollingInterval (b_cfg b) <=? max_interval) && (PSIFallbackInterval (b_cfg b) <=? max_interval) &&
      (MetricsRefreshInterval (b_cfg b) <=? max_interval)
  | Err _ => false
  end.

Lemma host_starts_ok : host_starts = true.
Proof. by vm_compute. Qed.

Lemma main_runs_witness :
  match (main_start "/etc/resman.conf" host).1 with
  | Ok b => MetricsDBEnabled (b_cfg b) = false /\ EnablePrometheus (b_cfg b) = false /\
      exists st, b_stateManager b = Some st /\ launched (exec Run (app_of b, (st, busy_site))) /\
        forall s, reachable (eq (exec Run (app_of b, (st, busy_site)))) (app_step admitted) s -> phase s.1 <> Crashed
  | Err _ => False
  end.
Proof.
  pose proof host_starts_ok as H. unfold host_starts in H. destruct (main_start "/etc/resman.conf" host).1 as [b|e] eqn:Eb; [|done].
  apply andb_prop in H as [[[[H1 H2]%andb_prop H3]%andb_prop H4]%andb_prop H5].
  split_and!; [by destruct (MetricsDBEnabled _)|by destruct (EnablePrometheus _)|].
  apply (main_runs (S := disk_site) (SX := AppFacts.recorder_site) eq_refl eq_refl "/etc/resman.conf" host b busy_site Eb). unfold bounded. lia.
Defined.
