(* ===== verification/Database.v ===== *)
(** * The metrics database
      (database/manager.go)

    The manager sends SQL statements, as texts with their arguments, and scans
    the rows that come back.  The engine is the interface [SQL]. *)

From S2P Require Import Prelude GoStrings GoFloat GoNumbers Calendar GoAny Config ConfigLoad OS UserFilter StateBase CollectorBase Reload.

#[local] Open Scope Z_scope.

(** ** Values of the engine *)

Inductive SqlVal :=
  | SNull
  | SInt (n : Z)
  | SReal (x : f64)
  | SText (s : string)
  | SBool (b : bool)
  | STime (t : GoTime).

(** [sql_Exec]: the rows affected.  [sql_Query]: the rows read before an error,
    and that error. *)
Class SQL (W : Type) := {
  sql_Open : string -> ST W (option error);
  sql_Exec : string -> list SqlVal -> ST W (result Z);
  sql_Query : string -> list SqlVal -> ST W (result (list (list SqlVal) * option error));
  sql_Close : ST W (option error);
  sql_Ping : ST W (option error)
}.

(** ** Statements *)

Definition q_schema : string := "
    -- Tabella per le metriche degli utenti
    CREATE TABLE IF NOT EXISTS user_metrics (
        id INTEGER PRIMARY KEY AUTOINCREMENT,
        timestamp DATETIME DEFAULT CURRENT_TIMESTAMP,
        uid INTEGER NOT NULL,
        username TEXT NOT NULL,
        cpu_usage_percent REAL NOT NULL,
        memory_usage_bytes INTEGER NOT NULL,
        process_count INTEGER NOT NULL,
        cgroup_path TEXT,
        cpu_quota TEXT,
        is_limited BOOLEAN DEFAULT FALSE
    );

    -- Tabella per le metriche di sistema
    CREATE TABLE IF NOT EXISTS system_metrics (
        id INTEGER PRIMARY KEY AUTOINCREMENT,
        timestamp DATETIME DEFAULT CURRENT_TIMESTAMP,
        total_cpu_usage_percent REAL NOT NULL,
        total_cores INTEGER NOT NULL,
        system_load REAL,
        limits_active BOOLEAN DEFAULT FALSE,
        limited_users_count INTEGER
    );

    -- Indici per performance
    CREATE INDEX IF NOT EXISTS idx_user_metrics_timestamp ON user_metrics(timestamp);
    CREATE INDEX IF NOT EXISTS idx_user_metrics_uid ON user_metrics(uid);
    CREATE INDEX IF NOT EXISTS idx_user_metrics_uid_timestamp ON user_metrics(uid, timestamp);
    CREATE INDEX IF NOT EXISTS idx_system_metrics_timestamp ON system_metrics(timestamp);
    ".

Definition q_insert_user : string := "
    INSERT INTO user_metrics (timestamp, uid, username, cpu_usage_percent, memory_usage_bytes, 
                              process_count, cgroup_path, cpu_quota, is_limited)
    VALUES (?, ?, ?, ?, ?, ?, ?, ?, ?)
    ".

Definition q_insert_system : string := "
    INSERT INTO system_metrics (timestamp, total_cpu_usage_percent, total_cores, 
                                system_load, limits_active, limited_users_count)
    VALUES (?, ?, ?, ?, ?, ?)
    ".

Definition q_user_history : string := "
    SELECT timestamp, uid, username, cpu_usage_percent, memory_usage_bytes,
           process_count, cgroup_path, cpu_quota, is_limited
    FROM user_metrics
    WHERE uid = ? AND timestamp BETWEEN ? AND ?
    ORDER BY timestamp DESC
    LIMIT ?
    ".

Definition q_system_history : string := "
    SELECT timestamp, total_cpu_usage_percent, total_cores, system_load,
           limits_active, limited_users_count
    FROM system_metrics
    WHERE timestamp BETWEEN ? AND ?
    ORDER BY timestamp DESC
    LIMIT ?
    ".

Definition q_user_summary : string := "
    SELECT
        uid,
        username,
        MIN(timestamp) as period_start,
        MAX(timestamp) as period_end,
        AVG(cpu_usage_percent) as cpu_avg,
        MIN(cpu_usage_percent) as cpu_min,
        MAX(cpu_usage_percent) as cpu_max,
        AVG(memory_usage_bytes) as memory_avg,
        MIN(memory_usage_bytes) as memory_min,
        MAX(memory_usage_bytes) as memory_max,
        AVG(process_count) as process_count_avg,
        MIN(process_count) as process_count_min,
        MAX(process_count) as process_count_max,
        CAST(SUM(CASE WHEN is_limited THEN 1 ELSE 0 END) AS FLOAT) / COUNT(*) * 100 as limited_time_percent,
        COUNT(*) as samples
    FROM user_metrics
    WHERE uid = ? AND timestamp BETWEEN ? AND ?
    GROUP BY uid
    ".

Definition q_delete_user : string := "DELETE FROM user_metrics WHERE timestamp < ?".

Definition q_delete_system : string := "DELETE FROM system_metrics WHERE timestamp < ?".

(** ** Records *)

(** A record that was read: its timestamp comes back in the zone it was stored
    with. *)
Definition UserRow : Type := UserMetricsRecord * Location.

Definition SystemRow : Type := SystemMetricsRecord * Location.

Record UserSummary := mkSummary {
  us_UID : Z;
  us_Username : string;
  us_PeriodStart : string;
  us_PeriodEnd : string;
  us_CPUAvg : f64;
  us_CPUMin : f64;
  us_CPUMax : f64;
  us_MemoryAvg : f64;
  us_MemoryMin : f64;
  us_MemoryMax : f64;
  us_ProcessCountAvg : f64;
  us_ProcessCountMin : f64;
  us_ProcessCountMax : f64;
  us_LimitedTimePercent : f64;
  us_Samples : Z
}.

Record DatabaseInfo := mkInfo {
  di_Path : string;
  di_SizeBytes : Z;
  di_SizeMB : f64;
  di_UserMetricsCount : Z;
  di_SystemMetricsCount : Z;
  di_OldestRecord : string;
  di_NewestRecord : string;
  di_RetentionDays : Z;
  di_UsersTracked : Z
}.

(** ** Scanning
    (the conversions of [Rows.Scan] between the types in use) *)

Definition scan_error {A} : result A := Err "sql: Scan error".

Definition scan_int (v : SqlVal) : result Z := match v with SInt n => Ok n | _ => scan_error end.

Definition scan_float (v : SqlVal) : result f64 :=
  match v with SReal x => Ok x | SInt n => Ok (f64_of_Z n) | _ => scan_error end.

Definition scan_string (v : SqlVal) : result string := match v with SText s => Ok s | _ => scan_error end.

Definition scan_bool (v : SqlVal) : result bool := match v with SBool b => Ok b | _ => scan_error end.

Definition scan_time (v : SqlVal) : result GoTime := match v with STime t => Ok t | _ => scan_error end.

(** [sql.NullTime]. *)
Definition scan_null_time (v : SqlVal) : result (option GoTime) :=
  match v with SNull => Ok None | STime t => Ok (Some t) | _ => scan_error end.

(** Scan one column into a variable, then the rest. *)
Definition scan {A B} (f : SqlVal -> result A) (v : SqlVal) (k : A -> result B) : result B :=
  match f v with Ok a => k a | Err e => Err e end.

Definition scan_user (row : list SqlVal) : result UserRow :=
  match row with
  | [ts; uid; name; cpu; mem; procs; cg; quota; limited] =>
      scan scan_time ts (fun ts => scan scan_int uid (fun uid => scan scan_string name (fun name =>
      scan scan_float cpu (fun cpu => scan scan_int mem (fun mem => scan scan_int procs (fun procs =>
      scan scan_string cg (fun cg => scan scan_string quota (fun quota => scan scan_bool limited (fun limited =>
      Ok (mkUserRecord uid name cpu mem procs cg quota limited (t_at ts), t_loc ts))))))))))
  | _ => scan_error
  end.

Definition scan_system (row : list SqlVal) : result SystemRow :=
  match row with
  | [ts; cpu; cores; load; active; count] =>
      scan scan_time ts (fun ts => scan scan_float cpu (fun cpu => scan scan_int cores (fun cores =>
      scan scan_float load (fun load => scan scan_bool active (fun active => scan scan_int count (fun count =>
      Ok (mkSystemRecord cpu cores load active count (t_at ts), t_loc ts)))))))
  | _ => scan_error
  end.

Definition scan_summary (row : list SqlVal) : result UserSummary :=
  match row with
  | [uid; name; st; en; c1; c2; c3; m1; m2; m3; p1; p2; p3; limited; samples] =>
      scan scan_int uid (fun uid => scan scan_string name (fun name =>
      scan scan_string st (fun st => scan scan_string en (fun en =>
      scan scan_float c1 (fun c1 => scan scan_float c2 (fun c2 => scan scan_float c3 (fun c3 =>
      scan scan_float m1 (fun m1 => scan scan_float m2 (fun m2 => scan scan_float m3 (fun m3 =>
      scan scan_float p1 (fun p1 => scan scan_float p2 (fun p2 => scan scan_float p3 (fun p3 =>
      scan scan_float limited (fun limited => scan scan_int samples (fun samples =>
      Ok (mkSummary uid name st en c1 c2 c3 m1 m2 m3 p1 p2 p3 limited samples))))))))))))))))
  | _ => scan_error
  end.

(** The loop over the rows. *)
Fixpoint scan_all {A} (f : list SqlVal -> result A) (rows : list (list SqlVal)) : result (list A) :=
  match rows with
  | [] => Ok []
  | r :: rest =>
      match f r with
      | Err e => Err e
      | Ok a => match scan_all f rest with Ok l => Ok (a :: l) | Err e => Err e end
      end
  end.

(** ** Operations *)

Section Manager.
Context {W : Type} `{Q : SQL W} `{O : OS W} `{S : Site W} `{C : Clock W} `{Zn : Zones}.

Definition InitSchema : ST W (option error) :=
  sql_Exec q_schema [] ≫= fun r => mret match r with Ok _ => None | Err e => Some e end.

Definition NewDatabaseManager (dbPath : string) : ST W (option error) :=
  let dir := filepath_Dir dbPath in
  (if String.eqb dir ":" then mret None else os_MkdirAll dir) ≫= fun mk =>
  match mk with
  | Some e => mret (Some ("failed to create database directory " +:+ dir +:+ ": " +:+ e))
  | None =>
      sql_Open dbPath ≫= fun op =>
      match op with
      | Some e => mret (Some ("failed to open SQLite database at " +:+ dbPath +:+ ": " +:+ e))
      | None =>
          InitSchema ≫= fun schema =>
          match schema with
          | Some e => sql_Close ≫= fun _ => mret (Some ("failed to initialize database schema at " +:+ dbPath +:+ ": " +:+ e))
          | None => mret None
          end
      end
  end.

(** [err] of [Exec]. *)
Definition exec_error (r : result Z) : option error := match r with Ok _ => None | Err e => Some e end.

Definition user_values (record : UserMetricsRecord) : list SqlVal :=
  [STime (shown (r_Timestamp record)); SInt (r_UID record); SText (r_Username record); SReal (r_CPUUsagePercent record);
   SInt (r_MemoryUsageBytes record); SInt (r_ProcessCount record); SText (r_CgroupPath record); SText (r_CPUQuota record);
   SBool (r_IsLimited record)].

Definition system_values (record : SystemMetricsRecord) : list SqlVal :=
  [STime (shown (r_SystemTimestamp record)); SReal (r_TotalCPUUsagePercent record); SInt (r_TotalCores record);
   SReal (r_SystemLoad record); SBool (r_LimitsActive record); SInt (r_LimitedUsersCount record)].

Definition WriteUserMetrics (record : UserMetricsRecord) : ST W (option error) :=
  sql_Exec q_insert_user (user_values record) ≫= fun r => mret (exec_error r).

Definition WriteSystemMetrics (record : SystemMetricsRecord) : ST W (option error) :=
  sql_Exec q_insert_system (system_values record) ≫= fun r => mret (exec_error r).

Definition GetUserHistory (uid : Z) (startTime endTime : GoTime) (limit : Z) : ST W (result (list UserRow)) :=
  sql_Query q_user_history [SInt uid; STime startTime; STime endTime; SInt limit] ≫= fun r =>
  mret match r with
       | Err e => Err ("failed to query user history for UID " +:+ Itoa uid +:+ " (time range " +:+ format_RFC3339 startTime +:+
                       " to " +:+ format_RFC3339 endTime +:+ "): " +:+ e)
       | Ok (rows, err) =>
           match scan_all scan_user rows with
           | Err e => Err ("failed to scan user history record for UID " +:+ Itoa uid +:+ ": " +:+ e)
           | Ok records => match err with Some e => Err e | None => Ok records end
           end
       end.

Definition GetSystemHistory (startTime endTime : GoTime) (limit : Z) : ST W (result (list SystemRow)) :=
  sql_Query q_system_history [STime startTime; STime endTime; SInt limit] ≫= fun r =>
  mret match r with
       | Err e => Err ("failed to query system history (time range " +:+ format_RFC3339 startTime +:+ " to " +:+
                       format_RFC3339 endTime +:+ "): " +:+ e)
       | Ok (rows, err) =>
           match scan_all scan_system rows with
           | Err e => Err ("failed to scan system history record: " +:+ e)
           | Ok records => match err with Some e => Err e | None => Ok records end
           end
       end.

(** [QueryRow(..).Scan(..)]: [None] is [sql.ErrNoRows]. *)
Definition query_row {A} (q : string) (args : list SqlVal) (f : list SqlVal -> result A) : ST W (result (option A)) :=
  sql_Query q args ≫= fun r =>
  mret match r with
       | Err e => Err e
       | Ok ([], Some e) => Err e
       | Ok ([], None) => Ok None
       | Ok (row :: _, _) => match f row with Ok a => Ok (Some a) | Err e => Err e end
       end.

Definition GetUserSummary (uid : Z) (startTime endTime : GoTime) : ST W (result (option UserSummary)) :=
  query_row q_user_summary [SInt uid; STime startTime; STime endTime] scan_summary ≫= fun r =>
  mret match r with
       | Err e => Err ("failed to query user summary for UID " +:+ Itoa uid +:+ " (time range " +:+ format_RFC3339 startTime +:+
                       " to " +:+ format_RFC3339 endTime +:+ "): " +:+ e)
       | Ok summary => Ok summary
       end.

(** One row of one column. *)
Definition query_value {A} (q : string) (f : SqlVal -> result A) : ST W (result A) :=
  query_row q [] (fun row => match row with [v] => f v | _ => scan_error end) ≫= fun r =>
  mret match r with Ok (Some a) => Ok a | Ok None => Err "sql: no rows in result set" | Err e => Err e end.

(** The text of a time that was scanned without an error. *)
Definition record_text (r : result (option GoTime)) : string :=
  match r with Ok (Some t) => format_RFC3339 t | _ => "" end.

Definition bytes_to_MB (n : Z) : f64 := fdiv (fdiv (f64_of_Z n) (f64_of_Z 1024)) (f64_of_Z 1024).

(** The queries of [GetDatabaseInfo]. *)
Definition info_counts (dbPath : string) (retentionDays size : Z) (sizeMB : f64) : ST W (result DatabaseInfo) :=
  query_value "SELECT COUNT(*) FROM user_metrics" scan_int ≫= fun users =>
  match users with
  | Err e => mret (Err ("failed to count user metrics: " +:+ e))
  | Ok users =>
      query_value "SELECT COUNT(*) FROM system_metrics" scan_int ≫= fun system =>
      match system with
      | Err e => mret (Err ("failed to count system metrics: " +:+ e))
      | Ok system =>
          query_value "SELECT MIN(timestamp) FROM user_metrics" scan_null_time ≫= fun oldest =>
          query_value "SELECT MAX(timestamp) FROM user_metrics" scan_null_time ≫= fun newest =>
          query_value "SELECT COUNT(DISTINCT uid) FROM user_metrics" scan_int ≫= fun tracked =>
          match tracked with
          | Err e => mret (Err ("failed to count unique users: " +:+ e))
          | Ok tracked =>
              mret (Ok (mkInfo dbPath size sizeMB users system (record_text oldest) (record_text newest) retentionDays tracked))
          end
      end
  end.

Definition GetDatabaseInfo (dbPath : string) (retentionDays : Z) : ST W (result DatabaseInfo) :=
  if String.eqb dbPath ":memory:" then info_counts dbPath retentionDays 0 fzero
  else
    os_StatInfo dbPath ≫= fun st =>
    match st with
    | Err e => mret (Err ("failed to stat database file at " +:+ dbPath +:+ ": " +:+ e))
    | Ok (_, size) => info_counts dbPath retentionDays size (bytes_to_MB size)
    end.

(** The count is returned beside the error, once there is one. *)
Definition CleanupOldData (retentionDays : Z) : ST W (Z * option error) :=
  time_Now ≫= fun now =>
  let cutoff := AddDate 0 0 (- retentionDays) (shown now) in
  sql_Exec q_delete_user [STime cutoff] ≫= fun r1 =>
  match r1 with
  | Err e => mret (0, Some ("failed to delete user metrics older than " +:+ format_RFC3339 cutoff +:+ " (retention " +:+
                            Itoa retentionDays +:+ " days): " +:+ e))
  | Ok userDeleted =>
      sql_Exec q_delete_system [STime cutoff] ≫= fun r2 =>
      match r2 with
      | Err e => mret (userDeleted, Some ("failed to delete system metrics older than " +:+ format_RFC3339 cutoff +:+
                            " (retention " +:+ Itoa retentionDays +:+ " days): " +:+ e))
      | Ok _ =>
          sql_Exec "VACUUM" [] ≫= fun r3 =>
          match r3 with
          | Err e => mret (userDeleted, Some ("failed to vacuum database after cleanup: " +:+ e))
          | Ok _ => mret (userDeleted, None)
          end
      end
  end.

Definition Close (dbPath : string) : ST W (option error) :=
  sql_Close ≫= fun err =>
  mret match err with Some e => Some ("failed to close database connection at " +:+ dbPath +:+ ": " +:+ e) | None => None end.

Definition HealthCheck (dbPath : string) : ST W (option error) :=
  sql_Ping ≫= fun err =>
  mret match err with Some e => Some ("database health check failed at " +:+ dbPath +:+ ": " +:+ e) | None => None end.

End Manager.
