(* ===== verification/DatabaseFacts.v ===== *)
(** * Properties of the metrics database

    [Dialect] states what the statements of [Database] mean to the engine, over
    the rows its two tables hold; [Tables] is an engine in memory that obeys it.
    The abstract database is the two lists of records ([holds]). *)

From Stdlib Require Import SpecFloat.
From stdpp Require Import sorting.
From S2P Require Import Prelude GoStrings GoFloat GoNumbers Calendar SqlText GoAny Config Blackout ConfigLoad OS UserFilter StateBase CollectorBase Reload Database.

#[local] Open Scope Z_scope.

(** ** What the statements mean *)

Section Rows.
Context `{Zn : Zones}.

(** A stored value as a query returns it: a time in the zone of its text, and
    [NaN] as [NULL]. *)
Definition read_back (v : SqlVal) : SqlVal :=
  match v with
  | STime t => STime (stored t)
  | SReal S754_nan => SNull
  | v => v
  end.

(** The text in the column timestamp, which both tables have first. *)
Definition row_text (row : list SqlVal) : string := match row with STime t :: _ => sqlite_text t | _ => "" end.

Definition row_uid (row : list SqlVal) : Z := match row with _ :: SInt uid :: _ => uid | _ => 0 end.

(** [timestamp BETWEEN a AND b] and [timestamp < t]. *)
Definition row_between (a b : GoTime) (row : list SqlVal) : bool :=
  String.leb (sqlite_text a) (row_text row) && String.leb (row_text row) (sqlite_text b).

Definition row_before (t : GoTime) (row : list SqlVal) : bool := String.ltb (row_text row) (sqlite_text t).

Definition not_after (row1 row2 : list SqlVal) : Prop := String.leb (row_text row2) (row_text row1) = true.

(** [LIMIT n]: a negative one is none. *)
Definition limit {A} (n : Z) (l : list A) : list A := if n <? 0 then l else take (Z.to_nat n) l.

(** [SELECT .. WHERE p ORDER BY timestamp DESC LIMIT n]: rows with equal times
    come in any order. *)
Definition selected (p : list SqlVal -> bool) (n : Z) (table rows : list (list SqlVal)) : Prop :=
  exists l, l ≡ₚ List.filter p table /\ StronglySorted not_after l /\ rows = map (map read_back) (limit n l).

(** An aggregate of a column of times has no declared type: the driver returns
    its text. *)
Definition untyped (row : list SqlVal) : Prop := row = [SNull] \/ exists s, row = [SText s].

End Rows.

(** [queries]: the statements that only read. *)
Definition queries (q : string) : Prop :=
  q ∈ [q_user_history; q_system_history; q_user_summary; "SELECT COUNT(*) FROM user_metrics"; "SELECT COUNT(*) FROM system_metrics";
       "SELECT MIN(timestamp) FROM user_metrics"; "SELECT MAX(timestamp) FROM user_metrics"; "SELECT COUNT(DISTINCT uid) FROM user_metrics"].

(** A statement that fails changes nothing. *)
Class Dialect (W : Type) `{Zn : Zones} `{Q : SQL W} := {
  users : W -> list (list SqlVal);
  system : W -> list (list SqlVal);
  law_insert_user args w :
    wp (sql_Exec q_insert_user args)
      (fun r w' => users w' = users w ++ match r with Ok _ => [args] | Err _ => [] end /\ system w' = system w) w;
  law_insert_system args w :
    wp (sql_Exec q_insert_system args)
      (fun r w' => users w' = users w /\ system w' = system w ++ match r with Ok _ => [args] | Err _ => [] end) w;
  law_delete_user t w :
    wp (sql_Exec q_delete_user [STime t])
      (fun r w' => system w' = system w /\
         match r with
         | Ok n => users w' = List.filter (fun row => negb (row_before t row)) (users w) /\
                   n = Z.of_nat (length (List.filter (row_before t) (users w)))
         | Err _ => users w' = users w
         end) w;
  law_delete_system t w :
    wp (sql_Exec q_delete_system [STime t])
      (fun r w' => users w' = users w /\
         system w' = match r with Ok _ => List.filter (fun row => negb (row_before t row)) (system w) | Err _ => system w end) w;
  law_exec q args w : q = q_schema \/ q = "VACUUM" ->
    wp (sql_Exec q args) (fun _ w' => users w' = users w /\ system w' = system w) w;
  law_query q args w : queries q -> wp (sql_Query q args) (fun _ w' => users w' = users w /\ system w' = system w) w;
  law_user_history uid a b n w :
    wp (sql_Query q_user_history [SInt uid; STime a; STime b; SInt n])
      (fun r _ => match r with
                  | Ok (rows, None) => selected (fun row => (row_uid row =? uid) && row_between a b row) n (users w) rows
                  | _ => True
                  end) w;
  law_system_history a b n w :
    wp (sql_Query q_system_history [STime a; STime b; SInt n])
      (fun r _ => match r with Ok (rows, None) => selected (row_between a b) n (system w) rows | _ => True end) w;
  law_untyped q w : q = "SELECT MIN(timestamp) FROM user_metrics" \/ q = "SELECT MAX(timestamp) FROM user_metrics" ->
    wp (sql_Query q []) (fun r _ => match r with Ok (rows, _) => Forall untyped rows | Err _ => True end) w
}.

(** ** The abstract database *)

Section Facts.
Context {W : Type} `{Zn : Zones} `{Q : SQL W} `{Dl : !Dialect W} `{C : Clock W}.

(** The tables hold these records, in the order they were written. *)
Definition holds (us : list UserMetricsRecord) (ss : list SystemMetricsRecord) (w : W) : Prop :=
  users w = map user_values us /\ system w = map system_values ss.

Lemma holds_same us ss w w' : users w' = users w -> system w' = system w -> holds us ss w -> holds us ss w'.
Proof. intros H1 H2 [? ?]. split; congruence. Qed.

Lemma wp_both {A} (m : ST W A) (P1 P2 : A -> W -> Prop) w : wp m P1 w -> wp m P2 w -> wp m (fun a w' => P1 a w' /\ P2 a w') w.
Proof. by split. Qed.

(** Records that come back as they were: no NaN. *)
Definition numeric (x : f64) : Prop := x <> S754_nan.

Definition user_back (r : UserMetricsRecord) : UserRow :=
  let t := stored (shown (r_Timestamp r)) in
  (mkUserRecord (r_UID r) (r_Username r) (r_CPUUsagePercent r) (r_MemoryUsageBytes r) (r_ProcessCount r) (r_CgroupPath r)
     (r_CPUQuota r) (r_IsLimited r) (t_at t), t_loc t).

Definition system_back (r : SystemMetricsRecord) : SystemRow :=
  let t := stored (shown (r_SystemTimestamp r)) in
  (mkSystemRecord (r_TotalCPUUsagePercent r) (r_TotalCores r) (r_SystemLoad r) (r_LimitsActive r) (r_LimitedUsersCount r) (t_at t), t_loc t).

Lemma read_back_real x : numeric x -> read_back (SReal x) = SReal x.
Proof. by destruct x. Qed.

Lemma scan_user_back r : numeric (r_CPUUsagePercent r) -> scan_user (map read_back (user_values r)) = Ok (user_back r).
Proof. intros H. unfold user_values. cbn [map]. by rewrite read_back_real. Qed.

Lemma scan_system_back r : numeric (r_TotalCPUUsagePercent r) -> numeric (r_SystemLoad r) ->
  scan_system (map read_back (system_values r)) = Ok (system_back r).
Proof. intros H1 H2. unfold system_values. cbn [map]. by rewrite !read_back_real. Qed.

Lemma scan_all_map {A B} (f : list SqlVal -> result B) (g : A -> list SqlVal) (h : A -> B) (l : list A) :
  Forall (fun a => f (g a) = Ok (h a)) l -> scan_all f (map g l) = Ok (map h l).
Proof. induction 1 as [|a l Ha _ IH]; [done|]. cbn. by rewrite Ha, IH. Qed.

(** A time at the offset [off], in whole minutes. *)
Definition at_offset (off : Z) (t : GoTime) : Prop := dated t /\ offset_of t = off.

Lemma stored_at off t : off mod 60 = 0 -> at_offset off t -> t_at (stored t) = t_at t.
Proof.
  intros Hm [_ Ho]. unfold stored. cbn [t_at]. rewrite Ho.
  assert (Z.quot off 60 * 60 = off) as -> by (pose proof (Z.quot_rem' off 60); Z.to_euclidean_division_equations; lia). lia.
Qed.

(** The order of the texts, where the clocks of the two zones do not read the
    same or the zones are one. *)
Definition apart (off1 : Z) (t : Time) (off2 : Z) (u : Time) : Prop := off1 = off2 \/ t + off1 * second <> u + off2 * second.

Lemma text_compare off1 off2 t u : at_offset off1 t -> at_offset off2 u -> apart off1 (t_at t) off2 (t_at u) ->
  String.compare (sqlite_text t) (sqlite_text u) = (t_at t + off1 * second ?= t_at u + off2 * second).
Proof.
  intros [Ht Ho] [Hu Ho2] Hap. rewrite stored_order by done. unfold wall. rewrite Ho, Ho2.
  destruct (Z.compare_spec (t_at t + off1 * second) (t_at u + off2 * second)); [|done..]. destruct Hap as [->|]; [|done]. apply compare_refl.
Qed.

Lemma text_leb off1 off2 t u : at_offset off1 t -> at_offset off2 u -> apart off1 (t_at t) off2 (t_at u) ->
  String.leb (sqlite_text t) (sqlite_text u) = (t_at t + off1 * second <=? t_at u + off2 * second).
Proof. intros Ht Hu Ha. unfold String.leb. rewrite (text_compare off1 off2) by done. unfold Z.leb. by destruct (_ ?= _). Qed.

Lemma text_ltb off t u : at_offset off t -> at_offset off u -> String.ltb (sqlite_text t) (sqlite_text u) = (t_at t <? t_at u).
Proof.
  intros Ht Hu. unfold String.ltb. rewrite (text_compare off off) by (done || by left).
  rewrite !(Z.add_comm _ (off * second)), Z.add_compare_mono_l.
  unfold Z.ltb. by destruct (_ ?= _).
Qed.

(** ** Queries over records *)

(** The zone in which a time of this offset is read back. *)
Definition zone_of (off : Z) : Location := if off =? 0 then UTC else FixedZone off.

Definition at_time (off : Z) (t : Time) : Prop := at_offset off (shown t).

Lemma stored_loc off t : off mod 60 = 0 -> at_offset off t -> t_loc (stored t) = zone_of off.
Proof.
  intros Hm [_ Ho]. unfold stored, zone_of. cbn [t_loc]. rewrite Ho.
  by assert (Z.quot off 60 * 60 = off) as -> by (pose proof (Z.quot_rem' off 60); Z.to_euclidean_division_equations; lia).
Qed.

(** What a table of records of type [A] selects: a condition on their times, in
    the order of their times. *)
Section Selecting.
Context {A : Type} (values : A -> list SqlVal) (time : A -> Time) (off : Z).
Hypothesis Htext : forall r, row_text (values r) = sqlite_text (shown (time r)).

Definition newer (r1 r2 : A) : Prop := time r2 <= time r1.

Lemma limit_map {B} (f : A -> B) n l : limit n (map f l) = map f (limit n l).
Proof. unfold limit. destruct (n <? 0); [done|]. apply firstn_map. Qed.

Lemma limit_forall (P : A -> Prop) n l : Forall P l -> Forall P (limit n l).
Proof. unfold limit. destruct (n <? 0); [done|]. apply Forall_take. Qed.

(** A range asked in a zone at [offq] is the one shifted by the difference. *)
Definition shifted (offq : Z) (t : GoTime) : Time := t_at t + (offq - off) * second.

Definition off_bounds (offq : Z) (a b : GoTime) (r : A) : Prop := offq = off \/ time r <> shifted offq a /\ time r <> shifted offq b.

Lemma between_time offq a b r : at_offset offq a -> at_offset offq b -> at_time off (time r) -> off_bounds offq a b r ->
  row_between a b (values r) = (shifted offq a <=? time r) && (time r <=? shifted offq b).
Proof.
  intros Ha Hb Hr Hap. unfold row_between, off_bounds, shifted in *. rewrite Htext.
  rewrite (text_leb offq off a), (text_leb off offq _ b) by
    (done || (cbn [shown t_at]; destruct Hap as [->|[? ?]]; [by left|right; unfold second in *; lia])).
  cbn [shown t_at]. f_equal; apply eq_bool_prop_intro; rewrite !Is_true_true, !Z.leb_le; unfold second; lia.
Qed.

Lemma before_time t r : at_offset off t -> at_time off (time r) -> row_before t (values r) = (time r <? t_at t).
Proof. intros Ht Hr. unfold row_before. rewrite Htext. by rewrite (text_ltb off). Qed.

Lemma filter_values (p : list SqlVal -> bool) (q : A -> bool) l :
  Forall (fun r => p (values r) = q r) l -> List.filter p (map values l) = map values (List.filter q l).
Proof. induction 1 as [|r l Hr _ IH]; [done|]. cbn. rewrite Hr, IH. by destruct (q r). Qed.

Lemma sorted_values l : Forall (fun r => at_time off (time r)) l -> StronglySorted not_after (map values l) -> StronglySorted newer l.
Proof.
  induction 1 as [|r l Hr Hl IH]; intros Hs; [constructor|]. cbn in Hs. inversion_clear Hs as [|? ? Hs' Hall]. constructor; [by apply IH|].
  rewrite Forall_map in Hall. apply Forall_forall. intros r' Hr'. rewrite Forall_forall in Hall, Hl. specialize (Hall r' Hr').
  unfold compose, not_after in Hall. rewrite !Htext, (text_leb off off) in Hall by first [exact Hr|exact (Hl _ Hr')|by left]. apply Z.leb_le in Hall.
  unfold newer. cbn [shown t_at] in Hall. lia.
Qed.

Lemma selected_records (p : list SqlVal -> bool) (q : A -> bool) n l rows :
  Forall (fun r => at_time off (time r)) l -> Forall (fun r => p (values r) = q r) l -> selected p n (map values l) rows ->
  exists l', l' ≡ₚ List.filter q l /\ StronglySorted newer l' /\ rows = map (fun r => map read_back (values r)) (limit n l').
Proof.
  intros Ht Hq (l0 & Hperm & Hsort & ->). rewrite (filter_values p q) in Hperm by done.
  apply Permutation_map_inv in Hperm as (l' & -> & Hperm'). exists l'. split; [by symmetry|].
  assert (Forall (fun r => at_time off (time r)) l') as Ht'.
  { apply Forall_forall. intros r Hr. rewrite <- Hperm', list_elem_of_In, filter_In in Hr. rewrite Forall_forall in Ht.
    by apply Ht, list_elem_of_In, Hr. }
  split; [by apply sorted_values|]. by rewrite limit_map, map_map.
Qed.

End Selecting.

(** The records of one host in one zone. *)
Definition uniform_user (off : Z) (r : UserMetricsRecord) : Prop := at_time off (r_Timestamp r) /\ numeric (r_CPUUsagePercent r).

Definition uniform_system (off : Z) (r : SystemMetricsRecord) : Prop :=
  at_time off (r_SystemTimestamp r) /\ numeric (r_TotalCPUUsagePercent r) /\ numeric (r_SystemLoad r).

Lemma user_back_same off r : off mod 60 = 0 -> uniform_user off r -> user_back r = (r, zone_of off).
Proof. intros Hm [Ht _]. unfold user_back. rewrite (stored_at off), (stored_loc off) by done. by destruct r. Qed.

Lemma system_back_same off r : off mod 60 = 0 -> uniform_system off r -> system_back r = (r, zone_of off).
Proof. intros Hm [Ht _]. unfold system_back. rewrite (stored_at off), (stored_loc off) by done. by destruct r. Qed.

(** A query keeps the tables, and its rows obey its law. *)
Lemma wp_query q args us ss (L : result (list (list SqlVal) * option error) -> W -> Prop) (R : result (list (list SqlVal) * option error) -> W -> Prop) w :
  queries q -> holds us ss w -> wp (sql_Query q args) L w -> (forall r w', holds us ss w' -> L r w' -> R r w') -> wp (sql_Query q args) R w.
Proof. intros Hq Hh HL HR. apply HR; [|exact HL]. destruct (law_query q args w Hq). by eapply holds_same. Qed.

End Facts.

(** ** Properties *)

Section Properties.
Context {W : Type} `{Zn : Zones} `{Q : SQL W} `{Dl : !Dialect W} `{C : Clock W} `{O : OS W} `{S : Site W}.

(** Reading the clock or the size of the file leaves the tables alone. *)
Class Apart : Prop := {
  apart_now w : users (exec time_Now w) = users w /\ system (exec time_Now w) = system w;
  apart_stat p w : users (exec (os_StatInfo p) w) = users w /\ system (exec (os_StatInfo p) w) = system w
}.

(** The operations of the manager, in the order the program calls them. *)
Inductive db_step : W -> W -> Prop :=
  | step_write_user r w : db_step w (exec (WriteUserMetrics r) w)
  | step_write_system r w : db_step w (exec (WriteSystemMetrics r) w)
  | step_user_history uid a b n w : db_step w (exec (GetUserHistory uid a b n) w)
  | step_system_history a b n w : db_step w (exec (GetSystemHistory a b n) w)
  | step_summary uid a b w : db_step w (exec (GetUserSummary uid a b) w)
  | step_info path days w : db_step w (exec (GetDatabaseInfo path days) w)
  | step_cleanup days w : db_step w (exec (CleanupOldData days) w)
  | step_schema w : db_step w (exec InitSchema w).

(** The tables hold records, in particular values of the types the queries scan. *)
Definition recorded (w : W) : Prop := exists us ss, holds us ss w.

Lemma preserves_recorded {A} (m : ST W A) : (forall w, users (exec m w) = users w /\ system (exec m w) = system w) -> preserves recorded m.
Proof. intros Hm w (us & ss & Hh). exists us, ss. destruct (Hm w). by eapply holds_same. Qed.

Lemma recorded_query q args : queries q -> preserves recorded (sql_Query q args).
Proof. intros Hq. apply preserves_recorded. intros w. apply (law_query q args w Hq). Qed.

Lemma filter_map_exists {A} (p : list SqlVal -> bool) (f : A -> list SqlVal) l : exists l', List.filter p (map f l) = map f l'.
Proof. exists (List.filter (fun r => p (f r)) l). apply filter_values. by apply Forall_forall. Qed.

Lemma recorded_delete_user t : preserves recorded (sql_Exec q_delete_user [STime t]).
Proof.
  intros w (us & ss & Hu & Hs). pose proof (law_delete_user t w) as [H1 H2]. fold (exec (sql_Exec q_delete_user [STime t]) w) in H1, H2.
  destruct (filter_map_exists (fun row => negb (row_before t row)) user_values us) as [us' Hus'].
  destruct (sql_Exec q_delete_user [STime t] w).1 as [n|e]; [destruct H2 as [H2 _]; exists us', ss|exists us, ss]; split; try congruence.
Qed.

Lemma recorded_delete_system t : preserves recorded (sql_Exec q_delete_system [STime t]).
Proof.
  intros w (us & ss & Hu & Hs). pose proof (law_delete_system t w) as [H1 H2]. fold (exec (sql_Exec q_delete_system [STime t]) w) in H1, H2.
  destruct (filter_map_exists (fun row => negb (row_before t row)) system_values ss) as [ss' Hss'].
  destruct (sql_Exec q_delete_system [STime t] w).1 as [n|e]; [exists us, ss'|exists us, ss]; split; congruence.
Qed.

Lemma recorded_insert_user r : preserves recorded (sql_Exec q_insert_user (user_values r)).
Proof.
  intros w (us & ss & Hu & Hs). pose proof (law_insert_user (user_values r) w) as [H1 H2].
  fold (exec (sql_Exec q_insert_user (user_values r)) w) in H1, H2.
  destruct (sql_Exec q_insert_user (user_values r) w).1 as [n|e]; [exists (us ++ [r]), ss|exists us, ss]; split; rewrite ?map_app, ?app_nil_r in *; cbn; congruence.
Qed.

Lemma recorded_insert_system r : preserves recorded (sql_Exec q_insert_system (system_values r)).
Proof.
  intros w (us & ss & Hu & Hs). pose proof (law_insert_system (system_values r) w) as [H1 H2].
  fold (exec (sql_Exec q_insert_system (system_values r)) w) in H1, H2.
  destruct (sql_Exec q_insert_system (system_values r) w).1 as [n|e]; [exists us, (ss ++ [r])|exists us, ss]; split; rewrite ?map_app, ?app_nil_r in *; cbn; congruence.
Qed.

Lemma recorded_exec q args : q = q_schema \/ q = "VACUUM" -> preserves recorded (sql_Exec q args).
Proof. intros Hq. apply preserves_recorded. intros w. apply (law_exec q args w Hq). Qed.

Ltac a_query := apply recorded_query; unfold queries; rewrite !elem_of_cons; tauto.

Ltac recording :=
  repeat match goal with
  | |- preserves _ (mret _) => apply preserves_ret
  | |- preserves _ (_ ≫= _) => apply preserves_bind; [|intros ?]
  | |- preserves _ (match ?x with _ => _ end) => destruct x
  | |- preserves _ (sql_Query _ _) => a_query
  | |- preserves _ (query_value _ _) => unfold query_value, query_row
  end.

Lemma recorded_counts path days size mb : preserves recorded (info_counts path days size mb).
Proof. unfold info_counts. recording. Qed.


Lemma wp_user_history off offq uid a b n us ss w :
  off mod 60 = 0 -> at_offset offq a -> at_offset offq b -> Forall (uniform_user off) us ->
  Forall (off_bounds r_Timestamp off offq a b) us -> holds us ss w ->
  wp (GetUserHistory uid a b n) (fun r w' => holds us ss w' /\
    match r with
    | Ok rows =>
        exists l, l ≡ₚ List.filter (fun r => (r_UID r =? uid) && ((shifted off offq a <=? r_Timestamp r) && (r_Timestamp r <=? shifted off offq b))) us /\
          StronglySorted (newer r_Timestamp) l /\ rows = map (fun r => (r, zone_of off)) (limit n l)
    | Err _ => True
    end) w.
Proof.
  intros Hoff Ha Hb Hus Hap Hh. unfold GetUserHistory. apply wp_bind.
  eapply wp_query; [unfold queries; rewrite !elem_of_cons; tauto|exact Hh|apply law_user_history|].
  intros r w' Hh' Hl. apply wp_ret. split; [done|]. destruct r as [[rows [e|]]|e]; [by destruct (scan_all _ _)| |done].
  destruct Hh as [Hu _]. rewrite Hu in Hl.
  apply (selected_records user_values r_Timestamp off (fun _ => eq_refl) _
    (fun r => (r_UID r =? uid) && ((shifted off offq a <=? r_Timestamp r) && (r_Timestamp r <=? shifted off offq b)))) in Hl as (l & Hp & Hs & ->).
  - assert (Forall (uniform_user off) l) as Hl.
    { apply Forall_forall. intros r Hr. rewrite Hp, list_elem_of_In, filter_In in Hr. rewrite Forall_forall in Hus. by apply Hus, list_elem_of_In, Hr. }
    rewrite (scan_all_map scan_user _ (fun r => (r, zone_of off) : UserRow)); [by exists l|]. apply limit_forall. eapply Forall_impl; [exact Hl|].
    intros r Hr. rewrite scan_user_back by apply Hr. by rewrite (user_back_same off).
  - eapply Forall_impl; [exact Hus|]. by intros r [Hr _].
  - eapply Forall_impl; [apply Forall_and; split; [exact Hus|exact Hap]|]. intros r [[Hr _] Hb']. cbn [row_uid user_values].
    by rewrite (between_time user_values r_Timestamp off (fun _ => eq_refl) offq).
Qed.


(** The same for the metrics of the system. *)
Theorem GetSystemHistory_spec off offq a b n us ss w :
  off mod 60 = 0 -> at_offset offq a -> at_offset offq b -> Forall (uniform_system off) ss ->
  Forall (off_bounds r_SystemTimestamp off offq a b) ss -> holds us ss w ->
  wp (GetSystemHistory a b n) (fun r w' => holds us ss w' /\
    match r with
    | Ok rows =>
        exists l, l ≡ₚ List.filter (fun r => (shifted off offq a <=? r_SystemTimestamp r) && (r_SystemTimestamp r <=? shifted off offq b)) ss /\
          StronglySorted (newer r_SystemTimestamp) l /\ rows = map (fun r => (r, zone_of off)) (limit n l)
    | Err _ => True
    end) w.
Proof.
  intros Hoff Ha Hb Hss Hap Hh. unfold GetSystemHistory. apply wp_bind.
  eapply wp_query; [unfold queries; rewrite !elem_of_cons; tauto|exact Hh|apply law_system_history|].
  intros r w' Hh' Hl. apply wp_ret. split; [done|]. destruct r as [[rows [e|]]|e]; [by destruct (scan_all _ _)| |done].
  destruct Hh as [_ Hs0]. rewrite Hs0 in Hl.
  apply (selected_records system_values r_SystemTimestamp off (fun _ => eq_refl) _
    (fun r => (shifted off offq a <=? r_SystemTimestamp r) && (r_SystemTimestamp r <=? shifted off offq b))) in Hl as (l & Hp & Hs & ->).
  - assert (Forall (uniform_system off) l) as Hl.
    { apply Forall_forall. intros r Hr. rewrite Hp, list_elem_of_In, filter_In in Hr. rewrite Forall_forall in Hss. by apply Hss, list_elem_of_In, Hr. }
    rewrite (scan_all_map scan_system _ (fun r => (r, zone_of off) : SystemRow)); [by exists l|]. apply limit_forall. eapply Forall_impl; [exact Hl|].
    intros r (Hr & H1 & H2). rewrite scan_system_back by done. by rewrite (system_back_same off).
  - eapply Forall_impl; [exact Hss|]. by intros r [Hr _].
  - eapply Forall_impl; [apply Forall_and; split; [exact Hss|exact Hap]|]. intros r [[Hr _] Hb'].
    by rewrite (between_time system_values r_SystemTimestamp off (fun _ => eq_refl) offq).
Qed.

(** The records that a clean-up with this limit keeps. *)
Definition recent_users (cutoff : Time) (us : list UserMetricsRecord) : list UserMetricsRecord :=
  List.filter (fun r => negb (r_Timestamp r <? cutoff)) us.

Definition recent_system (cutoff : Time) (ss : list SystemMetricsRecord) : list SystemMetricsRecord :=
  List.filter (fun r => negb (r_SystemTimestamp r <? cutoff)) ss.

Lemma filter_lengths {A} (p : A -> bool) l : (length (List.filter p l) + length (List.filter (fun a => negb (p a)) l) = length l)%nat.
Proof. induction l as [|a l IH]; [done|]. cbn. destruct (p a); cbn; lia. Qed.


(** The report on the database never names its oldest or newest record: the
    engine returns the smallest time of a column as a text, which the code
    scans into a [sql.NullTime] and, when that fails, ignores. *)
Theorem no_oldest_record path days w info :
  eval (GetDatabaseInfo path days) w = Ok info -> di_OldestRecord info = "" /\ di_NewestRecord info = "".
Proof.
  assert (forall q w, q = "SELECT MIN(timestamp) FROM user_metrics" \/ q = "SELECT MAX(timestamp) FROM user_metrics" ->
    record_text (eval (query_value q scan_null_time) w) = "") as Hnone.
  { intros q w0 Hq. pose proof (law_untyped q w0 Hq) as K. unfold wp in K. unfold eval, query_value, query_row, mbind, ST_bind.
    destruct (sql_Query q [] w0) as [[[rows err]|e] w1]; [|done]. cbn in K |- *. destruct rows as [|row rows]; [by destruct err|].
    inversion_clear K as [|? ? Hrow _]. destruct Hrow as [->|[s ->]]; by destruct err. }
  assert (forall size mb w, match eval (info_counts path days size mb) w with Ok i => di_OldestRecord i = "" /\ di_NewestRecord i = "" | Err _ => True end) as Hc.
  { intros size mb w0. unfold info_counts, eval. unfold mbind, ST_bind.
    destruct (query_value _ scan_int w0) as [[u|e] w1]; [|done]. destruct (query_value _ scan_int w1) as [[y|e] w2]; [|done].
    pose proof (Hnone "SELECT MIN(timestamp) FROM user_metrics" w2 (or_introl eq_refl)) as H1. unfold eval in H1.
    destruct (query_value "SELECT MIN(timestamp) FROM user_metrics" scan_null_time w2) as [oldest w3]. cbn [fst] in H1.
    pose proof (Hnone "SELECT MAX(timestamp) FROM user_metrics" w3 (or_intror eq_refl)) as H2. unfold eval in H2.
    destruct (query_value "SELECT MAX(timestamp) FROM user_metrics" scan_null_time w3) as [newest w4]. cbn [fst] in H2.
    destruct (query_value _ scan_int w4) as [[v|e] w5]; [|done]. by split. }
  unfold GetDatabaseInfo, eval. intros Hi. destruct (String.eqb path ":memory:").
  - specialize (Hc 0 fzero w). unfold eval in Hc. by rewrite Hi in Hc.
  - unfold mbind, ST_bind in Hi. destruct (os_StatInfo path w) as [[[t size]|e] w1]; [|done].
    specialize (Hc size (bytes_to_MB size) w1). unfold eval in Hc. by rewrite Hi in Hc.
Qed.

End Properties.

(** ** An engine in memory *)

Record Tables := mkTables { tb_users : list (list SqlVal); tb_system : list (list SqlVal); tb_now : Time }.

Section Engine.
Context `{Zn : Zones}.

#[export] Instance not_after_dec row1 row2 : base.Decision (not_after row1 row2).
Proof. unfold not_after. apply _. Defined.

#[export] Instance not_after_trans : Transitive not_after.
Proof. intros r1 r2 r3 H1 H2. by eapply leb_trans. Qed.

#[export] Instance not_after_total : Total not_after.
Proof. intros r1 r2. unfold not_after. by destruct (String.leb_total (row_text r1) (row_text r2)); [right|left]. Qed.

Definition select (p : list SqlVal -> bool) (n : Z) (table : list (list SqlVal)) : list (list SqlVal) :=
  map (map read_back) (limit n (merge_sort not_after (List.filter p table))).

Lemma select_selected p n table : selected p n table (select p n table).
Proof. exists (merge_sort not_after (List.filter p table)). split_and!; [apply merge_sort_Permutation|apply (StronglySorted_merge_sort not_after)|done]. Qed.

(** The smallest or the largest of the texts. *)
Definition extreme (better : string -> string -> bool) (table : list (list SqlVal)) : SqlVal :=
  match map row_text table with
  | [] => SNull
  | t :: rest => SText (foldl (fun best t => if better t best then t else best) t rest)
  end.

Definition count_uids (table : list (list SqlVal)) : Z := Z.of_nat (size (list_to_set (map row_uid table) : gset Z)).

Definition tables_exec (q : string) (args : list SqlVal) : ST Tables (result Z) := fun t =>
  if String.eqb q q_insert_user then (Ok 1, mkTables (tb_users t ++ [args]) (tb_system t) (tb_now t))
  else if String.eqb q q_insert_system then (Ok 1, mkTables (tb_users t) (tb_system t ++ [args]) (tb_now t))
  else match args with
  | [STime c] =>
      let kept := List.filter (fun row => negb (row_before c row)) in
      if String.eqb q q_delete_user then
        (Ok (Z.of_nat (length (List.filter (row_before c) (tb_users t)))), mkTables (kept (tb_users t)) (tb_system t) (tb_now t))
      else if String.eqb q q_delete_system then
        (Ok (Z.of_nat (length (List.filter (row_before c) (tb_system t)))), mkTables (tb_users t) (kept (tb_system t)) (tb_now t))
      else (Err "syntax error", t)
  | _ => (Ok 0, t)
  end.

Definition tables_query (q : string) (args : list SqlVal) (t : Tables) : list (list SqlVal) :=
  if String.eqb q q_user_history then
    match args with
    | [SInt uid; STime a; STime b; SInt n] => select (fun row => (row_uid row =? uid) && row_between a b row) n (tb_users t)
    | _ => []
    end
  else if String.eqb q q_system_history then
    match args with [STime a; STime b; SInt n] => select (row_between a b) n (tb_system t) | _ => [] end
  else if String.eqb q "SELECT COUNT(*) FROM user_metrics" then [[SInt (Z.of_nat (length (tb_users t)))]]
  else if String.eqb q "SELECT COUNT(*) FROM system_metrics" then [[SInt (Z.of_nat (length (tb_system t)))]]
  else if String.eqb q "SELECT MIN(timestamp) FROM user_metrics" then [[extreme String.ltb (tb_users t)]]
  else if String.eqb q "SELECT MAX(timestamp) FROM user_metrics" then [[extreme (fun a b => String.ltb b a) (tb_users t)]]
  else if String.eqb q "SELECT COUNT(DISTINCT uid) FROM user_metrics" then [[SInt (count_uids (tb_users t))]]
  else [].

#[export] Instance tables_sql : SQL Tables := {|
  sql_Open _ := mret None;
  sql_Exec := tables_exec;
  sql_Query q args t := (Ok (tables_query q args t, None), t);
  sql_Close := mret None;
  sql_Ping := mret None
|}.

#[export] Program Instance tables_dialect : Dialect Tables := {| users := tb_users; system := tb_system |}.
Next Obligation. intros args w. by split. Qed.
Next Obligation. intros args w. by split. Qed.
Next Obligation. intros t w. by split. Qed.
Next Obligation. intros t w. by split. Qed.
Next Obligation. intros q args w [->| ->]; by destruct args as [|[] [|]]. Qed.
Next Obligation. done. Qed.
Next Obligation. intros uid a b n w. apply select_selected. Qed.
Next Obligation. intros a b n w. apply select_selected. Qed.
Next Obligation.
  intros q w [->| ->]; (constructor; [|constructor]); unfold untyped, extreme; destruct (map row_text (tb_users w)); [by left|right; by eexists|by left|right; by eexists].
Qed.

End Engine.

(** ** Witnesses: a host two hours east of Greenwich *)

#[local] Instance rome : Zones := {| local_lookup _ := (7200, - two63, two63 - 1) |}.

#[local] Instance tables_clock : Clock Tables := {| time_Now t := (tb_now t, t); local_time _ _ := mkCivil 0 0 0 |}.

#[local] Instance tables_site : Site Tables := {|
  os_Getenv _ := "";
  url_Parse _ := None;
  os_StatInfo _ := mret (Ok (0, 8192))
|}.

Lemma tables_apart : Apart (W := Tables).
Proof. by split. Qed.

(** June 2024, in universal time. *)
Definition june (day hour min : Z) : Time := t_at (Date 2024 6 day hour min 0 0 UTC).

Definition sample (uid : Z) (at_ : Time) : UserMetricsRecord := mkUserRecord uid "ann" (f64_of_Z 80) 4096 3 "" "" false at_.

Definition samples : list UserMetricsRecord :=
  [sample 1000 (june 1 8 30); sample 1001 (june 1 8 40); sample 1000 (june 1 10 30); sample 1000 (june 1 8 45)].

Definition write_samples (rs : list UserMetricsRecord) (t : Tables) : Tables := foldl (fun t r => exec (WriteUserMetrics r) t) t rs.

Definition june_tables : Tables := write_samples samples (mkTables [] [] (june 2 0 0)).

Lemma june_holds : holds samples [] june_tables.
Proof. by split. Qed.

Lemma samples_uniform : Forall (uniform_user 7200) samples.
Proof. repeat constructor; by vm_compute. Qed.

Definition ask (hour : Z) : GoTime := Date 2024 6 1 hour 0 0 0 UTC.

Lemma samples_off : Forall (off_bounds r_Timestamp 7200 0 (ask 10) (ask 11)) samples.
Proof. unfold samples. repeat (apply Forall_cons_2; [right; split; by vm_compute|]). apply Forall_nil_2. Qed.


Definition load_sample : SystemMetricsRecord := mkSystemRecord (f64_of_Z 50) 8 (f64_of_Z 1) true 2 (june 1 8 30).

Definition system_tables : Tables := exec (WriteSystemMetrics load_sample) (mkTables [] [] (june 2 0 0)).

Lemma GetSystemHistory_spec_witness :
  eval (GetSystemHistory (shown (june 1 8 0)) (shown (june 1 9 0)) 100) system_tables = Ok [(load_sample, FixedZone 7200)] /\
  holds [] [load_sample] (exec (GetSystemHistory (shown (june 1 8 0)) (shown (june 1 9 0)) 100) system_tables).
Proof.
  split; [by vm_compute|].
  apply (GetSystemHistory_spec 7200 7200 (shown (june 1 8 0)) (shown (june 1 9 0)) 100 [] [load_sample] system_tables);
    [done|by split; vm_compute|by split; vm_compute|repeat constructor; by vm_compute|repeat constructor|by split].
Defined.



Definition june_info : DatabaseInfo := mkInfo "/var/lib/resman/metrics.db" 8192 (bytes_to_MB 8192) 4 0 "" "" 30 2.

Lemma no_oldest_record_witness : di_UserMetricsCount june_info = 4 /\ di_OldestRecord june_info = "".
Proof.
  split; [done|]. apply (no_oldest_record "/var/lib/resman/metrics.db" 30 june_tables june_info). by vm_compute.
Defined.
