(* ===== verification/MCPServer.v ===== *)
(** * The MCP server
      (mcp/config.go, mcp/server.go)

    The settings of the server, its life cycle, and the authentication of its
    HTTP endpoint.  The protocol library and the network are the interface
    [Network]; the requests are in [MCPTools] and [MCPResources]. *)

From S2P Require Import Prelude GoStrings Config.

#[local] Open Scope Z_scope.

(** ** Settings *)

Record McpConfig := mkMcpConfig {
  Enabled : bool;
  Transport : string;
  HTTPPort : Z;
  HTTPHost : string;
  mcp_LogLevel : string;
  AuthToken : string;
  AllowWriteOps : bool
}.

Definition Mcp_eta (c : McpConfig) : McpConfig :=
  mkMcpConfig (Enabled c) (Transport c) (HTTPPort c) (HTTPHost c) (mcp_LogLevel c) (AuthToken c) (AllowWriteOps c).

Definition set_Enabled : bool -> McpConfig -> McpConfig := ltac:(setter Mcp_eta Enabled).

Definition set_Transport : string -> McpConfig -> McpConfig := ltac:(setter Mcp_eta Transport).

Definition set_HTTPPort : Z -> McpConfig -> McpConfig := ltac:(setter Mcp_eta HTTPPort).

Definition set_HTTPHost : string -> McpConfig -> McpConfig := ltac:(setter Mcp_eta HTTPHost).

Definition set_mcp_LogLevel : string -> McpConfig -> McpConfig := ltac:(setter Mcp_eta mcp_LogLevel).

Definition set_AuthToken : string -> McpConfig -> McpConfig := ltac:(setter Mcp_eta AuthToken).

Definition set_AllowWriteOps : bool -> McpConfig -> McpConfig := ltac:(setter Mcp_eta AllowWriteOps).

(** [DefaultConfig]. *)
Definition DefaultMcpConfig : McpConfig := mkMcpConfig false "stdio" 8080 "127.0.0.1" "INFO" "" false.

Definition LoadFromParentConfig (cfg : option Config) : McpConfig :=
  match cfg with
  | None => DefaultMcpConfig
  | Some cfg =>
      mkMcpConfig (MCPEnabled cfg) (MCPTransport cfg) (MCPHTTPPort cfg) (MCPHTTPHost cfg) (MCPLogLevel cfg)
        (MCPAuthToken cfg) (MCPAllowWriteOps cfg)
  end.

Definition env_true (val : string) : bool := String.eqb (ToLower val) "true" || String.eqb val "1".

(** An environment variable that is set changes the settings, or stops. *)
Definition env_setting (getenv : string -> string) (key : string) (assign : string -> McpConfig -> McpConfig * option error)
    (rest : ST McpConfig (option error)) : ST McpConfig (option error) := fun c =>
  let val := getenv key in
  if String.eqb val "" then rest c
  else let '(c', e) := assign val c in
       match e with Some e => (Some e, c') | None => rest c' end.

Definition set_transport (val : string) (c : McpConfig) : McpConfig * option error :=
  let t := ToLower val in
  (set_Transport t c,
   if negb (String.eqb t "stdio") && negb (String.eqb t "http")
   then Some ("invalid MCP_TRANSPORT: " +:+ t +:+ " (must be stdio or http)") else None).

Definition set_port (val : string) (c : McpConfig) : McpConfig * option error :=
  match Atoi val with
  | None => (c, Some ("invalid MCP_HTTP_PORT: " +:+ val))
  | Some port =>
      if (port <? 1) || (65535 <? port) then (c, Some ("invalid MCP_HTTP_PORT: " +:+ Itoa port +:+ " (must be 1-65535)"))
      else (set_HTTPPort port c, None)
  end.

Definition LoadFromEnv (getenv : string -> string) : ST McpConfig (option error) :=
  env_setting getenv "MCP_ENABLED" (fun v c => (set_Enabled (env_true v) c, None))
  (env_setting getenv "MCP_TRANSPORT" set_transport
  (env_setting getenv "MCP_HTTP_PORT" set_port
  (env_setting getenv "MCP_HTTP_HOST" (fun v c => (set_HTTPHost v c, None))
  (env_setting getenv "MCP_LOG_LEVEL" (fun v c => (set_mcp_LogLevel (ToUpper v) c, None))
  (env_setting getenv "MCP_AUTH_TOKEN" (fun v c => (set_AuthToken v c, None))
  (env_setting getenv "MCP_ALLOW_WRITE_OPS" (fun v c => (set_AllowWriteOps (env_true v) c, None))
  (mret None))))))).

Definition Validate (c : McpConfig) : option error :=
  if negb (Enabled c) then None
  else if negb (String.eqb (Transport c) "stdio") && negb (String.eqb (Transport c) "http")
  then Some ("invalid transport: " +:+ Transport c +:+ " (must be stdio or http)")
  else if String.eqb (Transport c) "http" && ((HTTPPort c <? 1) || (65535 <? HTTPPort c))
  then Some ("invalid HTTP port: " +:+ Itoa (HTTPPort c))
  else if negb (existsb (String.eqb (mcp_LogLevel c)) ["DEBUG"; "INFO"; "WARN"; "ERROR"])
  then Some ("invalid log level: " +:+ mcp_LogLevel c)
  else None.

(** ** Life cycle *)

(** The listening socket, the graceful stop of the HTTP server, and the wait for
    the goroutines that serve. *)
Class Network (W : Type) := {
  net_Listen : string -> ST W (option error);
  http_Shutdown : ST W (option error);
  wg_Wait : ST W unit
}.

(** [serving]: the goroutines started, by transport. *)
Record Server := mkServer {
  sv_cfg : McpConfig;
  sv_parentCfg : Config;
  sv_hasDB : bool;
  sv_httpServer : option string;
  sv_shutdown : bool;
  sv_serving : list string
}.

(** [NewServer]; the tools it registers are in [MCPTools]. *)
Definition NewServer (parentCfg : Config) (db : bool) : result Server :=
  let mcpCfg := LoadFromParentConfig (Some parentCfg) in
  match Validate mcpCfg with
  | Some e => Err ("invalid MCP configuration: " +:+ e)
  | None => Ok (mkServer mcpCfg parentCfg db None false [])
  end.

(** [close] of a channel that is closed panics. *)
Inductive stopping :=
  | Panics
  | Stopped (err : option error).

Section Life.
Context {W : Type} `{N : Network W}.

Definition SV (A : Type) : Type := ST (Server * W) A.

Definition server {A} (f : Server -> A) : SV A := fun s => (f s.1, s).

Definition net {A} (m : ST W A) : SV A := fun '(s, w) => let '(a, w') := m w in (a, (s, w')).

Definition serve_on (transport : string) (addr : option string) : SV unit :=
  modify (fun '(s, w) => (mkServer (sv_cfg s) (sv_parentCfg s) (sv_hasDB s)
    (match addr with Some a => Some a | None => sv_httpServer s end) (sv_shutdown s) (transport :: sv_serving s), w)).

Definition startStdioTransport : SV (option error) := serve_on "stdio" None ≫= fun _ => mret None.

Definition startHTTPTransport : SV (option error) :=
  server (fun s => HTTPHost (sv_cfg s) +:+ ":" +:+ Itoa (HTTPPort (sv_cfg s))) ≫= fun addr =>
  net (net_Listen addr) ≫= fun err =>
  match err with
  | Some e => mret (Some ("failed to bind to " +:+ addr +:+ ": " +:+ e))
  | None => serve_on "http" (Some addr) ≫= fun _ => mret None
  end.

Definition Start : SV (option error) :=
  server sv_cfg ≫= fun cfg =>
  if negb (Enabled cfg) then mret None
  else if String.eqb (Transport cfg) "stdio" then startStdioTransport
  else if String.eqb (Transport cfg) "http" then startHTTPTransport
  else mret (Some ("unsupported transport: " +:+ Transport cfg +:+ " (supported: stdio, http)")).

Definition Stop : SV stopping :=
  server sv_shutdown ≫= fun closed =>
  if closed : bool then mret Panics
  else
    modify (fun '(s, w) => (mkServer (sv_cfg s) (sv_parentCfg s) (sv_hasDB s) (sv_httpServer s) true (sv_serving s), w)) ≫= fun _ =>
    server sv_httpServer ≫= fun http =>
    (match http with Some _ => net http_Shutdown | None => mret None end) ≫= fun err =>
    match err with
    | Some e => mret (Stopped (Some e))
    | None => net wg_Wait ≫= fun _ => mret (Stopped None)
    end.

End Life.

(** ** Requests over HTTP *)

Definition quoted (s : string) : string := String "034"%char (s +:+ String "034"%char "").

Definition error_body (message : string) : string := "{" +:+ quoted "error" +:+ ": " +:+ quoted message +:+ "}".

(** [authorization]: the header, empty when absent.  The answer that refuses the
    request, or none when it goes on. *)
Definition authMiddleware (cfg : McpConfig) (authorization : string) : option (Z * string) :=
  if String.eqb (AuthToken cfg) "" then None
  else if String.eqb authorization "" then Some (401, error_body "Missing Authorization header")
  else if negb (HasPrefix authorization "Bearer ")
  then Some (401, error_body "Invalid Authorization header format. Use: Bearer <token>")
  else if negb (String.eqb (TrimPrefix authorization "Bearer ") (AuthToken cfg))
  then Some (401, error_body "Invalid authentication token")
  else None.

Definition handleHealthCheck (cfg : McpConfig) : Z * string :=
  (200, "{" +:+ quoted "status" +:+ ": " +:+ quoted "healthy" +:+ ", " +:+ quoted "transport" +:+ ": " +:+ quoted (Transport cfg) +:+ "}").

(** What the multiplexer of [startHTTPTransport] does with a request: an
    answer, or the protocol library serves it. *)
Inductive Route :=
  | Answer (status : Z) (body : string)
  | Protocol.

Definition route (cfg : McpConfig) (path authorization : string) : Route :=
  if String.eqb path "/mcp" then
    match authMiddleware cfg authorization with Some (status, body) => Answer status body | None => Protocol end
  else if String.eqb path "/health" then let '(status, body) := handleHealthCheck cfg in Answer status body
  else Answer 404 "404 page not found".

(** ** Lemmas *)

Lemma authMiddleware_passes cfg header :
  authMiddleware cfg header = None <-> AuthToken cfg = "" \/ header = "Bearer " +:+ AuthToken cfg.
Proof.
  unfold authMiddleware. destruct (String.eqb_spec (AuthToken cfg) "") as [->|Ht]; [by split; auto|].
  split.
  - destruct (String.eqb_spec header ""); [done|]. destruct (HasPrefix header "Bearer ") eqn:Hp; [|done]. cbn [negb].
    apply HasPrefix_split in Hp as [b ->]. rewrite TrimPrefix_app. destruct (String.eqb_spec b (AuthToken cfg)) as [->|]; [by right|done].
  - intros [Hc|Hc]; [done|]. rewrite Hc. change (String.eqb ("Bearer " +:+ AuthToken cfg) "") with false.
    rewrite HasPrefix_app, TrimPrefix_app, String.eqb_refl. done.
Qed.

Lemma Validate_transport c :
  Enabled c = true -> Validate c = None ->
  (Transport c = "stdio" \/ Transport c = "http" /\ 1 <= HTTPPort c <= 65535) /\
  mcp_LogLevel c ∈ ["DEBUG"; "INFO"; "WARN"; "ERROR"].
Proof.
  intros He. unfold Validate. rewrite He. cbn [negb].
  destruct (negb (String.eqb (Transport c) "stdio") && negb (String.eqb (Transport c) "http")) eqn:Et; [done|].
  destruct (String.eqb (Transport c) "http" && _) eqn:Ep; [done|]. destruct (existsb _ _) eqn:El; [|done]. intros _. split.
  - destruct (String.eqb_spec (Transport c) "stdio"); [by left|]. destruct (String.eqb_spec (Transport c) "http"); [|done].
    right. split; [done|]. cbn [andb] in Ep. lia.
  - apply existsb_exists in El as (x & Hx & ->%String.eqb_eq). by apply list_elem_of_In.
Qed.

(** ** Properties *)

(** A request reaches the protocol exactly when it is for [/mcp] and either no
    token is configured or its Authorization header is the token after "Bearer ";
    every other path is answered without it. *)
Theorem protocol_access cfg path header :
  route cfg path header = Protocol <-> path = "/mcp" /\ (AuthToken cfg = "" \/ header = "Bearer " +:+ AuthToken cfg).
Proof.
  unfold route. destruct (String.eqb_spec path "/mcp") as [->|Hp].
  - rewrite <- authMiddleware_passes. destruct (authMiddleware cfg header) as [[st b]|]; [|by split]. by split; [|intros [_ ?]].
  - split; [|by intros [? _]]. by destruct (String.eqb path "/health").
Qed.

Section Properties.
Context {W : Type} `{N : Network W}.

(** A server that [NewServer] accepts starts unless its port is taken, serves the
    configured transport and no other, and stops at most once. *)
Theorem server_lifecycle parent db srv (w : W) :
  NewServer parent db = Ok srv ->
  let '(err, (srv1, w1)) := Start (srv, w) in
  (sv_serving srv1 = [] /\ (MCPEnabled parent = false \/ exists e addr, err = Some ("failed to bind to " +:+ addr +:+ ": " +:+ e)) \/
   err = None /\ sv_serving srv1 = [MCPTransport parent] /\ MCPEnabled parent = true) /\
  (exists e, eval Stop (srv1, w1) = Stopped e) /\ eval Stop (exec Stop (srv1, w1)) = Panics.
Proof.
  unfold NewServer. destruct (Validate _) as [e|] eqn:Ev; [done|]. intros [= <-].
  assert (forall s : Server * W, sv_shutdown s.1 = false -> (exists e, eval Stop s = Stopped e) /\ eval Stop (exec Stop s) = Panics) as Hstop.
  { intros [s w0] Hs. cbn [fst] in Hs. destruct s. cbn in Hs. subst. unfold eval, exec, Stop, mbind, ST_bind, server, mret, ST_ret. cbn.
    destruct sv_httpServer0; cbn; [destruct (http_Shutdown w0) as [[e|] w2]; cbn|]; try (split; [by eexists|done]).
    all: match goal with |- context [wg_Wait ?x] => destruct (wg_Wait x) as [[] w3] end; split; [by eexists|done]. }
  unfold Start, server, mbind, ST_bind. cbn. destruct (MCPEnabled parent) eqn:Ee; cbn.
  2:{ split; [left; by split; [|left]|by apply Hstop]. }
  destruct (Validate_transport (LoadFromParentConfig (Some parent)) Ee Ev) as [[Ht|[Ht _]] _]; cbn in Ht; rewrite Ht; cbn.
  - split; [by right|by apply Hstop].
  - unfold startHTTPTransport, server, net, mbind, ST_bind. cbn [fst snd sv_cfg HTTPHost HTTPPort].
    match goal with |- context [net_Listen ?a ?w] => destruct (net_Listen a w) as [[e|] w1] end; cbn; (split; [|by apply Hstop]); [left|by right].
    split; [done|]. right. by eexists _, _.
Qed.

End Properties.

(** ** Witness *)

#[local] Instance free_port : Network unit := {| net_Listen _ := mret None; http_Shutdown := mret None; wg_Wait := mret tt |}.

Definition http_parent : Config := set_MCPTransport "http" (set_MCPEnabled true (DefaultConfig None)).

Lemma server_lifecycle_witness :
  match NewServer http_parent true with
  | Ok srv => sv_serving (exec Start (srv, tt)).1 = ["http"] /\ eval Stop (exec Stop (exec Start (srv, tt))) = Panics
  | Err _ => False
  end.
Proof.
  destruct (NewServer http_parent true) as [srv|e] eqn:En; [|by vm_compute in En].
  pose proof (server_lifecycle http_parent true srv tt En) as H. unfold exec at 1 3. destruct (Start (srv, tt)) as [err [srv1 w1]] eqn:Es.
  destruct H as ([[_ [H|(e & a & H)]]|(_ & H & _)] & _ & H2); [done|..|by split].
  subst. vm_compute in En. injection En as <-. by vm_compute in Es.
Defined.
