(* ===== verification/MCPTools.v ===== *)
(** * The tools of the MCP server
      (mcp/tools.go)

    A tool is a request with its arguments; [call_tool] runs the handler of a
    registered one.  The handlers work on the state manager, the collector, the
    cgroup manager and the database through their interfaces: the operations
    the server needs on top of [Env] are the class [Inspect], the database is
    [MetricsDB].  The arguments of a tool with a schema of its own are the
    outcome of [json.Unmarshal] into a map. *)

From S2P Require Import Prelude GoStrings GoFloat GoNumbers Calendar GoAny TimeParser Config Blackout ConfigLoad OS UserFilter StateBase CollectorBase Collector Decision Limits Collect ControlCycle Reload Status Database MCPServer.

#[local] Open Scope Z_scope.

(** ** Interfaces *)

(** [cfg_Shared]: the other components hold the same configuration object, and
    see a change of it. *)
Class Inspect (W : Type) := {
  os_Hostname : ST W (result string);
  mc_GetDetailedMetrics : ST W DetailedMetrics;
  mc_GetAllUsers : ST W (list Z);
  cg_GetCgroupInfo : Z -> ST W (result (gmap string string));
  cg_GetCgroupRAMUsage : Z -> ST W (result Z);
  cg_GetMemoryHighEvents : Z -> ST W (result Z);
  cg_GetIOStats : Z -> ST W (result (Z * Z * Z * Z));
  cfg_Shared : Config -> ST W unit
}.

(** The operations of [Database]. *)
Class MetricsDB (W : Type) := {
  mdb_GetUserHistory : Z -> GoTime -> GoTime -> Z -> ST W (result (list UserRow));
  mdb_GetSystemHistory : GoTime -> GoTime -> Z -> ST W (result (list SystemRow));
  mdb_GetUserSummary : Z -> GoTime -> GoTime -> ST W (result (option UserSummary));
  mdb_GetDatabaseInfo : Z -> ST W (result DatabaseInfo)
}.

(** ** Values out of maps *)

Definition Dict : Type := gmap string Any.

Definition getFloatMetric (metrics : Dict) (key : string) (defaultVal : f64) : f64 :=
  match metrics !! key with Some (AFloat f) => f | _ => defaultVal end.

Definition getInt (oor : f64 -> Z) (m : Dict) (key : string) (defaultVal : Z) : Z :=
  match m !! key with
  | Some (AFloat v) => f64_to_i64 oor v
  | Some (AInt v) => v
  | _ => defaultVal
  end.

(** The same code under another name. *)
Definition getIntMetric (oor : f64 -> Z) (metrics : Dict) (key : string) (defaultVal : Z) : Z :=
  match metrics !! key with
  | Some (AFloat v) => f64_to_i64 oor v
  | Some (AInt v) => v
  | _ => defaultVal
  end.

Definition getBool (m : Dict) (key : string) (defaultVal : bool) : bool :=
  match m !! key with Some (ABool b) => b | _ => defaultVal end.

Definition getBoolMetric (metrics : Dict) (key : string) (defaultVal : bool) : bool :=
  match metrics !! key with Some (ABool b) => b | _ => defaultVal end.

Definition getString (m : Dict) (key defaultVal : string) : string :=
  match m !! key with Some (AString s) => s | _ => defaultVal end.

Definition getIntSlice (oor : f64 -> Z) (m : Dict) (key : string) (defaultVal : list Z) : list Z :=
  match m !! key with
  | Some (AInts slice) => slice
  | Some (AList slice) => omap (fun v => match v with AFloat i => Some (f64_to_i64 oor i) | _ => None end) slice
  | _ => defaultVal
  end.

(** The map [GetDetailedMetrics] builds. *)
Definition detailed_map (d : DetailedMetrics) : Dict := list_to_map
  [("total_cores", AInt (total_cores d));
   ("total_cpu_usage", AFloat (total_cpu_usage d));
   ("all_users_cpu_usage", AFloat (all_users_cpu_usage d));
   ("all_users_memory_usage", AUint (all_users_memory_usage d));
   ("all_users_count", AInt (all_users_count d));
   ("limited_users_cpu_usage", AFloat (limited_users_cpu_usage d));
   ("limited_users_memory_usage", AUint (limited_users_memory_usage d));
   ("limited_users_count", AInt (limited_users_count d));
   ("memory_usage_mb", AFloat (memory_usage_mb d));
   ("total_memory_mb", AFloat (total_memory_mb d));
   ("cached_memory_mb", AFloat (cached_memory_mb d));
   ("system_under_load", ABool (system_under_load d));
   ("user_cpu_usage", AFloats (user_cpu_usage d));
   ("cache_size", AInt (cache_size d))].

(** [joinStrings]. *)
Definition joinStrings (strs : list string) (sep : string) : string :=
  match strs with
  | [] => ""
  | s :: rest => foldl (fun result s => result +:+ (sep +:+ s)) s rest
  end.

(** [toJSON]: the text of a value, or the one of the error. *)
Definition toJSON (v : Any) : Text := if marshals v then Rendered v else MarshalFailed v.

(** ** Results *)

Record CallToolResult := mkToolResult {
  Content : list Text;
  StructuredContent : option Any
}.

(** The same value as text and as structured content. *)
Definition tool_json (v : Any) : CallToolResult := mkToolResult [toJSON v] (Some v).

Record GetUserMetricsArgs := mkUserMetricsArgs { ga_UIDs : list Z; ga_Username : string }.

Record UserMetric := mkUserMetric {
  u_UID : Z;
  u_Username : string;
  u_CPUUsage : f64;
  u_MemoryUsage : Z;
  u_ProcessCount : Z;
  u_IsLimited : bool;
  u_MemoryMaxBytes : Z;
  u_MemoryHighBytes : Z;
  u_MemoryHighEvents : Z;
  u_IOReadBytes : Z;
  u_IOWriteBytes : Z;
  u_IOReadOps : Z;
  u_IOWriteOps : Z
}.

Record GetCgroupInfoResult := mkCgroupInfo {
  ci_Path : string;
  ci_CPUQuota : string;
  ci_Weight : string;
  ci_MemoryMax : string;
  ci_MemoryHigh : string;
  ci_IOReadBPS : string;
  ci_IOWriteBPS : string;
  ci_IOReadIOPS : string;
  ci_IOWriteIOPS : string
}.

Record GetHistoryArgs := mkHistoryArgs {
  ha_UID : option Z;
  ha_Username : string;
  ha_StartTime : string;
  ha_EndTime : string;
  ha_Period : string;
  ha_Hours : Z;
  ha_Limit : Z
}.

Record GetHistoryResult := mkHistory {
  hr_Records : list (list (string * Any));
  hr_Count : Z;
  hr_StartTime : string;
  hr_EndTime : string
}.

(** The reason of an entry is its text. *)
Record ControlHistoryEntry := mkHistoryEntry {
  he_Timestamp : string;
  he_Decision : Decision;
  he_Reason : Reason;
  he_TotalCPUUsage : f64;
  he_UserCPUUsage : f64;
  he_ActiveUsers : Z;
  he_LimitsActive : bool;
  he_DurationMs : Z
}.

(** [ActivateLimitsResult] and [DeactivateLimitsResult]. *)
Record LimitsResult := mkLimitsResult { lr_Success : bool; lr_Message : string }.

Inductive Output :=
  | OutTool (r : CallToolResult)
  | OutUsers (l : list UserMetric)
  | OutCgroup (c : GetCgroupInfoResult)
  | OutEntries (l : list ControlHistoryEntry)
  | OutLimits (r : LimitsResult)
  | OutHistory (h : GetHistoryResult)
  | OutSummary (s : UserSummary)
  | OutInfo (i : DatabaseInfo).

Section Tools.
Context `{RE : Regexp} {W : Type} {E : Env W} `{O : OS W} `{Zn : Zones} `{I : Inspect W} `{D : MetricsDB W}.
Context (sv : Server).

(** ** Helpers *)

Definition getHostname : SM W string :=
  env os_Hostname ≫= fun r => mret match r with Ok hostname => hostname | Err _ => "unknown" end.

Definition GetConfig : SM W Config := read s_cfg.

Definition detailed : SM W Dict := env mc_GetDetailedMetrics ≫= fun d => mret (detailed_map d).

(** [time.Now()]. *)
Definition Now : SM W GoTime := env time_Now ≫= fun now => mret (shown now).

(** ** Status tools *)

Definition get_system_status : SM W (result CallToolResult) :=
  GetStatus ≫= fun status =>
  detailed ≫= fun metrics =>
  getHostname ≫= fun hostname =>
  GetConfig ≫= fun cfg =>
  mret (Ok (tool_json (AObject
    [("hostname", AString hostname);
     ("server_role", AString (ServerRole cfg));
     ("total_cpu_usage", AFloat (getFloatMetric metrics "total_cpu_usage" fzero));
     ("user_cpu_usage", AFloat (getFloatMetric metrics "total_user_cpu_usage" fzero));
     ("memory_usage_mb", AFloat (getFloatMetric metrics "memory_usage_mb" fzero));
     ("active_users_count", AInt (getIntMetric env_oor metrics "active_users_count" 0));
     ("total_cores", AInt (getIntMetric env_oor metrics "total_cores" 0));
     ("system_under_load", ABool (getBoolMetric metrics "system_under_load" false));
     ("limits_active", ABool (getBool status "limits_active" false));
     ("limits_applied_time", AString (getString status "limits_applied_time" ""));
     ("shared_cgroup_active", ABool (getBool status "shared_cgroup_active" false))]))).

Definition get_active_users : SM W (result CallToolResult) :=
  env mc_GetAllUsers ≫= fun activeUsers =>
  env mc_GetAllUserMetrics ≫= fun all =>
  let allMetrics : gmap Z UserMetrics := list_to_map all in
  getHostname ≫= fun hostname =>
  GetConfig ≫= fun cfg =>
  let user uid :=
    let username := match allMetrics !! uid with
                    | Some metrics => if String.eqb (Username metrics) "" then Itoa uid else Username metrics
                    | None => Itoa uid
                    end in
    AObject [("uid", AInt uid); ("username", AString username)] in
  mret (Ok (tool_json (AObject
    [("hostname", AString hostname); ("server_role", AString (ServerRole cfg)); ("users", AList (map user activeUsers))]))).

Definition get_limits_status : SM W (result CallToolResult) :=
  GetStatus ≫= fun status =>
  getHostname ≫= fun hostname =>
  GetConfig ≫= fun cfg =>
  mret (Ok (tool_json (AObject
    [("hostname", AString hostname);
     ("server_role", AString (ServerRole cfg));
     ("limits_active", ABool (getBool status "limits_active" false));
     ("limits_applied_time", AString (getString status "limits_applied_time" ""));
     ("active_users_count", AInt (getInt env_oor status "active_users_count" 0));
     ("active_users", AInts (getIntSlice env_oor status "active_users" []));
     ("shared_cgroup_path", AString (getString status "shared_cgroup_path" ""));
     ("shared_cgroup_active", ABool (getBool status "shared_cgroup_active" false));
     ("shared_cgroup_quota", AString (getString status "shared_cgroup_quota" ""));
     ("shared_cgroup_user_count", AInt (getInt env_oor status "shared_cgroup_user_count" 0))]))).

Definition get_configuration : SM W (result CallToolResult) :=
  GetConfig ≫= fun cfg =>
  getHostname ≫= fun hostname =>
  mret (Ok (tool_json (AObject
    [("hostname", AString hostname);
     ("server_role", AString (ServerRole cfg));
     ("cpu_threshold", AInt (CPUThreshold cfg));
     ("cpu_release_threshold", AInt (CPUReleaseThreshold cfg));
     ("polling_interval", AInt (PollingInterval cfg));
     ("min_system_cores", AInt (MinSystemCores cfg));
     ("cpu_quota_normal", AString (CPUQuotaNormal cfg));
     ("cpu_quota_limited", AString (CPUQuotaLimited cfg));
     ("enable_prometheus", ABool (EnablePrometheus cfg));
     ("prometheus_port", AInt (PrometheusMetricsBindPort cfg));
     ("ignore_system_load", ABool (IgnoreSystemLoad cfg));
     ("system_uid_min", AInt (SystemUIDMin cfg));
     ("system_uid_max", AInt (SystemUIDMax cfg))]))).

Definition get_user_filters : SM W (result CallToolResult) :=
  GetConfig ≫= fun cfg =>
  mret (Ok (tool_json (AObject
    [("user_include_list", AStrings (UserIncludeList cfg));
     ("user_exclude_list", AStrings (UserExcludeList cfg));
     ("config_file", AString (ConfigFile cfg))]))).

(** ** Reports *)

(** Is the user among the limited ones of the status? *)
Definition reported_limited (status : Dict) (uid : Z) : bool :=
  match status !! "active_users" with Some (AInts activeUsers) => existsb (Z.eqb uid) activeUsers | _ => false end.

Definition limit_word (active : bool) : string := if active then "Attivi" else "Non attivi".

Definition nl : string := String newline "".

(** The body of the loop: the lines, the peak, the count of limited users. *)
Definition cpu_line (status : Dict) (acc : list string * f64 * Z) (p : Z * UserMetrics) : list string * f64 * Z :=
  let '(users, peakCPU, limitedCount) := acc in
  let '(uid, m) := p in
  let isLimited := reported_limited status uid in
  let userLine := Username m +:+ nl +:+ "    Utilizzo CPU: " +:+ format_fixed 1 (CPUUsage m) +:+ "%" +:+ nl +:+
                  "    Limiti: " +:+ limit_word isLimited in
  (users ++ [userLine], if f_gt (CPUUsage m) peakCPU then CPUUsage m else peakCPU,
   if isLimited then limitedCount + 1 else limitedCount).

(** A second loop over the map, in an order of its own. *)
Definition again (all : list (Z * UserMetrics)) : SM W (list UserMetrics) :=
  env (range_keys (list_to_set (map fst all))) ≫= fun keys =>
  mret (omap (fun uid => (list_to_map all : gmap Z UserMetrics) !! uid) keys).

Definition avg_cpu (l : list UserMetrics) : f64 :=
  match l with
  | [] => fzero
  | _ => fdiv (foldl (fun acc m => fadd acc (CPUUsage m)) fzero l) (f64_of_Z (Z.of_nat (length l)))
  end.

Definition get_cpu_report : SM W (result CallToolResult) :=
  detailed ≫= fun metrics =>
  GetStatus ≫= fun status =>
  env mc_GetAllUserMetrics ≫= fun all =>
  getHostname ≫= fun hostname =>
  GetConfig ≫= fun cfg =>
  let '(users, peakCPU, limitedCount) := foldl (cpu_line status) ([], fzero, 0) all in
  again all ≫= fun l =>
  let avgCPU := avg_cpu l in
  let limitsActive := getBool status "limits_active" false in
  let count := Z.of_nat (length all) in
  Now ≫= fun now =>
  let report :=
    "Report Utilizzo CPU" +:+ nl +:+
    "Hostname: " +:+ hostname +:+ nl +:+
    "Server Role: " +:+ ServerRole cfg +:+ nl +:+
    "Data: " +:+ format_datetime now +:+ nl +:+
    "Totale CPU disponibile: " +:+ format_fixed 1 (fmul (getFloatMetric metrics "total_cores" fzero) (f64_of_Z 100)) +:+ "%" +:+ nl +:+
    "Utilizzo attuale: " +:+ format_fixed 1 (getFloatMetric metrics "total_cpu_usage" fzero) +:+ "%" +:+ nl +:+ nl +:+
    "Utenti Attivi:" +:+ nl +:+ joinStrings users nl +:+ nl +:+ nl +:+
    "Stato delle Risorse:" +:+ nl +:+
    "Media Utilizzo CPU: " +:+ format_fixed 1 avgCPU +:+ "%" +:+ nl +:+
    "Picco Utilizzo CPU: " +:+ format_fixed 1 peakCPU +:+ "%" +:+ nl +:+
    "Limiti CPU: " +:+ limit_word limitsActive +:+ nl +:+
    "Utenti limitati: " +:+ Itoa limitedCount +:+ " su " +:+ Itoa count +:+ nl in
  mret (Ok (mkToolResult [Plain report] (Some (AObject
    [("hostname", AString hostname);
     ("server_role", AString (ServerRole cfg));
     ("report", AString report);
     ("total_cpu", AFloat (getFloatMetric metrics "total_cpu_usage" fzero));
     ("avg_cpu", AFloat avgCPU);
     ("peak_cpu", AFloat peakCPU);
     ("active_users", AInt count);
     ("limited_users", AInt limitedCount);
     ("limits_active", ABool limitsActive)])))).

Definition mem_line (status : Dict) (acc : list string * Z * Z) (p : Z * UserMetrics) : list string * Z * Z :=
  let '(users, peakMem, limitedCount) := acc in
  let '(uid, m) := p in
  let isLimited := reported_limited status uid in
  let userLine := Username m +:+ nl +:+ "    Memoria: " +:+ format_fixed 1 (bytes_to_MB (MemoryUsage m)) +:+ " MB (" +:+
                  Itoa (MemoryUsage m) +:+ " bytes)" +:+ nl +:+ "    Processi: " +:+ Itoa (ProcessCount m) +:+ nl +:+
                  "    Limiti: " +:+ limit_word isLimited in
  (users ++ [userLine], if peakMem <? MemoryUsage m then MemoryUsage m else peakMem,
   if isLimited then limitedCount + 1 else limitedCount).

Definition avg_mem (l : list UserMetrics) : Z :=
  match l with
  | [] => 0
  | _ => foldl (fun acc m => wrap_u64 (acc + MemoryUsage m)) 0 l / Z.of_nat (length l)
  end.

Definition get_mem_report : SM W (result CallToolResult) :=
  detailed ≫= fun metrics =>
  GetStatus ≫= fun status =>
  env mc_GetAllUserMetrics ≫= fun all =>
  getHostname ≫= fun hostname =>
  GetConfig ≫= fun cfg =>
  let '(users, peakMem, limitedCount) := foldl (mem_line status) ([], 0, 0) all in
  again all ≫= fun l =>
  let avgMem := avg_mem l in
  let totalMemMB := getFloatMetric metrics "memory_usage_mb" fzero in
  let limitsActive := getBool status "limits_active" false in
  let count := Z.of_nat (length all) in
  Now ≫= fun now =>
  let report :=
    "Report Utilizzo Memoria" +:+ nl +:+
    "Hostname: " +:+ hostname +:+ nl +:+
    "Server Role: " +:+ ServerRole cfg +:+ nl +:+
    "Data: " +:+ format_datetime now +:+ nl +:+
    "Memoria Totale di Sistema: " +:+ format_fixed 1 totalMemMB +:+ " MB" +:+ nl +:+ nl +:+
    "Utenti Attivi:" +:+ nl +:+ joinStrings users nl +:+ nl +:+ nl +:+
    "Stato delle Risorse:" +:+ nl +:+
    "Media Utilizzo Memoria: " +:+ format_fixed 1 (bytes_to_MB avgMem) +:+ " MB" +:+ nl +:+
    "Picco Utilizzo Memoria: " +:+ format_fixed 1 (bytes_to_MB peakMem) +:+ " MB" +:+ nl +:+
    "Limiti CPU: " +:+ limit_word limitsActive +:+ nl +:+
    "Utenti limitati: " +:+ Itoa limitedCount +:+ " su " +:+ Itoa count +:+ nl in
  mret (Ok (mkToolResult [Plain report] (Some (AObject
    [("hostname", AString hostname);
     ("server_role", AString (ServerRole cfg));
     ("report", AString report);
     ("total_memory_mb", AFloat totalMemMB);
     ("avg_memory_mb", AFloat (bytes_to_MB avgMem));
     ("peak_memory_mb", AFloat (bytes_to_MB peakMem));
     ("active_users", AInt count);
     ("limited_users", AInt limitedCount);
     ("limits_active", ABool limitsActive)])))).

(** ** Users, cgroups, history *)

Definition ok_or {A} (r : result A) (default : A) : A := match r with Ok a => a | Err _ => default end.

(** The filters of the loop of [handleGetUserMetrics]. *)
Definition asked_for (args : GetUserMetricsArgs) (p : Z * UserMetrics) : bool :=
  (match ga_UIDs args with [] => true | uids => existsb (Z.eqb p.1) uids end) &&
  (String.eqb (ga_Username args) "" || String.eqb (Username p.2) (ga_Username args)).

Definition user_metric (p : Z * UserMetrics) : SM W UserMetric :=
  let '(uid, m) := p in
  env (cg_GetCgroupRAMUsage uid) ≫= fun ramUsage =>
  env (cg_GetMemoryHighEvents uid) ≫= fun highEvents =>
  env (cg_GetIOStats uid) ≫= fun io =>
  let '(ioRead, ioWrite, ioROps, ioWOps) := ok_or io (0, 0, 0, 0) in
  mret (mkUserMetric uid (Username m) (CPUUsage m) (MemoryUsage m) (ProcessCount m) (IsLimited m)
          (ok_or ramUsage 0) 0 (ok_or highEvents 0) ioRead ioWrite ioROps ioWOps).

Definition handleGetUserMetrics (args : GetUserMetricsArgs) : SM W (result (list UserMetric)) :=
  env mc_GetAllUserMetrics ≫= fun all =>
  fold_st (fun users p =>
    if asked_for args p then user_metric p ≫= fun um => mret (users ++ [um]) else mret users) [] all ≫= fun users =>
  mret (Ok users).

(** The fields of a line of io.max. *)
Definition io_field (c : GetCgroupInfoResult) (f : string) : GetCgroupInfoResult :=
  let '(mkCgroupInfo p q w mm mh rb wb ro wo) := c in
  if HasPrefix f "rbps=" then mkCgroupInfo p q w mm mh (TrimPrefix f "rbps=") wb ro wo
  else if HasPrefix f "wbps=" then mkCgroupInfo p q w mm mh rb (TrimPrefix f "wbps=") ro wo
  else if HasPrefix f "riops=" then mkCgroupInfo p q w mm mh rb wb (TrimPrefix f "riops=") wo
  else if HasPrefix f "wiops=" then mkCgroupInfo p q w mm mh rb wb ro (TrimPrefix f "wiops=")
  else c.

(** Only the first line that looks like a limit is read. *)
Definition io_lines (data : string) (c : GetCgroupInfoResult) : GetCgroupInfoResult :=
  match List.find (fun line => HasPrefix line "default " || Contains line "rbps=") (Split (TrimSpace data) newline) with
  | Some line => foldl io_field c (Fields line)
  | None => c
  end.

Definition handleGetCgroupInfo (uid : Z) : SM W (result GetCgroupInfoResult) :=
  if uid =? 0 then mret (Err "uid is required")
  else
    env (cg_GetCgroupInfo uid) ≫= fun r =>
    match r with
    | Err e => mret (Err ("failed to get cgroup info: " +:+ e))
    | Ok info =>
        let key k := default "" (info !! k) in
        let path := key "path" in
        let c := mkCgroupInfo path (key "cpu.max") (key "cpu.weight") "" "" "" "" "" "" in
        if String.eqb path "" then mret (Ok c)
        else
          env (os_ReadFile (path +:+ "/memory.max")) ≫= fun mmax =>
          env (os_ReadFile (path +:+ "/memory.high")) ≫= fun mhigh =>
          env (os_ReadFile (path +:+ "/io.max")) ≫= fun io =>
          let read r := match r with Ok data => TrimSpace data | Err _ => "" end in
          let c := mkCgroupInfo path (key "cpu.max") (key "cpu.weight") (read mmax) (read mhigh) "" "" "" "" in
          mret (Ok match io with Ok data => io_lines data c | Err _ => c end)
    end.

Definition handleGetControlHistory (limit : Z) : SM W (result (list ControlHistoryEntry)) :=
  GetControlHistory (if limit <=? 0 then 10 else limit) ≫= fun history =>
  mret (Ok (map (fun e => mkHistoryEntry (format_RFC3339 (shown (e_Timestamp e))) (e_Decision e) (e_Reason e) (e_TotalCPUUsage e)
    (e_UserCPUUsage e) (e_ActiveUsers e) (e_LimitsActive e) (e_DurationMs e)) history)).

(** ** Write operations *)

Definition outcome (done_ failed : string) (err : option error) : LimitsResult :=
  match err with
  | None => mkLimitsResult true done_
  | Some e => mkLimitsResult false (failed +:+ e)
  end.

Definition handleActivateLimits (force : bool) : SM W (result LimitsResult) :=
  if negb (AllowWriteOps (sv_cfg sv)) then mret (Ok (mkLimitsResult false "write operations are not allowed"))
  else
    let finish err := mret (Ok (outcome "Limits activated successfully" "Failed to activate limits: " err)) in
    if force then ForceActivateLimits ≫= finish
    else
      GetStatus ≫= fun status =>
      if getBool status "limits_active" false then mret (Ok (mkLimitsResult false "Limits are already active"))
      else RunControlCycle ≫= finish.

Definition deactivate_limits : SM W (result CallToolResult) :=
  ForceDeactivateLimits ≫= fun err =>
  let r := outcome "Limits deactivated successfully" "Failed to deactivate limits: " err in
  mret (Ok (tool_json (AObject [("success", ABool (lr_Success r)); ("message", AString (lr_Message r))]))).

(** [json.Unmarshal] of the arguments. *)
Definition Params : Type := result Dict.

Fixpoint strings_of (raw : list Any) : option (list string) :=
  match raw with
  | [] => Some []
  | AString s :: rest => match strings_of rest with Some l => Some (s :: l) | None => None end
  | _ => None
  end.

(** [time.Now().Format("20060102_150405")]. *)
Definition backup_stamp (t : GoTime) : string :=
  let '(y, m, d) := civil_of (local_day t) in
  let c := clock_of t in
  append_int y 4 +:+ append_int m 2 +:+ append_int d 2 +:+ "_" +:+
  append_int (c / 3600) 2 +:+ append_int (c / 60 mod 60) 2 +:+ append_int (c mod 60) 2.

(** A setter of the configuration the manager holds. *)
Definition set_config_list (set : list string -> string -> string -> ST (Config * W) (result (list string)))
    (patterns : list string) : SM W (result (list string)) :=
  Now ≫= fun now =>
  (fun '(m, w) =>
     let '(r, (cfg', w')) := set patterns (ConfigFile (s_cfg m)) (backup_stamp now) (s_cfg m, w) in (r, (set_s_cfg cfg' m, w')))
  ≫= fun r => GetConfig ≫= fun cfg' => env (cfg_Shared cfg') ≫= fun _ => mret r.

(** The two tools differ in the list, in its setter and in the message. *)
Definition set_user_list (proj : Config -> list string)
    (set : list string -> string -> string -> ST (Config * W) (result (list string))) (message : string) (params : Params) :
    SM W (result CallToolResult) :=
  match params with
  | Err e => mret (Err ("invalid parameters: " +:+ e))
  | Ok args =>
      match args !! "patterns" with
      | Some (AList patternsRaw) =>
          match strings_of patternsRaw with
          | None => mret (Err "pattern must be string")
          | Some patterns =>
              let reload := match args !! "reload" with Some (ABool b) => b | _ => true end in
              if negb (AllowWriteOps (sv_cfg sv)) then mret (Err "write operations not allowed. Set MCP_ALLOW_WRITE_OPS=true")
              else
                GetConfig ≫= fun cfg =>
                let previousValue := proj cfg in
                set_config_list set patterns ≫= fun r =>
                match r with
                | Err e =>
                    mret (Ok (mkToolResult [toJSON (AObject
                      [("success", ABool false); ("error", AString e); ("previous_value", AStrings previousValue)])] None))
                | Ok _ =>
                    let values := [("previous_value", AStrings previousValue); ("new_value", AStrings patterns);
                                   ("reload_triggered", ABool reload)] in
                    mret (Ok (mkToolResult [toJSON (AObject ([("success", ABool true); ("message", AString message)] ++ values))]
                      (Some (AObject (("success", ABool true) :: values)))))
                end
          end
      | _ => mret (Err "invalid patterns parameter")
      end
  end.

Definition set_user_exclude_list (params : Params) : SM W (result CallToolResult) :=
  set_user_list UserExcludeList SetUserExcludeList "User exclude list updated successfully" params.

Definition set_user_include_list (params : Params) : SM W (result CallToolResult) :=
  set_user_list UserIncludeList SetUserIncludeList "User include list updated successfully" params.

Definition testUsers : list string :=
  ["francesco"; "www-data"; "mysql"; "nobody"; "root"; "test-user"; "dev-web"; "app-prod"; "svc-db"; "admin"].

Definition validate_user_filter_pattern (params : Params) : SM W (result CallToolResult) :=
  match params with
  | Err e => mret (Err ("invalid parameters: " +:+ e))
  | Ok args =>
      match args !! "pattern" with
      | Some (AString pattern) =>
          let filterType := match args !! "type" with Some (AString t) => t | _ => "unspecified" end in
          match regexp_Compile pattern with
          | Err e => mret (Ok (tool_json (AObject [("valid", ABool false); ("error", AString e)])))
          | Ok compiled =>
              let matches := List.filter (MatchString compiled) testUsers in
              mret (Ok (tool_json (AObject
                [("valid", ABool true);
                 ("pattern", AString pattern);
                 ("type", AString filterType);
                 ("test_matches", AStrings matches);
                 ("match_count", AInt (Z.of_nat (length matches)))])))
          end
      | _ => mret (Err "invalid or missing pattern parameter")
      end
  end.

(** ** Queries of the database *)

Definition no_database {A} : result A := Err "metrics database is not enabled".

(** An explicit bound replaces the one of the period when it parses. *)
Definition explicit (text : string) (bound : GoTime) : GoTime :=
  if String.eqb text "" then bound else default bound (parse_RFC3339 text).

(** [now.Add(-time.Duration(hours) * time.Hour)]. *)
Definition hours_before (hours : Z) (now : GoTime) : GoTime := Add (wrap_i64 (wrap_i64 (- hours) * hour)) now.

Definition query_range (args : GetHistoryArgs) (now : GoTime) : result (GoTime * GoTime) :=
  match ParseTimeRange (ha_Period args) now with
  | Err e => Err e
  | Ok (startTime, endTime) => Ok (explicit (ha_StartTime args) startTime, explicit (ha_EndTime args) endTime)
  end.

(** The same, with the parameter for the last hours. *)
Definition history_range (args : GetHistoryArgs) (now : GoTime) : result (GoTime * GoTime) :=
  match query_range args now with
  | Err e => Err e
  | Ok (startTime, endTime) => Ok (if 0 <? ha_Hours args then hours_before (ha_Hours args) now else startTime, endTime)
  end.

Definition query_limit (args : GetHistoryArgs) : Z := if ha_Limit args <=? 0 then 100 else ha_Limit args.

Definition query_user (args : GetHistoryArgs) : SM W (result Z) :=
  let required uid := if uid =? 0 then Err "either uid or username must be provided" else Ok uid in
  match ha_UID args with
  | Some uid => mret (required uid)
  | None =>
      if String.eqb (ha_Username args) "" then mret (required 0)
      else
        GetUIDFromUsername (ha_Username args) ≫= fun uid =>
        mret (if uid =? 0 then Err ("user not found: " +:+ ha_Username args) else Ok uid)
  end.

(** A time read from the database is shown in the zone it came with. *)
Definition row_time (at_ : Time) (loc : Location) : Any := AString (format_RFC3339 (mkGoTime at_ loc)).

Definition user_row (row : UserRow) : list (string * Any) :=
  let '(r, loc) := row in
  [("timestamp", row_time (r_Timestamp r) loc);
   ("uid", AInt (r_UID r));
   ("username", AString (r_Username r));
   ("cpu_usage", AFloat (r_CPUUsagePercent r));
   ("memory_usage", AInt (r_MemoryUsageBytes r));
   ("process_count", AInt (r_ProcessCount r));
   ("cgroup_path", AString (r_CgroupPath r));
   ("cpu_quota", AString (r_CPUQuota r));
   ("is_limited", ABool (r_IsLimited r))].

Definition system_row (row : SystemRow) : list (string * Any) :=
  let '(r, loc) := row in
  [("timestamp", row_time (r_SystemTimestamp r) loc);
   ("total_cpu_usage", AFloat (r_TotalCPUUsagePercent r));
   ("total_cores", AInt (r_TotalCores r));
   ("system_load", AFloat (r_SystemLoad r));
   ("limits_active", ABool (r_LimitsActive r));
   ("limited_users", AInt (r_LimitedUsersCount r))].

Definition history_of (rows : list (list (string * Any))) (startTime endTime : GoTime) : GetHistoryResult :=
  mkHistory rows (Z.of_nat (length rows)) (format_RFC3339 startTime) (format_RFC3339 endTime).

Definition handleGetUserHistory (args : GetHistoryArgs) : SM W (result GetHistoryResult) :=
  if negb (sv_hasDB sv) then mret no_database
  else
    Now ≫= fun now =>
    match history_range args now with
    | Err e => mret (Err e)
    | Ok (startTime, endTime) =>
        query_user args ≫= fun user =>
        match user with
        | Err e => mret (Err e)
        | Ok uid =>
            env (mdb_GetUserHistory uid startTime endTime (query_limit args)) ≫= fun records =>
            mret match records with
                 | Err e => Err e
                 | Ok records => Ok (history_of (map user_row records) startTime endTime)
                 end
        end
    end.

Definition handleGetSystemHistory (args : GetHistoryArgs) : SM W (result GetHistoryResult) :=
  if negb (sv_hasDB sv) then mret no_database
  else
    Now ≫= fun now =>
    match history_range args now with
    | Err e => mret (Err e)
    | Ok (startTime, endTime) =>
        env (mdb_GetSystemHistory startTime endTime (query_limit args)) ≫= fun records =>
        mret match records with
             | Err e => Err e
             | Ok records => Ok (history_of (map system_row records) startTime endTime)
             end
    end.

Definition handleGetUserSummary (args : GetHistoryArgs) : SM W (result UserSummary) :=
  if negb (sv_hasDB sv) then mret no_database
  else
    Now ≫= fun now =>
    match query_range args now with
    | Err e => mret (Err e)
    | Ok (startTime, endTime) =>
        query_user args ≫= fun user =>
        match user with
        | Err e => mret (Err e)
        | Ok uid =>
            env (mdb_GetUserSummary uid startTime endTime) ≫= fun summary =>
            mret match summary with
                 | Err e => Err e
                 | Ok None => Err ("no data found for user " +:+ Itoa uid +:+ " in specified time range")
                 | Ok (Some summary) => Ok summary
                 end
        end
    end.

Definition handleGetMetricsDatabaseInfo : SM W (result DatabaseInfo) :=
  if negb (sv_hasDB sv) then mret no_database
  else
    let days := MetricsDBRetentionDays (sv_parentCfg sv) in
    env (mdb_GetDatabaseInfo (if 0 <? days then days else 30)).

(** ** Registration and dispatch *)

Inductive ToolCall :=
  | ToolSystemStatus
  | ToolUserMetrics (args : GetUserMetricsArgs)
  | ToolActiveUsers
  | ToolLimitsStatus
  | ToolCgroupInfo (uid : Z)
  | ToolConfiguration
  | ToolCPUReport
  | ToolMemReport
  | ToolControlHistory (limit : Z)
  | ToolActivate (force : bool)
  | ToolDeactivate
  | ToolSetExclude (params : Params)
  | ToolSetInclude (params : Params)
  | ToolUserFilters
  | ToolValidatePattern (params : Params)
  | ToolUserHistory (args : GetHistoryArgs)
  | ToolSystemHistory (args : GetHistoryArgs)
  | ToolUserSummary (args : GetHistoryArgs)
  | ToolDatabaseInfo.

Definition tool_name (c : ToolCall) : string :=
  match c with
  | ToolSystemStatus => "get_system_status"
  | ToolUserMetrics _ => "get_user_metrics"
  | ToolActiveUsers => "get_active_users"
  | ToolLimitsStatus => "get_limits_status"
  | ToolCgroupInfo _ => "get_cgroup_info"
  | ToolConfiguration => "get_configuration"
  | ToolCPUReport => "get_cpu_report"
  | ToolMemReport => "get_mem_report"
  | ToolControlHistory _ => "get_control_history"
  | ToolActivate _ => "activate_limits"
  | ToolDeactivate => "deactivate_limits"
  | ToolSetExclude _ => "set_user_exclude_list"
  | ToolSetInclude _ => "set_user_include_list"
  | ToolUserFilters => "get_user_filters"
  | ToolValidatePattern _ => "validate_user_filter_pattern"
  | ToolUserHistory _ => "get_user_history"
  | ToolSystemHistory _ => "get_system_history"
  | ToolUserSummary _ => "get_user_summary"
  | ToolDatabaseInfo => "get_metrics_database_info"
  end.

(** The names, in the order of registration. *)
Definition registerTools : list string :=
  ["get_system_status"; "get_user_metrics"; "get_active_users"; "get_limits_status"; "get_cgroup_info"; "get_configuration";
   "get_cpu_report"; "get_mem_report"; "get_control_history"]
  ++ (if AllowWriteOps (sv_cfg sv) then ["activate_limits"; "deactivate_limits"] else [])
  ++ ["set_user_exclude_list"; "set_user_include_list"; "get_user_filters"; "validate_user_filter_pattern"; "get_user_history";
      "get_system_history"; "get_user_summary"; "get_metrics_database_info"].

Definition answers {A B} (f : A -> B) (m : SM W (result A)) : SM W (result B) :=
  m ≫= fun r => mret match r with Ok a => Ok (f a) | Err e => Err e end.

Definition run_tool (c : ToolCall) : SM W (result Output) :=
  match c with
  | ToolSystemStatus => answers OutTool get_system_status
  | ToolUserMetrics args => answers OutUsers (handleGetUserMetrics args)
  | ToolActiveUsers => answers OutTool get_active_users
  | ToolLimitsStatus => answers OutTool get_limits_status
  | ToolCgroupInfo uid => answers OutCgroup (handleGetCgroupInfo uid)
  | ToolConfiguration => answers OutTool get_configuration
  | ToolCPUReport => answers OutTool get_cpu_report
  | ToolMemReport => answers OutTool get_mem_report
  | ToolControlHistory limit => answers OutEntries (handleGetControlHistory limit)
  | ToolActivate force => answers OutLimits (handleActivateLimits force)
  | ToolDeactivate => answers OutTool deactivate_limits
  | ToolSetExclude params => answers OutTool (set_user_exclude_list params)
  | ToolSetInclude params => answers OutTool (set_user_include_list params)
  | ToolUserFilters => answers OutTool get_user_filters
  | ToolValidatePattern params => answers OutTool (validate_user_filter_pattern params)
  | ToolUserHistory args => answers OutHistory (handleGetUserHistory args)
  | ToolSystemHistory args => answers OutHistory (handleGetSystemHistory args)
  | ToolUserSummary args => answers OutSummary (handleGetUserSummary args)
  | ToolDatabaseInfo => answers OutInfo handleGetMetricsDatabaseInfo
  end.

(** The protocol library runs registered tools only. *)
Definition call_tool (c : ToolCall) : SM W (result Output) :=
  if existsb (String.eqb (tool_name c)) registerTools then run_tool c else mret (Err ("unknown tool " +:+ tool_name c)).

End Tools.
