(* ===== verification/MCPResources.v ===== *)
(** * The resources and the prompts of the MCP server
      (mcp/resources.go, and the prompts of mcp/server.go)

    A resource is read through its URI; a prompt is a text built from the
    status and the metrics. *)

From S2P Require Import Prelude GoStrings GoFloat GoNumbers Calendar GoAny TimeParser Config Blackout ConfigLoad OS UserFilter StateBase CollectorBase Collector Decision Limits Collect ControlCycle Reload Status Database MCPServer MCPTools.

#[local] Open Scope Z_scope.

(** ** Addresses *)

(** The number after the first element [name] that has a successor. *)
Fixpoint number_after (name uri : string) (parts : list string) : result Z :=
  match parts with
  | part :: rest =>
      match rest with
      | next :: _ =>
          if String.eqb part name then
            match Atoi next with Some uid => Ok uid | None => Err ("could not extract UID from URI: " +:+ uri) end
          else number_after name uri rest
      | [] => Err ("could not extract UID from URI: " +:+ uri)
      end
  | [] => Err ("could not extract UID from URI: " +:+ uri)
  end.

Definition extractUIDFromURI (uri : string) : result Z :=
  if Contains uri "/users/" then number_after "users" uri (Split uri "/"%char)
  else if Contains uri "/cgroups/" then number_after "cgroups" uri (Split uri "/"%char)
  else Err ("could not extract UID from URI: " +:+ uri).

(** ** Resources *)

(** Does a URI match a template?  The protocol library decides. *)
Class Templates := { template_matches : string -> string -> bool }.

Section Resources.
Context `{RE : Regexp} {W : Type} {E : Env W} `{O : OS W} `{Zn : Zones} `{I : Inspect W} `{T : Templates}.

Definition handleSystemStatusResource : SM W (result Text) :=
  GetStatus ≫= fun status =>
  detailed ≫= fun metrics =>
  mret (Ok (toJSON (AObject
    [("total_cpu_usage", AFloat (getFloatMetric metrics "total_cpu_usage" fzero));
     ("user_cpu_usage", AFloat (getFloatMetric metrics "total_user_cpu_usage" fzero));
     ("memory_usage_mb", AFloat (getFloatMetric metrics "memory_usage_mb" fzero));
     ("active_users_count", AInt (getIntMetric env_oor metrics "active_users_count" 0));
     ("total_cores", AInt (getIntMetric env_oor metrics "total_cores" 0));
     ("system_under_load", ABool (getBoolMetric metrics "system_under_load" false));
     ("limits_active", ABool (getBool status "limits_active" false));
     ("limits_applied_time", AString (getString status "limits_applied_time" ""))]))).

Definition handleActiveUsersResource : SM W (result Text) :=
  env mc_GetAllUsers ≫= fun activeUsers =>
  mret (Ok (toJSON (AList (map (fun uid => AObject [("uid", AInt uid)]) activeUsers)))).

Definition handleLimitsStatusResource : SM W (result Text) :=
  GetStatus ≫= fun status =>
  mret (Ok (toJSON (AObject
    [("limits_active", ABool (getBool status "limits_active" false));
     ("limits_applied_time", AString (getString status "limits_applied_time" ""));
     ("active_users_count", AInt (getInt env_oor status "active_users_count" 0));
     ("active_users", AInts (getIntSlice env_oor status "active_users" []));
     ("shared_cgroup_path", AString (getString status "shared_cgroup_path" ""));
     ("shared_cgroup_active", ABool (getBool status "shared_cgroup_active" false))]))).

Definition handleConfigResource : SM W (result Text) :=
  GetConfig ≫= fun cfg =>
  mret (Ok (toJSON (AObject
    [("cpu_threshold", AInt (CPUThreshold cfg));
     ("cpu_release_threshold", AInt (CPUReleaseThreshold cfg));
     ("cpu_threshold_duration", AInt (CPUThresholdDuration cfg));
     ("polling_interval", AInt (PollingInterval cfg));
     ("min_system_cores", AInt (MinSystemCores cfg));
     ("cpu_quota_normal", AString (CPUQuotaNormal cfg));
     ("cpu_quota_limited", AString (CPUQuotaLimited cfg));
     ("enable_prometheus", ABool (EnablePrometheus cfg));
     ("prometheus_port", AInt (PrometheusMetricsBindPort cfg));
     ("ignore_system_load", ABool (IgnoreSystemLoad cfg));
     ("system_uid_min", AInt (SystemUIDMin cfg));
     ("system_uid_max", AInt (SystemUIDMax cfg));
     ("ram_enabled", ABool (RAMEnabled cfg));
     ("ram_threshold", AInt (RAMThreshold cfg));
     ("ram_release_threshold", AInt (RAMReleaseThreshold cfg));
     ("ram_quota_limited", AString (RAMQuotaLimited cfg));
     ("ram_quota_per_user", AString (RAMQuotaPerUser cfg));
     ("disable_swap", ABool (DisableSwap cfg));
     ("ram_high_ratio", AFloat (RAMHighRatio cfg));
     ("io_enabled", ABool (IOEnabled cfg));
     ("io_threshold", AInt (IOThreshold cfg));
     ("io_release_threshold", AInt (IOReleaseThreshold cfg));
     ("io_threshold_duration", AInt (IOThresholdDuration cfg));
     ("io_read_bps", AString (IOReadBPS cfg));
     ("io_write_bps", AString (IOWriteBPS cfg));
     ("io_read_iops", AInt (IOReadIOPS cfg));
     ("io_write_iops", AInt (IOWriteIOPS cfg));
     ("io_device_filter", AString (IODeviceFilter cfg))]))).

(** An entry, unless its value could not be read. *)
Definition entry {A} (r : result A) (f : A -> list (string * Any)) : list (string * Any) :=
  match r with Ok a => f a | Err _ => [] end.

Definition handleUserMetricsResource (uri : string) : SM W (result Text) :=
  match extractUIDFromURI uri with
  | Err e => mret (Err ("invalid URI: " +:+ e))
  | Ok uid =>
      env mc_GetAllUserMetrics ≫= fun all =>
      match (list_to_map all : gmap Z UserMetrics) !! uid with
      | None => mret (Err ("no metrics found for UID " +:+ Itoa uid))
      | Some metrics =>
          env (cg_GetCgroupRAMUsage uid) ≫= fun ramUsage =>
          env (cg_GetMemoryHighEvents uid) ≫= fun highEvents =>
          env (cg_GetIOStats uid) ≫= fun io =>
          mret (Ok (toJSON (AObject (
            [("uid", AInt uid);
             ("username", AString (Username metrics));
             ("cpu_usage", AFloat (CPUUsage metrics));
             ("memory_usage", AUint (MemoryUsage metrics));
             ("process_count", AInt (ProcessCount metrics));
             ("is_limited", ABool (IsLimited metrics))]
            ++ entry ramUsage (fun n => [("ram_usage_bytes", AUint n)])
            ++ entry highEvents (fun n => [("memory_high_events", AUint n)])
            ++ entry io (fun '(ioRead, ioWrite, ioROps, ioWOps) =>
                 [("io_read_bytes", AUint ioRead); ("io_write_bytes", AUint ioWrite);
                  ("io_read_ops", AUint ioROps); ("io_write_ops", AUint ioWOps)])))))
      end
  end.

Definition handleCgroupResource (uri : string) : SM W (result Text) :=
  match extractUIDFromURI uri with
  | Err e => mret (Err ("invalid URI: " +:+ e))
  | Ok uid =>
      env (cg_GetCgroupInfo uid) ≫= fun r =>
      mret match r with
           | Err e => Err ("failed to get cgroup info: " +:+ e)
           | Ok info => Ok (toJSON (AObject (prod_map id AString <$> map_to_list info)))
           end
  end.

(** ** Prompts *)

Definition handleSystemHealthPrompt : SM W string :=
  detailed ≫= fun metrics =>
  GetStatus ≫= fun status =>
  let user_cpu := getFloatMetric metrics "total_user_cpu_usage" fzero in
  mret (
    "# System Health Check" +:+ nl +:+ nl +:+
    "## CPU Usage" +:+ nl +:+
    "- **Total CPU**: " +:+ format_fixed 1 (getFloatMetric metrics "total_cpu_usage" fzero) +:+ "%" +:+ nl +:+
    "- **User CPU**: " +:+ format_fixed 1 user_cpu +:+ "%" +:+ nl +:+
    "- **Total Cores**: " +:+ Itoa (getIntMetric env_oor metrics "total_cores" 0) +:+ nl +:+ nl +:+
    "## Memory" +:+ nl +:+
    "- **Usage**: " +:+ format_fixed 1 (getFloatMetric metrics "memory_usage_mb" fzero) +:+ " MB" +:+ nl +:+ nl +:+
    "## Status" +:+ nl +:+
    "- **Active Users**: " +:+ Itoa (getIntMetric env_oor metrics "active_users_count" 0) +:+ nl +:+
    "- **Limits Active**: " +:+ format_bool (getBool status "limits_active" false) +:+ nl +:+
    "- **System Under Load**: " +:+ format_bool (getBoolMetric metrics "system_under_load" false) +:+ nl +:+ nl +:+
    "## Assessment" +:+ nl +:+
    (if f_gt user_cpu (f64_of_Z 70) then "**HIGH CPU USAGE** - Consider activating CPU limits" +:+ nl
     else if f_lt user_cpu (f64_of_Z 30) then "**LOW CPU USAGE** - System is running smoothly" +:+ nl
     else "**MODERATE CPU USAGE** - System is operating normally" +:+ nl)).

Definition user_line (p : Z * UserMetrics) : string :=
  "| " +:+ Itoa p.1 +:+ " | " +:+ Username p.2 +:+ " | " +:+ format_fixed 1 (CPUUsage p.2) +:+ " | " +:+
  format_fixed 1 (bytes_to_MB (MemoryUsage p.2)) +:+ " | " +:+ Itoa (ProcessCount p.2) +:+ " |" +:+ nl.

Definition handleUserAnalysisPrompt : SM W string :=
  env mc_GetAllUserMetrics ≫= fun allMetrics =>
  mret (foldl (fun text p => text +:+ user_line p)
    ("# User Resource Analysis" +:+ nl +:+ nl +:+
     "| UID | Username | CPU % | Memory (MB) | Processes |" +:+ nl +:+
     "|-----|----------|-------|-------------|----------|" +:+ nl) allMetrics).

Definition handleTroubleshootingPrompt : SM W string :=
  GetStatus ≫= fun status =>
  detailed ≫= fun metrics =>
  let user_cpu := getFloatMetric metrics "total_user_cpu_usage" fzero in
  let limits := getBool status "limits_active" false in
  let count := getInt env_oor status "active_users_count" 0 in
  mret (
    "# Resource Manager Troubleshooting" +:+ nl +:+ nl +:+
    "## Current Status" +:+ nl +:+
    "- **Limits Active**: " +:+ format_bool limits +:+ nl +:+
    "- **Total CPU Usage**: " +:+ format_fixed 1 (getFloatMetric metrics "total_cpu_usage" fzero) +:+ "%" +:+ nl +:+
    "- **User CPU Usage**: " +:+ format_fixed 1 user_cpu +:+ "%" +:+ nl +:+
    "- **Active Users**: " +:+ Itoa (getIntMetric env_oor metrics "active_users_count" 0) +:+ nl +:+ nl +:+
    "## Diagnostic Steps" +:+ nl +:+ nl +:+
    (if f_gt user_cpu (f64_of_Z 70) then
       "1. **HIGH CPU USAGE DETECTED**" +:+ nl +:+
       "   - Check which users are consuming the most CPU" +:+ nl +:+
       "   - Consider running `activate_limits` if not already active" +:+ nl
     else "1. **CPU Usage Normal** - No immediate action needed" +:+ nl) +:+
    (if limits then
       "2. **CPU Limits Active** - Limits are being enforced" +:+ nl +:+
       (if 0 <? count then "   - " +:+ Itoa count +:+ " users currently limited" +:+ nl else "")
     else "2. **CPU Limits Inactive** - No limits currently enforced" +:+ nl) +:+
    nl +:+ "## Recommended Actions" +:+ nl +:+
    "- Use `get_user_metrics` to identify high CPU users" +:+ nl +:+
    "- Use `get_limits_status` to check current limit state" +:+ nl +:+
    "- Use `get_configuration` to review thresholds" +:+ nl).

(** ** Registration *)

Inductive McpRequest :=
  | RequestTool (c : ToolCall)
  | RequestResource (uri : string)
  | RequestPrompt (name : string).

(** The resources and the templates of [registerResources]. *)
Definition read_resource (uri : string) : SM W (result Text) :=
  if String.eqb uri "resman://system/status" then handleSystemStatusResource
  else if String.eqb uri "resman://users/active" then handleActiveUsersResource
  else if String.eqb uri "resman://limits/status" then handleLimitsStatusResource
  else if String.eqb uri "resman://config" then handleConfigResource
  else if template_matches "resman://users/{uid}/metrics" uri then handleUserMetricsResource uri
  else if template_matches "resman://cgroups/{uid}" uri then handleCgroupResource uri
  else mret (Err "resource not found").

(** [registerPrompts]. *)
Definition get_prompt (name : string) : SM W (result string) :=
  if String.eqb name "system-health" then handleSystemHealthPrompt ≫= fun t => mret (Ok t)
  else if String.eqb name "user-analysis" then handleUserAnalysisPrompt ≫= fun t => mret (Ok t)
  else if String.eqb name "troubleshooting" then handleTroubleshootingPrompt ≫= fun t => mret (Ok t)
  else mret (Err ("unknown prompt " +:+ name)).

Inductive McpReply :=
  | ReplyTool (o : Output)
  | ReplyResource (t : Text)
  | ReplyPrompt (s : string).

Definition handle `{D : MetricsDB W} (sv : Server) (r : McpRequest) : SM W (result McpReply) :=
  match r with
  | RequestTool c => answers ReplyTool (call_tool sv c)
  | RequestResource uri => answers ReplyResource (read_resource uri)
  | RequestPrompt name => answers ReplyPrompt (get_prompt name)
  end.

End Resources.
