(* ===== verification/MCPFacts.v ===== *)
(** * Properties of the requests of the MCP server *)

From S2P Require Import Prelude GoStrings GoFloat GoNumbers Calendar GoAny TimeParser Config Blackout ConfigLoad OS UserFilter StateBase Recorder CollectorBase Collector Decision Limits Collect ControlCycle Frame Reload Status Database MCPServer MCPTools MCPResources.

#[local] Open Scope Z_scope.

(** ** Requests that only read

    [Reading Q]: the operations that look at something maintain [Q] of the
    world. *)

Section Reading.
Context {W : Type} {E : Env W} `{O : OS W} `{I : Inspect W} `{D : MetricsDB W}.

Record Reading (Q : W -> Prop) : Prop := {
  re_now : preserves Q time_Now;
  re_all : preserves Q mc_GetAllUserMetrics;
  re_keys s : preserves Q (range_keys s);
  re_hostname : preserves Q os_Hostname;
  re_detailed : preserves Q mc_GetDetailedMetrics;
  re_users : preserves Q mc_GetAllUsers;
  re_info uid : preserves Q (cg_GetCgroupInfo uid);
  re_ram uid : preserves Q (cg_GetCgroupRAMUsage uid);
  re_high uid : preserves Q (cg_GetMemoryHighEvents uid);
  re_io uid : preserves Q (cg_GetIOStats uid);
  re_file p : preserves Q (os_ReadFile p);
  re_dir p : preserves Q (os_ReadDir p);
  re_user_history uid a b n : preserves Q (mdb_GetUserHistory uid a b n);
  re_system_history a b n : preserves Q (mdb_GetSystemHistory a b n);
  re_summary uid a b : preserves Q (mdb_GetUserSummary uid a b);
  re_database n : preserves Q (mdb_GetDatabaseInfo n)
}.

End Reading.

Create HintDb reading.

#[export] Hint Resolve re_now re_all re_keys re_hostname re_detailed re_users re_info re_ram re_high re_io re_file re_dir
  re_user_history re_system_history re_summary re_database : reading.

(** The manager is in the state [m] and the world satisfies [Q]. *)
Definition still {W} (m : StateManager) (Q : W -> Prop) (s : StateManager * W) : Prop := s.1 = m /\ Q s.2.

Lemma still_env {W A} (m0 : StateManager) (Q : W -> Prop) (m : ST W A) : preserves Q m -> preserves (still m0 Q) (env m).
Proof. intros Hm [s w] [Hs Hw]. specialize (Hm w Hw). unfold exec, env in *. by destruct (m w). Qed.

Lemma still_read {W A} (m0 : StateManager) (Q : W -> Prop) (f : StateManager -> A) : preserves (still m0 Q) (read f).
Proof. by intros s Hs. Qed.

(** Through binds, loops and branches. *)
Ltac reading :=
  repeat match goal with
  | |- forall _, _ => intros ?
  | |- preserves _ (mret _) => apply preserves_ret
  | |- preserves _ (_ ≫= _) => apply preserves_bind
  | |- preserves _ (fold_st _ _ _) => apply preserves_fold
  | |- preserves _ (match ?x with _ => _ end) => destruct x
  | |- preserves _ (let _ := _ in _) => cbv zeta
  | |- preserves _ (env _) => apply still_env
  | |- preserves _ (read _) => apply still_read
  | |- preserves _ GetConfig => apply still_read
  | |- preserves _ _ => solve [eauto with reading]
  end.

Section ReadOnly.
Context `{RE : Regexp} {W : Type} {E : Env W} `{O : OS W} `{Zn : Zones} `{I : Inspect W} `{T : Templates} `{D : MetricsDB W}.
Context (sv : Server) (m0 : StateManager) (Q : W -> Prop) (R : Reading Q).

#[local] Hint Resolve R : reading.

Lemma reading_status : preserves (still m0 Q) GetStatus.
Proof. unfold GetStatus, getActiveUsersList, shared_status. reading. Qed.

Lemma reading_detailed : preserves (still m0 Q) detailed.
Proof. unfold detailed. reading. Qed.

Lemma reading_hostname : preserves (still m0 Q) getHostname.
Proof. unfold getHostname. reading. Qed.

Lemma reading_now : preserves (still m0 Q) Now.
Proof. unfold Now. reading. Qed.

Lemma reading_again all : preserves (still m0 Q) (again all).
Proof. unfold again. reading. Qed.

#[local] Hint Resolve reading_status reading_detailed reading_hostname reading_now reading_again : reading.

Lemma reading_cpu_report : preserves (still m0 Q) get_cpu_report.
Proof. unfold get_cpu_report. reading. Qed.

Lemma reading_mem_report : preserves (still m0 Q) get_mem_report.
Proof. unfold get_mem_report. reading. Qed.

Lemma reading_users args : preserves (still m0 Q) (handleGetUserMetrics args).
Proof. unfold handleGetUserMetrics, user_metric. reading. Qed.

Lemma reading_cgroup uid : preserves (still m0 Q) (handleGetCgroupInfo uid).
Proof. unfold handleGetCgroupInfo. reading. Qed.

Lemma reading_user args : preserves (still m0 Q) (query_user args).
Proof. unfold query_user, GetUIDFromUsername. reading. Qed.

#[local] Hint Resolve reading_cpu_report reading_mem_report reading_users reading_cgroup reading_user : reading.

Lemma reading_answers {A B} (f : A -> B) (m : SM W (result A)) : preserves (still m0 Q) m -> preserves (still m0 Q) (answers f m).
Proof. intros Hm. unfold answers. reading. Qed.

(** The tools that change something. *)
Definition writes (c : ToolCall) : bool :=
  match c with ToolActivate _ | ToolDeactivate | ToolSetExclude _ | ToolSetInclude _ => true | _ => false end.

Lemma reading_run c : writes c = false -> preserves (still m0 Q) (run_tool sv c).
Proof.
  intros Hc. destruct c; try done; apply reading_answers;
    unfold get_system_status, get_active_users, get_limits_status, get_configuration, handleGetControlHistory, GetControlHistory,
      get_user_filters, validate_user_filter_pattern, handleGetUserHistory, handleGetSystemHistory, handleGetUserSummary,
      handleGetMetricsDatabaseInfo; reading.
Qed.

(** When writing is not allowed, they are not registered or do nothing. *)
Lemma reading_tool c : AllowWriteOps (sv_cfg sv) = false -> preserves (still m0 Q) (call_tool sv c).
Proof.
  intros Hr. unfold call_tool, registerTools. rewrite Hr. destruct (existsb _ _) eqn:Er; [|apply preserves_ret].
  destruct (writes c) eqn:Ew; [|by apply reading_run]. destruct c; try done; apply reading_answers;
    unfold set_user_exclude_list, set_user_include_list, set_user_list; rewrite Hr; cbn [negb]; reading.
Qed.

Lemma reading_resource uri : preserves (still m0 Q) (read_resource uri).
Proof.
  unfold read_resource, handleSystemStatusResource, handleActiveUsersResource, handleLimitsStatusResource, handleConfigResource,
    handleUserMetricsResource, handleCgroupResource. reading.
Qed.

Lemma reading_prompt name : preserves (still m0 Q) (get_prompt name).
Proof. unfold get_prompt, handleSystemHealthPrompt, handleUserAnalysisPrompt, handleTroubleshootingPrompt. reading. Qed.

Lemma reading_handle r : AllowWriteOps (sv_cfg sv) = false -> preserves (still m0 Q) (handle sv r).
Proof.
  intros Hr. destruct r; apply reading_answers; [by apply reading_tool|apply reading_resource|apply reading_prompt].
Qed.

End ReadOnly.

(** ** Requests as a client of the manager *)

Section Refine.
Context `{RE : Regexp} {W : Type} {E : Env W} `{O : OS W} `{Zn : Zones} `{I : Inspect W} `{T : Templates} `{D : MetricsDB W}.
Context (sv : Server).

(** The manager goes through steps of its own. *)
Definition stepping {A} (m : SM W A) : Prop := forall s, rtc manager_step s (exec m s).

Lemma stepping_quiet {A} (m : SM W A) : quiet m -> stepping m.
Proof.
  intros Hm s. specialize (Hm s). destruct s as [m1 w]. destruct (exec m (m1, w)) as [m2 w2]. cbn in Hm. subst. apply rtc_once, step_world.
Qed.

Lemma stepping_bind {A B} (m : SM W A) (f : A -> SM W B) : stepping m -> (forall a, stepping (f a)) -> stepping (m ≫= f).
Proof.
  intros Hm Hf s. specialize (Hm s). unfold exec, mbind, ST_bind in *. destruct (m s) as [a s']. etransitivity; [exact Hm|apply Hf].
Qed.

Lemma stepping_step {A} (m : SM W A) : (forall s, manager_step s (exec m s)) -> stepping m.
Proof. intros Hm s. by apply rtc_once. Qed.

Lemma reading_all : Reading (fun _ : W => True).
Proof. by constructor. Qed.

Lemma quiet_reading {A} (m : SM W A) : (forall m0, preserves (still m0 (fun _ => True)) m) -> quiet m.
Proof. intros Hm s. by apply (Hm s.1 s). Qed.

Lemma stepping_answers {A B} (f : A -> B) (m : SM W (result A)) : stepping m -> stepping (answers f m).
Proof. intros Hm. apply stepping_bind; [done|]. intros r. by apply stepping_quiet, quiet_ret. Qed.

Lemma stepping_status : stepping GetStatus.
Proof. apply stepping_quiet, quiet_reading. intros m0. apply reading_status, reading_all. Qed.

Lemma stepping_activate force : stepping (handleActivateLimits sv force).
Proof.
  unfold handleActivateLimits. destruct (negb _); [by apply stepping_quiet, quiet_ret|]. cbn zeta. destruct force.
  - apply stepping_bind; [apply stepping_step, step_activate|]. intros err. by apply stepping_quiet, quiet_ret.
  - apply stepping_bind; [apply stepping_status|]. intros status. destruct (getBool _ _ _); [by apply stepping_quiet, quiet_ret|].
    apply stepping_bind; [apply stepping_step, step_cycle|]. intros err. by apply stepping_quiet, quiet_ret.
Qed.

Lemma stepping_deactivate : stepping (deactivate_limits (W := W)).
Proof. apply stepping_bind; [apply stepping_step, step_deactivate|]. intros err. by apply stepping_quiet, quiet_ret. Qed.

Lemma stepping_set set patterns : stepping (set_config_list (W := W) set patterns).
Proof.
  unfold set_config_list. apply stepping_bind; [apply stepping_quiet; unfold Now; quiet|]. intros now. apply stepping_bind.
  - intros [m w]. unfold exec. cbn beta iota. destruct (set patterns _ _ (s_cfg m, w)) as [r [cfg' w']]. cbn [snd].
    eapply rtc_l; [apply (step_config (Some cfg'))|]. unfold exec. cbn. apply rtc_once, step_world.
  - intros r. apply stepping_quiet. unfold GetConfig. quiet.
Qed.

Lemma stepping_set_list proj set message params : stepping (set_user_list (W := W) sv proj set message params).
Proof.
  unfold set_user_list. destruct params as [args|e]; [|by apply stepping_quiet, quiet_ret].
  destruct (args !! "patterns") as [[]|]; try by apply stepping_quiet, quiet_ret.
  destruct (strings_of l); [|by apply stepping_quiet, quiet_ret]. cbn zeta. destruct (negb _); [by apply stepping_quiet, quiet_ret|].
  apply stepping_bind; [by apply stepping_quiet, quiet_read|]. intros cfg. apply stepping_bind; [apply stepping_set|].
  intros []; by apply stepping_quiet, quiet_ret.
Qed.

Lemma stepping_tool c : stepping (call_tool sv c).
Proof.
  unfold call_tool. destruct (existsb _ _); [|by apply stepping_quiet, quiet_ret]. destruct (writes c) eqn:Ew.
  - destruct c; try done; apply stepping_answers; [apply stepping_activate|apply stepping_deactivate|apply stepping_set_list..].
  - apply stepping_quiet, quiet_reading. intros m0. apply reading_run; [apply reading_all|done].
Qed.

Lemma stepping_handle r : stepping (handle sv r).
Proof.
  destruct r; apply stepping_answers.
  - apply stepping_tool.
  - apply stepping_quiet, quiet_reading. intros m0. apply reading_resource, reading_all.
  - apply stepping_quiet, quiet_reading. intros m0. apply reading_prompt, reading_all.
Qed.

(** The manager with a server beside it. *)
Inductive served_step : StateManager * W -> StateManager * W -> Prop :=
  | served_request r s : served_step s (exec (handle sv r) s)
  | served_manager s s' : manager_step s s' -> served_step s s'.

End Refine.

(** ** What the status says *)

Definition assoc (key : string) (fields : list (string * Any)) : option Any :=
  snd <$> List.find (fun p => String.eqb key p.1) fields.

Lemma detailed_map_lacks d :
  detailed_map d !! "total_user_cpu_usage" = None /\ detailed_map d !! "active_users_count" = None.
Proof.
  split; apply (not_elem_of_list_to_map_1 (M := gmap string)); cbn; rewrite !not_elem_of_cons; split_and!; try done; apply not_elem_of_nil.
Qed.

Section Status.
Context `{RE : Regexp} {W : Type} {E : Env W} `{O : OS W} `{Zn : Zones} `{I : Inspect W} `{D : MetricsDB W}.

Lemma wp_detailed (Q : Dict -> StateManager * W -> Prop) s :
  (forall d w, Q (detailed_map d) (s.1, w)) -> wp detailed Q s.
Proof. intros HQ. unfold detailed. apply wp_bind, wp_env. intros d w. apply wp_ret, HQ. Qed.

Lemma wp_status (Q : Dict -> StateManager * W -> Prop) s :
  (forall status w, status !! "limits_active" = Some (ABool (limitsActive s.1)) -> Q status (s.1, w)) -> wp GetStatus Q s.
Proof.
  intros HQ. unfold GetStatus, getActiveUsersList. apply wp_bind, wp_read, wp_bind, wp_bind, wp_read, wp_range. intros users w Hk.
  destruct (String.eqb_spec (sharedCgroupPath s.1) "") as [Ee|Ee].
  - by apply wp_ret, HQ.
  - apply shared_status_keeps. intros status' w2 Hkeep. apply HQ. by rewrite Hkeep.
Qed.

Lemma wp_hostname (Q : string -> StateManager * W -> Prop) s : (forall h w, Q h (s.1, w)) -> wp getHostname Q s.
Proof. intros HQ. unfold getHostname. apply wp_bind, wp_env. intros r w. apply wp_ret, HQ. Qed.

(** A setter of a list changes that list, or nothing. *)
Lemma wp_set_list (proj : Config -> list string) (assign : list string -> Config -> Config) patterns path stamp c (w : W) :
  (forall c, assign (proj c) c = c) -> (forall a b c, assign a (assign b c) = assign a c) ->
  wp (set_list proj assign patterns path stamp)
    (fun r s => match r with Ok _ => invalid_pattern patterns = None /\ s.1 = assign patterns c | Err _ => s.1 = c end) (c, w).
Proof.
  intros H1 H2. unfold set_list, wp. destruct (invalid_pattern patterns); [done|].
  destruct (SaveToFile (assign patterns c) path stamp w) as [[e|] w']; [|done]. cbn. by rewrite H2, H1.
Qed.

Lemma wp_set_config_list (proj : Config -> list string) (assign : list string -> Config -> Config) patterns (s : StateManager * W) :
  (forall c, assign (proj c) c = c) -> (forall a b c, assign a (assign b c) = assign a c) ->
  wp (set_config_list (set_list proj assign) patterns)
    (fun r s' => match r with
                 | Ok _ => invalid_pattern patterns = None /\ s'.1 = set_s_cfg (assign patterns (s_cfg s.1)) s.1
                 | Err _ => s'.1 = s.1
                 end) s.
Proof.
  intros H1 H2. unfold set_config_list, Now. apply wp_bind, wp_bind, wp_env. intros now w1. apply wp_ret, wp_bind. cbn [fst].
  pose proof (wp_set_list proj assign patterns (ConfigFile (s_cfg s.1)) (backup_stamp (shown now)) (s_cfg s.1) w1 H1 H2) as K.
  unfold wp in K |- * at 1. cbn beta iota. destruct (set_list proj assign patterns _ _ _) as [r [cfg' w2]].
  apply wp_bind, wp_read, wp_bind, wp_env. intros [] w3. apply wp_ret. destruct r as [l|e]; cbn in K |- *.
  - destruct K as [? ->]. by split.
  - subst. by destruct (s.1).
Qed.

End Status.

(** ** Properties *)

Section Properties.
Context `{RE : Regexp} {W : Type} {E : Env W} `{O : OS W} `{Zn : Zones} `{I : Inspect W} `{T : Templates} `{D : MetricsDB W}.

(** C24: unless MCP_ALLOW_WRITE_OPS is set, no tool call, resource or prompt, with
    whatever arguments, changes the state of the manager, or anything of the
    world that the operations which only look at it leave alone. *)
Theorem requests_read_only sv r (Q : W -> Prop) (s : StateManager * W) :
  AllowWriteOps (sv_cfg sv) = false -> Reading Q -> Q s.2 ->
  (exec (handle sv r) s).1 = s.1 /\ Q (exec (handle sv r) s).2.
Proof. intros Hr HQ Hs. by apply (reading_handle sv s.1 Q HQ r Hr). Qed.


(** The system status says that users consume no CPU and that nobody is active,
    and the health prompt that the CPU usage is low, whatever the collector
    measures: the keys they look up are not among those of the metrics. *)
Theorem user_cpu_never_reported (s : StateManager * W) :
  (exists r fields, eval get_system_status s = Ok r /\ StructuredContent r = Some (AObject fields) /\
     assoc "user_cpu_usage" fields = Some (AFloat fzero) /\ assoc "active_users_count" fields = Some (AInt 0)) /\
  exists head, eval handleSystemHealthPrompt s = head +:+ ("**LOW CPU USAGE** - System is running smoothly" +:+ nl).
Proof.
  split.
  - enough (wp get_system_status (fun r _ => exists r' fields, r = Ok r' /\ StructuredContent r' = Some (AObject fields) /\
      assoc "user_cpu_usage" fields = Some (AFloat fzero) /\ assoc "active_users_count" fields = Some (AInt 0)) s) as K
      by (unfold wp, eval in *; by destruct (get_system_status s)).
    unfold get_system_status. apply wp_bind, wp_any. intros status s1. apply wp_bind, wp_detailed. intros d w.
    apply wp_bind, wp_hostname. intros h w2. apply wp_bind, wp_read, wp_ret. destruct (detailed_map_lacks d) as [H1 H2].
    eexists _, _. split; [done|]. split; [done|]. unfold getFloatMetric, getIntMetric. rewrite H1, H2. by split.
  - enough (wp handleSystemHealthPrompt (fun t _ => exists head, t = head +:+ ("**LOW CPU USAGE** - System is running smoothly" +:+ nl)) s)
      as K by (unfold wp, eval in *; by destruct (handleSystemHealthPrompt s)).
    unfold handleSystemHealthPrompt. apply wp_bind, wp_detailed. intros d w. apply wp_bind, wp_any. intros status s1. apply wp_ret.
    destruct (detailed_map_lacks d) as [H1 H2]. unfold getFloatMetric at 2 3 4. rewrite H1.
    change (f_gt fzero (f64_of_Z 70)) with false. change (f_lt fzero (f64_of_Z 30)) with true. cbn match. rewrite <- !append_assoc. by eexists.
Qed.

(** What the tool that activates limits does.  It runs a forced activation, or
    does nothing when limits are active, or runs one control cycle; after that
    it reports success whenever the cycle ended without an error, whether or not
    limits became active. *)
Theorem activate_tool_spec sv force (s : StateManager * W) :
  AllowWriteOps (sv_cfg sv) = true ->
  let m := handleActivateLimits sv force in
  if force then exec m s = exec ForceActivateLimits s /\
    (eval ForceActivateLimits s = None -> eval m s = Ok (mkLimitsResult true "Limits activated successfully"))
  else if limitsActive s.1 then (exec m s).1 = s.1 /\ eval m s = Ok (mkLimitsResult false "Limits are already active")
  else exec m s = exec RunControlCycle (exec GetStatus s) /\
    (eval RunControlCycle (exec GetStatus s) = None -> eval m s = Ok (mkLimitsResult true "Limits activated successfully")).
Proof.
  intros Hw m. unfold m, handleActivateLimits. rewrite Hw. cbn [negb]. cbv zeta. destruct force.
  - unfold exec, eval, mbind, ST_bind, mret, ST_ret. destruct (ForceActivateLimits s) as [[e|] s']; by split.
  - pose proof (wp_status (fun status s' => getBool status "limits_active" false = limitsActive s.1 /\ s'.1 = s.1) s) as K.
    unfold wp, exec, eval, mbind, ST_bind, mret, ST_ret in *. destruct (GetStatus s) as [status [m1 w1]].
    destruct K as [K1 K2]. { intros st w Hst. unfold getBool. by rewrite Hst. } cbn [fst snd] in K1, K2. subst m1. rewrite K1.
    destruct (limitsActive s.1); [done|]. cbn [snd]. by destruct (RunControlCycle (s.1, w1)) as [[e|] s'].
Qed.

(** C34: the tool that sets the list of excluded users, when writing is allowed and its
    argument is a list of texts: either all of them are valid patterns, they
    are the new list and nothing else of the manager changes, or nothing
    changes and there is no structured content. *)
Theorem set_exclude_list_spec sv args raw patterns (s : StateManager * W) :
  AllowWriteOps (sv_cfg sv) = true -> args !! "patterns" = Some (AList raw) -> strings_of raw = Some patterns ->
  exists r, eval (set_user_exclude_list sv (Ok args)) s = Ok r /\
  let m' := (exec (set_user_exclude_list sv (Ok args)) s).1 in
  match StructuredContent r with
  | Some _ => invalid_pattern patterns = None /\ m' = set_s_cfg (set_UserExcludeList patterns (s_cfg s.1)) s.1
  | None => m' = s.1
  end.
Proof.
  intros Hw Ha Hs.
  enough (wp (set_user_exclude_list sv (Ok args)) (fun r s' => exists r', r = Ok r' /\
    match StructuredContent r' with
    | Some _ => invalid_pattern patterns = None /\ s'.1 = set_s_cfg (set_UserExcludeList patterns (s_cfg s.1)) s.1
    | None => s'.1 = s.1
    end) s) as (r & H1 & H2).
  { exists r. unfold eval, exec. destruct (set_user_exclude_list sv (Ok args) s). by split. }
  unfold set_user_exclude_list, set_user_list. rewrite Ha, Hs, Hw. cbn [negb]. cbv zeta.
  apply wp_bind, wp_read, wp_bind.
  eapply wp_mono; [|apply (wp_set_config_list UserExcludeList set_UserExcludeList); by intros; destruct c].
  intros r s' K. destruct r; apply wp_ret; eexists; (split; [done|]); exact K.
Qed.

End Properties.

(** ** Addresses of resources *)

(** C35: the number in the address of a user's metrics or of a cgroup is the one that
    is extracted from it. *)
Theorem extractUIDFromURI_address uid :
  in_i64 uid ->
  extractUIDFromURI ("resman://users/" +:+ Itoa uid +:+ "/metrics") = Ok uid /\
  extractUIDFromURI ("resman://cgroups/" +:+ Itoa uid) = Ok uid.
Proof.
  intros Hu. assert (mem "/"%char (Itoa uid) = false) as Hm by (by apply Itoa_not_mem).
  split; unfold extractUIDFromURI.
  - change ("resman://users/" +:+ Itoa uid +:+ "/metrics") with ("resman:/" +:+ ("/users/" +:+ (Itoa uid +:+ "/metrics"))).
    rewrite Contains_middle.
    change ("resman:/" +:+ ("/users/" +:+ (Itoa uid +:+ "/metrics"))) with ("resman://users/" +:+ Itoa uid +:+ "/metrics").
    change (Split ("resman://users/" +:+ Itoa uid +:+ "/metrics") "/"%char)
      with (["resman:"; ""; "users"] ++ Split (Itoa uid +:+ String "/"%char "metrics") "/"%char).
    rewrite Split_app by done. cbn. by rewrite Atoi_Itoa.
  - assert (Contains ("resman://cgroups/" +:+ Itoa uid) "/users/" = false) as ->.
    { change (HasPrefix (Itoa uid) "users/" || Contains (Itoa uid) "/users/" = false).
      by rewrite (HasPrefix_mem "/"%char), (Contains_mem "/"%char). }
    change (Contains ("resman://cgroups/" +:+ Itoa uid) "/cgroups/") with (Contains ("resman:/" +:+ ("/cgroups/" +:+ Itoa uid)) "/cgroups/").
    rewrite Contains_middle.
    change (Split ("resman://cgroups/" +:+ Itoa uid) "/"%char) with (["resman:"; ""; "cgroups"] ++ Split (Itoa uid) "/"%char).
    rewrite Split_no_sep by done. cbn. by rewrite Atoi_Itoa.
Qed.

(** ** Witnesses: a server beside the manager of [Recorder] *)

#[local] Existing Instance literal_regexp.

#[local] Existing Instance greenwich.

(** The configuration file does not exist yet. *)
#[local] Instance blank_os : OS Recorder := {|
  os_ReadFile _ := mret (Err ENOENT);
  os_WriteFile _ _ := mret None;
  os_AppendFile _ _ := mret None;
  os_Stat _ := mret (Some ENOENT);
  os_ReadDir _ := mret (Err ENOENT);
  os_Mkdir _ := mret None;
  os_MkdirAll _ := mret None;
  os_Remove _ := mret None;
  os_RemoveAll _ := mret None;
  os_Rename _ _ := mret None;
  os_Chmod _ := mret None
|}.

#[local] Instance recorder_inspect : Inspect Recorder := {|
  os_Hostname := mret (Ok "db1");
  mc_GetDetailedMetrics := gets (fun r => mkDetailed (r_cores r) (r_cpu r) (f64_of_Z 90) 0 2 (f64_of_Z 90) 0 2 fzero fzero fzero false ∅ 0);
  mc_GetAllUsers := gets (fun r => map fst (r_users r));
  cg_GetCgroupInfo _ := mret (Err "not found");
  cg_GetCgroupRAMUsage _ := mret (Err "not found");
  cg_GetMemoryHighEvents _ := mret (Err "not found");
  cg_GetIOStats _ := mret (Err "not found");
  cfg_Shared _ := mret tt
|}.

#[local] Instance recorder_db : MetricsDB Recorder := {|
  mdb_GetUserHistory _ _ _ _ := mret (Ok []);
  mdb_GetSystemHistory _ _ _ := mret (Ok []);
  mdb_GetUserSummary _ _ _ := mret (Ok None);
  mdb_GetDatabaseInfo _ := mret (Err "closed")
|}.

#[local] Instance exact_templates : Templates := {| template_matches _ _ := true |}.

Definition mcp_server (allow : bool) : Server :=
  mkServer (mkMcpConfig true "stdio" 1969 "" "INFO" "" allow) (DefaultConfig None) true None false [].

(** Nobody asked the cgroup manager for anything. *)
Definition untouched (r : Recorder) : Prop := r_calls r = [].

Lemma untouched_reading : Reading untouched.
Proof. constructor; intros; intros r Hr; exact Hr. Qed.

(** A forced activation on a server that only reads. *)
Lemma requests_read_only_witness :
  let s' := exec (handle (mcp_server false) (RequestTool (ToolActivate true))) started in
  s'.1 = started.1 /\ r_calls s'.2 = [].
Proof. by apply (requests_read_only (mcp_server false) (RequestTool (ToolActivate true)) untouched started eq_refl untouched_reading). Defined.

(** The same request on a server that may write limits the two busy users. *)
Definition activated : StateManager * Recorder := exec (handle (mcp_server true) (RequestTool (ToolActivate true))) started.


(** The machine is idle: the cycle activates nothing, yet the tool reports
    success. *)
Definition idle : StateManager * Recorder := (NewStateManager impatient_config true, site (1000 * second) 8 []).

Lemma activate_tool_spec_witness :
  limitsActive (exec (handleActivateLimits (mcp_server true) false) idle).1 = false /\
  eval (handleActivateLimits (mcp_server true) false) idle = Ok (mkLimitsResult true "Limits activated successfully").
Proof.
  split; [by vm_compute|]. destruct (activate_tool_spec (mcp_server true) false idle eq_refl) as [_ H]. apply H.
  by vm_compute.
Defined.

Definition exclude_args : Dict := {[ "patterns" := AList [AString "root"; AString "admin"] ]}.

Lemma set_exclude_list_spec_witness :
  UserExcludeList (s_cfg (exec (set_user_exclude_list (mcp_server true) (Ok exclude_args)) started).1) = ["root"; "admin"].
Proof.
  destruct (set_exclude_list_spec (mcp_server true) exclude_args [AString "root"; AString "admin"] ["root"; "admin"] started
    eq_refl eq_refl eq_refl) as (r & Hr & H).
  destruct (StructuredContent r) eqn:Es; [by destruct H as [_ ->]|].
  revert Es. assert (isSome (StructuredContent r) = true) as Hsome; [|by destruct (StructuredContent r)].
  revert Hr. vm_compute. by intros [= <-].
Defined.

Lemma extractUIDFromURI_address_witness :
  extractUIDFromURI "resman://users/1000/metrics" = Ok 1000 /\ extractUIDFromURI "resman://cgroups/1000" = Ok 1000.
Proof. apply (extractUIDFromURI_address 1000). unfold in_i64, two63. lia. Defined.
