(* ===== verification/HistoryFacts.v ===== *)
(** * The database behind the requests

    The queries of [Database] as the interface [MetricsDB] of the MCP server, and
    what a request for the history of a user answers. *)

From stdpp Require Import sorting.
From S2P Require Import Prelude GoStrings GoFloat GoNumbers Calendar SqlText GoAny TimeParser Config Blackout ConfigLoad OS UserFilter StateBase Recorder CollectorBase Reload Lift Database DatabaseFacts MCPServer MCPTools.

#[local] Open Scope Z_scope.

(** ** The interface *)

Section Interface.
Context {W : Type} `{Zn : Zones} `{Q : SQL W} `{S : Site W}.

Definition database_queries (dbPath : string) : MetricsDB W := {|
  mdb_GetUserHistory := GetUserHistory;
  mdb_GetSystemHistory := GetSystemHistory;
  mdb_GetUserSummary := GetUserSummary;
  mdb_GetDatabaseInfo := GetDatabaseInfo dbPath
|}.

(** What the collector's writer is given. *)
Definition database_writes : CollectorBase.Database W := {|
  db_WriteUserMetrics := WriteUserMetrics;
  db_WriteSystemMetrics := WriteSystemMetrics
|}.

End Interface.

(** ** Properties *)

Section Properties.
Context {W : Type} {E : Env W} `{Zn : Zones} `{Q : SQL W} `{Dl : !Dialect W} `{S : Site W} (A : Apart (W := W)) (dbPath : string).

#[local] Instance served_database : MetricsDB W := database_queries dbPath.

(** A request for the last [hours] hours of a user. *)
Definition last_hours (uid hours n : Z) : GetHistoryArgs := mkHistoryArgs (Some uid) "" "" "" "" hours n.

Lemma hours_before_exact h now : in_i64 h -> in_i64 (h * hour) -> t_at (hours_before h now) = t_at now - h * hour.
Proof.
  intros H1 H2. unfold hours_before, Add. cbn [t_at].
  assert (wrap_i64 (- h) = - h) as -> by (apply wrap_i64_small; unfold in_i64, two63, hour, second in *; lia).
  destruct (Z.eq_dec (h * hour) (- two63)) as [Hm|Hm]; [unfold hour, second, two63 in *; lia|].
  rewrite wrap_i64_small; [lia|]. unfold in_i64 in *. lia.
Qed.

Lemma wp_env_exact {B} (m : ST W B) (R : B -> StateManager * W -> Prop) s : wp m (fun b w => R b (s.1, w)) s.2 -> wp (env m) R s.
Proof. destruct s as [x w]. unfold wp, env. cbn. by destruct (m w). Qed.


End Properties.

(** ** A database beside the rest of the world *)

Section Beside.
Context {X W : Type} `{Zn : Zones} `{Q : SQL X} `{Dl : !Dialect X}.

Definition aside {A} (m : ST X A) : ST (X * W) A := fun '(x, w) => let '(a, x') := m x in (a, (x', w)).

Lemma wp_aside {A} (m : ST X A) (R : A -> X * W -> Prop) s : wp m (fun a x => R a (x, s.2)) s.1 -> wp (aside m) R s.
Proof. destruct s as [x w]. unfold wp, aside. cbn. by destruct (m x). Qed.

#[export] Instance aside_sql : SQL (X * W) := {|
  sql_Open p := aside (sql_Open p);
  sql_Exec q args := aside (sql_Exec q args);
  sql_Query q args := aside (sql_Query q args);
  sql_Close := aside sql_Close;
  sql_Ping := aside sql_Ping
|}.

#[export] Program Instance aside_dialect : Dialect (X * W) := {| users s := users s.1; system s := system s.1 |}.
Next Obligation. intros. apply wp_aside, law_insert_user. Qed.
Next Obligation. intros. apply wp_aside, law_insert_system. Qed.
Next Obligation. intros. apply wp_aside, law_delete_user. Qed.
Next Obligation. intros. apply wp_aside, law_delete_system. Qed.
Next Obligation. intros. by apply wp_aside, law_exec. Qed.
Next Obligation. intros. by apply wp_aside, law_query. Qed.
Next Obligation. intros. apply wp_aside, law_user_history. Qed.
Next Obligation. intros. apply wp_aside, law_system_history. Qed.
Next Obligation. intros. by apply wp_aside, law_untyped. Qed.

End Beside.

(** ** Witness: the tables of June beside the manager of [Recorder] *)

#[local] Existing Instance DatabaseFacts.rome.

#[local] Instance beside_filters : UserFilters (Tables * Recorder) :=
  {| uf_RAM c u := lifted (uf_RAM c u); uf_IO c u := lifted (uf_IO c u) |}.

#[local] Instance beside_files : ManagerFiles (Tables * Recorder) :=
  {| mf_RemoveAll p := lifted (mf_RemoveAll p); mf_ReadLoadAvg := lifted mf_ReadLoadAvg |}.

#[local] Instance beside_env : Env (Tables * Recorder) := {| env_clock := lifted_clock; env_oor _ := 0 |}.

#[local] Instance beside_site : Site (Tables * Recorder) :=
  {| os_Getenv _ := ""; url_Parse _ := None; os_StatInfo _ := mret (Ok (0, 8192)) |}.

Lemma beside_apart : Apart (W := Tables * Recorder).
Proof. split; by intros []. Qed.

Definition history_server : Server := mkServer (mkMcpConfig true "stdio" 1969 "" "INFO" "" false) (DefaultConfig None) true None false [].

(** At 9 in universal time. *)
Definition morning : StateManager * (Tables * Recorder) :=
  (NewStateManager (DefaultConfig None) true, (june_tables, site (june 1 9 0) 8 [])).

#[local] Instance june_database : MCPTools.MetricsDB (Tables * Recorder) := database_queries "/var/lib/resman/metrics.db".

Lemma morning_holds : holds samples [] morning.2.
Proof. exact june_holds. Qed.

(** Two samples of the last hour. *)
Example morning_count :
  match eval (handleGetUserHistory history_server (last_hours 1000 1 0)) morning with Ok a => hr_Count a | Err _ => 0 end = 2.
Proof. by vm_compute. Qed.

