(* ===== verification/Logger.v ===== *)
(** * The logger
      (logging/logger.go)

    The loggers are the cells of a store, since [WithField] makes a second one
    that shares the underlying [log.Logger]; that one is a cell of [outputs].
    The mutex of a logger is the flag [l_locked].  A call is atomic; it finds
    the mutex held when the call that holds it is itself blocked, hence for
    ever: [Blocked].  Opening, closing and measuring log files, the streams and
    syslog are the class [LogHost]. *)

From S2P Require Import Prelude GoStrings GoNumbers Calendar GoAny Config OS StateBase.

#[local] Open Scope Z_scope.

(** ** Data *)

Inductive LogLevel := DEBUG | INFO | WARN | ERROR.

#[export] Instance LogLevel_eq_dec : EqDecision LogLevel.
Proof. solve_decision. Defined.

(** The integers of [iota]. *)
Definition level_int (level : LogLevel) : Z :=
  match level with DEBUG => 0 | INFO => 1 | WARN => 2 | ERROR => 3 end.

Definition levelNames (level : LogLevel) : string :=
  match level with DEBUG => "DEBUG" | INFO => "INFO" | WARN => "WARN" | ERROR => "ERROR" end.

Definition parseLogLevel (level : string) : LogLevel :=
  if String.eqb level "DEBUG" then DEBUG
  else if String.eqb level "WARN" then WARN
  else if String.eqb level "ERROR" then ERROR
  else INFO.

(** Where a [log.Logger] writes: an open file by its handle. *)
Inductive Sink :=
  | Stdout
  | SyslogStream
  | LogFile (handle : Z).

(** [std_Printf]: the standard logger, on stderr.  [format_v]: the verb [%v].
    [range_fields]: a loop over a map of fields, in the order of the runtime. *)
Class LogHost (W : Type) := {
  file_Open : string -> ST W (result Z);
  file_Size : Z -> ST W (result Z);
  file_Close : Z -> ST W (option error);
  sink_Write : Sink -> string -> ST W unit;
  std_Printf : string -> ST W unit;
  syslog_New : ST W (option error);
  syslog_Write : LogLevel -> string -> ST W unit;
  syslog_Close : ST W (option error);
  format_v : Any -> string;
  range_fields : gmap string Any -> ST W (list (string * Any))
}.

(** [l_logger]: the index of the [log.Logger] among the outputs. *)
Record Logger := mkLogger {
  l_level : LogLevel;
  l_file : option Z;
  l_filePath : string;
  l_maxSize : Z;
  l_logger : nat;
  l_lastRotation : Time;
  l_UseSyslog : bool;
  l_syslogWriter : bool;
  l_fields : gmap string Any;
  l_locked : bool
}.

Definition Logger_eta (l : Logger) : Logger :=
  mkLogger (l_level l) (l_file l) (l_filePath l) (l_maxSize l) (l_logger l) (l_lastRotation l) (l_UseSyslog l)
    (l_syslogWriter l) (l_fields l) (l_locked l).

Definition set_l_level : LogLevel -> Logger -> Logger := ltac:(setter Logger_eta l_level).

Definition set_l_file : option Z -> Logger -> Logger := ltac:(setter Logger_eta l_file).

Definition set_l_logger : nat -> Logger -> Logger := ltac:(setter Logger_eta l_logger).

Definition set_l_lastRotation : Time -> Logger -> Logger := ltac:(setter Logger_eta l_lastRotation).

Definition set_l_fields : gmap string Any -> Logger -> Logger := ltac:(setter Logger_eta l_fields).

Definition set_l_locked : bool -> Logger -> Logger := ltac:(setter Logger_eta l_locked).

(** [sync.Once]. *)
Inductive Once := Fresh | Running | Done.

(** The package: its objects and its variables. *)
Record Logs := mkLogs {
  loggers : list Logger;
  outputs : list Sink;
  currentLogger : option nat;
  once : Once
}.

(** What a fresh process starts with. *)
Definition no_logs : Logs := mkLogs [] [] None Fresh.

(** A logger that nobody points to. *)
Definition nobody : Logger := mkLogger INFO None "" 0 0 0 false false ∅ false.

Definition logger_at (l : nat) (s : Logs) : Logger := default nobody (loggers s !! l).

(** ** Operations *)

Section Logging.
Context {W : Type} `{H : LogHost W} `{O : OS W} `{C : Clock W} `{Zn : Zones}.

Definition LG (A : Type) : Type := ST (Logs * W) A.

Definition logs {A} (f : Logs -> A) : LG A := fun s => (f s.1, s).

Definition alter_logs (f : Logs -> Logs) : LG unit := modify (fun '(s, w) => (f s, w)).

Definition host {A} (m : ST W A) : LG A := fun '(s, w) => let '(a, w') := m w in (a, (s, w')).

Definition self (l : nat) : LG Logger := logs (logger_at l).

Definition alter_self (l : nat) (f : Logger -> Logger) : LG unit :=
  alter_logs (fun s => mkLogs (alter f l (loggers s)) (outputs s) (currentLogger s) (once s)).

(** [log.New]. *)
Definition log_New (out : Sink) : LG nat := fun '(s, w) =>
  (length (outputs s), (mkLogs (loggers s) (outputs s ++ [out]) (currentLogger s) (once s), w)).

Definition SetOutput (out : nat) (to : Sink) : LG unit :=
  alter_logs (fun s => mkLogs (loggers s) (<[out := to]> (outputs s)) (currentLogger s) (once s)).

(** A composite literal [&Logger{...}]. *)
Definition new_logger (lg : Logger) : LG nat := fun '(s, w) =>
  (length (loggers s), (mkLogs (loggers s ++ [lg]) (outputs s) (currentLogger s) (once s), w)).

(** [Println] of the logger in the cell [out]. *)
Definition Println (out : nat) (line : string) : LG unit :=
  logs (fun s => outputs s !! out) ≫= fun to =>
  host (match to with Some to => sink_Write to (line +:+ String newline "") | None => mret tt end).

(** The next call, unless the one before blocked. *)
Definition andThen {A B} (m : LG (blocking A)) (k : A -> LG (blocking B)) : LG (blocking B) :=
  m ≫= fun r => match r with Returned a => k a | Blocked => mret Blocked end.

(** [l.mu.Lock(); defer l.mu.Unlock()] around a body. *)
Definition with_lock {A} (l : nat) (body : LG (blocking A)) : LG (blocking A) :=
  self l ≫= fun lg =>
  if l_locked lg then mret Blocked
  else
    alter_self l (set_l_locked true) ≫= fun _ =>
    andThen body (fun a => alter_self l (set_l_locked false) ≫= fun _ => mret (Returned a)).

Definition shouldLog (lg : Logger) (level : LogLevel) : bool := level_int (l_level lg) <=? level_int level.

(** The pairs of [keyvals]; an odd last one has no value. *)
Fixpoint pairs_text (keyvals : list Any) : string :=
  match keyvals with
  | [] => ""
  | [k] => " " +:+ format_v k +:+ "="
  | k :: v :: rest => " " +:+ format_v k +:+ "=" +:+ format_v v +:+ pairs_text rest
  end.

Definition fields_text (fields : list (string * Any)) : string :=
  foldl (fun text p => text +:+ (" " +:+ p.1 +:+ "=" +:+ format_v p.2)) "" fields.

Definition log_line (now : Time) (level : LogLevel) (msg : string) (fields : list (string * Any)) (keyvals : list Any) : string :=
  "[" +:+ format_datetime (shown now) +:+ "] [" +:+ levelNames level +:+ "] " +:+ msg +:+ fields_text fields +:+ pairs_text keyvals.

Section Rotation.
(** [logInternal], which logs the rotation. *)
Variable logInternal : LogLevel -> string -> list Any -> LG (blocking unit).

Definition reopen (l : nat) (filePath : string) : LG (blocking unit) :=
  host (file_Open filePath) ≫= fun file =>
  match file with
  | Err e =>
      host (std_Printf ("ERROR: Failed to reopen log file after rotation: " +:+ e)) ≫= fun _ =>
      log_New Stdout ≫= fun out =>
      alter_self l (fun lg => set_l_logger out (set_l_file None lg)) ≫= fun _ => mret (Returned tt)
  | Ok file =>
      alter_self l (set_l_file (Some file)) ≫= fun _ =>
      self l ≫= fun lg =>
      SetOutput (l_logger lg) (LogFile file) ≫= fun _ =>
      logInternal INFO "Log rotated due to size limit" []
  end.

Definition rotateLog (l : nat) : LG (blocking unit) :=
  self l ≫= fun lg =>
  host (match l_file lg with Some file => file_Close file | None => mret None end) ≫= fun _ =>
  let backupPath := l_filePath lg +:+ ".1" in
  host (os_Stat backupPath) ≫= fun st =>
  host (match st with None => os_Remove backupPath | Some _ => mret None end) ≫= fun _ =>
  host (os_Rename (l_filePath lg) backupPath) ≫= fun rn =>
  host (match rn with Some e => std_Printf ("ERROR: Failed to rotate log file: " +:+ e) | None => mret tt end) ≫= fun _ =>
  reopen l (l_filePath lg).

Definition checkAndRotate (l : nat) (file : Z) : LG (blocking unit) :=
  self l ≫= fun lg =>
  host time_Now ≫= fun now =>
  if time_sub now (l_lastRotation lg) <? second then mret (Returned tt)
  else
    host time_Now ≫= fun now =>
    alter_self l (set_l_lastRotation now) ≫= fun _ =>
    host (file_Size file) ≫= fun info =>
    match info with
    | Err _ => mret (Returned tt)
    | Ok size => if l_maxSize lg <? size then rotateLog l else mret (Returned tt)
    end.

(** [logInternal] once the level is high enough and the mutex is held. *)
Definition log_body (l : nat) (level : LogLevel) (msg : string) (keyvals : list Any) : LG (blocking unit) :=
  self l ≫= fun lg =>
  host time_Now ≫= fun now =>
  host (range_fields (l_fields lg)) ≫= fun fields =>
  let logMsg := log_line now level msg fields keyvals in
  if l_UseSyslog lg && l_syslogWriter lg then host (syslog_Write level logMsg) ≫= fun _ => mret (Returned tt)
  else
    Println (l_logger lg) logMsg ≫= fun _ =>
    match l_file lg with Some file => checkAndRotate l file | None => mret (Returned tt) end.

End Rotation.

(** [depth]: how many calls may be open. *)
Fixpoint log_open (depth : nat) (l : nat) (level : LogLevel) (msg : string) (keyvals : list Any) : LG (blocking unit) :=
  match depth with
  | 0%nat => mret Blocked
  | S depth =>
      self l ≫= fun lg =>
      if negb (shouldLog lg level) then mret (Returned tt)
      else with_lock l (log_body (log_open depth l) l level msg keyvals)
  end.

(** A call within a call stops at the mutex ([log_depth]). *)
Definition logInternal : nat -> LogLevel -> string -> list Any -> LG (blocking unit) := log_open 2.

Definition createStdoutLogger (level : LogLevel) : LG nat :=
  log_New Stdout ≫= fun out => new_logger (mkLogger level None "" 0 out 0 false false ∅ false).

(** Make a logger the global one. *)
Definition use_logger (l : nat) : LG unit :=
  alter_logs (fun s => mkLogs (loggers s) (outputs s) (Some l) (once s)).

Definition fall_back (message : string) (level : LogLevel) : LG (blocking unit) :=
  host (std_Printf message) ≫= fun _ => createStdoutLogger level ≫= fun l => use_logger l ≫= fun _ => mret (Returned tt).

Definition init_syslog (level : LogLevel) : LG (blocking unit) :=
  host syslog_New ≫= fun err =>
  match err with
  | Some e => fall_back ("ERROR: Failed to initialize syslog: " +:+ e) level
  | None =>
      log_New SyslogStream ≫= fun out =>
      new_logger (mkLogger level None "" 0 out 0 true true ∅ false) ≫= fun l =>
      use_logger l ≫= fun _ =>
      logInternal l INFO "Logger initialized (syslog)" [AString "level"; AString (levelNames level); AString "syslog"; ABool true]
  end.

Definition init_file (level : LogLevel) (filePath : string) (maxSize : Z) : LG (blocking unit) :=
  host (os_MkdirAll (filepath_Dir filePath)) ≫= fun mk =>
  match mk with
  | Some e => fall_back ("ERROR: Failed to create log directory: " +:+ e) level
  | None =>
      host (file_Open filePath) ≫= fun file =>
      match file with
      | Err e => fall_back ("ERROR: Failed to open log file " +:+ filePath +:+ ": " +:+ e) level
      | Ok file =>
          log_New (LogFile file) ≫= fun out =>
          host time_Now ≫= fun now =>
          new_logger (mkLogger level (Some file) filePath maxSize out now false false ∅ false) ≫= fun l =>
          use_logger l ≫= fun _ =>
          logInternal l INFO "Logger initialized"
            [AString "level"; AString (levelNames level); AString "file"; AString filePath;
             AString "max_size"; AString (Itoa maxSize +:+ " bytes")]
      end
  end.

Definition set_once (o : Once) : LG unit := alter_logs (fun s => mkLogs (loggers s) (outputs s) (currentLogger s) o).

Definition InitLogger (level filePath : string) (maxSize : Z) (useSyslog : bool) : LG (blocking unit) :=
  logs once ≫= fun o =>
  match o with
  | Done => mret (Returned tt)
  | Running => mret Blocked
  | Fresh =>
      set_once Running ≫= fun _ =>
      let logLevel := parseLogLevel level in
      andThen (if useSyslog then init_syslog logLevel else init_file logLevel filePath maxSize)
        (fun _ => set_once Done ≫= fun _ => mret (Returned tt))
  end.

Definition GetLogger : LG (blocking (option nat)) :=
  logs currentLogger ≫= fun current =>
  andThen (match current with
           | None => InitLogger "INFO" "/var/log/resman.log" (10 * 1024 * 1024) false
           | Some _ => mret (Returned tt)
           end) (fun _ => logs currentLogger ≫= fun current => mret (Returned current)).

Definition Debug (l : nat) (msg : string) (keyvals : list Any) : LG (blocking unit) := logInternal l DEBUG msg keyvals.

Definition Info (l : nat) (msg : string) (keyvals : list Any) : LG (blocking unit) := logInternal l INFO msg keyvals.

Definition Warn (l : nat) (msg : string) (keyvals : list Any) : LG (blocking unit) := logInternal l WARN msg keyvals.

Definition Error (l : nat) (msg : string) (keyvals : list Any) : LG (blocking unit) := logInternal l ERROR msg keyvals.

(** The file and the [log.Logger] are shared, the mutex and the time of the
    last rotation are not. *)
Definition WithField (l : nat) (key : string) (value : Any) : LG (blocking nat) :=
  with_lock l (self l ≫= fun lg =>
    new_logger (set_l_locked false (set_l_fields (<[key := value]> (l_fields lg)) lg)) ≫= fun l' => mret (Returned l')).

Definition SetLevel (l : nat) (level : string) : LG (blocking unit) :=
  with_lock l (alter_self l (set_l_level (parseLogLevel level)) ≫= fun _ => mret (Returned tt)).

Definition logger_Close (l : nat) : LG (blocking (option error)) :=
  with_lock l (self l ≫= fun lg =>
    (if l_UseSyslog lg && l_syslogWriter lg then host syslog_Close
     else match l_file lg with Some file => host (file_Close file) | None => mret None end) ≫= fun err =>
    mret (Returned err)).

End Logging.
