(* ===== verification/LoggerFacts.v ===== *)
(** * Properties of the logger *)

From S2P Require Import Prelude GoStrings GoNumbers Calendar GoAny Config OS StateBase Recorder Logger.

#[local] Open Scope Z_scope.

(** ** The mutex *)

Definition exists_logger (l : nat) (s : Logs) : Prop := (l < length (loggers s))%nat.

(** The logger is there, has the settings [P], and its mutex is held or free. *)
Definition has (l : nat) (locked : bool) (P : Logger -> Prop) (s : Logs) : Prop :=
  exists_logger l s /\ l_locked (logger_at l s) = locked /\ P (logger_at l s).

(** What an update of a logger may not change. *)
Definition keeps (P : Logger -> Prop) (f : Logger -> Logger) : Prop :=
  (forall lg, l_locked (f lg) = l_locked lg) /\ forall lg, P lg -> P (f lg).

Lemma logger_at_alter l f s o c n : exists_logger l s -> logger_at l (mkLogs (alter f l (loggers s)) o c n) = f (logger_at l s).
Proof.
  intros Hl. unfold logger_at. cbn [loggers]. destruct (lookup_lt_is_Some_2 _ _ Hl) as [lg Hg].
  by rewrite list_lookup_alter_eq, Hg.
Qed.

Lemma has_alter l b P f s o c n : keeps P f -> has l b P s -> has l b P (mkLogs (alter f l (loggers s)) o c n).
Proof.
  intros [Hf1 Hf2] (Hl & Hb & HP). unfold has. rewrite logger_at_alter, Hf1 by done. split_and!; [|done|by apply Hf2].
  unfold exists_logger. cbn. by rewrite length_alter.
Qed.

Lemma has_locked l b b' P s o c n : (forall lg, P lg -> P (set_l_locked b' lg)) -> has l b P s ->
  has l b' P (mkLogs (alter (set_l_locked b') l (loggers s)) o c n).
Proof.
  intros Hf (Hl & Hb & HP). unfold has. rewrite logger_at_alter by done. split_and!; [|done|by apply Hf].
  unfold exists_logger. cbn. by rewrite length_alter.
Qed.

Section Steps.
Context {W : Type} `{H : LogHost W} `{O : OS W} `{C : Clock W} `{Zn : Zones}.

Lemma wp_self l (Q : Logger -> Logs * W -> Prop) s : Q (logger_at l s.1) s -> wp (self l) Q s.
Proof. done. Qed.

Lemma wp_host {A} (m : ST W A) (Q : A -> Logs * W -> Prop) s : wp m (fun a w => Q a (s.1, w)) s.2 -> wp (host m) Q s.
Proof. unfold wp, host. destruct s as [x w]. cbn. by destruct (m w). Qed.

Lemma wp_alter_self l f (Q : unit -> Logs * W -> Prop) s :
  Q tt (mkLogs (alter f l (loggers s.1)) (outputs s.1) (currentLogger s.1) (once s.1), s.2) -> wp (alter_self l f) Q s.
Proof. by destruct s. Qed.

(** The operations of the logger, but for its mutex, maintain [has]. *)
Section Maintained.
Variables (l : nat) (P : Logger -> Prop).

Definition held (s : Logs * W) : Prop := has l true P s.1.

Lemma held_host {A} (m : ST W A) : preserves held (host m).
Proof. intros [s w] Hs. unfold exec, host, held in *. by destruct (m w). Qed.

Lemma held_logs {A} (f : Logs -> A) : preserves held (logs f).
Proof. by intros s Hs. Qed.

Lemma held_alter f : keeps P f -> preserves held (alter_self l f).
Proof. intros Hf [s w] Hs. by apply has_alter. Qed.

Lemma held_log_New out : preserves held (log_New out).
Proof. by intros [s w] Hs. Qed.

Lemma held_SetOutput out to : preserves held (SetOutput out to).
Proof. by intros [s w] Hs. Qed.

Lemma held_Println out line : preserves held (Println out line).
Proof. apply preserves_bind; [apply held_logs|]. intros to. apply held_host. Qed.

End Maintained.

(** Two computations that agree where the mutex is held. *)
Definition agree {A} (l : nat) (m1 m2 : LG A) : Prop := forall s : Logs * W, held l (fun _ => True) s -> m1 s = m2 s.

Lemma agree_refl {A} l (m : LG A) : agree l m m.
Proof. done. Qed.

Lemma agree_bind {A B} l (m : LG A) (f1 f2 : A -> LG B) :
  preserves (held l (fun _ => True)) m -> (forall a, agree l (f1 a) (f2 a)) -> agree l (m ≫= f1) (m ≫= f2).
Proof.
  intros Hm Hf s Hs. specialize (Hm s Hs). unfold mbind, ST_bind, exec in *. destruct (m s) as [a s']. by apply Hf.
Qed.

Lemma open_step n l level msg kvs :
  log_open (S n) l level msg kvs =
  self l ≫= fun lg => if negb (shouldLog lg level) then mret (Returned tt) else with_lock l (log_body (log_open n l) l level msg kvs).
Proof. done. Qed.

(** A call made while the mutex is held returns without effect or blocks. *)
Lemma open_held n l level msg kvs (s : Logs * W) : held l (fun _ => True) s ->
  log_open (S n) l level msg kvs s = (if shouldLog (logger_at l s.1) level then Blocked else Returned tt, s).
Proof.
  intros (_ & Hb & _). cbn. unfold mbind, ST_bind, self, logs. cbn. destruct (shouldLog _ _); [|done].
  cbn. unfold with_lock, self, logs, mbind, ST_bind. cbn. by rewrite Hb.
Qed.

Lemma agree_open n1 n2 l level msg kvs : agree l (log_open (S n1) l level msg kvs) (log_open (S n2) l level msg kvs).
Proof. intros s Hs. by rewrite !open_held. Qed.

Lemma keeps_any f : (forall lg, l_locked (f lg) = l_locked lg) -> keeps (fun _ => True) f.
Proof. by split. Qed.

Ltac agreeing :=
  repeat match goal with
  | |- agree _ ?m ?m => apply agree_refl
  | |- agree _ (log_open _ _ _ _ _) _ => apply agree_open
  | |- agree _ (_ ≫= _) (_ ≫= _) => apply agree_bind; [|intros ?]
  | |- agree _ (match ?x with _ => _ end) _ => destruct x
  | |- preserves _ (host _) => apply held_host
  | |- preserves _ (self _) => apply held_logs
  | |- preserves _ (Println _ _) => apply held_Println
  | |- preserves _ (SetOutput _ _) => apply held_SetOutput
  | |- preserves _ (alter_self _ _) => apply held_alter, keeps_any; intros
  end.

Lemma agree_body n1 n2 l level msg kvs :
  agree l (log_body (log_open (S n1) l) l level msg kvs) (log_body (log_open (S n2) l) l level msg kvs).
Proof. unfold log_body, checkAndRotate, rotateLog, reopen. cbn zeta. agreeing; done. Qed.

(** ** Rules *)

(** Settings that logging may not change. *)
Definition lasting (P : Logger -> Prop) : Prop :=
  forall lg, P lg -> (forall t, P (set_l_lastRotation t lg)) /\ (forall f, P (set_l_file f lg)) /\ (forall o, P (set_l_logger o lg)) /\
    (forall b, P (set_l_locked b lg)).

Lemma lasting_level (P : LogLevel -> Prop) : lasting (fun lg => P (l_level lg)).
Proof. intros lg Hlg. split_and!; intros; exact Hlg. Qed.

Lemma wp_maintained {A} (P : Logs * W -> Prop) (m : LG A) (Q : A -> Logs * W -> Prop) s :
  preserves P m -> P s -> (forall a s', P s' -> Q a s') -> wp m Q s.
Proof. intros Hm Hs HQ. apply HQ. by apply (Hm s). Qed.

Lemma wp_andThen {A B} (m : LG (blocking A)) (k : A -> LG (blocking B)) (Q : blocking B -> Logs * W -> Prop) s :
  wp m (fun r s' => match r with Returned a => wp (k a) Q s' | Blocked => Q Blocked s' end) s -> wp (andThen m k) Q s.
Proof. intros Hm. apply wp_bind. eapply wp_mono; [|exact Hm]. by intros [a|] s'. Qed.

Lemma wp_with_lock {A} l P (body : LG (blocking A)) (Q : blocking A -> Logs * W -> Prop) s :
  lasting P -> has l false P s.1 ->
  (forall s1, held l P s1 -> s1.2 = s.2 -> outputs s1.1 = outputs s.1 -> logger_at l s1.1 = set_l_locked true (logger_at l s.1) ->
     wp body (fun r s' => held l P s' /\
       match r with
       | Returned a => forall s2, has l false P s2.1 -> s2.2 = s'.2 -> outputs s2.1 = outputs s'.1 ->
                       logger_at l s2.1 = set_l_locked false (logger_at l s'.1) -> Q (Returned a) s2
       | Blocked => Q Blocked s'
       end) s1) ->
  wp (with_lock l body) Q s.
Proof.
  intros HP Hs Hbody. unfold with_lock. apply wp_bind, wp_self. destruct (Hs) as (Hl & -> & _).
  apply wp_bind, wp_alter_self, wp_andThen. eapply wp_mono; [|apply Hbody; cbn [fst snd]; [|done|done|by apply logger_at_alter]].
  - intros [a|] s' [Hh HQ]; [|done]. apply wp_bind, wp_alter_self, wp_ret, HQ; cbn [fst snd]; [|done|done|by apply logger_at_alter, Hh].
    eapply has_locked, Hh. intros lg Hlg. by apply HP.
  - eapply has_locked, Hs. intros lg Hlg. by apply HP.
Qed.

(** Step through the code of a logger with settings [P], whose mutex is held. *)
Ltac log_steps HP :=
  repeat match goal with
  | |- wp (mret _) _ _ => by apply wp_ret
  | |- wp (_ ≫= _) _ _ => apply wp_bind
  | |- wp (self _) _ _ => apply wp_self
  | Hs : held _ _ ?s |- wp (host _) _ ?s => eapply wp_maintained; [apply held_host|exact Hs|intros ? ? ?]
  | Hs : held _ _ ?s |- wp (Println _ _) _ ?s => eapply wp_maintained; [apply held_Println|exact Hs|intros ? ? ?]
  | Hs : held _ _ ?s |- wp (SetOutput _ _) _ ?s => eapply wp_maintained; [apply held_SetOutput|exact Hs|intros ? ? ?]
  | Hs : held _ _ ?s |- wp (log_New _) _ ?s => eapply wp_maintained; [apply held_log_New|exact Hs|intros ? ? ?]
  | Hs : held ?l ?P ?s |- wp (alter_self _ _) _ ?s =>
      eapply wp_maintained; [apply (held_alter l P); split; [done|intros lg Hlg; repeat apply HP; exact Hlg]|exact Hs|intros ? ? ?]
  | |- wp (match ?x with _ => _ end) _ _ => destruct x
  end.

(** [log_body] returns, or ends as the nested call does. *)
Lemma wp_log_body l P (R : blocking unit -> Prop) rec level msg kvs s :
  lasting P -> R (Returned tt) ->
  (forall s', held l P s' -> wp (rec INFO "Log rotated due to size limit" []) (fun r s' => held l P s' /\ R r) s') ->
  held l P s -> wp (log_body rec l level msg kvs) (fun r s' => held l P s' /\ R r) s.
Proof.
  intros HP HR Hrec Hs. unfold log_body, checkAndRotate, rotateLog, reopen. cbn zeta. log_steps HP. by apply Hrec.
Qed.

(** Without a file, or with syslog, it has nothing to rotate. *)
Lemma wp_log_unrotated l rec level msg kvs s :
  (let lg := logger_at l s.1 in l_file lg = None \/ l_UseSyslog lg && l_syslogWriter lg = true) ->
  held l (fun _ => True) s -> wp (log_body rec l level msg kvs) (fun r s' => held l (fun _ => True) s' /\ r = Returned tt) s.
Proof.
  intros Hq Hs. unfold log_body. cbn zeta in *. apply wp_bind, wp_self.
  destruct (_ && _); [|destruct Hq as [->|]; [|done]]; log_steps I.
Qed.

End Steps.

(** ** Properties *)

Section Properties.
Context {W : Type} `{H : LogHost W} `{O : OS W} `{C : Clock W} `{Zn : Zones}.

(** A call of the logger inside a call never goes further than the mutex: two
    levels of calls give the behaviour of any greater depth. *)
Theorem log_depth n l level msg kvs (s : Logs * W) :
  exists_logger l s.1 -> log_open (S (S n)) l level msg kvs s = logInternal l level msg kvs s.
Proof.
  intros Hl. unfold logInternal. rewrite (open_step (S n)), (open_step 1). unfold mbind, ST_bind, self, logs. cbn [fst snd].
  destruct (negb _); [done|]. unfold with_lock, self, logs, mbind, ST_bind. cbn beta iota. destruct (l_locked _) eqn:Eb; [done|].
  destruct s as [s w]. unfold alter_self, alter_logs, modify, andThen, mbind, ST_bind. cbn beta iota.
  rewrite (agree_body n 0 l level msg kvs); [done|]. by apply (has_locked l false true (fun _ => True)).
Qed.

(** C37: a logger whose level is above INFO, or that has no file, or that uses
    syslog, always finishes a call and releases its mutex, whatever the files
    and the streams do. *)
Theorem log_returns l level msg kvs (s : Logs * W) :
  exists_logger l s.1 -> l_locked (logger_at l s.1) = false ->
  (let lg := logger_at l s.1 in
   level_int INFO < level_int (l_level lg) \/ l_file lg = None \/ l_UseSyslog lg && l_syslogWriter lg = true) ->
  eval (logInternal l level msg kvs) s = Returned tt /\ l_locked (logger_at l (exec (logInternal l level msg kvs) s).1) = false.
Proof.
  cbn zeta. intros Hl Hb Hq.
  change (wp (logInternal l level msg kvs) (fun r s' => r = Returned tt /\ l_locked (logger_at l s'.1) = false) s).
  unfold logInternal. rewrite (open_step 1). apply wp_bind, wp_self. destruct (negb _); [by apply wp_ret|]. destruct Hq as [Hq|Hq].
  - set (P := fun lg => level_int INFO < level_int (l_level lg)).
    assert (lasting P) as HP by (apply (lasting_level (fun v => level_int INFO < level_int v))).
    apply (wp_with_lock l P); [done|by unfold has; split_and!|].
    intros s1 Hs1 _ _ _. eapply wp_mono; [|eapply (wp_log_body l P (eq (Returned tt))); [done|done| |exact Hs1]].
    + intros r s' [Hs' <-]. split; [done|]. intros s2 Hs2 _ _ _. split; [done|apply Hs2].
    + intros s' Hs'. unfold wp. rewrite open_held by (by destruct Hs' as (? & ? & _)). split; [done|].
      cbn [fst]. unfold shouldLog. destruct (Z.leb_spec (level_int (l_level (logger_at l s'.1))) (level_int INFO)); [|done].
      destruct Hs' as (_ & _ & Hs'). unfold P in Hs'. lia.
  - apply (wp_with_lock l (fun _ => True)); [done|by unfold has; split_and!|].
    intros s1 Hs1 _ _ Hlg. eapply wp_mono; [|apply wp_log_unrotated; [cbn zeta; by rewrite Hlg|exact Hs1]].
    intros r s' [Hs' ->]. split; [done|]. intros s2 Hs2 _ _ _. split; [done|apply Hs2].
Qed.

End Properties.

(** ** A file system with open files
    (handles and the files they stand for; a renamed file keeps its handles) *)

Record Volume := mkVolume {
  v_now : Time;
  v_paths : gmap string Z;
  v_data : gmap Z string;
  v_open : gmap Z Z;
  v_next : Z;
  v_stderr : string
}.

Definition v_append (i : Z) (text : string) (v : Volume) : Volume :=
  mkVolume (v_now v) (v_paths v) (alter (fun d => d +:+ text) i (v_data v)) (v_open v) (v_next v) (v_stderr v).

Definition v_set_paths (paths : gmap string Z) (v : Volume) : Volume :=
  mkVolume (v_now v) paths (v_data v) (v_open v) (v_next v) (v_stderr v).

Definition v_set_open (o : gmap Z Z) (v : Volume) : Volume :=
  mkVolume (v_now v) (v_paths v) (v_data v) o (v_next v) (v_stderr v).

(** A new handle, on a new file when the path names none. *)
Definition v_reopen (path : string) (v : Volume) : Volume :=
  let n := v_next v in
  match v_paths v !! path with
  | Some i => mkVolume (v_now v) (v_paths v) (v_data v) (<[n := i]> (v_open v)) (n + 1) (v_stderr v)
  | None => mkVolume (v_now v) (<[path := n]> (v_paths v)) (<[n := ""]> (v_data v)) (<[n := n]> (v_open v)) (n + 1) (v_stderr v)
  end.

#[export] Instance volume_log : LogHost Volume := {|
  file_Open path v := (Ok (v_next v), v_reopen path v);
  file_Size h v := (match v_open v !! h with
                    | Some i => Ok (Z.of_nat (String.length (default "" (v_data v !! i))))
                    | None => Err "file already closed"
                    end, v);
  file_Close h v := (None, v_set_open (delete h (v_open v)) v);
  sink_Write to text v := (tt, match to with
                               | LogFile h => match v_open v !! h with Some i => v_append i text v | None => v end
                               | _ => v
                               end);
  std_Printf text v := (tt, mkVolume (v_now v) (v_paths v) (v_data v) (v_open v) (v_next v) (v_stderr v +:+ text));
  syslog_New v := (Some "no syslog", v);
  syslog_Write _ _ v := (tt, v);
  syslog_Close v := (None, v);
  format_v a := match a with AString s => s | AInt n => Itoa n | ABool b => format_bool b | _ => "?" end;
  range_fields fields v := (map_to_list fields, v)
|}.

#[export] Instance volume_os : OS Volume := {|
  os_ReadFile _ := mret (Err ENOENT);
  os_WriteFile _ _ := mret (Some ENOENT);
  os_AppendFile _ _ := mret (Some ENOENT);
  os_Stat path v := (match v_paths v !! path with Some _ => None | None => Some ENOENT end, v);
  os_ReadDir _ := mret (Err ENOENT);
  os_Mkdir _ := mret None;
  os_MkdirAll _ := mret None;
  os_Remove path v := (None, v_set_paths (delete path (v_paths v)) v);
  os_RemoveAll _ := mret None;
  os_Rename old new v := match v_paths v !! old with
                         | Some i => (None, v_set_paths (<[new := i]> (delete old (v_paths v))) v)
                         | None => (Some ENOENT, v)
                         end;
  os_Chmod _ := mret None
|}.

#[export] Instance volume_clock : Clock Volume := {| time_Now v := (v_now v, v); local_time _ := utc |}.

Section Rotating.
Context `{Zn : Zones}.

(** The logger writes into the file at its path, whose contents are [data]. *)
Record writing (l : nat) (h i : Z) (data : string) (s : Logs * Volume) : Prop := {
  wr_file : l_file (logger_at l s.1) = Some h;
  wr_stream : l_UseSyslog (logger_at l s.1) = false;
  wr_output : outputs s.1 !! l_logger (logger_at l s.1) = Some (LogFile h);
  wr_open : v_open s.2 !! h = Some i;
  wr_data : v_data s.2 !! i = Some data;
  wr_path : v_paths s.2 !! l_filePath (logger_at l s.1) = Some i;
  wr_fresh : i < v_next s.2
}.

(** The next line is followed by a rotation. *)
Definition rotation_due (l : nat) (data : string) (s : Logs * Volume) : Prop :=
  second <= time_sub (v_now s.2) (l_lastRotation (logger_at l s.1)) /\ l_maxSize (logger_at l s.1) < Z.of_nat (String.length data).

(** A file was moved to the backup path, and the logger writes into a new one. *)
Definition rotated (l : nat) (lg : Logger) (i : Z) (data : string) (s : Logs * Volume) : Prop :=
  exists n, n <> i /\ v_paths s.2 !! (l_filePath lg +:+ ".1") = Some i /\ v_data s.2 !! i = Some data /\
    v_paths s.2 !! l_filePath lg = Some n /\ v_data s.2 !! n = Some "" /\ v_open s.2 !! n = Some n /\
    l_file (logger_at l s.1) = Some n /\ outputs s.1 !! l_logger lg = Some (LogFile n).

Lemma backup_ne path : path +:+ ".1" <> path.
Proof. by apply append_longer. Qed.

(** Rotation ends in the nested call. *)
Lemma rotateLog_volume rec l P lg i data (s : Logs * Volume) (Q : blocking unit -> Logs * Volume -> Prop) :
  lasting P -> held l P s -> logger_at l s.1 = lg -> is_Some (outputs s.1 !! l_logger lg) ->
  v_paths s.2 !! l_filePath lg = Some i -> v_data s.2 !! i = Some data -> i < v_next s.2 ->
  (forall s', held l P s' -> rotated l lg i data s' -> wp (rec INFO "Log rotated due to size limit" []) Q s') ->
  wp (rotateLog rec l) Q s.
Proof.
  intros HP Hs Hlg Hout Hp Hd Hn HQ. destruct s as [s v]. cbn [fst snd] in *. unfold rotateLog.
  apply wp_bind, wp_self. cbn [fst]. rewrite Hlg. apply wp_bind, wp_host. cbn [fst snd].
  apply (wp_mono _ (fun _ v1 => v_paths v1 = v_paths v /\ v_data v1 = v_data v /\ v_next v1 = v_next v)); [|by destruct (l_file lg)].
  intros _ v1 (E1 & E2 & E3). cbn zeta. apply wp_bind, wp_host, wp_bind, wp_host. cbn [fst snd].
  apply (wp_mono _ (fun _ v2 => v_paths v2 !! l_filePath lg = Some i /\ v_data v2 = v_data v /\ v_next v2 = v_next v)).
  2:{ unfold wp. cbn. destruct (v_paths v1 !! _); cbn; rewrite ?lookup_delete_ne by apply backup_ne; by rewrite E1. }
  intros _ v2 (F1 & F2 & F3). apply wp_bind, wp_host. unfold wp at 1. cbn [os_Rename volume_os fst snd]. rewrite F1. cbn [fst snd].
  apply wp_bind, wp_host, wp_ret. unfold reopen. apply wp_bind, wp_host. unfold wp at 1. cbn [file_Open volume_log fst snd].
  unfold v_reopen. cbn [v_paths v_set_paths v_next v_data v_open v_now v_stderr].
  rewrite lookup_insert_ne, lookup_delete_eq by apply backup_ne. cbn [fst snd].
  apply wp_bind, wp_alter_self, wp_bind, wp_self. cbn [fst snd]. apply wp_bind. unfold wp at 1. cbn [SetOutput alter_logs modify fst snd].
  destruct Hs as (Hl & Hb & HPl). cbn [fst] in Hl. rewrite logger_at_alter by done. rewrite Hlg. apply HQ.
  - apply (has_alter l true P (set_l_file (Some (v_next v2)))); [split; [done|intros lg' Hlg'; by apply HP]|by split_and!].
  - exists (v_next v2). cbn [fst snd v_paths v_data v_open outputs loggers currentLogger once set_l_file l_logger].
    rewrite logger_at_alter, F2, F3 by done. rewrite (lookup_insert_ne _ (l_filePath lg)), !lookup_insert_eq by (apply not_eq_sym, backup_ne).
    split_and!; try done; [lia|rewrite lookup_insert_ne by lia; by rewrite Hd|].
    apply list_lookup_insert_eq. by eapply lookup_lt_is_Some_1.
Qed.

(** The line a call writes. *)
Definition volume_line (l : nat) (level : LogLevel) (msg : string) (kvs : list Any) (s : Logs * Volume) : string :=
  log_line (v_now s.2) level msg (map_to_list (l_fields (logger_at l s.1))) kvs +:+ String newline "".

Lemma wp_body_rotates rec l P h i data level msg kvs (s : Logs * Volume) (Q : blocking unit -> Logs * Volume -> Prop) :
  lasting P -> held l P s -> writing l h i data s -> rotation_due l data s ->
  (forall s', held l P s' -> rotated l (logger_at l s.1) i (data +:+ volume_line l level msg kvs s) s' ->
     wp (rec INFO "Log rotated due to size limit" []) Q s') ->
  wp (log_body rec l level msg kvs) Q s.
Proof.
  intros HP Hs [Hf Hst Hout Hopen Hd Hpath Hn] [Hdue Hsize] HQ. destruct s as [s v]. cbn [fst snd] in *. unfold log_body.
  apply wp_bind, wp_self, wp_bind, wp_host. unfold wp at 1. cbn [time_Now volume_clock fst snd].
  apply wp_bind, wp_host. unfold wp at 1. cbn [range_fields volume_log fst snd]. rewrite Hst, Hf. cbn [andb].
  apply wp_bind. unfold Println. apply wp_bind. unfold wp at 1, logs. cbn [fst snd]. rewrite Hout.
  apply wp_host. unfold wp at 1. cbn [sink_Write volume_log fst snd]. rewrite Hopen.
  set (line := log_line _ _ _ _ _ +:+ _). unfold checkAndRotate.
  apply wp_bind, wp_self, wp_bind, wp_host. unfold wp at 1. cbn [time_Now volume_clock v_append v_now fst snd].
  destruct (Z.ltb_spec (time_sub (v_now v) (l_lastRotation (logger_at l s))) second); [lia|].
  apply wp_bind, wp_host. unfold wp at 1. cbn [time_Now volume_clock v_append v_now fst snd].
  apply wp_bind, wp_alter_self. cbn [fst snd]. apply wp_bind, wp_host. unfold wp at 1. cbn [file_Size volume_log v_open v_data v_append fst snd].
  rewrite Hopen, lookup_alter_eq, Hd. cbn [fmap option_fmap option_map default id].
  destruct (Z.ltb_spec (l_maxSize (logger_at l s)) (Z.of_nat (String.length (data +:+ line)))); [|rewrite append_length in *; lia].
  eapply (rotateLog_volume rec l P); [done| |by apply logger_at_alter, Hs|..]; cbn [fst snd].
  - apply (has_alter l true P (set_l_lastRotation (v_now v))); [split; [done|intros lg' Hlg'; by apply HP]|done].
  - by eexists.
  - exact Hpath.
  - cbn. by rewrite lookup_alter_eq, Hd.
  - exact Hn.
  - exact HQ.
Qed.

(** C36: a log file above its size limit stops the program: at the levels DEBUG and
    INFO the logger reports the rotation through itself while it holds its own
    mutex, so the call never returns, nor does any later call on that logger. *)
Theorem rotation_blocks l h i data level msg kvs (s : Logs * Volume) :
  exists_logger l s.1 -> l_locked (logger_at l s.1) = false -> writing l h i data s -> rotation_due l data s ->
  shouldLog (logger_at l s.1) level = true -> level_int (l_level (logger_at l s.1)) <= level_int INFO ->
  let s' := exec (logInternal l level msg kvs) s in
  eval (logInternal l level msg kvs) s = Blocked /\
  (forall level' msg' kvs', shouldLog (logger_at l s.1) level' = true -> logInternal l level' msg' kvs' s' = (Blocked, s')) /\
  (forall v, eval (SetLevel l v) s' = Blocked) /\ eval (logger_Close l) s' = Blocked.
Proof.
  intros Hl Hb Hw Hd Hsh Hlv. cbn zeta. set (lv := l_level (logger_at l s.1)) in *. set (P := fun lg => l_level lg = lv).
  assert (wp (logInternal l level msg kvs) (fun r s' => r = Blocked /\ held l P s') s) as [Hr Hs'].
  { unfold logInternal. rewrite (open_step 1). apply wp_bind, wp_self. rewrite Hsh. cbn [negb].
    apply (wp_with_lock l P); [apply (lasting_level (fun v => v = lv))|by split_and!|].
    intros s1 Hs1 Hw1 Ho1 Hlg1. eapply (wp_body_rotates _ l P h i data); [apply (lasting_level (fun v => v = lv))|done|..].
    - destruct Hw. constructor; rewrite ?Hlg1, ?Hw1, ?Ho1; done.
    - unfold rotation_due. by rewrite Hlg1, Hw1.
    - intros s2 Hs2 _. unfold wp. rewrite open_held by (by destruct Hs2 as (? & ? & _)).
      assert (shouldLog (logger_at l s2.1) INFO = true) as ->; [|done]. destruct Hs2 as (_ & _ & Hs2). unfold shouldLog.
      rewrite Hs2. by apply Z.leb_le. }
  fold (eval (logInternal l level msg kvs) s) in Hr. fold (exec (logInternal l level msg kvs) s) in Hs'. split; [done|].
  set (s' := exec _ s) in *. destruct Hs' as (Hl' & Hb' & Hlv'). split_and!.
  - intros level' msg' kvs' Hsh'. unfold logInternal. rewrite open_held by done. unfold shouldLog in *. by rewrite (Hlv' : _ = l_level (logger_at l s.1)), Hsh'.
  - intros v. unfold eval, SetLevel, with_lock, self, logs, mbind, ST_bind. cbn. by rewrite Hb'.
  - unfold eval, logger_Close, with_lock, self, logs, mbind, ST_bind. cbn. by rewrite Hb'.
Qed.


End Rotating.

(** ** Witnesses: a logger of 20 bytes *)

#[local] Existing Instance greenwich.

Definition empty_volume : Volume := mkVolume (1000 * second) ∅ ∅ ∅ 1 "".

(** The program logs once more, two seconds after the start. *)
Definition two_seconds_later (s : Logs * Volume) : Logs * Volume :=
  (s.1, mkVolume (v_now s.2 + 2 * second) (v_paths s.2) (v_data s.2) (v_open s.2) (v_next s.2) (v_stderr s.2)).

Definition started_log (level : string) : Logs * Volume :=
  exec (InitLogger level "/var/log/resman.log" 20 false) (no_logs, empty_volume).

Definition small_log (level : string) : Logs * Volume := two_seconds_later (started_log level).

Definition log_data (s : Logs * Volume) : string := default "" (v_data s.2 !! 1).

(** At INFO the file already holds the first message. *)
Lemma info_writing : writing 0 1 1 (log_data (small_log "INFO")) (small_log "INFO").
Proof. by split; vm_compute. Qed.

Lemma info_due : rotation_due 0 (log_data (small_log "INFO")) (small_log "INFO").
Proof. split; by vm_compute. Qed.

Lemma log_depth_witness :
  log_open 5 0 INFO "Starting Resource Manager" [] (small_log "INFO") = logInternal 0 INFO "Starting Resource Manager" [] (small_log "INFO").
Proof. apply (log_depth 3). vm_compute. lia. Defined.

Lemma rotation_blocks_witness :
  eval (Info 0 "Starting Resource Manager" []) (small_log "INFO") = Blocked /\
  eval (Error 0 "Failed" []) (exec (Info 0 "Starting Resource Manager" []) (small_log "INFO")) = Blocked.
Proof.
  destruct (rotation_blocks 0 1 1 (log_data (small_log "INFO")) INFO "Starting Resource Manager" [] (small_log "INFO"))
    as (H1 & H2 & _); [by vm_compute; lia|by vm_compute|apply info_writing|apply info_due|by vm_compute|by vm_compute|].
  split; [exact H1|]. unfold eval, Error, Info. by rewrite (H2 ERROR).
Defined.

(** At WARN the first message is an error. *)
Definition warned : Logs * Volume := two_seconds_later (exec (Error 0 "Failed to create shared cgroup" []) (started_log "WARN")).

Lemma log_returns_witness : eval (logInternal 0 WARN "Retrying" []) warned = Returned tt.
Proof.
  apply (log_returns 0 WARN "Retrying" [] warned); [by vm_compute; lia|by vm_compute|left; by vm_compute].
Defined.

